(* ===== verification/_CoqProject ===== *)
-Q . S2P
Prelude.v
CStr.v
Interfaces.v
Pmm.v
Paging.v
Reserve.v
Kheap.v
Scheduler.v
Ipc.v
Vfs.v
Keyboard.v
Loader.v
Process.v
Tasks.v
Space.v
World.v
Tlb.v
Isolation.v
Exec.v
Syscall.v
Vga.v
Shell.v
Tables.v
Usermode.v
BootWorld.v
System.v
Commands.v
Boot.v
BootSpec.v
SpawnSpec.v
IsolationSpec.v
CommandSpec.v
Invariant.v
TaskSpec.v
