(* ===== verification/Prelude.v ===== *)
(** * MarsOS: a verification of the kernel

    MarsOS is a small 32-bit x86 kernel in C (src/kernel). It boots from a
    multiboot loader, manages physical frames, page tables and a kernel heap, runs
    kernel tasks and user processes under a round-robin scheduler, keeps files in
    memory, passes messages between processes, answers system calls and offers a
    shell on the text screen. This development translates the C functions into
    executable definitions, one for each function and with its name, and proves what
    makes each part correct.

    ** Files and what they model

    - [Prelude]: machine integers ([u32] and the wrapping operations ⊞, ⊟, ⊠),
      byte-addressed memory [mem] with little-endian words, loops with fuel, tactics
      and the hint database [mars].
    - [CStr]: the string helpers that several C files carry copies of.
    - [Interfaces]: what components promise to each other, as type classes:
      [FrameAllocator] (pmm.h as paging.c uses it), [PageMapper] (what kheap.c needs)
      and [KernelHeap] (kheap.h as scheduler.c and vfs.c use it), each with a class of
      laws. Clients are verified against the class; [Pmm], [Paging] and [Kheap]
      provide the instances. [FrameReturnOk] adds what a client needs that gives
      frames back.
    - [Pmm] (pmm.c, multiboot.h): the frame bitmap, the boot memory map.
    - [Paging] (paging.c): directories and tables in physical memory, mapping,
      translation, the user-access check, cloned and switched directories.
    - [Kheap] (kheap.c): the linked list of blocks in heap memory; [kmalloc], [kfree],
      growth.
    - [Scheduler] (scheduler.c, context_switch.s): tasks, stacks, switching.
    - [Ipc] (ipc.c), [Vfs] (vfs.c), [Keyboard] (keyboard.c).
    - [Loader] (process.c, lines 83 to 395): the MARSHEX text format, the ELF32
      loader, the built-in programs.
    - [Process] (the rest of process.c): the process table, address spaces, spawning
      and reaping; [kernel] is the state of all the components together. [Reserve]
      shows how a client of paging.c keeps frames of its own, and [Space] what address
      space a new process starts in.
    - [World]: an account of all physical frames and all address spaces together, and
      that the operations of paging.c and process.c keep it; [Isolation]: that every
      operation of the kernel keeps it, and what follows for user code; [BootWorld]:
      that it holds after booting; [SpawnSpec]: that with memory for it a user process
      is created, entered and reaped; [IsolationSpec]: the theorems on the whole machine.
    - [Tlb] (paging.c): the translation buffer of the processor and the instructions
      that keep it in step with the tables.
    - [Exec] (exec.c and timer.c), [Syscall] (syscall.c): the program registry, the
      tick counter, pointer checks and the dispatcher; [machine] is the whole state a
      system call sees.
    - [Vga] (vga.c, serial.c), [Shell] (kernel.c, lines 141 to 347 and the loop from
      line 1364): screen, serial line, the line editor with its history, the parsers.
    - [Tables] (gdt.c, interrupts.c): segment descriptors and interrupt gates as the
      processor decodes them. [Usermode] (usermode.c): the user-mode test program.
    - [System]: the state of the whole machine and a state monad over it; page faults
      and panics (paging.c, interrupts.c), the instructions that the emitted user
      programs consist of, the code of the kernel's tasks (demo_task, app_counter,
      app_writer), and what happens between two turns of the main task.
    - [Commands] (kernel.c): the self-test, the information screens, sleeping,
      rebooting and every command of [run_command]. [Boot] (kernel.c): [kernel_main]
      from the boot loader to the shell.
    - [Tasks], [BootSpec], [CommandSpec], [Invariant], [TaskSpec]: theorems about
      these; [Tasks] has the states of the tasks as the whole kernel sees them.

    ** What the theorems show

    - Memory: the frame allocator hands out no frame twice and keeps its counters
      exact, whatever its clients do in whatever order; booting reserves the kernel,
      the boot data and the modules; mapping, translating and unmapping agree and
      change one page only; a new table changes no other address space; the heap keeps
      its blocks disjoint, refines first fit on an abstract block list, grows when
      nothing fits and fails only when a page cannot be mapped, and gives back what
      was freed.
    - Tasks and processes: exactly one task runs; round robin reaches every runnable
      task; a task's frame is what [context_switch] pops; identifiers are fresh even
      when the counter wraps; a new process starts in an address space with a code page
      and a cleared stack page of its own, whatever the heap does to the page tables
      meanwhile; the table of processes stays well formed in every run,
      and the current process is the one of the running task as long as zombies are
      reaped before tasks are created.
    - The border to user code: pointer checks end and accept exactly the accessible
      ranges, strings are read only where the caller may read, and no system call of a
      user process changes memory outside the caller's own pages. The ELF loader
      writes only the code page, whatever the image says.
    - Isolation: in every state reached after booting, user code reaches the two pages
      of its own process and nothing else, no frame belongs to two processes, to a
      process and the free list, or to a process and the page tables, and a step of
      user code, store or system call, changes only frames of its process, the ping
      counter and messages from or to it, or ends it;
      reaping gives back exactly the four frames of each process that ended
      ([IsolationSpec]); with four frames to spare after booting there are such
      processes ([process_lives]). The processor never uses a remembered translation that the
      tables no longer have ([Tlb]).
    - Data: files are a finite map, messages are delivered once, scancodes decode as a
      reference decoder says, the shell's editor refines an editor of texts, numbers
      print and parse exactly, descriptors decode bit by bit to what was asked for.
    - The running system: booting within the bounds below succeeds and establishes the
      invariant of every component; from there on, with any keys and any commands,
      tasks, processes, messages, keyboard and screen stay in order until the run leaves
      the model ([Invariant]). A page fault of a user task ends that task and changes nothing
      else; a built-in user program, from the building of its image on and executed
      instruction by instruction, makes
      exactly the calls it is meant to make and ends; the main task always runs
      again while the others are kernel tasks ([TaskSpec]). write and cat are
      insertion and lookup in the map of files, sleep waits exactly as long as it
      says also when the tick count wraps, and the commands that report change only
      the screen ([CommandSpec]).

    Further theorems show where the code does not do what it means to: wrap-around at
    the top of the address space (pmm.c, paging.c), lost frames (kheap.c), an
    underflowing bound check (the ELF program headers), a zombie slot reused too early
    (scheduler.c with process.c), a line redrawn at the wrong place (the shell), a
    second system call of the user-mode test with a stale number (usermode.c), sleepms
    waiting too short, and page tables shared between address spaces on machines with
    more than 1 GiB of memory (paging.c with process.c).

    ** Modelling choices

    A [uint32_t] is a [Z] with the wrap-around written out, an array a list of its
    length, a pointer to a string the list of its bytes, a null pointer [None] or 0.
    Static variables of a file are a record; a function that changes them takes and
    returns it. Results by pointer become part of the result. Loops over an index are
    recursion or folds over the indices. Other loops use [loop] with fuel, and [None]
    if it runs out; for each of them a theorem shows the fuel is enough: the memory-map
    scan has one step for each entry that can fit, the page walks one for each page of
    the address space (2^20 + 1), the heap's list walks one for each block, the text
    parser one for each character.

    Memory is byte addressed. Page tables live in physical memory, which the kernel
    reaches at the same addresses (the identity map [paging_init] sets up). Heap memory
    is a separate array at its virtual addresses, and the static variables of the kernel
    are records: neither is part of the modelled physical memory, and the kernel's own
    accesses to them are not translated. This is faithful as long as nobody writes to
    their pages by other addresses, unmaps them or gives away their frames. Within the
    bounds below the code itself never does, but the commands [vmfault], [vmunmap] and [free] let the operator
    do so; a run in which they reach a page the kernel may be using ends in [Unknown].
    The kernel maps every page writable, so the write right is not modelled. A buffer of a caller is translated
    once, before it is filled. Within a component an interrupt is a step of its own
    between operations; the code runs the operations that matter with interrupts off.
    In the running system interrupts come from a list the hardware decides and are
    taken where the processor waits in hlt. Switching tasks is the exchange of stack
    pointers: for a component, what a task does in between is any sequence of
    operations; in the running system a suspended task is a continuation, the point of
    its loop at which it yielded. The addresses the linker chooses and the registers
    that are left over when user mode is entered are parameters ([layout], [image]).

    An action of the running system ends in [Done], in [Halted] (the processor stopped
    for good), in [Waiting] (it waits and no interrupt comes) or in [Unknown] (the run
    leaves the model: at an instruction outside the emitted programs, after [vmunmap] of a
    page of the identity map or of the heap, after [free] of a frame that is a directory
    or a page table or is mapped other than at its own address, at the write of [vmfault]
    if a page was mapped at its address; or the end of the fuel). The fuel bounds
    the turns of other tasks (17 are enough for kernel tasks, theorem [yield_returns])
    and the instructions of a user program (17 are enough for the built-in ones, theorem
    [built_program_runs]); the sleeping loops take their bound from the list of
    interrupts. The invariant holds for every fuel.

    ** Not modelled

    The assembly stubs beyond their effects (registers saved and restored, iret, port
    instructions), interrupts that arrive outside hlt in the running system, user
    instructions other than those the kernel emits (a program loaded from a file that
    has others runs into [Unknown]), the wait for the serial transmitter, the build
    files and the image tools.

    The translation buffer has its own file and is not part of the state of [kernel]:
    [Tlb] shows that accesses go where the tables say, and the other files use the
    tables. In [IsolationSpec] user code is any sequence of stores and system calls.
    The theorems on the booted machine assume what [boot_state] says of the memory: at
    most 1 GiB (above that the identity map covers the addresses of user code, and
    [usermode_prepare] fails), at least 36 free frames more than the identity map needs,
    and at most 196000 free frames, so that the heap cannot reach the end of the address
    space. The isolation theorems assume besides that zombies are reaped before a process
    or a task is created. Without the bound of 1 GiB theorem [clone_shares_high_memory],
    and without this order theorem [process_zombie_slot_confusion], shows how one process
    gets at another.

    ** Next

    That the self-test passes on every machine with enough memory. *)
From Stdlib Require Import ZArith Lia Bool List.
From stdpp Require Import base gmap list numbers.
#[local] Open Scope Z_scope.

(** ** Machine integers

    A [uint32_t] is an integer of [Z] kept in [0 .. 2^32 - 1]; the C operators
    that can leave that range are written with an explicit wrap-around. *)

Definition UINT32_MAX : Z := 4294967295.
Definition u32 (x : Z) : Z := x `mod` 4294967296.
Definition is_u32 (x : Z) : Prop := 0 <= x < 4294967296.
Definition not32 (x : Z) : Z := Z.lxor x UINT32_MAX.

Declare Scope u32_scope.
Delimit Scope u32_scope with u32.
Notation "x ⊞ y" := (u32 (x + y)) (at level 50, left associativity) : u32_scope.
Notation "x ⊟ y" := (u32 (x - y)) (at level 50, left associativity) : u32_scope.
Notation "x ⊠ y" := (u32 (x * y)) (at level 40, left associativity) : u32_scope.
#[global] Open Scope u32_scope.

(** ** Memory and arrays

    [mem] is a byte-addressed memory, [array] a C array of [uint32_t]. Both are
    finite maps read with a default, truncated to the width of a cell, so that
    every map denotes a well-typed memory; a zeroed static object is [∅]. *)

Notation mem := (gmap Z Z) (only parsing).
Notation array := (gmap Z Z) (only parsing).

Definition aget (a : array) (i : Z) : Z := u32 (default 0 (a !! i)).
Definition aset (a : array) (i v : Z) : array := <[i := u32 v]> a.

Definition rd8 (m : mem) (a : Z) : Z := default 0 (m !! a) `mod` 256.
Definition wr8 (m : mem) (a v : Z) : mem := <[a := v `mod` 256]> m.
Definition rd16 (m : mem) (a : Z) : Z := rd8 m a + 256 * rd8 m (a + 1).
Definition rd32 (m : mem) (a : Z) : Z := rd16 m a + 65536 * rd16 m (a + 2).
Definition rd64 (m : mem) (a : Z) : Z := rd32 m a + 4294967296 * rd32 m (a + 4).
Definition wr32 (m : mem) (a v : Z) : mem :=
  wr8 (wr8 (wr8 (wr8 m a v) (a + 1) (v / 256)) (a + 2) (v / 65536)) (a + 3) (v / 16777216).

(** ** Loops

    [loop] runs the body of a [while] loop: [inl] continues, [inr] leaves it
    (loop condition false, [break] or [return]). [None] means that the fuel ran
    out, so a theorem that a loop returns is a theorem that it terminates. *)

Fixpoint loop {S R : Type} (fuel : nat) (body : S -> S + R) (s : S) : option R :=
  match fuel with
  | O => None
  | Datatypes.S n => match body s with inl s' => loop n body s' | inr r => Some r end
  end.

(** ** Counting over index ranges

    [count P lo hi] is the number of indices of [lo .. hi - 1] that satisfy [P]. It
    is sealed: ranges of the kernel's size must never be unfolded. *)

Definition count_def (P : Z -> bool) (lo hi : Z) : Z :=
  Z.of_nat (length (List.filter P (seqZ lo (hi - lo)))).
Definition count_aux : seal count_def. Proof. by eexists. Qed.
Definition count := count_aux.(unseal).
Definition count_unseal : count = count_def := count_aux.(seal_eq).

(** The first index of [lo .. lo + n - 1] that satisfies [P]: a [for] loop that
    returns its index. *)
Fixpoint find_from (P : Z -> bool) (n : nat) (lo : Z) : option Z :=
  match n with
  | O => None
  | S n' => if P lo then Some lo else find_from P n' (lo + 1)
  end.

(** * Lemmas *)

Create HintDb mars.

Lemma u32_range x : 0 <= u32 x < 4294967296.
Proof. unfold u32. apply Z.mod_pos_bound. lia. Qed.

Lemma u32_small x : 0 <= x < 4294967296 -> u32 x = x.
Proof. intros. unfold u32. apply Z.mod_small. lia. Qed.

Lemma u32_idem x : u32 (u32 x) = u32 x.
Proof. apply u32_small, u32_range. Qed.

#[export] Hint Resolve u32_range : mars.
#[export] Hint Rewrite u32_idem : mars.

(** Replaces the wrapped operations whose exact result is in range. *)
Ltac u32_simp :=
  repeat match goal with
  | |- context [u32 ?x] => rewrite (u32_small x) by lia
  | H : context [u32 ?x] |- _ => rewrite (u32_small x) in H by lia
  end.

(** Turns the boolean tests of the code into arithmetic facts. *)
Ltac bool_simp :=
  repeat match goal with
  | H : (_ && _) = true |- _ => apply andb_true_iff in H; destruct H
  | H : (_ || _) = false |- _ => apply orb_false_iff in H; destruct H
  | H : negb _ = true |- _ => apply negb_true_iff in H
  | H : negb _ = false |- _ => apply negb_false_iff in H
  | H : (_ =? _) = true |- _ => apply Z.eqb_eq in H
  | H : (_ =? _) = false |- _ => apply Z.eqb_neq in H
  | H : (_ <? _) = true |- _ => apply Z.ltb_lt in H
  | H : (_ <? _) = false |- _ => apply Z.ltb_ge in H
  | H : (_ <=? _) = true |- _ => apply Z.leb_le in H
  | H : (_ <=? _) = false |- _ => apply Z.leb_gt in H
  end.

(** Case analysis on the first conditional of the goal. *)
Ltac case_if :=
  match goal with |- context [if ?b then _ else _] => destruct b eqn:? end; bool_simp.

(** *** Arrays and memory *)

Lemma aget_range a i : 0 <= aget a i < 4294967296.
Proof. apply u32_range. Qed.

Lemma aget_aset_eq a i v : aget (aset a i v) i = u32 v.
Proof. unfold aget, aset. rewrite lookup_insert_eq. simpl. apply u32_idem. Qed.

Lemma aget_aset_ne a i j v : i <> j -> aget (aset a i v) j = aget a j.
Proof. intros. unfold aget, aset. by rewrite lookup_insert_ne. Qed.

Lemma aget_aset a i j v :
  aget (aset a i v) j = if decide (i = j) then u32 v else aget a j.
Proof. case_decide; subst; [apply aget_aset_eq | by apply aget_aset_ne]. Qed.

Lemma rd8_range m a : 0 <= rd8 m a < 256.
Proof. unfold rd8. apply Z.mod_pos_bound. lia. Qed.

Lemma rd16_range m a : 0 <= rd16 m a < 65536.
Proof. unfold rd16. pose proof (rd8_range m a). pose proof (rd8_range m (a + 1)). lia. Qed.

Lemma rd32_range m a : 0 <= rd32 m a < 4294967296.
Proof. unfold rd32. pose proof (rd16_range m a). pose proof (rd16_range m (a + 2)). lia. Qed.

Lemma rd64_range m a : 0 <= rd64 m a < 18446744073709551616.
Proof. unfold rd64. pose proof (rd32_range m a). pose proof (rd32_range m (a + 4)). lia. Qed.

#[export] Hint Resolve aget_range rd8_range rd16_range rd32_range rd64_range : mars.

Lemma rd8_wr8_eq m a v : rd8 (wr8 m a v) a = v `mod` 256.
Proof. unfold rd8, wr8. rewrite lookup_insert_eq. simpl. apply Z.mod_mod. lia. Qed.

Lemma rd8_wr8_ne m a b v : a <> b -> rd8 (wr8 m a v) b = rd8 m b.
Proof. intros. unfold rd8, wr8. by rewrite lookup_insert_ne. Qed.

Lemma rd8_wr32_ne m a b v : b < a \/ a + 4 <= b -> rd8 (wr32 m a v) b = rd8 m b.
Proof. intros. unfold wr32. rewrite !rd8_wr8_ne; auto; lia. Qed.

Lemma rd32_wr32_eq m a v : is_u32 v -> rd32 (wr32 m a v) a = v.
Proof.
  unfold is_u32. intros Hv. unfold rd32, rd16, wr32.
  replace (a + 2 + 1) with (a + 3) by lia.
  repeat (rewrite rd8_wr8_eq || (rewrite rd8_wr8_ne by lia)).
  Z.div_mod_to_equations. lia.
Qed.

Lemma rd32_wr32_ne m a b v : b + 4 <= a \/ a + 4 <= b -> rd32 (wr32 m a v) b = rd32 m b.
Proof. intros. unfold rd32, rd16. rewrite !rd8_wr32_ne; auto; lia. Qed.

Lemma rd32_wr8_ne m a b v : b + 4 <= a \/ a < b -> rd32 (wr8 m a v) b = rd32 m b.
Proof. intros. unfold rd32, rd16. rewrite !rd8_wr8_ne; auto; lia. Qed.

(** *** Loops: total correctness by an invariant and a decreasing measure *)

Lemma loop_total {S R : Type} (body : S -> S + R) (I : S -> Prop) (Q : R -> Prop) (m : S -> Z) :
  (forall s, I s -> match body s with
                    | inl s' => I s' /\ 0 <= m s' < m s
                    | inr r => Q r end) ->
  forall fuel s, I s -> m s < Z.of_nat fuel -> 0 <= m s -> exists r, loop fuel body s = Some r /\ Q r.
Proof.
  intros Hb. induction fuel as [|n IH]; intros s Hs Hm Hpos; [lia|].
  simpl. specialize (Hb s Hs). destruct (body s) as [s'|r]; [|eauto].
  destruct Hb as [? ?]. apply IH; auto; lia.
Qed.

(** Partial correctness: whatever a loop returns satisfies the postcondition. *)
Lemma loop_partial {S R : Type} (body : S -> S + R) (I : S -> Prop) (Q : R -> Prop) :
  (forall s, I s -> match body s with inl s' => I s' | inr r => Q r end) ->
  forall fuel s r, I s -> loop fuel body s = Some r -> Q r.
Proof.
  intros Hb. induction fuel as [|n IH]; intros s r Hs; simpl; [discriminate|].
  specialize (Hb s Hs). destruct (body s) as [s'|r']; [by apply IH|].
  by intros [= <-].
Qed.

(** *** Counting *)

Lemma count_ext P Q lo hi :
  (forall i, lo <= i < hi -> P i = Q i) -> count P lo hi = count Q lo hi.
Proof.
  intros H. rewrite count_unseal; unfold count_def. do 2 f_equal. apply filter_ext_in.
  intros i Hi. apply H. apply list_elem_of_In, elem_of_seqZ in Hi. lia.
Qed.

Lemma count_split P lo mid hi :
  lo <= mid <= hi -> count P lo hi = count P lo mid + count P mid hi.
Proof.
  intros H. rewrite count_unseal; unfold count_def. rewrite <- Nat2Z.inj_add, <- length_app, <- filter_app.
  do 3 f_equal. replace (hi - lo) with ((mid - lo) + (hi - mid)) by lia.
  rewrite seqZ_app by lia. do 2 f_equal. lia.
Qed.

Lemma count_cons P lo hi :
  lo < hi -> count P lo hi = (if P lo then 1 else 0) + count P (lo + 1) hi.
Proof.
  intros H. rewrite count_unseal; unfold count_def. rewrite (seqZ_cons lo) by lia. simpl.
  replace (Z.succ lo) with (lo + 1) by lia.
  replace (Z.pred (hi - lo)) with (hi - (lo + 1)) by lia.
  destruct (P lo); simpl length; lia.
Qed.

Lemma count_nil P lo hi : hi <= lo -> count P lo hi = 0.
Proof. intros. rewrite count_unseal; unfold count_def. by rewrite seqZ_nil by lia. Qed.

Lemma count_true P lo hi : lo <= hi -> (forall i, lo <= i < hi -> P i = true) -> count P lo hi = hi - lo.
Proof.
  intros Hle HP. rewrite (count_ext P (fun _ => true)) by done. rewrite count_unseal; unfold count_def.
  rewrite List.filter_true, length_seqZ. lia.
Qed.

Lemma count_false P lo hi : (forall i, lo <= i < hi -> P i = false) -> count P lo hi = 0.
Proof.
  intros HP. rewrite (count_ext P (fun _ => false)) by done. rewrite count_unseal; unfold count_def. by rewrite List.filter_false.
Qed.

Lemma count_nonneg P lo hi : 0 <= count P lo hi.
Proof. rewrite count_unseal; unfold count_def. lia. Qed.

Lemma count_le_length P lo hi : lo <= hi -> count P lo hi <= hi - lo.
Proof.
  intros. rewrite count_unseal; unfold count_def.
  pose proof (List.filter_length_le P (seqZ lo (hi - lo))) as Hl.
  rewrite length_seqZ in Hl. lia.
Qed.

(** Switching one index on adds one. *)
Lemma count_flip P Q lo hi i :
  lo <= i < hi -> P i = false -> Q i = true ->
  (forall j, lo <= j < hi -> j <> i -> P j = Q j) ->
  count Q lo hi = count P lo hi + 1.
Proof.
  intros Hi HP HQ Hne.
  rewrite (count_split P lo i hi), (count_split Q lo i hi) by lia.
  rewrite (count_cons P i hi), (count_cons Q i hi) by lia. rewrite HP, HQ.
  rewrite (count_ext P Q lo i), (count_ext P Q (i + 1) hi); [lia| |];
    intros; apply Hne; lia.
Qed.

Lemma count_le P Q lo hi :
  (forall i, lo <= i < hi -> P i = true -> Q i = true) -> count P lo hi <= count Q lo hi.
Proof.
  intros H. rewrite count_unseal; unfold count_def. apply inj_le.
  assert (Hin : forall x, In x (seqZ lo (hi - lo)) -> P x = true -> Q x = true).
  { intros x Hx. apply list_elem_of_In, elem_of_seqZ in Hx. apply H. lia. }
  revert Hin. generalize (seqZ lo (hi - lo)) as l.
  induction l as [|x l IH]; intros Hin; simpl; [lia|].
  pose proof (Hin x (or_introl eq_refl)) as Hx.
  assert (IH' := IH (fun y Hy => Hin y (or_intror Hy))).
  destruct (P x), (Q x); simpl; lia || by specialize (Hx eq_refl).
Qed.

(** A predicate counted strictly less often than a weaker one misses an index. *)
Lemma count_lt_exists P Q lo hi :
  count P lo hi < count Q lo hi -> exists i, lo <= i < hi /\ Q i = true /\ P i = false.
Proof.
  intros Hlt. destruct (existsb (fun i => Q i && negb (P i)) (seqZ lo (hi - lo))) eqn:E.
  - apply existsb_exists in E as (i & Hi & Hc). exists i. bool_simp.
    apply list_elem_of_In, elem_of_seqZ in Hi. split_and!; auto; lia.
  - exfalso. assert (count Q lo hi <= count P lo hi); [|lia].
    apply count_le. intros i Hi HQ. destruct (P i) eqn:HP; auto.
    assert (existsb (fun i => Q i && negb (P i)) (seqZ lo (hi - lo)) = true); [|congruence].
    apply existsb_exists. exists i. split; [|by rewrite HQ, HP].
    apply list_elem_of_In, elem_of_seqZ. lia.
Qed.

(** *** Searching loops *)

Lemma find_from_Some P n lo i :
  find_from P n lo = Some i <->
  lo <= i < lo + Z.of_nat n /\ P i = true /\ forall j, lo <= j < i -> P j = false.
Proof.
  revert lo. induction n as [|n IH]; intros lo; simpl.
  - split; [discriminate|]. lia.
  - destruct (P lo) eqn:E.
    + split.
      * intros [= <-]. split_and!; auto; lia.
      * intros (Hr & HP & Hf). destruct (decide (i = lo)) as [->|]; [done|].
        rewrite Hf in E by lia. discriminate.
    + rewrite IH. split; intros (Hr & HP & Hf); split_and!; auto; try lia.
      * intros j Hj. destruct (decide (j = lo)) as [->|]; [done|]. apply Hf. lia.
      * destruct (decide (i = lo)) as [->|]; [congruence|lia].
      * intros. apply Hf. lia.
Qed.

Lemma find_from_None P n lo :
  find_from P n lo = None <-> forall i, lo <= i < lo + Z.of_nat n -> P i = false.
Proof.
  revert lo. induction n as [|n IH]; intros lo; simpl.
  - split; [lia|done].
  - destruct (P lo) eqn:E.
    + split; [discriminate|]. intros H. rewrite H in E by lia. discriminate.
    + rewrite IH. split; intros H i Hi; [|apply H; lia].
      destruct (decide (i = lo)) as [->|]; [done|]. apply H. lia.
Qed.

(** *** Bit masks *)

Lemma testbit_high x k i : 0 <= k <= i -> 0 <= x < 2 ^ k -> Z.testbit x i = false.
Proof. intros Hk Hx. apply (proj1 (Z.bounded_iff_bits_nonneg k x ltac:(lia) ltac:(lia))); lia. Qed.

(** Masking with the complement of an offset clears the low bits. *)
Lemma land_high_mask x n k :
  0 <= n -> 0 <= k -> 0 <= x < 2 ^ (n + k) ->
  Z.land x (Z.shiftl (Z.ones k) n) = x - x `mod` 2 ^ n.
Proof.
  intros Hn Hk Hx.
  assert (Z.land x (Z.shiftl (Z.ones k) n) = Z.shiftl (Z.shiftr x n) n) as ->.
  { apply Z.bits_inj'. intros i Hi. rewrite Z.land_spec, !Z.shiftl_spec by lia.
    destruct (decide (i < n)).
    - rewrite !(Z.testbit_neg_r _ (i - n)) by lia. apply andb_false_r.
    - rewrite Z.shiftr_spec by lia. replace (i - n + n) with i by lia.
      destruct (decide (i - n < k)).
      + rewrite Z.ones_spec_low by lia. apply andb_true_r.
      + rewrite (testbit_high x (n + k) i) by lia. done. }
  rewrite Z.shiftl_mul_pow2, Z.shiftr_div_pow2 by lia.
  pose proof (Z.pow_pos_nonneg 2 n). pose proof (Z.div_mod x (2 ^ n)). lia.
Qed.

Lemma page_mask x : is_u32 x -> Z.land x 4294963200 = x - x `mod` 4096.
Proof. intros. apply (land_high_mask x 12 20); unfold is_u32 in *; lia. Qed.

Lemma mask8 x : is_u32 x -> Z.land x 4294967288 = x - x `mod` 8.
Proof. intros. apply (land_high_mask x 3 29); unfold is_u32 in *; lia. Qed.

Lemma offset_mask x : Z.land x 4095 = x `mod` 4096.
Proof. apply (Z.land_ones x 12). lia. Qed.

Lemma index_mask x : Z.land x 1023 = x `mod` 1024.
Proof. apply (Z.land_ones x 10). lia. Qed.

(** Or-ing flags into an aligned address adds them. *)
Lemma lor_disjoint a b n :
  0 <= n -> a `mod` 2 ^ n = 0 -> 0 <= b < 2 ^ n -> Z.lor a b = a + b.
Proof.
  intros Hn Ha Hb. symmetry. apply Z.add_nocarry_lor. apply Z.bits_inj'. intros i Hi.
  rewrite Z.land_spec, Z.bits_0. destruct (decide (i < n)).
  - assert (Z.testbit a i = false) as ->; [|done].
    rewrite <- (Z.mod_pow2_bits_low a n i) by lia. by rewrite Ha, Z.bits_0.
  - rewrite (testbit_high b n i) by lia. apply andb_false_r.
Qed.

Lemma mask_bit w k : 0 <= k -> Z.land w (Z.shiftl 1 k) = if Z.testbit w k then 2 ^ k else 0.
Proof.
  intros Hk. rewrite Z.shiftl_1_l. apply Z.bits_inj'. intros i Hi.
  rewrite Z.land_spec, Z.pow2_bits_eqb by lia.
  destruct (Z.eqb_spec k i) as [->|Hne].
  - rewrite andb_true_r. destruct (Z.testbit w i); by rewrite ?Z.pow2_bits_true, ?Z.bits_0.
  - rewrite andb_false_r. destruct (Z.testbit w k); by rewrite ?Z.pow2_bits_false, ?Z.bits_0 by lia.
Qed.

(** The C test [(w & (1u << k)) != 0]. *)
Lemma bit_test w k : 0 <= k -> negb (Z.land w (Z.shiftl 1 k) =? 0) = Z.testbit w k.
Proof.
  intros. rewrite mask_bit by done. pose proof (Z.pow_pos_nonneg 2 k).
  destruct (Z.testbit w k); [|done]. apply negb_true_iff, Z.eqb_neq. lia.
Qed.

Lemma testbit_lor_bit w k i :
  0 <= k -> 0 <= i -> Z.testbit (Z.lor w (Z.shiftl 1 k)) i = Z.testbit w i || (k =? i).
Proof. intros. by rewrite Z.lor_spec, Z.shiftl_1_l, Z.pow2_bits_eqb. Qed.

Lemma testbit_land_not32_bit w k i :
  0 <= k < 32 -> 0 <= i < 32 ->
  Z.testbit (Z.land w (not32 (Z.shiftl 1 k))) i = Z.testbit w i && negb (k =? i).
Proof.
  intros. unfold not32, UINT32_MAX. change 4294967295 with (Z.ones 32).
  rewrite Z.land_spec, Z.lxor_spec, Z.shiftl_1_l, Z.pow2_bits_eqb, Z.ones_spec_low by lia.
  by destruct (k =? i).
Qed.

Lemma lor_u32 a b : is_u32 a -> is_u32 b -> is_u32 (Z.lor a b).
Proof.
  unfold is_u32. intros. split; [apply Z.lor_nonneg; lia|].
  apply (Z.bounded_iff_bits_nonneg 32); [lia|apply Z.lor_nonneg; lia|].
  intros. rewrite Z.lor_spec, !(testbit_high _ 32) by lia. done.
Qed.

Lemma land_u32 a b : is_u32 a -> 0 <= b -> is_u32 (Z.land a b).
Proof.
  unfold is_u32. intros. split; [apply Z.land_nonneg; lia|].
  apply (Z.bounded_iff_bits_nonneg 32); [lia|apply Z.land_nonneg; lia|].
  intros. rewrite Z.land_spec, (testbit_high a 32) by lia. done.
Qed.

#[export] Hint Resolve lor_u32 land_u32 : mars.

(** *** Searching an index range of an array *)

Lemma find_seq_Some (P : nat -> bool) n : forall lo i,
  List.find P (seq lo n) = Some i <->
  (lo <= i < lo + n)%nat /\ P i = true /\ forall j, (lo <= j < i)%nat -> P j = false.
Proof.
  induction n as [|n IH]; intros lo i; simpl; [split; [done|lia]|]. destruct (P lo) eqn:E.
  - split.
    + intros [= <-]. split_and!; [lia|lia|done|lia].
    + intros (Hr & HP & Hf). destruct (decide (i = lo)) as [->|]; [done|]. rewrite Hf in E by lia. done.
  - rewrite IH. split; intros (Hr & HP & Hf); split_and!; auto; try lia.
    + intros j Hj. destruct (decide (j = lo)) as [->|]; [done|]. apply Hf. lia.
    + destruct (decide (i = lo)) as [->|]; [congruence|lia].
    + intros j Hj. apply Hf. lia.
Qed.

Lemma find_seq_None (P : nat -> bool) n : forall lo,
  List.find P (seq lo n) = None <-> forall i, (lo <= i < lo + n)%nat -> P i = false.
Proof.
  induction n as [|n IH]; intros lo; simpl; [split; [lia|done]|]. destruct (P lo) eqn:E.
  - split; [done|]. intros Hf. rewrite Hf in E by lia. done.
  - rewrite IH. split; intros Hf i Hi; [|apply Hf; lia].
    destruct (decide (i = lo)) as [->|]; [done|]. apply Hf. lia.
Qed.

(** *** Tables

    What a table of slots holds, as a list: updating one slot replaces what that
    slot contributes. *)
Lemma bind_insert_rest {A B : Type} (g : A -> list B) (l : list A) (i : nat) (x : A) :
  l !! i = Some x ->
  exists R, l ≫= g ≡ₚ g x ++ R /\ (forall y, <[i := y]> l ≫= g ≡ₚ g y ++ R) /\
    forall j y z, j <> i -> l !! j = Some y -> z ∈ g y -> z ∈ R.
Proof.
  intros Hx. exists ((take i l ≫= g) ++ (drop (S i) l ≫= g)).
  assert (Hsplit : forall y, (take i l ++ y :: drop (S i) l) ≫= g ≡ₚ
            g y ++ (take i l ≫= g) ++ (drop (S i) l ≫= g)).
  { intros y. rewrite bind_app, bind_cons. rewrite !app_assoc. apply Permutation_app_tail, Permutation_app_comm. }
  split_and!.
  - rewrite <- (take_drop_middle l i x Hx) at 1. apply Hsplit.
  - intros y. rewrite insert_take_drop by (by apply lookup_lt_Some in Hx). apply Hsplit.
  - intros j y z Hne Hy Hz. apply elem_of_app. destruct (decide (j < i)%nat).
    + left. apply list_elem_of_bind. exists y. split; [done|]. apply (list_elem_of_lookup_2 _ j).
      by rewrite lookup_take_lt.
    + right. apply list_elem_of_bind. exists y. split; [done|]. apply (list_elem_of_lookup_2 _ (j - S i)).
      rewrite lookup_drop. by replace (S i + (j - S i))%nat with j by lia.
Qed.

Lemma bind_insert_perm {A B : Type} (g : A -> list B) (l : list A) (i : nat) (x : A) :
  l !! i = Some x ->
  exists R, l ≫= g ≡ₚ g x ++ R /\ forall y, <[i := y]> l ≫= g ≡ₚ g y ++ R.
Proof. intros Hx. destruct (bind_insert_rest g l i x Hx) as (R & HR & HR' & _). eauto. Qed.

Lemma alter_insert_eq {A : Type} (f : A -> A) (l : list A) (i : nat) (x : A) :
  l !! i = Some x -> alter f i l = <[i := f x]> l.
Proof.
  intros Hx. apply list_eq. intros j. destruct (decide (i = j)) as [<-|Hne].
  - rewrite list_lookup_alter_eq, list_lookup_insert_eq, Hx; [done|by apply lookup_lt_Some in Hx].
  - by rewrite list_lookup_alter_ne, list_lookup_insert_ne.
Qed.
