(* ===== verification/CStr.v ===== *)
(** C strings: the string helpers that vfs.c, ipc.c, exec.c, scheduler.c and
    process.c each carry a copy of.

    A [char *] is the list of the bytes it points to; reading past the end of
    the list gives the terminator. A [char] array is a list of its length. *)
From Stdlib Require Import ZArith Lia Bool List.
From stdpp Require Import base list numbers.
From S2P Require Import Prelude.
#[local] Open Scope Z_scope.

(** The characters before the terminator. *)
Fixpoint c_str (s : list Z) : list Z :=
  match s with
  | [] => []
  | c :: s' => if c =? 0 then [] else c :: c_str s'
  end.

Fixpoint str_len (s : list Z) : Z :=
  match s with
  | [] => 0
  | c :: s' => if c =? 0 then 0 else 1 + str_len s'
  end.

Fixpoint str_eq (a b : list Z) : bool :=
  let cb := hd 0 b in
  match a with
  | [] => cb =? 0
  | ca :: a' =>
      if negb (ca =? 0) && negb (cb =? 0) then
        if negb (ca =? cb) then false else str_eq a' (tl b)
      else (ca =? 0) && (cb =? 0)
  end.

(** [while (i + 1 < n && src[i] != 0) dst[i] = src[i], i++;] with [room = n - 1 - i]. *)
Fixpoint copy_chars (room i : nat) (dst src : list Z) : nat * list Z :=
  match room, src with
  | S r, c :: src' => if c =? 0 then (i, dst) else copy_chars r (S i) (<[i := c]> dst) src'
  | _, _ => (i, dst)
  end.

(** Returns the number of characters copied and the array. *)
Definition str_copy (dst : list Z) (n : nat) (src : list Z) : Z * list Z :=
  match n with
  | O => (0, dst)
  | S room => let '(i, dst) := copy_chars room 0 dst src in (Z.of_nat i, <[i := 0]> dst)
  end.

(** ** Lemmas *)

Lemma c_str_nonzero s : Forall (fun c => c <> 0) (c_str s).
Proof. induction s as [|c s IH]; simpl; [constructor|]. destruct (Z.eqb_spec c 0); constructor; auto. Qed.

Lemma c_str_app l s : Forall (fun c => c <> 0) l -> c_str (l ++ s) = l ++ c_str s.
Proof.
  induction 1 as [|c l Hc _ IH]; [done|]. simpl. rewrite (proj2 (Z.eqb_neq c 0)) by done. by rewrite IH.
Qed.

Lemma c_str_idem s : c_str (c_str s) = c_str s.
Proof. pose proof (c_str_app (c_str s) [] (c_str_nonzero s)) as Ha. by rewrite !app_nil_r in Ha. Qed.

Lemma str_len_eq s : str_len s = Z.of_nat (length (c_str s)).
Proof. induction s as [|c s IH]; [done|]. simpl. destruct (c =? 0); [done|]. rewrite IH. simpl. lia. Qed.

Lemma str_eq_spec a : forall b, str_eq a b = true <-> c_str a = c_str b.
Proof.
  induction a as [|ca a IH]; intros b; simpl.
  - destruct b as [|cb b]; simpl; [done|]. destruct (Z.eqb_spec cb 0); done.
  - destruct b as [|cb b]; simpl.
    + rewrite andb_false_r, andb_true_r. destruct (ca =? 0); done.
    + destruct (Z.eqb_spec ca 0), (Z.eqb_spec cb 0); simpl; try done.
      destruct (Z.eqb_spec ca cb) as [->|]; simpl; [|split; [done|congruence]].
      rewrite IH. split; congruence.
Qed.

Lemma copy_chars_spec room : forall i dst src,
  (i + room < length dst)%nat ->
  exists w, copy_chars room i dst src = ((i + length w)%nat, take i dst ++ w ++ drop (i + length w) dst) /\
            w = take room (c_str src).
Proof.
  induction room as [|r IH]; intros i dst src Hlen.
  { exists []. cbn. rewrite Nat.add_0_r, take_drop. done. }
  destruct src as [|c src]; simpl.
  { exists []. rewrite Nat.add_0_r. simpl. by rewrite take_drop. }
  destruct (c =? 0).
  { exists []. rewrite Nat.add_0_r. simpl. by rewrite take_drop. }
  destruct (IH (S i) (<[i := c]> dst) src) as (w & -> & ->); [rewrite length_insert; lia|].
  exists (c :: take r (c_str src)). split; [|done]. simpl length.
  replace (S i + length (take r (c_str src)))%nat with (i + S (length (take r (c_str src))))%nat by lia.
  f_equal. rewrite (take_S_r _ _ c) by (apply list_lookup_insert_eq; lia).
  rewrite take_insert_ge, drop_insert_lt by lia. by rewrite <- app_assoc.
Qed.

(** [str_copy] leaves a terminated string that holds as much of the source as fits. *)
Lemma str_copy_spec dst n src :
  (0 < n <= length dst)%nat ->
  exists dst', str_copy dst n src = (Z.of_nat (length (c_str dst')), dst') /\
    c_str dst' = take (n - 1) (c_str src) /\ length dst' = length dst.
Proof.
  intros Hn. destruct n as [|room]; [lia|]. unfold str_copy.
  destruct (copy_chars_spec room 0 dst src) as (w & -> & ->); [lia|].
  simpl app. rewrite Nat.add_0_l. set (w := take room (c_str src)).
  assert (Hw : (length w <= room)%nat) by (unfold w; rewrite length_take; lia).
  assert (Hnz : Forall (fun c => c <> 0) w) by (apply Forall_take, c_str_nonzero).
  destruct (drop (length w) dst) as [|d rest] eqn:Hd.
  { apply (f_equal length) in Hd. rewrite length_drop in Hd. simpl in Hd. lia. }
  assert (Hins : <[length w := 0]> (w ++ d :: rest) = w ++ 0 :: rest).
  { rewrite insert_app_r_alt by lia. by rewrite Nat.sub_diag. }
  rewrite Hins. exists (w ++ 0 :: rest). rewrite c_str_app by done. simpl. rewrite app_nil_r.
  split_and!; [done|by rewrite Nat.sub_0_r|].
  rewrite length_app. simpl. apply (f_equal length) in Hd. rewrite length_drop in Hd. simpl in Hd. lia.
Qed.
