(* ===== verification/Interfaces.v ===== *)
(** Interfaces between the kernel's components: what a component promises to
    the ones that call it. The clients are verified against these classes and
    the implementations provide the instances. *)
From Stdlib Require Import ZArith Lia.
From stdpp Require Import base gmap list numbers.
From S2P Require Import Prelude.
#[local] Open Scope Z_scope.

(** [pmm.h]: a source of physical page frames. [fa_alloc] returns 0 when there
    is none, as [pmm_alloc_frame] does. *)
Class FrameAllocator (A : Type) := {
  fa_alloc : A -> Z * A;
  fa_free : Z -> A -> bool * A;
  fa_ready : A -> bool;
  fa_highest : A -> Z;
}.

(** [fa_is_free a f] says that frame [f] may be handed out, [fa_avail a] how
    many such frames are left. *)
Class FrameAllocatorOk (A : Type) `{FrameAllocator A} := {
  fa_ok : A -> Prop;
  fa_is_free : A -> Z -> Prop;
  fa_avail : A -> Z;
  fa_avail_nonneg a : fa_ok a -> 0 <= fa_avail a;
  fa_alloc_none a a' : fa_ok a -> fa_alloc a = (0, a') -> a' = a;
  fa_alloc_avail a : fa_ok a -> fa_ready a = true -> 0 < fa_avail a -> fst (fa_alloc a) <> 0;
  fa_alloc_ready a : fa_ready (snd (fa_alloc a)) = fa_ready a;
  fa_alloc_some a f a' :
    fa_ok a -> fa_alloc a = (f, a') -> f <> 0 ->
    fa_ok a' /\ fa_is_free a f /\ 0 < f < 4294967296 /\ f `mod` 4096 = 0 /\
    (forall g, fa_is_free a' g <-> fa_is_free a g /\ g <> f) /\
    fa_avail a' = fa_avail a - 1;
  fa_free_ok a f ok a' :
    fa_ok a -> 0 <= f < 4294967296 -> fa_free f a = (ok, a') ->
    fa_ok a' /\
    (ok = false -> a' = a) /\
    (ok = true -> f <> 0 /\ f `mod` 4096 = 0 /\ ~ fa_is_free a f /\
                  (forall g, fa_is_free a' g <-> fa_is_free a g \/ g = f) /\
                  fa_avail a' = fa_avail a + 1);
}.

(** An allocator that takes back what it gave: [fa_given a f] says that frame [f] is in
    use and will be accepted by [fa_free]. *)
Class FrameReturnOk (A : Type) `{FrameAllocatorOk A} := {
  fa_given : A -> Z -> Prop;
  fa_given_used a f : fa_given a f -> ~ fa_is_free a f;
  fa_alloc_given a f a' : fa_ok a -> fa_alloc a = (f, a') -> f <> 0 -> fa_given a' f /\ forall g, fa_given a g -> fa_given a' g;
  fa_free_given a f : fa_ok a -> 0 <= f < 4294967296 -> fa_given a f -> fst (fa_free f a) = true;
  fa_free_keeps a f g : fa_ok a -> 0 <= f < 4294967296 -> fa_given a g -> g <> f -> fa_given (snd (fa_free f a)) g;
}.

(** The simplest frame allocator: hands out [next], [next + 4096], ... below a
    limit and never takes a frame back. It shows that the class is inhabited and
    gives the clients' theorems a small state to be applied to. *)
Record watermark := Watermark { wm_next : Z; wm_limit : Z }.

#[export] Instance watermark_allocator : FrameAllocator watermark :=
  {| fa_alloc w := if wm_next w <? wm_limit w
                   then (4096 * wm_next w, Watermark (wm_next w + 1) (wm_limit w)) else (0, w);
     fa_free _ w := (false, w);
     fa_ready _ := true;
     fa_highest w := 4096 * wm_limit w |}.

#[export] Program Instance watermark_allocator_ok : FrameAllocatorOk watermark :=
  {| fa_ok w := 0 < wm_next w <= wm_limit w /\ wm_limit w <= 1048576;
     fa_is_free w f := exists k, f = 4096 * k /\ wm_next w <= k < wm_limit w;
     fa_avail w := wm_limit w - wm_next w |}.
Next Obligation. intros w Hw. simpl in *. lia. Qed.
Next Obligation.
  intros [n l] w' [? ?]. simpl in *. destruct (_ <? _); [|congruence]. intros [=]. lia.
Qed.
Next Obligation.
  intros [n l] [? ?] _ Hav. simpl in *. rewrite (proj2 (Z.ltb_lt n l)) by lia. simpl. lia.
Qed.
Next Obligation. done. Qed.
Next Obligation.
  intros [n l] f w' [? ?] Ha Hf. simpl in *. destruct (Z.ltb_spec n l); injection Ha as <- <-; [|done].
  simpl. split_and!; try lia.
  - exists n. lia.
  - rewrite Z.mul_comm. apply Z_mod_mult.
  - intros g. split.
    + intros (k & -> & Hk). split; [exists k; lia|lia].
    + intros [(k & -> & Hk) Hne]. exists k. lia.
Qed.
Next Obligation. intros w f ok w' Hw _ [= <- <-]. simpl in *. split; [lia|]. split; [done|discriminate]. Qed.

(** What the kernel heap needs of the memory system: [pm_map_fresh virt] takes a
    frame and maps it, writable, at the page [virt] of the active address space. *)
Class PageMapper (P : Type) := { pm_map_fresh : Z -> P -> bool * P }.

(** [pm_mapped p v] says that the page of [v] is mapped, [pm_avail p] how many
    frames are left. A failed attempt may lose frames, never mappings. *)
Class PageMapperOk (P : Type) `{PageMapper P} := {
  pm_ok : P -> Prop;
  pm_avail : P -> Z;
  pm_mapped : P -> Z -> bool;
  pm_avail_nonneg p : pm_ok p -> 0 <= pm_avail p;
  pm_map_fresh_ok p virt ok p' :
    pm_ok p -> is_u32 virt -> pm_map_fresh virt p = (ok, p') ->
    pm_ok p' /\ pm_avail p' <= pm_avail p /\
    (ok = true -> virt `mod` 4096 = 0 /\ pm_avail p' < pm_avail p) /\
    forall w, is_u32 w -> pm_mapped p' w = pm_mapped p w || (ok && (w / 4096 =? virt / 4096));
}.

(** The simplest page mapper: a number of frames and the set of mapped pages. *)
Record page_pool := PagePool { pool_frames : Z; pool_mapped : gset Z }.

#[export] Instance page_pool_mapper : PageMapper page_pool :=
  {| pm_map_fresh virt p :=
       if (virt `mod` 4096 =? 0) && (0 <? pool_frames p) && negb (bool_decide (virt / 4096 ∈ pool_mapped p))
       then (true, PagePool (pool_frames p - 1) ({[virt / 4096]} ∪ pool_mapped p)) else (false, p) |}.

#[export] Program Instance page_pool_mapper_ok : PageMapperOk page_pool :=
  {| pm_ok p := 0 <= pool_frames p;
     pm_avail := pool_frames;
     pm_mapped p v := bool_decide (v / 4096 ∈ pool_mapped p) |}.
Next Obligation. done. Qed.
Next Obligation.
  intros [n M] virt ok p' Hok Hv. cbn. destruct (_ && _ && _) eqn:E; intros [= <- <-]; cbn in *.
  - bool_simp. split_and!; [lia|lia|lia|]. intros w Hw. rewrite (Z.eqb_sym (w / 4096)).
    destruct (Z.eqb_spec (virt / 4096) (w / 4096)) as [<-|Hne].
    + rewrite orb_true_r. apply bool_decide_eq_true. set_solver.
    + rewrite orb_false_r. apply bool_decide_ext. set_solver.
  - split_and!; [lia|lia|done|]. intros w Hw. by rewrite orb_false_r.
Qed.

(** [kheap.h]: the kernel heap as its clients see it, with the bytes of the
    memory the allocations live in. [kh_malloc] returns 0 when it fails. *)
Class KernelHeap (H : Type) := {
  kh_malloc : Z -> H -> Z * H;
  kh_free : Z -> H -> H;
  kh_load8 : Z -> H -> Z;
  kh_store8 : Z -> Z -> H -> H;
}.

(** Bytes of the allocations [L] are the same in both heaps. *)
Definition kh_same {H : Type} `{KernelHeap H} (L : list (Z * Z)) (h h' : H) : Prop :=
  forall p n a, (p, n) ∈ L -> p <= a < p + n -> kh_load8 a h' = kh_load8 a h.

(** [kh_rep h L]: the heap is well formed and [L] are its live allocations,
    address and size. *)
Class KernelHeapOk (H : Type) `{KernelHeap H} := {
  kh_rep : H -> list (Z * Z) -> Prop;
  kh_rep_perm h L L' : L ≡ₚ L' -> kh_rep h L -> kh_rep h L';
  kh_live_range h L p n : kh_rep h L -> (p, n) ∈ L -> 0 < p /\ p + n < 4294967296 /\ 8 <= n;
  kh_live_disjoint h L p n q m :
    kh_rep h ((p, n) :: L) -> (q, m) ∈ L -> q + m <= p \/ p + n <= q;
  kh_malloc_ok h L size p h' :
    kh_rep h L -> is_u32 size -> kh_malloc size h = (p, h') ->
    kh_same L h h' /\ ((p = 0 /\ kh_rep h' L) \/ exists sz, size <= sz /\ kh_rep h' ((p, sz) :: L));
  kh_free_ok h L p n :
    kh_rep h ((p, n) :: L) -> kh_rep (kh_free p h) L /\ kh_same L h (kh_free p h);
  kh_free_null h : kh_free 0 h = h;
  kh_store8_ok h L p n a v :
    kh_rep h L -> (p, n) ∈ L -> p <= a < p + n ->
    kh_rep (kh_store8 a v h) L /\ kh_load8 a (kh_store8 a v h) = v `mod` 256 /\
    forall b, b <> a -> kh_load8 b (kh_store8 a v h) = kh_load8 b h;
}.

(** Words in heap memory, low byte first. *)
Definition kh_store32 {H : Type} `{KernelHeap H} (a v : Z) (h : H) : H :=
  kh_store8 (a + 3) (v / 16777216) (kh_store8 (a + 2) (v / 65536) (kh_store8 (a + 1) (v / 256) (kh_store8 a v h))).
Definition kh_load32 {H : Type} `{KernelHeap H} (a : Z) (h : H) : Z :=
  kh_load8 a h + 256 * kh_load8 (a + 1) h + 65536 * kh_load8 (a + 2) h + 16777216 * kh_load8 (a + 3) h.

Lemma kh_store32_ok {H : Type} `{KernelHeapOk H} h L p n a v :
  kh_rep h L -> (p, n) ∈ L -> p <= a -> a + 4 <= p + n -> is_u32 v ->
  kh_rep (kh_store32 a v h) L /\ kh_load32 a (kh_store32 a v h) = v /\
  forall b, b < a \/ a + 4 <= b -> kh_load8 b (kh_store32 a v h) = kh_load8 b h.
Proof.
  intros Hr Hin Hlo Hhi Hv. unfold kh_store32, kh_load32.
  destruct (kh_store8_ok h L p n a v) as (Hr1 & He1 & Hn1); auto; [lia|]. revert Hr1 He1 Hn1.
  generalize (kh_store8 a v h). intros h1 Hr1 He1 Hn1.
  destruct (kh_store8_ok h1 L p n (a + 1) (v / 256)) as (Hr2 & He2 & Hn2); auto; [lia|]. revert Hr2 He2 Hn2.
  generalize (kh_store8 (a + 1) (v / 256) h1). intros h2 Hr2 He2 Hn2.
  destruct (kh_store8_ok h2 L p n (a + 2) (v / 65536)) as (Hr3 & He3 & Hn3); auto; [lia|]. revert Hr3 He3 Hn3.
  generalize (kh_store8 (a + 2) (v / 65536) h2). intros h3 Hr3 He3 Hn3.
  destruct (kh_store8_ok h3 L p n (a + 3) (v / 16777216)) as (Hr4 & He4 & Hn4); auto; [lia|].
  split; [done|]. split.
  - rewrite He4, (Hn4 a), (Hn4 (a + 1)), (Hn4 (a + 2)) by lia. rewrite He3, (Hn3 a), (Hn3 (a + 1)) by lia.
    rewrite He2, (Hn2 a), He1 by lia. unfold is_u32 in Hv. Z.div_mod_to_equations. lia.
  - intros b Hb. rewrite Hn4, Hn3, Hn2, Hn1 by lia. done.
Qed.

(** The order of the live allocations does not matter. *)
#[export] Instance kh_rep_proper {H : Type} `{KernelHeapOk H} (h : H) : Proper ((≡ₚ) ==> iff) (kh_rep h).
Proof. intros L L' HL. split; apply kh_rep_perm; [done|by symmetry]. Qed.
