(* ===== verification/Pmm.v ===== *)
(** kernel/pmm.c: the physical memory manager, a bitmap of 4 KiB frames filled
    from the Multiboot memory map. The static variables of the file are the
    fields of [pmm_state]; [pmm_init] reads the boot information through a byte
    memory; each function of pmm.h is a definition of the same name. *)
From Stdlib Require Import ZArith Lia Bool List.
From stdpp Require Import base gmap list numbers option.
From S2P Require Import Prelude Interfaces.
#[local] Open Scope Z_scope.

(** ** Data *)

Definition PAGE_SIZE : Z := 4096.
Definition PMM_MAX_REGIONS : Z := 32.
Definition PMM_MAX_FRAMES : Z := 1048576.
Definition PMM_BITMAP_WORDS : Z := 32768.

Record pmm_state := Pmm {
  pmm_region_start : array;
  pmm_region_end : array;
  pmm_region_count : Z;
  pmm_total : Z;
  pmm_used : Z;
  pmm_bitmap : array;
  pmm_hint_frame : Z;
  pmm_highest_end : Z;
  pmm_initialized : bool;
}.

Definition set_pmm_total (s : pmm_state) (v : Z) : pmm_state :=
  Pmm (pmm_region_start s) (pmm_region_end s) (pmm_region_count s) v (pmm_used s)
      (pmm_bitmap s) (pmm_hint_frame s) (pmm_highest_end s) (pmm_initialized s).
Definition set_pmm_used (s : pmm_state) (v : Z) : pmm_state :=
  Pmm (pmm_region_start s) (pmm_region_end s) (pmm_region_count s) (pmm_total s) v
      (pmm_bitmap s) (pmm_hint_frame s) (pmm_highest_end s) (pmm_initialized s).
Definition set_pmm_bitmap (s : pmm_state) (v : array) : pmm_state :=
  Pmm (pmm_region_start s) (pmm_region_end s) (pmm_region_count s) (pmm_total s) (pmm_used s)
      v (pmm_hint_frame s) (pmm_highest_end s) (pmm_initialized s).
Definition set_pmm_hint (s : pmm_state) (v : Z) : pmm_state :=
  Pmm (pmm_region_start s) (pmm_region_end s) (pmm_region_count s) (pmm_total s) (pmm_used s)
      (pmm_bitmap s) v (pmm_highest_end s) (pmm_initialized s).
Definition set_pmm_initialized (s : pmm_state) (v : bool) : pmm_state :=
  Pmm (pmm_region_start s) (pmm_region_end s) (pmm_region_count s) (pmm_total s) (pmm_used s)
      (pmm_bitmap s) (pmm_hint_frame s) (pmm_highest_end s) v.

(** kernel/multiboot.h *)
Record multiboot_info_t := MultibootInfo {
  mbi_flags : Z;
  mbi_mem_lower : Z;
  mbi_mem_upper : Z;
  mbi_boot_device : Z;
  mbi_cmdline : Z;
  mbi_mods_count : Z;
  mbi_mods_addr : Z;
  mbi_syms : list Z;
  mbi_mmap_length : Z;
  mbi_mmap_addr : Z;
}.
Definition MULTIBOOT_INFO_MMAP_FLAG : Z := Z.shiftl 1 6.
Definition sizeof_multiboot_info : Z := 52.
Definition sizeof_multiboot_module : Z := 16.

(** The fields of a packed [multiboot_mmap_entry_t] and of a
    [multiboot_module_t], read from memory. *)
Definition mmap_size (m : mem) (e : Z) : Z := rd32 m e.
Definition mmap_base (m : mem) (e : Z) : Z := rd64 m (e + 4).
Definition mmap_len (m : mem) (e : Z) : Z := rd64 m (e + 12).
Definition mmap_type (m : mem) (e : Z) : Z := rd32 m (e + 20).
Definition mod_start (m : mem) (e : Z) : Z := rd32 m e.
Definition mod_end (m : mem) (e : Z) : Z := rd32 m (e + 4).
Definition mod_string (m : mem) (e : Z) : Z := rd32 m (e + 8).

(** ** Operations *)

Definition align_up_4k (value : Z) : Z := Z.land (value ⊞ (PAGE_SIZE - 1)) (not32 (PAGE_SIZE - 1)).
Definition align_down_4k (value : Z) : Z := Z.land value (not32 (PAGE_SIZE - 1)).

Definition pmm_bit_is_set (s : pmm_state) (i : Z) : bool :=
  negb (Z.land (aget (pmm_bitmap s) (Z.shiftr i 5)) (Z.shiftl 1 (Z.land i 31)) =? 0).

Definition pmm_set_bit (s : pmm_state) (i : Z) : pmm_state :=
  let w := Z.shiftr i 5 in
  set_pmm_bitmap s (aset (pmm_bitmap s) w (Z.lor (aget (pmm_bitmap s) w) (Z.shiftl 1 (Z.land i 31)))).

Definition pmm_clear_bit (s : pmm_state) (i : Z) : pmm_state :=
  let w := Z.shiftr i 5 in
  set_pmm_bitmap s
    (aset (pmm_bitmap s) w (Z.land (aget (pmm_bitmap s) w) (not32 (Z.shiftl 1 (Z.land i 31))))).

Definition pmm_frame_in_regions (s : pmm_state) (frame : Z) : bool :=
  existsb (fun i => (aget (pmm_region_start s) i <=? frame) && (frame <? aget (pmm_region_end s) i))
          (seqZ 0 (pmm_region_count s)).

(** Iterations of a walk over all frames of the address space. *)
Definition FRAME_FUEL : nat := Z.to_nat (PMM_MAX_FRAMES + 1).

Definition mark_body (limit : Z) (st : Z * pmm_state) : (Z * pmm_state) + pmm_state :=
  let '(frame, s) := st in
  if negb (frame <? limit) then inr s else
  let frame_index := frame / PAGE_SIZE in
  if PMM_MAX_FRAMES <=? frame_index then inr s else
  let s := if pmm_bit_is_set s frame_index
           then let s := pmm_clear_bit s frame_index in set_pmm_total s (pmm_total s ⊞ 1)
           else s in
  inl (frame ⊞ PAGE_SIZE, s).

Definition pmm_mark_region_usable (s : pmm_state) (start end_ : Z) : option pmm_state :=
  loop FRAME_FUEL (mark_body (align_down_4k end_)) (align_up_4k start, s).

Definition reserve_body (limit : Z) (st : Z * pmm_state) : (Z * pmm_state) + pmm_state :=
  let '(frame, s) := st in
  if negb (frame <? limit) then inr s else
  let frame_index := frame / PAGE_SIZE in
  if PMM_MAX_FRAMES <=? frame_index then inr s else
  let s := if pmm_frame_in_regions s frame && negb (pmm_bit_is_set s frame_index)
           then let s := pmm_set_bit s frame_index in set_pmm_used s (pmm_used s ⊞ 1)
           else s in
  inl (frame ⊞ PAGE_SIZE, s).

Definition pmm_reserve_range (s : pmm_state) (start end_ : Z) : option pmm_state :=
  let start_aligned := align_down_4k start in
  let end_aligned := align_up_4k end_ in
  if end_aligned <=? start_aligned then Some s else
  loop FRAME_FUEL (reserve_body end_aligned) (start_aligned, s).

(** The bounded string-length loops of [pmm_reserve_multiboot_data]: the length
    with its terminator, at most 4096. *)
Definition boot_string_bytes (m : mem) (p : Z) : option Z :=
  len ← loop 4097 (fun len => if negb (len <? 4096) then inr len
                              else if rd8 m (p ⊞ len) =? 0 then inr (len + 1)
                              else inl (len + 1)) 0;
  Some (if len =? 0 then 1 else len).

Fixpoint reserve_modules (m : mem) (mods : Z) (n : nat) (i : Z) (s : pmm_state) : option pmm_state :=
  match n with
  | O => Some s
  | S n' =>
      let md := mods ⊞ (i * sizeof_multiboot_module) in
      s ← (if mod_start m md <? mod_end m md
           then pmm_reserve_range s (mod_start m md) (mod_end m md) else Some s);
      s ← (if negb (mod_string m md =? 0)
           then len ← boot_string_bytes m (mod_string m md);
                pmm_reserve_range s (mod_string m md) (mod_string m md ⊞ len)
           else Some s);
      reserve_modules m mods n' (i + 1) s
  end.

Definition pmm_reserve_multiboot_data (m : mem) (mbi_addr : Z) (mbi : multiboot_info_t)
    (s : pmm_state) : option pmm_state :=
  s ← pmm_reserve_range s mbi_addr (mbi_addr ⊞ sizeof_multiboot_info);
  s ← (if negb (Z.land (mbi_flags mbi) MULTIBOOT_INFO_MMAP_FLAG =? 0)
       then pmm_reserve_range s (mbi_mmap_addr mbi) (mbi_mmap_addr mbi ⊞ mbi_mmap_length mbi)
       else Some s);
  s ← (if negb (mbi_cmdline mbi =? 0)
       then len ← boot_string_bytes m (mbi_cmdline mbi);
            pmm_reserve_range s (mbi_cmdline mbi) (mbi_cmdline mbi ⊞ len)
       else Some s);
  if (0 <? mbi_mods_count mbi) && negb (mbi_mods_addr mbi =? 0)
  then let mods_bytes := mbi_mods_count mbi ⊠ sizeof_multiboot_module in
       s ← pmm_reserve_range s (mbi_mods_addr mbi) (mbi_mods_addr mbi ⊞ mods_bytes);
       reserve_modules m (mbi_mods_addr mbi) (Z.to_nat (mbi_mods_count mbi)) 0 s
  else Some s.

(** The bounds a usable memory-map entry contributes, before the page-index
    checks of the caller: [None] when the clipped range is empty. *)
Definition pmm_entry_region (base len required_start : Z) : option (Z * Z) :=
  let region_start_64 := base in
  let region_end_64 := (base + len) `mod` 18446744073709551616 in
  let region_start_64 := if region_start_64 <? 1048576 then 1048576 else region_start_64 in
  let region_end_64 := if UINT32_MAX <? region_end_64 then UINT32_MAX else region_end_64 in
  if region_start_64 <? region_end_64 then
    let region_start := align_up_4k (u32 region_start_64) in
    let region_end := Z.land (u32 region_end_64) (not32 (PAGE_SIZE - 1)) in
    let region_start := if region_start <? required_start
                        then align_up_4k required_start else region_start in
    if region_start <? region_end then Some (region_start, region_end) else None
  else None.

Definition pmm_add_region (s : pmm_state) (region_start region_end : Z) : option pmm_state :=
  let c := pmm_region_count s in
  pmm_mark_region_usable
    (Pmm (aset (pmm_region_start s) c region_start) (aset (pmm_region_end s) c region_end)
         (c + 1) (pmm_total s) (pmm_used s) (pmm_bitmap s) (pmm_hint_frame s)
         (if pmm_highest_end s <? region_end then region_end else pmm_highest_end s)
         (pmm_initialized s))
    region_start region_end.

Definition pmm_add_entry (m : mem) (required_start entry : Z) (s : pmm_state) : option pmm_state :=
  if mmap_type m entry =? 1 then
    match pmm_entry_region (mmap_base m entry) (mmap_len m entry) required_start with
    | Some (region_start, region_end) =>
        if pmm_region_count s <? PMM_MAX_REGIONS
        then pmm_add_region s region_start region_end else Some s
    | None => Some s
    end
  else Some s.

Fixpoint scan_mmap (m : mem) (required_start mmap_end : Z) (fuel : nat) (entry : Z) (s : pmm_state)
  : option pmm_state :=
  match fuel with
  | O => None
  | S n =>
      if entry <? mmap_end then
        s ← pmm_add_entry m required_start entry s;
        scan_mmap m required_start mmap_end n (entry ⊞ (mmap_size m entry + 4)) s
      else Some s
  end.

Definition fill_bitmap (bm : array) : array :=
  fold_left (fun b i => aset b i UINT32_MAX) (seqZ 0 PMM_BITMAP_WORDS) bm.

(** [None]: a loop did not finish within its fuel. *)
Definition pmm_init (m : mem) (mbi_addr : Z) (mbi : multiboot_info_t) (kernel_end : Z)
    (s : pmm_state) : option pmm_state :=
  if Z.land (mbi_flags mbi) MULTIBOOT_INFO_MMAP_FLAG =? 0
  then Some (set_pmm_initialized s false) else
  let mmap_end := mbi_mmap_addr mbi ⊞ mbi_mmap_length mbi in
  let required_start := align_up_4k kernel_end in
  let s := Pmm (pmm_region_start s) (pmm_region_end s) 0 0 0 (fill_bitmap (pmm_bitmap s)) 0 0 false in
  s ← scan_mmap m required_start mmap_end (Z.to_nat (mbi_mmap_length mbi + 1)) (mbi_mmap_addr mbi) s;
  if pmm_region_count s =? 0 then Some (set_pmm_initialized s false) else
  s ← pmm_reserve_multiboot_data m mbi_addr mbi s;
  Some (set_pmm_initialized s true).

Fixpoint alloc_scan (n : nat) (frame_index : Z) (s : pmm_state) : Z * pmm_state :=
  match n with
  | O => (0, s)
  | S n' =>
      let next := let i := frame_index + 1 in if PMM_MAX_FRAMES <=? i then 0 else i in
      if negb (pmm_bit_is_set s frame_index) then
        let frame := frame_index ⊠ PAGE_SIZE in
        if pmm_frame_in_regions s frame then
          let s := pmm_set_bit s frame_index in
          let s := set_pmm_hint s ((frame_index + 1) `mod` PMM_MAX_FRAMES) in
          (frame, set_pmm_used s (pmm_used s ⊞ 1))
        else alloc_scan n' next s
      else alloc_scan n' next s
  end.

Definition SCAN_STEPS : nat := Z.to_nat PMM_MAX_FRAMES.

Definition pmm_alloc_frame (s : pmm_state) : Z * pmm_state :=
  if negb (pmm_initialized s) then (0, s) else
  if pmm_total s <=? pmm_used s then (0, s) else
  alloc_scan SCAN_STEPS (pmm_hint_frame s) s.

Definition pmm_free_frame (frame : Z) (s : pmm_state) : bool * pmm_state :=
  let frame_addr := Z.land frame (not32 (PAGE_SIZE - 1)) in
  let frame_index := frame_addr / PAGE_SIZE in
  if negb (pmm_initialized s) then (false, s) else
  if negb (Z.land frame (PAGE_SIZE - 1) =? 0) then (false, s) else
  if PMM_MAX_FRAMES <=? frame_index then (false, s) else
  if negb (pmm_frame_in_regions s frame_addr) then (false, s) else
  if negb (pmm_bit_is_set s frame_index) then (false, s) else
  let s := pmm_clear_bit s frame_index in
  let s := if frame_index <? pmm_hint_frame s then set_pmm_hint s frame_index else s in
  let s := if 0 <? pmm_used s then set_pmm_used s (pmm_used s - 1) else s in
  (true, s).

Definition pmm_total_frames (s : pmm_state) : Z := if negb (pmm_initialized s) then 0 else pmm_total s.
Definition pmm_used_frames (s : pmm_state) : Z := if negb (pmm_initialized s) then 0 else pmm_used s.
Definition pmm_free_frames (s : pmm_state) : Z :=
  if negb (pmm_initialized s) || (pmm_total s <=? pmm_used s) then 0 else pmm_total s ⊟ pmm_used s.
Definition pmm_highest_address (s : pmm_state) : Z :=
  if negb (pmm_initialized s) then 0 else pmm_highest_end s.
Definition pmm_ready (s : pmm_state) : bool := pmm_initialized s.

(** ** Invariant and abstract view

    A frame index is [managed] when its frame lies in a usable region, and
    [usable] when it is managed and its bit is clear: the allocator may hand it
    out. [pmm_ok] is the invariant of the static variables: only managed frames
    have a clear bit, and the two counters count what they say. *)

Definition managed (s : pmm_state) (i : Z) : bool := pmm_frame_in_regions s (i * PAGE_SIZE).
Definition usable (s : pmm_state) (i : Z) : bool := managed s i && negb (pmm_bit_is_set s i).

Definition region_ok (s : pmm_state) (r : Z) : Prop :=
  let a := aget (pmm_region_start s) r in
  let b := aget (pmm_region_end s) r in
  0 < a < b /\ a `mod` PAGE_SIZE = 0 /\ b `mod` PAGE_SIZE = 0.

Record pmm_ok (s : pmm_state) : Prop := {
  ok_hint : 0 <= pmm_hint_frame s < PMM_MAX_FRAMES;
  ok_count : 0 <= pmm_region_count s <= PMM_MAX_REGIONS;
  ok_regions : forall r, 0 <= r < pmm_region_count s -> region_ok s r;
  ok_bits : forall i, 0 <= i < PMM_MAX_FRAMES -> pmm_bit_is_set s i = false -> managed s i = true;
  ok_total : pmm_total s = count (managed s) 0 PMM_MAX_FRAMES;
  ok_used : pmm_used s = count (fun i => managed s i && pmm_bit_is_set s i) 0 PMM_MAX_FRAMES;
}.

(** ** Lemmas *)

Lemma FRAME_FUEL_eq : Z.of_nat FRAME_FUEL = 1048577.
Proof. unfold FRAME_FUEL, PMM_MAX_FRAMES. lia. Qed.
#[global] Opaque FRAME_FUEL.

Lemma SCAN_STEPS_eq : Z.of_nat SCAN_STEPS = PMM_MAX_FRAMES.
Proof. unfold SCAN_STEPS, PMM_MAX_FRAMES. lia. Qed.
#[global] Opaque SCAN_STEPS.

Lemma page_mask_const : not32 (PAGE_SIZE - 1) = 4294963200.
Proof. reflexivity. Qed.

Lemma align_down_eq v : is_u32 v -> align_down_4k v = v - v `mod` 4096.
Proof. intros. unfold align_down_4k. rewrite page_mask_const. by apply page_mask. Qed.

Lemma align_up_eq v : align_up_4k v = (v ⊞ 4095) - (v ⊞ 4095) `mod` 4096.
Proof. unfold align_up_4k. rewrite page_mask_const. apply page_mask, u32_range. Qed.

(** Rounding up gives the least multiple of the page size above, unless it
    wraps to 0 in the last page of the address space. *)
Lemma align_up_cases v :
  is_u32 v ->
  align_up_4k v `mod` 4096 = 0 /\
  (v <= 4294963200 /\ v <= align_up_4k v < v + 4096 /\ align_up_4k v <= 4294963200 \/
   4294963200 < v /\ align_up_4k v = 0).
Proof.
  intros Hv. unfold is_u32 in Hv. rewrite align_up_eq.
  destruct (decide (v <= 4294963200)).
  - rewrite (u32_small (v + 4095)) by lia. split; [|left]; Z.div_mod_to_equations; lia.
  - assert (u32 (v + 4095) = v + 4095 - 4294967296) as ->.
    { unfold u32. rewrite <- (Z.mod_add _ (-1)) by lia. apply Z.mod_small. lia. }
    split; [|right]; Z.div_mod_to_equations; lia.
Qed.

Lemma align_up_range v : is_u32 v -> is_u32 (align_up_4k v).
Proof. intros H. pose proof (align_up_cases v H). unfold is_u32 in *. lia. Qed.

Lemma bit_is_set_testbit s i :
  0 <= i -> pmm_bit_is_set s i = Z.testbit (aget (pmm_bitmap s) (i / 32)) (i `mod` 32).
Proof.
  intros Hi. unfold pmm_bit_is_set. rewrite Z.shiftr_div_pow2 by lia.
  change 31 with (Z.ones 5). rewrite Z.land_ones by lia.
  change (2 ^ 5) with 32. apply bit_test. apply Z.mod_pos_bound. lia.
Qed.

Lemma divmod32_inj i j : 0 <= i -> 0 <= j -> i / 32 = j / 32 -> i `mod` 32 = j `mod` 32 -> i = j.
Proof. intros. Z.div_mod_to_equations. lia. Qed.

Lemma shiftl_bit_u32 k : 0 <= k < 32 -> is_u32 (Z.shiftl 1 k).
Proof.
  intros. unfold is_u32. rewrite Z.shiftl_1_l. pose proof (Z.pow_pos_nonneg 2 k).
  pose proof (Z.pow_lt_mono_r 2 k 32). lia.
Qed.

(** Both bit writes replace one word: the common shape of the two lemmas below. *)
Lemma write_bit_spec s i j (f : Z -> Z) b :
  0 <= i -> 0 <= j ->
  is_u32 (f (aget (pmm_bitmap s) (i / 32))) ->
  (forall k, 0 <= k < 32 -> Z.testbit (f (aget (pmm_bitmap s) (i / 32))) k =
     if k =? i `mod` 32 then b else Z.testbit (aget (pmm_bitmap s) (i / 32)) k) ->
  pmm_bit_is_set (set_pmm_bitmap s (aset (pmm_bitmap s) (i / 32) (f (aget (pmm_bitmap s) (i / 32))))) j
  = if i =? j then b else pmm_bit_is_set s j.
Proof.
  intros Hi Hj Hu Hk. rewrite !bit_is_set_testbit by lia. simpl. rewrite aget_aset.
  pose proof (Z.mod_pos_bound j 32 ltac:(lia)). case_decide as Hd.
  - rewrite u32_small by done. rewrite Hk by lia.
    destruct (Z.eqb_spec (j `mod` 32) (i `mod` 32)), (Z.eqb_spec i j); subst; try done.
    + by destruct (divmod32_inj i j).
    + by rewrite Hd.
  - destruct (Z.eqb_spec i j); subst; done.
Qed.

Lemma bit_set_spec s i j :
  0 <= i -> 0 <= j ->
  pmm_bit_is_set (pmm_set_bit s i) j = if i =? j then true else pmm_bit_is_set s j.
Proof.
  intros Hi Hj. unfold pmm_set_bit. rewrite Z.shiftr_div_pow2 by lia.
  change 31 with (Z.ones 5). rewrite Z.land_ones by lia. change (2 ^ 5) with 32.
  pose proof (Z.mod_pos_bound i 32 ltac:(lia)).
  apply (write_bit_spec s i j (fun w => Z.lor w (Z.shiftl 1 (i `mod` 32)))); auto.
  - apply lor_u32; [apply aget_range | by apply shiftl_bit_u32].
  - intros k Hk. rewrite testbit_lor_bit by lia. rewrite (Z.eqb_sym k).
    destruct (_ =? _); by rewrite ?orb_true_r, ?orb_false_r.
Qed.

Lemma bit_clear_spec s i j :
  0 <= i -> 0 <= j ->
  pmm_bit_is_set (pmm_clear_bit s i) j = if i =? j then false else pmm_bit_is_set s j.
Proof.
  intros Hi Hj. unfold pmm_clear_bit. rewrite Z.shiftr_div_pow2 by lia.
  change 31 with (Z.ones 5). rewrite Z.land_ones by lia. change (2 ^ 5) with 32.
  pose proof (Z.mod_pos_bound i 32 ltac:(lia)).
  apply (write_bit_spec s i j (fun w => Z.land w (not32 (Z.shiftl 1 (i `mod` 32))))); auto.
  - apply land_u32; [apply aget_range |]. unfold not32, UINT32_MAX. apply Z.lxor_nonneg.
    pose proof (shiftl_bit_u32 (i `mod` 32) ltac:(lia)). unfold is_u32 in *. lia.
  - intros k Hk. rewrite testbit_land_not32_bit by lia. rewrite (Z.eqb_sym k).
    destruct (_ =? _); by rewrite ?andb_true_r, ?andb_false_r.
Qed.

(** *** The two state changes of the allocator: taking and releasing a frame *)

Definition occupy (s : pmm_state) (i : Z) : pmm_state :=
  set_pmm_used (pmm_set_bit s i) (pmm_used s ⊞ 1).
Definition release (s : pmm_state) (i : Z) : pmm_state :=
  set_pmm_used (pmm_clear_bit s i) (pmm_used s - 1).

Lemma managed_bit s i : usable s i = true <-> managed s i = true /\ pmm_bit_is_set s i = false.
Proof. unfold usable. rewrite andb_true_iff, negb_true_iff. done. Qed.

Lemma in_regions_spec s frame :
  pmm_frame_in_regions s frame = true <->
  exists r, 0 <= r < pmm_region_count s /\
            aget (pmm_region_start s) r <= frame < aget (pmm_region_end s) r.
Proof.
  unfold pmm_frame_in_regions. rewrite existsb_exists. split.
  - intros (r & Hr & Hb). exists r. apply list_elem_of_In, elem_of_seqZ in Hr. bool_simp. lia.
  - intros (r & Hr & Hb). exists r. split; [apply list_elem_of_In, elem_of_seqZ; lia|].
    apply andb_true_iff. rewrite Z.leb_le, Z.ltb_lt. lia.
Qed.

(** A frame of a region is a page-aligned, non-null 32-bit address. *)
Lemma managed_range s i : pmm_ok s -> managed s i = true -> 0 < i < PMM_MAX_FRAMES.
Proof.
  intros Hok Hm. apply in_regions_spec in Hm as (r & Hr & Hb).
  destruct (ok_regions s Hok r Hr) as (Ha & Hma & Hmb). unfold PAGE_SIZE, PMM_MAX_FRAMES in *.
  pose proof (aget_range (pmm_region_end s) r).
  Z.div_mod_to_equations. lia.
Qed.

Lemma used_le_total s : pmm_ok s -> pmm_used s <= pmm_total s.
Proof.
  intros Hok. rewrite (ok_total s Hok), (ok_used s Hok).
  apply count_le. intros. bool_simp. done.
Qed.

Lemma total_le_max s : pmm_ok s -> pmm_total s <= PMM_MAX_FRAMES.
Proof.
  intros Hok. rewrite (ok_total s Hok). etrans; [apply count_le_length|]; unfold PMM_MAX_FRAMES; lia.
Qed.

Lemma used_nonneg s : pmm_ok s -> 0 <= pmm_used s.
Proof. intros Hok. rewrite (ok_used s Hok). apply count_nonneg. Qed.

(** The free counter counts the usable frames. *)
Lemma free_count s : pmm_ok s -> pmm_total s - pmm_used s = count (usable s) 0 PMM_MAX_FRAMES.
Proof.
  intros Hok. rewrite (ok_total s Hok), (ok_used s Hok).
  generalize PMM_MAX_FRAMES at 1 2 3 as n. intros n.
  destruct (decide (n <= 0)); [by rewrite !count_nil by lia|].
  remember (Z.to_nat n) as k eqn:Hk. revert n Hk n0.
  induction k as [|k IH]; intros n Hk Hn; [lia|].
  rewrite !(count_split _ 0 (n - 1) n) by lia.
  rewrite !(count_cons _ (n - 1) n), !(count_nil _ (n - 1 + 1) n) by lia.
  destruct (decide (n - 1 <= 0)).
  - rewrite !(count_nil _ 0 (n - 1)) by lia. unfold usable.
    destruct (managed s (n - 1)), (pmm_bit_is_set s (n - 1)); simpl; lia.
  - specialize (IH (n - 1) ltac:(lia) ltac:(lia)). unfold usable in *.
    destruct (managed s (n - 1)), (pmm_bit_is_set s (n - 1)); simpl; lia.
Qed.

Lemma usable_exists s :
  pmm_ok s -> pmm_used s < pmm_total s -> exists i, 0 <= i < PMM_MAX_FRAMES /\ usable s i = true.
Proof.
  intros Hok Hlt. rewrite (ok_total s Hok), (ok_used s Hok) in Hlt.
  apply count_lt_exists in Hlt as (i & Hi & Hm & Hn). exists i. split; [done|].
  rewrite Hm in Hn. simpl in Hn. unfold usable. by rewrite Hm, Hn.
Qed.

Lemma usable_used_lt s i :
  pmm_ok s -> 0 <= i < PMM_MAX_FRAMES -> usable s i = true -> pmm_used s < pmm_total s.
Proof.
  intros Hok Hi Hu.
  assert (0 < count (usable s) 0 PMM_MAX_FRAMES); [|pose proof (free_count s Hok); lia].
  rewrite (count_split _ 0 i), (count_cons _ i) by lia. rewrite Hu.
  pose proof (count_nonneg (usable s) 0 i). pose proof (count_nonneg (usable s) (i + 1) PMM_MAX_FRAMES). lia.
Qed.

Lemma take_bit s i j : 0 <= i -> 0 <= j ->
  pmm_bit_is_set (occupy s i) j = if i =? j then true else pmm_bit_is_set s j.
Proof. intros. change (pmm_bit_is_set (pmm_set_bit s i) j = if i =? j then true else pmm_bit_is_set s j).
  by apply bit_set_spec. Qed.

Lemma release_bit s i j : 0 <= i -> 0 <= j ->
  pmm_bit_is_set (release s i) j = if i =? j then false else pmm_bit_is_set s j.
Proof. intros. change (pmm_bit_is_set (pmm_clear_bit s i) j = if i =? j then false else pmm_bit_is_set s j).
  by apply bit_clear_spec. Qed.

Lemma take_ok s i :
  pmm_ok s -> 0 <= i < PMM_MAX_FRAMES -> usable s i = true ->
  pmm_ok (occupy s i) /\ pmm_used (occupy s i) = pmm_used s + 1.
Proof.
  intros Hok Hi Hu. pose proof (usable_used_lt s i Hok Hi Hu). pose proof (total_le_max s Hok).
  pose proof (used_nonneg s Hok). apply managed_bit in Hu as [Hm Hb].
  assert (pmm_used (occupy s i) = pmm_used s + 1) as Hused.
  { unfold occupy. simpl. apply u32_small. unfold PMM_MAX_FRAMES in *. lia. }
  split; [|done]. destruct Hok. split; try done.
  - intros j Hj. rewrite take_bit by lia. destruct (Z.eqb_spec i j); [done|]. by apply ok_bits0.
  - rewrite Hused, ok_used0. symmetry.
    apply (count_flip _ _ 0 PMM_MAX_FRAMES i); auto.
    + by rewrite Hb, andb_false_r.
    + rewrite take_bit, Z.eqb_refl, andb_true_r by lia. done.
    + intros j Hj Hne. rewrite take_bit by lia. by destruct (Z.eqb_spec i j); subst.
Qed.

Lemma release_ok s i :
  pmm_ok s -> 0 <= i < PMM_MAX_FRAMES -> managed s i = true -> pmm_bit_is_set s i = true ->
  0 < pmm_used s /\ pmm_ok (release s i).
Proof.
  intros Hok Hi Hm Hb.
  assert (pmm_used s = count (fun j => managed s j && pmm_bit_is_set (release s i) j) 0 PMM_MAX_FRAMES + 1) as Hc.
  { rewrite (ok_used s Hok). apply (count_flip _ _ 0 PMM_MAX_FRAMES i); auto.
    - rewrite release_bit, Z.eqb_refl, andb_false_r by lia. done.
    - by rewrite Hm, Hb.
    - intros j Hj Hne. rewrite release_bit by lia. by destruct (Z.eqb_spec i j); subst. }
  split; [rewrite Hc; match goal with |- context [count ?P ?a ?b] => pose proof (count_nonneg P a b) end; lia|].
  destruct Hok. split; try done.
  - intros j Hj. rewrite release_bit by lia. destruct (Z.eqb_spec i j); [by subst|]. by apply ok_bits0.
  - change (pmm_used s - 1 =
            count (fun j => managed s j && pmm_bit_is_set (release s i) j) 0 PMM_MAX_FRAMES). lia.
Qed.

(** *** Allocation: the cyclic next-fit scan *)

Definition cyc (k j : Z) : Z := (k + j) `mod` PMM_MAX_FRAMES.

Lemma cyc_range k j : 0 <= cyc k j < PMM_MAX_FRAMES.
Proof. apply Z.mod_pos_bound. reflexivity. Qed.

Lemma cyc_0 k : 0 <= k < PMM_MAX_FRAMES -> cyc k 0 = k.
Proof. intros. unfold cyc. rewrite Z.add_0_r. by apply Z.mod_small. Qed.

Lemma cyc_next k : 0 <= k < PMM_MAX_FRAMES ->
  (if PMM_MAX_FRAMES <=? k + 1 then 0 else k + 1) = cyc k 1.
Proof.
  intros Hk. unfold cyc. case_if.
  - replace (k + 1) with PMM_MAX_FRAMES by lia. by rewrite Z.mod_same.
  - by rewrite Z.mod_small by lia.
Qed.

Lemma cyc_cyc k i j : cyc (cyc k i) j = cyc k (i + j).
Proof.
  unfold cyc. rewrite Z.add_mod_idemp_l by (unfold PMM_MAX_FRAMES; lia). f_equal. lia.
Qed.

(** Every frame index is reached by the scan within one round. *)
Lemma cyc_covers k i : 0 <= k < PMM_MAX_FRAMES -> 0 <= i < PMM_MAX_FRAMES ->
  exists j, 0 <= j < PMM_MAX_FRAMES /\ cyc k j = i.
Proof.
  intros Hk Hi. exists (cyc i (- k)). split; [apply cyc_range|]. unfold cyc.
  rewrite Z.add_mod_idemp_r by (unfold PMM_MAX_FRAMES; lia).
  replace (k + (i + - k)) with i by lia. by apply Z.mod_small.
Qed.

Definition taken (s : pmm_state) (i : Z) : pmm_state :=
  set_pmm_hint (occupy s i) ((i + 1) `mod` PMM_MAX_FRAMES).

Lemma index_frame i : 0 <= i < PMM_MAX_FRAMES -> i ⊠ PAGE_SIZE = i * PAGE_SIZE.
Proof. intros. apply u32_small. unfold PMM_MAX_FRAMES, PAGE_SIZE in *. lia. Qed.

Lemma alloc_scan_spec s n : forall k, 0 <= k < PMM_MAX_FRAMES ->
  (exists j, 0 <= j < Z.of_nat n /\ usable s (cyc k j) = true /\
     (forall j', 0 <= j' < j -> usable s (cyc k j') = false) /\
     alloc_scan n k s = (cyc k j * PAGE_SIZE, taken s (cyc k j))) \/
  ((forall j, 0 <= j < Z.of_nat n -> usable s (cyc k j) = false) /\ alloc_scan n k s = (0, s)).
Proof.
  induction n as [|n IH]; intros k Hk; [right; split; [lia|done]|].
  assert (alloc_scan (S n) k s =
    if usable s k then (k * PAGE_SIZE, taken s k) else alloc_scan n (cyc k 1) s) as ->.
  { simpl. rewrite cyc_next, index_frame by done. unfold usable, managed.
    destruct (pmm_bit_is_set s k), (pmm_frame_in_regions s (k * PAGE_SIZE)); done. }
  destruct (usable s k) eqn:Hu.
  - left. exists 0. rewrite !cyc_0 by done. split_and!; auto; lia.
  - destruct (IH (cyc k 1) (cyc_range k 1)) as [(j & Hj & Hju & Hf & E)|(Hn & E)].
    + left. exists (1 + j). rewrite cyc_cyc in *. split_and!; auto; try lia.
      intros j' Hj'. destruct (decide (j' = 0)) as [->|]; [by rewrite cyc_0|].
      specialize (Hf (j' - 1)). rewrite cyc_cyc in Hf. replace (1 + (j' - 1)) with j' in Hf by lia.
      apply Hf. lia.
    + right. split; [|done]. intros j Hj. destruct (decide (j = 0)) as [->|]; [by rewrite cyc_0|].
      specialize (Hn (j - 1)). rewrite cyc_cyc in Hn. replace (1 + (j - 1)) with j in Hn by lia.
      apply Hn. lia.
Qed.

Lemma hint_ok s h : pmm_ok s -> 0 <= h < PMM_MAX_FRAMES -> pmm_ok (set_pmm_hint s h).
Proof. intros [] Hh. by split. Qed.

Lemma taken_ok s i :
  pmm_ok s -> 0 <= i < PMM_MAX_FRAMES -> usable s i = true -> pmm_ok (taken s i).
Proof. intros. apply hint_ok; [by apply take_ok | apply Z.mod_pos_bound; reflexivity]. Qed.

(** What a call of [pmm_alloc_frame] does: nothing when no frame is usable,
    and otherwise it takes the first usable frame at or after the hint. *)
Lemma alloc_cases s :
  pmm_ok s -> pmm_initialized s = true ->
  (pmm_alloc_frame s = (0, s) /\ forall i, 0 <= i < PMM_MAX_FRAMES -> usable s i = false) \/
  (exists j, 0 <= j < PMM_MAX_FRAMES /\ usable s (cyc (pmm_hint_frame s) j) = true /\
     (forall j', 0 <= j' < j -> usable s (cyc (pmm_hint_frame s) j') = false) /\
     pmm_alloc_frame s =
       (cyc (pmm_hint_frame s) j * PAGE_SIZE, taken s (cyc (pmm_hint_frame s) j))).
Proof.
  intros Hok Hinit. pose proof (ok_hint s Hok) as Hh. unfold pmm_alloc_frame. rewrite Hinit. simpl.
  case_if.
  - left. split; [done|]. intros i Hi. destruct (usable s i) eqn:Hu; [|done].
    pose proof (usable_used_lt s i Hok Hi Hu). lia.
  - destruct (alloc_scan_spec s SCAN_STEPS _ Hh) as [(j & Hj & Hu & Hf & E)|(Hn & E)];
      rewrite SCAN_STEPS_eq in *.
    + right. exists j. auto.
    + left. split; [exact E|]. intros i Hi. destruct (cyc_covers _ i Hh Hi) as (j & Hj & <-).
      by apply Hn.
Qed.

Lemma usable_taken s i j : 0 <= i -> 0 <= j -> usable (taken s i) j = usable s j && negb (i =? j).
Proof.
  intros. unfold usable.
  change (pmm_bit_is_set (taken s i) j) with (pmm_bit_is_set (occupy s i) j).
  change (managed (taken s i) j) with (managed s j). rewrite take_bit by lia.
  destruct (i =? j); simpl; by rewrite ?andb_false_r, ?andb_true_r.
Qed.

(** *** Freeing *)

Definition freed (s : pmm_state) (i : Z) : pmm_state :=
  let s' := release s i in if i <? pmm_hint_frame s then set_pmm_hint s' i else s'.

(** [pmm_free_frame] accepts exactly the aligned addresses of managed frames
    that are in use, and leaves the state alone otherwise. *)
Lemma free_cases s f :
  pmm_ok s -> pmm_initialized s = true -> is_u32 f ->
  pmm_free_frame f s =
    if (f `mod` 4096 =? 0) && managed s (f / 4096) && pmm_bit_is_set s (f / 4096)
    then (true, freed s (f / 4096)) else (false, s).
Proof.
  intros Hok Hinit Hf. unfold pmm_free_frame. rewrite Hinit, page_mask_const, page_mask by done.
  change (PAGE_SIZE - 1) with 4095. rewrite offset_mask. cbn [negb].
  destruct (Z.eqb_spec (f `mod` 4096) 0) as [Hm|]; cbn [negb andb]; [|done].
  rewrite Hm, Z.sub_0_r. change PAGE_SIZE with 4096.
  unfold is_u32 in Hf. assert (0 <= f / 4096 < 1048576) as Hi by (Z.div_mod_to_equations; lia).
  unfold PMM_MAX_FRAMES. rewrite (proj2 (Z.leb_gt _ _)) by lia.
  assert (pmm_frame_in_regions s f = managed s (f / 4096)) as ->.
  { unfold managed, PAGE_SIZE. f_equal. Z.div_mod_to_equations. lia. }
  destruct (managed s (f / 4096)) eqn:Hmg; cbn [negb andb]; [|done].
  destruct (pmm_bit_is_set s (f / 4096)) eqn:Hb; cbn [negb andb]; [|done].
  destruct (release_ok s (f / 4096) Hok Hi Hmg Hb) as [Hpos _].
  unfold freed. change (pmm_hint_frame (pmm_clear_bit s (f / 4096))) with (pmm_hint_frame s).
  destruct (f / 4096 <? pmm_hint_frame s); cbn [pmm_used set_pmm_hint pmm_clear_bit set_pmm_bitmap];
    (rewrite (proj2 (Z.ltb_lt _ _)) by lia); done.
Qed.

Lemma freed_ok s i :
  pmm_ok s -> 0 <= i < PMM_MAX_FRAMES -> managed s i = true -> pmm_bit_is_set s i = true ->
  pmm_ok (freed s i).
Proof.
  intros. unfold freed. destruct (release_ok s i) as [_ Hr]; auto. case_if; [|done].
  apply hint_ok; [done|lia].
Qed.

Lemma usable_freed s i j : 0 <= i -> 0 <= j -> managed s i = true ->
  usable (freed s i) j = usable s j || (i =? j).
Proof.
  intros Hi Hj Hm. unfold usable.
  assert (managed (freed s i) j = managed s j) as -> by (unfold freed; by case_if).
  assert (pmm_bit_is_set (freed s i) j = pmm_bit_is_set (release s i) j) as ->
    by (unfold freed; by case_if).
  rewrite release_bit by lia. destruct (Z.eqb_spec i j); subst; rewrite ?Hm; simpl; by rewrite ?orb_true_r, ?orb_false_r.
Qed.

(** *** Initialisation: marking regions usable *)

(** While the memory map is read nothing is reserved yet: the clear bits are
    exactly the managed frames. *)
Record init_ok (s : pmm_state) : Prop := {
  io_hint : pmm_hint_frame s = 0;
  io_used : pmm_used s = 0;
  io_count : 0 <= pmm_region_count s <= PMM_MAX_REGIONS;
  io_regions : forall r, 0 <= r < pmm_region_count s -> region_ok s r;
  io_bits : forall i, 0 <= i < PMM_MAX_FRAMES -> pmm_bit_is_set s i = negb (managed s i);
  io_total : pmm_total s = count (managed s) 0 PMM_MAX_FRAMES;
}.

Lemma init_ok_pmm_ok s : init_ok s -> pmm_ok s.
Proof.
  intros []. split; auto.
  - unfold PMM_MAX_FRAMES. lia.
  - intros i Hi Hb. rewrite io_bits0 in Hb by done. by apply negb_false_iff.
  - rewrite io_used0. rewrite (count_ext _ (fun _ => false)).
    + pose proof (count_le (fun _ => false) (fun i => (i <? 0)) 0 PMM_MAX_FRAMES ltac:(done)).
      symmetry. rewrite count_unseal. unfold count_def. by rewrite List.filter_false.
    + intros i Hi. rewrite io_bits0 by done. by destruct (managed s i).
Qed.

Definition within (a b i : Z) : bool := (a <=? i * PAGE_SIZE) && (i * PAGE_SIZE <? b).

Lemma within_step a f k i :
  f = k * PAGE_SIZE -> a <= f ->
  within a (f + PAGE_SIZE) i = within a f i || (k =? i).
Proof.
  unfold within, PAGE_SIZE. intros -> Ha.
  destruct (Z.eqb_spec k i), (Z.leb_spec a (i * 4096)), (Z.ltb_spec (i * 4096) (k * 4096)),
    (Z.ltb_spec (i * 4096) (k * 4096 + 4096)); simpl; try done; lia.
Qed.

Lemma within_empty a i : within a a i = false.
Proof.
  unfold within. apply andb_false_iff. destruct (Z.leb_spec a (i * PAGE_SIZE)); [right|by left].
  apply Z.ltb_ge. lia.
Qed.

(** The walk of [pmm_mark_region_usable] after the frames of [a .. f): the frames
    of [M] and the ones walked over are usable and counted. *)
Definition marking (s : pmm_state) (M : Z -> bool) (a f : Z) (s' : pmm_state) : Prop :=
  exists bm t, s' = set_pmm_total (set_pmm_bitmap s bm) t /\
    (forall i, 0 <= i < PMM_MAX_FRAMES ->
       pmm_bit_is_set (set_pmm_bitmap s bm) i = negb (M i || within a f i)) /\
    t = count (fun i => M i || within a f i) 0 PMM_MAX_FRAMES.

Lemma marking_start s M a :
  (forall i, 0 <= i < PMM_MAX_FRAMES -> pmm_bit_is_set s i = negb (M i)) ->
  pmm_total s = count M 0 PMM_MAX_FRAMES -> marking s M a a s.
Proof.
  intros Hbits Htot. exists (pmm_bitmap s), (pmm_total s). split_and!; [by destruct s| |].
  - intros i Hi. rewrite within_empty, orb_false_r. by apply Hbits.
  - rewrite Htot. apply count_ext. intros. by rewrite within_empty, orb_false_r.
Qed.

Lemma marking_step s M a k s' :
  marking s M a (k * PAGE_SIZE) s' -> a <= k * PAGE_SIZE -> 0 <= k < PMM_MAX_FRAMES ->
  marking s M a (k * PAGE_SIZE + PAGE_SIZE)
    (if pmm_bit_is_set s' k
     then let s' := pmm_clear_bit s' k in set_pmm_total s' (pmm_total s' ⊞ 1) else s').
Proof.
  intros (bm & t & -> & Hbm & Ht) Ha Hk.
  assert (Hstep : forall i, within a (k * PAGE_SIZE + PAGE_SIZE) i = within a (k * PAGE_SIZE) i || (k =? i))
    by (intros; by apply within_step).
  assert (Hwk : within a (k * PAGE_SIZE) k = false).
  { unfold within. rewrite andb_false_iff, Z.ltb_ge. right. lia. }
  change (pmm_bit_is_set (set_pmm_total (set_pmm_bitmap s bm) t) k)
    with (pmm_bit_is_set (set_pmm_bitmap s bm) k).
  rewrite Hbm, Hwk, orb_false_r by done. destruct (M k) eqn:HMk; simpl negb; cbv beta iota.
  - exists bm, t. split_and!; [done|intros i Hi; rewrite Hbm by done|rewrite Ht; apply count_ext; intros i Hi];
      rewrite Hstep; destruct (Z.eqb_spec k i); subst; rewrite ?HMk; by rewrite ?orb_true_r, ?orb_false_r.
  - exists (pmm_bitmap (pmm_clear_bit (set_pmm_bitmap s bm) k)), (t + 1). split_and!.
    + simpl. rewrite u32_small; [done|]. rewrite Ht.
      match goal with |- context [count ?P 0 ?n] =>
        pose proof (count_nonneg P 0 n); pose proof (count_le_length P 0 n ltac:(done)) end.
      unfold PMM_MAX_FRAMES in *. lia.
    + intros i Hi. change (pmm_bit_is_set (pmm_clear_bit (set_pmm_bitmap s bm) k) i =
                           negb (M i || within a (k * PAGE_SIZE + PAGE_SIZE) i)).
      rewrite bit_clear_spec, Hbm, Hstep by lia.
      destruct (Z.eqb_spec k i); subst; by rewrite ?orb_true_r, ?orb_false_r.
    + rewrite Ht. symmetry. apply (count_flip _ _ 0 PMM_MAX_FRAMES k); auto.
      * by rewrite HMk.
      * rewrite Hstep, Z.eqb_refl. by rewrite !orb_true_r.
      * intros j Hj Hne. rewrite Hstep. destruct (Z.eqb_spec k j); [by subst|]. by rewrite orb_false_r.
Qed.

(** Both frame walks, [pmm_mark_region_usable] and [pmm_reserve_range], are this
    loop: [step] at every frame of [a .. b). *)
Lemma frame_walk (step : pmm_state -> Z -> pmm_state) (P : Z -> pmm_state -> Prop)
    (body : Z * pmm_state -> (Z * pmm_state) + pmm_state) a b s :
  0 <= a -> a <= b -> b < 4294967296 -> a `mod` 4096 = 0 -> b `mod` 4096 = 0 ->
  (forall f s', f `mod` 4096 = 0 -> body (f, s') =
     if negb (f <? b) then inr s' else
     if PMM_MAX_FRAMES <=? f / PAGE_SIZE then inr s' else inl (f ⊞ PAGE_SIZE, step s' (f / PAGE_SIZE))) ->
  (forall k s', 0 <= k < PMM_MAX_FRAMES -> a <= k * PAGE_SIZE < b -> P (k * PAGE_SIZE) s' ->
     P (k * PAGE_SIZE + PAGE_SIZE) (step s' k)) ->
  P a s -> exists s', loop FRAME_FUEL body (a, s) = Some s' /\ P b s'.
Proof.
  intros Ha Hab Hb Hma Hmb Hbody Hstep H0.
  apply (loop_total body
    (fun st => (a <= fst st <= b /\ fst st `mod` 4096 = 0) /\ P (fst st) (snd st))
    (fun s' => P b s') (fun st => (b - fst st) / 4096)).
  - intros [f s'] [[Hf Hmf] HP]. simpl fst in *; simpl snd in *. rewrite Hbody by done.
    destruct (f <? b) eqn:Hlt; bool_simp; simpl negb; cbv iota.
    2: { replace b with f by lia. done. }
    unfold PAGE_SIZE in *. set (k := f / 4096).
    assert (f = k * 4096 /\ 0 <= k < 1048576) as [Hfk Hk] by (subst k; Z.div_mod_to_equations; lia).
    unfold PMM_MAX_FRAMES at 1. rewrite (proj2 (Z.leb_gt _ _)) by lia.
    assert (f + 4096 <= b) by (Z.div_mod_to_equations; lia).
    rewrite (u32_small (f + 4096)) by lia. simpl fst; simpl snd.
    split; [|Z.div_mod_to_equations; lia]. split; [split; [lia|Z.div_mod_to_equations; lia]|].
    rewrite Hfk. apply Hstep; [done|lia|by rewrite <- Hfk].
  - simpl. split; [lia|done].
  - rewrite FRAME_FUEL_eq. simpl. Z.div_mod_to_equations; lia.
  - simpl. Z.div_mod_to_equations; lia.
Qed.

Lemma mark_loop s a b (M : Z -> bool) :
  0 <= a -> a <= b -> b < 4294967296 -> a `mod` 4096 = 0 -> b `mod` 4096 = 0 ->
  marking s M a a s -> exists s', loop FRAME_FUEL (mark_body b) (a, s) = Some s' /\ marking s M a b s'.
Proof.
  intros. eapply (frame_walk (fun s' k => if pmm_bit_is_set s' k
    then let s' := pmm_clear_bit s' k in set_pmm_total s' (pmm_total s' ⊞ 1) else s')
    (marking s M a)); auto.
  intros. apply marking_step; auto. lia.
Qed.

Lemma align_up_aligned a : is_u32 a -> a `mod` 4096 = 0 -> align_up_4k a = a.
Proof.
  intros Ha Hm. destruct (align_up_cases a Ha) as [Hm' Hc]. unfold is_u32 in Ha.
  Z.div_mod_to_equations. lia.
Qed.

Lemma align_down_aligned a : is_u32 a -> a `mod` 4096 = 0 -> align_down_4k a = a.
Proof. intros Ha Hm. rewrite align_down_eq by done. lia. Qed.

(** A region a memory-map entry contributes starts above the kernel and is
    page aligned. *)
Lemma entry_region_bounds base len K a b :
  0 < K < 4294967296 -> K `mod` 4096 = 0 ->
  pmm_entry_region base len K = Some (a, b) ->
  K <= a /\ a < b /\ b < 4294967296 /\ a `mod` 4096 = 0 /\ b `mod` 4096 = 0.
Proof.
  intros HK HKm. unfold pmm_entry_region. rewrite page_mask_const. cbv zeta.
  set (rs := if base <? 1048576 then 1048576 else base).
  set (re := if UINT32_MAX <? _ then UINT32_MAX else _).
  case_if; [|discriminate]. rewrite page_mask by apply u32_range.
  rewrite (align_up_aligned K) by (unfold is_u32; lia).
  destruct (align_up_cases (u32 rs) (u32_range rs)) as [Hm _].
  pose proof (align_up_range (u32 rs) (u32_range rs)) as Hr. unfold is_u32 in Hr.
  pose proof (u32_range re).
  destruct (align_up_4k (u32 rs) <? K) eqn:?; bool_simp;
    (case_if; [|discriminate]); intros [= <- <-]; split_and!; auto; try lia;
    Z.div_mod_to_equations; lia.
Qed.

Definition with_region (s : pmm_state) (a b : Z) : pmm_state :=
  let c := pmm_region_count s in
  Pmm (aset (pmm_region_start s) c a) (aset (pmm_region_end s) c b) (c + 1)
      (pmm_total s) (pmm_used s) (pmm_bitmap s) (pmm_hint_frame s)
      (if pmm_highest_end s <? b then b else pmm_highest_end s) (pmm_initialized s).

Lemma managed_with_region s a b i :
  0 <= pmm_region_count s -> is_u32 a -> is_u32 b ->
  managed (with_region s a b) i = managed s i || within a b i.
Proof.
  intros Hc Ha Hb. apply eq_true_iff_eq. unfold managed. rewrite orb_true_iff, !in_regions_spec.
  unfold within. rewrite andb_true_iff, Z.leb_le, Z.ltb_lt. simpl. split.
  - intros (r & Hr & H). destruct (decide (r = pmm_region_count s)) as [->|Hne].
    + rewrite !aget_aset_eq, !u32_small in H by done. by right.
    + rewrite !aget_aset_ne in H by done. left. exists r. lia.
  - intros [(r & Hr & H)|H].
    + exists r. rewrite !aget_aset_ne by lia. lia.
    + exists (pmm_region_count s). rewrite !aget_aset_eq, !u32_small by done. lia.
Qed.

Lemma add_region_ok s a b :
  init_ok s -> pmm_region_count s < PMM_MAX_REGIONS ->
  0 < a -> a < b -> b < 4294967296 -> a `mod` 4096 = 0 -> b `mod` 4096 = 0 ->
  exists s', pmm_add_region s a b = Some s' /\ init_ok s' /\
    pmm_region_count s' = pmm_region_count s + 1 /\
    (forall i, managed s' i = managed s i || within a b i) /\
    pmm_highest_end s' = (if pmm_highest_end s <? b then b else pmm_highest_end s).
Proof.
  intros Hio Hc Ha Hab Hb Hma Hmb. destruct Hio.
  assert (is_u32 a /\ is_u32 b) as [Hua Hub] by (unfold is_u32; lia).
  unfold pmm_add_region, pmm_mark_region_usable.
  rewrite align_up_aligned, align_down_aligned by done.
  fold (with_region s a b).
  destruct (mark_loop (with_region s a b) a b (managed s)) as (s' & E & bm & t & -> & Hbm & Ht);
    auto; try lia.
  { by apply marking_start. }
  eexists. split; [exact E|].
  assert (Hmg : forall i, managed (set_pmm_total (set_pmm_bitmap (with_region s a b) bm) t) i
                          = managed s i || within a b i).
  { intros i. by apply managed_with_region; [lia| |]. }
  split_and!; auto. split; try done.
  - simpl. lia.
  - intros r Hr. unfold region_ok. simpl in *. destruct (decide (r = pmm_region_count s)) as [->|].
    + rewrite !aget_aset_eq, !u32_small by done. split_and!; auto.
    + rewrite !aget_aset_ne by done. apply io_regions0. lia.
  - intros i Hi. rewrite Hmg. by apply Hbm.
  - etransitivity; [exact Ht|]. apply count_ext. intros. by rewrite Hmg.
Qed.

(** [floor K s]: no managed frame lies below [K], the end of the kernel. *)
Definition floor (K : Z) (s : pmm_state) : Prop :=
  forall i, managed s i = true -> K <= i * PAGE_SIZE.

(** The addresses of the entries of a memory map, none of which runs past the end of the
    address space. *)
Inductive mmap_entries (m : mem) (mmap_end : Z) : Z -> list Z -> Prop :=
  | mmap_entries_end e : mmap_end <= e -> mmap_entries m mmap_end e []
  | mmap_entries_entry e l :
      e < mmap_end -> e + (mmap_size m e + 4) < 4294967296 ->
      mmap_entries m mmap_end (e + (mmap_size m e + 4)) l -> mmap_entries m mmap_end e (e :: l).

(** The regions a list of entries contributes, in order. *)
Definition regions_of (m : mem) (K : Z) (l : list Z) : list (Z * Z) :=
  omap (fun e => if mmap_type m e =? 1 then pmm_entry_region (mmap_base m e) (mmap_len m e) K else None) l.

Definition in_region (i : Z) (r : Z * Z) : Prop := within (fst r) (snd r) i = true.

(** What the scan has done after the entries that contribute [rs]: the first
    [PMM_MAX_REGIONS] of them are the managed memory. *)
Record scanned (K : Z) (rs : list (Z * Z)) (s : pmm_state) : Prop := {
  sn_init : init_ok s;
  sn_floor : floor K s;
  sn_count : pmm_region_count s = Z.min PMM_MAX_REGIONS (Z.of_nat (length rs));
  sn_managed : forall i, managed s i = true <-> Exists (in_region i) (take (Z.to_nat PMM_MAX_REGIONS) rs);
}.

Lemma add_entry_ok m K e rs s :
  0 < K < 4294967296 -> K `mod` 4096 = 0 -> scanned K rs s ->
  exists s', pmm_add_entry m K e s = Some s' /\ scanned K (rs ++ regions_of m K [e]) s'.
Proof.
  intros HK HKm Hsc. unfold pmm_add_entry, regions_of. cbn [omap list_omap].
  destruct (mmap_type m e =? 1); [|exists s; by rewrite app_nil_r].
  destruct (pmm_entry_region _ _ K) as [[a b]|] eqn:E; [|exists s; by rewrite app_nil_r].
  apply entry_region_bounds in E as (HKa & Hab & Hb & Hma & Hmb); auto. destruct Hsc as [Hio Hfl Hc Hmg].
  unfold PMM_MAX_REGIONS in *. destruct (Z.ltb_spec (pmm_region_count s) 32) as [Hlt|Hge].
  - destruct (add_region_ok s a b) as (s' & E & Hio' & Hc' & Hmg' & _); auto; try (unfold PMM_MAX_REGIONS; lia).
    exists s'. split; [exact E|]. split; auto.
    + intros i. rewrite Hmg', orb_true_iff. intros [H|H]; [by apply Hfl|]. unfold within in H. bool_simp. lia.
    + rewrite Hc', Hc, length_app. cbn [length]. unfold PMM_MAX_REGIONS. lia.
    + intros i. rewrite Hmg', orb_true_iff, Hmg. unfold PMM_MAX_REGIONS.
      rewrite !take_ge by (rewrite ?length_app; cbn [length]; lia).
      rewrite Exists_app, Exists_cons, Exists_nil. unfold in_region at 3. cbn [fst snd]. tauto.
  - exists s. split; [done|]. split; auto.
    + rewrite Hc, length_app. cbn [length]. unfold PMM_MAX_REGIONS. lia.
    + intros i. rewrite Hmg. unfold PMM_MAX_REGIONS. by rewrite take_app_le by lia.
Qed.

Lemma scan_mmap_ok m K mmap_end e l :
  mmap_entries m mmap_end e l -> 0 < K < 4294967296 -> K `mod` 4096 = 0 ->
  forall fuel rs s, 0 <= e -> mmap_end - e < Z.of_nat fuel -> (0 < fuel)%nat -> scanned K rs s ->
  exists s', scan_mmap m K mmap_end fuel e s = Some s' /\ scanned K (rs ++ regions_of m K l) s'.
Proof.
  induction 1 as [e He|e l He Hnw Hwf IH]; intros HK HKm fuel rs s He0 Hf Hf0 Hsc;
    destruct fuel as [|fuel]; try lia; cbn [scan_mmap].
  - rewrite (proj2 (Z.ltb_ge _ _)) by done. exists s. cbn. by rewrite app_nil_r.
  - rewrite (proj2 (Z.ltb_lt _ _)) by done.
    destruct (add_entry_ok m K e rs s) as (s' & -> & Hsc'); auto. cbn [mbind option_bind].
    pose proof (rd32_range m e). unfold mmap_size in *.
    replace (regions_of m K (e :: l)) with (regions_of m K [e] ++ regions_of m K l) by (symmetry; apply (omap_app _ [e] l)).
    rewrite app_assoc, u32_small by lia. apply IH; auto; lia.
Qed.

(** *** The pages of the memory map *)

(** Page [i] is memory the entry describes as usable: the whole page lies in the entry, at
    or above 1 MiB and the end of the kernel, and is not the last page of the address
    space. *)
Definition entry_page (m : mem) (kernel_end e i : Z) : Prop :=
  mmap_type m e = 1 /\ mmap_base m e <= i * PAGE_SIZE /\ (i + 1) * PAGE_SIZE <= mmap_base m e + mmap_len m e /\
  1048576 <= i * PAGE_SIZE /\ kernel_end <= i * PAGE_SIZE /\ (i + 1) * PAGE_SIZE < 4294967296.

(** An entry that does not start within the last page of the 32-bit address space and does
    not run past 2^64. *)
Definition entry_regular (m : mem) (e : Z) : Prop :=
  (mmap_base m e <= 4294963200 \/ 4294967295 <= mmap_base m e) /\
  mmap_base m e + mmap_len m e < 18446744073709551616.

(** For such an entry the region is exactly the pages the entry describes. *)
Lemma entry_region_exact base len K i :
  0 <= base -> base <= 4294963200 \/ 4294967295 <= base -> 0 <= len -> base + len < 18446744073709551616 ->
  0 < K < 4294967296 -> K `mod` 4096 = 0 ->
  (exists r, pmm_entry_region base len K = Some r /\ in_region i r) <->
  base <= i * PAGE_SIZE /\ (i + 1) * PAGE_SIZE <= base + len /\
  1048576 <= i * PAGE_SIZE /\ K <= i * PAGE_SIZE /\ (i + 1) * PAGE_SIZE < 4294967296.
Proof.
  intros Hb Hreg Hl Hbl HK HKm. unfold PAGE_SIZE, pmm_entry_region, UINT32_MAX. rewrite page_mask_const. cbv zeta.
  rewrite (Z.mod_small (base + len)) by lia.
  set (rs := if base <? 1048576 then 1048576 else base).
  assert (Hrs : rs = Z.max base 1048576) by (unfold rs; destruct (Z.ltb_spec base 1048576); lia).
  set (re := if 4294967295 <? base + len then 4294967295 else base + len).
  assert (Hre : re = Z.min (base + len) 4294967295) by (unfold re; destruct (Z.ltb_spec 4294967295 (base + len)); lia).
  clearbody rs re. destruct (Z.ltb_spec rs re) as [Hlt|Hge].
  2: { split; [intros (r & [=] & _)|]. intros. exfalso. Z.div_mod_to_equations; lia. }
  rewrite (u32_small rs), (u32_small re), page_mask, (align_up_aligned K) by (done || unfold is_u32; lia).
  destruct (align_up_cases rs ltac:(unfold is_u32; lia)) as [Hm Hc].
  set (up := align_up_4k rs) in *. clearbody up.
  set (a := if up <? K then K else up).
  assert (Ha : a = Z.max up K) by (unfold a; destruct (Z.ltb_spec up K); lia). clearbody a.
  destruct (Z.ltb_spec a (re - re `mod` 4096)) as [Hlt'|Hge'].
  - split.
    + intros (r & [= <-] & Hin). unfold in_region, within, PAGE_SIZE in Hin. cbn [fst snd] in Hin. bool_simp.
      Z.div_mod_to_equations; lia.
    + intros. eexists. split; [reflexivity|]. unfold in_region, within, PAGE_SIZE. cbn [fst snd].
      apply andb_true_iff. rewrite Z.leb_le, Z.ltb_lt. Z.div_mod_to_equations; lia.
  - split; [intros (r & [=] & _)|]. intros. exfalso. Z.div_mod_to_equations; lia.
Qed.

Lemma aget_fill v l bm j :
  aget (fold_left (fun b i => aset b i v) l bm) j = if bool_decide (j ∈ l) then u32 v else aget bm j.
Proof.
  revert bm. induction l as [|x l IH]; intros bm; simpl; [done|].
  rewrite IH, aget_aset. repeat case_bool_decide; repeat case_decide; set_solver.
Qed.

Lemma init_start s :
  init_ok (Pmm (pmm_region_start s) (pmm_region_end s) 0 0 0 (fill_bitmap (pmm_bitmap s)) 0 0 false).
Proof.
  split.
  - reflexivity.
  - reflexivity.
  - unfold PMM_MAX_REGIONS; simpl; lia.
  - simpl. lia.
  - intros i Hi. rewrite bit_is_set_testbit by lia. simpl. unfold fill_bitmap. rewrite aget_fill.
    unfold PMM_MAX_FRAMES, PMM_BITMAP_WORDS in *.
    rewrite bool_decide_eq_true_2 by (apply elem_of_seqZ; Z.div_mod_to_equations; lia).
    change (u32 UINT32_MAX) with (Z.ones 32). pose proof (Z.mod_pos_bound i 32).
    rewrite Z.ones_spec_low by lia. reflexivity.
  - simpl. rewrite (count_ext _ (fun _ => false)) by reflexivity.
    rewrite count_unseal. unfold count_def. rewrite List.filter_false. reflexivity.
Qed.

(** *** Initialisation: reserving ranges *)

(** [ext s s']: [s'] differs from [s] by reservations only. *)
Definition ext (s s' : pmm_state) : Prop :=
  (exists bm u, s' = set_pmm_used (set_pmm_bitmap s bm) u) /\
  forall i, 0 <= i -> pmm_bit_is_set s i = true -> pmm_bit_is_set s' i = true.

Lemma ext_managed s s' i : ext s s' -> managed s' i = managed s i.
Proof. by intros [(bm & u & ->) _]. Qed.

Lemma ext_usable s s' i : ext s s' -> 0 <= i -> usable s' i = true -> usable s i = true.
Proof.
  intros He Hi. rewrite !managed_bit, (ext_managed s s') by done.
  intros [Hm Hb]. split; [done|]. destruct (pmm_bit_is_set s i) eqn:E; [|done].
  by rewrite (proj2 He) in Hb.
Qed.

#[export] Instance ext_preorder : PreOrder ext.
Proof.
  split.
  - intros s. split; [|done]. exists (pmm_bitmap s), (pmm_used s). by destruct s.
  - intros s1 s2 s3 [(bm & u & ->) H1] [(bm' & u' & ->) H2]. split; [|auto].
    exists bm', u'. by destruct s1.
Qed.

Definition reserving (s : pmm_state) (lo f : Z) (s' : pmm_state) : Prop :=
  ext s s' /\ pmm_ok s' /\
  forall i, 0 <= i < PMM_MAX_FRAMES -> managed s i = true -> within lo f i = true ->
            pmm_bit_is_set s' i = true.

Lemma reserving_step s lo k s' :
  reserving s lo (k * PAGE_SIZE) s' -> lo <= k * PAGE_SIZE -> 0 <= k < PMM_MAX_FRAMES ->
  reserving s lo (k * PAGE_SIZE + PAGE_SIZE) (if usable s' k then occupy s' k else s').
Proof.
  intros (He & Hok & Hb) Hlo Hk. destruct (usable s' k) eqn:Hu.
  - destruct (take_ok s' k) as [Hok' _]; auto. split_and!; auto.
    + transitivity s'; [done|]. split; [by eexists _, _|].
      intros i Hi Hi'. rewrite take_bit by lia. by destruct (k =? i).
    + intros i Hi Hm. rewrite (within_step lo _ k i) by (lia || done). rewrite take_bit by lia.
      destruct (Z.eqb_spec k i); [done|]. rewrite orb_false_r. by apply Hb.
  - split_and!; auto. intros i Hi Hm. rewrite (within_step lo _ k i) by (lia || done).
    rewrite orb_true_iff. intros [Hw|Hw]; [by apply Hb|]. apply Z.eqb_eq in Hw. subst i.
    unfold usable in Hu. rewrite (ext_managed s s'), Hm in Hu by done. simpl in Hu.
    by apply negb_false_iff in Hu.
Qed.

Lemma reserve_range_ok s lo hi :
  pmm_ok s -> is_u32 lo -> is_u32 hi ->
  exists s', pmm_reserve_range s lo hi = Some s' /\ reserving s (align_down_4k lo) (align_up_4k hi) s'.
Proof.
  intros Hok Hlo Hhi. unfold pmm_reserve_range.
  destruct (align_up_cases hi Hhi) as [Hm Hc]. rewrite align_down_eq by done.
  pose proof (align_up_range hi Hhi). unfold is_u32 in *.
  assert (Hempty : forall f, f <= lo - lo `mod` 4096 -> reserving s (lo - lo `mod` 4096) f s).
  { intros f Hf. split_and!; [reflexivity|done|]. intros i Hi Hmg Hw. unfold within in Hw. bool_simp. lia. }
  case_if; [eexists; split; [done|by apply Hempty]|].
  apply (frame_walk (fun s' k => if usable s' k then occupy s' k else s')
    (reserving s (lo - lo `mod` 4096))); auto; try (Z.div_mod_to_equations; lia).
  - intros f s' Hf. unfold reserve_body. case_if; [done|]. case_if; [done|].
    unfold usable, managed, PAGE_SIZE. replace (f / 4096 * 4096) with f; [done|].
    Z.div_mod_to_equations; lia.
  - intros k s' Hk Hr HP. apply reserving_step; auto. lia.
  - apply Hempty. lia.
Qed.

(** [avoids s lo hi]: no usable frame overlaps the bytes [lo .. hi). *)
Definition avoids (s : pmm_state) (lo hi : Z) : Prop :=
  forall i, 0 <= i < PMM_MAX_FRAMES -> usable s i = true ->
            (i + 1) * PAGE_SIZE <= lo \/ hi <= i * PAGE_SIZE.

Lemma ext_avoids s s' lo hi : ext s s' -> avoids s lo hi -> avoids s' lo hi.
Proof. intros He Ha i Hi Hu. apply Ha; [done|]. eapply ext_usable; eauto. lia. Qed.

Lemma reserving_avoids s lo hi s' :
  reserving s (align_down_4k lo) (align_up_4k hi) s' -> is_u32 lo -> is_u32 hi ->
  hi <= 4294963200 -> avoids s' lo hi.
Proof.
  intros (He & _ & Hb) Hlo Hhi Hmax i Hi Hu. apply managed_bit in Hu as [Hm Hbit].
  rewrite (ext_managed s s') in Hm by done. specialize (Hb i Hi Hm).
  destruct (align_up_cases hi Hhi) as [_ Hc]. rewrite align_down_eq in Hb by done.
  unfold is_u32, PAGE_SIZE in *.
  destruct (within _ _ i) eqn:Hw; [by rewrite Hb in Hbit|].
  unfold within in Hw. apply andb_false_iff in Hw as [Hw|Hw]; bool_simp; unfold PAGE_SIZE in *;
    Z.div_mod_to_equations; lia.
Qed.

Lemma boot_string_total m p : exists len, boot_string_bytes m p = Some len /\ 1 <= len <= 4096.
Proof.
  unfold boot_string_bytes.
  destruct (loop_total (fun len : Z => if negb (len <? 4096) then inr len
              else if rd8 m (p ⊞ len) =? 0 then inr (len + 1) else inl (len + 1))
    (fun len => 0 <= len <= 4096) (fun len => 1 <= len <= 4096) (fun len => 4096 - len))
    with (fuel := 4097%nat) (s := 0) as (r & -> & Hr); try lia.
  - intros len Hlen. case_if; [lia|]. case_if; lia.
  - simpl. rewrite (proj2 (Z.eqb_neq r 0)) by lia. eauto.
Qed.

(** A reservation that keeps the invariant. *)
Definition reserved (s s' : pmm_state) : Prop := ext s s' /\ pmm_ok s'.

Lemma reserved_refl s : pmm_ok s -> reserved s s.
Proof. by split. Qed.

Lemma reserve_step s lo hi :
  pmm_ok s -> is_u32 lo -> is_u32 hi ->
  exists s', pmm_reserve_range s lo hi = Some s' /\ reserved s s' /\
             (hi <= 4294963200 -> avoids s' lo hi).
Proof.
  intros Hok Hlo Hhi. destruct (reserve_range_ok s lo hi) as (s' & E & Hr); auto.
  exists s'. split_and!; [done|split; [apply Hr|apply Hr]|]. intros.
  by apply (reserving_avoids s).
Qed.

Lemma reserve_if (b : bool) s lo hi :
  pmm_ok s -> is_u32 lo -> is_u32 hi ->
  exists s', (if b then pmm_reserve_range s lo hi else Some s) = Some s' /\ reserved s s' /\
             (b = true -> hi <= 4294963200 -> avoids s' lo hi).
Proof.
  intros. destruct b; [|exists s; split_and!; [done|by apply reserved_refl|done]].
  destruct (reserve_step s lo hi) as (s' & E & Hr & Ha); eauto.
Qed.

Lemma reserve_string_if (b : bool) m s p :
  pmm_ok s -> is_u32 p ->
  exists s', (if b then len ← boot_string_bytes m p; pmm_reserve_range s p (p ⊞ len) else Some s)
             = Some s' /\ reserved s s'.
Proof.
  intros. destruct b; [|by eauto using reserved_refl].
  destruct (boot_string_total m p) as (len & -> & _). cbn [mbind option_bind].
  destruct (reserve_step s p (p ⊞ len)) as (s' & E & Hr & Ha); auto; [apply u32_range|]. eauto.
Qed.

Lemma reserve_modules_ok m mods n : forall i s,
  pmm_ok s ->
  exists s', reserve_modules m mods n i s = Some s' /\ reserved s s' /\
    forall j, i <= j < i + Z.of_nat n ->
      let md := mods ⊞ (j * sizeof_multiboot_module) in
      mod_start m md < mod_end m md -> mod_end m md <= 4294963200 ->
      avoids s' (mod_start m md) (mod_end m md).
Proof.
  induction n as [|n IH]; intros i s Hok.
  - exists s. split_and!; [done|by split|]. intros. lia.
  - cbn [reserve_modules]. set (md := mods ⊞ (i * sizeof_multiboot_module)).
    destruct (reserve_if (mod_start m md <? mod_end m md) s (mod_start m md) (mod_end m md))
      as (s1 & -> & [He1 Hok1] & Ha1); [done|apply rd32_range|apply rd32_range|].
    cbn [mbind option_bind].
    destruct (reserve_string_if (negb (mod_string m md =? 0)) m s1 (mod_string m md))
      as (s2 & -> & [He2 Hok2]); [done|apply rd32_range|].
    cbn [mbind option_bind]. destruct (IH (i + 1) s2 Hok2) as (s3 & -> & [He3 Hok3] & Ha3).
    exists s3. split_and!; [done|split; [|done]|].
    + by transitivity s1; [|transitivity s2].
    + intros j Hj md' Hlt Hmax. destruct (decide (j = i)) as [->|]; [|apply Ha3; auto; lia].
      apply (ext_avoids s1); [by transitivity s2|]. apply Ha1; [by apply Z.ltb_lt|done].
Qed.

Record mbi_fields_u32 (mbi : multiboot_info_t) : Prop := {
  mf_cmdline : is_u32 (mbi_cmdline mbi);
  mf_mods_addr : is_u32 (mbi_mods_addr mbi);
  mf_mmap_addr : is_u32 (mbi_mmap_addr mbi);
  mf_mmap_length : is_u32 (mbi_mmap_length mbi);
}.

(** The boot data that must survive: the information block, the memory map and
    the modules the boot loader put in memory. *)
Definition boot_data_safe (m : mem) (mbi_addr : Z) (mbi : multiboot_info_t) (s : pmm_state) : Prop :=
  (mbi_addr + sizeof_multiboot_info <= 4294963200 ->
   avoids s mbi_addr (mbi_addr + sizeof_multiboot_info)) /\
  (Z.land (mbi_flags mbi) MULTIBOOT_INFO_MMAP_FLAG <> 0 ->
   mbi_mmap_addr mbi + mbi_mmap_length mbi <= 4294963200 ->
   avoids s (mbi_mmap_addr mbi) (mbi_mmap_addr mbi + mbi_mmap_length mbi)) /\
  (mbi_mods_addr mbi <> 0 ->
   forall j, 0 <= j < mbi_mods_count mbi ->
     let md := mbi_mods_addr mbi ⊞ (j * sizeof_multiboot_module) in
     mod_start m md < mod_end m md -> mod_end m md <= 4294963200 ->
     avoids s (mod_start m md) (mod_end m md)).

Lemma reserve_module_table_ok m mbi s :
  pmm_ok s -> mbi_fields_u32 mbi ->
  exists s', (if (0 <? mbi_mods_count mbi) && negb (mbi_mods_addr mbi =? 0)
      then s ← pmm_reserve_range s (mbi_mods_addr mbi)
                 (mbi_mods_addr mbi ⊞ (mbi_mods_count mbi ⊠ sizeof_multiboot_module));
           reserve_modules m (mbi_mods_addr mbi) (Z.to_nat (mbi_mods_count mbi)) 0 s
      else Some s) = Some s' /\ reserved s s' /\
      (mbi_mods_addr mbi <> 0 -> forall j, 0 <= j < mbi_mods_count mbi ->
       let md := mbi_mods_addr mbi ⊞ (j * sizeof_multiboot_module) in
       mod_start m md < mod_end m md -> mod_end m md <= 4294963200 ->
       avoids s' (mod_start m md) (mod_end m md)).
Proof.
  intros Hok []. destruct (_ && _) eqn:Hc.
  - destruct (reserve_step s (mbi_mods_addr mbi)
      (mbi_mods_addr mbi ⊞ (mbi_mods_count mbi ⊠ sizeof_multiboot_module)))
      as (s4 & -> & [He4 Hok4] & _); auto; [apply u32_range|]. cbn [mbind option_bind].
    destruct (reserve_modules_ok m (mbi_mods_addr mbi) (Z.to_nat (mbi_mods_count mbi)) 0 s4 Hok4)
      as (s5 & -> & [He5 Hok5] & Ha5).
    exists s5. split_and!; [done|split; [by transitivity s4|done]|].
    intros _ j Hj. apply Ha5. lia.
  - exists s. split_and!; [done|by apply reserved_refl|]. intros Hne j Hj.
    apply andb_false_iff in Hc as [Hc|Hc]; bool_simp; lia.
Qed.

Lemma reserve_multiboot_ok m mbi_addr mbi s :
  pmm_ok s -> is_u32 mbi_addr -> mbi_fields_u32 mbi ->
  exists s', pmm_reserve_multiboot_data m mbi_addr mbi s = Some s' /\ reserved s s' /\
             boot_data_safe m mbi_addr mbi s'.
Proof.
  intros Hok Hma Hmf. unfold pmm_reserve_multiboot_data.
  destruct (reserve_step s mbi_addr (mbi_addr ⊞ sizeof_multiboot_info))
    as (s1 & -> & [He1 Hok1] & Ha1); auto; [apply u32_range|]. cbn [mbind option_bind].
  destruct (reserve_if (negb (Z.land (mbi_flags mbi) MULTIBOOT_INFO_MMAP_FLAG =? 0)) s1
    (mbi_mmap_addr mbi) (mbi_mmap_addr mbi ⊞ mbi_mmap_length mbi))
    as (s2 & -> & [He2 Hok2] & Ha2); [done|apply Hmf|apply u32_range|]. cbn [mbind option_bind].
  destruct (reserve_string_if (negb (mbi_cmdline mbi =? 0)) m s2 (mbi_cmdline mbi))
    as (s3 & -> & [He3 Hok3]); [done|apply Hmf|]. cbn [mbind option_bind].
  destruct (reserve_module_table_ok m mbi s3) as (s4 & E4 & [He4 Hok4] & Ha4); auto.
  exists s4. split; [exact E4|].
  assert (He24 : ext s2 s4) by (by transitivity s3).
  assert (He14 : ext s1 s4) by (by transitivity s2).
  split; [split; [by transitivity s1|done]|]. destruct Hmf. unfold is_u32 in *. split_and!; auto.
  - intros Hmax. unfold sizeof_multiboot_info in *. u32_simp.
    eapply ext_avoids; [exact He14|auto].
  - intros Hf Hmax. u32_simp. eapply ext_avoids; [exact He24|]. apply Ha2; [|lia].
    by apply negb_true_iff, Z.eqb_neq.
Qed.

Lemma set_initialized_ok s b : pmm_ok s -> pmm_ok (set_pmm_initialized s b).
Proof. intros []. by split. Qed.

Lemma floor_ext K s s' : ext s s' -> floor K s -> floor K s'.
Proof. intros He Hf i Hm. apply Hf. by rewrite <- (ext_managed s s'). Qed.

Lemma scanned_start K s :
  scanned K [] (Pmm (pmm_region_start s) (pmm_region_end s) 0 0 0 (fill_bitmap (pmm_bitmap s)) 0 0 false).
Proof.
  split; [apply init_start|intros i Hi; discriminate Hi|done|].
  intros i. rewrite take_nil, Exists_nil. split; [intros Hi; discriminate Hi|done].
Qed.

Section Init.
Context (m : mem) (mbi_addr : Z) (mbi : multiboot_info_t) (kernel_end : Z) (l : list Z).
Hypothesis Hfields : mbi_fields_u32 mbi.
Hypothesis Haddr : is_u32 mbi_addr.
Hypothesis Hkernel : 0 < kernel_end <= 4294963200.
Hypothesis Hflag : Z.land (mbi_flags mbi) MULTIBOOT_INFO_MMAP_FLAG <> 0.
Hypothesis Hend : mbi_mmap_addr mbi + mbi_mmap_length mbi < 4294967296.
Hypothesis Hentries : mmap_entries m (mbi_mmap_addr mbi + mbi_mmap_length mbi) (mbi_mmap_addr mbi) l.

Notation regions := (regions_of m (align_up_4k kernel_end) l).

Lemma init_cases s :
  exists s', pmm_init m mbi_addr mbi kernel_end s = Some s' /\
    pmm_initialized s' = negb (bool_decide (regions = [])) /\
    (forall i, managed s' i = true <-> Exists (in_region i) (take (Z.to_nat PMM_MAX_REGIONS) regions)) /\
    (pmm_initialized s' = true -> pmm_ok s' /\ floor kernel_end s' /\ boot_data_safe m mbi_addr mbi s').
Proof.
  unfold pmm_init. rewrite (proj2 (Z.eqb_neq _ _)) by done.
  destruct (align_up_cases kernel_end) as [HKm HK]; [unfold is_u32; lia|].
  pose proof (mf_mmap_addr mbi Hfields). pose proof (mf_mmap_length mbi Hfields). unfold is_u32 in *.
  rewrite (u32_small (mbi_mmap_addr mbi + mbi_mmap_length mbi)) by lia.
  destruct (scan_mmap_ok m (align_up_4k kernel_end) _ _ _ Hentries ltac:(lia) HKm
    (Z.to_nat (mbi_mmap_length mbi + 1)) [] _ ltac:(lia) ltac:(lia) ltac:(lia) (scanned_start _ s))
    as (s1 & -> & [Hio Hfloor Hc Hmg]). cbn [mbind option_bind app] in *.
  destruct (Z.eqb_spec (pmm_region_count s1) 0) as [Hz|Hz].
  - rewrite Hz in Hc. assert (Hnil : regions = []).
    { apply length_zero_iff_nil. unfold PMM_MAX_REGIONS in Hc. lia. }
    eexists. split; [reflexivity|]. rewrite Hnil in *. split_and!; [done|exact Hmg|done].
  - assert (Hne : regions <> []) by (intros Hnil; rewrite Hnil in Hc; by apply Hz).
    destruct (reserve_multiboot_ok m mbi_addr mbi s1) as (s2 & -> & [He Hok] & Hsafe); auto.
    { by apply init_ok_pmm_ok. }
    cbn [mbind option_bind]. eexists. split; [reflexivity|]. split; [|split].
    + by rewrite bool_decide_eq_false_2.
    + intros i. rewrite <- Hmg. change (managed s2 i = true <-> managed s1 i = true). by rewrite (ext_managed s1 s2).
    + intros _. split; [by apply set_initialized_ok|]. split; [|exact Hsafe]. intros i Hi. apply (floor_ext _ _ _ He) in Hfloor. specialize (Hfloor i Hi). lia.
Qed.

Lemma regions_pages i :
  Forall (entry_regular m) l ->
  Exists (in_region i) regions <-> Exists (fun e => entry_page m kernel_end e i) l.
Proof.
  intros Hreg. destruct (align_up_cases kernel_end) as [HKm HK]; [unfold is_u32; lia|].
  rewrite !list.Exists_exists. unfold regions_of. setoid_rewrite list_elem_of_omap.
  assert (Hone : forall e, e ∈ l -> entry_page m kernel_end e i <->
    exists r, (if mmap_type m e =? 1 then pmm_entry_region (mmap_base m e) (mmap_len m e) (align_up_4k kernel_end) else None)
              = Some r /\ in_region i r).
  { intros e He. rewrite list.Forall_forall in Hreg. destruct (Hreg e He) as [Hr Hb]. unfold entry_page.
    destruct (Z.eqb_spec (mmap_type m e) 1) as [->|Hne]; [|naive_solver].
    pose proof (rd64_range m (e + 4)) as Hb4. pose proof (rd64_range m (e + 12)) as Hl4.
    fold (mmap_base m e) in Hb4. fold (mmap_len m e) in Hl4.
    rewrite (entry_region_exact (mmap_base m e) (mmap_len m e) (align_up_4k kernel_end) i) by lia.
    unfold PAGE_SIZE. Z.div_mod_to_equations; lia. }
  split.
  - intros (r & (e & He & E) & Hin). exists e. split; [done|]. apply Hone; eauto.
  - intros (e & He & Hp). apply Hone in Hp as (r & E & Hin); eauto.
Qed.

(** The allocator comes up exactly when some page of the map is usable. *)
Lemma regions_exist :
  Forall (entry_regular m) l ->
  regions <> [] <-> exists i, Exists (fun e => entry_page m kernel_end e i) l.
Proof.
  intros Hreg. destruct (align_up_cases kernel_end) as [HKm HK]; [unfold is_u32; lia|]. split.
  - intros Hne. destruct regions as [|[a b] rs] eqn:E; [done|]. exists (a / PAGE_SIZE). apply regions_pages; [done|].
    rewrite E. apply Exists_cons_hd. assert (Hin : (a, b) ∈ regions) by (rewrite E; apply list_elem_of_here).
    unfold regions_of in Hin. apply list_elem_of_omap in Hin as (e & _ & He).
    destruct (mmap_type m e =? 1); [|done]. apply entry_region_bounds in He; [|lia|done].
    unfold in_region, within, PAGE_SIZE. cbn [fst snd]. apply andb_true_iff. rewrite Z.leb_le, Z.ltb_lt.
    Z.div_mod_to_equations; lia.
  - intros [i Hi] Hnil. apply regions_pages in Hi; [|done]. rewrite Hnil in Hi. by apply Exists_nil in Hi.
Qed.

End Init.

(** ** The frame-allocator interface *)

Definition frame_free (s : pmm_state) (f : Z) : Prop :=
  f `mod` 4096 = 0 /\ 0 <= f / 4096 < PMM_MAX_FRAMES /\ usable s (f / 4096) = true.

Lemma frame_free_index s i :
  0 <= i < PMM_MAX_FRAMES -> (frame_free s (i * PAGE_SIZE) <-> usable s i = true).
Proof.
  intros Hi. unfold frame_free, PAGE_SIZE. rewrite Z.mod_mul, Z.div_mul by lia. naive_solver.
Qed.

Lemma frame_index_eq f g : f `mod` 4096 = 0 -> g `mod` 4096 = 0 -> f / 4096 = g / 4096 -> f = g.
Proof. intros. Z.div_mod_to_equations. lia. Qed.

Lemma alloc_some_spec s f s' :
  pmm_ok s -> pmm_alloc_frame s = (f, s') -> f <> 0 ->
  pmm_ok s' /\ frame_free s f /\ 0 < f < 4294967296 /\ f `mod` 4096 = 0 /\
  (forall g, frame_free s' g <-> frame_free s g /\ g <> f) /\
  pmm_used s' = pmm_used s + 1 /\ pmm_total s' = pmm_total s /\ pmm_initialized s' = true /\
  s' = taken s (f / 4096).
Proof.
  intros Hok Ha Hf. destruct (pmm_initialized s) eqn:Hinit.
  2: { unfold pmm_alloc_frame in Ha. rewrite Hinit in Ha. by injection Ha as <- <-. }
  destruct (alloc_cases s Hok Hinit) as [[E _]|(j & Hj & Hu & _ & E)]; rewrite E in Ha.
  { by injection Ha as <- <-. }
  set (i := cyc (pmm_hint_frame s) j) in *. injection Ha as <- <-.
  pose proof (cyc_range (pmm_hint_frame s) j) as Hi. fold i in Hi.
  assert (0 < i) by (eapply managed_range; eauto; by apply managed_bit).
  assert (Hdiv : i * PAGE_SIZE / 4096 = i) by (apply Z.div_mul; lia).
  split_and!.
  - by apply taken_ok.
  - by apply frame_free_index.
  - unfold PAGE_SIZE. lia.
  - unfold PAGE_SIZE, PMM_MAX_FRAMES in *. lia.
  - apply Z.mod_mul. lia.
  - intros g. unfold frame_free. split.
    + intros (Hm & Hr & Hg). rewrite usable_taken in Hg by lia. bool_simp.
      split; [done|]. intros ->. rewrite Hdiv in *. lia.
    + intros [(Hm & Hr & Hg) Hne]. rewrite usable_taken by lia. rewrite Hg.
      split; [done|]. split; [done|]. simpl. apply negb_true_iff, Z.eqb_neq. intros Heq. apply Hne.
      apply frame_index_eq; [done|apply Z.mod_mul; lia|lia].
  - by apply take_ok.
  - done.
  - by rewrite <- Hinit.
  - by rewrite Hdiv.
Qed.

Lemma free_true_spec s f s' :
  pmm_ok s -> is_u32 f -> pmm_free_frame f s = (true, s') ->
  pmm_ok s' /\ f <> 0 /\ f `mod` 4096 = 0 /\ ~ frame_free s f /\
  (forall g, frame_free s' g <-> frame_free s g \/ g = f) /\
  pmm_used s' = pmm_used s - 1 /\ pmm_total s' = pmm_total s /\ pmm_initialized s' = true /\
  managed s (f / 4096) = true.
Proof.
  intros Hok Hf Ha. destruct (pmm_initialized s) eqn:Hinit.
  2: { unfold pmm_free_frame in Ha. by rewrite Hinit in Ha. }
  rewrite free_cases in Ha by done. destruct (_ && _) eqn:Hc; [|done].
  injection Ha as <-. bool_simp. rename H into Hmod, H1 into Hm, H0 into Hb.
  unfold is_u32 in Hf. assert (Hi : 0 <= f / 4096 < PMM_MAX_FRAMES)
    by (unfold PMM_MAX_FRAMES; Z.div_mod_to_equations; lia).
  pose proof (managed_range s _ Hok Hm). split_and!; auto.
  - by apply freed_ok.
  - intros ->. change (0 / 4096) with 0 in *. lia.
  - intros (_ & _ & Hu). apply managed_bit in Hu as [_ Hu]. by rewrite Hb in Hu.
  - intros g. unfold frame_free. split.
    + intros (Hmg & Hr & Hg). rewrite usable_freed, orb_true_iff in Hg by (done || lia).
      destruct Hg as [Hg|Hg]; [by left|]. right. bool_simp. by apply frame_index_eq.
    + intros [(Hmg & Hr & Hg)| ->]; rewrite usable_freed by (done || lia).
      * by rewrite Hg.
      * rewrite Z.eqb_refl, orb_true_r. done.
  - unfold freed. by case_if.
  - unfold freed. by case_if.
  - unfold freed. by case_if.
Qed.

Lemma free_false_spec s f s' : pmm_free_frame f s = (false, s') -> s' = s.
Proof.
  unfold pmm_free_frame. repeat case_if; intros; by simplify_eq.
Qed.

#[export] Instance pmm_frame_allocator : FrameAllocator pmm_state :=
  {| fa_alloc := pmm_alloc_frame; fa_free := pmm_free_frame;
     fa_ready := pmm_ready; fa_highest := pmm_highest_address |}.

Definition pmm_avail (s : pmm_state) : Z := pmm_total s - pmm_used s.

Lemma avail_nonneg s : pmm_ok s -> 0 <= pmm_avail s.
Proof. intros Hok. pose proof (used_le_total s Hok). unfold pmm_avail. lia. Qed.

Lemma alloc_none s s' : pmm_ok s -> pmm_alloc_frame s = (0, s') -> s' = s.
Proof.
  intros Hok Ha. destruct (pmm_initialized s) eqn:Hinit.
  - destruct (alloc_cases s Hok Hinit) as [[E _]|(j & Hj & Hu & _ & E)]; rewrite E in Ha;
      injection Ha; [congruence|]. intros _ Hz.
    apply managed_bit in Hu as [Hm _]. apply managed_range in Hm; [|done]. unfold PAGE_SIZE in *. lia.
  - unfold pmm_alloc_frame in Ha. rewrite Hinit in Ha. by injection Ha.
Qed.

Lemma alloc_some s f s' :
  pmm_ok s -> pmm_alloc_frame s = (f, s') -> f <> 0 ->
  pmm_ok s' /\ frame_free s f /\ 0 < f < 4294967296 /\ f `mod` 4096 = 0 /\
  (forall g, frame_free s' g <-> frame_free s g /\ g <> f) /\ pmm_avail s' = pmm_avail s - 1.
Proof.
  intros Hok Ha Hf. unfold pmm_avail.
  destruct (alloc_some_spec s f s') as (H1 & H2 & H3 & H4 & H5 & H6 & H7 & _); auto.
  split_and!; auto; lia.
Qed.

Lemma free_ok s f ok s' :
  pmm_ok s -> 0 <= f < 4294967296 -> pmm_free_frame f s = (ok, s') ->
  pmm_ok s' /\ (ok = false -> s' = s) /\
  (ok = true -> f <> 0 /\ f `mod` 4096 = 0 /\ ~ frame_free s f /\
     (forall g, frame_free s' g <-> frame_free s g \/ g = f) /\ pmm_avail s' = pmm_avail s + 1).
Proof.
  intros Hok Hf Ha. unfold pmm_avail. destruct ok.
  - destruct (free_true_spec s f s') as (H1 & H2 & H3 & H4 & H5 & H6 & H7 & _); auto.
    split_and!; auto; [done|]. intros _. split_and!; auto; lia.
  - apply free_false_spec in Ha as ->. split_and!; auto. done.
Qed.

Lemma alloc_avail s : pmm_ok s -> pmm_ready s = true -> 0 < pmm_avail s -> fst (pmm_alloc_frame s) <> 0.
Proof.
  intros Hok Hinit Hav. destruct (alloc_cases s Hok Hinit) as [[_ Hn]|(j & Hj & Hu & _ & ->)].
  - exfalso. unfold pmm_avail in Hav. rewrite (ok_total s Hok), (ok_used s Hok) in Hav.
    destruct (count_lt_exists (fun i => managed s i && pmm_bit_is_set s i) (managed s) 0 PMM_MAX_FRAMES)
      as (i & Hi & Hm & Hb); [lia|].
    rewrite Hm in Hb. specialize (Hn i Hi). assert (usable s i = true); [|congruence].
    by apply managed_bit.
  - apply managed_bit in Hu as [Hm _]. apply managed_range in Hm; [|done]. cbn [fst].
    unfold PAGE_SIZE in *. lia.
Qed.

Lemma alloc_ready s : pmm_ready (snd (pmm_alloc_frame s)) = pmm_ready s.
Proof.
  assert (Hscan : forall n i, pmm_initialized (snd (alloc_scan n i s)) = pmm_initialized s).
  { induction n as [|n IH]; intros i; [done|]. cbn [alloc_scan].
    repeat case_match; first [reflexivity | apply IH]. }
  unfold pmm_ready, pmm_alloc_frame. repeat case_match; first [reflexivity | apply Hscan].
Qed.

#[export] Instance pmm_frame_allocator_ok : FrameAllocatorOk pmm_state :=
  {| fa_ok := pmm_ok; fa_is_free := frame_free; fa_avail := pmm_avail;
     fa_avail_nonneg := avail_nonneg; fa_alloc_none := alloc_none;
     fa_alloc_avail := alloc_avail; fa_alloc_ready := alloc_ready;
     fa_alloc_some := alloc_some; fa_free_ok := free_ok |}.

(** Frames of the memory map that are in use are taken back. *)
Definition frame_given (s : pmm_state) (f : Z) : Prop :=
  pmm_initialized s = true /\ is_u32 f /\ f `mod` 4096 = 0 /\ managed s (f / 4096) = true /\ ~ frame_free s f.

Lemma given_used s f : frame_given s f -> ~ frame_free s f.
Proof. by intros (_ & _ & _ & _ & ?). Qed.

Lemma free_given s f : pmm_ok s -> 0 <= f < 4294967296 -> frame_given s f -> fst (pmm_free_frame f s) = true.
Proof.
  intros Hok Hf (Hinit & _ & Hm & Hmg & Hnf). rewrite free_cases, Hm, Hmg by done. cbn [Z.eqb andb].
  destruct (pmm_bit_is_set s (f / 4096)) eqn:Hb; [done|]. exfalso. apply Hnf.
  split; [done|]. split; [unfold PMM_MAX_FRAMES; Z.div_mod_to_equations; lia|]. by apply managed_bit.
Qed.

Lemma free_keeps s f g : pmm_ok s -> 0 <= f < 4294967296 -> frame_given s g -> g <> f -> frame_given (snd (pmm_free_frame f s)) g.
Proof.
  intros Hok Hf Hg Hne. pose proof Hg as (Hinit & Hu & Hm & Hmg & Hnf).
  destruct (pmm_free_frame f s) as [[] s'] eqn:E; cbn [snd]; [|by apply free_false_spec in E as ->].
  destruct (free_true_spec s f s' Hok Hf E) as (_ & _ & _ & _ & Hiff & _ & _ & Hinit' & _).
  rewrite free_cases in E by done. destruct (_ && _); [|done]. injection E as <-.
  split_and!; [done|done|done| |rewrite Hiff; tauto]. by replace (managed (freed s (f / 4096)) (g / 4096)) with (managed s (g / 4096)) by (unfold freed; by case_if).
Qed.

Lemma alloc_given s f s' :
  pmm_ok s -> pmm_alloc_frame s = (f, s') -> f <> 0 -> frame_given s' f /\ forall g, frame_given s g -> frame_given s' g.
Proof.
  intros Hok E Hf. destruct (alloc_some_spec s f s' Hok E Hf) as (_ & (_ & _ & Hu) & Hr & Hm & Hiff & _ & _ & Hinit & ->).
  apply managed_bit in Hu as [Hmg _]. split.
  - split_and!; [done|unfold is_u32; lia|done|exact Hmg|]. intros Hc. by apply Hiff in Hc as [_ ?].
  - intros g (_ & Hgu & Hgm & Hgmg & Hgf). split_and!; [done|exact Hgu|done|exact Hgmg|]. intros Hc. by apply Hiff in Hc as [? _].
Qed.

#[export] Instance pmm_frame_return_ok : FrameReturnOk pmm_state :=
  {| fa_given := frame_given; fa_given_used := given_used; fa_alloc_given := alloc_given;
     fa_free_given := free_given; fa_free_keeps := free_keeps |}.

(** ** Clients: runs of allocations and frees

    A client's ledger is the set of frames it was given and has not returned. *)

Definition ledger_state : Type := pmm_state * gset Z.

Inductive pmm_step : ledger_state -> ledger_state -> Prop :=
  | step_alloc s L f s' :
      pmm_alloc_frame s = (f, s') -> f <> 0 -> pmm_step (s, L) (s', {[f]} ∪ L)
  | step_alloc_fail s L s' :
      pmm_alloc_frame s = (0, s') -> pmm_step (s, L) (s', L)
  | step_free s L f b s' :
      f ∈ L -> pmm_free_frame f s = (b, s') -> pmm_step (s, L) (s', L ∖ {[f]}).

(** [held s f]: frame [f] is in use and may be freed. *)
Definition held (s : pmm_state) (f : Z) : Prop :=
  is_u32 f /\ f <> 0 /\ f `mod` 4096 = 0 /\ managed s (f / 4096) = true /\
  pmm_bit_is_set s (f / 4096) = true.

Definition ledger_ok (u0 : Z) (st : ledger_state) : Prop :=
  pmm_ok st.1 /\ pmm_initialized st.1 = true /\ (forall f, f ∈ st.2 -> held st.1 f) /\
  pmm_used st.1 = u0 + Z.of_nat (size st.2).

Lemma held_not_free s f : held s f -> ~ frame_free s f.
Proof. intros (_ & _ & _ & _ & Hb) (_ & _ & Hu). apply managed_bit in Hu as [_ Hu]. congruence. Qed.

Lemma index_range f : is_u32 f -> 0 <= f / 4096 < PMM_MAX_FRAMES.
Proof. unfold is_u32, PMM_MAX_FRAMES. intros. Z.div_mod_to_equations. lia. Qed.

Lemma free_held s f :
  pmm_ok s -> pmm_initialized s = true -> held s f -> pmm_free_frame f s = (true, freed s (f / 4096)).
Proof.
  intros Hok Hi (Hu & Hnz & Hm & Hmg & Hb). rewrite free_cases by done.
  by rewrite Hm, Hmg, Hb.
Qed.

Lemma held_taken s f :
  is_u32 f -> f <> 0 -> frame_free s f -> held (taken s (f / 4096)) f.
Proof.
  intros Hu Hnz (Hm & Hr & Huse). apply managed_bit in Huse as [Hmg _].
  split_and!; auto. change (pmm_bit_is_set (occupy s (f / 4096)) (f / 4096) = true).
  by rewrite take_bit, Z.eqb_refl by lia.
Qed.

Lemma held_taken_other s i g : 0 <= i -> held s g -> held (taken s i) g.
Proof.
  intros Hi (Hu & Hnz & Hm & Hmg & Hb). split_and!; auto.
  pose proof (index_range g Hu).
  change (pmm_bit_is_set (occupy s i) (g / 4096) = true). rewrite take_bit by lia.
  by destruct (_ =? _).
Qed.

Lemma held_freed_other s f g : held s f -> held s g -> f <> g -> held (freed s (f / 4096)) g.
Proof.
  intros (Hu & _ & Hm & _) (Hu' & Hnz & Hm' & Hmg & Hb) Hne.
  pose proof (index_range f Hu). pose proof (index_range g Hu').
  split_and!; auto; [unfold freed; by case_if|].
  transitivity (pmm_bit_is_set (release s (f / 4096)) (g / 4096)); [unfold freed; by case_if|].
  rewrite release_bit by lia. destruct (Z.eqb_spec (f / 4096) (g / 4096)) as [Heq|]; [|done].
  by apply frame_index_eq in Heq.
Qed.

Lemma ledger_step u0 st st' : pmm_step st st' -> ledger_ok u0 st -> ledger_ok u0 st'.
Proof.
  intros Hs (Hok & Hinit & Hheld & Hused).
  inversion Hs as [s L f s' Ha Hf|s L s' Ha|s L f b s' Hin Hfr]; subst; simpl in *.
  - destruct (alloc_some_spec s f s') as (Hok' & Hfree & Hr & Hm & _ & Hu & _ & Hi' & ->); auto.
    assert (f ∉ L) by (intros Hin; by apply (held_not_free s f); [apply Hheld|]).
    assert (Hu32 : is_u32 f) by (unfold is_u32; lia). pose proof (index_range f Hu32).
    split_and!; cbn [fst snd]; auto.
    + intros g. rewrite elem_of_union, elem_of_singleton. intros [->|Hg].
      * by apply held_taken.
      * apply held_taken_other; [lia|auto].
    + rewrite size_union by set_solver. rewrite size_singleton. lia.
  - replace s' with s; [by split_and!|]. symmetry. by apply alloc_none.
  - rewrite (free_held s f) in Hfr by auto. injection Hfr as <- <-.
    pose proof (Hheld f Hin) as (Hu & Hnz & Hm & Hmg & Hb). pose proof (index_range f Hu).
    split_and!; simpl.
    + by apply freed_ok.
    + unfold freed. by case_if.
    + intros g Hg. apply elem_of_difference in Hg as [Hg Hne].
      apply held_freed_other; auto. set_solver.
    + assert (pmm_used (freed s (f / 4096)) = pmm_used s - 1) as -> by (unfold freed; by case_if).
      rewrite size_difference by set_solver. rewrite size_singleton.
      assert (size L <> 0%nat) by (intros Hz; apply size_empty_inv in Hz; set_solver). lia.
Qed.

Lemma ledger_run u0 st st' : rtc pmm_step st st' -> ledger_ok u0 st -> ledger_ok u0 st'.
Proof. induction 1; eauto using ledger_step. Qed.

(** ** Theorems *)

(** A machine with two usable frames, for the witnesses: 1 MiB and the frame above. *)
Definition demo_empty : pmm_state := Pmm ∅ ∅ 0 0 0 (fill_bitmap ∅) 0 0 false.
Definition demo_pmm : pmm_state :=
  set_pmm_initialized (default demo_empty (pmm_add_region demo_empty 1048576 1056768)) true.

Lemma demo_pmm_ok :
  pmm_ok demo_pmm /\ pmm_initialized demo_pmm = true /\ usable demo_pmm 256 = true.
Proof.
  destruct (add_region_ok demo_empty 1048576 1056768) as (s' & E & Hio & _ & Hmg & _);
    [exact (init_start (Pmm ∅ ∅ 0 0 0 ∅ 0 0 false))|unfold PMM_MAX_REGIONS; simpl; lia|lia|lia|lia|done|done|].
  unfold demo_pmm. rewrite E. simpl default. split_and!; [|done|].
  - apply set_initialized_ok. by apply init_ok_pmm_ok.
  - apply managed_bit.
    assert (Hm : managed s' 256 = true) by (rewrite Hmg; by apply orb_true_r).
    split; [exact Hm|]. change (pmm_bit_is_set s' 256 = false).
    rewrite (io_bits s' Hio) by (unfold PMM_MAX_FRAMES; lia). by rewrite Hm.
Qed.

(** The same with 128 frames: 1 MiB to 1.5 MiB. *)
Definition demo_frames : pmm_state :=
  set_pmm_initialized (default demo_empty (pmm_add_region demo_empty 1048576 1572864)) true.

Lemma demo_frames_ok :
  pmm_ok demo_frames /\ pmm_initialized demo_frames = true /\ pmm_highest_end demo_frames = 1572864 /\
  pmm_avail demo_frames = 128 /\ forall f, frame_free demo_frames f -> 1048576 <= f.
Proof.
  destruct (add_region_ok demo_empty 1048576 1572864) as (s' & E & Hio & _ & Hmg & Hhi);
    [exact (init_start (Pmm ∅ ∅ 0 0 0 ∅ 0 0 false))|unfold PMM_MAX_REGIONS; simpl; lia|lia|lia|lia|done|done|].
  unfold demo_frames. rewrite E. simpl default.
  assert (Hw : forall i, managed s' i = within 1048576 1572864 i) by (intros i; by rewrite Hmg).
  split_and!; [apply set_initialized_ok; by apply init_ok_pmm_ok|done|exact Hhi| |].
  - unfold pmm_avail. cbn [pmm_total pmm_used set_pmm_initialized]. rewrite (io_total s' Hio), (io_used s' Hio).
    clear E Hhi. revert Hw. generalize (managed s'). clear. intros M Hw. unfold PMM_MAX_FRAMES.
    assert (Hin : forall i, M i = (256 <=? i) && (i <? 384)).
    { intros i. rewrite Hw. unfold within, PAGE_SIZE.
      destruct (Z.leb_spec 1048576 (i * 4096)), (Z.ltb_spec (i * 4096) 1572864), (Z.leb_spec 256 i), (Z.ltb_spec i 384); done || lia. }
    rewrite (count_split _ 0 256), (count_split _ 256 384) by lia.
    rewrite (count_false _ 0 256), (count_true _ 256 384), (count_false _ 384); [done|..];
      try (intros i Hi; rewrite Hin; destruct (Z.leb_spec 256 i), (Z.ltb_spec i 384); done || lia); lia.
  - intros f (Hm & _ & Hu). apply managed_bit in Hu as [Hmf _]. change (managed s' (f / 4096) = true) in Hmf.
    rewrite Hw in Hmf. unfold within, PAGE_SIZE in Hmf. bool_simp. Z.div_mod_to_equations. lia.
Qed.

(** C21. [pmm_alloc_frame] on a ready allocator: it returns 0 and changes nothing
    exactly when no frame is usable; otherwise it returns the first usable frame at
    or after the hint, in cyclic order, which is a page-aligned non-null 32-bit
    address, is not usable any more, and is the only frame whose status changes; the
    used counter grows by one and the invariant is kept. *)
Theorem pmm_alloc_frame_spec s :
  pmm_ok s -> pmm_initialized s = true ->
  let '(f, s') := pmm_alloc_frame s in
  (f = 0 /\ s' = s /\ (forall i, 0 <= i < PMM_MAX_FRAMES -> usable s i = false)) \/
  (exists j, let i := cyc (pmm_hint_frame s) j in
     0 <= j < PMM_MAX_FRAMES /\ f = i * PAGE_SIZE /\ 0 < f < 4294967296 /\ usable s i = true /\
     (forall j', 0 <= j' < j -> usable s (cyc (pmm_hint_frame s) j') = false) /\
     (forall k, 0 <= k < PMM_MAX_FRAMES -> usable s' k = usable s k && negb (i =? k)) /\
     pmm_used s' = pmm_used s + 1 /\ pmm_total s' = pmm_total s /\ pmm_ok s').
Proof.
  intros Hok Hinit. destruct (alloc_cases s Hok Hinit) as [[-> Hn]|(j & Hj & Hu & Hf & E)].
  - by left.
  - rewrite E. right. exists j. cbv zeta. pose proof (cyc_range (pmm_hint_frame s) j) as Hi.
    destruct (take_ok s _ Hok Hi Hu) as [_ Hused]. pose proof (taken_ok s _ Hok Hi Hu).
    pose proof (managed_range s _ Hok (proj1 (proj1 (managed_bit _ _) Hu))).
    split_and!; auto; try lia; try (unfold PAGE_SIZE, PMM_MAX_FRAMES in *; lia).
    intros k Hk. apply usable_taken; lia.
Qed.

Lemma pmm_alloc_frame_spec_witness :
  exists f, (f, snd (pmm_alloc_frame demo_pmm)) = pmm_alloc_frame demo_pmm /\ f <> 0.
Proof.
  destruct demo_pmm_ok as (Hok & Hinit & Hu).
  pose proof (pmm_alloc_frame_spec demo_pmm Hok Hinit) as H.
  destruct (pmm_alloc_frame demo_pmm) as [f s']. exists f. split; [reflexivity|].
  destruct H as [(_ & _ & Hn)|(j & _ & _ & Hf & _)]; [|lia].
  rewrite Hn in Hu; [discriminate|unfold PMM_MAX_FRAMES; lia].
Defined.

(** C22. [pmm_free_frame] on a ready allocator accepts exactly the page-aligned
    addresses of frames that lie in a usable region and are in use; then the frame is
    usable again, no other frame changes, the used counter shrinks by one and the
    invariant is kept. Every other argument (misaligned, outside the regions, already
    free) returns 0 and leaves the state as it was. *)
Theorem pmm_free_frame_spec s f :
  pmm_ok s -> pmm_initialized s = true -> is_u32 f ->
  let '(ok, s') := pmm_free_frame f s in
  (ok = true <-> f `mod` PAGE_SIZE = 0 /\ managed s (f / PAGE_SIZE) = true /\
                 pmm_bit_is_set s (f / PAGE_SIZE) = true) /\
  (ok = false -> s' = s) /\
  (ok = true -> pmm_ok s' /\ pmm_used s' = pmm_used s - 1 /\
     forall k, 0 <= k < PMM_MAX_FRAMES -> usable s' k = usable s k || (f / PAGE_SIZE =? k)).
Proof.
  intros Hok Hinit Hf. pose proof (index_range f Hf). unfold PAGE_SIZE.
  rewrite free_cases by done.
  destruct (Z.eqb_spec (f `mod` 4096) 0), (managed s (f / 4096)) eqn:Hm,
    (pmm_bit_is_set s (f / 4096)) eqn:Hb; cbn [andb]; split_and!; try done;
    try (split; [done|by intros (? & ? & ?)]).
  intros _. split_and!; [by apply freed_ok|unfold freed; by case_if|].
  intros k Hk. apply usable_freed; (done || lia).
Qed.

Lemma pmm_free_frame_spec_witness : snd (pmm_free_frame 1048576 demo_pmm) = demo_pmm.
Proof.
  destruct demo_pmm_ok as (Hok & Hinit & Hu).
  pose proof (pmm_free_frame_spec demo_pmm 1048576 Hok Hinit ltac:(unfold is_u32; lia)) as H.
  destruct (pmm_free_frame 1048576 demo_pmm) as [ok s']. destruct H as (Hiff & Hfalse & _).
  destruct ok; [|by apply Hfalse]. destruct (proj1 Hiff eq_refl) as (_ & _ & Hb).
  apply managed_bit in Hu as [_ Hu]. change (1048576 / PAGE_SIZE) with 256 in Hb. congruence.
Defined.

(** Freeing what was just allocated succeeds and restores the set of usable
    frames and the counters. *)
Theorem pmm_alloc_free_roundtrip s f s' :
  pmm_ok s -> pmm_alloc_frame s = (f, s') -> f <> 0 ->
  exists s'', pmm_free_frame f s' = (true, s'') /\ pmm_ok s'' /\
    pmm_used s'' = pmm_used s /\ pmm_total s'' = pmm_total s /\
    (forall k, 0 <= k < PMM_MAX_FRAMES -> usable s'' k = usable s k).
Proof.
  intros Hok Ha Hf.
  destruct (alloc_some_spec s f s' Hok Ha Hf) as (Hok' & Hfree & Hr & Hm & _ & Hu & Ht & Hi & ->).
  assert (Hu32 : is_u32 f) by (unfold is_u32; lia). pose proof (index_range f Hu32).
  pose proof (held_taken s f Hu32 Hf Hfree) as Hh. pose proof Hh as (_ & _ & _ & Hmg & Hb).
  eexists. split; [by apply free_held|]. split_and!.
  - by apply freed_ok.
  - unfold freed. case_if; simpl in *; lia.
  - unfold freed. by case_if.
  - intros k Hk. rewrite usable_freed, usable_taken by (done || lia).
    destruct (Z.eqb_spec (f / 4096) k) as [<-|]; [|by rewrite andb_true_r, orb_false_r].
    destruct Hfree as (_ & _ & ->). done.
Qed.

Lemma pmm_alloc_free_roundtrip_witness :
  exists f s', pmm_alloc_frame demo_pmm = (f, s') /\ fst (pmm_free_frame f s') = true.
Proof.
  destruct demo_pmm_ok as (Hok & Hinit & Hu).
  destruct (alloc_cases demo_pmm Hok Hinit) as [[_ Hn]|(j & Hj & Huse & _ & E)].
  - rewrite Hn in Hu; [discriminate|unfold PMM_MAX_FRAMES; lia].
  - eexists _, _. split; [exact E|].
    destruct (pmm_alloc_free_roundtrip demo_pmm _ _ Hok E) as (s'' & -> & _); [|reflexivity].
    apply managed_bit in Huse as [Hm _]. apply managed_range in Hm; [|done]. unfold PAGE_SIZE. lia.
Defined.

(** C4. In every run of allocations and frees of a client that returns only frames
    it holds: no frame it holds is usable, so no allocation hands out a frame twice;
    every free of a held frame succeeds; and the used counter is the initial one plus
    the number of frames held, so nothing leaks. *)
Theorem pmm_no_double_allocation s0 s L :
  pmm_ok s0 -> pmm_initialized s0 = true -> rtc pmm_step (s0, ∅) (s, L) ->
  pmm_ok s /\ (forall f, f ∈ L -> ~ frame_free s f) /\
  (forall f s', pmm_alloc_frame s = (f, s') -> f <> 0 -> f ∉ L) /\
  (forall f, f ∈ L -> fst (pmm_free_frame f s) = true) /\
  pmm_used s = pmm_used s0 + Z.of_nat (size L).
Proof.
  intros Hok Hinit Hrun.
  destruct (ledger_run (pmm_used s0) _ _ Hrun) as (Hok' & Hinit' & Hheld & Hused).
  { split_and!; cbn [fst snd]; auto; [set_solver|rewrite size_empty; lia]. }
  cbn [fst snd] in *. split_and!; auto.
  - intros f Hf. apply held_not_free. auto.
  - intros f s' Ha Hf Hin. destruct (alloc_some_spec s f s') as (_ & Hfree & _); auto.
    apply (held_not_free s f); auto.
  - intros f Hf. rewrite free_held; auto.
Qed.

Lemma pmm_no_double_allocation_witness :
  exists f s', pmm_alloc_frame demo_pmm = (f, s') /\ fst (pmm_free_frame f s') = true.
Proof.
  destruct demo_pmm_ok as (Hok & Hinit & Hu).
  destruct (alloc_cases demo_pmm Hok Hinit) as [[_ Hn]|(j & Hj & Huse & _ & E)].
  - rewrite Hn in Hu; [discriminate|unfold PMM_MAX_FRAMES; lia].
  - eexists _, _. split; [exact E|].
    assert (Hnz : cyc (pmm_hint_frame demo_pmm) j * PAGE_SIZE <> 0).
    { apply managed_bit in Huse as [Hm _]. apply managed_range in Hm; [|done]. unfold PAGE_SIZE. lia. }
    destruct (pmm_no_double_allocation demo_pmm _ _ Hok Hinit
                (rtc_once _ _ (step_alloc demo_pmm ∅ _ _ E Hnz))) as (_ & _ & _ & Hfree & _).
    apply Hfree, elem_of_union_l, elem_of_singleton. reflexivity.
Defined.


(** A boot memory with one 24-byte entry at 0x9000: 16 MiB of RAM at 1 MiB. *)
Definition demo_boot_mem : mem :=
  wr32 (wr32 (wr32 (wr32 ∅ 36864 20) 36868 1048576) 36876 16777216) 36884 1.
Definition demo_mbi : multiboot_info_t := MultibootInfo 64 0 0 0 0 0 0 [0; 0; 0; 0] 24 36864.


(** A usable memory-map entry that starts at or below 0xFFFFF000 contributes
    only memory it describes: the region lies inside the entry, at or above 1 MiB and
    at or above the end of the kernel, and is page aligned and not empty. *)
Theorem pmm_entry_region_sound base len K a b :
  0 <= base <= 4294963200 -> 0 <= len -> base + len < 18446744073709551616 ->
  1048576 <= K < 4294967296 -> K `mod` PAGE_SIZE = 0 ->
  pmm_entry_region base len K = Some (a, b) ->
  base <= a /\ a < b /\ b <= base + len /\ K <= a /\ 1048576 <= a /\
  a `mod` PAGE_SIZE = 0 /\ b `mod` PAGE_SIZE = 0.
Proof.
  intros Hb Hl Hbl HK HKm E. unfold PAGE_SIZE in *.
  pose proof (entry_region_bounds base len K a b ltac:(lia) HKm E) as (H1 & H2 & H3 & H4 & H5).
  revert E. unfold pmm_entry_region, UINT32_MAX. rewrite page_mask_const. cbv zeta.
  rewrite (Z.mod_small (base + len)) by lia.
  set (rs := if base <? 1048576 then 1048576 else base).
  assert (Hrs : base <= rs <= 4294963200) by (unfold rs; case_if; lia).
  destruct (4294967295 <? base + len) eqn:Hbig; bool_simp;
    (case_if; [|discriminate]); rewrite page_mask by apply u32_range;
    rewrite (align_up_aligned K) by (unfold is_u32; lia);
    rewrite (u32_small rs) by lia; rewrite u32_small by lia;
    destruct (align_up_cases rs ltac:(unfold is_u32; lia)) as [_ Hc];
    destruct (align_up_4k rs <? K) eqn:?; bool_simp;
    (case_if; [|discriminate]); intros [= <- <-]; split_and!; auto; try lia;
    Z.div_mod_to_equations; lia.
Qed.

Lemma pmm_entry_region_sound_witness :
  pmm_entry_region 1048576 16777216 1052672 = Some (1052672, 17825792) /\ 1048576 <= 1052672.
Proof.
  assert (E : pmm_entry_region 1048576 16777216 1052672 = Some (1052672, 17825792))
    by (vm_compute; reflexivity).
  split; [exact E|].
  apply (pmm_entry_region_sound 1048576 16777216 1052672 1052672 17825792); try lia; [reflexivity|exact E].
Defined.

(** A usable entry that starts in the last page of the 32-bit address space
    makes [pmm_init] manage memory the entry does not describe: rounding its start up
    wraps to 0, the clamp to the kernel's end replaces it, and the region becomes
    everything from the kernel's end to 0xFFFFF000. *)
Theorem pmm_entry_region_top_wraps base len K :
  4294963200 < base < 4294967295 -> 0 < len -> base + len < 18446744073709551616 ->
  0 < K < 4294963200 -> K `mod` PAGE_SIZE = 0 ->
  pmm_entry_region base len K = Some (K, 4294963200).
Proof.
  intros Hb Hl Hbl HK HKm. unfold PAGE_SIZE in *. unfold pmm_entry_region, UINT32_MAX.
  rewrite page_mask_const. cbv zeta. rewrite (Z.mod_small (base + len)) by lia.
  rewrite (proj2 (Z.ltb_ge base 1048576)) by lia.
  set (re := if 4294967295 <? base + len then 4294967295 else base + len).
  assert (Hre : base < re <= 4294967295) by (unfold re; case_if; lia).
  rewrite (proj2 (Z.ltb_lt base re)) by lia. rewrite !u32_small by lia.
  destruct (align_up_cases base ltac:(unfold is_u32; lia)) as [_ Hc].
  replace (align_up_4k base) with 0 by lia. rewrite (proj2 (Z.ltb_lt 0 K)) by lia.
  rewrite align_up_aligned by (done || unfold is_u32; lia). rewrite page_mask by (unfold is_u32; lia).
  replace (re - re `mod` 4096) with 4294963200 by (Z.div_mod_to_equations; lia).
  by rewrite (proj2 (Z.ltb_lt K 4294963200)) by lia.
Qed.

Lemma pmm_entry_region_top_wraps_witness :
  pmm_entry_region 4294967040 128 2097152 = Some (2097152, 4294963200).
Proof. apply pmm_entry_region_top_wraps; (lia || reflexivity). Defined.
