(* ===== verification/Paging.v ===== *)
(** kernel/paging.c: two-level x86 page tables in physical memory.

    The page directories and tables are words of [pg_mem], the byte-addressed
    physical memory: the kernel dereferences physical addresses directly, which
    is what the identity mapping [paging_init] builds makes sound. The frames
    come from any [FrameAllocator]. *)
From Stdlib Require Import ZArith Lia Bool List.
From stdpp Require Import base gmap list numbers option.
From S2P Require Import Prelude Interfaces.
#[local] Open Scope Z_scope.

(** ** Data *)

Definition PAGING_FLAG_PRESENT : Z := 1.
Definition PAGING_FLAG_RW : Z := 2.
Definition PAGING_FLAG_USER : Z := 4.

(** The static variables of paging.c, the address of the static array
    [page_directory], the registers it writes, and what it works on: the frame
    allocator and the physical memory. *)
Record paging_state (A : Type) := Paging {
  pg_frames : A;
  pg_mem : mem;
  page_directory : Z;
  paging_is_enabled : bool;
  paging_kernel_dir_phys : Z;
  paging_current_dir_phys : Z;
  pg_cr3 : Z;
  pg_cr0 : Z;
}.
Arguments Paging {A}.
Arguments pg_frames {A}.
Arguments pg_mem {A}.
Arguments page_directory {A}.
Arguments paging_is_enabled {A}.
Arguments paging_kernel_dir_phys {A}.
Arguments paging_current_dir_phys {A}.
Arguments pg_cr3 {A}.
Arguments pg_cr0 {A}.

Section Operations.
Context {A : Type} `{FrameAllocator A}.
Implicit Types (s : paging_state A) (m : mem).

Definition set_pg_mem s m : paging_state A :=
  Paging (pg_frames s) m (page_directory s) (paging_is_enabled s) (paging_kernel_dir_phys s)
         (paging_current_dir_phys s) (pg_cr3 s) (pg_cr0 s).
Definition set_pg_frames s (a : A) : paging_state A :=
  Paging a (pg_mem s) (page_directory s) (paging_is_enabled s) (paging_kernel_dir_phys s)
         (paging_current_dir_phys s) (pg_cr3 s) (pg_cr0 s).
Definition set_paging_enabled s (b : bool) : paging_state A :=
  Paging (pg_frames s) (pg_mem s) (page_directory s) b (paging_kernel_dir_phys s)
         (paging_current_dir_phys s) (pg_cr3 s) (pg_cr0 s).

(** ** Operations *)

Definition pd_index_of (virt : Z) : Z := Z.land (Z.shiftr virt 22) 1023.
Definition pt_index_of (virt : Z) : Z := Z.land (Z.shiftr virt 12) 1023.
Definition entry (m : mem) (table i : Z) : Z := rd32 m (table + 4 * i).
Definition set_entry (m : mem) (table i v : Z) : mem := wr32 m (table + 4 * i) v.
Definition table_of (pde : Z) : Z := Z.land pde 4294963200.
Definition has_flag (e flag : Z) : bool := negb (Z.land e flag =? 0).

Definition paging_active_directory s : Z :=
  if paging_current_dir_phys s =? 0 then page_directory s else paging_current_dir_phys s.

Definition align_up_4k (value : Z) : Z := Z.land (value ⊞ 4095) (not32 4095).

(** A [for] loop that writes the entries [l] of one table. *)
Definition table_indices : list Z := seqZ 0 1024.
Definition fill (m : mem) (t : Z) (g : Z -> Z) (l : list Z) : mem :=
  fold_left (fun m i => set_entry m t i (g i)) l m.

Definition clear_table (m : mem) (table : Z) : mem := fill m table (fun _ => 0) table_indices.

(** Returns the table's address, or 0, and the new state. *)
Definition paging_alloc_table s : Z * paging_state A :=
  let '(frame, a) := fa_alloc (pg_frames s) in
  let s := set_pg_frames s a in
  if frame =? 0 then (0, s) else (frame, set_pg_mem s (clear_table (pg_mem s) frame)).

Definition identity_end_of (highest : Z) : Z :=
  let identity_end := align_up_4k highest in
  if identity_end <? 4 * 1024 * 1024 then 4 * 1024 * 1024 else identity_end.

(** The number of page tables and the end of the identity mapping. *)
Definition identity_extent (highest : Z) : Z * Z :=
  let identity_end := identity_end_of highest in
  let pd_count := Z.shiftr (identity_end ⊞ 4194303) 22 in
  if 1024 <? pd_count then (1024, UINT32_MAX) else (pd_count, identity_end).

Definition fill_identity (m : mem) (table pd identity_end : Z) : mem :=
  fill m table (fun e =>
    let phys := Z.lor (Z.shiftl pd 22) (Z.shiftl e 12) in
    if phys <? identity_end
    then Z.lor (Z.lor phys PAGING_FLAG_PRESENT) PAGING_FLAG_RW else 0) table_indices.

Fixpoint map_identity (n : nat) (pd identity_end : Z) s : bool * paging_state A :=
  match n with
  | O => (true, s)
  | S n' =>
      let '(table, s) := paging_alloc_table s in
      if table =? 0 then (false, set_paging_enabled s false) else
      let m := fill_identity (pg_mem s) table pd identity_end in
      let m := set_entry m (page_directory s) pd
                 (Z.lor (Z.lor table PAGING_FLAG_PRESENT) PAGING_FLAG_RW) in
      map_identity n' (pd + 1) identity_end (set_pg_mem s m)
  end.

Definition paging_init s : paging_state A :=
  let s := set_pg_mem s (clear_table (pg_mem s) (page_directory s)) in
  if negb (fa_ready (pg_frames s)) then set_paging_enabled s false else
  let '(pd_count, identity_end) := identity_extent (fa_highest (pg_frames s)) in
  let '(ok, s) := map_identity (Z.to_nat pd_count) 0 identity_end s in
  if negb ok then s else
  Paging (pg_frames s) (pg_mem s) (page_directory s) true (page_directory s) (page_directory s)
         (page_directory s) (Z.lor (pg_cr0 s) 2147483648).

Definition paging_enabled s : bool := paging_is_enabled s.

(** The first half of [paging_map_page]: the page directory gets a table for
    [pd_index] if it has none, and the user flag if the mapping needs it. *)
Definition ensure_table (directory pd_index flags : Z) s : bool * paging_state A :=
  if negb (has_flag (entry (pg_mem s) directory pd_index) PAGING_FLAG_PRESENT) then
    let pde_flags := Z.lor PAGING_FLAG_PRESENT PAGING_FLAG_RW in
    let '(table, s) := paging_alloc_table s in
    if table =? 0 then (false, s) else
    let pde_flags := if has_flag flags PAGING_FLAG_USER
                     then Z.lor pde_flags PAGING_FLAG_USER else pde_flags in
    (true, set_pg_mem s (set_entry (pg_mem s) directory pd_index (Z.lor table pde_flags)))
  else if has_flag flags PAGING_FLAG_USER then
    (true, set_pg_mem s (set_entry (pg_mem s) directory pd_index
                           (Z.lor (entry (pg_mem s) directory pd_index) PAGING_FLAG_USER)))
  else (true, s).

Definition paging_map_page (virt phys flags : Z) s : bool * paging_state A :=
  let pd_index := pd_index_of virt in
  let pt_index := pt_index_of virt in
  if negb (paging_is_enabled s) then (false, s) else
  if negb (Z.land virt 4095 =? 0) || negb (Z.land phys 4095 =? 0) then (false, s) else
  let flags := if negb (has_flag flags PAGING_FLAG_PRESENT)
               then Z.lor flags PAGING_FLAG_PRESENT else flags in
  let directory := paging_active_directory s in
  let '(ok, s) := ensure_table directory pd_index flags s in
  if negb ok then (false, s) else
  let table := table_of (entry (pg_mem s) directory pd_index) in
  if has_flag (entry (pg_mem s) table pt_index) PAGING_FLAG_PRESENT then (false, s) else
  (true, set_pg_mem s (set_entry (pg_mem s) table pt_index
                         (Z.lor (Z.land phys 4294963200) (Z.land flags 4095)))).

Definition paging_unmap_page (virt : Z) s : bool * paging_state A :=
  let pd_index := pd_index_of virt in
  let pt_index := pt_index_of virt in
  if negb (paging_is_enabled s) then (false, s) else
  if negb (Z.land virt 4095 =? 0) then (false, s) else
  let directory := paging_active_directory s in
  if negb (has_flag (entry (pg_mem s) directory pd_index) PAGING_FLAG_PRESENT) then (false, s) else
  let table := table_of (entry (pg_mem s) directory pd_index) in
  if negb (has_flag (entry (pg_mem s) table pt_index) PAGING_FLAG_PRESENT) then (false, s) else
  (true, set_pg_mem s (set_entry (pg_mem s) table pt_index 0)).

(** [None] is the return value 0; the address is [*phys_out]. *)
Definition paging_translate (virt : Z) s : option Z :=
  let pd_index := pd_index_of virt in
  let pt_index := pt_index_of virt in
  if negb (paging_is_enabled s) then None else
  let directory := paging_active_directory s in
  if negb (has_flag (entry (pg_mem s) directory pd_index) PAGING_FLAG_PRESENT) then None else
  let table := table_of (entry (pg_mem s) directory pd_index) in
  let pte := entry (pg_mem s) table pt_index in
  if negb (has_flag pte PAGING_FLAG_PRESENT) then None else
  Some (Z.lor (Z.land pte 4294963200) (Z.land virt 4095)).

Definition user_flags_ok (e : Z) : bool :=
  Z.land e (Z.lor PAGING_FLAG_PRESENT PAGING_FLAG_USER) =? Z.lor PAGING_FLAG_PRESENT PAGING_FLAG_USER.

(** The page walks of [paging_user_accessible] and of [ptr_range_mapped] visit at
    most every page of the address space. *)
Definition PAGE_WALK_FUEL : nat := Z.to_nat 1048577.

Definition user_page_body (m : mem) (directory end_ : Z) (page : Z) : Z + bool :=
  let pde := entry m directory (pd_index_of page) in
  if negb (user_flags_ok pde) then inr false else
  let pte := entry m (table_of pde) (pt_index_of page) in
  if negb (user_flags_ok pte) then inr false else
  if Z.land end_ 4294963200 <=? page then inr true else inl (page ⊞ 4096).

Definition paging_user_accessible (virt size : Z) s : option bool :=
  if negb (paging_is_enabled s) || (size =? 0) then Some false else
  if UINT32_MAX ⊟ (size ⊟ 1) <? virt then Some false else
  let end_ := (virt ⊞ size) ⊟ 1 in
  loop PAGE_WALK_FUEL (user_page_body (pg_mem s) (paging_active_directory s) end_)
       (Z.land virt 4294963200).

Definition paging_kernel_directory_phys s : Z := paging_kernel_dir_phys s.

Definition paging_current_directory_phys s : Z :=
  if negb (paging_is_enabled s) then 0 else paging_current_dir_phys s.

Definition clone_entries (m : mem) (new_dir kernel_dir : Z) : mem :=
  fold_left (fun m i =>
    let pde := entry m kernel_dir i in
    set_entry m new_dir i (if has_flag pde PAGING_FLAG_USER then 0 else pde)) table_indices m.

(** Returns the directory's address, or 0 for the return value 0. *)
Definition paging_clone_kernel_directory s : Z * paging_state A :=
  if negb (paging_is_enabled s) then (0, s) else
  let '(frame, a) := fa_alloc (pg_frames s) in
  let s := set_pg_frames s a in
  if frame =? 0 then (0, s) else
  (frame, set_pg_mem s (clone_entries (pg_mem s) frame (paging_kernel_dir_phys s))).

Definition paging_switch_directory (directory_phys : Z) s : paging_state A :=
  if negb (paging_is_enabled s) || (directory_phys =? 0) then s else
  if negb (Z.land directory_phys 4095 =? 0) then s else
  Paging (pg_frames s) (pg_mem s) (page_directory s) (paging_is_enabled s)
         (paging_kernel_dir_phys s) directory_phys directory_phys (pg_cr0 s).

End Operations.

(** ** Abstract view

    [lookup m D v] is the page-table entry that maps the page of [v] in the
    address space of directory [D], if there is one. *)
Definition lookup_page (m : mem) (D v : Z) : option Z :=
  let pde := entry m D (pd_index_of v) in
  if has_flag pde PAGING_FLAG_PRESENT then
    let pte := entry m (table_of pde) (pt_index_of v) in
    if has_flag pte PAGING_FLAG_PRESENT then Some pte else None
  else None.

Definition mapped (m : mem) (D v : Z) : bool :=
  match lookup_page m D v with Some _ => true | None => false end.

Definition page_of (v : Z) : Z := v / 4096.

(** ** Lemmas on entries *)

Definition aligned (t : Z) : Prop := t `mod` 4096 = 0.

Lemma entry_range m t i : is_u32 (entry m t i).
Proof. apply rd32_range. Qed.

Lemma entry_set_eq m t i v : is_u32 v -> entry (set_entry m t i v) t i = v.
Proof. apply rd32_wr32_eq. Qed.

Lemma entry_set_ne m t i v t' j :
  aligned t -> aligned t' -> 0 <= i < 1024 -> 0 <= j < 1024 -> t <> t' \/ i <> j ->
  entry (set_entry m t i v) t' j = entry m t' j.
Proof.
  unfold aligned. intros Ht Ht' Hi Hj Hne. apply rd32_wr32_ne. Z.div_mod_to_equations. lia.
Qed.

Lemma fill_ne m t g l t' j :
  aligned t -> aligned t' -> (forall i, i ∈ l -> 0 <= i < 1024) -> 0 <= j < 1024 ->
  t <> t' \/ j ∉ l -> entry (fill m t g l) t' j = entry m t' j.
Proof.
  unfold fill. intros Ht Ht' Hl Hj Hne. revert m Hl Hne.
  induction l as [|i l IH]; intros m Hl Hne; simpl; [done|].
  rewrite IH by (set_solver by auto). apply entry_set_ne; auto; set_solver.
Qed.

Lemma fill_eq m t g l i :
  aligned t -> (forall i, i ∈ l -> 0 <= i < 1024) -> is_u32 (g i) -> i ∈ l ->
  entry (fill m t g l) t i = g i.
Proof.
  intros Ht Hl Hg. revert m.
  induction l as [|j l IH]; intros m Hin; [by apply elem_of_nil in Hin|].
  change (fill m t g (j :: l)) with (fill (set_entry m t j (g j)) t g l).
  destruct (decide (i ∈ l)); [by apply IH; [set_solver|]|].
  assert (i = j) as -> by set_solver.
  rewrite fill_ne; [by apply entry_set_eq|done|done|set_solver|set_solver|by right].
Qed.

Lemma table_indices_spec i : i ∈ table_indices <-> 0 <= i < 1024.
Proof. unfold table_indices. rewrite elem_of_seqZ. lia. Qed.
#[global] Opaque table_indices.

Lemma table_indices_range i : i ∈ table_indices -> 0 <= i < 1024.
Proof. by rewrite table_indices_spec. Qed.

Lemma clear_table_fill m t : clear_table m t = fill m t (fun _ => 0) table_indices.
Proof. done. Qed.

Lemma clear_table_eq m t i : aligned t -> 0 <= i < 1024 -> entry (clear_table m t) t i = 0.
Proof.
  intros. unfold clear_table. rewrite fill_eq; auto using table_indices_range; [done|].
  by apply table_indices_spec.
Qed.

Lemma clear_table_ne m t t' j :
  aligned t -> aligned t' -> 0 <= j < 1024 -> t <> t' -> entry (clear_table m t) t' j = entry m t' j.
Proof. intros. unfold clear_table. rewrite fill_ne; auto using table_indices_range. Qed.

#[global] Opaque clear_table.

Lemma has_flag_present e : has_flag e PAGING_FLAG_PRESENT = Z.testbit e 0.
Proof. apply (bit_test e 0). lia. Qed.

Lemma has_flag_user e : has_flag e PAGING_FLAG_USER = Z.testbit e 2.
Proof. apply (bit_test e 2). lia. Qed.

Lemma table_of_eq e : is_u32 e -> table_of e = e - e `mod` 4096.
Proof. apply page_mask. Qed.

Lemma table_of_aligned e : is_u32 e -> aligned (table_of e) /\ is_u32 (table_of e).
Proof.
  intros He. rewrite table_of_eq by done. unfold aligned, is_u32 in *.
  Z.div_mod_to_equations. lia.
Qed.

Lemma table_of_lor_user e : table_of (Z.lor e PAGING_FLAG_USER) = table_of e.
Proof. unfold table_of. rewrite Z.land_lor_distr_l. apply Z.lor_0_r. Qed.

(** An entry made from an aligned address and a flag word. *)
Lemma make_entry t f :
  aligned t -> is_u32 t -> 0 <= f < 4096 ->
  is_u32 (Z.lor t f) /\ table_of (Z.lor t f) = t /\
  (forall k, 0 <= k < 12 -> Z.testbit (Z.lor t f) k = Z.testbit f k).
Proof.
  unfold aligned. intros Ht Hu Hf. rewrite (lor_disjoint t f 12) by (done || lia).
  assert (is_u32 (t + f)) by (unfold is_u32 in *; Z.div_mod_to_equations; lia).
  split_and!; [done| |].
  - rewrite table_of_eq by done. Z.div_mod_to_equations. lia.
  - intros k Hk. rewrite <- (lor_disjoint t f 12) by (done || lia). rewrite Z.lor_spec.
    rewrite <- (Z.mod_pow2_bits_low t 12 k) by lia. change (2 ^ 12) with 4096. by rewrite Ht, Z.bits_0.
Qed.

Lemma pd_index_eq v : is_u32 v -> pd_index_of v = v / 4194304.
Proof.
  intros Hv. unfold pd_index_of. rewrite index_mask, Z.shiftr_div_pow2 by lia.
  change (2 ^ 22) with 4194304. apply Z.mod_small. unfold is_u32 in Hv. Z.div_mod_to_equations. lia.
Qed.

Lemma pt_index_eq v : pt_index_of v = (v / 4096) `mod` 1024.
Proof. unfold pt_index_of. rewrite index_mask, Z.shiftr_div_pow2 by lia. done. Qed.

Lemma pd_index_range v : 0 <= pd_index_of v < 1024.
Proof. unfold pd_index_of. rewrite index_mask. apply Z.mod_pos_bound. lia. Qed.

Lemma pt_index_range v : 0 <= pt_index_of v < 1024.
Proof. unfold pt_index_of. rewrite index_mask. apply Z.mod_pos_bound. lia. Qed.

(** Two addresses have the same indices when they are on the same page. *)
Lemma same_page v w :
  is_u32 v -> is_u32 w ->
  (page_of v = page_of w <-> pd_index_of v = pd_index_of w /\ pt_index_of v = pt_index_of w).
Proof.
  intros Hv Hw. rewrite !pd_index_eq, !pt_index_eq by done. unfold page_of, is_u32 in *.
  Z.div_mod_to_equations. lia.
Qed.

#[export] Hint Resolve entry_range pd_index_range pt_index_range : mars.

(** ** Invariant of a directory *)

Definition present (e : Z) : bool := has_flag e PAGING_FLAG_PRESENT.

Section Invariant.
Context {A : Type} `{FrameAllocatorOk A}.
Implicit Types (a : A) (m : mem) (s : paging_state A).

(** The directory and its page tables are frames in use, all different. *)
Record dir_ok a m (D : Z) : Prop := {
  dk_aligned : aligned D;
  dk_range : 0 < D < 4294967296;
  dk_own : ~ fa_is_free a D;
  dk_tables : forall i, 0 <= i < 1024 -> present (entry m D i) = true ->
    ~ fa_is_free a (table_of (entry m D i)) /\ table_of (entry m D i) <> D;
  dk_inj : forall i j, 0 <= i < 1024 -> 0 <= j < 1024 -> i <> j ->
    present (entry m D i) = true -> present (entry m D j) = true ->
    table_of (entry m D i) <> table_of (entry m D j);
}.

(** [dir_ok] depends on the directory's entries only through their presence and
    the tables they point to, and on the frames in use. *)
Lemma dir_ok_mono a a' m m' D :
  dir_ok a m D -> (forall f, fa_is_free a' f -> fa_is_free a f) ->
  (forall i, 0 <= i < 1024 -> present (entry m' D i) = present (entry m D i) /\
                              table_of (entry m' D i) = table_of (entry m D i)) ->
  dir_ok a' m' D.
Proof.
  intros [] Hfree Hsame. split; auto.
  - intros i Hi. destruct (Hsame i Hi) as [-> ->]. intros Hp. destruct (dk_tables0 i Hi Hp). auto.
  - intros i j Hi Hj. destruct (Hsame i Hi) as [-> ->], (Hsame j Hj) as [-> ->]. auto.
Qed.

Lemma lookup_page_same m m' D w :
  present (entry m' D (pd_index_of w)) = present (entry m D (pd_index_of w)) ->
  table_of (entry m' D (pd_index_of w)) = table_of (entry m D (pd_index_of w)) ->
  (present (entry m D (pd_index_of w)) = true ->
   entry m' (table_of (entry m D (pd_index_of w))) (pt_index_of w) =
   entry m (table_of (entry m D (pd_index_of w))) (pt_index_of w)) ->
  lookup_page m' D w = lookup_page m D w.
Proof.
  unfold lookup_page, present. intros Hp Ht He. rewrite Hp, Ht.
  destruct (has_flag (entry m D (pd_index_of w)) PAGING_FLAG_PRESENT); [|done].
  by rewrite He.
Qed.

Lemma table_aligned m D i : aligned (table_of (entry m D i)).
Proof. apply table_of_aligned, entry_range. Qed.
Local Hint Resolve table_aligned : mars.

(** *** Writing a page-table entry *)

Lemma write_pte a m D v e :
  dir_ok a m D -> is_u32 v -> is_u32 e -> present (entry m D (pd_index_of v)) = true ->
  let m' := set_entry m (table_of (entry m D (pd_index_of v))) (pt_index_of v) e in
  (forall i, 0 <= i < 1024 -> entry m' D i = entry m D i) /\ dir_ok a m' D /\
  forall w, is_u32 w -> lookup_page m' D w =
    if page_of w =? page_of v then (if present e then Some e else None) else lookup_page m D w.
Proof.
  intros Hd Hv He Hp m'. set (T := table_of (entry m D (pd_index_of v))) in *.
  destruct (dk_tables a m D Hd (pd_index_of v)) as [Hnf HTD]; auto with mars. fold T in Hnf, HTD.
  assert (HT : aligned T) by apply table_aligned. pose proof (dk_aligned a m D Hd) as HDa.
  assert (HD : forall i, 0 <= i < 1024 -> entry m' D i = entry m D i).
  { intros i Hi. apply entry_set_ne; auto with mars. }
  split; [done|]. split.
  { apply (dir_ok_mono a a m); auto. intros i Hi. by rewrite HD. }
  intros w Hw. destruct (Z.eqb_spec (page_of w) (page_of v)) as [Heq|Hne].
  - apply same_page in Heq as [Hpd Hpt]; auto. unfold lookup_page.
    rewrite HD by auto with mars. rewrite Hpd, Hpt. fold T. fold (present (entry m D (pd_index_of v))).
    rewrite Hp. unfold m'. rewrite entry_set_eq by done. done.
  - rewrite same_page in Hne by done.
    apply lookup_page_same; rewrite ?HD by auto with mars; auto. intros Hpw.
    apply entry_set_ne; auto with mars.
    destruct (decide (pd_index_of w = pd_index_of v)) as [Hpd|Hpd].
    + right. intros Hpt. by apply Hne.
    + left. apply (dk_inj a m D Hd); auto with mars.
Qed.

(** *** The first half of [paging_map_page] *)

Definition touch s a m : paging_state A := set_pg_mem (set_pg_frames s a) m.

Lemma touch_id s : touch s (pg_frames s) (pg_mem s) = s.
Proof. by destruct s. Qed.

Lemma alloc_table_cases s :
  fa_ok (pg_frames s) ->
  (fst (fa_alloc (pg_frames s)) = 0 /\ paging_alloc_table s = (0, s)) \/
  exists f a, fa_alloc (pg_frames s) = (f, a) /\ f <> 0 /\
    paging_alloc_table s = (f, touch s a (clear_table (pg_mem s) f)).
Proof.
  intros Hok. unfold paging_alloc_table. destruct (fa_alloc (pg_frames s)) as [f a] eqn:E.
  destruct (Z.eqb_spec f 0) as [->|Hne].
  - left. split; [done|]. rewrite (fa_alloc_none _ _ Hok E). by destruct s.
  - right. exists f, a. done.
Qed.

(** A new table: the entry of the directory changes from absent to a table in a
    frame that was free, in which [m1] has put the table's contents. *)
Definition pte_opt (e : Z) : option Z := if present e then Some e else None.

Lemma new_table a a' f m m1 D i fl :
  dir_ok a m D -> fa_ok a -> fa_alloc a = (f, a') -> f <> 0 -> 0 <= i < 1024 ->
  present (entry m D i) = false -> 0 <= fl < 4096 -> Z.testbit fl 0 = true ->
  (forall t j, aligned t -> t <> f -> 0 <= j < 1024 -> entry m1 t j = entry m t j) ->
  let m' := set_entry m1 D i (Z.lor f fl) in
  dir_ok a' m' D /\ present (entry m' D i) = true /\
  table_of (entry m' D i) = f /\
  (forall w, lookup_page m' D w =
     if pd_index_of w =? i then pte_opt (entry m1 f (pt_index_of w)) else lookup_page m D w) /\
  (forall t j, aligned t -> t <> f -> 0 <= j < 1024 -> t <> D \/ j <> i -> entry m' t j = entry m t j).
Proof.
  intros Hd Hok Ha Hf Hi Habs Hfl Hbit Hm1 m'.
  destruct (fa_alloc_some a f a' Hok Ha Hf) as (_ & Hfree & Hr & Hm & Hiff & _).
  destruct (make_entry f fl) as (Hu & Ht & Hk); [done|unfold is_u32; lia|done|].
  assert (HfD : f <> D) by (intros ->; by apply Hd). pose proof (dk_aligned a m D Hd) as HDa.
  assert (Hfa : aligned f) by exact Hm.
  assert (HDi : entry m' D i = Z.lor f fl) by (apply entry_set_eq; exact Hu).
  assert (Hother : forall t j, aligned t -> t <> f -> 0 <= j < 1024 -> t <> D \/ j <> i ->
                               entry m' t j = entry m t j).
  { intros t j Hta Htf Hj Hne. unfold m'. rewrite entry_set_ne by (assumption || lia). by apply Hm1. }
  assert (HDj : forall j, 0 <= j < 1024 -> j <> i -> entry m' D j = entry m D j) by auto.
  assert (Hfz : forall j, 0 <= j < 1024 -> entry m' f j = entry m1 f j).
  { intros j Hj. apply entry_set_ne; assumption || lia. }
  clearbody m'.
  assert (HfT : forall j, 0 <= j < 1024 -> present (entry m D j) = true -> f <> table_of (entry m D j)).
  { intros j Hj Hp Heq. destruct (dk_tables a m D Hd j Hj Hp) as [Hnf _]. by rewrite <- Heq in Hnf. }
  assert (Hpi : present (entry m' D i) = true).
  { rewrite HDi. unfold present. rewrite has_flag_present, Hk by lia. done. }
  split_and!; [|done|by rewrite HDi| |done].
  - split; try apply Hd.
    + intros Hc. apply Hiff in Hc as [Hc _]. by apply Hd.
    + intros j Hj Hp. destruct (decide (j = i)) as [->|Hne].
      * rewrite HDi, Ht. split; [|done]. intros Hc. by apply Hiff in Hc as [_ ?].
      * rewrite HDj in * by done. destruct (dk_tables a m D Hd j Hj Hp). split; [|done].
        intros Hc. by apply Hiff in Hc as [? _].
    + intros j k Hj Hk' Hne Hpj Hpk.
      destruct (decide (j = i)) as [->|], (decide (k = i)) as [->|]; try done.
      * rewrite HDi, Ht. rewrite (HDj k) in * by done. by apply HfT.
      * rewrite HDi, Ht. rewrite (HDj j) in * by done. intros Heq. symmetry in Heq. by apply (HfT j).
      * rewrite (HDj j), (HDj k) in * by done. by apply (dk_inj a m D Hd).
  - intros w. pose proof (pd_index_range w). pose proof (pt_index_range w).
    destruct (Z.eqb_spec (pd_index_of w) i) as [<-|Hne].
    + unfold lookup_page. fold (present (entry m' D (pd_index_of w))).
      by rewrite Hpi, HDi, Ht, Hfz.
    + apply lookup_page_same; rewrite ?HDj by done; auto. intros Hp.
      destruct (dk_tables a m D Hd (pd_index_of w)); auto.
      apply Hother; auto; [apply table_aligned|]. intros Heq. symmetry in Heq. by apply HfT in Heq.
Qed.

(** What a step may do to the rest of memory: only the directory and frames that
    were free change. *)
Definition frame_ok a m (D : Z) a' m' : Prop :=
  (forall f, fa_is_free a' f -> fa_is_free a f) /\
  forall t j, aligned t -> t <> D -> ~ fa_is_free a t -> 0 <= j < 1024 -> entry m' t j = entry m t j.

Lemma ensure_table_spec s D i fl :
  fa_ok (pg_frames s) -> dir_ok (pg_frames s) (pg_mem s) D -> 0 <= i < 1024 ->
  exists ok a' m', ensure_table D i fl s = (ok, touch s a' m') /\ fa_ok a' /\ dir_ok a' m' D /\
    (forall w, lookup_page m' D w = lookup_page (pg_mem s) D w) /\
    (ok = true -> present (entry m' D i) = true) /\
    ok = (present (entry (pg_mem s) D i) || negb (fst (fa_alloc (pg_frames s)) =? 0)) /\
    (ok = true -> present (entry (pg_mem s) D i) = false ->
     fa_is_free (pg_frames s) (table_of (entry m' D i))) /\
    fa_avail a' <= fa_avail (pg_frames s) /\
    frame_ok (pg_frames s) (pg_mem s) D a' m'.
Proof.
  intros Hok Hd Hi. unfold ensure_table. fold (present (entry (pg_mem s) D i)).
  destruct (present (entry (pg_mem s) D i)) eqn:Hp; cbn [negb orb].
  - destruct (has_flag fl PAGING_FLAG_USER).
    2: { exists true, (pg_frames s), (pg_mem s). rewrite touch_id. by split_and!. }
    set (e := entry (pg_mem s) D i) in *.
    exists true, (pg_frames s), (set_entry (pg_mem s) D i (Z.lor e PAGING_FLAG_USER)).
    assert (He : is_u32 (Z.lor e PAGING_FLAG_USER)) by (apply lor_u32; [apply entry_range|done]).
    pose proof (dk_aligned _ _ _ Hd) as HDa.
    assert (Hsame : forall j, 0 <= j < 1024 ->
      present (entry (set_entry (pg_mem s) D i (Z.lor e PAGING_FLAG_USER)) D j) = present (entry (pg_mem s) D j) /\
      table_of (entry (set_entry (pg_mem s) D i (Z.lor e PAGING_FLAG_USER)) D j) = table_of (entry (pg_mem s) D j)).
    { intros j Hj. destruct (decide (j = i)) as [->|].
      - rewrite entry_set_eq by done. fold e. rewrite table_of_lor_user, Hp. split; [|done].
        unfold present in *. rewrite has_flag_present in *. rewrite Z.lor_spec, Hp. done.
      - rewrite entry_set_ne by (assumption || lia). done. }
    split_and!; auto; [by apply (dir_ok_mono (pg_frames s) _ (pg_mem s))| | |done|lia|].
    + intros w. destruct (Hsame (pd_index_of w) (pd_index_range w)). apply lookup_page_same; auto.
      intros Hpw. pose proof (pd_index_range w). pose proof (pt_index_range w).
      apply entry_set_ne; auto with mars. left.
      destruct (dk_tables _ _ _ Hd (pd_index_of w)); auto.
    + intros _. by rewrite (proj1 (Hsame i Hi)).
    + split; [done|]. intros t j Hta HtD _ Hj. apply entry_set_ne; auto.
  - destruct (alloc_table_cases s Hok) as [[Hz ->]|(f & a & E & Hf & ->)].
    { exists false, (pg_frames s), (pg_mem s). rewrite Hz, touch_id. by split_and!. }
    rewrite (proj2 (Z.eqb_neq f 0)) by done. rewrite E. cbn [fst]. rewrite (proj2 (Z.eqb_neq f 0)) by done.
    set (flags := if has_flag fl PAGING_FLAG_USER then _ else _).
    assert (0 <= flags < 4096 /\ Z.testbit flags 0 = true) as [Hfl Hbit]
      by (unfold flags; destruct (has_flag fl PAGING_FLAG_USER); done).
    destruct (fa_alloc_some _ _ _ Hok E Hf) as (Hok' & Hfree & _ & _ & Hiff & Hav).
    assert (Hfa : aligned f) by (by apply (fa_alloc_some _ _ _ Hok E Hf)).
    assert (Hz : forall j, 0 <= j < 1024 -> entry (clear_table (pg_mem s) f) f j = 0)
      by (intros; by apply clear_table_eq).
    assert (Hne : forall t j, aligned t -> t <> f -> 0 <= j < 1024 ->
                    entry (clear_table (pg_mem s) f) t j = entry (pg_mem s) t j)
      by (intros; by apply clear_table_ne).
    cbn [pg_mem touch set_pg_mem]. revert Hz Hne. generalize (clear_table (pg_mem s) f). intros m1 Hz Hne.
    destruct (new_table (pg_frames s) a f (pg_mem s) m1 D i flags) as (Hd' & Hp' & Ht' & Hl' & Hother); auto.
    exists true, a, (set_entry m1 D i (Z.lor f flags)). split; [reflexivity|].
    split_and!; auto; [|by rewrite Ht'|lia|].
    + intros w. rewrite Hl', Hz by auto with mars. destruct (Z.eqb_spec (pd_index_of w) i) as [<-|]; [|done].
      unfold lookup_page. fold (present (entry (pg_mem s) D (pd_index_of w))). by rewrite Hp.
    + split; [intros g Hg; by apply Hiff in Hg as [? _]|].
      intros t j Hta HtD Hnf Hj. apply Hother; auto. by intros ->.
Qed.

(** *** Mapping *)

Definition pte_for (phys flags : Z) : Z :=
  Z.lor (Z.land phys 4294963200) (Z.land (Z.lor flags PAGING_FLAG_PRESENT) 4095).

Lemma flags_present fl :
  (if negb (has_flag fl PAGING_FLAG_PRESENT) then Z.lor fl PAGING_FLAG_PRESENT else fl)
  = Z.lor fl PAGING_FLAG_PRESENT.
Proof.
  rewrite has_flag_present. destruct (Z.testbit fl 0) eqn:E; [|done]. simpl.
  apply Z.bits_inj'. intros k Hk. rewrite Z.lor_spec. destruct (decide (k = 0)) as [->|].
  - by rewrite E.
  - unfold PAGING_FLAG_PRESENT. rewrite (testbit_high 1 1 k) by lia. by rewrite orb_false_r.
Qed.

Lemma pte_for_spec phys flags :
  is_u32 phys -> aligned phys ->
  is_u32 (pte_for phys flags) /\ present (pte_for phys flags) = true /\
  table_of (pte_for phys flags) = phys.
Proof.
  intros Hu Ha. unfold pte_for. rewrite page_mask, offset_mask by done. unfold aligned in Ha.
  rewrite Ha, Z.sub_0_r. pose proof (Z.mod_pos_bound (Z.lor flags PAGING_FLAG_PRESENT) 4096 ltac:(lia)).
  destruct (make_entry phys (Z.lor flags PAGING_FLAG_PRESENT `mod` 4096)) as (Hu' & Ht & Hk); auto.
  split_and!; auto. unfold present. rewrite has_flag_present, Hk by lia.
  change 4096 with (2 ^ 12). rewrite Z.mod_pow2_bits_low, Z.lor_spec by lia. apply orb_true_r.
Qed.

Definition page_aligned (v : Z) : bool := v `mod` 4096 =? 0.

Lemma map_page_cases s virt phys flags :
  let D := paging_active_directory s in
  paging_is_enabled s = true -> fa_ok (pg_frames s) -> dir_ok (pg_frames s) (pg_mem s) D ->
  is_u32 virt -> is_u32 phys ->
  exists ok a' m', paging_map_page virt phys flags s = (ok, touch s a' m') /\ fa_ok a' /\ dir_ok a' m' D /\
    ok = (page_aligned virt && page_aligned phys && negb (mapped (pg_mem s) D virt) &&
          (present (entry (pg_mem s) D (pd_index_of virt)) || negb (fst (fa_alloc (pg_frames s)) =? 0))) /\
    (forall w, is_u32 w -> lookup_page m' D w =
       if ok && (page_of w =? page_of virt) then Some (pte_for phys flags) else lookup_page (pg_mem s) D w) /\
    fa_avail a' <= fa_avail (pg_frames s) /\
    (present (entry (pg_mem s) D (pd_index_of virt)) = false ->
     frame_ok (pg_frames s) (pg_mem s) D a' m').
Proof.
  intros D Hen Hok Hd Hv Hph. unfold paging_map_page. rewrite Hen, (offset_mask virt), (offset_mask phys), flags_present. cbn [negb].
  unfold page_aligned. destruct (_ =? 0) eqn:Hva, (phys `mod` 4096 =? 0) eqn:Hpa; cbn [negb orb andb];
    try (exists false, (pg_frames s), (pg_mem s); rewrite touch_id; by split_and!).
  bool_simp. pose proof (pd_index_range virt) as Hpd.
  destruct (ensure_table_spec s D (pd_index_of virt) (Z.lor flags PAGING_FLAG_PRESENT))
    as (ok & a1 & m1 & E & Hok1 & Hd1 & Hl1 & Hp1 & -> & Hnew & Hav & Hfr); auto.
  fold D. rewrite E. destruct (_ || _) eqn:Hcan; cbn [negb].
  2: { exists false, a1, m1. rewrite andb_false_r. split_and!; auto. }
  rewrite andb_true_r. specialize (Hp1 eq_refl). cbn [pg_mem touch set_pg_mem].
  set (T := table_of (entry m1 D (pd_index_of virt))).
  assert (Hlk : lookup_page m1 D virt = if present (entry m1 T (pt_index_of virt))
                                        then Some (entry m1 T (pt_index_of virt)) else None).
  { unfold lookup_page. fold (present (entry m1 D (pd_index_of virt))). by rewrite Hp1. }
  fold (present (entry m1 T (pt_index_of virt))). rewrite Hl1 in Hlk.
  destruct (present (entry m1 T (pt_index_of virt))) eqn:Hpt.
  { exists false, a1, m1. unfold mapped. rewrite Hlk. split_and!; auto. }
  destruct (pte_for_spec phys flags) as (He & Hpe & _); auto.
  destruct (write_pte a1 m1 D virt (pte_for phys flags)) as (HD & Hd2 & Hl2); auto.
  eexists true, a1, _. split; [reflexivity|]. unfold mapped. rewrite Hlk.
  split_and!; [exact Hok1|exact Hd2|reflexivity| |exact Hav|].
  - intros w Hw. etransitivity; [by apply Hl2|]. rewrite Hpe. cbn [andb].
    destruct (page_of w =? page_of virt); [reflexivity|apply Hl1].
  - intros Habs. split; [apply Hfr|]. intros t j Hta HtD Hnf Hj.
    etransitivity; [|by apply Hfr].
    apply entry_set_ne; [apply table_aligned|done|apply pt_index_range|done|].
    left. intros Heq. apply Hnf. rewrite <- Heq. by apply Hnew.
Qed.

Lemma unmap_page_cases s virt :
  let D := paging_active_directory s in
  paging_is_enabled s = true -> dir_ok (pg_frames s) (pg_mem s) D -> is_u32 virt ->
  exists ok m', paging_unmap_page virt s = (ok, set_pg_mem s m') /\ dir_ok (pg_frames s) m' D /\
    ok = (page_aligned virt && mapped (pg_mem s) D virt) /\
    (forall w, is_u32 w -> lookup_page m' D w =
       if ok && (page_of w =? page_of virt) then None else lookup_page (pg_mem s) D w).
Proof.
  intros D Hen Hd Hv. unfold paging_unmap_page. rewrite Hen, offset_mask. cbn [negb].
  unfold page_aligned. destruct (_ =? 0); cbn [negb andb].
  2: { exists false, (pg_mem s). split; [by destruct s|]. by split_and!. }
  fold D. unfold mapped, lookup_page at 1. fold (present (entry (pg_mem s) D (pd_index_of virt))).
  destruct (present (entry (pg_mem s) D (pd_index_of virt))) eqn:Hp; cbn [negb].
  2: { exists false, (pg_mem s). split; [by destruct s|]. by split_and!. }
  set (T := table_of (entry (pg_mem s) D (pd_index_of virt))).
  destruct (has_flag (entry (pg_mem s) T (pt_index_of virt)) PAGING_FLAG_PRESENT) eqn:Hpt; cbn [negb].
  2: { exists false, (pg_mem s). split; [by destruct s|]. by split_and!. }
  destruct (write_pte (pg_frames s) (pg_mem s) D virt 0) as (HD & Hd2 & Hl2); auto; [done|].
  exists true, (set_entry (pg_mem s) T (pt_index_of virt) 0). split; [reflexivity|].
  split_and!; [exact Hd2|reflexivity|].
  intros w Hw. etransitivity; [by apply Hl2|]. reflexivity.
Qed.

(** *** Translation *)

Lemma translate_eq s virt :
  paging_is_enabled s = true ->
  paging_translate virt s =
  (fun pte => table_of pte + virt `mod` 4096) <$> lookup_page (pg_mem s) (paging_active_directory s) virt.
Proof.
  intros Hen. unfold paging_translate, lookup_page. rewrite Hen. cbn [negb].
  destruct (has_flag _ _); [|done]. cbn [negb].
  set (pte := entry _ (table_of _) _). destruct (has_flag pte _); [|done]. cbn [negb fmap option_fmap option_map].
  rewrite offset_mask. f_equal. fold (table_of pte).
  destruct (table_of_aligned pte) as [Ha _]; [apply entry_range|].
  apply (lor_disjoint _ _ 12); [lia|exact Ha|]. apply Z.mod_pos_bound. lia.
Qed.

(** *** User accessibility *)

(** The page of [v] is present and user-accessible at both levels. *)
Definition user_page m (D v : Z) : Prop :=
  user_flags_ok (entry m D (pd_index_of v)) = true /\
  user_flags_ok (entry m (table_of (entry m D (pd_index_of v))) (pt_index_of v)) = true.

Lemma user_page_same m D v w :
  is_u32 v -> is_u32 w -> page_of v = page_of w -> user_page m D v -> user_page m D w.
Proof. intros Hv Hw Hp. apply same_page in Hp as [Hpd Hpt]; auto. unfold user_page. by rewrite Hpd, Hpt. Qed.

Lemma PAGE_WALK_FUEL_eq : Z.of_nat PAGE_WALK_FUEL = 1048577.
Proof. unfold PAGE_WALK_FUEL. lia. Qed.
#[local] Opaque PAGE_WALK_FUEL.

(** A loop that tests the pages from [virt] to [end_] one by one ends, and its result
    says whether every address in between is [good]. *)
Lemma page_walk (body : Z -> Z + bool) (good : Z -> Prop) virt end_ :
  is_u32 virt -> is_u32 end_ -> virt <= end_ ->
  (forall v w, is_u32 v -> is_u32 w -> page_of v = page_of w -> good v -> good w) ->
  (forall page, is_u32 page ->
     (~ good page /\ body page = inr false) \/
     (good page /\ body page = if Z.land end_ 4294963200 <=? page then inr true else inl (page ⊞ 4096))) ->
  exists b, loop PAGE_WALK_FUEL body (Z.land virt 4294963200) = Some b /\
    (b = true <-> forall v, virt <= v <= end_ -> good v).
Proof.
  intros Hv He Hle Hsame Hbody.
  apply (loop_total body
    (fun page => is_u32 page /\ page `mod` 4096 = 0 /\ page_of virt <= page_of page <= page_of end_ /\
                 forall v, virt <= v <= end_ -> page_of v < page_of page -> good v)
    (fun b => b = true <-> forall v, virt <= v <= end_ -> good v)
    (fun page => page_of end_ - page_of page)).
  - intros page (Hp & Hal & Hr & Hdone). rewrite page_mask in Hbody by done.
    destruct (Hbody page Hp) as [[Hn ->]|[Hg ->]].
    { split; [done|]. intros Hall. destruct Hn.
      apply (Hsame (Z.max virt page)); [..|apply Hall]; unfold is_u32, page_of in *; Z.div_mod_to_equations; lia. }
    assert (Hup : forall v, virt <= v <= end_ -> page_of v <= page_of page -> good v).
    { intros v Hvr Hvp. destruct (decide (page_of v = page_of page)).
      - apply (Hsame page); [done|unfold is_u32 in *; lia|done|done].
      - apply Hdone; lia. }
    clear Hdone. destruct (Z.leb_spec (end_ - end_ `mod` 4096) page) as [Hend|Hend].
    + split; [|done]. intros _ v Hvr. apply Hup; [done|]. unfold page_of. Z.div_mod_to_equations. lia.
    + rewrite u32_small by (unfold is_u32 in *; Z.div_mod_to_equations; lia).
      split_and!; try (unfold is_u32, page_of in *; Z.div_mod_to_equations; lia).
      intros v Hvr Hvp. apply Hup; [done|]. unfold page_of in *. Z.div_mod_to_equations. lia.
  - rewrite page_mask by done.
    split_and!; try (unfold is_u32, page_of in *; Z.div_mod_to_equations; lia).
    intros v Hvr Hvp. unfold page_of in Hvp. Z.div_mod_to_equations. lia.
  - rewrite page_mask, PAGE_WALK_FUEL_eq by done. unfold is_u32, page_of in *. Z.div_mod_to_equations. lia.
  - rewrite page_mask by done. unfold is_u32, page_of in *. Z.div_mod_to_equations. lia.
Qed.

(** The last address of a range whose end does not wrap. *)
Lemma range_last virt size : is_u32 virt -> 0 < size -> virt + size <= 4294967296 -> (virt ⊞ size) ⊟ 1 = virt + size - 1.
Proof. intros Hv Hs Hr. unfold u32, is_u32 in *. rewrite Zminus_mod_idemp_l. apply Z.mod_small. lia. Qed.

Lemma user_walk m D virt end_ :
  is_u32 virt -> is_u32 end_ -> virt <= end_ ->
  exists b, loop PAGE_WALK_FUEL (user_page_body m D end_) (Z.land virt 4294963200) = Some b /\
    (b = true <-> forall v, virt <= v <= end_ -> user_page m D v).
Proof.
  intros Hv He Hle. apply page_walk; auto; [by apply user_page_same|]. intros page Hp.
  unfold user_page_body, user_page.
  destruct (user_flags_ok (entry m D (pd_index_of page))); cbn [negb]; [|left; split; [by intros []|done]].
  destruct (user_flags_ok (entry m (table_of _) _)); cbn [negb]; [|left; split; [by intros []|done]]. by right.
Qed.

Lemma user_accessible_cases s virt size :
  paging_is_enabled s = true -> is_u32 virt -> is_u32 size ->
  exists b, paging_user_accessible virt size s = Some b /\
    (b = true <-> 0 < size /\ virt + size <= 4294967296 /\
       forall v, virt <= v < virt + size -> user_page (pg_mem s) (paging_active_directory s) v).
Proof.
  intros Hen Hv Hs. unfold paging_user_accessible, UINT32_MAX. rewrite Hen. cbn [negb orb].
  unfold is_u32 in *. destruct (Z.eqb_spec size 0) as [->|Hne].
  { exists false. split; [done|]. split; [done|lia]. }
  rewrite (u32_small (size - 1)) by lia. rewrite (u32_small (_ - (size - 1))) by lia.
  destruct (Z.ltb_spec (4294967295 - (size - 1)) virt).
  { exists false. split; [done|]. split; [done|lia]. }
  rewrite range_last by (unfold is_u32; lia).
  destruct (user_walk (pg_mem s) (paging_active_directory s) virt (virt + size - 1)) as (b & Hb & Hiff);
    unfold is_u32; try lia.
  exists b. split; [done|]. rewrite Hiff. split.
  - intros Hall. split_and!; try lia. intros v Hvr. apply Hall. lia.
  - intros (_ & _ & Hall) v Hvr. apply Hall. lia.
Qed.


(** *** The identity mapping of [paging_init] *)

Definition ident_pte (w : Z) : Z :=
  Z.lor (Z.lor (w - w `mod` 4096) PAGING_FLAG_PRESENT) PAGING_FLAG_RW.

Lemma ident_pte_eq w : ident_pte w = Z.lor (w - w `mod` 4096) 3.
Proof. unfold ident_pte. by rewrite <- Z.lor_assoc. Qed.

Lemma ident_pte_spec w :
  is_u32 w -> is_u32 (ident_pte w) /\ present (ident_pte w) = true /\ table_of (ident_pte w) = w - w `mod` 4096.
Proof.
  intros Hw. rewrite ident_pte_eq.
  destruct (make_entry (w - w `mod` 4096) 3) as (Hu & Ht & Hk);
    [unfold aligned; Z.div_mod_to_equations; lia|unfold is_u32 in *; Z.div_mod_to_equations; lia|lia|].
  split_and!; auto. unfold present. by rewrite has_flag_present, Hk by lia.
Qed.

(** What the identity mapping up to [ie] says of the page of [w]. *)
Definition ident_lookup (ie w : Z) : option Z :=
  if w - w `mod` 4096 <? ie then Some (ident_pte w) else None.

Lemma phys_of_indices w :
  is_u32 w -> Z.lor (Z.shiftl (pd_index_of w) 22) (Z.shiftl (pt_index_of w) 12) = w - w `mod` 4096.
Proof.
  intros Hw. rewrite !Z.shiftl_mul_pow2 by lia. rewrite pd_index_eq, pt_index_eq by done.
  unfold is_u32 in Hw. rewrite (lor_disjoint _ _ 22); try lia;
    change (2 ^ 22) with 4194304; change (2 ^ 12) with 4096; Z.div_mod_to_equations; lia.
Qed.

Lemma fill_identity_spec m f pd ie :
  aligned f ->
  (forall w, is_u32 w -> pd_index_of w = pd ->
     pte_opt (entry (fill_identity m f pd ie) f (pt_index_of w)) = ident_lookup ie w) /\
  (forall t j, aligned t -> t <> f -> 0 <= j < 1024 -> entry (fill_identity m f pd ie) t j = entry m t j).
Proof.
  intros Hf. unfold fill_identity. split.
  - intros w Hw Hpd. destruct (ident_pte_spec w Hw) as (Hu & Hp & _).
    rewrite fill_eq; auto using table_indices_range; rewrite <- ?Hpd, ?phys_of_indices by done;
      unfold ident_lookup; fold (ident_pte w).
    + destruct (_ <? _); [|done]. unfold pte_opt. by rewrite Hp.
    + destruct (_ <? _); done.
    + apply table_indices_spec. apply pt_index_range.
  - intros. rewrite fill_ne; auto using table_indices_range.
Qed.

Lemma avail_alloc a : fa_ok a -> fa_ready a = true -> 0 < fa_avail a ->
  exists f a', fa_alloc a = (f, a') /\ f <> 0 /\ fa_ready a' = true.
Proof.
  intros Hok Hr Hav. destruct (fa_alloc a) as [f a'] eqn:E. exists f, a'. split; [done|].
  pose proof (fa_alloc_avail a Hok Hr Hav) as Hne. pose proof (fa_alloc_ready a) as Hr'.
  rewrite E in *. cbn in *. by rewrite Hr'.
Qed.

Definition ident_upto m (D pd ie : Z) : Prop :=
  (forall i, pd <= i < 1024 -> present (entry m D i) = false) /\
  (forall w, is_u32 w -> lookup_page m D w = if pd_index_of w <? pd then ident_lookup ie w else None).

Lemma ident_upto_step a a' f m pd ie D :
  fa_ok a -> dir_ok a m D -> ident_upto m D pd ie -> fa_alloc a = (f, a') -> f <> 0 -> 0 <= pd < 1024 ->
  let m' := set_entry (fill_identity (clear_table m f) f pd ie) D pd
              (Z.lor (Z.lor f PAGING_FLAG_PRESENT) PAGING_FLAG_RW) in
  dir_ok a' m' D /\ ident_upto m' D (pd + 1) ie.
Proof.
  intros Hok Hd [Hab Hid] E Hf Hpd. rewrite <- Z.lor_assoc. cbv zeta.
  change (Z.lor PAGING_FLAG_PRESENT PAGING_FLAG_RW) with 3.
  assert (Hfa : aligned f) by (by apply (fa_alloc_some _ _ _ Hok E Hf)).
  destruct (fill_identity_spec (clear_table m f) f pd ie Hfa) as [Hfill Hne].
  revert Hfill Hne. generalize (fill_identity (clear_table m f) f pd ie). intros m1 Hfill Hne.
  destruct (new_table a a' f m m1 D pd 3) as (Hd' & Hp' & _ & Hl' & Hother); auto; [apply Hab; lia|lia| |].
  { intros t j Hta Htf Hj. rewrite Hne by done. by apply clear_table_ne. }
  clear Hne. split; [done|]. assert (HfD : D <> f).
  { intros <-. apply (dk_own _ _ _ Hd). apply (proj1 (proj2 (fa_alloc_some _ _ _ Hok E Hf))). }
  split.
  - intros i Hi. rewrite Hother; [apply Hab; lia|apply Hd|done|lia|right; lia].
  - intros w Hw. rewrite Hl', Hid by done.
    destruct (Z.eqb_spec (pd_index_of w) pd) as [Heq|].
    + rewrite Hfill by done. by rewrite (proj2 (Z.ltb_lt _ _)) by lia.
    + destruct (Z.ltb_spec (pd_index_of w) pd), (Z.ltb_spec (pd_index_of w) (pd + 1)); done || lia.
Qed.

Lemma map_identity_ok n : forall pd ie s,
  let D := page_directory s in
  fa_ok (pg_frames s) -> fa_ready (pg_frames s) = true -> Z.of_nat n <= fa_avail (pg_frames s) ->
  dir_ok (pg_frames s) (pg_mem s) D -> 0 <= pd -> pd + Z.of_nat n <= 1024 ->
  ident_upto (pg_mem s) D pd ie ->
  exists a' m', map_identity n pd ie s = (true, touch s a' m') /\ fa_ok a' /\ dir_ok a' m' D /\
    ident_upto m' D (pd + Z.of_nat n) ie /\
    fa_avail a' = fa_avail (pg_frames s) - Z.of_nat n /\ fa_ready a' = true.
Proof.
  induction n as [|n IH]; intros pd ie s D Hok Hr Hav Hd Hpd Hn Hid.
  { exists (pg_frames s), (pg_mem s). rewrite touch_id, Z.add_0_r. split_and!; try done. lia. }
  destruct (avail_alloc (pg_frames s)) as (f & a & E & Hf & Hr'); auto; [lia|].
  cbn [map_identity]. unfold paging_alloc_table. rewrite E. rewrite (proj2 (Z.eqb_neq f 0)) by done.
  rewrite (proj2 (Z.eqb_neq f 0)) by done. cbn [pg_mem set_pg_mem set_pg_frames page_directory pg_frames].
  destruct (ident_upto_step (pg_frames s) a f (pg_mem s) pd ie D) as [Hd' Hid']; auto; [lia|].
  destruct (fa_alloc_some _ _ _ Hok E Hf) as (Hok' & _ & _ & _ & _ & Hav').
  revert Hd' Hid'. fold D. generalize (set_entry (fill_identity (clear_table (pg_mem s) f) f pd ie) D pd
              (Z.lor (Z.lor f PAGING_FLAG_PRESENT) PAGING_FLAG_RW)). intros m1 Hd' Hid'.
  edestruct (IH (pd + 1) ie (touch s a m1)) as (a' & m' & Heq & Hok2 & Hd2 & Hid2 & Hav2 & Hrd2); cbn; auto; try lia.
  exists a', m'. replace (pd + Z.of_nat (S n)) with (pd + 1 + Z.of_nat n) by lia. split; [exact Heq|].
  cbn [pg_frames touch set_pg_mem set_pg_frames] in Hav2. split_and!; try done. lia.
Qed.

Lemma align_up_4k_eq v :
  0 <= v <= 4294963200 -> align_up_4k v = v + 4095 - (v + 4095) `mod` 4096.
Proof.
  intros Hv. unfold align_up_4k. rewrite u32_small by lia.
  change (not32 4095) with 4294963200. apply page_mask. unfold is_u32. lia.
Qed.

Lemma identity_end_spec h :
  0 <= h <= 4290772992 ->
  identity_end_of h `mod` 4096 = 0 /\ h <= identity_end_of h <= 4290772992 /\
  identity_extent h = ((identity_end_of h + 4194303) / 4194304, identity_end_of h).
Proof.
  intros Hh. unfold identity_extent.
  assert (identity_end_of h `mod` 4096 = 0 /\ h <= identity_end_of h <= 4290772992) as [Ha Hr].
  { unfold identity_end_of. rewrite align_up_4k_eq by lia.
    destruct (Z.ltb_spec (h + 4095 - (h + 4095) `mod` 4096) (4 * 1024 * 1024));
      Z.div_mod_to_equations; lia. }
  rewrite u32_small, Z.shiftr_div_pow2 by lia. change (2 ^ 22) with 4194304.
  rewrite (proj2 (Z.ltb_ge _ _)) by (Z.div_mod_to_equations; lia).
  split_and!; lia || reflexivity || assumption.
Qed.

Lemma clear_dir_ok a m D :
  aligned D -> 0 < D < 4294967296 -> ~ fa_is_free a D ->
  dir_ok a (clear_table m D) D /\ forall ie, ident_upto (clear_table m D) D 0 ie.
Proof.
  intros Ha Hr Hnf.
  assert (Hz : forall i, 0 <= i < 1024 -> present (entry (clear_table m D) D i) = false).
  { intros i Hi. by rewrite clear_table_eq. }
  revert Hz. generalize (clear_table m D). intros m' Hz. split.
  - split; auto; [intros i Hi|intros i j Hi _ _]; by rewrite Hz.
  - intros ie. split; [intros; apply Hz; lia|]. intros w Hw. pose proof (pd_index_range w).
    rewrite (proj2 (Z.ltb_ge _ _)) by lia. unfold lookup_page.
    fold (present (entry m' D (pd_index_of w))). by rewrite (Hz _ (pd_index_range w)).
Qed.


Lemma paging_init_cases s :
  let D := page_directory s in
  let h := fa_highest (pg_frames s) in
  aligned D -> 0 < D < 4294967296 -> ~ fa_is_free (pg_frames s) D ->
  fa_ok (pg_frames s) -> fa_ready (pg_frames s) = true -> 0 <= h <= 4290772992 ->
  (identity_end_of h + 4194303) / 4194304 <= fa_avail (pg_frames s) ->
  exists a' m', paging_init s = Paging a' m' D true D D D (Z.lor (pg_cr0 s) 2147483648) /\
    fa_ok a' /\ dir_ok a' m' D /\
    (forall w, is_u32 w -> lookup_page m' D w = if w <? identity_end_of h then Some (ident_pte w) else None) /\
    fa_avail a' = fa_avail (pg_frames s) - (identity_end_of h + 4194303) / 4194304 /\ fa_ready a' = true /\
    forall i, (identity_end_of h + 4194303) / 4194304 <= i < 1024 -> present (entry m' D i) = false.
Proof.
  intros D h Ha Hr Hnf Hok Hrdy Hh Hav. destruct (identity_end_spec h Hh) as (Hie & Hier & Hext).
  destruct (clear_dir_ok (pg_frames s) (pg_mem s) D) as [Hd Hid]; auto.
  unfold paging_init. cbn [pg_frames set_pg_mem]. fold h. fold D. rewrite Hrdy, Hext. cbn [negb].
  specialize (Hid (identity_end_of h)). revert Hd Hid. generalize (clear_table (pg_mem s) D). intros m Hd Hid.
  set (n := (identity_end_of h + 4194303) / 4194304) in *.
  assert (Hn : 0 <= n <= 1024) by (unfold n; Z.div_mod_to_equations; lia).
  destruct (map_identity_ok (Z.to_nat n) 0 (identity_end_of h) (set_pg_mem s m))
    as (a' & m' & E & Hok' & Hd' & [Hab Hl'] & Hav' & Hrd'); cbn; auto; try lia.
  rewrite E. exists a', m'. split; [reflexivity|]. cbn [pg_frames set_pg_mem] in Hav'.
  split_and!; [done|exact Hd'| |fold n; lia|done|intros i Hi; apply Hab; lia].
  intros w Hw. etransitivity; [by apply Hl'|]. rewrite pd_index_eq by done. unfold ident_lookup, is_u32 in *.
  rewrite Z2Nat.id by lia. unfold n.
  destruct (Z.ltb_spec (w / 4194304) (0 + (identity_end_of h + 4194303) / 4194304)),
    (Z.ltb_spec (w - w `mod` 4096) (identity_end_of h)), (Z.ltb_spec w (identity_end_of h));
    reflexivity || (exfalso; clear - Hie Hier Hw H1 H2 H3; Z.div_mod_to_equations; lia).
Qed.

(** Without enough frames for the tables, paging stays off. *)
Lemma map_identity_fail n : forall pd ie s,
  fa_ok (pg_frames s) -> fa_avail (pg_frames s) < Z.of_nat n ->
  fst (map_identity n pd ie s) = false /\ paging_is_enabled (snd (map_identity n pd ie s)) = false.
Proof.
  induction n as [|n IH]; intros pd ie s Hok Hav.
  { pose proof (fa_avail_nonneg _ Hok). lia. }
  cbn [map_identity]. destruct (alloc_table_cases s Hok) as [[_ ->]|(f & a & E & Hf & ->)]; [done|].
  rewrite (proj2 (Z.eqb_neq f 0)) by done.
  destruct (fa_alloc_some _ _ _ Hok E Hf) as (Hok' & _ & _ & _ & _ & Hav').
  apply IH; [exact Hok'|]. cbn [pg_frames touch set_pg_mem set_pg_frames]. lia.
Qed.

(** *** Cloning *)

Definition clone_pde (e : Z) : Z := if has_flag e PAGING_FLAG_USER then 0 else e.

Lemma clone_entries_fill l : forall m f K,
  aligned f -> aligned K -> f <> K -> (forall i, i ∈ l -> 0 <= i < 1024) ->
  fold_left (fun m i => let pde := entry m K i in
                        set_entry m f i (if has_flag pde PAGING_FLAG_USER then 0 else pde)) l m =
  fill m f (fun i => clone_pde (entry m K i)) l.
Proof.
  intros m f K Hf HK Hne Hl.
  assert (Hgen : forall l' m', (forall i, i ∈ l' -> 0 <= i < 1024) ->
    (forall i, 0 <= i < 1024 -> entry m' K i = entry m K i) ->
    fold_left (fun m i => let pde := entry m K i in
                        set_entry m f i (if has_flag pde PAGING_FLAG_USER then 0 else pde)) l' m' =
    fill m' f (fun i => clone_pde (entry m K i)) l'); [|by apply Hgen].
  induction l' as [|i l' IH]; intros m' Hr Hsame; [done|].
  cbn [fold_left fill]. unfold fill. cbn [fold_left].
  rewrite Hsame by (apply Hr; set_solver). apply IH; [set_solver|].
  intros j Hj. rewrite entry_set_ne; auto. apply Hr. set_solver.
Qed.

Lemma clone_cases s f a' :
  let K := paging_kernel_dir_phys s in
  let m' := clone_entries (pg_mem s) f K in
  fa_ok (pg_frames s) -> dir_ok (pg_frames s) (pg_mem s) K ->
  fa_alloc (pg_frames s) = (f, a') -> f <> 0 ->
  fa_ok a' /\ dir_ok a' m' f /\ fa_is_free (pg_frames s) f /\
  (forall i, 0 <= i < 1024 -> entry m' f i = clone_pde (entry (pg_mem s) K i)) /\
  (forall t j, aligned t -> t <> f -> 0 <= j < 1024 -> entry m' t j = entry (pg_mem s) t j).
Proof.
  intros K m' Hok Hd E Hf.
  destruct (fa_alloc_some _ _ _ Hok E Hf) as (Hok' & Hfree & Hr & Hm & Hiff & _).
  assert (Hne : f <> K) by (intros ->; by apply Hd).
  assert (Hnew : forall i, 0 <= i < 1024 -> entry m' f i = clone_pde (entry (pg_mem s) K i)).
  { intros i Hi. unfold m', clone_entries.
    rewrite clone_entries_fill by (auto using table_indices_range; apply Hd).
    rewrite fill_eq; auto using table_indices_range; [|by apply table_indices_spec].
    unfold clone_pde. destruct (has_flag _ _); [done|apply entry_range]. }
  assert (Hold : forall t j, aligned t -> t <> f -> 0 <= j < 1024 -> entry m' t j = entry (pg_mem s) t j).
  { intros t j Hta Htf Hj. unfold m', clone_entries.
    rewrite clone_entries_fill by (auto using table_indices_range; apply Hd).
    rewrite fill_ne; auto using table_indices_range. }
  clearbody m'. split_and!; auto.
  assert (Hc : forall i, 0 <= i < 1024 -> present (entry m' f i) = true ->
            present (entry (pg_mem s) K i) = true /\ entry m' f i = entry (pg_mem s) K i).
  { intros i Hi. rewrite Hnew by done. unfold clone_pde. destruct (has_flag _ _); [discriminate|done]. }
  split; [done|lia|intros Hc'; by apply Hiff in Hc' as [_ ?]| |].
  - intros i Hi Hp. destruct (Hc i Hi Hp) as [HpK ->]. destruct (dk_tables _ _ _ Hd i Hi HpK) as [Hnf _].
    split; [intros Hc'; by apply Hiff in Hc' as [? _]|]. by intros <-.
  - intros i j Hi Hj Hij Hpi Hpj. destruct (Hc i Hi Hpi) as [? ->], (Hc j Hj Hpj) as [? ->].
    by apply (dk_inj _ _ _ Hd).
Qed.


End Invariant.

(** ** Theorems *)

Section Theorems.
Context {A : Type} `{FrameAllocatorOk A}.
Implicit Types (s : paging_state A).

(** Paging is on and the active directory is well formed. *)
Record paging_ok s : Prop := {
  pk_enabled : paging_is_enabled s = true;
  pk_frames : fa_ok (pg_frames s);
  pk_dir : dir_ok (pg_frames s) (pg_mem s) (paging_active_directory s);
}.

(** The page-table entry of [v] in the active address space. *)
Definition active_lookup s (v : Z) : option Z := lookup_page (pg_mem s) (paging_active_directory s) v.

(** C10. [paging_map_page] succeeds exactly when both addresses are page aligned, the
    page is not mapped yet and a page table for it exists or can be allocated. On
    success the page maps to the given frame with the given flags and PRESENT; in
    every case no other page of the active address space changes and the
    well-formedness of the page tables is kept. *)
Theorem paging_map_page_spec s virt phys flags :
  paging_ok s -> is_u32 virt -> is_u32 phys ->
  exists ok s', paging_map_page virt phys flags s = (ok, s') /\ paging_ok s' /\
    paging_active_directory s' = paging_active_directory s /\
    (ok = true <-> virt `mod` 4096 = 0 /\ phys `mod` 4096 = 0 /\ active_lookup s virt = None /\
       (present (entry (pg_mem s) (paging_active_directory s) (pd_index_of virt)) = true \/
        fst (fa_alloc (pg_frames s)) <> 0)) /\
    (forall w, is_u32 w -> active_lookup s' w =
       if ok && (page_of w =? page_of virt) then Some (pte_for phys flags) else active_lookup s w).
Proof.
  intros [Hen Hok Hd] Hv Hp.
  destruct (map_page_cases s virt phys flags) as (ok & a' & m' & E & Hok' & Hd' & Hiff & Hl & _); auto.
  exists ok, (touch s a' m'). split; [done|]. split; [by split|]. split; [done|]. split; [|exact Hl].
  rewrite Hiff. unfold active_lookup, mapped, page_aligned.
  rewrite !andb_true_iff, orb_true_iff, !negb_true_iff, !Z.eqb_eq, Z.eqb_neq.
  destruct (lookup_page _ _ _); naive_solver.
Qed.

(** C24. After a successful [paging_map_page], [paging_translate] maps every address of
    the page to the same offset in the frame and every other address as before;
    [paging_unmap_page] then succeeds and restores every translation. *)
Theorem paging_map_translate_unmap s virt phys flags s1 :
  paging_ok s -> is_u32 virt -> is_u32 phys -> paging_map_page virt phys flags s = (true, s1) ->
  (forall w, is_u32 w -> paging_translate w s1 =
     if page_of w =? page_of virt then Some (phys + w `mod` 4096) else paging_translate w s) /\
  exists s2, paging_unmap_page virt s1 = (true, s2) /\ paging_ok s2 /\
    forall w, is_u32 w -> paging_translate w s2 = paging_translate w s.
Proof.
  intros [Hen Hok Hd] Hv Hp Hmap.
  destruct (map_page_cases s virt phys flags) as (ok & a' & m' & E & Hok' & Hd' & Hiff & Hl & _); auto.
  rewrite E in Hmap. injection Hmap as -> <-. symmetry in Hiff. bool_simp. cbn [andb] in Hl.
  unfold page_aligned, mapped in *. bool_simp.
  destruct (pte_for_spec phys flags) as (_ & _ & Ht); auto.
  split.
  - intros w Hw. rewrite !translate_eq by done. cbn [pg_mem touch set_pg_mem]. rewrite Hl by done.
    destruct (page_of w =? page_of virt); [|done]. cbn. by rewrite Ht.
  - destruct (unmap_page_cases (touch s a' m') virt) as (ok & m2 & E2 & Hd2 & Hok2 & Hl2); auto.
    unfold page_aligned, mapped in Hok2. cbn [pg_mem touch set_pg_mem] in Hok2, Hl2.
    change (paging_active_directory (touch s a' m')) with (paging_active_directory s) in *.
    rewrite Hl, Z.eqb_refl in Hok2 by done. rewrite (proj2 (Z.eqb_eq _ _)) in Hok2 by done. subst ok.
    exists (set_pg_mem (touch s a' m') m2). split; [done|]. split; [by split|].
    intros w Hw. rewrite !translate_eq by done. cbn [pg_mem set_pg_mem andb] in *.
    change (paging_active_directory (set_pg_mem (touch s a' m') m2)) with (paging_active_directory s).
    rewrite Hl2, Hl by done. destruct (Z.eqb_spec (page_of w) (page_of virt)) as [Heq|]; [|done].
    apply same_page in Heq as [Hpd Hpt]; auto.
    assert (lookup_page (pg_mem s) (paging_active_directory s) w = None) as ->; [|done].
    transitivity (lookup_page (pg_mem s) (paging_active_directory s) virt).
    { unfold lookup_page. by rewrite Hpd, Hpt. }
    by destruct (lookup_page _ _ virt).
Qed.

(** Isolation: a mapping that needs a new page table is private to the active
    address space. Whether it succeeds or not, no translation changes in any other
    well-formed directory that does not use the active directory as a table. *)
Theorem paging_map_page_isolated s virt phys flags K :
  paging_ok s -> is_u32 virt -> is_u32 phys ->
  present (entry (pg_mem s) (paging_active_directory s) (pd_index_of virt)) = false ->
  dir_ok (pg_frames s) (pg_mem s) K -> K <> paging_active_directory s ->
  (forall i, 0 <= i < 1024 -> present (entry (pg_mem s) K i) = true ->
             table_of (entry (pg_mem s) K i) <> paging_active_directory s) ->
  let s' := snd (paging_map_page virt phys flags s) in
  dir_ok (pg_frames s') (pg_mem s') K /\
  forall w, lookup_page (pg_mem s') K w = lookup_page (pg_mem s) K w.
Proof.
  intros [Hen Hok Hd] Hv Hp Habs HK HKD HKT.
  destruct (map_page_cases s virt phys flags) as (ok & a' & m' & E & _ & _ & _ & _ & _ & Hfr); auto.
  rewrite E. cbn [snd pg_frames pg_mem touch set_pg_mem set_pg_frames].
  destruct (Hfr Habs) as [Hfree Hsame].
  assert (HKi : forall i, 0 <= i < 1024 -> entry m' K i = entry (pg_mem s) K i).
  { intros i Hi. apply Hsame; try apply HK; auto. }
  split; [apply (dir_ok_mono _ _ _ _ _ HK); auto; intros i Hi; by rewrite HKi|].
  intros w. apply lookup_page_same; rewrite ?HKi by auto with mars; auto.
  intros Hpw. destruct (dk_tables _ _ _ HK (pd_index_of w)) as [Hnf _]; auto with mars.
  apply Hsame; auto with mars. apply table_aligned.
Qed.

(** [paging_user_accessible] terminates on every range and returns 1 exactly when
    the range is not empty, does not wrap around, and each of its bytes lies on a page
    that is present and user-accessible in the directory and in its table. *)
Theorem paging_user_accessible_spec s virt size :
  paging_is_enabled s = true -> is_u32 virt -> is_u32 size ->
  exists b, paging_user_accessible virt size s = Some b /\
    (b = true <-> 0 < size /\ virt + size <= 4294967296 /\
       forall v, virt <= v < virt + size -> user_page (pg_mem s) (paging_active_directory s) v).
Proof. apply user_accessible_cases. Qed.

(** C25. On a machine whose RAM ends at or below 0xFFC00000, with the static directory
    page aligned, not at 0 and not a free frame, and the frame allocator ready:
    [paging_init] with enough frames for the tables turns paging on with exactly the
    memory below the rounded end of RAM (at least 4 MiB) mapped, each address to itself,
    whatever the memory held before; with too few frames it leaves paging off. *)
Theorem paging_init_identity s :
  let D := page_directory s in
  let h := fa_highest (pg_frames s) in
  let tables := (identity_end_of h + 4194303) / 4194304 in
  aligned D -> 0 < D < 4294967296 -> ~ fa_is_free (pg_frames s) D ->
  fa_ok (pg_frames s) -> fa_ready (pg_frames s) = true -> 0 <= h <= 4290772992 ->
  (tables <= fa_avail (pg_frames s) ->
   paging_ok (paging_init s) /\ pg_cr3 (paging_init s) = D /\ Z.testbit (pg_cr0 (paging_init s)) 31 = true /\
   forall w, is_u32 w -> paging_translate w (paging_init s) = if w <? identity_end_of h then Some w else None) /\
  (fa_avail (pg_frames s) < tables -> paging_is_enabled (paging_init s) = false).
Proof.
  intros D h tables Ha Hr Hnf Hok Hrdy Hh. split; intros Hav.
  - destruct (paging_init_cases s) as (a' & m' & -> & Hok' & Hd & Hl & _); auto. fold D in Hd, Hl |- *. fold h in Hl.
    assert (HD : forall c0 c3, paging_active_directory (Paging a' m' D true D D c3 c0) = D).
    { intros. unfold paging_active_directory. cbn [paging_current_dir_phys page_directory]. by destruct (D =? 0). }
    split_and!; [split; cbn; rewrite ?HD; auto|done|cbn [pg_cr0]; by rewrite Z.lor_spec, orb_true_r|].
    intros w Hw. rewrite translate_eq, HD by done. cbn [pg_mem]. rewrite Hl by done.
    destruct (w <? identity_end_of h); [|done]. cbn. destruct (ident_pte_spec w Hw) as (_ & _ & ->).
    f_equal. lia.
  - destruct (identity_end_spec h Hh) as (_ & _ & Hext).
    unfold paging_init. cbn [pg_frames set_pg_mem]. fold h. rewrite Hrdy, Hext. cbn [negb]. fold tables.
    generalize (clear_table (pg_mem s) (page_directory s)). intros m.
    destruct (map_identity_fail (Z.to_nat tables) 0 (identity_end_of h) (set_pg_mem s m)) as [Hf He]; auto.
    { cbn [pg_frames set_pg_mem]. pose proof (fa_avail_nonneg _ Hok). lia. }
    destruct (map_identity _ _ _ _) as [ok s']. cbn in Hf, He. by subst ok.
Qed.

(** When RAM reaches into the last 4 MiB of the address space, the table count of
    [paging_init] wraps to 0 instead of being clamped to 1024: paging is turned on with
    an empty directory, in which no address is mapped. *)
Theorem paging_init_top_wraps s :
  let D := page_directory s in
  aligned D -> 0 < D < 4294967296 -> ~ fa_is_free (pg_frames s) D -> fa_ready (pg_frames s) = true ->
  4290772992 < fa_highest (pg_frames s) <= 4294963200 ->
  paging_is_enabled (paging_init s) = true /\
  forall w, is_u32 w -> paging_translate w (paging_init s) = None.
Proof.
  intros D Ha Hr Hnf Hrdy Hh. set (h := fa_highest (pg_frames s)) in *.
  assert (Hext : identity_extent h = (0, identity_end_of h)).
  { unfold identity_extent, identity_end_of. rewrite align_up_4k_eq by lia.
    rewrite (proj2 (Z.ltb_ge _ (4 * 1024 * 1024))) by (Z.div_mod_to_equations; lia).
    assert ((h + 4095 - (h + 4095) `mod` 4096) ⊞ 4194303 = h + 4095 - (h + 4095) `mod` 4096 - 4290772993) as ->.
    { unfold u32. symmetry. apply (Z.mod_unique _ _ 1); Z.div_mod_to_equations; lia. }
    rewrite Z.shiftr_div_pow2 by lia. change (2 ^ 22) with 4194304.
    rewrite Z.div_small by (Z.div_mod_to_equations; lia). done. }
  destruct (clear_dir_ok (pg_frames s) (pg_mem s) D) as [Hd Hid]; auto.
  unfold paging_init. cbn [pg_frames set_pg_mem]. fold h. fold D. rewrite Hrdy, Hext.
  change (Z.to_nat 0) with O. cbn [negb map_identity].
  destruct (Hid 0) as [_ Hl]. revert Hl. generalize (clear_table (pg_mem s) D). intros m Hl.
  split; [done|]. intros w Hw. rewrite translate_eq by done. unfold paging_active_directory.
  cbn [paging_current_dir_phys page_directory pg_mem set_pg_mem]. fold D.
  destruct (D =? 0); rewrite Hl by done; pose proof (pd_index_range w);
    by rewrite (proj2 (Z.ltb_ge _ _)) by lia.
Qed.

(** [paging_clone_kernel_directory] returns 0 with nothing changed when no frame is
    left; otherwise it returns a fresh, well-formed directory in which every page under
    a user directory entry of the kernel's directory is absent and every other page
    maps as in the kernel's; no existing table or directory changes. *)
Theorem paging_clone_spec s :
  let K := paging_kernel_dir_phys s in
  paging_is_enabled s = true -> fa_ok (pg_frames s) -> dir_ok (pg_frames s) (pg_mem s) K ->
  let '(f, s') := paging_clone_kernel_directory s in
  (f = 0 /\ s' = s) \/
  (fa_is_free (pg_frames s) f /\ fa_ok (pg_frames s') /\
   dir_ok (pg_frames s') (pg_mem s') f /\ dir_ok (pg_frames s') (pg_mem s') K /\
   (forall w, lookup_page (pg_mem s') f w =
      if has_flag (entry (pg_mem s) K (pd_index_of w)) PAGING_FLAG_USER then None
      else lookup_page (pg_mem s) K w) /\
   (forall t j, aligned t -> t <> f -> 0 <= j < 1024 -> entry (pg_mem s') t j = entry (pg_mem s) t j)).
Proof.
  intros K Hen Hok Hd. unfold paging_clone_kernel_directory. rewrite Hen. cbn [negb].
  destruct (fa_alloc (pg_frames s)) as [f a'] eqn:E. destruct (Z.eqb_spec f 0) as [->|Hf].
  { left. rewrite (fa_alloc_none _ _ Hok E). by destruct s. }
  right. destruct (clone_cases s f a') as (Hok' & Hdf & Hfree & Hnew & Hold); auto.
  cbn [pg_frames pg_mem set_pg_mem set_pg_frames paging_kernel_dir_phys]. fold K in Hdf, Hnew, Hold |- *.
  revert Hdf Hnew Hold. generalize (clone_entries (pg_mem s) f K). intros m' Hdf Hnew Hold.
  destruct (fa_alloc_some _ _ _ Hok E Hf) as (_ & _ & _ & Hfa & Hiff & _).
  assert (HfK : K <> f) by (intros <-; by apply (dk_own _ _ _ Hd)).
  split_and!; auto.
  - apply (dir_ok_mono _ _ _ _ _ Hd); [intros g Hg; by apply Hiff in Hg as [? _]|].
    intros i Hi. rewrite Hold; auto. apply Hd.
  - intros w. pose proof (pd_index_range w). pose proof (pt_index_range w).
    unfold lookup_page. rewrite Hnew by done. unfold clone_pde.
    destruct (has_flag (entry (pg_mem s) K (pd_index_of w)) PAGING_FLAG_USER); [done|].
    destruct (has_flag _ PAGING_FLAG_PRESENT) eqn:Hp; [|done].
    destruct (dk_tables _ _ _ Hd (pd_index_of w)) as [Hnf _]; auto.
    rewrite Hold; auto; [apply table_aligned|]. by intros <-.
Qed.

End Theorems.

(** ** Witnesses: a small machine with an empty directory *)

Definition demo_paging (next limit : Z) : paging_state watermark :=
  Paging (Watermark next limit) ∅ 4194304 true 4194304 4194304 4194304 0.

Lemma demo_dir_ok next limit D :
  1024 < next -> aligned D -> D = 4194304 \/ D = 8192 -> dir_ok (Watermark next limit) ∅ D.
Proof.
  intros Hn Ha HD. split; [done|lia| | |].
  - intros (k & Hk & Hr). cbn in Hr. lia.
  - intros i Hi Hp. discriminate Hp.
  - intros i j Hi Hj Hij Hp. discriminate Hp.
Qed.

Lemma demo_paging_ok : paging_ok (demo_paging 2048 4096).
Proof. split; [done|cbn; lia|]. by apply demo_dir_ok; [lia| |left]. Qed.

Lemma paging_map_page_spec_witness :
  exists s', paging_map_page 4096 8192 0 (demo_paging 2048 4096) = (true, s') /\
             active_lookup s' 4100 = Some (pte_for 8192 0).
Proof.
  destruct (paging_map_page_spec (demo_paging 2048 4096) 4096 8192 0 demo_paging_ok)
    as (ok & s' & E & _ & _ & Hiff & Hl); [unfold is_u32; lia..|].
  assert (ok = true) as -> by (apply Hiff; split_and!; [done|done|done|right; cbn; lia]).
  exists s'. split; [exact E|]. rewrite Hl by (unfold is_u32; lia). reflexivity.
Defined.

Lemma demo_map : exists s1, paging_map_page 4096 8192 0 (demo_paging 2048 4096) = (true, s1).
Proof.
  destruct demo_paging_ok as [Hen Hok Hd].
  destruct (map_page_cases (demo_paging 2048 4096) 4096 8192 0) as (ok & a' & m' & E & _ & _ & Hiff & _);
    [done|done|done|unfold is_u32; lia..|].
  rewrite E, Hiff. eexists. reflexivity.
Qed.

Lemma paging_map_translate_unmap_witness :
  exists s1 : paging_state watermark, paging_translate 4100 s1 = Some 8196 /\ fst (paging_unmap_page 4096 s1) = true.
Proof.
  destruct demo_map as (s1 & E).
  destruct (paging_map_translate_unmap (demo_paging 2048 4096) 4096 8192 0 s1 demo_paging_ok)
    as (Ht & s2 & E2 & _); [unfold is_u32; lia..|exact E|].
  exists s1. split; [|by rewrite E2]. rewrite Ht by (unfold is_u32; lia). reflexivity.
Defined.

Lemma paging_map_page_isolated_witness :
  exists s', s' = snd (paging_map_page 4096 8192 0 (demo_paging 2048 4096)) /\
             lookup_page (pg_mem s') 8192 4096 = None.
Proof.
  eexists. split; [reflexivity|].
  destruct (paging_map_page_isolated (demo_paging 2048 4096) 4096 8192 0 8192 demo_paging_ok) as [_ ->];
    [unfold is_u32; lia..|reflexivity| | |intros i Hi Hp; discriminate Hp|reflexivity].
  - by apply demo_dir_ok; [lia| |right].
  - done.
Defined.

Lemma paging_user_accessible_spec_witness :
  exists b, paging_user_accessible 4096 5000 (demo_paging 2048 4096) = Some b.
Proof.
  destruct (paging_user_accessible_spec (demo_paging 2048 4096) 4096 5000) as (b & E & _);
    [reflexivity|unfold is_u32; lia..|]. exists b. exact E.
Defined.

Lemma demo_dir_used next limit : 1024 < next -> ~ fa_is_free (Watermark next limit) 4194304.
Proof. intros Hn (k & Hk & Hr). cbn in Hr. lia. Qed.

Lemma paging_init_identity_witness :
  paging_translate 12345678 (paging_init (demo_paging 2048 4096)) = Some 12345678 /\
  paging_is_enabled (paging_init (demo_paging 4095 4096)) = false.
Proof.
  split.
  - destruct (paging_init_identity (demo_paging 2048 4096)) as [Hs _];
      [reflexivity|cbn; lia|by apply demo_dir_used|cbn; lia|reflexivity|cbn; lia|].
    destruct Hs as (_ & _ & _ & Ht); [vm_compute; discriminate|].
    rewrite Ht by (unfold is_u32; lia). reflexivity.
  - destruct (paging_init_identity (demo_paging 4095 4096)) as [_ Hf];
      [reflexivity|cbn; lia|by apply demo_dir_used|cbn; lia|reflexivity|cbn; lia|].
    apply Hf. reflexivity.
Defined.

Lemma paging_init_top_wraps_witness :
  paging_is_enabled (paging_init (demo_paging 2048 1048000)) = true.
Proof.
  destruct (paging_init_top_wraps (demo_paging 2048 1048000)) as [Hen _];
    [reflexivity|cbn; lia|by apply demo_dir_used|reflexivity|cbn; lia|exact Hen].
Defined.

Lemma paging_clone_spec_witness :
  exists f s', paging_clone_kernel_directory (demo_paging 2048 4096) = (f, s') /\ f = 8388608 /\
               lookup_page (pg_mem s') f 4096 = None.
Proof.
  pose proof (paging_clone_spec (demo_paging 2048 4096)) as Hc.
  assert (Hf : fst (paging_clone_kernel_directory (demo_paging 2048 4096)) = 8388608) by reflexivity.
  destruct (paging_clone_kernel_directory (demo_paging 2048 4096)) as [f s']. cbn in Hf. subst f.
  destruct Hc as [[? _]|(_ & _ & _ & _ & Hl & _)];
    [reflexivity|cbn; lia|by apply demo_dir_ok; [lia| |left]|discriminate|].
  exists 8388608, s'. split_and!; [reflexivity|reflexivity|]. rewrite Hl. reflexivity.
Defined.
