(* ===== verification/Reserve.v ===== *)
(** Frames of one's own: how a client of paging.c keeps a physical frame for data.

    Page tables never use a frame that is reserved, so that writing into it changes no
    mapping. The trick is to see the allocator with the reserved frames counted as
    free: the invariant of directories then says that no table is among them. *)
From Stdlib Require Import ZArith Lia Bool List.
From stdpp Require Import base gmap list numbers option.
From S2P Require Import Prelude Interfaces Paging.
#[local] Open Scope Z_scope.

Definition user_map_flags : Z := Z.lor (Z.lor PAGING_FLAG_PRESENT PAGING_FLAG_RW) PAGING_FLAG_USER.

Section Frames.
Context {A : Type} `{FrameAllocator A}.
Implicit Types (p : paging_state A).

Definition take_frame p : Z * paging_state A :=
  let '(f, a) := fa_alloc (pg_frames p) in (f, set_pg_frames p a).
Definition give_back (f : Z) p : paging_state A := set_pg_frames p (snd (fa_free f (pg_frames p))).

End Frames.

(** ** Reserved frames *)

Section Reserve.
Context {A : Type} {FA : FrameAllocator A} {OK : FrameAllocatorOk A}.
Context (R : Z -> Prop).

(** The allocator seen by page tables that must keep off the frames of [R]. *)
Definition reserve_allocator : FrameAllocator A :=
  {| fa_alloc := fa_alloc; fa_free := fun _ a => (false, a); fa_ready := fa_ready; fa_highest := fa_highest |}.

#[local] Obligation Tactic := idtac.
Program Definition reserve_allocator_ok : @FrameAllocatorOk A reserve_allocator :=
  {| fa_ok a := fa_ok a /\ forall g, R g -> ~ fa_is_free a g;
     fa_is_free a g := fa_is_free a g \/ R g;
     fa_avail := fa_avail |}.
Next Obligation. intros a [Hok _]. by apply fa_avail_nonneg. Qed.
Next Obligation. intros a a' [Hok _]. apply (fa_alloc_none a a' Hok). Qed.
Next Obligation. intros a [Hok _] Hr Hav. exact (@fa_alloc_avail A FA OK a Hok Hr Hav). Qed.
Next Obligation. intros a. exact (@fa_alloc_ready A FA OK a). Qed.
Next Obligation.
  intros a f a' [Hok HR] Ha Hf. destruct (fa_alloc_some a f a' Hok Ha Hf) as (Hok' & Hfree & Hr & Hm & Hiff & Hav).
  split_and!; [done| |by left|lia|lia|done| |done].
  - intros g Hg Hc. apply Hiff in Hc as [Hc _]. by apply (HR g).
  - intros g. rewrite Hiff. split; [|tauto]. intros [?|Hg]; [tauto|]. split; [by right|]. intros ->. by apply (HR f).
Qed.
Next Obligation. intros a f ok a' Hok _ [= <- <-]. split; [done|]. split; [done|discriminate]. Qed.

(** The directory and its tables keep off [R]. *)
Definition keeps_off (m : mem) (D : Z) : Prop :=
  ~ R D /\ forall i, 0 <= i < 1024 -> present (entry m D i) = true -> ~ R (table_of (entry m D i)).

Definition unfree (a : A) : Prop := forall g, R g -> ~ fa_is_free a g.

Lemma reserve_dir_ok a m D :
  @dir_ok A reserve_allocator reserve_allocator_ok a m D <-> dir_ok a m D /\ keeps_off m D.
Proof.
  split.
  - intros [Ha Hr Ho Ht Hi]. cbn in Ho, Ht. split; [split; [done|done|tauto| |done]|split; [tauto|]].
    + intros i Hr' Hp. destruct (Ht i Hr' Hp). tauto.
    + intros i Hr' Hp. destruct (Ht i Hr' Hp). tauto.
  - intros [[Ha Hr Ho Ht Hi] [HD HT]]. split; [done|done|cbn; tauto| |done].
    intros i Hr' Hp. destruct (Ht i Hr' Hp). specialize (HT i Hr' Hp). cbn. tauto.
Qed.

Lemma map_page_keeps_off s virt phys flags :
  let D := paging_active_directory s in
  paging_is_enabled s = true -> fa_ok (pg_frames s) -> unfree (pg_frames s) ->
  dir_ok (pg_frames s) (pg_mem s) D -> keeps_off (pg_mem s) D -> is_u32 virt -> is_u32 phys ->
  exists ok a' m', paging_map_page virt phys flags s = (ok, touch s a' m') /\
    fa_ok a' /\ unfree a' /\ dir_ok a' m' D /\ keeps_off m' D /\
    ok = (page_aligned virt && page_aligned phys && negb (mapped (pg_mem s) D virt) &&
          (present (entry (pg_mem s) D (pd_index_of virt)) || negb (fst (fa_alloc (pg_frames s)) =? 0))) /\
    (forall w, is_u32 w -> lookup_page m' D w =
       if ok && (page_of w =? page_of virt) then Some (pte_for phys flags) else lookup_page (pg_mem s) D w).
Proof.
  intros D Hen Hok Hun Hd Hav Hv Hp.
  destruct (@map_page_cases A reserve_allocator reserve_allocator_ok s virt phys flags) as (ok & a' & m' & E & Hok' & Hd' & Hiff & Hl & _);
    [done|by split|by apply reserve_dir_ok|done|done|].
  apply reserve_dir_ok in Hd' as [Hd' Hav']. destruct Hok' as [Hok' Hun'].
  exists ok, a', m'. by split_and!.
Qed.

End Reserve.

(** ** Writing into a frame *)

(** Only bytes of the frame [f] differ. *)
Definition same_outside (f : Z) (m m' : mem) : Prop := forall a, ~ (f <= a < f + 4096) -> rd8 m' a = rd8 m a.

#[export] Instance same_outside_preorder f : PreOrder (same_outside f).
Proof. split; [by intros m a|]. intros m1 m2 m3 H1 H2 a Ha. rewrite H2, H1 by done. done. Qed.

Lemma same_outside_entry f m m' t j :
  same_outside f m m' -> aligned f -> aligned t -> t <> f -> 0 <= j < 1024 -> entry m' t j = entry m t j.
Proof.
  unfold aligned, entry. intros Hs Hf Ht Hne Hj.
  assert (Hout : forall a, t <= a < t + 4096 -> rd8 m' a = rd8 m a).
  { intros a Ha. apply Hs. Z.div_mod_to_equations. lia. }
  unfold rd32, rd16. rewrite !Hout by lia. done.
Qed.

Section Writing.
Context {A : Type} `{FrameAllocatorOk A}.
Implicit Types (p : paging_state A).

Lemma write_frame (R : Z -> Prop) (a : A) m m' f D :
  dir_ok a m D -> keeps_off R m D -> R f -> aligned f -> same_outside f m m' ->
  dir_ok a m' D /\ keeps_off R m' D /\ forall w, lookup_page m' D w = lookup_page m D w.
Proof.
  intros Hd [HD HT] HR Hf Hs.
  assert (HfD : D <> f) by (by intros ->).
  assert (He : forall i, 0 <= i < 1024 -> entry m' D i = entry m D i).
  { intros i Hi. apply (same_outside_entry f); auto. apply Hd. }
  split_and!.
  - apply (dir_ok_mono a a m); auto. intros i Hi. by rewrite He.
  - split; [done|]. intros i Hi. rewrite He by done. by apply HT.
  - intros w. pose proof (pd_index_range w) as Hpd. pose proof (pt_index_range w) as Hpt.
    apply lookup_page_same; rewrite ?He by done; auto. intros Hp.
    apply (same_outside_entry f); auto; [apply table_aligned|]. intros Heq. apply (HT (pd_index_of w)); auto. by rewrite Heq.
Qed.

Lemma lookup_same_page m D v w : is_u32 v -> is_u32 w -> page_of w = page_of v -> lookup_page m D w = lookup_page m D v.
Proof. intros Hv Hw Heq. apply same_page in Heq as [Hpd Hpt]; auto. unfold lookup_page. by rewrite Hpd, Hpt. Qed.

Lemma lookup_table_present m D v e : lookup_page m D v = Some e -> present (entry m D (pd_index_of v)) = true.
Proof. unfold lookup_page, present. by destruct (has_flag _ _). Qed.

(** The frames of [L] are one's own. *)
Record held (L : list Z) p : Prop := {
  he_ok : paging_ok p;
  he_unfree : unfree (.∈ L) (pg_frames p);
  he_off : keeps_off (.∈ L) (pg_mem p) (paging_active_directory p);
}.

Lemma held_nil p : paging_ok p -> held [] p.
Proof. intros Hp. split; [done|intros g []%not_elem_of_nil|]. split; [apply not_elem_of_nil|]. intros. apply not_elem_of_nil. Qed.

(** Taking a frame. *)
Lemma take_held L p f p' :
  held L p -> take_frame p = (f, p') ->
  (f = 0 /\ p' = p) \/
  (f <> 0 /\ f ∉ L /\ held (f :: L) p' /\ fa_is_free (pg_frames p) f /\ is_u32 f /\ aligned f /\
   pg_mem p' = pg_mem p /\ paging_active_directory p' = paging_active_directory p /\
   (forall g, fa_is_free (pg_frames p') g -> fa_is_free (pg_frames p) g) /\
   fa_avail (pg_frames p') = fa_avail (pg_frames p) - 1 /\ fa_ready (pg_frames p') = fa_ready (pg_frames p)).
Proof.
  intros [[Hen Hok Hd] Hun [HD HT]]. unfold take_frame. destruct (fa_alloc (pg_frames p)) as [f0 a0] eqn:E. intros [= <- <-].
  destruct (decide (f0 = 0)) as [->|Hf].
  { left. split; [done|]. rewrite (fa_alloc_none _ _ Hok E). by destruct p. }
  destruct (fa_alloc_some _ _ _ Hok E Hf) as (Hok' & Hfree & Hr & Hm & Hiff & Hav).
  pose proof (fa_alloc_ready (pg_frames p)) as Hrd. rewrite E in Hrd. right. split_and!; [done| | |done|unfold is_u32; lia|done|done|done| |done|done].
  - intros Hin. by apply (Hun f0).
  - split; cbn [pg_frames pg_mem set_pg_frames].
    + split; [done|done|]. apply (dir_ok_mono (pg_frames p) a0 (pg_mem p)); auto. intros g Hg. by apply Hiff in Hg as [? _].
    + intros g [->|Hg]%elem_of_cons Hc; apply Hiff in Hc as [Hc ?]; [done|by apply (Hun g)].
    + split.
      * intros [Heq|?]%elem_of_cons; [|done]. apply (dk_own _ _ _ Hd). rewrite <- Heq in Hfree. exact Hfree.
      * intros i Hi Hp [Heq|?]%elem_of_cons; [|by apply (HT i)].
        destruct (dk_tables _ _ _ Hd i Hi Hp) as [Hnf _]. by rewrite <- Heq in Hfree.
  - intros g Hg. by apply Hiff in Hg as [? _].
Qed.

Lemma take_succeeds L p :
  held L p -> fa_ready (pg_frames p) = true -> 0 < fa_avail (pg_frames p) -> fst (take_frame p) <> 0.
Proof.
  intros Hh Hr Hav. destruct (avail_alloc (pg_frames p)) as (f & a & E & Hf & _); [apply Hh|done|done|].
  unfold take_frame. by rewrite E.
Qed.

(** Mapping a page. *)
Lemma map_held L p virt phys flags :
  held L p -> is_u32 virt -> is_u32 phys ->
  exists ok p', paging_map_page virt phys flags p = (ok, p') /\ held L p' /\
    paging_active_directory p' = paging_active_directory p /\
    ok = (page_aligned virt && page_aligned phys && negb (mapped (pg_mem p) (paging_active_directory p) virt) &&
          (present (entry (pg_mem p) (paging_active_directory p) (pd_index_of virt)) || negb (fst (fa_alloc (pg_frames p)) =? 0))) /\
    forall w, is_u32 w -> active_lookup p' w =
      if ok && (page_of w =? page_of virt) then Some (pte_for phys flags) else active_lookup p w.
Proof.
  intros [[Hen Hok Hd] Hun Hoff] Hv Hp.
  destruct (map_page_keeps_off (.∈ L) p virt phys flags) as (ok & a' & m' & E & Hok' & Hun' & Hd' & Hav' & Hiff & Hl); [done..|].
  exists ok, (touch p a' m'). split_and!; [done| |done|done|exact Hl]. by split.
Qed.

(** Unmapping one. *)
Lemma unmap_held L p virt :
  held L p -> is_u32 virt -> page_aligned virt = true ->
  let p' := snd (paging_unmap_page virt p) in
  held L p' /\ paging_active_directory p' = paging_active_directory p /\
  forall w, is_u32 w -> active_lookup p' w = if page_of w =? page_of virt then None else active_lookup p w.
Proof.
  intros [[Hen Hok Hd] Hun Hoff] Hv Ha.
  destruct (@unmap_page_cases A (@reserve_allocator A _) (reserve_allocator_ok (.∈ L)) p virt) as (ok & m' & E & Hd' & -> & Hl);
    [done|by apply reserve_dir_ok|done|].
  apply reserve_dir_ok in Hd' as [Hd' Hoff'].
  cbv zeta. rewrite E. cbn [snd]. split_and!; [by split|done|].
  intros w Hw. unfold active_lookup. cbn [pg_mem set_pg_mem].
  change (paging_active_directory (set_pg_mem p m')) with (paging_active_directory p). rewrite Hl, Ha by done. cbn [andb].
  destruct (Z.eqb_spec (page_of w) (page_of virt)) as [Heq|]; [|by rewrite andb_false_r]. rewrite andb_true_r.
  unfold mapped. rewrite (lookup_same_page _ _ virt w) by done. by destruct (lookup_page _ _ virt).
Qed.

(** Writing into a frame one holds. *)
Lemma write_held L p f m' :
  held L p -> f ∈ L -> aligned f -> same_outside f (pg_mem p) m' ->
  held L (set_pg_mem p m') /\ forall w, active_lookup (set_pg_mem p m') w = active_lookup p w.
Proof.
  intros [[Hen Hok Hd] Hun Hoff] Hf Ha Hs.
  destruct (write_frame (.∈ L) (pg_frames p) (pg_mem p) m' f (paging_active_directory p)) as (Hd' & Hoff' & Hl); [done..|].
  split; [by split|]. intros w. apply Hl.
Qed.

(** A held frame behind a page. *)
Lemma translate_held p virt phys flags :
  paging_ok p -> is_u32 phys -> aligned phys -> active_lookup p virt = Some (pte_for phys flags) -> virt `mod` 4096 = 0 ->
  paging_translate virt p = Some phys.
Proof.
  intros Hp Hu Ha Hl Hv. rewrite translate_eq by apply Hp. fold (active_lookup p virt). rewrite Hl.
  destruct (pte_for_spec phys flags) as (_ & _ & Ht); auto. cbn. by rewrite Ht, Hv, Z.add_0_r.
Qed.

(** Two pages under one directory entry: with three frames left, both can be mapped to new frames. *)
Lemma take_map_two L p v1 v2 flags :
  held L p -> fa_ready (pg_frames p) = true -> 3 <= fa_avail (pg_frames p) ->
  is_u32 v1 -> is_u32 v2 -> aligned v1 -> aligned v2 -> pd_index_of v2 = pd_index_of v1 -> page_of v2 <> page_of v1 ->
  active_lookup p v1 = None -> active_lookup p v2 = None ->
  exists f1 f2 p1 p2 p3 p4, take_frame p = (f1, p1) /\ take_frame p1 = (f2, p2) /\ f1 <> 0 /\ f2 <> 0 /\
    paging_map_page v1 f1 flags p2 = (true, p3) /\ paging_map_page v2 f2 flags p3 = (true, p4).
Proof.
  intros Hh Hr Hav Hu1 Hu2 Ha1 Ha2 Hpd Hpg Hn1 Hn2. unfold aligned in Ha1, Ha2.
  pose proof (take_succeeds _ _ Hh Hr) as Hne1. destruct (take_frame p) as [f1 p1] eqn:E1. specialize (Hne1 ltac:(lia)).
  destruct (take_held _ _ _ _ Hh E1) as [[? _]|(_ & _ & Hh1 & _ & Hf1 & Hal1 & Hm1 & HD1 & _ & Hav1 & Hr1)]; [done|].
  pose proof (take_succeeds _ _ Hh1) as Hne2. destruct (take_frame p1) as [f2 p2] eqn:E2. specialize (Hne2 ltac:(congruence) ltac:(lia)).
  destruct (take_held _ _ _ _ Hh1 E2) as [[? _]|(_ & _ & Hh2 & _ & Hf2 & Hal2 & Hm2 & HD2 & _ & Hav2 & Hr2)]; [done|].
  assert (Hl2 : forall w, active_lookup p2 w = active_lookup p w) by (intros w; unfold active_lookup; by rewrite HD2, HD1, Hm2, Hm1).
  destruct (map_held _ p2 v1 f1 flags Hh2 Hu1 Hf1) as (ok3 & p3 & E3 & Hh3 & HD3 & Hok3 & Hl3).
  destruct (avail_alloc (pg_frames p2)) as (f & a' & Ea & Hf & _); [apply Hh2|congruence|lia|].
  unfold mapped, page_aligned in Hok3. fold (active_lookup p2 v1) in Hok3.
  rewrite Hl2, Hn1, Ea, Ha1, Hal1 in Hok3. cbn [fst negb andb Z.eqb] in Hok3.
  rewrite (proj2 (Z.eqb_neq f 0)), orb_true_r in Hok3 by done. cbn in Hok3. subst ok3.
  destruct (map_held _ p3 v2 f2 flags Hh3 Hu2 Hf2) as (ok4 & p4 & E4 & _ & _ & Hok4 & _).
  pose proof (Hl3 v1 Hu1) as Hl3c. rewrite Z.eqb_refl in Hl3c. cbn in Hl3c. apply lookup_table_present in Hl3c.
  unfold mapped, page_aligned in Hok4. fold (active_lookup p3 v2) in Hok4.
  rewrite (Hl3 _ Hu2), Hpd, HD3, (proj2 (Z.eqb_neq (page_of v2) (page_of v1))), Hl2, Hn2, Ha2, Hal2 in Hok4 by done.
  rewrite HD3 in Hl3c. rewrite Hl3c in Hok4. cbn in Hok4. subst ok4.
  exists f1, f2, p1, p2, p3, p4. by split_and!.
Qed.

End Writing.
