(* ===== verification/Kheap.v ===== *)
(** kernel/kheap.c: the kernel heap, a first-fit allocator over a doubly linked
    list of blocks that tile the virtual addresses from [KHEAP_START] to
    [heap_end].

    The block headers are words of [hp_mem], the kernel's virtual memory, at
    the addresses the code computes. The heap takes its pages from any
    [PageMapper]; the instance for the page tables is at the end of the file.

    The abstract view of a heap is the list of its blocks, [(size, free)] in
    address order. *)
From Stdlib Require Import ZArith Lia Bool List Permutation.
From stdpp Require Import base gmap list numbers option.
From S2P Require Import Prelude Interfaces Paging.
#[local] Open Scope Z_scope.

(** ** Data *)

Definition KHEAP_START : Z := 3489660928.
Definition KHEAP_INITIAL_PAGES : Z := 16.
Definition KHEAP_GROW_PAGES : Z := 8.

(** [heap_block_t]: the fields of the block at address [b]. *)
Definition HEADER : Z := 16.
Definition hb_size (m : mem) (b : Z) : Z := rd32 m b.
Definition hb_free (m : mem) (b : Z) : Z := rd32 m (b + 4).
Definition hb_next (m : mem) (b : Z) : Z := rd32 m (b + 8).
Definition hb_prev (m : mem) (b : Z) : Z := rd32 m (b + 12).
Definition set_hb_size (m : mem) (b v : Z) : mem := wr32 m b v.
Definition set_hb_free (m : mem) (b v : Z) : mem := wr32 m (b + 4) v.
Definition set_hb_next (m : mem) (b v : Z) : mem := wr32 m (b + 8) v.
Definition set_hb_prev (m : mem) (b v : Z) : mem := wr32 m (b + 12) v.

(** The static variables of kheap.c, with the memory they live in. *)
Record kheap (P : Type) := Kheap {
  hp_pages : P;
  hp_mem : mem;
  heap_head : Z;
  heap_end : Z;
  heap_total : Z;
  heap_used : Z;
  heap_ready : bool;
}.
Arguments Kheap {P}.
Arguments hp_pages {P}.
Arguments hp_mem {P}.
Arguments heap_head {P}.
Arguments heap_end {P}.
Arguments heap_total {P}.
Arguments heap_used {P}.
Arguments heap_ready {P}.

(** ** Operations on the block list *)

Definition align_up_8 (value : Z) : Z := Z.land (value ⊞ 7) (not32 7).

Definition heap_split_block (block size : Z) (m : mem) : mem :=
  if hb_size m block <=? (size ⊞ HEADER) ⊞ 8 then m else
  let new_block := (block ⊞ HEADER) ⊞ size in
  let m := set_hb_size m new_block ((hb_size m block ⊟ size) ⊟ HEADER) in
  let m := set_hb_free m new_block 1 in
  let m := set_hb_next m new_block (hb_next m block) in
  let m := set_hb_prev m new_block block in
  let m := if negb (hb_next m block =? 0) then set_hb_prev m (hb_next m block) new_block else m in
  let m := set_hb_next m block new_block in
  set_hb_size m block size.

Definition coalesce_next (block : Z) (m : mem) : mem :=
  if negb (hb_next m block =? 0) && negb (hb_free m (hb_next m block) =? 0) then
    let next := hb_next m block in
    let m := set_hb_size m block (hb_size m block ⊞ (HEADER ⊞ hb_size m next)) in
    let m := set_hb_next m block (hb_next m next) in
    if negb (hb_next m block =? 0) then set_hb_prev m (hb_next m block) block else m
  else m.

Definition coalesce_prev (block : Z) (m : mem) : mem :=
  if negb (hb_prev m block =? 0) && negb (hb_free m (hb_prev m block) =? 0) then
    let prev := hb_prev m block in
    let m := set_hb_size m prev (hb_size m prev ⊞ (HEADER ⊞ hb_size m block)) in
    let m := set_hb_next m prev (hb_next m block) in
    if negb (hb_next m block =? 0) then set_hb_prev m (hb_next m block) prev else m
  else m.

Definition heap_coalesce (block : Z) (m : mem) : mem := coalesce_prev block (coalesce_next block m).

(** [while (tail->next != 0) tail = tail->next;] *)
Definition tail_body (m : mem) (tail : Z) : Z + Z :=
  if hb_next m tail =? 0 then inr tail else inl (hb_next m tail).

(** The search of [kmalloc]; the result is the block, or 0 at the end of the list. *)
Definition fit_body (m : mem) (want : Z) (block : Z) : Z + Z :=
  if block =? 0 then inr 0 else
  if negb (hb_free m block =? 0) && (want <=? hb_size m block) then inr block
  else inl (hb_next m block).

(** The new page joins the last block if that is free, and is a new block otherwise. *)
Definition extend_tail (tail : Z) (m : mem) : mem :=
  if negb (hb_free m tail =? 0) then set_hb_size m tail (hb_size m tail ⊞ 4096) else
  let new_block := (tail ⊞ HEADER) ⊞ hb_size m tail in
  let m := set_hb_size m new_block (4096 - HEADER) in
  let m := set_hb_free m new_block 1 in
  let m := set_hb_next m new_block 0 in
  let m := set_hb_prev m new_block tail in
  set_hb_next m tail new_block.

(** ** Operations on the heap *)

Section Operations.
Context {P : Type} `{PageMapper P}.
Implicit Types (s : kheap P).

Definition set_hp_pages s (p : P) : kheap P :=
  Kheap p (hp_mem s) (heap_head s) (heap_end s) (heap_total s) (heap_used s) (heap_ready s).
Definition set_hp_mem s (m : mem) : kheap P :=
  Kheap (hp_pages s) m (heap_head s) (heap_end s) (heap_total s) (heap_used s) (heap_ready s).
Definition set_heap_used s (u : Z) : kheap P :=
  Kheap (hp_pages s) (hp_mem s) (heap_head s) (heap_end s) (heap_total s) u (heap_ready s).
Definition add_heap_page s : kheap P :=
  Kheap (hp_pages s) (hp_mem s) (heap_head s) (heap_end s ⊞ 4096) (heap_total s ⊞ 4096)
        (heap_used s) (heap_ready s).

(** A walk of the list visits each block once, and a block has at least 16 bytes. *)
Definition walk_fuel s : nat := Z.to_nat (heap_total s / HEADER + 1).

(** [None] is a walk that does not end; 0 or 1 is the code's result. *)
Fixpoint heap_map_more (page_count : nat) s : option (bool * kheap P) :=
  match page_count with
  | O => Some (true, s)
  | S n =>
      let '(ok, p) := pm_map_fresh (heap_end s) (hp_pages s) in
      let s := set_hp_pages s p in
      if negb ok then Some (false, s) else
      let s := add_heap_page s in
      match loop (walk_fuel s) (tail_body (hp_mem s)) (heap_head s) with
      | None => None
      | Some tail => heap_map_more n (set_hp_mem s (extend_tail tail (hp_mem s)))
      end
  end.

Fixpoint map_initial (n : nat) (i : Z) s : bool * kheap P :=
  match n with
  | O => (true, s)
  | S n' =>
      let '(ok, p) := pm_map_fresh (KHEAP_START ⊞ (i ⊠ 4096)) (hp_pages s) in
      let s := set_hp_pages s p in
      if negb ok then (false, s) else map_initial n' (i + 1) s
  end.

Definition kheap_init s : bool * kheap P :=
  let '(ok, s) := map_initial (Z.to_nat KHEAP_INITIAL_PAGES) 0 s in
  if negb ok then (false, s) else
  let m := set_hb_size (hp_mem s) KHEAP_START (KHEAP_INITIAL_PAGES * 4096 - HEADER) in
  let m := set_hb_free m KHEAP_START 1 in
  let m := set_hb_next m KHEAP_START 0 in
  let m := set_hb_prev m KHEAP_START 0 in
  (true, Kheap (hp_pages s) m KHEAP_START (KHEAP_START + KHEAP_INITIAL_PAGES * 4096)
               (KHEAP_INITIAL_PAGES * 4096) 0 true).

(** One round of [kmalloc]'s outer loop: search, and grow if the search fails. *)
Definition kmalloc_body (want : Z) s : kheap P + option (Z * kheap P) :=
  match loop (walk_fuel s) (fit_body (hp_mem s) want) (heap_head s) with
  | None => inr None
  | Some block =>
      if block =? 0 then
        match heap_map_more (Z.to_nat KHEAP_GROW_PAGES) s with
        | None => inr None
        | Some (ok, s) => if negb ok then inr (Some (0, s)) else inl s
        end
      else
        let m := heap_split_block block want (hp_mem s) in
        let m := set_hb_free m block 0 in
        let s := set_hp_mem s m in
        inr (Some (block ⊞ HEADER, set_heap_used s (heap_used s ⊞ hb_size m block)))
  end.

(** Each round but the last maps a page, and the window above [KHEAP_START] has
    196608 pages. *)
Definition KMALLOC_FUEL : nat := Z.to_nat 196609.

Definition kmalloc (size : Z) s : option (Z * kheap P) :=
  if negb (heap_ready s) || (size =? 0) then Some (0, s) else
  if 2147483647 <? size then Some (0, s) else
  let want := align_up_8 size in
  mjoin (loop KMALLOC_FUEL (kmalloc_body want) s).

Definition kfree (ptr : Z) s : kheap P :=
  if negb (heap_ready s) || (ptr =? 0) then s else
  if (ptr <? KHEAP_START + HEADER) || (heap_end s <=? ptr) then s else
  let block := ptr ⊟ HEADER in
  if negb (hb_free (hp_mem s) block =? 0) then s else
  let m := set_hb_free (hp_mem s) block 1 in
  let size := hb_size m block in
  let s := set_hp_mem s m in
  let s := set_heap_used s (if size <=? heap_used s then heap_used s ⊟ size else 0) in
  set_hp_mem s (heap_coalesce block (hp_mem s)).

Definition kheap_total_bytes s : Z := heap_total s.
Definition kheap_used_bytes s : Z := heap_used s.

End Operations.

(** ** Abstract view *)

Notation blk := (Z * bool)%type (only parsing).

Definition ext (l : list blk) : Z := foldr (fun b n => HEADER + fst b + n) 0 l.

(** The bytes in use. *)
Definition used (l : list blk) : Z := foldr (fun b n => (if snd b : bool then 0 else fst b) + n) 0 l.

(** The allocations: address and size of the payload of each block in use. *)
Fixpoint live (a : Z) (l : list blk) : list (Z * Z) :=
  match l with
  | [] => []
  | (sz, fr) :: l' => (if fr : bool then [] else [(a + HEADER, sz)]) ++ live (a + HEADER + sz) l'
  end.

(** First fit at address [a]: the chosen block and the new list. *)
Definition take_block (want sz : Z) : list blk :=
  if want + 24 <? sz then [(want, false); (sz - want - HEADER, true)] else [(sz, false)].

Fixpoint first_fit (want a : Z) (l : list blk) : option (Z * list blk) :=
  match l with
  | [] => None
  | (sz, fr) :: l' =>
      if fr && (want <=? sz) then Some (a, take_block want sz ++ l')
      else match first_fit want (a + HEADER + sz) l' with
           | None => None
           | Some (b, l'') => Some (b, (sz, fr) :: l'')
           end
  end.

(** One more page at the end. *)
Fixpoint grow (l : list blk) : list blk :=
  match l with
  | [] => [(4096 - HEADER, true)]
  | [(sz, true)] => [(sz + 4096, true)]
  | b :: l' => b :: grow l'
  end.

(** [seg m prev a l next]: the blocks [l] are laid out from address [a]; the
    first one's [prev] and the last one's [next] are the given pointers. *)
Definition hdr (m : mem) (a sz : Z) (fr : bool) (next prev : Z) : Prop :=
  hb_size m a = sz /\ hb_free m a = (if fr then 1 else 0) /\ hb_next m a = next /\ hb_prev m a = prev.

Fixpoint seg (m : mem) (prev a : Z) (l : list blk) (next : Z) : Prop :=
  match l with
  | [] => True
  | (sz, fr) :: l' =>
      hdr m a sz fr (match l' with [] => next | _ => a + HEADER + sz end) prev /\
      seg m a (a + HEADER + sz) l' next
  end.

(** The address of the last block, or [prev] if there is none. *)
Fixpoint last_addr (prev a : Z) (l : list blk) : Z :=
  match l with
  | [] => prev
  | (sz, fr) :: l' => last_addr a (a + HEADER + sz) l'
  end.

(** Where a list starts, or the pointer that follows it. *)
Definition start (a : Z) (l : list blk) (next : Z) : Z := match l with [] => next | _ => a end.

Definition sizes_ok (l : list blk) : Prop := Forall (fun b => 8 <= fst b /\ fst b `mod` 8 = 0) l.

Fixpoint no_adjacent_free (l : list blk) : Prop :=
  match l with
  | (_, true) :: (((_, true) :: _) as l') => False
  | _ :: l' => no_adjacent_free l'
  | [] => True
  end.

(** ** Lemmas on the abstract view *)

Lemma ext_cons sz fr l : ext ((sz, fr) :: l) = HEADER + sz + ext l.
Proof. done. Qed.

Lemma ext_app l1 l2 : ext (l1 ++ l2) = ext l1 + ext l2.
Proof. induction l1 as [|[sz fr] l1 IH]; [done|]. simpl app. rewrite !ext_cons, IH. lia. Qed.

Lemma ext_nonneg l : sizes_ok l -> 0 <= ext l.
Proof.
  induction 1 as [|[sz fr] l [Hs _] _ IH]; [done|]. rewrite ext_cons. simpl in Hs. unfold HEADER. lia.
Qed.

Lemma ext_length l : sizes_ok l -> 24 * Z.of_nat (length l) <= ext l.
Proof.
  induction 1 as [|[sz fr] l [Hs _] _ IH]; [done|]. rewrite ext_cons. simpl in Hs |- *. unfold HEADER in *. lia.
Qed.

Lemma ext_mod l : sizes_ok l -> ext l `mod` 8 = 0.
Proof.
  induction 1 as [|[sz fr] l [_ Hs] _ IH]; [done|]. rewrite ext_cons. simpl in Hs. unfold HEADER in *.
  Z.div_mod_to_equations. lia.
Qed.

Lemma used_app l1 l2 : used (l1 ++ l2) = used l1 + used l2.
Proof. induction l1 as [|[sz fr] l1 IH]; [done|]. simpl in *. rewrite IH. lia. Qed.

Lemma used_le_ext l : sizes_ok l -> 0 <= used l <= ext l.
Proof.
  induction 1 as [|[sz fr] l [Hs _] _ IH]; [done|]. rewrite ext_cons. simpl in *. unfold HEADER.
  destruct fr; lia.
Qed.

Lemma live_app a l1 l2 : live a (l1 ++ l2) = live a l1 ++ live (a + ext l1) l2.
Proof.
  revert a. induction l1 as [|[sz fr] l1 IH]; intros a; simpl; [by rewrite Z.add_0_r|].
  rewrite IH, <- app_assoc. do 3 f_equal. unfold ext, HEADER. simpl. lia.
Qed.

Lemma live_range a l p sz :
  sizes_ok l -> (p, sz) ∈ live a l -> a + HEADER <= p /\ p + sz <= a + ext l /\ 8 <= sz /\ (p - a) `mod` 8 = 0.
Proof.
  intros Hs. revert a. induction Hs as [|[n fr] l [Hn Hm] Hs IH]; intros a; simpl; [by intros ?%elem_of_nil|].
  simpl in Hn, Hm. rewrite elem_of_app. pose proof (ext_nonneg l Hs). intros [Hin|Hin].
  - destruct fr; [by apply elem_of_nil in Hin|]. apply list_elem_of_singleton in Hin as [= -> ->].
    unfold HEADER in *. change (ext ((n, false) :: l)) with (16 + n + ext l). replace (a + 16 - a) with 16 by lia.
    split_and!; [lia..|done].
  - destruct (IH _ Hin) as (? & ? & ? & Hmod). change (ext ((n, fr) :: l)) with (HEADER + n + ext l).
    unfold HEADER in *. split_and!; try lia. clear - Hm Hmod. Z.div_mod_to_equations. lia.
Qed.

Lemma sizes_app l1 l2 : sizes_ok (l1 ++ l2) <-> sizes_ok l1 /\ sizes_ok l2.
Proof. apply Forall_app. Qed.

Lemma start_app a l1 l2 n : start a l1 (start (a + ext l1) l2 n) = start a (l1 ++ l2) n.
Proof. destruct l1 as [|[sz fr] l1]; simpl; [|done]. by rewrite Z.add_0_r. Qed.

(** *** Segments *)

Lemma seg_cons m p a sz fr l n :
  seg m p a ((sz, fr) :: l) n <->
  hdr m a sz fr (start (a + HEADER + sz) l n) p /\ seg m a (a + HEADER + sz) l n.
Proof. done. Qed.

Lemma seg_app m l1 l2 n : forall p a,
  seg m p a (l1 ++ l2) n <->
  seg m p a l1 (start (a + ext l1) l2 n) /\ seg m (last_addr p a l1) (a + ext l1) l2 n.
Proof.
  induction l1 as [|[sz fr] l1 IH]; intros p a.
  { simpl. rewrite Z.add_0_r. naive_solver. }
  simpl app. rewrite !seg_cons, IH. simpl last_addr. rewrite ext_cons.
  replace (a + (HEADER + sz + ext l1)) with (a + HEADER + sz + ext l1) by lia.
  rewrite start_app. naive_solver.
Qed.

(** A segment depends on the headers only. *)
Lemma hdr_frame m m' a sz fr n p :
  (forall x, a <= x < a + HEADER -> rd8 m' x = rd8 m x) -> hdr m a sz fr n p -> hdr m' a sz fr n p.
Proof.
  intros Hx. unfold hdr, hb_size, hb_free, hb_next, hb_prev, rd32, rd16, HEADER in *.
  rewrite !Hx by lia. done.
Qed.

Lemma seg_frame m m' l n : forall p a,
  sizes_ok l -> (forall x, a <= x < a + ext l -> rd8 m' x = rd8 m x) -> seg m p a l n -> seg m' p a l n.
Proof.
  induction l as [|[sz fr] l IH]; intros p a Hs Hx; [done|]. apply Forall_cons_1 in Hs as [[Hsz _] Hs].
  simpl in Hsz. rewrite !seg_cons, ext_cons in *. pose proof (ext_nonneg l Hs). unfold HEADER in *.
  intros [Hh Hseg]. split.
  - apply (hdr_frame m); [|done]. intros; apply Hx; unfold HEADER in *; lia.
  - apply IH; auto. intros; apply Hx; lia.
Qed.

(** *** Header writes *)

(** Reads of header fields after header writes, and of bytes outside them. *)
Ltac heap_words :=
  unfold hdr, hb_size, hb_free, hb_next, hb_prev, set_hb_size, set_hb_free, set_hb_next, set_hb_prev,
         HEADER in *;
  repeat first [rewrite rd32_wr32_eq by (unfold is_u32; lia) | rewrite rd32_wr32_ne by lia
               |rewrite rd8_wr32_ne by lia].

(** [if (next != 0) next->prev = q;] *)
Definition relink (m : mem) (next q : Z) : mem := if negb (next =? 0) then set_hb_prev m next q else m.

Lemma relink_out m l x q y : y < x \/ x + HEADER <= y -> rd8 (relink m (start x l 0) q) y = rd8 m y.
Proof.
  intros Hy. unfold relink. destruct l; simpl; [done|]. destruct (negb _); [|done]. by heap_words.
Qed.

Lemma relink_seg m l x p q :
  sizes_ok l -> 0 < x -> is_u32 q -> seg m p x l 0 -> seg (relink m (start x l 0) q) q x l 0.
Proof.
  intros Hs Hx Hq. destruct l as [|[sz fr] l]; [done|].
  apply Forall_cons_1 in Hs as [[Hsz _] Hs]. simpl in Hsz. rewrite !seg_cons. intros [Hh Hseg].
  unfold relink, start. rewrite (proj2 (Z.eqb_neq x 0)) by lia. cbn [negb]. unfold is_u32 in Hq. split.
  - clear Hseg. heap_words. naive_solver.
  - apply (seg_frame m); auto. intros y Hy. by heap_words.
Qed.

(** Replacing the middle of the list. *)
Lemma seg_replace m m' p a l1 mid mid' l2 :
  let x := a + ext l1 in
  seg m p a (l1 ++ mid ++ l2) 0 -> sizes_ok l1 -> mid <> [] -> mid' <> [] -> ext mid' = ext mid ->
  (forall y, a <= y < x -> rd8 m' y = rd8 m y) ->
  seg m' (last_addr p a l1) x mid' (start (x + ext mid) l2 0) ->
  seg m' (last_addr (last_addr p a l1) x mid') (x + ext mid) l2 0 ->
  seg m' p a (l1 ++ mid' ++ l2) 0.
Proof.
  intros x Hseg Hs Hmid Hmid' Hext Hout Hm Hl2. rewrite !seg_app in *. fold x in Hseg |- *.
  destruct Hseg as [H1 _]. split; [|split; [|by rewrite Hext]].
  - apply (seg_frame m); auto. by destruct mid, mid'.
  - by rewrite Hext.
Qed.

Lemma seg_middle m p a l1 sz fr l2 :
  seg m p a (l1 ++ (sz, fr) :: l2) 0 ->
  let x := a + ext l1 in
  hdr m x sz fr (start (x + HEADER + sz) l2 0) (last_addr p a l1) /\ seg m x (x + HEADER + sz) l2 0.
Proof. intros Hseg x. rewrite seg_app, seg_cons in Hseg. apply Hseg. Qed.

(** *** Changing the flag of a block *)

Lemma set_free_seg m p a l1 sz fr (fr' : bool) l2 :
  seg m p a (l1 ++ (sz, fr) :: l2) 0 -> sizes_ok (l1 ++ (sz, fr) :: l2) ->
  seg (set_hb_free m (a + ext l1) (if fr' then 1 else 0)) p a (l1 ++ (sz, fr') :: l2) 0.
Proof.
  intros Hseg Hs. apply sizes_app in Hs as [Hs1 Hs2]. apply Forall_cons_1 in Hs2 as [[Hsz _] Hs2]. simpl in Hsz.
  destruct (seg_middle _ _ _ _ _ _ _ Hseg) as [Hh Hl2]. set (x := a + ext l1) in *.
  apply (seg_replace m _ p a l1 [(sz, fr)] [(sz, fr')] l2); auto; fold x.
  - intros y Hy. by heap_words.
  - simpl. split; [|done]. rewrite Z.add_0_r. clear Hl2.
    replace (x + (HEADER + sz)) with (x + HEADER + sz) by lia.
    destruct fr'; heap_words; naive_solver.
  - simpl. rewrite Z.add_0_r. replace (x + (HEADER + sz)) with (x + HEADER + sz) by lia.
    apply (seg_frame m); auto. intros y Hy. by heap_words.
Qed.

(** *** Splitting *)

Lemma split_block_eq m x sz fr l2 pv want :
  let x' := x + HEADER + want in
  let nx := start (x + HEADER + sz) l2 0 in
  hdr m x sz fr nx pv -> 0 < x -> 0 <= want -> want + 24 < sz -> x + HEADER + sz < 4294967296 ->
  heap_split_block x want m =
  set_hb_size (set_hb_next (relink
    (set_hb_prev (set_hb_next (set_hb_free (set_hb_size m x' (sz - want - HEADER)) x' 1) x' nx) x' x)
    nx x') x x') x want.
Proof.
  intros x' nx (Hsz & Hfr & Hnx & Hpv) Hx Hw Hlt Hb.
  unfold heap_split_block. rewrite Hsz. unfold HEADER in *. u32_simp.
  rewrite (proj2 (Z.leb_gt _ _)) by lia. unfold x'.
  set (m1 := set_hb_prev _ _ _).
  assert (hb_next m1 x = nx) as Hn1.
  { unfold m1. rewrite <- Hnx. clear - Hx Hw Hlt. heap_words. done. }
  assert (Hn2 : hb_next (set_hb_free (set_hb_size m (x + 16 + want) (sz - want - 16)) (x + 16 + want) 1) x = nx).
  { rewrite <- Hnx. clear - Hx Hw Hlt. heap_words. done. }
  rewrite Hn1. unfold m1. rewrite Hn2. done.
Qed.

Lemma split_seg m p a l1 sz l2 want fr :
  let x := a + ext l1 in
  seg m p a (l1 ++ (sz, fr) :: l2) 0 -> sizes_ok (l1 ++ (sz, fr) :: l2) -> 0 < a ->
  8 <= want -> want + 24 < sz -> x + HEADER + sz < 4294967296 ->
  seg (heap_split_block x want m) p a (l1 ++ [(want, fr); (sz - want - HEADER, true)] ++ l2) 0 /\
  forall y, y < x \/ x + HEADER + sz + HEADER <= y \/ (x + HEADER <= y < x + HEADER + want) ->
            rd8 (heap_split_block x want m) y = rd8 m y.
Proof.
  intros x Hseg Hs Ha Hw Hlt Hb. apply sizes_app in Hs as [Hs1 Hs2].
  apply Forall_cons_1 in Hs2 as [[Hsz _] Hs2]. simpl in Hsz. pose proof (ext_nonneg l1 Hs1) as He1.
  destruct (seg_middle _ _ _ _ _ _ _ Hseg) as [Hh Hl2]. fold x in Hh, Hl2.
  rewrite (split_block_eq m x sz fr l2 (last_addr p a l1) want) by (auto; lia).
  set (nx := start (x + HEADER + sz) l2 0) in *. set (x' := x + HEADER + want) in *.
  set (m1 := set_hb_prev _ _ _). assert (Hx : 0 < x) by (unfold x; lia).
  assert (Hrel : seg (relink m1 nx x') x' (x + HEADER + sz) l2 0).
  { apply (relink_seg _ _ _ x); auto; [unfold HEADER; lia|unfold is_u32, x', HEADER in *; lia|].
    apply (seg_frame m); auto. intros y Hy. unfold m1, x'. clear - Hy Hw Hlt. by heap_words. }
  assert (Hout : forall y, y < x + HEADER + sz \/ x + HEADER + sz + HEADER <= y -> rd8 (relink m1 nx x') y = rd8 m1 y)
    by (intros; by apply relink_out).
  assert (Hout4 : forall y, y + 4 <= x + HEADER + sz -> rd32 (relink m1 nx x') y = rd32 m1 y).
  { intros y Hy. unfold rd32, rd16. rewrite !Hout by lia. done. }
  split.
  - apply (seg_replace m _ p a l1 [(sz, fr)] _ l2); auto; fold x.
    + unfold ext. simpl. unfold HEADER. lia.
    + intros y Hy. clear Hrel Hh Hl2. heap_words. rewrite Hout by lia. unfold m1, x'. by heap_words.
    + simpl. replace (x + (HEADER + sz + 0)) with (x + HEADER + sz) by lia. fold nx. fold x'.
      clear Hrel Hl2 Hseg. unfold hdr, hb_size, hb_free, hb_next, hb_prev, set_hb_size, set_hb_next in *.
      unfold x' in *. unfold HEADER in *.
      assert (is_u32 nx) by (unfold is_u32, nx, start; destruct l2; lia).
      assert (is_u32 (x + 16 + want)) by (unfold is_u32; lia).
      repeat first [rewrite rd32_wr32_eq by (assumption || (unfold is_u32; lia)) | rewrite rd32_wr32_ne by lia | rewrite Hout4 by lia].
      unfold m1, set_hb_prev, set_hb_next, set_hb_free, set_hb_size.
      repeat first [rewrite rd32_wr32_eq by (assumption || (unfold is_u32; lia)) | rewrite rd32_wr32_ne by lia].
      naive_solver.
    + replace (x + ext [(sz, fr)]) with (x + HEADER + sz) by (unfold ext; simpl; lia).
      change (last_addr _ _ _) with x'. apply (seg_frame (relink m1 nx x')); auto.
      intros y Hy. clear Hrel Hh Hl2. by heap_words.
  - intros y Hy. clear Hrel Hh Hl2. unfold set_hb_size at 1, set_hb_next at 1. unfold x', HEADER in *.
    assert (y < x \/ x + 16 <= y) by lia. rewrite !rd8_wr32_ne by lia. rewrite Hout by lia.
    unfold m1. heap_words. done.
Qed.

(** *** Merging *)

Definition pay (a : Z) (l : list blk) (y : Z) : Prop := exists q n, (q, n) ∈ live a l /\ q <= y < q + n.

Lemma pay_app a l1 l2 y : pay a (l1 ++ l2) y <-> pay a l1 y \/ pay (a + ext l1) l2 y.
Proof. unfold pay. rewrite live_app. setoid_rewrite elem_of_app. naive_solver. Qed.

Lemma pay_range a l y : sizes_ok l -> pay a l y -> a + HEADER <= y < a + ext l.
Proof. intros Hs (q & n & Hin & Hy). apply live_range in Hin; auto. lia. Qed.

Lemma pay_cons a sz fr l y :
  pay a ((sz, fr) :: l) y <-> (fr = false /\ a + HEADER <= y < a + HEADER + sz) \/ pay (a + HEADER + sz) l y.
Proof.
  unfold pay. simpl. setoid_rewrite elem_of_app. destruct fr; split.
  - intros (q & n & [Hin|Hin] & Hy); [by apply elem_of_nil in Hin|eauto].
  - intros [[? _]|(q & n & Hin & Hy)]; [done|eauto].
  - intros (q & n & [Hin|Hin] & Hy); [|eauto]. apply list_elem_of_singleton in Hin as [= -> ->]. auto.
  - intros [[_ Hy]|(q & n & Hin & Hy)]; [|eauto]. exists (a + HEADER), sz. rewrite list_elem_of_singleton. auto.
Qed.

Definition merge_next (sz : Z) (fr : bool) (l2 : list blk) : list blk :=
  match l2 with
  | (sz2, true) :: l3 => (sz + HEADER + sz2, fr) :: l3
  | _ => (sz, fr) :: l2
  end.

Lemma coalesce_next_seg m p a l1 sz fr l2 :
  let x := a + ext l1 in
  seg m p a (l1 ++ (sz, fr) :: l2) 0 -> sizes_ok (l1 ++ (sz, fr) :: l2) -> 0 < a ->
  x + HEADER + sz + ext l2 < 4294967296 ->
  seg (coalesce_next x m) p a (l1 ++ merge_next sz fr l2) 0 /\
  forall y, y < x \/ (x + HEADER <= y < x + HEADER + sz) \/ pay (x + HEADER + sz) l2 y ->
            rd8 (coalesce_next x m) y = rd8 m y.
Proof.
  intros x Hseg Hs Ha Hb. apply sizes_app in Hs as [Hs1 Hs2].
  apply Forall_cons_1 in Hs2 as [[Hsz _] Hs2]. simpl in Hsz. pose proof (ext_nonneg l1 Hs1) as He1.
  destruct (seg_middle _ _ _ _ _ _ _ Hseg) as [Hh Hl2]. fold x in Hh, Hl2.
  pose proof Hh as (Hhs & Hhf & Hhn & Hhp). unfold coalesce_next. rewrite Hhn.
  assert (Hx : 0 < x) by (unfold x; lia).
  destruct l2 as [|[sz2 fr2] l3]; [done|]. pose proof Hl2 as [(Hns & Hnf & Hnn & Hnp) Hl3].
  unfold start in *. rewrite (proj2 (Z.eqb_neq _ 0)) by (unfold HEADER; lia). cbn [negb andb].
  rewrite Hnf. destruct fr2; cbn [negb Z.eqb]; [|done].
  apply Forall_cons_1 in Hs2 as [[Hsz2 _] Hs3]. simpl in Hsz2. rewrite ext_cons in Hb.
  pose proof (ext_nonneg l3 Hs3) as He3. unfold HEADER in *. rewrite Hhs, Hns. u32_simp.
  set (x3 := x + 16 + sz + 16 + sz2) in *. set (nx := start x3 l3 0).
  set (m1 := set_hb_size m x (sz + (16 + sz2))).
  assert (hb_next m1 (x + 16 + sz) = nx) as Hn1.
  { transitivity (hb_next m (x + 16 + sz)); [|exact Hnn]. unfold m1. clear - Hsz Hsz2 Hx. by heap_words. }
  assert (Hnxr : is_u32 nx) by (unfold is_u32, nx, start; destruct l3; unfold x3 in *; lia).
  rewrite Hn1. set (m2 := set_hb_next m1 x nx).
  assert (hb_next m2 x = nx) as Hn2 by (unfold m2; heap_words; by rewrite rd32_wr32_eq).
  rewrite Hn2. fold (relink m2 nx x).
  assert (Hrel : seg (relink m2 nx x) x x3 l3 0).
  { apply (relink_seg _ _ _ (x + 16 + sz)); auto; [unfold x3; lia|unfold is_u32; lia|].
    apply (seg_frame m); auto. intros y Hy. unfold m2, m1, x3 in *. clear - Hy Hsz Hsz2. by heap_words. }
  assert (Hout : forall y, y < x3 \/ x3 + 16 <= y -> rd8 (relink m2 nx x) y = rd8 m2 y)
    by (intros; by apply relink_out).
  split.
  - apply (seg_replace m _ p a l1 [(sz, fr); (sz2, true)] [(sz + 16 + sz2, fr)] l3); auto; fold x.
    + unfold ext, HEADER. simpl. lia.
    + intros y Hy. rewrite Hout by (unfold x3; lia). unfold m2, m1. clear - Hy. by heap_words.
    + simpl. split; [|done].
      replace (x + (HEADER + sz + (HEADER + sz2 + 0))) with x3 by (unfold x3, HEADER; lia). fold nx.
      unfold hdr, hb_size, hb_free, hb_next, hb_prev.
      assert (Hout4 : forall y, y + 4 <= x3 -> rd32 (relink m2 nx x) y = rd32 m2 y).
      { intros y Hy. unfold rd32, rd16. rewrite !Hout by lia. done. }
      rewrite !Hout4 by (unfold x3; lia). unfold m2, m1, set_hb_size, set_hb_next.
      unfold x3 in Hb. clear Hl2 Hl3 Hrel Hseg Hnn. unfold hb_size, hb_free, hb_next, hb_prev in *.
      repeat first [rewrite rd32_wr32_eq by (assumption || (unfold is_u32; lia)) | rewrite rd32_wr32_ne by lia].
      split_and!; [lia|done|done|done].
    + replace (x + ext [(sz, fr); (sz2, true)]) with x3 by (unfold x3, ext, HEADER; simpl; lia).
      exact Hrel.
  - intros y Hy. rewrite pay_cons in Hy. unfold HEADER in Hy. fold x3 in Hy.
    assert (Hy' : y < x \/ x + 16 <= y < x + 16 + sz \/ x3 + 16 <= y).
    { destruct Hy as [Hy|[Hy|[[? _]|Hy]]]; [lia|lia|done|]. apply pay_range in Hy; auto. unfold HEADER in Hy. lia. }
    rewrite Hout by (unfold x3 in *; lia). unfold m2, m1. unfold x3 in Hy'. clear - Hy' Hsz Hsz2. by heap_words.
Qed.

(** Merging into the previous block is merging that block with its next one. *)
Lemma coalesce_prev_eq m p a l0 szp frp sz l2 :
  let x := a + ext l0 + HEADER + szp in
  seg m p a (l0 ++ (szp, frp) :: (sz, true) :: l2) 0 -> sizes_ok (l0 ++ (szp, frp) :: (sz, true) :: l2) -> 0 < a ->
  x + HEADER + sz + ext l2 < 4294967296 ->
  coalesce_prev x m = if frp then coalesce_next (a + ext l0) m else m.
Proof.
  intros x Hseg Hs Ha Hb. destruct (seg_middle _ _ _ _ _ _ _ Hseg) as [(Hs0 & Hf0 & Hn0 & _) Hrest].
  apply sizes_app in Hs as [Hs1 Hs2]. apply Forall_cons_1 in Hs2 as [[Hszp _] Hs2].
  apply Forall_cons_1 in Hs2 as [[Hsz _] Hs2]. simpl in Hszp, Hsz. pose proof (ext_nonneg l0 Hs1).
  pose proof (ext_nonneg l2 Hs2).
  fold x in Hrest. rewrite seg_cons in Hrest. destruct Hrest as [(Hs & Hf & Hn & Hp) _].
  unfold start in Hn0. fold x in Hn0. unfold coalesce_prev, coalesce_next.
  rewrite Hp, Hf0, Hn0, Hf. rewrite !(proj2 (Z.eqb_neq _ 0)) by (unfold x, HEADER in *; lia). cbn [negb andb].
  destruct frp; cbn [negb Z.eqb]; [|done]. set (x0 := a + ext l0) in *.
  set (m1 := set_hb_size m x0 _).
  assert (hb_next m1 x = start (x + HEADER + sz) l2 0) as Hn1.
  { rewrite <- Hn. unfold m1, x. clear - Hszp. by heap_words. }
  assert (Hr : is_u32 (hb_next m1 x)) by (rewrite Hn1; unfold is_u32, start, x, x0, HEADER in *; destruct l2; lia).
  assert (hb_next (set_hb_next m1 x0 (hb_next m1 x)) x = hb_next m1 x) as ->.
  { unfold x. clear - Hszp. by heap_words. }
  assert (hb_next (set_hb_next m1 x0 (hb_next m1 x)) x0 = hb_next m1 x) as ->.
  { unfold hb_next at 1, set_hb_next. by rewrite rd32_wr32_eq. }
  rewrite (proj2 (Z.eqb_neq x 0)) by (unfold x, x0, HEADER in *; lia). done.
Qed.

(** *** Freeing, on the abstract view *)

Fixpoint mark (p a : Z) (l : list blk) : list blk :=
  match l with
  | [] => []
  | (sz, fr) :: l' => if a + HEADER =? p then (sz, true) :: l' else (sz, fr) :: mark p (a + HEADER + sz) l'
  end.

(** All neighbouring free blocks merged. *)
Fixpoint merge_free (l : list blk) : list blk :=
  match l with
  | [] => []
  | (sz, true) :: l' => merge_next sz true (merge_free l')
  | b :: l' => b :: merge_free l'
  end.

Definition head_free (l : list blk) : bool := match l with (_, fr) :: _ => fr | [] => false end.

Lemma no_adjacent_cons sz fr l :
  no_adjacent_free ((sz, fr) :: l) <-> (fr = true -> head_free l = false) /\ no_adjacent_free l.
Proof. destruct fr, l as [|[s2 []] l]; simpl; naive_solver. Qed.

Lemma merge_next_ext sz fr l : ext (merge_next sz fr l) = HEADER + sz + ext l.
Proof. destruct l as [|[s2 []] l]; unfold merge_next, ext; simpl; lia. Qed.

Lemma merge_free_ext l : ext (merge_free l) = ext l.
Proof.
  induction l as [|[sz []] l IH]; [done| |]; simpl merge_free.
  - by rewrite merge_next_ext, IH, ext_cons.
  - by rewrite !ext_cons, IH.
Qed.

Lemma merge_free_used l : used (merge_free l) = used l.
Proof.
  induction l as [|[sz []] l IH]; [done| |]; simpl merge_free; [|unfold used in *; simpl; lia].
  destruct (merge_free l) as [|[s2 []] l']; unfold used in *; simpl in *; lia.
Qed.

Lemma merge_free_live l : forall a, live a (merge_free l) = live a l.
Proof.
  induction l as [|[sz []] l IH]; intros a; [done| |]; simpl; [|by rewrite IH].
  rewrite <- IH. destruct (merge_free l) as [|[s2 []] l']; simpl; [done| |done].
  f_equal. unfold HEADER. lia.
Qed.

Lemma merge_free_sizes l : sizes_ok l -> sizes_ok (merge_free l).
Proof.
  induction 1 as [|[sz []] l [Hsz Hm] Hs IH]; [constructor| |by constructor].
  simpl in *. destruct (merge_free l) as [|[s2 []] l']; simpl; try by constructor.
  apply Forall_cons_1 in IH as [[Hs2 Hm2] IH]. constructor; [|done]. simpl in *. unfold HEADER.
  split; [lia|]. clear - Hm Hm2. Z.div_mod_to_equations. lia.
Qed.

Lemma merge_free_no_adjacent l : no_adjacent_free (merge_free l).
Proof.
  induction l as [|[sz []] l IH]; [done| |]; simpl merge_free.
  - destruct (merge_free l) as [|[s2 []] l']; [done| |done]. simpl merge_next.
    rewrite no_adjacent_cons in *. naive_solver.
  - apply no_adjacent_cons. naive_solver.
Qed.

Lemma merge_free_id l : no_adjacent_free l -> merge_free l = l.
Proof.
  induction l as [|[sz fr] l IH]; [done|]. rewrite no_adjacent_cons. intros [Hh Hl]. simpl.
  rewrite IH by done. destruct fr; [|done]. specialize (Hh eq_refl). by destruct l as [|[s2 []] l].
Qed.

Lemma mark_middle p a l1 sz fr l2 :
  sizes_ok l1 -> p = a + ext l1 + HEADER -> mark p a (l1 ++ (sz, fr) :: l2) = l1 ++ (sz, true) :: l2.
Proof.
  intros Hs. revert a. induction Hs as [|[s1 f1] l1 [Hs1 _] Hs IH]; intros a Hp.
  - simpl in *. rewrite (proj2 (Z.eqb_eq _ _)) by lia. done.
  - simpl app. simpl in Hs1. rewrite ext_cons in Hp. pose proof (ext_nonneg l1 Hs). simpl.
    rewrite (proj2 (Z.eqb_neq _ _)) by (unfold HEADER in *; lia). f_equal. apply IH. lia.
Qed.

Lemma live_split a l p sz :
  (p, sz) ∈ live a l -> exists l1 l2, l = l1 ++ (sz, false) :: l2 /\ p = a + ext l1 + HEADER.
Proof.
  revert a. induction l as [|[s fr] l IH]; intros a; simpl; [by intros ?%elem_of_nil|].
  rewrite elem_of_app. intros [Hin|Hin].
  - destruct fr; [by apply elem_of_nil in Hin|]. apply list_elem_of_singleton in Hin as [= -> ->].
    exists [], l. simpl. split; [done|lia].
  - destruct (IH _ Hin) as (l1 & l2 & -> & ->). exists ((s, fr) :: l1), l2. split; [done|].
    rewrite ext_cons. lia.
Qed.

(** Coalescing around one block gives the fully merged list, when there were no
    neighbouring free blocks before it was freed. *)
Lemma merge_around l1 sz l2 :
  no_adjacent_free l1 -> no_adjacent_free l2 ->
  merge_free (l1 ++ (sz, true) :: l2) =
  match list.last l1 with
  | Some (szp, true) => removelast l1 ++ merge_next szp true (merge_next sz true l2)
  | _ => l1 ++ merge_next sz true l2
  end.
Proof.
  intros H1 H2. induction l1 as [|[s1 f1] l1 IH]; simpl app.
  { simpl. by rewrite (merge_free_id l2 H2). }
  rewrite no_adjacent_cons in H1. destruct H1 as [Hh H1]. specialize (IH H1).
  destruct l1 as [|[s2 f2] l1].
  - simpl app in *. destruct f1; simpl; by rewrite (merge_free_id l2 H2).
  - change (list.last ((s1, f1) :: (s2, f2) :: l1)) with (list.last ((s2, f2) :: l1)).
    change (removelast ((s1, f1) :: (s2, f2) :: l1)) with ((s1, f1) :: removelast ((s2, f2) :: l1)).
    destruct f1.
    + specialize (Hh eq_refl). simpl in Hh. subst f2.
      etransitivity; [exact (f_equal (merge_next s1 true) IH)|]. clear IH. destruct (list.last ((s2, false) :: l1)) as [[szp []]|] eqn:El; [|done|done].
      destruct l1; [discriminate El|]. done.
    + etransitivity; [exact (f_equal (cons (s1, false)) IH)|]. by destruct (list.last ((s2, f2) :: l1)) as [[szp []]|].
Qed.

(** *** Searching *)

Lemma first_fit_split want l : forall a b l',
  first_fit want a l = Some (b, l') ->
  exists l1 sz l2, l = l1 ++ (sz, true) :: l2 /\ b = a + ext l1 /\ want <= sz /\
                   l' = l1 ++ take_block want sz ++ l2.
Proof.
  induction l as [|[sz fr] l IH]; intros a b l' Hf; [discriminate|]. simpl in Hf.
  destruct (fr && (want <=? sz)) eqn:E.
  - injection Hf as <- <-. bool_simp. subst fr. exists [], sz, l. simpl. rewrite Z.add_0_r. done.
  - destruct (first_fit want (a + HEADER + sz) l) as [[b' l'']|] eqn:Ef; [|discriminate].
    injection Hf as <- <-. destruct (IH _ _ _ Ef) as (l1 & sz' & l2 & -> & -> & Hle & ->).
    exists ((sz, fr) :: l1), sz', l2. rewrite ext_cons. split_and!; [done|lia|done|done].
Qed.

Lemma fit_loop m want l : forall p a fuel,
  seg m p a l 0 -> sizes_ok l -> 0 < a -> (length l < fuel)%nat ->
  loop fuel (fit_body m want) (start a l 0) =
  Some (match first_fit want a l with Some (b, _) => b | None => 0 end).
Proof.
  induction l as [|[sz fr] l IH]; intros p a fuel Hseg Hs Ha Hfuel.
  { destruct fuel; [simpl in Hfuel; lia|]. done. }
  destruct fuel as [|fuel]; [simpl in Hfuel; lia|]. rewrite seg_cons in Hseg.
  destruct Hseg as [(Hsz & Hfr & Hnx & _) Hseg]. apply Forall_cons_1 in Hs as [[Hs0 _] Hs]. simpl in Hs0.
  simpl loop. unfold fit_body at 1. rewrite (proj2 (Z.eqb_neq a 0)) by lia. rewrite Hsz, Hfr, Hnx. simpl first_fit.
  assert (negb ((if fr then 1 else 0) =? 0) = fr) as -> by (by destruct fr).
  destruct (fr && (want <=? sz)); [done|].
  rewrite (IH a) by (assumption || (unfold HEADER; simpl in Hfuel; lia)).
  by destruct (first_fit want (a + HEADER + sz) l) as [[b l'']|].
Qed.

Lemma tail_loop m l : forall p a sz fr fuel,
  seg m p a (l ++ [(sz, fr)]) 0 -> sizes_ok l -> 0 < a -> (length l < fuel)%nat ->
  loop fuel (tail_body m) a = Some (a + ext l).
Proof.
  induction l as [|[s1 f1] l IH]; intros p a sz fr fuel Hseg Hs Ha Hfuel;
    (destruct fuel as [|fuel]; [simpl in Hfuel; lia|]); simpl app in Hseg; rewrite seg_cons in Hseg;
    destruct Hseg as [(_ & _ & Hnx & _) Hseg]; simpl loop; unfold tail_body at 1; rewrite Hnx.
  - simpl. by rewrite Z.add_0_r.
  - apply Forall_cons_1 in Hs as [[Hs0 _] Hs]. simpl in Hs0.
    assert (start (a + HEADER + s1) (l ++ [(sz, fr)]) 0 = a + HEADER + s1) as -> by (by destruct l).
    rewrite (proj2 (Z.eqb_neq _ 0)) by (unfold HEADER; lia).
    rewrite (IH a _ sz fr) by (assumption || (unfold HEADER; simpl in Hfuel; lia)). rewrite ext_cons. f_equal. lia.
Qed.

(** *** Taking a block *)

Lemma take_block_ext want sz : ext (take_block want sz) = HEADER + sz.
Proof. unfold take_block. destruct (_ <? _); unfold ext, HEADER; simpl; lia. Qed.

Definition taken_size (want sz : Z) : Z := if want + 24 <? sz then want else sz.

Lemma take_block_live want sz a : live a (take_block want sz) = [(a + HEADER, taken_size want sz)].
Proof. unfold take_block, taken_size. destruct (_ <? _); done. Qed.

Lemma take_block_used want sz : used (take_block want sz) = taken_size want sz.
Proof. unfold take_block, taken_size. destruct (_ <? _); unfold used; simpl; lia. Qed.

Lemma take_block_sizes want sz :
  8 <= want -> want `mod` 8 = 0 -> 8 <= sz -> sz `mod` 8 = 0 -> sizes_ok (take_block want sz).
Proof.
  intros. unfold take_block, HEADER. destruct (Z.ltb_spec (want + 24) sz); repeat constructor; simpl; try lia.
  Z.div_mod_to_equations. lia.
Qed.

Lemma no_adjacent_app l1 l2 :
  no_adjacent_free (l1 ++ l2) -> no_adjacent_free l1 /\ no_adjacent_free l2.
Proof.
  induction l1 as [|[sz fr] l1 IH]; [done|]. simpl app. rewrite !no_adjacent_cons. intros [Hh Hl].
  destruct (IH Hl). split_and!; auto. by destruct l1.
Qed.

Lemma no_adjacent_take l1 sz l2 want :
  no_adjacent_free (l1 ++ (sz, true) :: l2) -> no_adjacent_free (l1 ++ take_block want sz ++ l2).
Proof.
  induction l1 as [|[s1 f1] l1 IH]; simpl app.
  - unfold take_block. rewrite no_adjacent_cons. intros [Hh Hl]. destruct (_ <? _); simpl app;
      rewrite !no_adjacent_cons; naive_solver.
  - rewrite !no_adjacent_cons. intros [Hh Hl]. split; [|by apply IH]. intros Hf. specialize (Hh Hf).
    destruct l1 as [|[s2 f2] l1]; [|done]. discriminate Hh.
Qed.

Lemma take_seg m p a l1 sz l2 want :
  let x := a + ext l1 in
  let m' := set_hb_free (heap_split_block x want m) x 0 in
  seg m p a (l1 ++ (sz, true) :: l2) 0 -> sizes_ok (l1 ++ (sz, true) :: l2) -> 24 < a ->
  8 <= want <= sz -> want `mod` 8 = 0 -> x + HEADER + sz + ext l2 < 4294967296 ->
  seg m' p a (l1 ++ take_block want sz ++ l2) 0 /\ hb_size m' x = taken_size want sz /\
  forall y, pay a (l1 ++ (sz, true) :: l2) y -> rd8 m' y = rd8 m y.
Proof.
  intros x m' Hseg Hs Ha Hw Hwm Hb. pose proof Hs as Hs'. apply sizes_app in Hs' as [Hs1 Hs2].
  apply Forall_cons_1 in Hs2 as [[Hsz Hszm] Hs2]. simpl in Hsz, Hszm. pose proof (ext_nonneg l1 Hs1) as He1.
  pose proof (ext_nonneg l2 Hs2) as He2. assert (Hx : 24 < x) by (unfold x; lia).
  assert (Hpay : forall y, pay a (l1 ++ (sz, true) :: l2) y -> y < x \/ x + HEADER + sz + HEADER <= y).
  { intros y. rewrite pay_app, pay_cons. fold x. intros [Hy|[[? _]|Hy]]; [|done|];
      apply pay_range in Hy; auto; unfold HEADER in *; lia. }
  unfold m', take_block, taken_size. destruct (Z.ltb_spec (want + 24) sz).
  - destruct (split_seg m p a l1 sz l2 want true) as [Hseg' Hout]; auto; fold x; [lia|lia|lia|].
    fold x in Hseg', Hout.
    pose proof (set_free_seg _ p a l1 want true false ((sz - want - HEADER, true) :: l2) Hseg') as Hseg2.
    fold x in Hseg2. split_and!.
    + apply Hseg2. apply sizes_app. split; [done|]. constructor; [simpl; lia|].
      constructor; [|done]. simpl. unfold HEADER. split; [lia|]. clear - Hwm Hszm. Z.div_mod_to_equations. lia.
    + destruct (seg_middle _ _ _ _ _ _ _ Hseg') as [(Hh & _) _]. fold x in Hh.
      etransitivity; [|exact Hh]. clear. by heap_words.
    + intros y Hy. specialize (Hpay y Hy). rewrite <- Hout by (unfold HEADER in *; lia).
      clear - Hpay Hsz. by heap_words.
  - destruct (seg_middle _ _ _ _ _ _ _ Hseg) as [(Hh & _) _]. fold x in Hh.
    assert (heap_split_block x want m = m) as ->.
    { unfold heap_split_block. rewrite Hh. unfold HEADER in *. u32_simp.
      by rewrite (proj2 (Z.leb_le _ _)) by lia. }
    split_and!.
    + by apply (set_free_seg m p a l1 sz true false l2).
    + etransitivity; [|exact Hh]. clear. by heap_words.
    + intros y Hy. specialize (Hpay y Hy). clear - Hpay Hsz. by heap_words.
Qed.

(** *** Growing *)

Lemma grow_app l0 sz fr :
  grow (l0 ++ [(sz, fr)]) = l0 ++ (if fr then [(sz + 4096, true)] else [(sz, false); (4096 - HEADER, true)]).
Proof.
  induction l0 as [|[s1 f1] l0 IH]; [by destruct fr|].
  simpl app. rewrite <- IH. clear IH. destruct f1, l0 as [|b l0]; done.
Qed.

Lemma grow_facts l :
  sizes_ok l -> l <> [] ->
  ext (grow l) = ext l + 4096 /\ used (grow l) = used l /\ sizes_ok (grow l) /\ grow l <> [] /\
  (no_adjacent_free l -> no_adjacent_free (grow l)) /\ forall a, live a (grow l) = live a l.
Proof.
  intros Hs Hne. destruct (exists_last Hne) as (l0 & [sz fr] & ->). rewrite grow_app.
  apply sizes_app in Hs as [Hs0 Hs1]. apply Forall_cons_1 in Hs1 as [[Hsz Hm] _]. simpl in Hsz, Hm.
  split_and!.
  - rewrite !ext_app. destruct fr; unfold ext, HEADER; simpl; lia.
  - rewrite !used_app. destruct fr; unfold used; simpl; lia.
  - apply sizes_app. split; [done|]. destruct fr; repeat constructor; simpl; try lia; try done.
    Z.div_mod_to_equations. lia.
  - by destruct l0, fr.
  - clear. induction l0 as [|[s1 f1] l0 IH]; [by destruct fr|]. simpl app. rewrite !no_adjacent_cons.
    intros [Hh Hl]. split; [|by apply IH]. intros Hf. specialize (Hh Hf). destruct l0; [by destruct fr|done].
  - intros a. rewrite !live_app. by destruct fr.
Qed.

Lemma extend_tail_seg m p a l0 sz fr :
  seg m p a (l0 ++ [(sz, fr)]) 0 -> sizes_ok (l0 ++ [(sz, fr)]) -> 0 < a ->
  a + ext (l0 ++ [(sz, fr)]) + 4096 < 4294967296 ->
  seg (extend_tail (a + ext l0) m) p a (grow (l0 ++ [(sz, fr)])) 0 /\
  forall y, pay a (l0 ++ [(sz, fr)]) y -> rd8 (extend_tail (a + ext l0) m) y = rd8 m y.
Proof.
  intros Hseg Hs Ha Hb. pose proof Hs as Hs'. apply sizes_app in Hs' as [Hs0 Hs1].
  apply Forall_cons_1 in Hs1 as [[Hsz _] _]. simpl in Hsz. pose proof (ext_nonneg l0 Hs0) as He0.
  destruct (seg_middle _ _ _ _ _ _ _ Hseg) as [(Hhs & Hhf & Hhn & Hhp) _]. simpl in Hhn.
  set (x := a + ext l0) in *. rewrite ext_app, ext_cons in Hb. change (ext []) with 0 in Hb. unfold HEADER in *.
  assert (Hpay : forall y, pay a (l0 ++ [(sz, fr)]) y -> (y < x \/ x + 16 <= y < x + 16 + sz)).
  { intros y. rewrite pay_app, pay_cons. fold x. unfold HEADER. intros [Hy|[[_ Hy]|(q & n & Hin & _)]];
      [apply pay_range in Hy; auto; lia|lia|by apply elem_of_nil in Hin]. }
  unfold extend_tail. rewrite Hhs, Hhf, grow_app. unfold HEADER in *.
  replace (negb ((if fr then 1 else 0) =? 0)) with fr by (by destruct fr). assert (Hx : 0 < x) by (unfold x; lia).
  assert (Hxb : x + 16 + sz + 4096 < 4294967296) by (unfold x; lia).
  destruct fr; u32_simp; split.
  - rewrite seg_app in Hseg |- *. destruct Hseg as [Hl0 _]. fold x in Hl0 |- *. split.
    + apply (seg_frame m); auto. intros y Hy. fold x in Hy. clear - Hy. by heap_words.
    + simpl. split; [|done]. clear - Hhs Hhf Hhn Hhp Hxb Hsz Hx. clearbody x. heap_words. done.
  - intros y Hy. specialize (Hpay y Hy). clear - Hpay Hsz. by heap_words.
  - rewrite seg_app in Hseg |- *. destruct Hseg as [Hl0 _]. fold x in Hl0 |- *. split.
    + apply (seg_frame m); auto. intros y Hy. fold x in Hy. clear - Hy Hsz. by heap_words.
    + clear - Hhs Hhf Hhn Hhp Hxb Hsz Hx. simpl. clearbody x. heap_words. done.
  - intros y Hy. specialize (Hpay y Hy). clear - Hpay Hsz. by heap_words.
Qed.

(** ** The representation invariant *)

Section Invariant.
Context {P : Type} `{PageMapperOk P}.
Implicit Types (s : kheap P) (l : list blk).

(** The heap [s] holds the blocks [l]. [hr_room] says that the frames left cannot
    make the heap outgrow the address space above [KHEAP_START]. *)
Record heap_rep s l : Prop := {
  hr_ready : heap_ready s = true;
  hr_head : heap_head s = KHEAP_START;
  hr_seg : seg (hp_mem s) 0 KHEAP_START l 0;
  hr_ne : l <> [];
  hr_sizes : sizes_ok l;
  hr_coalesced : no_adjacent_free l;
  hr_end : heap_end s = KHEAP_START + ext l;
  hr_total : heap_total s = ext l;
  hr_used : heap_used s = used l;
  hr_page : ext l `mod` 4096 = 0;
  hr_pages : pm_ok (hp_pages s);
  hr_mapped : forall v, KHEAP_START <= v < heap_end s -> pm_mapped (hp_pages s) v = true;
  hr_room : KHEAP_START + ext l + 4096 * pm_avail (hp_pages s) < 4294967296;
}.

Lemma rep_bound s l : heap_rep s l -> 0 <= ext l /\ KHEAP_START + ext l < 4294967296.
Proof.
  intros Hr. pose proof (ext_nonneg l (hr_sizes _ _ Hr)). pose proof (hr_room _ _ Hr).
  pose proof (pm_avail_nonneg _ (hr_pages _ _ Hr)). lia.
Qed.

(** Bytes of live allocations are the same in both heaps. *)
Definition same_bytes s s' l : Prop :=
  forall y, pay KHEAP_START l y -> rd8 (hp_mem s') y = rd8 (hp_mem s) y.

Lemma walk_fuel_ok s l : heap_rep s l -> (length l < walk_fuel s)%nat.
Proof.
  intros Hr. pose proof (ext_length l (hr_sizes _ _ Hr)). unfold walk_fuel, HEADER. rewrite (hr_total _ _ Hr).
  apply Nat2Z.inj_lt. rewrite Z2Nat.id by (Z.div_mod_to_equations; lia). Z.div_mod_to_equations. lia.
Qed.

(** One page more, or nothing but the page mapper changes. *)
Lemma map_one s l ok p :
  heap_rep s l -> pm_map_fresh (heap_end s) (hp_pages s) = (ok, p) ->
  let s1 := set_hp_pages s p in
  heap_rep s1 l /\
  (ok = true ->
   exists tail, loop (walk_fuel (add_heap_page s1)) (tail_body (hp_mem s1)) (heap_head s1) = Some tail /\
     let s2 := set_hp_mem (add_heap_page s1) (extend_tail tail (hp_mem s1)) in
     heap_rep s2 (grow l) /\ same_bytes s s2 l /\ pm_avail p < pm_avail (hp_pages s)).
Proof.
  intros Hr E s1. pose proof (rep_bound s l Hr) as [Hnn Hb]. pose proof Hr as [].
  assert (Hend : is_u32 (heap_end s)) by (rewrite hr_end0; unfold is_u32, KHEAP_START in *; lia).
  destruct (pm_map_fresh_ok _ _ _ _ hr_pages0 Hend E) as (Hpk & Hav & Hsucc & Hmap).
  assert (Hm1 : forall v, KHEAP_START <= v < heap_end s -> pm_mapped p v = true).
  { intros v Hv. rewrite Hmap, hr_mapped0 by (unfold is_u32, KHEAP_START in *; lia). done. }
  split; [split; cbn; auto; lia|].
  intros ->. destruct (Hsucc eq_refl) as [_ Hlt]. pose proof (pm_avail_nonneg p Hpk) as Hp0.
  destruct (exists_last hr_ne0) as (l0 & [sz fr] & El).
  assert (Hw : (length l0 < walk_fuel (add_heap_page s1))%nat).
  { pose proof (ext_length l hr_sizes0) as Hlen. rewrite El, length_app in Hlen. cbn in Hlen.
    unfold walk_fuel, add_heap_page, HEADER. cbn. rewrite hr_total0. rewrite u32_small by (unfold KHEAP_START in *; lia).
    rewrite El in *. apply Nat2Z.inj_lt. rewrite Z2Nat.id by (Z.div_mod_to_equations; lia).
    Z.div_mod_to_equations. lia. }
  destruct (grow_facts l hr_sizes0 hr_ne0) as (Hge & Hgu & Hgs & Hgn & Hgc & Hgl).
  destruct (extend_tail_seg (hp_mem s) 0 KHEAP_START l0 sz fr) as [Hseg Hbytes];
    [by rewrite <- El|by rewrite <- El|by unfold KHEAP_START|rewrite <- El; unfold KHEAP_START in *; lia|].
  exists (KHEAP_START + ext l0). split.
  { cbn [heap_head s1 set_hp_pages]. rewrite hr_head0.
    apply (tail_loop _ _ 0 _ sz fr); [|rewrite El in hr_sizes0; by apply sizes_app in hr_sizes0 as [? _]
                                     |by unfold KHEAP_START|done].
    cbn. by rewrite <- El. }
  rewrite <- El in Hseg, Hbytes. split_and!; [|exact Hbytes|exact Hlt].
  split; cbn; auto.
  - rewrite hr_end0, Hge. rewrite u32_small by (unfold KHEAP_START in *; lia). lia.
  - rewrite hr_total0, Hge. rewrite u32_small by (unfold KHEAP_START in *; lia). lia.
  - by rewrite Hgu.
  - rewrite Hge. clear - hr_page0. Z.div_mod_to_equations. lia.
  - intros v Hv. rewrite hr_end0 in Hv. rewrite u32_small in Hv by (unfold KHEAP_START in *; lia).
    destruct (decide (v < heap_end s)); [apply Hm1; lia|].
    rewrite Hmap by (unfold is_u32, KHEAP_START in *; lia). cbn [andb]. apply orb_true_iff. right.
    apply Z.eqb_eq. rewrite hr_end0 in *. unfold KHEAP_START in *. clear - hr_page0 Hv n.
    Z.div_mod_to_equations. lia.
  - rewrite Hge. lia.
Qed.

Fixpoint grow_n (n : nat) l : list blk := match n with O => l | S n' => grow_n n' (grow l) end.

Lemma grow_n_live n : forall l a, sizes_ok l -> l <> [] -> live a (grow_n n l) = live a l.
Proof.
  induction n as [|n IH]; intros l a Hs Hne; [done|]. simpl.
  destruct (grow_facts l Hs Hne) as (_ & _ & Hgs & Hgn & _ & Hgl). by rewrite IH, Hgl.
Qed.

Lemma same_bytes_trans s1 s2 s3 l1 l2 :
  live KHEAP_START l2 = live KHEAP_START l1 -> same_bytes s1 s2 l1 -> same_bytes s2 s3 l2 -> same_bytes s1 s3 l1.
Proof.
  intros Hl H12 H23 y Hy. rewrite H23; [by apply H12|]. unfold pay in *. by rewrite Hl.
Qed.

(** [n] pages mapped one after the other from the address [v] on: what is left of the
    memory system, or [None] if a mapping failed. *)
Fixpoint map_pages (n : nat) (v : Z) (p : P) : option P :=
  match n with
  | O => Some p
  | S n' => match pm_map_fresh v p with (true, p') => map_pages n' (v + 4096) p' | (false, _) => None end
  end.

Lemma map_pages_add n : forall k v p p',
  map_pages n v p = Some p' -> map_pages (n + k) v p = map_pages k (v + 4096 * Z.of_nat n) p'.
Proof.
  induction n as [|n IH]; intros k v p p' E; cbn [map_pages Nat.add] in *; [injection E as ->; f_equal; lia|].
  destruct (pm_map_fresh v p) as [[] q]; [|done]. rewrite (IH k _ _ _ E). f_equal. lia.
Qed.

(** [heap_map_more] returns: it adds all the pages, or it adds those before the first one
    that cannot be mapped and reports failure. *)
Lemma map_more_ok n : forall s l,
  heap_rep s l ->
  exists ok s' k, heap_map_more n s = Some (ok, s') /\ heap_rep s' (grow_n k l) /\
    same_bytes s s' l /\ pm_avail (hp_pages s') <= pm_avail (hp_pages s) - Z.of_nat k /\
    if ok then k = n /\ map_pages n (heap_end s) (hp_pages s) = Some (hp_pages s')
    else (k < n)%nat /\ exists q, map_pages k (heap_end s) (hp_pages s) = Some q /\
         pm_map_fresh (heap_end s + 4096 * Z.of_nat k) q = (false, hp_pages s').
Proof.
  induction n as [|n IH]; intros s l Hr.
  { exists true, s, O. cbn. split_and!; auto; [by intros y _|lia]. }
  cbn [heap_map_more]. destruct (pm_map_fresh (heap_end s) (hp_pages s)) as [ok p] eqn:E.
  destruct (map_one s l ok p Hr E) as [Hr1 Hsucc]. destruct ok; cbn [negb].
  - destruct (Hsucc eq_refl) as (tail & Hloop & Hr2 & Hbytes & Hlt).
    cbn [hp_mem heap_head add_heap_page set_hp_pages] in *. rewrite Hloop.
    destruct (grow_facts l (hr_sizes _ _ Hr) (hr_ne _ _ Hr)) as (Hext & _ & _ & _ & _ & Hlive).
    destruct (IH _ _ Hr2) as (ok & s' & k & -> & Hr' & Hb' & Hav' & Hout).
    pose proof (hr_end _ _ Hr2) as Hend2. rewrite Hext, Z.add_assoc, <- (hr_end _ _ Hr) in Hend2.
    rewrite Hend2 in Hout. cbn [set_hp_mem hp_pages add_heap_page set_hp_pages] in Hout, Hav'.
    exists ok, s', (S k). cbn [grow_n map_pages]. rewrite E. split_and!; [done|done| |lia|].
    + exact (same_bytes_trans s _ _ l (grow l) (Hlive _) Hbytes Hb').
    + destruct ok; [destruct Hout as [-> Hm]; by split|]. destruct Hout as (Hk & q & Hm & Hf).
      split; [lia|]. exists q. split; [done|]. by replace (heap_end s + 4096 * Z.of_nat (S k))
        with (heap_end s + 4096 + 4096 * Z.of_nat k) by lia.
  - exists false, (set_hp_pages s p), O. cbn. split_and!; [done|done|by intros y _| |lia|].
    + assert (Hend : is_u32 (heap_end s)).
      { pose proof (rep_bound s l Hr). rewrite (hr_end _ _ Hr). unfold is_u32, KHEAP_START in *. lia. }
      destruct (pm_map_fresh_ok _ _ _ _ (hr_pages _ _ Hr) Hend E). lia.
    + exists (hp_pages s). split; [done|]. by rewrite Z.add_0_r.
Qed.

(** *** Allocation *)

Lemma take_rep s l want b l' :
  heap_rep s l -> 8 <= want <= 2147483648 -> want `mod` 8 = 0 ->
  first_fit want KHEAP_START l = Some (b, l') ->
  let m := set_hb_free (heap_split_block b want (hp_mem s)) b 0 in
  let s' := set_heap_used (set_hp_mem s m) (heap_used s ⊞ hb_size m b) in
  KHEAP_START <= b /\ b + HEADER < 4294967296 /\ heap_rep s' l' /\ same_bytes s s' l.
Proof.
  intros Hr Hw Hwm Hf. pose proof (rep_bound s l Hr) as [Hnn Hb]. pose proof Hr as [].
  destruct (first_fit_split _ _ _ _ _ Hf) as (l1 & sz & l2 & -> & -> & Hle & ->).
  pose proof hr_sizes0 as Hs. apply sizes_app in Hs as [Hs1 Hs2].
  apply Forall_cons_1 in Hs2 as [[Hsz Hszm] Hs2]. simpl in Hsz, Hszm.
  pose proof (ext_nonneg l1 Hs1). pose proof (ext_nonneg l2 Hs2). rewrite ext_app, ext_cons in *.
  pose proof (take_block_ext want sz) as Hte. pose proof (used_le_ext l1 Hs1). pose proof (used_le_ext l2 Hs2).
  assert (Htz : 0 <= taken_size want sz <= sz) by (unfold taken_size; destruct (_ <? _); lia).
  assert (Hused : used (l1 ++ (sz, true) :: l2) = used l1 + used l2) by (rewrite used_app; done).
  destruct (take_seg (hp_mem s) 0 KHEAP_START l1 sz l2 want) as (Hseg & Hsize & Hbytes);
    [done|done|done|lia|done|lia|].
  split; [lia|]. split; [unfold HEADER in *; lia|]. split; [|exact Hbytes].
  rewrite Hsize. split; cbn; auto; rewrite ?ext_app, ?Hte; auto; try lia.
  - by destruct l1; unfold take_block; destruct (_ <? _).
  - apply sizes_app. split; [done|]. apply sizes_app. split; [apply take_block_sizes; lia|done].
  - by apply no_adjacent_take.
  - rewrite hr_used0, Hused, !used_app, take_block_used.
    rewrite u32_small by (unfold KHEAP_START, HEADER in *; lia). lia.
Qed.

Lemma grow_n_add j k l : grow_n (k + j) l = grow_n j (grow_n k l).
Proof. revert l. induction k as [|k IH]; intros l; [done|]. simpl. apply IH. Qed.

(** What [kmalloc] does for a rounded size, in terms of first fit and of the pages mapped at
    the end of the heap. [r] is the number of times it had to grow the heap: as long as
    nothing fits it maps [KHEAP_GROW_PAGES] more pages. If first fit then succeeds the
    block it found is taken; if it does not, the next growth stopped at a page that could
    not be mapped, and only then is the result 0. *)
Definition malloc_result s l (want p : Z) s' : Prop :=
  let grow := Z.to_nat KHEAP_GROW_PAGES in
  same_bytes s s' l /\
  exists r, (forall r', (r' < r)%nat -> first_fit want KHEAP_START (grow_n (grow * r') l) = None) /\
  match first_fit want KHEAP_START (grow_n (grow * r) l) with
  | Some (b, l') => p = b + HEADER /\ heap_rep s' l' /\ map_pages (grow * r) (heap_end s) (hp_pages s) = Some (hp_pages s')
  | None =>
      p = 0 /\ exists k q, (grow * r <= k < grow * S r)%nat /\ heap_rep s' (grow_n k l) /\
        map_pages k (heap_end s) (hp_pages s) = Some q /\
        pm_map_fresh (heap_end s + 4096 * Z.of_nat k) q = (false, hp_pages s')
  end.

Lemma kmalloc_fuel_eq : Z.of_nat KMALLOC_FUEL = 196609.
Proof. unfold KMALLOC_FUEL. lia. Qed.
#[local] Opaque KMALLOC_FUEL.

(** The state after [r] rounds of growth in which nothing fitted. *)
Record growing s l (want : Z) (r : nat) s1 : Prop := {
  gw_rep : heap_rep s1 (grow_n (Z.to_nat KHEAP_GROW_PAGES * r) l);
  gw_bytes : same_bytes s s1 l;
  gw_pages : map_pages (Z.to_nat KHEAP_GROW_PAGES * r) (heap_end s) (hp_pages s) = Some (hp_pages s1);
  gw_none : forall r', (r' < r)%nat -> first_fit want KHEAP_START (grow_n (Z.to_nat KHEAP_GROW_PAGES * r') l) = None;
}.

Lemma growing_bytes s l want r s1 s2 :
  heap_rep s l -> growing s l want r s1 -> same_bytes s1 s2 (grow_n (Z.to_nat KHEAP_GROW_PAGES * r) l) -> same_bytes s s2 l.
Proof.
  intros Hr Hg Hb. eapply same_bytes_trans; [|exact (gw_bytes _ _ _ _ _ Hg)|exact Hb].
  apply grow_n_live; [apply (hr_sizes _ _ Hr)|apply (hr_ne _ _ Hr)].
Qed.

Lemma grow_n_ext n : forall l, sizes_ok l -> l <> [] -> ext (grow_n n l) = ext l + 4096 * Z.of_nat n.
Proof.
  induction n as [|n IH]; intros l Hs Hne; cbn [grow_n]; [lia|].
  destruct (grow_facts l Hs Hne) as (Hext & _ & Hgs & Hgn & _). rewrite IH by done. lia.
Qed.

Lemma growing_end s l want r s1 :
  heap_rep s l -> growing s l want r s1 -> heap_end s1 = heap_end s + 4096 * Z.of_nat (Z.to_nat KHEAP_GROW_PAGES * r).
Proof.
  intros Hr Hg. rewrite (hr_end _ _ (gw_rep _ _ _ _ _ Hg)), (hr_end _ _ Hr), grow_n_ext;
    [lia|apply (hr_sizes _ _ Hr)|apply (hr_ne _ _ Hr)].
Qed.

(** One more round in which nothing fits: the heap has grown, or the call fails. *)
Lemma growing_round s l want r s1 :
  heap_rep s l -> growing s l want r s1 ->
  first_fit want KHEAP_START (grow_n (Z.to_nat KHEAP_GROW_PAGES * r) l) = None ->
  exists ok s2, heap_map_more (Z.to_nat KHEAP_GROW_PAGES) s1 = Some (ok, s2) /\
    if ok then growing s l want (S r) s2 /\ pm_avail (hp_pages s2) < pm_avail (hp_pages s1)
    else malloc_result s l want 0 s2.
Proof.
  intros Hr Hg Hf.
  destruct (map_more_ok (Z.to_nat KHEAP_GROW_PAGES) s1 _ (gw_rep _ _ _ _ _ Hg)) as (ok & s2 & j & E & Hr2 & Hb2 & Hav & Hout).
  exists ok, s2. split; [exact E|]. rewrite <- grow_n_add in Hr2. apply (growing_bytes _ _ _ _ _ _ Hr Hg) in Hb2.
  rewrite (growing_end _ _ _ _ _ Hr Hg) in Hout. destruct Hg as [_ _ Hpages Hnone].
  change (Z.to_nat KHEAP_GROW_PAGES) with 8%nat in *. destruct ok.
  - destruct Hout as [-> Hm]. split; [|lia]. split; change (Z.to_nat KHEAP_GROW_PAGES) with 8%nat.
    + by replace (8 * S r)%nat with (8 * r + 8)%nat by lia.
    + exact Hb2.
    + replace (8 * S r)%nat with (8 * r + 8)%nat by lia. by rewrite (map_pages_add _ _ _ _ _ Hpages).
    + intros r' Hr'. destruct (decide (r' = r)) as [->|]; [done|]. apply Hnone. lia.
  - destruct Hout as (Hj & q & Hm & Hfail). split; [exact Hb2|]. exists r. split; [exact Hnone|].
    change (Z.to_nat KHEAP_GROW_PAGES) with 8%nat. rewrite Hf. split; [done|]. exists (8 * r + j)%nat, q.
    split; [lia|]. split; [exact Hr2|]. rewrite (map_pages_add _ _ _ _ _ Hpages). split; [exact Hm|].
    rewrite <- Hfail. f_equal. lia.
Qed.

Lemma growing_start s l want : heap_rep s l -> growing s l want 0 s.
Proof. intros Hr. split; [done|by intros y _|done|lia]. Qed.

Lemma kmalloc_loop s l want :
  heap_rep s l -> 8 <= want <= 2147483648 -> want `mod` 8 = 0 ->
  exists p s', loop KMALLOC_FUEL (kmalloc_body want) s = Some (Some (p, s')) /\ malloc_result s l want p s'.
Proof.
  intros Hr Hw Hwm.
  destruct (loop_total (kmalloc_body want) (fun s1 => exists r, growing s l want r s1)
    (fun res => exists p s', res = Some (p, s') /\ malloc_result s l want p s')
    (fun s1 => pm_avail (hp_pages s1))) with (fuel := KMALLOC_FUEL) (s := s)
    as (res & -> & p & s' & -> & Hres); [| | | |eauto].
  - intros s1 (r & Hg). pose proof (gw_rep _ _ _ _ _ Hg) as Hr1. unfold kmalloc_body. rewrite (hr_head _ _ Hr1).
    set (l1 := grow_n (Z.to_nat KHEAP_GROW_PAGES * r) l) in *.
    pose proof (fit_loop (hp_mem s1) want l1 0 KHEAP_START (walk_fuel s1) (hr_seg _ _ Hr1)
      (hr_sizes _ _ Hr1) ltac:(done) (walk_fuel_ok _ _ Hr1)) as Hloop.
    assert (start KHEAP_START l1 0 = KHEAP_START) as Hst by (pose proof (hr_ne _ _ Hr1); by destruct l1).
    rewrite Hst in Hloop. rewrite Hloop. clear Hloop.
    destruct (first_fit want KHEAP_START l1) as [[b l']|] eqn:Hf.
    + destruct (take_rep s1 _ want b l' Hr1 Hw Hwm Hf) as (Hb & Hb' & Hr' & Hbytes).
      rewrite (proj2 (Z.eqb_neq b 0)) by (unfold KHEAP_START in Hb; lia).
      eexists _, _. split; [reflexivity|]. split; [exact (growing_bytes _ _ _ _ _ _ Hr Hg Hbytes)|].
      exists r. split; [exact (gw_none _ _ _ _ _ Hg)|]. fold l1. rewrite Hf.
      rewrite u32_small by (unfold KHEAP_START, HEADER in *; lia). split; [done|]. split; [exact Hr'|].
      exact (gw_pages _ _ _ _ _ Hg).
    + rewrite Z.eqb_refl. destruct (growing_round s l want r s1 Hr Hg Hf) as (ok & s2 & -> & Hout).
      destruct ok; cbn [negb]; [|eauto]. destruct Hout as [Hg2 Hlt]. split; [eauto|].
      pose proof (pm_avail_nonneg _ (hr_pages _ _ (gw_rep _ _ _ _ _ Hg2))). lia.
  - exists O. by apply growing_start.
  - rewrite kmalloc_fuel_eq. pose proof (rep_bound _ _ Hr). pose proof (hr_room _ _ Hr). unfold KHEAP_START in *. lia.
  - apply pm_avail_nonneg, (hr_pages _ _ Hr).
Qed.

Lemma align_up_8_eq v : 0 < v <= 2147483647 ->
  v <= align_up_8 v < v + 8 /\ 8 <= align_up_8 v <= 2147483648 /\ align_up_8 v `mod` 8 = 0.
Proof.
  intros Hv. unfold align_up_8. rewrite u32_small by lia. change (not32 7) with 4294967288.
  rewrite mask8 by (unfold is_u32; lia). Z.div_mod_to_equations. lia.
Qed.

(** *** Release *)

Lemma last_split l b : list.last l = Some b -> l = removelast l ++ [b].
Proof.
  induction l as [|b0 l IH]; [done|]. destruct l as [|b1 l]; [by intros [= ->]|].
  intros Hl. simpl removelast. simpl app. f_equal. by apply IH.
Qed.

(** The memory after [heap_coalesce] of a block just marked free. *)
Lemma coalesce_seg m l1 sz l2 :
  let x := KHEAP_START + ext l1 in
  seg m 0 KHEAP_START (l1 ++ (sz, true) :: l2) 0 -> sizes_ok (l1 ++ (sz, true) :: l2) ->
  no_adjacent_free l1 -> no_adjacent_free l2 -> x + HEADER + sz + ext l2 < 4294967296 ->
  seg (heap_coalesce x m) 0 KHEAP_START (merge_free (l1 ++ (sz, true) :: l2)) 0 /\
  forall y, pay KHEAP_START (l1 ++ (sz, true) :: l2) y -> rd8 (heap_coalesce x m) y = rd8 m y.
Proof.
  intros x Hseg Hs Hc1 Hc2 Hb. unfold heap_coalesce.
  pose proof (sizes_app l1 ((sz, true) :: l2)) as [Hs' _]. destruct (Hs' Hs) as [Hs1 Hs2]. clear Hs'.
  apply Forall_cons_1 in Hs2 as [[Hsz Hszm] Hs2]. simpl in Hsz, Hszm. pose proof (ext_nonneg l1 Hs1).
  destruct (coalesce_next_seg m 0 KHEAP_START l1 sz true l2) as [Hseg1 Hb1]; auto; [done|].
  fold x in Hseg1, Hb1. revert Hseg1 Hb1. generalize (coalesce_next x m). intros m1 Hseg1 Hb1.
  assert (Hp1 : forall y, pay KHEAP_START (l1 ++ (sz, true) :: l2) y -> rd8 m1 y = rd8 m y).
  { intros y Hy. apply Hb1. rewrite pay_app, pay_cons in Hy. destruct Hy as [Hy|[[? _]|Hy]]; [|done|auto].
    apply pay_range in Hy; auto. fold x in Hy. lia. }
  rewrite merge_around by done.
  assert (exists sz' l2', merge_next sz true l2 = (sz', true) :: l2' /\ sz' + ext l2' = sz + ext l2 /\
            sizes_ok ((sz', true) :: l2') /\
            (forall y, pay (x + HEADER + sz) l2 y -> pay (x + HEADER + sz') l2' y))
    as (sz' & l2' & Em & He & Hs' & Hpp).
  { destruct l2 as [|[s2 []] l2].
    - exists sz, []. split_and!; auto. constructor; auto.
    - apply Forall_cons_1 in Hs2 as [[Hsz2 Hm2] Hs2]. simpl in Hsz2, Hm2. exists (sz + HEADER + s2), l2.
      rewrite ext_cons. unfold HEADER. split_and!; [done|lia| |].
      + constructor; auto. simpl. split; [lia|]. clear - Hszm Hm2. Z.div_mod_to_equations. lia.
      + intros y. rewrite pay_cons. intros [[? _]|Hy]; [done|]. unfold HEADER in Hy.
        by replace (x + 16 + (sz + 16 + s2)) with (x + 16 + sz + 16 + s2) by lia.
    - exists sz, ((s2, false) :: l2). split_and!; auto. constructor; auto. }
  rewrite Em in *. destruct (list.last l1) as [[szp frp]|] eqn:El.
  - apply last_split in El. set (l0 := removelast l1) in *. rewrite El in Hseg1, Hs1, Hp1.
    rewrite <- app_assoc in Hseg1. simpl app in Hseg1.
    assert (Hsall : sizes_ok (l0 ++ (szp, frp) :: (sz', true) :: l2')).
    { apply sizes_app in Hs1 as [? Hsp]. apply sizes_app. split; [done|]. by apply Forall_app_2 with (l1 := [_]). }
    assert (Hx : x = KHEAP_START + ext l0 + HEADER + szp).
    { unfold x. rewrite El, ext_app, ext_cons. change (ext []) with 0. lia. }
    rewrite Hx. rewrite (coalesce_prev_eq m1 0 KHEAP_START l0 szp frp sz' l2') by (auto; rewrite <- ?Hx; done || lia).
    destruct frp.
    + destruct (coalesce_next_seg m1 0 KHEAP_START l0 szp true ((sz', true) :: l2')) as [Hseg2 Hb2];
        auto; [done|rewrite ext_cons; lia|].
      split; [exact Hseg2|]. intros y Hy. rewrite El in Hy. rewrite Hb2; [by apply Hp1|].
      rewrite <- app_assoc, pay_app in Hy. simpl app in Hy. rewrite !pay_cons in Hy |- *.
      rewrite <- Hx in *. rewrite ?pay_cons in Hy. destruct Hy as [Hy|[[? _]|[[? _]|Hy]]]; [|done|done|auto].
      apply sizes_app in Hs1 as [Hs0 _]. apply pay_range in Hy; auto. lia.
    + split; [|by rewrite El]. rewrite El, <- app_assoc. exact Hseg1.
  - destruct l1 as [|b l1]; [|by apply last_None in El].
    assert (coalesce_prev x m1 = m1) as ->; [|done].
    destruct (seg_middle _ _ _ _ _ _ _ Hseg1) as [(_ & _ & _ & Hprev) _].
    unfold coalesce_prev. fold x in Hprev. by rewrite Hprev.
Qed.

Lemma kfree_rep s l p sz :
  heap_rep s l -> (p, sz) ∈ live KHEAP_START l ->
  heap_rep (kfree p s) (merge_free (mark p KHEAP_START l)) /\
  forall y, pay KHEAP_START (mark p KHEAP_START l) y -> rd8 (hp_mem (kfree p s)) y = rd8 (hp_mem s) y.
Proof.
  intros Hr Hin. pose proof (rep_bound s l Hr) as [Hnn Hb]. pose proof Hr as [].
  pose proof (live_range _ _ _ _ hr_sizes0 Hin) as (Hlo & Hhi & Hsz & _).
  destruct (live_split _ _ _ _ Hin) as (l1 & l2 & -> & Hp). pose proof hr_sizes0 as Hs.
  apply sizes_app in Hs as [Hs1 Hs2]. rewrite mark_middle by done.
  apply no_adjacent_app in hr_coalesced0 as [Hc1 Hc2]. apply no_adjacent_cons in Hc2 as [_ Hc2].
  apply Forall_cons_1 in Hs2 as [[Hsz0 Hszm] Hs2]. simpl in Hsz0, Hszm.
  pose proof (used_le_ext l1 Hs1). pose proof (used_le_ext l2 Hs2). rewrite ext_app, ext_cons in *.
  assert (Hused : used (l1 ++ (sz, false) :: l2) = used l1 + sz + used l2) by (rewrite used_app; unfold used; simpl; lia).
  unfold kfree. rewrite hr_ready0, hr_end0. cbn [negb orb].
  rewrite (proj2 (Z.eqb_neq p 0)) by (unfold KHEAP_START, HEADER in *; lia).
  rewrite (proj2 (Z.ltb_ge p _)), (proj2 (Z.leb_gt _ p)) by lia. cbn [orb].
  assert (p ⊟ HEADER = KHEAP_START + ext l1) as ->.
  { rewrite u32_small by (unfold KHEAP_START, HEADER in *; lia). lia. }
  set (x := KHEAP_START + ext l1) in *.
  destruct (seg_middle _ _ _ _ _ _ _ hr_seg0) as [(Hhs & Hhf & _) _]. fold x in Hhs, Hhf. rewrite Hhf. cbn [negb Z.eqb].
  pose proof (set_free_seg _ _ _ l1 sz false true l2 hr_seg0 hr_sizes0) as Hseg1. fold x in Hseg1.
  assert (hb_size (set_hb_free (hp_mem s) x 1) x = sz) as Hsz1 by (rewrite <- Hhs; clear; by heap_words).
  assert (Hs' : sizes_ok (l1 ++ (sz, true) :: l2)).
  { apply sizes_app. split; [done|]. constructor; auto. }
  destruct (coalesce_seg _ l1 sz l2 Hseg1) as [Hseg2 Hbytes]; auto; [fold x; unfold x; lia|]. fold x in Hseg2, Hbytes.
  cbn [hp_mem set_hp_mem set_heap_used hp_pages heap_head heap_end heap_total heap_used heap_ready].
  rewrite Hsz1, hr_used0, Hused.
  rewrite (proj2 (Z.leb_le _ _)) by lia. rewrite u32_small by (unfold KHEAP_START, HEADER in *; lia).
  split.
  - split; cbn; auto.
    + intros Hnil. pose proof (merge_free_ext (l1 ++ (sz, true) :: l2)) as He. rewrite Hnil in He.
      rewrite ext_app, ext_cons in He. change (ext []) with 0 in He. unfold HEADER in He. lia.
    + by apply merge_free_sizes.
    + apply merge_free_no_adjacent.
    + rewrite merge_free_ext, ext_app, ext_cons. done.
    + rewrite merge_free_ext, ext_app, ext_cons. done.
    + rewrite merge_free_used, used_app. unfold used. simpl. fold (used l1) (used l2). unfold used. lia.
    + rewrite merge_free_ext, ext_app, ext_cons. done.
    + rewrite merge_free_ext, ext_app, ext_cons. done.
  - intros y Hy. cbn. rewrite Hbytes by done.
    assert (y < x \/ x + HEADER <= y).
    { rewrite pay_app, pay_cons in Hy. fold x in Hy. destruct Hy as [Hy|[[? _]|Hy]]; [|done|];
        apply pay_range in Hy; auto; unfold HEADER in *; lia. }
    unfold HEADER in *. unfold set_hb_free. apply rd8_wr32_ne. lia.
Qed.


Lemma live_mark l1 sz l2 a :
  live a (l1 ++ (sz, false) :: l2) ≡ₚ (a + ext l1 + HEADER, sz) :: live a (l1 ++ (sz, true) :: l2).
Proof. rewrite !live_app. simpl. symmetry. apply Permutation_middle. Qed.

(** Freeing a block just taken gives the list before. *)
Lemma take_mark_merge l want b l' :
  sizes_ok l -> no_adjacent_free l -> first_fit want KHEAP_START l = Some (b, l') ->
  merge_free (mark (b + HEADER) KHEAP_START l') = l.
Proof.
  intros Hs Hc Hf. destruct (first_fit_split _ _ _ _ _ Hf) as (l1 & sz & l2 & -> & -> & Hle & ->).
  apply sizes_app in Hs as [Hs1 _]. unfold take_block. destruct (_ <? _); simpl app; rewrite mark_middle by done;
    [|by apply merge_free_id].
  destruct (no_adjacent_app _ _ Hc) as [Hc1 Hc2]. apply no_adjacent_cons in Hc2 as [Hh Hc2]. specialize (Hh eq_refl).
  rewrite merge_around; [|done|apply no_adjacent_cons; naive_solver].
  assert (merge_next want true ((sz - want - HEADER, true) :: l2) = (sz, true) :: l2) as ->.
  { simpl. do 2 f_equal. lia. }
  destruct (list.last l1) as [[szp []]|] eqn:El; [|done|done].
  exfalso. apply last_split in El. rewrite El, <- app_assoc in Hc. apply no_adjacent_app in Hc as [_ Hc].
  by apply no_adjacent_cons in Hc as [Hc _]; specialize (Hc eq_refl).
Qed.

(** *** Initialisation *)

Lemma map_initial_ok n : forall i s,
  pm_ok (hp_pages s) -> 0 <= i -> i + Z.of_nat n <= 16 ->
  exists ok p, map_initial n i s = (ok, set_hp_pages s p) /\ pm_ok p /\ pm_avail p <= pm_avail (hp_pages s) /\
    forall v, is_u32 v ->
      pm_mapped (hp_pages s) v = true \/ (ok = true /\ KHEAP_START + 4096 * i <= v < KHEAP_START + 4096 * (i + Z.of_nat n)) ->
      pm_mapped p v = true.
Proof.
  induction n as [|n IH]; intros i s Hok Hi Hn; cbn [map_initial].
  { exists true, (hp_pages s). split; [by destruct s|]. split_and!; auto; [lia|].
    intros v Hv [?|[_ ?]]; [done|lia]. }
  rewrite (u32_small (i * 4096)), u32_small by (unfold KHEAP_START; lia).
  destruct (pm_map_fresh _ _) as [ok p] eqn:E.
  assert (Hu : is_u32 (KHEAP_START + i * 4096)) by (unfold is_u32, KHEAP_START; lia).
  destruct (pm_map_fresh_ok _ _ _ _ Hok Hu E) as (Hok' & Hav & Hs & Hm). destruct ok; cbn [negb].
  - destruct (IH (i + 1) (set_hp_pages s p)) as (ok & p' & -> & Hok2 & Hav2 & Hm2); [done|lia|lia|].
    cbn [hp_pages set_hp_pages] in *. exists ok, p'. split; [done|]. split; [done|]. split; [lia|].
    intros v Hv [Hold|[-> Hr]]; apply Hm2; auto.
    + left. rewrite Hm by done. by rewrite Hold.
    + destruct (decide (v < KHEAP_START + 4096 * (i + 1))) as [Hlt|]; [left|right; split; [done|lia]].
      rewrite Hm by done. apply orb_true_iff. right. cbn. apply Z.eqb_eq. unfold KHEAP_START in *.
      clear - Hr Hlt. Z.div_mod_to_equations. lia.
  - exists false, p. split; [done|]. split_and!; auto. intros v Hv [Hold|[? _]]; [|done].
    rewrite Hm by done. by rewrite Hold.
Qed.

Lemma kheap_init_cases s :
  pm_ok (hp_pages s) -> KHEAP_START + 65536 + 4096 * pm_avail (hp_pages s) < 4294967296 ->
  exists ok s', kheap_init s = (ok, s') /\
    (ok = false -> s' = set_hp_pages s (hp_pages s')) /\
    (ok = true -> heap_rep s' [(65536 - HEADER, true)]).
Proof.
  intros Hok Hroom. unfold kheap_init.
  destruct (map_initial_ok (Z.to_nat KHEAP_INITIAL_PAGES) 0 s Hok) as (ok & p & -> & Hok' & Hav & Hm);
    [lia|done|].
  destruct ok; cbn [negb]; eexists _, _; (split; [reflexivity|]); split; try done. intros _.
  split; cbn; auto; try done.
  - split; [|done]. generalize (hp_mem s) KHEAP_START. clear. intros m a. unfold KHEAP_INITIAL_PAGES. heap_words. done.
  - repeat constructor; done.
  - intros v Hv. apply Hm; [unfold is_u32, KHEAP_START, KHEAP_INITIAL_PAGES in *; lia|right; split; [done|]].
    unfold KHEAP_INITIAL_PAGES in *. lia.
  - unfold ext, HEADER. simpl. lia.
Qed.

(** ** Theorems *)

(** [kheap_init] either reports failure and leaves the heap's variables as they
    were, or establishes the heap invariant with one free block that fills the sixteen
    mapped pages. *)
Theorem kheap_init_establishes s :
  pm_ok (hp_pages s) -> KHEAP_START + 65536 + 4096 * pm_avail (hp_pages s) < 4294967296 ->
  exists ok s', kheap_init s = (ok, s') /\
    (ok = false -> s' = set_hp_pages s (hp_pages s')) /\
    (ok = true -> heap_rep s' [(65536 - HEADER, true)]).
Proof. apply kheap_init_cases. Qed.

(** C26. Refinement: [kmalloc] terminates and implements first fit on the abstract
    block list. If a block fits it is the first one, split when the rest can hold a
    header and more than 8 bytes, and no page is mapped. Otherwise the heap is grown,
    8 pages at a time, until first fit succeeds: the pages are mapped one after the other
    from the end of the heap, and never more rounds than are needed. The call returns 0
    only if nothing fits and the page mapper refused the next page at the end of the
    heap. The bytes of live allocations are untouched. *)
Theorem kmalloc_refines_first_fit s l size :
  heap_rep s l -> 0 < size <= 2147483647 ->
  exists p s', kmalloc size s = Some (p, s') /\ malloc_result s l (align_up_8 size) p s'.
Proof.
  intros Hr Hsz. destruct (align_up_8_eq size Hsz) as (_ & Hw & Hwm).
  destruct (kmalloc_loop s l (align_up_8 size) Hr Hw Hwm) as (p & s' & E & Hres).
  exists p, s'. split; [|done]. unfold kmalloc. rewrite (hr_ready _ _ Hr). cbn [negb orb].
  rewrite (proj2 (Z.eqb_neq size 0)), (proj2 (Z.ltb_ge _ _)) by lia. by rewrite E.
Qed.

(** The result is unique when a block fits: the first one, with no growth. *)
Lemma malloc_result_fits s l want p s' b l' :
  malloc_result s l want p s' -> first_fit want KHEAP_START l = Some (b, l') ->
  p = b + HEADER /\ heap_rep s' l' /\ hp_pages s' = hp_pages s /\ same_bytes s s' l.
Proof.
  intros (Hb & [|r] & Hnone & Hres) Hf; [|specialize (Hnone O ltac:(lia)); rewrite Nat.mul_0_r in Hnone; cbn [grow_n] in Hnone; by rewrite Hf in Hnone].
  rewrite Nat.mul_0_r in Hres. cbn [grow_n map_pages] in Hres. rewrite Hf in Hres. destruct Hres as (-> & Hr & [= ->]). done.
Qed.

Lemma kmalloc_fits s l size b l' :
  heap_rep s l -> 0 < size <= 2147483647 -> first_fit (align_up_8 size) KHEAP_START l = Some (b, l') ->
  exists s', kmalloc size s = Some (b + HEADER, s') /\ heap_rep s' l' /\ hp_pages s' = hp_pages s /\ same_bytes s s' l /\
             KHEAP_START <= b.
Proof.
  intros Hr Hsz Hf. destruct (align_up_8_eq size Hsz) as (_ & Hw & Hwm).
  destruct (kmalloc_loop s l (align_up_8 size) Hr Hw Hwm) as (p & s' & E & Hres).
  destruct (malloc_result_fits _ _ _ _ _ _ _ Hres Hf) as (-> & Hr' & Hp & Hb).
  exists s'. split; [|by destruct (take_rep s l _ b l' Hr Hw Hwm Hf)]. unfold kmalloc. rewrite (hr_ready _ _ Hr). cbn [negb orb].
  rewrite (proj2 (Z.eqb_neq size 0)), (proj2 (Z.ltb_ge _ _)) by lia. by rewrite E.
Qed.

(** When a block fits, the page tables do not matter. *)
Lemma kmalloc_fits_pages s l size b l' :
  heap_rep s l -> 0 < size <= 2147483647 -> first_fit (align_up_8 size) KHEAP_START l = Some (b, l') ->
  exists s', heap_rep s' l' /\ hp_pages s' = hp_pages s /\
    forall p, kmalloc size (set_hp_pages s p) = Some (b + HEADER, set_hp_pages s' p).
Proof.
  intros Hr Hsz Hf. destruct (align_up_8_eq size Hsz) as (_ & Hw & Hwm).
  destruct (take_rep s l _ b l' Hr Hw Hwm Hf) as (Hb & Hb' & Hr' & _). eexists. split; [exact Hr'|]. split; [done|]. intros p.
  unfold kmalloc. change (heap_ready (set_hp_pages s p)) with (heap_ready s). rewrite (hr_ready _ _ Hr). cbn [negb orb].
  rewrite (proj2 (Z.eqb_neq size 0)), (proj2 (Z.ltb_ge _ _)) by lia.
  pose proof kmalloc_fuel_eq as Hfuel. destruct KMALLOC_FUEL as [|n]; [lia|]. cbn [loop]. unfold kmalloc_body.
  change (walk_fuel (set_hp_pages s p)) with (walk_fuel s). change (hp_mem (set_hp_pages s p)) with (hp_mem s).
  change (heap_head (set_hp_pages s p)) with (heap_head s). rewrite (hr_head _ _ Hr).
  pose proof (fit_loop (hp_mem s) (align_up_8 size) l 0 KHEAP_START (walk_fuel s) (hr_seg _ _ Hr)
    (hr_sizes _ _ Hr) ltac:(done) (walk_fuel_ok _ _ Hr)) as Hloop.
  assert (start KHEAP_START l 0 = KHEAP_START) as Hst by (pose proof (hr_ne _ _ Hr); by destruct l).
  rewrite Hst in Hloop. rewrite Hloop, Hf. rewrite (proj2 (Z.eqb_neq b 0)) by (unfold KHEAP_START in Hb; lia).
  rewrite u32_small by (unfold KHEAP_START, HEADER in *; lia). reflexivity.
Qed.

Lemma malloc_result_live s l want p s' :
  sizes_ok l -> l <> [] -> 8 <= want -> malloc_result s l want p s' ->
  exists l', heap_rep s' l' /\
   ((p = 0 /\ live KHEAP_START l' = live KHEAP_START l) \/
    exists A B sz, want <= sz /\ live KHEAP_START l = A ++ B /\ live KHEAP_START l' = A ++ (p, sz) :: B /\
      (forall q n, (q, n) ∈ A -> q + n <= p - HEADER) /\ (forall q n, (q, n) ∈ B -> p + sz + HEADER <= q)).
Proof.
  intros Hs Hne Hw [_ Hres].
  assert (Hgrown : forall k b l', first_fit want KHEAP_START (grow_n k l) = Some (b, l') ->
    p = b + HEADER -> heap_rep s' l' ->
    exists A B sz, want <= sz /\ live KHEAP_START l = A ++ B /\ live KHEAP_START l' = A ++ (p, sz) :: B /\
      (forall q n, (q, n) ∈ A -> q + n <= p - HEADER) /\ (forall q n, (q, n) ∈ B -> p + sz + HEADER <= q)).
  { intros k b l' Hf Hp Hr'. pose proof (hr_sizes _ _ Hr') as Hs'.
    destruct (first_fit_split _ _ _ _ _ Hf) as (l1 & sz & l2 & El & Hb & Hle & ->).
    apply sizes_app in Hs' as [Hs1 Hs2]. apply sizes_app in Hs2 as [_ Hs2].
    exists (live KHEAP_START l1), (live (KHEAP_START + ext l1 + HEADER + sz) l2), (taken_size want sz).
    assert (Htz : want <= taken_size want sz <= sz) by (unfold taken_size; destruct (_ <? _); lia).
    split_and!; [lia| | | |].
    - by rewrite <- (grow_n_live k l KHEAP_START Hs Hne), El, live_app.
    - rewrite !live_app, take_block_live, take_block_ext. cbn [app]. rewrite Hp, Hb. do 3 f_equal. lia.
    - intros q n Hin. apply live_range in Hin; auto. lia.
    - intros q n Hin. apply live_range in Hin; auto. lia. }
  destruct Hres as (r & _ & Hres). destruct (first_fit want KHEAP_START _) as [[b l']|] eqn:Hf.
  - destruct Hres as (Hp & Hr' & _). exists l'. split; [done|]. right. by apply (Hgrown _ b l' Hf).
  - destruct Hres as (-> & k & q & _ & Hr' & _). exists (grow_n k l). split; [done|]. left. split; [done|].
    by apply grow_n_live.
Qed.


(** C9. Safety of [kmalloc] on every argument: it returns; a size of 0 or above
    0x7FFFFFFF is refused with the heap unchanged; on failure the allocations stay as
    they were; on success the result is an 8-aligned payload of at least [size] bytes,
    all of it mapped, disjoint from every live allocation, which becomes live. In every
    case the heap invariant holds and no byte of a live allocation changes. *)
Theorem kmalloc_safe s l size :
  heap_rep s l -> is_u32 size ->
  exists p s' l', kmalloc size s = Some (p, s') /\ heap_rep s' l' /\ same_bytes s s' l /\
    (size = 0 \/ 2147483647 < size -> p = 0 /\ s' = s) /\
    ((p = 0 /\ live KHEAP_START l' = live KHEAP_START l) \/
     exists sz, size <= sz /\ p `mod` 8 = 0 /\ live KHEAP_START l' ≡ₚ (p, sz) :: live KHEAP_START l /\
       (forall q n, (q, n) ∈ live KHEAP_START l -> q + n <= p \/ p + sz <= q) /\
       (forall v, p <= v < p + sz -> pm_mapped (hp_pages s') v = true)).
Proof.
  intros Hr Hu. destruct (decide (0 < size <= 2147483647)) as [Hsz|Hbad].
  - destruct (align_up_8_eq size Hsz) as (Hge & Hw & Hwm).
    destruct (kmalloc_loop s l (align_up_8 size) Hr Hw Hwm) as (p & s' & E & Hres).
    destruct (malloc_result_live s l _ p s' (hr_sizes _ _ Hr) (hr_ne _ _ Hr) (proj1 Hw) Hres) as (l' & Hr' & Hl').
    exists p, s', l'. split; [|split; [done|split; [apply Hres|split; [lia|]]]].
    { unfold kmalloc. rewrite (hr_ready _ _ Hr). cbn [negb orb].
      rewrite (proj2 (Z.eqb_neq size 0)), (proj2 (Z.ltb_ge _ _)) by lia. by rewrite E. }
    destruct Hl' as [?|(A & B & sz & Hwsz & HA & HAB & Hlo & Hhi)]; [by left|right]. exists sz.
    assert (Hin : (p, sz) ∈ live KHEAP_START l') by (rewrite HAB; set_solver).
    destruct (live_range _ _ _ _ (hr_sizes _ _ Hr') Hin) as (Hplo & Hphi & _ & Hmod).
    unfold HEADER in *. split_and!; [lia| | | |].
    + unfold KHEAP_START in Hmod. clear - Hmod. Z.div_mod_to_equations. lia.
    + rewrite HAB, HA. symmetry. apply Permutation_middle.
    + intros q n Hq. rewrite HA in Hq. apply elem_of_app in Hq as [Hq|Hq]; [apply Hlo in Hq|apply Hhi in Hq]; lia.
    + intros v Hv. apply (hr_mapped _ _ Hr'). rewrite (hr_end _ _ Hr'). lia.
  - exists 0, s, l. unfold is_u32 in Hu. split_and!; auto; [|by intros y _].
    unfold kmalloc. rewrite (hr_ready _ _ Hr). cbn [negb orb]. destruct (Z.eqb_spec size 0); [done|].
    by rewrite (proj2 (Z.ltb_lt _ _)) by lia.
Qed.

(** C27. [kfree] of a live allocation releases exactly that allocation: the heap
    invariant holds (with neighbouring free blocks merged), the used counter shrinks by
    the payload's size and no byte of another live allocation changes. A null pointer or
    one outside the heap is ignored. *)
Theorem kfree_spec s l p :
  heap_rep s l ->
  (forall sz, (p, sz) ∈ live KHEAP_START l ->
     exists l', heap_rep (kfree p s) l' /\ live KHEAP_START l ≡ₚ (p, sz) :: live KHEAP_START l' /\
       kheap_used_bytes (kfree p s) = kheap_used_bytes s - sz /\
       kheap_total_bytes (kfree p s) = kheap_total_bytes s /\ same_bytes s (kfree p s) l') /\
  (p = 0 \/ p < KHEAP_START + HEADER \/ heap_end s <= p -> kfree p s = s).
Proof.
  intros Hr. split.
  - intros sz Hin. destruct (kfree_rep s l p sz Hr Hin) as [Hr' Hb].
    exists (merge_free (mark p KHEAP_START l)). split; [done|].
    destruct (live_split _ _ _ _ Hin) as (l1 & l2 & -> & Hp).
    pose proof (hr_sizes _ _ Hr) as Hs. apply sizes_app in Hs as [Hs1 _].
    pose proof (hr_used _ _ Hr') as Hu. pose proof (hr_total _ _ Hr') as Ht.
    rewrite mark_middle in * by done. rewrite merge_free_used in Hu. rewrite merge_free_ext in Ht.
    split_and!.
    + rewrite merge_free_live, live_mark, <- Hp. done.
    + unfold kheap_used_bytes. rewrite Hu, (hr_used _ _ Hr), !used_app. unfold used. simpl. lia.
    + unfold kheap_total_bytes. rewrite Ht, (hr_total _ _ Hr), !ext_app, !ext_cons. done.
    + intros y Hy. apply Hb. unfold pay in *. by rewrite merge_free_live in Hy.
  - intros Hbad. unfold kfree. rewrite (hr_ready _ _ Hr). cbn [negb orb].
    destruct (Z.eqb_spec p 0); [done|].
    destruct (Z.ltb_spec p (KHEAP_START + HEADER)); [done|].
    by rewrite (proj2 (Z.leb_le _ _)) by lia.
Qed.

(** Round trip: when a block fits, [kfree] of the result of [kmalloc] restores the
    heap's block list exactly; splitting and coalescing are inverse. *)
Theorem kmalloc_kfree_roundtrip s l size b l' :
  heap_rep s l -> 0 < size <= 2147483647 -> first_fit (align_up_8 size) KHEAP_START l = Some (b, l') ->
  exists p s1, kmalloc size s = Some (p, s1) /\ p <> 0 /\ heap_rep (kfree p s1) l.
Proof.
  intros Hr Hsz Hf. destruct (kmalloc_fits s l size b l' Hr Hsz Hf) as (s1 & E & Hr1 & _ & _ & Hb).
  exists (b + HEADER), s1. split; [exact E|split; [unfold KHEAP_START, HEADER in *; lia|]].
  destruct (first_fit_split _ _ _ _ _ Hf) as (l1 & sz & l2 & El & Eb & Hle & El').
  rewrite <- (take_mark_merge l (align_up_8 size) b l' (hr_sizes _ _ Hr) (hr_coalesced _ _ Hr) Hf).
  apply (kfree_rep s1 l' _ (taken_size (align_up_8 size) sz)); [done|].
  rewrite El', !live_app, take_block_live, Eb. set_solver.
Qed.

End Invariant.

(** ** The heap as its clients see it *)

(** A write into the payload of a live block changes no header. *)
Lemma seg_store m n v l : forall p a y,
  sizes_ok l -> pay a l y -> seg m p a l n -> seg (wr8 m y v) p a l n.
Proof.
  induction l as [|[sz fr] l IH]; intros p a y Hs Hy; [done|]. apply Forall_cons_1 in Hs as [[Hsz _] Hs].
  simpl in Hsz. rewrite pay_cons in Hy. rewrite !seg_cons. intros [Hh Hseg].
  assert (Hout : y < a \/ a + HEADER <= y).
  { destruct Hy as [[_ Hy]|Hy]; [lia|]. apply pay_range in Hy; auto. unfold HEADER in *. lia. }
  split; [apply (hdr_frame m); [|done]; intros x Hx; apply rd8_wr8_ne; lia|].
  destruct Hy as [[_ Hy]|Hy]; [|by apply IH].
  apply (seg_frame m); auto. intros x Hx. apply rd8_wr8_ne. lia.
Qed.

Section Client.
Context {P : Type} `{PageMapperOk P}.

(** [kmalloc] terminates on every well-formed heap, so [None] never occurs there. *)
#[export] Instance kheap_kernel_heap : KernelHeap (kheap P) :=
  {| kh_malloc size s := match kmalloc size s with Some r => r | None => (0, s) end;
     kh_free := kfree;
     kh_load8 a s := rd8 (hp_mem s) a;
     kh_store8 a v s := set_hp_mem s (wr8 (hp_mem s) a v) |}.

Definition client_rep (s : kheap P) (L : list (Z * Z)) : Prop :=
  exists l, heap_rep s l /\ live KHEAP_START l ≡ₚ L.

Lemma client_perm s L L' : L ≡ₚ L' -> client_rep s L -> client_rep s L'.
Proof. intros HL (l & Hr & Hl). exists l. split; [done|]. by rewrite Hl. Qed.

Lemma client_range s L p n :
  client_rep s L -> (p, n) ∈ L -> 0 < p /\ p + n < 4294967296 /\ 8 <= n.
Proof.
  intros (l & Hr & Hl) Hin. rewrite <- Hl in Hin. pose proof (rep_bound s l Hr).
  apply live_range in Hin; [|apply (hr_sizes _ _ Hr)]. unfold KHEAP_START, HEADER in *. lia.
Qed.

Lemma live_disjoint l : forall a L p n q m,
  sizes_ok l -> live a l ≡ₚ (p, n) :: L -> (q, m) ∈ L -> q + m <= p \/ p + n <= q.
Proof.
  intros a L p n q m Hs HL Hq. assert (Hp : (p, n) ∈ live a l) by (rewrite HL; set_solver).
  destruct (live_split _ _ _ _ Hp) as (l1 & l2 & -> & Ep). apply sizes_app in Hs as [Hs1 Hs2].
  apply Forall_cons_1 in Hs2 as [[Hn _] Hs2]. rewrite live_mark, live_app in HL. rewrite Ep in HL.
  apply Permutation_cons_inv in HL. rewrite <- HL, elem_of_app in Hq. simpl in Hq. unfold HEADER in *.
  destruct Hq as [Hq|Hq]; apply live_range in Hq; auto; unfold HEADER in *; lia.
Qed.

Lemma client_disjoint s L p n q m :
  client_rep s ((p, n) :: L) -> (q, m) ∈ L -> q + m <= p \/ p + n <= q.
Proof. intros (l & Hr & Hl). apply (live_disjoint l KHEAP_START); [apply (hr_sizes _ _ Hr)|done]. Qed.

Lemma same_bytes_client s s' l L :
  live KHEAP_START l ≡ₚ L -> same_bytes s s' l -> kh_same L s s'.
Proof. intros Hl Hb p n a Hin Ha. apply Hb. exists p, n. by rewrite Hl. Qed.

Lemma client_malloc s L size p s' :
  client_rep s L -> is_u32 size -> kh_malloc size s = (p, s') ->
  kh_same L s s' /\ ((p = 0 /\ client_rep s' L) \/ exists sz, size <= sz /\ client_rep s' ((p, sz) :: L)).
Proof.
  intros (l & Hr & Hl) Hu E. destruct (decide (0 < size <= 2147483647)) as [Hsz|Hbad].
  - destruct (align_up_8_eq size Hsz) as (Hge & Hw & Hwm).
    destruct (kmalloc_loop s l (align_up_8 size) Hr Hw Hwm) as (p' & s'' & E' & Hres).
    cbn in E. unfold kmalloc in E. rewrite (hr_ready _ _ Hr) in E. cbn [negb orb] in E.
    rewrite (proj2 (Z.eqb_neq size 0)), (proj2 (Z.ltb_ge _ _)), E' in E by lia. cbn in E. injection E as -> ->.
    destruct (malloc_result_live s l _ p s' (hr_sizes _ _ Hr) (hr_ne _ _ Hr) (proj1 Hw) Hres) as (l' & Hr' & Hl').
    split; [apply (same_bytes_client s s' l); [done|apply Hres]|].
    destruct Hl' as [[-> Hl']|(A & B & sz & Hwsz & HA & HAB & _)]; [left|right].
    + split; [done|]. exists l'. by rewrite Hl'.
    + exists sz. split; [lia|]. exists l'. split; [done|]. rewrite HAB, <- Hl, HA. symmetry. apply Permutation_middle.
  - assert (E' : kmalloc size s = Some (0, s)).
    { unfold kmalloc. rewrite (hr_ready _ _ Hr). cbn [negb orb]. destruct (Z.eqb_spec size 0); [done|].
      unfold is_u32 in Hu. by rewrite (proj2 (Z.ltb_lt _ _)) by lia. }
    cbn in E. rewrite E' in E. injection E as <- <-. split; [by intros ? ? ? _ _|left]. split; [done|]. by exists l.
Qed.

Lemma client_free s L p n :
  client_rep s ((p, n) :: L) -> client_rep (kfree p s) L /\ kh_same L s (kfree p s).
Proof.
  intros (l & Hr & Hl). assert (Hin : (p, n) ∈ live KHEAP_START l) by (rewrite Hl; set_solver).
  destruct (kfree_rep s l p n Hr Hin) as [Hr' Hb].
  destruct (live_split _ _ _ _ Hin) as (l1 & l2 & -> & Hp).
  pose proof (hr_sizes _ _ Hr) as Hs. apply sizes_app in Hs as [Hs1 _]. rewrite mark_middle in * by done.
  rewrite live_mark, <- Hp in Hl. apply Permutation_cons_inv in Hl. split.
  - eexists. split; [exact Hr'|]. by rewrite merge_free_live.
  - intros q m a Hq Ha. apply Hb. exists q, m. by rewrite Hl.
Qed.

Lemma client_free_null (s : kheap P) : kfree 0 s = s.
Proof. unfold kfree. by rewrite orb_true_r. Qed.

Lemma client_store s L p n a v :
  client_rep s L -> (p, n) ∈ L -> p <= a < p + n ->
  client_rep (kh_store8 a v s) L /\ kh_load8 a (kh_store8 a v s) = v `mod` 256 /\
  forall b, b <> a -> kh_load8 b (kh_store8 a v s) = kh_load8 b s.
Proof.
  intros (l & Hr & Hl) Hin Ha. split_and!.
  - exists l. split; [|done]. destruct Hr. split; cbn; auto. apply seg_store; auto.
    exists p, n. by rewrite Hl.
  - apply rd8_wr8_eq.
  - intros b Hb. apply rd8_wr8_ne. auto.
Qed.

#[export] Instance kheap_kernel_heap_ok : KernelHeapOk (kheap P) :=
  {| kh_rep := client_rep; kh_rep_perm := client_perm; kh_live_range := client_range;
     kh_live_disjoint := client_disjoint; kh_malloc_ok := client_malloc; kh_free_ok := client_free;
     kh_free_null := client_free_null; kh_store8_ok := client_store |}.

End Client.

(** ** The page tables as page mapper

    [pmm_alloc_frame] followed by [paging_map_page(virt, phys, PRESENT | RW)], as
    [heap_map_more] and [kheap_init] do it. *)

Section PagingMapper.
Context {A : Type} `{FrameAllocatorOk A}.

Definition map_fresh_page (virt : Z) (s : paging_state A) : bool * paging_state A :=
  let '(phys, a) := fa_alloc (pg_frames s) in
  let s := set_pg_frames s a in
  if phys =? 0 then (false, s)
  else paging_map_page virt phys (Z.lor PAGING_FLAG_PRESENT PAGING_FLAG_RW) s.

#[export] Instance paging_page_mapper : PageMapper (paging_state A) := {| pm_map_fresh := map_fresh_page |}.

Definition paging_mapped (s : paging_state A) (v : Z) : bool := mapped (pg_mem s) (paging_active_directory s) v.

Lemma paging_avail_nonneg (s : paging_state A) : paging_ok s -> 0 <= fa_avail (pg_frames s).
Proof. intros Hok. apply fa_avail_nonneg, Hok. Qed.

Lemma paging_take_frame (s : paging_state A) f a :
  paging_ok s -> fa_alloc (pg_frames s) = (f, a) -> f <> 0 ->
  paging_ok (set_pg_frames s a) /\ fa_avail a = fa_avail (pg_frames s) - 1 /\ is_u32 f.
Proof.
  intros [Hen Hok Hd] E Hf. destruct (fa_alloc_some _ _ _ Hok E Hf) as (Hok' & _ & Hr & _ & Hiff & Hav).
  split_and!; [|done|unfold is_u32; lia]. split; [done|done|].
  apply (dir_ok_mono _ _ _ _ _ Hd); [|done]. intros g Hg. by apply Hiff in Hg as [? _].
Qed.

Lemma map_fresh_page_ok (s : paging_state A) virt ok s' :
  paging_ok s -> is_u32 virt -> map_fresh_page virt s = (ok, s') ->
  paging_ok s' /\ fa_avail (pg_frames s') <= fa_avail (pg_frames s) /\
  (ok = true -> virt `mod` 4096 = 0 /\ fa_avail (pg_frames s') < fa_avail (pg_frames s)) /\
  forall w, is_u32 w -> paging_mapped s' w = paging_mapped s w || (ok && (w / 4096 =? virt / 4096)).
Proof.
  intros Hok Hv Hm. unfold map_fresh_page in Hm.
  destruct (fa_alloc (pg_frames s)) as [f a] eqn:E. destruct (Z.eqb_spec f 0) as [->|Hf].
  { injection Hm as <- <-. rewrite (fa_alloc_none _ _ (pk_frames _ Hok) E).
    replace (set_pg_frames s (pg_frames s)) with s by (by destruct s).
    split_and!; auto; [lia|done|]. intros w Hw. by rewrite orb_false_r. }
  destruct (paging_take_frame s f a Hok E Hf) as ([Hen1 Hok1 Hd1] & Hav & Hfu).
  destruct (map_page_cases (set_pg_frames s a) virt f (Z.lor PAGING_FLAG_PRESENT PAGING_FLAG_RW))
    as (ok' & a' & m' & E' & Hok' & Hd' & Hiff & Hl & Hav' & _); auto.
  rewrite E' in Hm. injection Hm as <- <-. cbn [pg_frames touch set_pg_mem set_pg_frames] in *.
  split_and!; [by split|lia| |].
  - intros ->. symmetry in Hiff. bool_simp. unfold page_aligned in *. bool_simp. split; [done|lia].
  - intros w Hw. unfold paging_mapped, mapped.
    change (paging_active_directory (touch (set_pg_frames s a) a' m')) with (paging_active_directory s).
    cbn [pg_mem touch set_pg_mem]. etransitivity; [rewrite Hl by done; reflexivity|].
    fold (page_of w) (page_of virt). destruct (ok' && (page_of w =? page_of virt));
      [by rewrite orb_true_r|by rewrite orb_false_r].
Qed.

#[export] Instance paging_page_mapper_ok : PageMapperOk (paging_state A) :=
  {| pm_ok := paging_ok; pm_avail s := fa_avail (pg_frames s); pm_mapped := paging_mapped;
     pm_avail_nonneg := paging_avail_nonneg; pm_map_fresh_ok := map_fresh_page_ok |}.

(** When the heap takes the last frame and [paging_map_page] then finds none for
    the page table it needs, [heap_map_more] reports failure with the heap and the page
    tables unchanged, but the frame is gone: it is no longer free and nothing uses it. *)
Theorem heap_map_more_loses_frame (s : kheap (paging_state A)) l n f a :
  let pg := hp_pages s in
  heap_rep s l -> fa_alloc (pg_frames pg) = (f, a) -> f <> 0 -> fst (fa_alloc a) = 0 ->
  present (entry (pg_mem pg) (paging_active_directory pg) (pd_index_of (heap_end s))) = false ->
  heap_map_more (S n) s = Some (false, set_hp_pages s (set_pg_frames pg a)) /\
  heap_rep (set_hp_pages s (set_pg_frames pg a)) l /\ fa_is_free (pg_frames pg) f /\ ~ fa_is_free a f.
Proof.
  intros pg Hr E Hf Hnone Habs. pose proof (hr_pages _ _ Hr) as Hok.
  pose proof (fa_alloc_some _ _ _ (pk_frames _ Hok) E Hf) as (Hok' & Hfree & _ & Hfa & Hiff & _).
  assert (Hm : map_fresh_page (heap_end s) pg = (false, set_pg_frames pg a)).
  { unfold map_fresh_page. rewrite E. rewrite (proj2 (Z.eqb_neq f 0)) by done. unfold paging_map_page.
    cbn [paging_is_enabled set_pg_frames].
    pose proof (pk_enabled _ Hok) as Hen. fold pg in Hen. rewrite Hen. cbn [negb].
    destruct (_ || _); [done|]. unfold ensure_table. cbn [pg_mem set_pg_frames].
    change (paging_active_directory (set_pg_frames pg a)) with (paging_active_directory pg).
    unfold present in Habs. rewrite Habs. cbn [negb]. unfold paging_alloc_table. cbn [pg_frames set_pg_frames].
    destruct (fa_alloc a) as [g a'] eqn:E'. cbn in Hnone. subst g. cbn.
    by rewrite (fa_alloc_none _ _ Hok' E'). }
  destruct (map_one s l false _ Hr Hm) as [Hr' _].
  split_and!; [|exact Hr'|done|intros Hc; by apply Hiff in Hc as [_ ?]].
  cbn [heap_map_more]. change (pm_map_fresh (heap_end s) (hp_pages s)) with (map_fresh_page (heap_end s) pg).
  by rewrite Hm.
Qed.

End PagingMapper.

(** ** Witnesses *)

(** A heap before [kheap_init], with 100 frames to take pages from. *)
Definition demo_heap0 : kheap page_pool := Kheap (PagePool 100 ∅) ∅ 0 0 0 0 false.
Definition demo_heap : kheap page_pool := snd (kheap_init demo_heap0).

Lemma demo_heap_init : fst (kheap_init demo_heap0) = true.
Proof. vm_compute. reflexivity. Qed.

Lemma demo_heap_rep : heap_rep demo_heap [(65520, true)].
Proof.
  destruct (kheap_init_cases demo_heap0) as (ok & s' & E & _ & Hr); [cbn; lia|done|].
  pose proof demo_heap_init as Hok. unfold demo_heap. rewrite E in *. by apply Hr.
Qed.

#[local] Opaque demo_heap.

Lemma kheap_init_establishes_witness : exists s', kheap_init demo_heap0 = (true, s') /\ heap_rep s' [(65520, true)].
Proof.
  destruct (kheap_init_establishes demo_heap0) as (ok & s' & E & _ & Hr); [cbn; lia|done|].
  pose proof demo_heap_init as Hok. rewrite E in Hok. exists s'. cbn in Hok. subst ok. split; [exact E|by apply Hr].
Defined.

(** The demonstration heap can be grown by sixteen pages and more. *)
Lemma demo_heap_grows k q p' :
  (k < 16)%nat -> map_pages k (heap_end demo_heap) (hp_pages demo_heap) = Some q ->
  pm_map_fresh (heap_end demo_heap + 4096 * Z.of_nat k) q <> (false, p').
Proof.
  intros Hk Hm Hf.
  assert (Hall : forallb (fun k => match map_pages k (heap_end demo_heap) (hp_pages demo_heap) with
    | Some q => fst (pm_map_fresh (heap_end demo_heap + 4096 * Z.of_nat k) q) | None => true end) (seq 0 16) = true)
    by (vm_compute; reflexivity).
  rewrite forallb_forall in Hall. specialize (Hall k). rewrite Hm, Hf in Hall.
  by specialize (Hall (proj2 (in_seq _ _ _) (conj (Nat.le_0_l k) Hk))).
Qed.

(** The first allocation fits, the second grows the heap twice by eight pages. *)
Lemma kmalloc_refines_first_fit_witness :
  (exists p s', kmalloc 100 demo_heap = Some (p, s') /\ p = KHEAP_START + 16 /\
                heap_rep s' [(104, false); (65400, true)]) /\
  exists p s', kmalloc 120000 demo_heap = Some (p, s') /\ p = KHEAP_START + 16 /\
               heap_rep s' [(120000, false); (11040, true)].
Proof.
  split.
  - destruct (kmalloc_refines_first_fit demo_heap _ 100 demo_heap_rep) as (p & s' & E & Hres); [lia|].
    exists p, s'. split; [exact E|]. apply (malloc_result_fits _ _ _ _ _ KHEAP_START [(104, false); (65400, true)]) in Hres;
      [|reflexivity]. split; [exact (proj1 Hres)|exact (proj1 (proj2 Hres))].
  - destruct (kmalloc_refines_first_fit demo_heap _ 120000 demo_heap_rep) as (p & s' & E & _ & r & Hnone & Hres); [lia|].
    exists p, s'. split; [exact E|]. destruct r as [|[|[|r]]].
    + exfalso. destruct Hres as (_ & k & q & [_ Hk] & _ & Hm & Hf). apply (demo_heap_grows k q (hp_pages s')); [change (Z.to_nat KHEAP_GROW_PAGES) with 8%nat in Hk; lia|exact Hm|exact Hf].
    + exfalso. destruct Hres as (_ & k & q & [_ Hk] & _ & Hm & Hf). apply (demo_heap_grows k q (hp_pages s')); [change (Z.to_nat KHEAP_GROW_PAGES) with 8%nat in Hk; lia|exact Hm|exact Hf].
    + destruct Hres as (Hp & Hr & _). split; [exact Hp|exact Hr].
    + exfalso. specialize (Hnone 2%nat ltac:(lia)). discriminate Hnone.
Defined.

Lemma kmalloc_safe_witness :
  exists p s' l', kmalloc 100 demo_heap = Some (p, s') /\ heap_rep s' l'.
Proof.
  destruct (kmalloc_safe demo_heap _ 100 demo_heap_rep) as (p & s' & l' & E & Hr & _); [unfold is_u32; lia|].
  exists p, s', l'. split; assumption.
Defined.

Lemma kmalloc_kfree_roundtrip_witness :
  exists p s1, kmalloc 100 demo_heap = Some (p, s1) /\ p <> 0 /\ heap_rep (kfree p s1) [(65520, true)].
Proof.
  exact (kmalloc_kfree_roundtrip demo_heap [(65520, true)] 100 KHEAP_START [(104, false); (65400, true)]
           demo_heap_rep ltac:(lia) eq_refl).
Defined.

Lemma demo_heap_alloc :
  exists s1, kmalloc 100 demo_heap = Some (KHEAP_START + 16, s1) /\ heap_rep s1 [(104, false); (65400, true)].
Proof.
  destruct (kmalloc_fits demo_heap [(65520, true)] 100 KHEAP_START [(104, false); (65400, true)]) as (s1 & E & Hr & _);
    [exact demo_heap_rep|lia|reflexivity|].
  exists s1. split; [exact E|exact Hr].
Qed.

Lemma kfree_spec_witness :
  exists s1 l', kmalloc 100 demo_heap = Some (KHEAP_START + 16, s1) /\
    heap_rep (kfree (KHEAP_START + 16) s1) l' /\ live KHEAP_START l' = [].
Proof.
  destruct demo_heap_alloc as (s1 & E & Hr).
  destruct (kfree_spec s1 _ (KHEAP_START + 16) Hr) as [Hfree _].
  destruct (Hfree 104) as (l' & Hr' & Hl & _); [apply list_elem_of_here|].
  exists s1, l'. split; [exact E|]. split; [exact Hr'|].
  apply Permutation_cons_inv in Hl. by apply Permutation_nil.
Defined.

(** A heap that fills the 4 MiB under its first page table, with one frame left. *)
Definition full_mem : mem := set_entry (fill ∅ 8192 (fun _ => 3) table_indices) 4194304 832 (Z.lor 8192 3).
Definition full_pages : paging_state watermark :=
  Paging (Watermark 2048 2049) full_mem 4194304 true 4194304 4194304 4194304 0.
Definition full_heap : kheap (paging_state watermark) :=
  Kheap full_pages (set_hb_size ∅ KHEAP_START 4194288) KHEAP_START (KHEAP_START + 4194304) 4194304 4194288 true.

Lemma full_mem_dir i : 0 <= i < 1024 -> entry full_mem 4194304 i = if i =? 832 then 8195 else 0.
Proof.
  intros Hi. unfold full_mem. destruct (Z.eqb_spec i 832) as [->|Hne].
  - by rewrite entry_set_eq.
  - rewrite entry_set_ne by (done || lia). rewrite fill_ne; auto using table_indices_range; done.
Qed.

Lemma full_mem_table i : 0 <= i < 1024 -> entry full_mem 8192 i = 3.
Proof.
  intros Hi. unfold full_mem. rewrite entry_set_ne by (done || lia).
  rewrite fill_eq; auto using table_indices_range; done || by apply table_indices_spec.
Qed.

#[local] Opaque full_mem.

Lemma full_pages_ok : paging_ok full_pages.
Proof.
  split; [done|cbn; lia|]. change (paging_active_directory full_pages) with 4194304.
  assert (Hone : forall i, 0 <= i < 1024 -> present (entry full_mem 4194304 i) = true -> i = 832).
  { intros i Hi. rewrite full_mem_dir by done. by destruct (Z.eqb_spec i 832). }
  split; [done|lia| | |].
  - intros (k & Hk & Hr). cbn in Hr. lia.
  - intros i Hi Hp. apply Hone in Hp as ->; [|done]. cbn [pg_mem full_pages]. rewrite full_mem_dir by lia.
    change (table_of (if 832 =? 832 then 8195 else 0)) with 8192.
    split; [|done]. intros (k & Hk & Hr). cbn in Hr. lia.
  - intros i j Hi Hj Hij Hp Hp'. pose proof (Hone i Hi Hp). pose proof (Hone j Hj Hp'). lia.
Qed.

Lemma full_heap_rep : heap_rep full_heap [(4194288, false)].
Proof.
  split; [reflexivity|reflexivity| |discriminate| |exact I|reflexivity|reflexivity|reflexivity|reflexivity
         |exact full_pages_ok| |reflexivity].
  - split; [|exact I]. cbn [hp_mem full_heap]. generalize KHEAP_START. intros a. heap_words. done.
  - repeat constructor; done.
  - intros v Hv. cbn [heap_end hp_pages full_heap] in *. assert (Hvu : is_u32 v) by (unfold is_u32, KHEAP_START in *; lia).
    change (paging_mapped full_pages v = true).
    unfold paging_mapped, mapped, lookup_page. change (paging_active_directory full_pages) with 4194304.
    cbn [pg_mem full_pages]. assert (Hpd : pd_index_of v = 832).
    { rewrite pd_index_eq by done. unfold KHEAP_START in Hv. Z.div_mod_to_equations. lia. }
    rewrite Hpd, full_mem_dir by lia. change (table_of (if 832 =? 832 then 8195 else 0)) with 8192.
    by rewrite full_mem_table by apply pt_index_range.
Qed.

Lemma heap_map_more_loses_frame_witness :
  exists s', heap_map_more 8 full_heap = Some (false, s').
Proof.
  destruct (heap_map_more_loses_frame full_heap _ 7 8388608 (Watermark 2049 2049) full_heap_rep) as [E _];
    [reflexivity|lia|reflexivity| |].
  - change (pd_index_of (heap_end full_heap)) with 833.
    change (entry (pg_mem (hp_pages full_heap)) (paging_active_directory (hp_pages full_heap)) 833)
      with (entry full_mem 4194304 833). rewrite full_mem_dir by lia. reflexivity.
  - eexists. exact E.
Defined.
