(* ===== verification/Scheduler.v ===== *)
(** kernel/scheduler.c: sixteen kernel tasks, scheduled round robin.

    The stacks come from any [KernelHeap]; [process_activate_tid], which
    switches the address space, is a function of the surrounding state. A call
    of [context_switch] is the last thing a scheduler function does: the model
    stores the stack pointer it saves in the old task and returns the one the
    processor continues with. *)
From Stdlib Require Import ZArith Lia Bool List.
From stdpp Require Import base list numbers option sets relations.
From S2P Require Import Prelude CStr Interfaces Kheap.
#[local] Open Scope Z_scope.

(** ** Data *)

Definition MAX_TASKS : nat := 16.
Definition TASK_STACK_SIZE : Z := 8192.
Definition SCHED_QUANTUM_TICKS : Z := 10.

Inductive task_state_t := TASK_UNUSED | TASK_RUNNABLE | TASK_RUNNING | TASK_ZOMBIE.

#[export] Instance task_state_eq_dec : EqDecision task_state_t.
Proof. solve_decision. Defined.

Record task_t := Task {
  tk_sp : Z;
  tk_stack_base : Z;
  tk_entry : Z;
  tk_arg : Z;
  tk_state : task_state_t;
  tk_name : list Z;
}.

Definition set_tk_sp (t : task_t) (sp : Z) : task_t :=
  Task sp (tk_stack_base t) (tk_entry t) (tk_arg t) (tk_state t) (tk_name t).
Definition set_tk_state (t : task_t) (st : task_state_t) : task_t :=
  Task (tk_sp t) (tk_stack_base t) (tk_entry t) (tk_arg t) st (tk_name t).

(** The cleared entry: the name array keeps what follows its first byte. *)
Definition cleared (t : task_t) : task_t := Task 0 0 0 0 TASK_UNUSED (<[0%nat := 0]> (tk_name t)).

(** The static variables of scheduler.c, the heap its stacks come from and the
    state [process_activate_tid] works on. *)
Record sched (H E : Type) := Sched {
  sc_heap : H;
  sc_env : E;
  tasks : list task_t;
  scheduler_started : bool;
  current_task : nat;
  tick_since_switch : Z;
  preempt_pending : bool;
}.
Arguments Sched {H E}.
Arguments sc_heap {H E}.
Arguments sc_env {H E}.
Arguments tasks {H E}.
Arguments scheduler_started {H E}.
Arguments current_task {H E}.
Arguments tick_since_switch {H E}.
Arguments preempt_pending {H E}.

Definition no_task : task_t := Task 0 0 0 0 TASK_UNUSED [].
Definition task_at (ts : list task_t) (i : nat) : task_t := default no_task (ts !! i).
Definition state_at (ts : list task_t) (i : nat) : task_state_t := tk_state (task_at ts i).

(** "kernel" and "task". *)
Definition kernel_name : list Z := [107; 101; 114; 110; 101; 108].
Definition task_name : list Z := [116; 97; 115; 107].

(** ** Operations *)

Section Operations.
Context {H E : Type} `{KernelHeap H} (process_activate_tid : Z -> E -> E) (bootstrap : Z).
Implicit Types (s : sched H E).

Definition set_sc_heap s (h : H) : sched H E :=
  Sched h (sc_env s) (tasks s) (scheduler_started s) (current_task s) (tick_since_switch s) (preempt_pending s).
Definition set_tasks s (ts : list task_t) : sched H E :=
  Sched (sc_heap s) (sc_env s) ts (scheduler_started s) (current_task s) (tick_since_switch s) (preempt_pending s).
Definition alter_task s (i : nat) (f : task_t -> task_t) : sched H E := set_tasks s (alter f i (tasks s)).
Definition set_current s (i : nat) : sched H E :=
  Sched (sc_heap s) (sc_env s) (tasks s) (scheduler_started s) i (tick_since_switch s) (preempt_pending s).
Definition set_ticks s (n : Z) (b : bool) : sched H E :=
  Sched (sc_heap s) (sc_env s) (tasks s) (scheduler_started s) (current_task s) n b.
Definition activate s : sched H E :=
  Sched (sc_heap s) (process_activate_tid (Z.of_nat (current_task s)) (sc_env s)) (tasks s)
        (scheduler_started s) (current_task s) (tick_since_switch s) (preempt_pending s).

(** [None] is the result -1. *)
Definition scheduler_pick_next s : option nat :=
  if negb (scheduler_started s) then None else
  match List.find (fun i => bool_decide (state_at (tasks s) ((current_task s + i) mod MAX_TASKS)%nat = TASK_RUNNABLE))
                  (seq 1 (MAX_TASKS - 1)) with
  | Some i => Some ((current_task s + i) mod MAX_TASKS)%nat
  | None =>
      if negb (current_task s =? 0)%nat && negb (bool_decide (state_at (tasks s) 0 = TASK_UNUSED))
         && negb (bool_decide (state_at (tasks s) 0 = TASK_ZOMBIE))
      then Some 0%nat else None
  end.

(** [context_switch(&tasks[prev].sp, tasks[current_task].sp)] when it saves [sp]. *)
Definition context_switch (prev : nat) (sp : Z) s : sched H E * option Z :=
  let s := alter_task s prev (fun t => set_tk_sp t sp) in
  (s, Some (tk_sp (task_at (tasks s) (current_task s)))).

(** The loop of [scheduler_task_exit]: the first iteration that finds a task
    leaves for good; [None] is a processor halted in the loop. *)
Definition scheduler_task_exit (sp : Z) s : sched H E * option Z :=
  let s := alter_task s (current_task s) (fun t => set_tk_state t TASK_ZOMBIE) in
  match scheduler_pick_next s with
  | None => (s, None)
  | Some next =>
      let prev := current_task s in
      let s := set_current s next in
      let s := alter_task s (current_task s) (fun t => set_tk_state t TASK_RUNNING) in
      context_switch prev sp (activate s)
  end.

(** Here and in [scheduler_yield], [None] means that the caller goes on. *)
Definition scheduler_exit_current (sp : Z) s : sched H E * option Z :=
  if negb (scheduler_started s) then (s, None) else
  if (current_task s =? 0)%nat then (s, None) else scheduler_task_exit sp s.

Definition scheduler_init s : sched H E :=
  let ts := map cleared (tasks s) in
  let ts := alter (fun t => set_tk_state t TASK_RUNNING) 0%nat ts in
  let ts := alter (fun t => Task (tk_sp t) (tk_stack_base t) (tk_entry t) (tk_arg t) (tk_state t)
                                 (snd (str_copy (tk_name t) 16 kernel_name))) 0%nat ts in
  Sched (sc_heap s) (sc_env s) ts true 0 0 false.

Definition slot_free s (idx : nat) : bool :=
  bool_decide (state_at (tasks s) idx = TASK_UNUSED) || bool_decide (state_at (tasks s) idx = TASK_ZOMBIE).

(** The frame [context_switch] pops for a new task: edi, esi, ebx, ebp and the
    return address. *)
Definition push_frame (stack : Z) (h : H) : Z * H :=
  let sp := stack + TASK_STACK_SIZE in
  let h := kh_store32 (sp - 4) bootstrap h in
  let h := kh_store32 (sp - 8) 0 h in
  let h := kh_store32 (sp - 12) 0 h in
  let h := kh_store32 (sp - 16) 0 h in
  let h := kh_store32 (sp - 20) 0 h in
  (sp - 20, h).

Definition scheduler_create_task (entry arg : Z) (name : option (list Z)) s : option nat * sched H E :=
  if negb (scheduler_started s) || (entry =? 0) then (None, s) else
  match List.find (slot_free s) (seq 1 (MAX_TASKS - 1)) with
  | None => (None, s)
  | Some idx =>
      let '(stack, h) := kh_malloc TASK_STACK_SIZE (sc_heap s) in
      let s := set_sc_heap s h in
      if stack =? 0 then (None, s) else
      let old := task_at (tasks s) idx in
      let s := if bool_decide (tk_state old = TASK_ZOMBIE) && negb (tk_stack_base old =? 0)
               then set_sc_heap s (kh_free (tk_stack_base old) (sc_heap s)) else s in
      let '(sp, h) := push_frame stack (sc_heap s) in
      let s := set_sc_heap s h in
      let t := Task sp stack entry arg TASK_RUNNABLE
                    (snd (str_copy (tk_name old) 16 (default task_name name))) in
      (Some idx, alter_task s idx (fun _ => t))
  end.

(** [sp] is the stack pointer of the caller at the switch. *)
Definition scheduler_yield (sp : Z) s : sched H E * option Z :=
  if negb (scheduler_started s) then (s, None) else
  match scheduler_pick_next s with
  | None => (s, None)
  | Some next =>
      let prev := current_task s in
      let s := if bool_decide (state_at (tasks s) prev = TASK_RUNNING)
               then alter_task s prev (fun t => set_tk_state t TASK_RUNNABLE) else s in
      let s := set_current s next in
      let s := alter_task s (current_task s) (fun t => set_tk_state t TASK_RUNNING) in
      let s := set_ticks s 0 false in
      context_switch prev sp (activate s)
  end.

Definition scheduler_on_tick s : sched H E :=
  if negb (scheduler_started s) then s else
  let n := tick_since_switch s ⊞ 1 in
  set_ticks s n (if SCHED_QUANTUM_TICKS <=? n then true else preempt_pending s).

Definition scheduler_run_pending (sp : Z) s : sched H E * option Z :=
  if preempt_pending s then scheduler_yield sp s else (s, None).

Definition scheduler_task_count s : Z :=
  Z.of_nat (length (List.filter (fun t => negb (bool_decide (tk_state t = TASK_UNUSED))) (tasks s))).

Definition scheduler_runnable_count s : Z :=
  Z.of_nat (length (List.filter (fun t => bool_decide (tk_state t = TASK_RUNNABLE) ||
                                          bool_decide (tk_state t = TASK_RUNNING)) (tasks s))).

Definition scheduler_current_task_id s : Z := Z.of_nat (current_task s).

Definition scheduler_task_is_zombie (tid : nat) s : bool :=
  if (MAX_TASKS <=? tid)%nat then false else bool_decide (state_at (tasks s) tid = TASK_ZOMBIE).

Definition scheduler_reap_task (tid : nat) s : bool * sched H E :=
  if (tid =? 0)%nat || (MAX_TASKS <=? tid)%nat then (false, s) else
  if negb (bool_decide (state_at (tasks s) tid = TASK_ZOMBIE)) then (false, s) else
  let s := if negb (tk_stack_base (task_at (tasks s) tid) =? 0)
           then set_sc_heap s (kh_free (tk_stack_base (task_at (tasks s) tid)) (sc_heap s)) else s in
  (true, alter_task s tid cleared).

End Operations.

(** ** Lemmas on the task table *)

Lemma task_at_alter f i j ts :
  (i < length ts)%nat -> task_at (alter f i ts) j = if decide (i = j) then f (task_at ts i) else task_at ts j.
Proof.
  intros Hi. unfold task_at. destruct (decide (i = j)) as [<-|Hne].
  - rewrite list_lookup_alter_eq. destruct (lookup_lt_is_Some_2 ts i Hi) as [t ->]. done.
  - by rewrite list_lookup_alter_ne.
Qed.

Lemma state_at_alter f i j ts :
  (i < length ts)%nat ->
  state_at (alter f i ts) j = if decide (i = j) then tk_state (f (task_at ts i)) else state_at ts j.
Proof. intros Hi. unfold state_at. rewrite task_at_alter by done. by destruct (decide (i = j)). Qed.

(** The stacks the table owns. *)
Definition base_list (t : task_t) : list Z := if tk_stack_base t =? 0 then [] else [tk_stack_base t].
Definition bases (ts : list task_t) : list Z := ts ≫= base_list.

Lemma bases_alter f i ts :
  (i < length ts)%nat ->
  exists R, bases ts ≡ₚ base_list (task_at ts i) ++ R /\ bases (alter f i ts) ≡ₚ base_list (f (task_at ts i)) ++ R.
Proof.
  intros Hi. destruct (lookup_lt_is_Some_2 ts i Hi) as [t Ht].
  destruct (bind_insert_perm base_list ts i t Ht) as (R & HR & HR'). exists R.
  unfold task_at. rewrite Ht, (alter_insert_eq f ts i t Ht). simpl. split; [exact HR|apply HR'].
Qed.

Lemma bases_alter_same f i ts :
  (forall t, tk_stack_base (f t) = tk_stack_base t) -> bases (alter f i ts) = bases ts.
Proof.
  intros Hf. unfold bases. revert i. induction ts as [|t ts IH]; intros [|i]; simpl; [done|done| |].
  - unfold base_list at 1 3. by rewrite Hf.
  - f_equal. apply IH.
Qed.

(** ** Invariant *)

Section Invariant.
Context {H E : Type} `{KernelHeapOk H} (process_activate_tid : Z -> E -> E) (bootstrap : Z).
Implicit Types (s : sched H E).

(** One task runs, the current one; task 0 never dies; the tasks other than 0 that
    are in use own one stack of at least [TASK_STACK_SIZE] bytes each, and [F] are the
    heap's other allocations. *)
Record sched_ok (F : list (Z * Z)) s : Prop := {
  so_started : scheduler_started s = true;
  so_length : length (tasks s) = MAX_TASKS;
  so_current : (current_task s < MAX_TASKS)%nat;
  so_running : forall i, (i < MAX_TASKS)%nat -> state_at (tasks s) i = TASK_RUNNING <-> i = current_task s;
  so_zero : state_at (tasks s) 0 = TASK_RUNNING \/ state_at (tasks s) 0 = TASK_RUNNABLE;
  so_base : forall i, (i < MAX_TASKS)%nat ->
    tk_stack_base (task_at (tasks s) i) = 0 <-> i = 0%nat \/ state_at (tasks s) i = TASK_UNUSED;
  so_names : Forall (fun t => length (tk_name t) = 16%nat) (tasks s);
  so_heap : exists L, kh_rep (sc_heap s) (L ++ F) /\ L.*1 ≡ₚ bases (tasks s) /\
                      Forall (fun b => TASK_STACK_SIZE <= snd b) L;
}.

(** [pick_next] finds the first runnable task after the current one. *)
Definition first_runnable s (n : nat) : Prop :=
  exists i, (1 <= i < MAX_TASKS)%nat /\ n = ((current_task s + i) mod MAX_TASKS)%nat /\
    state_at (tasks s) n = TASK_RUNNABLE /\
    forall j, (1 <= j < i)%nat -> state_at (tasks s) ((current_task s + j) mod MAX_TASKS)%nat <> TASK_RUNNABLE.

Definition none_runnable s : Prop :=
  forall n, (n < MAX_TASKS)%nat -> n <> current_task s -> state_at (tasks s) n <> TASK_RUNNABLE.

Lemma cyclic n c : (n < MAX_TASKS)%nat -> (c < MAX_TASKS)%nat -> n <> c ->
  exists i, (1 <= i < MAX_TASKS)%nat /\ n = ((c + i) mod MAX_TASKS)%nat.
Proof.
  unfold MAX_TASKS. intros Hn Hc Hne. exists ((16 + n - c) mod 16)%nat.
  assert (Hm : ((16 + n - c) mod 16 = if c <=? n then n - c else 16 + n - c)%nat).
  { destruct (Nat.leb_spec c n).
    - replace (16 + n - c)%nat with (n - c + 1 * 16)%nat by lia. rewrite Nat.Div0.mod_add. apply Nat.mod_small. lia.
    - apply Nat.mod_small. lia. }
  rewrite Hm. destruct (Nat.leb_spec c n); (split; [lia|]).
  - rewrite Nat.mod_small by lia. lia.
  - replace (c + (16 + n - c))%nat with (n + 1 * 16)%nat by lia. rewrite Nat.Div0.mod_add.
    symmetry. apply Nat.mod_small. lia.
Qed.

Lemma pick_next_cases s :
  scheduler_started s = true -> (current_task s < MAX_TASKS)%nat ->
  (exists n, scheduler_pick_next s = Some n /\ (n < MAX_TASKS)%nat /\ n <> current_task s /\ first_runnable s n) \/
  (none_runnable s /\ scheduler_pick_next s =
     if negb (current_task s =? 0)%nat && negb (bool_decide (state_at (tasks s) 0 = TASK_UNUSED))
         && negb (bool_decide (state_at (tasks s) 0 = TASK_ZOMBIE)) then Some 0%nat else None).
Proof.
  intros Hst Hc. unfold scheduler_pick_next. rewrite Hst. cbn [negb].
  destruct (List.find _ _) as [i|] eqn:Ef.
  - left. apply find_seq_Some in Ef as (Hi & HP & Hmin). eexists. split; [reflexivity|].
    apply bool_decide_eq_true in HP. unfold MAX_TASKS in *. split; [apply Nat.mod_upper_bound; lia|].
    split.
    + intros Heq. assert (Hi' : (i < 16)%nat) by lia. destruct (decide (current_task s + i < 16)%nat).
      * rewrite Nat.mod_small in Heq by lia. lia.
      * replace (current_task s + i)%nat with (current_task s + i - 16 + 1 * 16)%nat in Heq by lia.
        rewrite Nat.Div0.mod_add, Nat.mod_small in Heq by lia. lia.
    + exists i. unfold MAX_TASKS. split_and!; [lia|lia|done|done|].
      intros j Hj. specialize (Hmin j Hj). by apply bool_decide_eq_false in Hmin.
  - right. split; [|done]. intros n Hn Hne Hrun.
    destruct (cyclic n (current_task s)) as (i & Hi & ->); auto.
    pose proof (proj1 (find_seq_None _ _ _) Ef i) as Hf. unfold MAX_TASKS in *.
    apply bool_decide_eq_false in Hf; [done|lia].
Qed.

(** With a live task 0, a task other than 0 always finds a successor. *)
Lemma pick_next_not_zero s :
  scheduler_started s = true -> (0 < current_task s < MAX_TASKS)%nat ->
  state_at (tasks s) 0 = TASK_RUNNABLE ->
  exists n, scheduler_pick_next s = Some n /\ (n < MAX_TASKS)%nat /\ n <> current_task s /\ first_runnable s n.
Proof.
  intros Hst Hc Hz. destruct (pick_next_cases s Hst) as [Hn|[Hnone _]]; [lia|done|].
  exfalso. apply (Hnone 0%nat); [unfold MAX_TASKS; lia|lia|done].
Qed.

(** *** Operations that change states and stack pointers only *)

Lemma sched_ok_states F s s' :
  sched_ok F s -> scheduler_started s' = true -> sc_heap s' = sc_heap s -> length (tasks s') = MAX_TASKS ->
  bases (tasks s') = bases (tasks s) -> (current_task s' < MAX_TASKS)%nat ->
  (forall i, (i < MAX_TASKS)%nat -> tk_stack_base (task_at (tasks s') i) = tk_stack_base (task_at (tasks s) i) /\
     (state_at (tasks s') i = TASK_UNUSED <-> state_at (tasks s) i = TASK_UNUSED)) ->
  (forall i, (i < MAX_TASKS)%nat -> state_at (tasks s') i = TASK_RUNNING <-> i = current_task s') ->
  (state_at (tasks s') 0 = TASK_RUNNING \/ state_at (tasks s') 0 = TASK_RUNNABLE) ->
  Forall (fun t => length (tk_name t) = 16%nat) (tasks s') ->
  sched_ok F s'.
Proof.
  intros [] Hst Hh Hl Hb Hc Hsame Hrun Hz Hnames. split; auto.
  - intros i Hi. destruct (Hsame i Hi) as [-> Hu]. rewrite Hu. auto.
  - rewrite Hh, Hb. done.
Qed.

Lemma names_alter f i ts :
  (forall t, length (tk_name t) = 16%nat -> length (tk_name (f t)) = 16%nat) ->
  Forall (fun t => length (tk_name t) = 16%nat) ts -> Forall (fun t => length (tk_name t) = 16%nat) (alter f i ts).
Proof.
  intros Hf Hts. revert i. induction Hts as [|t ts Ht Hts IH]; intros i; [by destruct i; constructor|].
  destruct i as [|i]; (constructor; [auto|]); [done|apply IH].
Qed.

(** The table after a switch from [prev], left in state [st], to [next]. *)
Definition switched (prev next : nat) (st : task_state_t) (sp : Z) (ts : list task_t) : list task_t :=
  alter (fun t => set_tk_sp t sp) prev
    (alter (fun t => set_tk_state t TASK_RUNNING) next (alter (fun t => set_tk_state t st) prev ts)).

Lemma switched_facts prev next st sp ts :
  (prev < length ts)%nat -> (next < length ts)%nat -> prev <> next ->
  length (switched prev next st sp ts) = length ts /\ bases (switched prev next st sp ts) = bases ts /\
  (Forall (fun t => length (tk_name t) = 16%nat) ts ->
   Forall (fun t => length (tk_name t) = 16%nat) (switched prev next st sp ts)) /\
  tk_sp (task_at (switched prev next st sp ts) prev) = sp /\
  forall i, (i < length ts)%nat ->
    tk_stack_base (task_at (switched prev next st sp ts) i) = tk_stack_base (task_at ts i) /\
    (i <> prev -> tk_sp (task_at (switched prev next st sp ts) i) = tk_sp (task_at ts i)) /\
    state_at (switched prev next st sp ts) i =
      if decide (i = prev) then st else if decide (i = next) then TASK_RUNNING else state_at ts i.
Proof.
  intros Hp Hn Hne. unfold switched. rewrite !length_alter. split_and!.
  - done.
  - by rewrite !bases_alter_same.
  - intros Hts. repeat (apply names_alter; [done|]). done.
  - rewrite task_at_alter by (by rewrite !length_alter). by rewrite decide_True.
  - intros i Hi. unfold state_at. rewrite !task_at_alter by (by rewrite ?length_alter).
    repeat case_decide; subst; try done.
Qed.

(** The switch at the end of [scheduler_yield] and [scheduler_task_exit]. *)
Lemma switch_ok F s s' next st sp :
  let prev := current_task s in
  sched_ok F s -> (next < MAX_TASKS)%nat -> next <> prev -> state_at (tasks s) next = TASK_RUNNABLE ->
  st = TASK_RUNNABLE \/ (st = TASK_ZOMBIE /\ prev <> 0%nat) ->
  scheduler_started s' = true -> sc_heap s' = sc_heap s -> current_task s' = next ->
  tasks s' = switched prev next st sp (tasks s) -> sched_ok F s'.
Proof.
  intros prev Hok Hn Hne Hrun Hst Hst' Hh Hc Ht. pose proof Hok as [].
  destruct (switched_facts prev next st sp (tasks s)) as (Hl & Hb & Hnm & _ & Hi); [lia|lia|done|].
  rewrite <- Ht in *. assert (Hcur : state_at (tasks s) prev = TASK_RUNNING) by (by apply so_running0).
  apply (sched_ok_states F s); auto; [lia|lia| | |].
  - intros i Hlt. rewrite so_length0 in Hi. destruct (Hi i Hlt) as (Hbase & _ & Hs). split; [done|]. rewrite Hs.
    destruct (decide (i = prev)) as [->|].
    { rewrite Hcur. destruct Hst as [->|[-> _]]; split; discriminate. }
    destruct (decide (i = next)) as [->|]; [rewrite Hrun; split; discriminate|done].
  - intros i Hlt. rewrite so_length0 in Hi. destruct (Hi i Hlt) as (_ & _ & Hs). rewrite Hs, Hc.
    destruct (decide (i = prev)) as [->|Hip].
    { destruct Hst as [->|[-> _]]; (split; [discriminate|]); congruence. }
    destruct (decide (i = next)) as [->|]; [done|]. rewrite so_running0 by done. fold prev. split; congruence.
  - rewrite so_length0 in Hi. destruct (Hi 0%nat) as (_ & _ & Hs); [unfold MAX_TASKS; lia|]. rewrite Hs.
    destruct (decide (0%nat = prev)) as [Hp|]; [destruct Hst as [->|[_ Hst]]; [by right|congruence]|].
    destruct (decide (0%nat = next)); auto.
Qed.

Lemma yield_cases F s sp :
  sched_ok F s ->
  (none_runnable s /\ current_task s = 0%nat /\ scheduler_yield process_activate_tid sp s = (s, None)) \/
  exists n s', scheduler_yield process_activate_tid sp s = (s', Some (tk_sp (task_at (tasks s) n))) /\
    first_runnable s n /\ n <> current_task s /\ (n < MAX_TASKS)%nat /\ sched_ok F s' /\ current_task s' = n /\
    tasks s' = switched (current_task s) n TASK_RUNNABLE sp (tasks s) /\
    tick_since_switch s' = 0 /\ preempt_pending s' = false /\
    sc_env s' = process_activate_tid (Z.of_nat n) (sc_env s).
Proof.
  intros Hok. pose proof Hok as []. unfold scheduler_yield. rewrite so_started0. cbn [negb].
  destruct (pick_next_cases s so_started0 so_current0) as [(n & Hpick & Hn & Hne & Hfirst)|[Hnone Hpick]].
  - right. rewrite Hpick. rewrite bool_decide_eq_true_2 by (by apply so_running0).
    eexists n, _. split.
    { unfold context_switch. do 2 f_equal. cbn [tasks activate set_ticks alter_task set_tasks set_current current_task].
      destruct (switched_facts (current_task s) n TASK_RUNNABLE sp (tasks s)) as (_ & _ & _ & _ & Hi); [lia|lia|done|].
      apply Hi; lia. }
    destruct Hfirst as (i & Hi & Heq & Hrun & Hmin). split; [by exists i|]. split_and!; auto.
    apply (switch_ok F s _ n TASK_RUNNABLE sp); auto.
  - left. rewrite Hpick. destruct (Nat.eqb_spec (current_task s) 0) as [Hz|Hz]; cbn [negb andb]; [done|].
    exfalso. assert (H0' : (0 < MAX_TASKS)%nat) by (unfold MAX_TASKS; lia).
    destruct so_zero0 as [Hr|Hr]; [apply so_running0 in Hr; [congruence|done]|by apply (Hnone 0%nat)].
Qed.

Lemma exit_cases F s sp :
  sched_ok F s -> current_task s <> 0%nat ->
  exists n s', scheduler_exit_current process_activate_tid sp s = (s', Some (tk_sp (task_at (tasks s) n))) /\
    n <> current_task s /\ (n < MAX_TASKS)%nat /\ state_at (tasks s) n = TASK_RUNNABLE /\
    sched_ok F s' /\ current_task s' = n /\
    tasks s' = switched (current_task s) n TASK_ZOMBIE sp (tasks s).
Proof.
  intros Hok Hz. pose proof Hok as []. unfold scheduler_exit_current. rewrite so_started0. cbn [negb].
  rewrite (proj2 (Nat.eqb_neq _ _)) by done. unfold scheduler_task_exit.
  set (s1 := alter_task s (current_task s) (fun t => set_tk_state t TASK_ZOMBIE)).
  assert (Hs1 : forall i, i <> current_task s -> state_at (tasks s1) i = state_at (tasks s) i).
  { intros i Hi. cbn. rewrite state_at_alter by lia. by rewrite decide_False. }
  assert (Hz0 : state_at (tasks s) 0 = TASK_RUNNABLE).
  { destruct so_zero0 as [Hr|Hr]; [|done]. apply so_running0 in Hr; [congruence|unfold MAX_TASKS; lia]. }
  destruct (pick_next_not_zero s1) as (n & Hpick & Hn & Hne & (i & _ & _ & Hrun & _));
    [done|cbn; lia|by rewrite Hs1 by auto|].
  rewrite Hpick. change (current_task s1) with (current_task s) in *. rewrite Hs1 in Hrun by done.
  eexists n, _. split.
  { unfold context_switch. do 2 f_equal. cbn [tasks activate set_ticks alter_task set_tasks set_current current_task s1].
    destruct (switched_facts (current_task s) n TASK_ZOMBIE sp (tasks s)) as (_ & _ & _ & _ & Hi); [lia|lia|done|].
    apply Hi; lia. }
  split_and!; auto. apply (switch_ok F s _ n TASK_ZOMBIE sp); auto.
Qed.

(** *** Stacks *)

Lemma release h L G b R :
  kh_rep h (L ++ G) -> L.*1 ≡ₚ b :: R -> Forall (fun b => TASK_STACK_SIZE <= snd b) L ->
  exists L', kh_rep (kh_free b h) (L' ++ G) /\ L'.*1 ≡ₚ R /\ Forall (fun b => TASK_STACK_SIZE <= snd b) L' /\
             kh_same G h (kh_free b h).
Proof.
  intros Hr HL Hsz. assert (Hin : b ∈ L.*1) by (rewrite HL; set_solver).
  apply list_elem_of_fmap in Hin as ([b' n] & -> & Hin). simpl in *.
  apply elem_of_Permutation in Hin as [L' HL']. rewrite HL' in HL, Hr, Hsz. simpl in HL.
  apply Permutation_cons_inv in HL. apply Forall_cons_1 in Hsz as [_ Hsz]. exists L'.
  destruct (kh_free_ok _ _ _ _ Hr) as [Hr' Hsame]. split_and!; auto.
  intros p m a Hp Ha. apply (Hsame p m); [set_solver|done].
Qed.

Lemma push_frame_ok h L stack sz sp h' :
  kh_rep h ((stack, sz) :: L) -> TASK_STACK_SIZE <= sz -> is_u32 bootstrap ->
  push_frame bootstrap stack h = (sp, h') ->
  kh_rep h' ((stack, sz) :: L) /\ sp = stack + TASK_STACK_SIZE - 20 /\
  (forall k, k ∈ [0; 4; 8; 12] -> kh_load32 (sp + k) h' = 0) /\ kh_load32 (sp + 16) h' = bootstrap /\
  kh_same L h h'.
Proof.
  unfold TASK_STACK_SIZE. intros Hr Hsz Hb Hp. unfold push_frame, TASK_STACK_SIZE in Hp. injection Hp as <- Hh.
  assert (Hin : (stack, sz) ∈ (stack, sz) :: L) by set_solver.
  assert (Hz : is_u32 0) by (unfold is_u32; lia).
  assert (Hdis : forall p m a, (p, m) ∈ L -> p <= a < p + m -> a < stack \/ stack + sz <= a).
  { intros p m a Hp Ha. destruct (kh_live_disjoint _ _ _ _ _ _ Hr Hp); lia. }
  destruct (kh_store32_ok _ _ _ _ (stack + 8192 - 4) bootstrap Hr Hin) as (Hr1 & Hv1 & Ho1); [lia|lia|done|].
  revert Hh Hr1 Hv1 Ho1. generalize (kh_store32 (stack + 8192 - 4) bootstrap h). intros h1 Hh Hr1 Hv1 Ho1.
  destruct (kh_store32_ok _ _ _ _ (stack + 8192 - 8) 0 Hr1 Hin) as (Hr2 & Hv2 & Ho2); [lia|lia|done|].
  revert Hh Hr2 Hv2 Ho2. generalize (kh_store32 (stack + 8192 - 8) 0 h1). intros h2 Hh Hr2 Hv2 Ho2.
  destruct (kh_store32_ok _ _ _ _ (stack + 8192 - 12) 0 Hr2 Hin) as (Hr3 & Hv3 & Ho3); [lia|lia|done|].
  revert Hh Hr3 Hv3 Ho3. generalize (kh_store32 (stack + 8192 - 12) 0 h2). intros h3 Hh Hr3 Hv3 Ho3.
  destruct (kh_store32_ok _ _ _ _ (stack + 8192 - 16) 0 Hr3 Hin) as (Hr4 & Hv4 & Ho4); [lia|lia|done|].
  revert Hh Hr4 Hv4 Ho4. generalize (kh_store32 (stack + 8192 - 16) 0 h3). intros h4 Hh Hr4 Hv4 Ho4.
  destruct (kh_store32_ok _ _ _ _ (stack + 8192 - 20) 0 Hr4 Hin) as (Hr5 & Hv5 & Ho5); [lia|lia|done|].
  rewrite Hh in Hr5, Hv5, Ho5. clear Hh.
  assert (Hkeep : forall (ha hb : H) a x, (forall b, b < a \/ a + 4 <= b -> kh_load8 b hb = kh_load8 b ha) ->
            x + 4 <= a \/ a + 4 <= x -> kh_load32 x hb = kh_load32 x ha).
  { intros ha hb a x Ho Hx. unfold kh_load32. rewrite !Ho by lia. done. }
  split; [done|]. split; [done|]. split_and!.
  - intros k Hk. repeat (apply elem_of_cons in Hk as [->|Hk]); [| | | |by apply elem_of_nil in Hk].
    + by rewrite Z.add_0_r.
    + rewrite (Hkeep _ _ _ _ Ho5) by lia. rewrite <- Hv4. f_equal. lia.
    + rewrite (Hkeep _ _ _ _ Ho5), (Hkeep _ _ _ _ Ho4) by lia. rewrite <- Hv3. f_equal. lia.
    + rewrite (Hkeep _ _ _ _ Ho5), (Hkeep _ _ _ _ Ho4), (Hkeep _ _ _ _ Ho3) by lia. rewrite <- Hv2. f_equal. lia.
  - rewrite (Hkeep _ _ _ _ Ho5), (Hkeep _ _ _ _ Ho4), (Hkeep _ _ _ _ Ho3), (Hkeep _ _ _ _ Ho2) by lia.
    rewrite <- Hv1. f_equal. lia.
  - intros p m a Hp Ha. specialize (Hdis p m a Hp Ha). rewrite Ho5, Ho4, Ho3, Ho2, Ho1 by lia. done.
Qed.


Lemma name_length ts i :
  Forall (fun t => length (tk_name t) = 16%nat) ts -> (i < length ts)%nat -> length (tk_name (task_at ts i)) = 16%nat.
Proof.
  intros Hts Hi. unfold task_at. destruct (lookup_lt_is_Some_2 ts i Hi) as [t Ht]. rewrite Ht. simpl.
  by apply (proj1 (Forall_lookup _ _) Hts i).
Qed.

Lemma names_insert ts i t :
  Forall (fun t => length (tk_name t) = 16%nat) ts -> length (tk_name t) = 16%nat ->
  Forall (fun t => length (tk_name t) = 16%nat) (alter (fun _ => t) i ts).
Proof. intros Hts Ht. by apply names_alter. Qed.

(** A table entry replaced by a new task on a fresh stack. *)
Lemma create_ok F s s' idx t L sz :
  sched_ok F s -> (1 <= idx < MAX_TASKS)%nat -> slot_free s idx = true ->
  tk_state t = TASK_RUNNABLE -> tk_stack_base t <> 0 -> length (tk_name t) = 16%nat -> TASK_STACK_SIZE <= sz ->
  scheduler_started s' = true -> current_task s' = current_task s -> tasks s' = alter (fun _ => t) idx (tasks s) ->
  kh_rep (sc_heap s') (((tk_stack_base t, sz) :: L) ++ F) -> Forall (fun b => TASK_STACK_SIZE <= snd b) L ->
  base_list (task_at (tasks s) idx) ++ L.*1 ≡ₚ bases (tasks s) -> sched_ok F s'.
Proof.
  intros [] Hidx Hfree Hst Hbase Hname Hsz Hst' Hc Ht Hrep HL HLb.
  assert (Hlt : (idx < length (tasks s))%nat) by lia.
  assert (Hcur : idx <> current_task s).
  { intros Heq. pose proof (proj2 (so_running0 idx (proj2 Hidx)) Heq) as Hr. unfold slot_free in Hfree.
    rewrite Hr in Hfree. discriminate. }
  split; rewrite ?Ht, ?length_alter, ?Hc; auto.
  - intros i Hi. rewrite state_at_alter by done. destruct (decide (idx = i)) as [<-|]; [|auto].
    rewrite Hst. split; congruence.
  - rewrite state_at_alter by done. by rewrite decide_False by lia.
  - intros i Hi. rewrite state_at_alter, task_at_alter by done. destruct (decide (idx = i)) as [<-|]; [|auto].
    rewrite Hst. split; [done|]. intros [?|?]; [lia|done].
  - by apply names_insert.
  - exists ((tk_stack_base t, sz) :: L). split_and!; [done| |by constructor].
    destruct (bases_alter (fun _ => t) idx (tasks s) Hlt) as (R & HR & HR'). rewrite HR'. unfold base_list at 1.
    rewrite (proj2 (Z.eqb_neq _ 0)) by done. simpl. apply Permutation_skip.
    rewrite HR in HLb. by apply Permutation_app_inv_l in HLb.
Qed.

(** Freeing the stack a table entry still owns, next to a fresh one. *)
Lemma drop_stack h L F p sz ts idx :
  let old := task_at ts idx in
  let h' := if negb (tk_stack_base old =? 0) then kh_free (tk_stack_base old) h else h in
  (idx < length ts)%nat -> kh_rep h ((p, sz) :: L ++ F) -> L.*1 ≡ₚ bases ts ->
  Forall (fun b => TASK_STACK_SIZE <= snd b) L ->
  exists L', kh_rep h' (((p, sz) :: L') ++ F) /\ base_list old ++ L'.*1 ≡ₚ bases ts /\
             Forall (fun b => TASK_STACK_SIZE <= snd b) L' /\ kh_same F h h'.
Proof.
  intros old h' Hlt Hrep HL HLsz. unfold h', base_list.
  destruct (Z.eqb_spec (tk_stack_base old) 0) as [Hz|Hz]; cbn [negb].
  { exists L. split_and!; auto. by intros ? ? ? _ _. }
  destruct (bases_alter (fun t => t) idx ts Hlt) as (R & HR & _). fold old in HR.
  unfold base_list in HR. rewrite (proj2 (Z.eqb_neq (tk_stack_base old) 0)) in HR by done. simpl in HR.
  destruct (release h L ((p, sz) :: F) (tk_stack_base old) R) as (L' & Hr' & HL' & Hs' & Hsm); auto.
  - by rewrite <- Permutation_middle.
  - by rewrite HL.
  - exists L'. split_and!; auto.
    + simpl app. by rewrite Permutation_middle.
    + simpl. by rewrite HL', HR.
    + intros q n a Hq. apply Hsm. apply elem_of_cons. by right.
Qed.

(** A slot that may be reused owns a stack exactly when it is a zombie's. *)
Lemma reuse_guard F s idx :
  let old := task_at (tasks s) idx in
  sched_ok F s -> (1 <= idx < MAX_TASKS)%nat -> slot_free s idx = true ->
  bool_decide (tk_state old = TASK_ZOMBIE) && negb (tk_stack_base old =? 0) = negb (tk_stack_base old =? 0).
Proof.
  intros old Hok Hidx Hfree. destruct (Z.eqb_spec (tk_stack_base old) 0) as [Hz|Hz]; cbn [negb]; [by rewrite andb_false_r|].
  rewrite andb_true_r. apply bool_decide_eq_true. unfold slot_free in Hfree. apply orb_true_iff in Hfree as [Hf|Hf];
    apply bool_decide_eq_true in Hf; [|done]. exfalso. apply Hz.
  exact (proj2 (so_base _ _ Hok idx (proj2 Hidx)) (or_intror Hf)).
Qed.

Lemma create_cases F s entry arg name :
  sched_ok F s -> is_u32 bootstrap -> entry <> 0 ->
  exists r s', scheduler_create_task bootstrap entry arg name s = (r, s') /\ sched_ok F s' /\
    current_task s' = current_task s /\ kh_same F (sc_heap s) (sc_heap s') /\
    match r with
    | None => tasks s' = tasks s
    | Some idx =>
        (1 <= idx < MAX_TASKS)%nat /\ slot_free s idx = true /\ (forall j, (1 <= j < idx)%nat -> slot_free s j = false) /\
        (forall j, j <> idx -> task_at (tasks s') j = task_at (tasks s) j) /\
        let t := task_at (tasks s') idx in
        tk_state t = TASK_RUNNABLE /\ tk_entry t = entry /\ tk_arg t = arg /\
        c_str (tk_name t) = take 15 (c_str (default task_name name)) /\
        tk_sp t = tk_stack_base t + TASK_STACK_SIZE - 20 /\
        (forall k, k ∈ [0; 4; 8; 12] -> kh_load32 (tk_sp t + k) (sc_heap s') = 0) /\
        kh_load32 (tk_sp t + 16) (sc_heap s') = bootstrap
    end.
Proof.
  intros Hok Hboot Hentry. pose proof Hok as []. destruct so_heap0 as (L & Hrep & HL & HLsz).
  unfold scheduler_create_task. rewrite so_started0, (proj2 (Z.eqb_neq entry 0)) by done. cbn [negb orb].
  destruct (List.find (slot_free s) (seq 1 (MAX_TASKS - 1))) as [idx|] eqn:Ef.
  2: { exists None, s. split_and!; auto. by intros ? ? ? _ _. }
  apply find_seq_Some in Ef as (Hidx & Hfree & Hmin).
  assert (Hidx' : (1 <= idx < MAX_TASKS)%nat) by (unfold MAX_TASKS in *; lia).
  assert (Hlt : (idx < length (tasks s))%nat) by lia.
  destruct (kh_malloc TASK_STACK_SIZE (sc_heap s)) as [stack h1] eqn:Em.
  assert (Hu : is_u32 TASK_STACK_SIZE) by (unfold is_u32, TASK_STACK_SIZE; lia).
  destruct (kh_malloc_ok _ _ _ _ _ Hrep Hu Em) as [Hsame1 Hm].
  destruct (Z.eqb_spec stack 0) as [->|Hstack].
  { exists None, (set_sc_heap s h1). split; [done|]. destruct Hm as [[_ Hrep1]|(sz & _ & Hrep1)].
    - split_and!; auto; [split; auto; by exists L|]. intros p n a Hp. apply Hsame1. apply elem_of_app. by right.
    - exfalso. assert (Hin : (0, sz) ∈ (0, sz) :: L ++ F) by set_solver.
      destruct (kh_live_range _ _ _ _ Hrep1 Hin). lia. }
  destruct Hm as [[? _]|(sz & Hsz & Hrep1)]; [done|].
  set (old := task_at (tasks s) idx).
  cbn [tasks set_sc_heap]. fold old.
  pose proof (reuse_guard F s idx Hok Hidx' Hfree) as Hg. fold old in Hg. rewrite Hg. clear Hg.
  destruct (drop_stack h1 L F stack sz (tasks s) idx Hlt Hrep1 HL HLsz) as (L' & Hrep2 & HL' & HLsz' & Hsame2).
  fold old in Hrep2, HL', Hsame2.
  destruct (push_frame bootstrap stack _) as [sp h3] eqn:Ep.
  set (h2 := if negb (tk_stack_base old =? 0) then kh_free (tk_stack_base old) h1 else h1) in *.
  assert (Hh2 : sc_heap (if negb (tk_stack_base old =? 0)
                         then set_sc_heap (set_sc_heap s h1) (kh_free (tk_stack_base old) h1)
                         else set_sc_heap s h1) = h2) by (unfold h2; by destruct (negb _)).
  assert (Ep' : push_frame bootstrap stack h2 = (sp, h3)).
  { rewrite <- Ep. f_equal. unfold h2. by destruct (negb _). }
  destruct (push_frame_ok _ _ _ _ _ _ Hrep2 Hsz Hboot Ep') as (Hrep3 & Hsp & Hzero & Hret & Hsame3).
  destruct (str_copy_spec (tk_name old) 16 (default task_name name)) as (nm & Enm & Hnm & Hlen).
  { unfold old. rewrite name_length by done. lia. }
  rewrite Enm. cbn [snd]. set (t := Task sp stack entry arg TASK_RUNNABLE nm).
  eexists (Some idx), _. split; [reflexivity|].
  match goal with |- sched_ok F ?x /\ _ => set (s' := x) end.
  assert (Ht' : tasks s' = alter (fun _ => t) idx (tasks s)) by (unfold s'; by destruct (negb _)).
  assert (Hc' : current_task s' = current_task s) by (unfold s'; by destruct (negb _)).
  assert (Hst' : scheduler_started s' = true) by (unfold s'; by destruct (negb _)).
  assert (Hh' : sc_heap s' = h3) by (unfold s'; by destruct (negb _)).
  clearbody s'. split; [|split; [done|split]].
  - apply (create_ok F s s' idx t L' sz); auto; [|by rewrite Hh'].
    simpl. rewrite Hlen. unfold old. by apply name_length.
  - rewrite Hh'. intros p n a Hp Ha. rewrite (Hsame3 p n a), (Hsame2 p n a), (Hsame1 p n a);
      solve [done|apply elem_of_app; by right].
  - split; [done|]. split; [done|]. split; [intros j Hj; apply Hmin; lia|]. rewrite Ht', Hh'. split.
    + intros j Hj. rewrite task_at_alter by done. by rewrite decide_False.
    + rewrite task_at_alter by done. rewrite decide_True by done. cbn. split_and!; auto.
Qed.


Lemma reap_cases F s tid :
  sched_ok F s ->
  exists ok s', scheduler_reap_task tid s = (ok, s') /\ sched_ok F s' /\
    (ok = true <-> (1 <= tid < MAX_TASKS)%nat /\ state_at (tasks s) tid = TASK_ZOMBIE) /\
    (ok = false -> s' = s) /\
    (ok = true -> tasks s' = alter cleared tid (tasks s) /\ current_task s' = current_task s /\
                  kh_same F (sc_heap s) (sc_heap s')).
Proof.
  intros Hok. pose proof Hok as []. destruct so_heap0 as (L & Hrep & HL & HLsz). unfold scheduler_reap_task.
  destruct (Nat.eqb_spec tid 0) as [->|Hz]; cbn [orb].
  { exists false, s. split_and!; auto; [|done]. split; [done|lia]. }
  destruct (Nat.leb_spec MAX_TASKS tid) as [Hge|Hlt].
  { exists false, s. split_and!; auto; [|done]. split; [done|lia]. }
  destruct (bool_decide_reflect (state_at (tasks s) tid = TASK_ZOMBIE)) as [Hst|Hst]; cbn [negb].
  2: { exists false, s. split_and!; auto; [|done]. split; [done|]. by intros [_ ?]. }
  assert (Hb : tk_stack_base (task_at (tasks s) tid) <> 0).
  { intros Hb. apply so_base0 in Hb; [|done]. destruct Hb; [done|congruence]. }
  rewrite (proj2 (Z.eqb_neq _ 0)) by done. cbn [negb].
  assert (Hlen : (tid < length (tasks s))%nat) by lia.
  destruct (bases_alter cleared tid (tasks s) Hlen) as (R & HR & HR').
  unfold base_list in HR, HR'. rewrite (proj2 (Z.eqb_neq (tk_stack_base _) 0)) in HR by done. simpl in HR, HR'.
  destruct (release (sc_heap s) L F (tk_stack_base (task_at (tasks s) tid)) R)
    as (L' & Hr' & HL' & Hs' & Hsm); auto; [by rewrite HL|].
  eexists true, _. split; [reflexivity|]. split; [|split; [split; [intros _; split; [lia|done]|done]|split; [done|auto]]].
  split; cbn; auto.
  - by rewrite length_alter.
  - intros i Hi. rewrite state_at_alter by done. destruct (decide (tid = i)) as [<-|]; [|auto].
    simpl. split; [done|]. intros ->. apply so_running0 in Hi. destruct Hi as [_ Hi]. rewrite Hi in Hst; done.
  - rewrite state_at_alter by done. by rewrite decide_False by lia.
  - intros i Hi. rewrite state_at_alter, task_at_alter by done. destruct (decide (tid = i)) as [<-|]; [|auto].
    simpl. split; auto.
  - apply names_alter; [|done]. intros t Ht. simpl. by rewrite length_insert.
  - exists L'. split_and!; auto. by rewrite HL', HR'.
Qed.

Lemma sched_init_cases F s :
  length (tasks s) = MAX_TASKS -> Forall (fun t => length (tk_name t) = 16%nat) (tasks s) ->
  kh_rep (sc_heap s) F -> sched_ok F (scheduler_init s).
Proof.
  intros Hlen Hnm Hrep. unfold scheduler_init. set (ts := map cleared (tasks s)).
  assert (Hl : length ts = MAX_TASKS) by (unfold ts; by rewrite length_map).
  assert (Hat : forall i, (i < MAX_TASKS)%nat -> tk_stack_base (task_at ts i) = 0 /\ tk_state (task_at ts i) = TASK_UNUSED).
  { intros i Hi. unfold task_at, ts. rewrite list_lookup_fmap.
    destruct (lookup_lt_is_Some_2 (tasks s) i) as [t ->]; [lia|]. done. }
  assert (Hn : Forall (fun t => length (tk_name t) = 16%nat) ts).
  { unfold ts. apply Forall_fmap. eapply Forall_impl; [exact Hnm|]. intros t Ht. simpl. by rewrite length_insert. }
  assert (Hb : bases ts = []).
  { unfold bases, ts. clear. induction (tasks s) as [|t l IH]; [done|]. simpl. exact IH. }
  clearbody ts. assert (H0' : (0 < length ts)%nat) by (rewrite Hl; unfold MAX_TASKS; lia).
  split; cbn [scheduler_started tasks current_task sc_heap]; auto.
  - by rewrite !length_alter.
  - unfold MAX_TASKS. lia.
  - intros i Hi. rewrite !state_at_alter by (rewrite ?length_alter; done). unfold state_at.
    rewrite task_at_alter by done. destruct (decide (0%nat = i)) as [<-|]; [done|].
    rewrite (proj2 (Hat i Hi)). split; [done|congruence].
  - left. rewrite !state_at_alter by (rewrite ?length_alter; done). rewrite decide_True by done.
    rewrite task_at_alter by done. by rewrite decide_True.
  - intros i Hi. rewrite !state_at_alter, !task_at_alter by (rewrite ?length_alter; done). unfold state_at.
    destruct (Hat i Hi) as [Hb0 Hs0].
    destruct (decide (0%nat = i)) as [<-|]; [|rewrite Hb0, Hs0; tauto].
    rewrite !decide_True by done. cbn. rewrite Hb0. tauto.
  - apply names_alter; [|by apply names_alter]. intros t Ht. cbn [tk_name].
    destruct (str_copy_spec (tk_name t) 16 kernel_name) as (nm & -> & _ & Hlen'); [lia|]. cbn [snd]. lia.
  - exists []. split_and!; [done| |constructor]. by rewrite !bases_alter_same, Hb.
Qed.

(** ** Theorems *)

Definition set_env s (e : E) : sched H E :=
  Sched (sc_heap s) e (tasks s) (scheduler_started s) (current_task s) (tick_since_switch s) (preempt_pending s).

(** The calls that change the scheduler's state, with any stack pointer saved at a
    switch, and changes of the surrounding state. *)
Inductive sched_step s : sched H E -> Prop :=
  | step_create entry arg name :
      entry <> 0 -> sched_step s (snd (scheduler_create_task bootstrap entry arg name s))
  | step_yield sp : sched_step s (fst (scheduler_yield process_activate_tid sp s))
  | step_exit sp : sched_step s (fst (scheduler_exit_current process_activate_tid sp s))
  | step_tick : sched_step s (scheduler_on_tick s)
  | step_pending sp : sched_step s (fst (scheduler_run_pending process_activate_tid sp s))
  | step_reap tid : sched_step s (snd (scheduler_reap_task tid s))
  | step_env e : sched_step s (set_env s e).

Lemma step_ok F s s' : is_u32 bootstrap -> sched_ok F s -> sched_step s s' -> sched_ok F s'.
Proof.
  intros Hb Hok Hstep.
  assert (Hy : forall sp, sched_ok F (fst (scheduler_yield process_activate_tid sp s))).
  { intros sp. destruct (yield_cases F s sp Hok) as [(_ & _ & ->)|(n & s2 & -> & _ & _ & _ & Hok2 & _)]; done. }
  destruct Hstep as [entry arg name He|sp|sp| |sp|tid|e].
  - destruct (create_cases F s entry arg name Hok Hb He) as (r & s2 & -> & Hok2 & _). done.
  - apply Hy.
  - destruct (decide (current_task s = 0%nat)) as [Hz|Hz].
    + unfold scheduler_exit_current. rewrite Hz. destruct (negb _); done.
    + destruct (exit_cases F s sp Hok Hz) as (n & s2 & -> & _ & _ & _ & Hok2 & _). done.
  - unfold scheduler_on_tick. destruct (negb _); [done|]. by destruct Hok.
  - unfold scheduler_run_pending. destruct (preempt_pending s); [apply Hy|done].
  - destruct (reap_cases F s tid Hok) as (ok & s2 & -> & Hok2 & _). done.
  - by destruct Hok.
Qed.

(** C12. Every run of the scheduler keeps its invariant: exactly the current task is
    RUNNING, task 0 stays alive, and the tasks in use own pairwise different stacks of
    the heap, apart from the allocations [F] of everybody else. *)
Theorem scheduler_run_invariant F s0 s :
  is_u32 bootstrap -> length (tasks s0) = MAX_TASKS -> Forall (fun t => length (tk_name t) = 16%nat) (tasks s0) ->
  kh_rep (sc_heap s0) F -> rtc sched_step (scheduler_init s0) s -> sched_ok F s.
Proof.
  intros Hb Hl Hn Hr Hrun. pose proof (sched_init_cases F s0 Hl Hn Hr) as Hok. clear Hl Hn Hr.
  induction Hrun as [s|s s1 s2 Hstep _ IH]; [done|]. apply IH. by apply (step_ok F s).
Qed.


(** C28. [scheduler_create_task] takes the first free or zombie slot after 0 and makes it
    a runnable task with the given entry and argument, on a stack of its own whose top
    is the frame [context_switch] pops: four zero registers and the address of the
    bootstrap routine. If there is no slot or no memory it returns -1 and the table is
    unchanged. No other task and no other allocation is affected. *)
Theorem scheduler_create_task_spec F s entry arg name :
  sched_ok F s -> is_u32 bootstrap -> entry <> 0 ->
  exists r s', scheduler_create_task bootstrap entry arg name s = (r, s') /\ sched_ok F s' /\
    current_task s' = current_task s /\ kh_same F (sc_heap s) (sc_heap s') /\
    match r with
    | None => tasks s' = tasks s
    | Some idx =>
        (1 <= idx < MAX_TASKS)%nat /\ slot_free s idx = true /\ (forall j, (1 <= j < idx)%nat -> slot_free s j = false) /\
        (forall j, j <> idx -> task_at (tasks s') j = task_at (tasks s) j) /\
        let t := task_at (tasks s') idx in
        tk_state t = TASK_RUNNABLE /\ tk_entry t = entry /\ tk_arg t = arg /\
        c_str (tk_name t) = take 15 (c_str (default task_name name)) /\
        tk_sp t = tk_stack_base t + TASK_STACK_SIZE - 20 /\
        (forall k, k ∈ [0; 4; 8; 12] -> kh_load32 (tk_sp t + k) (sc_heap s') = 0) /\
        kh_load32 (tk_sp t + 16) (sc_heap s') = bootstrap
    end.
Proof. apply create_cases. Qed.

(** Yields in sequence, saving the given stack pointers. *)
Definition yields (sps : list Z) s : sched H E :=
  fold_left (fun s sp => fst (scheduler_yield process_activate_tid sp s)) sps s.

(** How many places after the current task [n] is. *)
Definition distance s (n : nat) : nat := ((n + (MAX_TASKS - current_task s)) mod MAX_TASKS)%nat.

Lemma distance_offset s n i :
  (current_task s < MAX_TASKS)%nat -> (1 <= i < MAX_TASKS)%nat -> n = ((current_task s + i) mod MAX_TASKS)%nat ->
  distance s n = i.
Proof.
  unfold distance, MAX_TASKS. intros Hc Hi ->. rewrite Nat.Div0.add_mod_idemp_l.
  replace (current_task s + i + (16 - current_task s))%nat with (i + 1 * 16)%nat by lia.
  rewrite Nat.Div0.mod_add. apply Nat.mod_small. lia.
Qed.

(** A yield brings a runnable task that is not chosen strictly closer. *)
Lemma yield_progress F s n sp :
  sched_ok F s -> (n < MAX_TASKS)%nat -> state_at (tasks s) n = TASK_RUNNABLE ->
  let s' := fst (scheduler_yield process_activate_tid sp s) in
  sched_ok F s' /\ (current_task s' = n \/
                    (state_at (tasks s') n = TASK_RUNNABLE /\ (distance s' n < distance s n)%nat)).
Proof.
  intros Hok Hn Hrun. pose proof Hok as [].
  assert (Hnc : n <> current_task s).
  { intros Heq. apply so_running0 in Heq; [congruence|done]. }
  destruct (yield_cases F s sp Hok) as [(Hnone & _ & _)|(m & s' & -> & Hfirst & Hm & Hmlt & Hok' & Hc' & Ht' & _)].
  { exfalso. by apply (Hnone n). }
  cbn [fst]. split; [done|]. destruct (decide (m = n)) as [->|Hne]; [by left|right].
  destruct (switched_facts (current_task s) m TASK_RUNNABLE sp (tasks s)) as (_ & _ & _ & _ & Hi); [lia|lia|done|].
  split.
  { rewrite Ht'. destruct (Hi n) as (_ & _ & ->); [lia|]. rewrite !decide_False; auto. }
  destruct Hfirst as (i & Hi1 & Hmi & _ & Hmin).
  destruct (cyclic n (current_task s)) as (d & Hd & Hnd); auto.
  assert (Hid : (i < d)%nat).
  { destruct (decide (i < d)%nat) as [|Hge]; [done|]. exfalso. destruct (decide (i = d)) as [->|]; [congruence|].
    apply (Hmin d); [lia|]. by rewrite <- Hnd. }
  rewrite (distance_offset s n d) by done.
  assert (distance s' n = d - i)%nat as ->; [|lia].
  apply distance_offset; rewrite ?Hc'; [done|lia|]. rewrite Hmi, Hnd. unfold MAX_TASKS.
  rewrite Nat.Div0.add_mod_idemp_l. f_equal. lia.
Qed.

(** C29. Round robin is fair: while the tasks only yield, a runnable task that is [d]
    places after the current one (at most 15) is running after at most [d] yields. *)
Theorem scheduler_yield_fair F s n sps :
  sched_ok F s -> (n < MAX_TASKS)%nat -> state_at (tasks s) n = TASK_RUNNABLE -> length sps = distance s n ->
  exists k, (k <= length sps)%nat /\ current_task (yields (take k sps) s) = n.
Proof.
  intros Hok Hn Hrun. remember (distance s n) as d eqn:Hd. assert (Hle : (distance s n <= d)%nat) by lia. clear Hd.
  revert s sps Hok Hrun Hle. induction d as [|d IH]; intros s sps Hok Hrun Hle Hl.
  - exfalso. pose proof Hok as []. assert (Hnc : n <> current_task s).
    { intros Heq. apply so_running0 in Heq; [congruence|done]. }
    destruct (cyclic n (current_task s)) as (i & Hi & Hni); auto. rewrite (distance_offset s n i) in Hle by done. lia.
  - destruct sps as [|sp sps]; [done|]. destruct (yield_progress F s n sp Hok Hn Hrun) as [Hok' [Hc|[Hrun' Hlt]]].
    + exists 1%nat. split; [simpl; lia|]. exact Hc.
    + destruct (IH (fst (scheduler_yield process_activate_tid sp s)) sps) as (k & Hk & Hc); auto; [lia|].
      exists (S k). split; [simpl; lia|]. exact Hc.
Qed.

(** [scheduler_exit_current] of a task other than 0 never halts the processor: it
    switches to a runnable task, leaves the caller a zombie and every other task as it
    was. Task 0 cannot exit. *)
Theorem scheduler_exit_spec F s sp :
  sched_ok F s ->
  (current_task s = 0%nat -> scheduler_exit_current process_activate_tid sp s = (s, None)) /\
  (current_task s <> 0%nat ->
   exists n s', scheduler_exit_current process_activate_tid sp s = (s', Some (tk_sp (task_at (tasks s) n))) /\
     state_at (tasks s) n = TASK_RUNNABLE /\ current_task s' = n /\ sched_ok F s' /\
     state_at (tasks s') (current_task s) = TASK_ZOMBIE /\
     forall i, (i < MAX_TASKS)%nat -> i <> n -> i <> current_task s -> state_at (tasks s') i = state_at (tasks s) i).
Proof.
  intros Hok. pose proof Hok as []. split.
  - intros Hz. unfold scheduler_exit_current. by rewrite so_started0, Hz.
  - intros Hz. destruct (exit_cases F s sp Hok Hz) as (n & s' & E1 & Hne & Hn & Hrun & Hok' & Hc' & Ht').
    exists n, s'. destruct (switched_facts (current_task s) n TASK_ZOMBIE sp (tasks s)) as (_ & _ & _ & _ & Hi); [lia|lia|done|].
    split_and!; auto.
    + rewrite Ht'. destruct (Hi (current_task s)) as (_ & _ & ->); [lia|]. by rewrite decide_True.
    + intros i Hlt Hin Hic. rewrite Ht'. destruct (Hi i) as (_ & _ & ->); [lia|]. by rewrite !decide_False.
Qed.

(** The time slice: after a switch, a yield becomes pending with the tenth timer
    tick, not before, and stays pending however many ticks follow. *)
Theorem scheduler_quantum s k :
  scheduler_started s = true -> tick_since_switch s = 0 -> preempt_pending s = false ->
  preempt_pending (Nat.iter k scheduler_on_tick s) = (10 <=? k)%nat.
Proof.
  intros Hst Ht Hp.
  assert (Hinv : scheduler_started (Nat.iter k scheduler_on_tick s) = true /\
    ((k < 10)%nat -> tick_since_switch (Nat.iter k scheduler_on_tick s) = Z.of_nat k) /\
    preempt_pending (Nat.iter k scheduler_on_tick s) = (10 <=? k)%nat); [|apply Hinv].
  induction k as [|k IH]; [by split_and!|]. destruct IH as (IHs & IHt & IHp).
  rewrite Nat.iter_succ. unfold scheduler_on_tick at 1 3 5. rewrite IHs. cbn [negb]. split; [done|].
  cbn [tick_since_switch preempt_pending set_ticks]. unfold SCHED_QUANTUM_TICKS.
  destruct (Nat.leb_spec 10 k) as [Hge|Hlt].
  - rewrite IHp. split; [lia|]. rewrite (proj2 (Nat.leb_le 10 (S k))) by lia. by destruct (10 <=? _).
  - rewrite IHt by done. rewrite u32_small by lia. split; [lia|]. rewrite IHp.
    destruct (Z.leb_spec 10 (Z.of_nat k + 1)), (Nat.leb_spec 10 (S k)); done || lia.
Qed.


End Invariant.

(** ** Witnesses *)

Definition demo_name : list Z := replicate 16 0.
Definition demo_tasks0 : list task_t := replicate 16 (Task 0 0 0 0 TASK_UNUSED demo_name).

(** Task 0 and a task 1 with a stack at the start of the heap. *)
Definition demo_tasks (st0 st1 : task_state_t) : list task_t :=
  Task 0 0 0 0 st0 demo_name :: Task 3489669116 (KHEAP_START + 16) 4096 0 st1 demo_name ::
  replicate 14 (Task 0 0 0 0 TASK_UNUSED demo_name).

Definition demo_activate (tid : Z) (env : Z) : Z := tid.

Definition demo_sched (h : kheap page_pool) (st0 st1 : task_state_t) (cur : nat) : sched (kheap page_pool) Z :=
  Sched h 0 (demo_tasks st0 st1) true cur 0 false.

Lemma demo_stack_heap : exists h : kheap page_pool, kh_rep h [(KHEAP_START + 16, 8192)].
Proof.
  destruct (kmalloc_fits demo_heap [(65520, true)] 8192 KHEAP_START [(8192, false); (57312, true)]) as (s1 & _ & Hr & _);
    [exact demo_heap_rep|lia|reflexivity|].
  exists s1. exists [(8192, false); (57312, true)]. split; [exact Hr|]. reflexivity.
Qed.

#[local] Opaque demo_heap.

Lemma demo_sched_ok h st0 st1 cur :
  kh_rep h [(KHEAP_START + 16, 8192)] ->
  (st0 = TASK_RUNNING /\ st1 = TASK_RUNNABLE /\ cur = 0%nat) \/ (st0 = TASK_RUNNABLE /\ st1 = TASK_RUNNING /\ cur = 1%nat) ->
  sched_ok [] (demo_sched h st0 st1 cur).
Proof.
  intros Hr Hst. split; cbn [scheduler_started tasks current_task sc_heap demo_sched].
  - done.
  - done.
  - unfold MAX_TASKS. destruct Hst as [(_ & _ & ->)|(_ & _ & ->)]; lia.
  - unfold MAX_TASKS. intros i Hi. destruct Hst as [(-> & -> & ->)|(-> & -> & ->)];
      do 16 (destruct i as [|i]; [split; [discriminate || done|discriminate || done]|]); lia.
  - destruct Hst as [(-> & _)|(-> & _)]; auto.
  - unfold MAX_TASKS. intros i Hi. destruct Hst as [(-> & -> & ->)|(-> & -> & ->)];
      (destruct i as [|i]; [split; auto|]); (destruct i as [|i]; [split; [done|by intros [?|?]]|]);
      do 14 (destruct i as [|i]; [split; [by right|done]|]); lia.
  - unfold demo_tasks. repeat constructor.
  - exists [(KHEAP_START + 16, 8192)]. split_and!; [done|done|]. repeat constructor. by unfold TASK_STACK_SIZE.
Qed.

Lemma demo_init_rep : kh_rep demo_heap [].
Proof. exists [(65520, true)]. split; [exact demo_heap_rep|done]. Qed.

Lemma scheduler_run_invariant_witness :
  exists s, s = scheduler_on_tick (scheduler_init (Sched demo_heap 0 demo_tasks0 false 0 0 false)) /\ sched_ok [] s.
Proof.
  eexists. split; [reflexivity|].
  apply (scheduler_run_invariant demo_activate 4096 [] (Sched demo_heap 0 demo_tasks0 false 0 0 false));
    [unfold is_u32; lia|reflexivity|repeat constructor|exact demo_init_rep|].
  apply rtc_once. apply step_tick.
Defined.

Lemma scheduler_create_task_spec_witness :
  exists h r s', kh_rep h [(KHEAP_START + 16, 8192)] /\
    scheduler_create_task 4096 8192 7 None (demo_sched h TASK_RUNNING TASK_RUNNABLE 0) = (r, s') /\ sched_ok [] s'.
Proof.
  destruct demo_stack_heap as [h Hh].
  destruct (scheduler_create_task_spec demo_activate 4096 [] (demo_sched h TASK_RUNNING TASK_RUNNABLE 0) 8192 7 None)
    as (r & s' & E & Hok & _); [apply demo_sched_ok; auto|unfold is_u32; lia|lia|].
  exists h, r, s'. split; [exact Hh|]. split; [exact E|exact Hok].
Defined.

Lemma scheduler_yield_fair_witness :
  exists h k, kh_rep h [(KHEAP_START + 16, 8192)] /\ (k <= 1)%nat /\
    current_task (yields demo_activate (take k [4242]) (demo_sched h TASK_RUNNING TASK_RUNNABLE 0)) = 1%nat.
Proof.
  destruct demo_stack_heap as [h Hh].
  destruct (scheduler_yield_fair demo_activate [] (demo_sched h TASK_RUNNING TASK_RUNNABLE 0) 1 [4242]) as (k & Hk & Hc);
    [apply demo_sched_ok; auto|unfold MAX_TASKS; lia|reflexivity|reflexivity|].
  exists h, k. split; [exact Hh|]. split; [exact Hk|exact Hc].
Defined.

Lemma scheduler_exit_spec_witness :
  exists h n s', kh_rep h [(KHEAP_START + 16, 8192)] /\
    scheduler_exit_current demo_activate 4242 (demo_sched h TASK_RUNNABLE TASK_RUNNING 1) = (s', n) /\
    current_task s' = 0%nat.
Proof.
  destruct demo_stack_heap as [h Hh].
  destruct (scheduler_exit_spec demo_activate [] (demo_sched h TASK_RUNNABLE TASK_RUNNING 1) 4242) as [_ Hx];
    [apply demo_sched_ok; auto|].
  destruct Hx as (n & s' & E & Hn & Hc & Hok & _); [discriminate|].
  exists h, (Some (tk_sp (task_at (demo_tasks TASK_RUNNABLE TASK_RUNNING) n))), s'.
  split; [exact Hh|]. split; [exact E|]. injection E as <- _. reflexivity.
Defined.

Lemma scheduler_quantum_witness :
  exists h, preempt_pending (Nat.iter 12 scheduler_on_tick (demo_sched h TASK_RUNNING TASK_RUNNABLE 0)) = true.
Proof.
  exists demo_heap. rewrite scheduler_quantum; [reflexivity|reflexivity|reflexivity|reflexivity].
Defined.
