(* ===== verification/Ipc.v ===== *)
(** kernel/ipc.c: a table of 64 messages between processes.

    The abstract view is the collection of pending messages (sender, receiver,
    text); the order in which messages for one receiver are delivered is the
    order of their slots, not of their sending. *)
From Stdlib Require Import ZArith Lia Bool List.
From stdpp Require Import base list numbers option sets.
From S2P Require Import Prelude CStr.
#[local] Open Scope Z_scope.

(** ** Data *)

Definition IPC_MAX_MESSAGES : nat := 64.
Definition IPC_TEXT_MAX : nat := 64.

Record ipc_message_t := IpcMessage {
  im_from_pid : Z;
  im_to_pid : Z;
  im_text : list Z;
  im_used : bool;
}.

Record ipc_state := IpcState {
  ipc_messages : list ipc_message_t;
  ipc_ready : bool;
}.

Definition no_message : ipc_message_t := IpcMessage 0 0 [] false.
Definition message_at (s : ipc_state) (i : nat) : ipc_message_t := default no_message (ipc_messages s !! i).
Definition set_message (s : ipc_state) (i : nat) (m : ipc_message_t) : ipc_state :=
  IpcState (<[i := m]> (ipc_messages s)) (ipc_ready s).

(** ** Operations *)

(** [str_copy(dst, size, src)] with null pointers. *)
Definition str_copy_checked (dst : list Z) (n : nat) (src : option (list Z)) : Z * list Z :=
  match src with None => (0, dst) | Some src => str_copy dst n src end.

Definition clear_message (m : ipc_message_t) : ipc_message_t := IpcMessage 0 0 (<[0%nat := 0]> (im_text m)) false.

Definition ipc_init (s : ipc_state) : bool * ipc_state :=
  (true, IpcState (map clear_message (ipc_messages s)) true).

Definition ipc_send (from_pid to_pid : Z) (message : option (list Z)) (s : ipc_state) : bool * ipc_state :=
  if negb (ipc_ready s) || (to_pid =? 0) || negb (bool_decide (is_Some message)) then (false, s) else
  match List.find (fun i => negb (im_used (message_at s i))) (seq 0 IPC_MAX_MESSAGES) with
  | None => (false, s)
  | Some i =>
      let '(n, text) := str_copy_checked (im_text (message_at s i)) IPC_TEXT_MAX message in
      if n <=? 0 then (false, set_message s i (IpcMessage from_pid to_pid text false))
      else (true, set_message s i (IpcMessage from_pid to_pid text true))
  end.

(** The result, the array [out], the value stored in [*from_pid_out] if it is
    set, and the new state; [None] for [out] is a null pointer. *)
Definition ipc_recv (to_pid : Z) (out : option (list Z)) (out_size : nat) (s : ipc_state)
  : Z * option (list Z) * option Z * ipc_state :=
  match out with
  | None => (-1, None, None, s)
  | Some out =>
      if negb (ipc_ready s) || (to_pid =? 0) || (out_size =? 0)%nat then (-1, Some out, None, s) else
      match List.find (fun i => im_used (message_at s i) && (im_to_pid (message_at s i) =? to_pid))
                      (seq 0 IPC_MAX_MESSAGES) with
      | Some i =>
          let m := message_at s i in
          let '(copied, out) := str_copy_checked out out_size (Some (im_text m)) in
          (copied, Some out, Some (im_from_pid m), set_message s i (clear_message m))
      | None => (0, Some (<[0%nat := 0]> out), None, s)
      end
  end.

Definition ipc_pending_count (s : ipc_state) : Z :=
  if negb (ipc_ready s) then 0 else Z.of_nat (length (List.filter im_used (ipc_messages s))).

(** ** Abstract view *)

Record message := Message { msg_from : Z; msg_to : Z; msg_text : list Z }.

Definition content (m : ipc_message_t) : list message :=
  if im_used m then [Message (im_from_pid m) (im_to_pid m) (c_str (im_text m))] else [].

Definition pending (s : ipc_state) : list message := ipc_messages s ≫= content.

Record ipc_ok (s : ipc_state) : Prop := {
  ik_ready : ipc_ready s = true;
  ik_length : length (ipc_messages s) = IPC_MAX_MESSAGES;
  ik_texts : Forall (fun m => length (im_text m) = IPC_TEXT_MAX) (ipc_messages s);
  ik_to : Forall (fun m => im_used m = true -> im_to_pid m <> 0 /\ c_str (im_text m) <> []) (ipc_messages s);
}.

(** ** Lemmas *)

Lemma message_lookup s i : ipc_ok s -> (i < IPC_MAX_MESSAGES)%nat -> ipc_messages s !! i = Some (message_at s i).
Proof.
  intros Hok Hi. unfold message_at. destruct (lookup_lt_is_Some_2 (ipc_messages s) i) as [m ->]; [|done].
  by rewrite (ik_length _ Hok).
Qed.

Lemma set_message_ok s i m :
  ipc_ok s -> length (im_text m) = IPC_TEXT_MAX ->
  (im_used m = true -> im_to_pid m <> 0 /\ c_str (im_text m) <> []) -> ipc_ok (set_message s i m).
Proof.
  intros [] Ht Hu. split; simpl; [done|by rewrite length_insert|by apply Forall_insert|by apply Forall_insert].
Qed.

Lemma text_length s i : ipc_ok s -> (i < IPC_MAX_MESSAGES)%nat -> length (im_text (message_at s i)) = IPC_TEXT_MAX.
Proof.
  intros Hok Hi. exact (proj1 (Forall_lookup _ _) (ik_texts _ Hok) i _ (message_lookup s i Hok Hi)).
Qed.

Lemma pending_full s : ipc_ok s ->
  (forall i, (i < IPC_MAX_MESSAGES)%nat -> im_used (message_at s i) = true) -> length (pending s) = IPC_MAX_MESSAGES.
Proof.
  intros Hok Hall. rewrite <- (ik_length _ Hok).
  assert (Hu : forall m, m ∈ ipc_messages s -> im_used m = true).
  { intros m Hm. apply list_elem_of_lookup in Hm as [i Hi]. pose proof (lookup_lt_Some _ _ _ Hi) as Hlt.
    rewrite (ik_length _ Hok) in Hlt. rewrite message_lookup in Hi by done. injection Hi as <-. by apply Hall. }
  unfold pending. clear Hall Hok. induction (ipc_messages s) as [|m l IH]; [done|]. rewrite bind_cons, length_app.
  unfold content at 1. rewrite Hu by apply list_elem_of_here. simpl. f_equal. apply IH.
  intros m' Hm'. apply Hu. by apply list_elem_of_further.
Qed.

Lemma pending_le s : ipc_ok s -> (length (pending s) <= IPC_MAX_MESSAGES)%nat.
Proof.
  intros Hok. rewrite <- (ik_length _ Hok). unfold pending. clear Hok.
  induction (ipc_messages s) as [|m l IH]; [done|]. rewrite bind_cons, length_app. unfold content at 1.
  destruct (im_used m); simpl; lia.
Qed.

Lemma count_pending s : length (List.filter im_used (ipc_messages s)) = length (pending s).
Proof.
  unfold pending. induction (ipc_messages s) as [|m l IH]; [done|]. rewrite bind_cons, length_app. simpl.
  unfold content at 1. destruct (im_used m); simpl; by rewrite IH.
Qed.

Lemma send_cases s from_pid to_pid text :
  ipc_ok s -> to_pid <> 0 ->
  exists ok s', ipc_send from_pid to_pid (Some text) s = (ok, s') /\ ipc_ok s' /\
    ok = (length (pending s) <? IPC_MAX_MESSAGES)%nat && negb (bool_decide (c_str text = [])) /\
    pending s' ≡ₚ (if ok then [Message from_pid to_pid (take 63 (c_str text))] else []) ++ pending s.
Proof.
  intros Hok Hto. pose proof Hok as []. unfold ipc_send. rewrite ik_ready0, (proj2 (Z.eqb_neq to_pid 0)) by done.
  rewrite bool_decide_eq_true_2 by eauto. cbn [negb orb].
  destruct (List.find _ _) as [i|] eqn:Ef.
  2: { exists false, s. pose proof (proj1 (find_seq_None _ _ _) Ef) as Hall. split; [done|]. split; [done|].
       rewrite pending_full; auto. intros i Hi. specialize (Hall i). apply negb_false_iff, Hall. lia. }
  apply find_seq_Some in Ef as (Hi & Hfree & _). apply negb_true_iff in Hfree.
  assert (Hi' : (i < IPC_MAX_MESSAGES)%nat) by lia. pose proof (message_lookup s i Hok Hi') as Hm.
  destruct (bind_insert_perm content _ i _ Hm) as (R & HR & HR'). unfold content in HR at 2. rewrite Hfree in HR.
  assert (Hlt : (length (pending s) < IPC_MAX_MESSAGES)%nat).
  { pose proof (pending_le (set_message s i (IpcMessage 1 1 (1 :: replicate 63 0) true))) as Hle.
    assert (Hp : pending (set_message s i (IpcMessage 1 1 (1 :: replicate 63 0) true)) ≡ₚ
                 Message 1 1 [1] :: pending s) by (unfold pending; simpl; rewrite HR', HR; done).
    rewrite Hp in Hle. simpl in Hle. assert (ipc_ok (set_message s i (IpcMessage 1 1 (1 :: replicate 63 0) true)))
      by (by apply set_message_ok). specialize (Hle ltac:(done)). lia. }
  rewrite (proj2 (Nat.ltb_lt _ _)) by done. cbn [andb str_copy_checked].
  destruct (str_copy_spec (im_text (message_at s i)) IPC_TEXT_MAX text) as (txt & -> & Htxt & Hlen).
  { rewrite text_length by done. unfold IPC_TEXT_MAX. lia. }
  rewrite text_length in Hlen by done. change (IPC_TEXT_MAX - 1)%nat with 63%nat in Htxt.
  destruct (bool_decide_reflect (c_str text = [])) as [He|He]; cbn [negb].
  - rewrite Htxt, He. simpl. eexists false, _. split; [reflexivity|].
    split; [by apply set_message_ok|]. split; [done|]. unfold pending at 1. simpl. rewrite HR', HR. done.
  - assert (Hne : c_str txt <> []) by (rewrite Htxt; by destruct (c_str text)).
    rewrite (proj2 (Z.leb_gt _ _)) by (destruct (c_str txt); [done|simpl; lia]).
    eexists true, _. split; [reflexivity|]. split; [by apply set_message_ok|]. split; [done|].
    unfold pending. simpl. rewrite HR', HR. unfold content. simpl. by rewrite Htxt.
Qed.

Lemma recv_cases s to_pid out n :
  ipc_ok s -> to_pid <> 0 -> (0 < n <= length out)%nat ->
  exists r out' from s', ipc_recv to_pid (Some out) n s = (r, Some out', from, s') /\ ipc_ok s' /\
    length out' = length out /\ r = Z.of_nat (length (c_str out')) /\
    ((exists m, pending s ≡ₚ m :: pending s' /\ msg_to m = to_pid /\ from = Some (msg_from m) /\
                c_str out' = take (n - 1) (msg_text m)) \/
     (s' = s /\ from = None /\ c_str out' = [] /\ forall m, m ∈ pending s -> msg_to m <> to_pid)).
Proof.
  intros Hok Hto Hn. pose proof Hok as []. unfold ipc_recv. rewrite ik_ready0, (proj2 (Z.eqb_neq to_pid 0)) by done.
  rewrite (proj2 (Nat.eqb_neq n 0)) by lia. cbn [negb orb].
  destruct (List.find _ _) as [i|] eqn:Ef.
  - apply find_seq_Some in Ef as (Hi & HP & _). bool_simp. assert (Hi' : (i < IPC_MAX_MESSAGES)%nat) by lia.
    pose proof (message_lookup s i Hok Hi') as Hm. destruct (bind_insert_perm content _ i _ Hm) as (R & HR & HR').
    cbn [str_copy_checked]. destruct (str_copy_spec out n (im_text (message_at s i))) as (out' & -> & Ho & Hl); [done|].
    eexists _, out', _, _. split; [reflexivity|]. split_and!; auto.
    + apply set_message_ok; [done| |done]. simpl. rewrite length_insert. by apply text_length.
    + left. exists (Message (im_from_pid (message_at s i)) to_pid (c_str (im_text (message_at s i)))).
      split_and!; auto. unfold pending. simpl. rewrite HR', HR. unfold content. rewrite H. simpl. by rewrite H0.
  - eexists 0, _, None, s. split; [reflexivity|]. split; [done|]. split; [by rewrite length_insert|].
    destruct out as [|c out]; [simpl in Hn; lia|]. simpl. split; [done|]. right. split_and!; auto.
    intros m Hin Heq. unfold pending in Hin. apply list_elem_of_bind in Hin as (x & Hc & Hx).
    unfold content in Hc. destruct (im_used x) eqn:Hu; [|by apply elem_of_nil in Hc].
    apply list_elem_of_singleton in Hc as ->. simpl in Heq.
    apply list_elem_of_lookup in Hx as [i Hi]. pose proof (lookup_lt_Some _ _ _ Hi) as Hlt.
    rewrite ik_length0 in Hlt. rewrite message_lookup in Hi by done. injection Hi as <-.
    assert (Hf : im_used (message_at s i) && (im_to_pid (message_at s i) =? to_pid) = false)
      by (apply (proj1 (find_seq_None _ _ _) Ef i); lia).
    by rewrite Hu, Heq, Z.eqb_refl in Hf.
Qed.

(** The text of a message; none for a null pointer. *)
Definition text_of (message : option (list Z)) : list Z := from_option c_str [] message.

Lemma count_pending_ok s : ipc_ok s -> ipc_pending_count s = Z.of_nat (length (pending s)).
Proof. intros Hok. unfold ipc_pending_count. by rewrite (ik_ready _ Hok), count_pending. Qed.

(** Receiver 0 and a null pointer are refused. *)
Lemma send_refused s from_pid to_pid message :
  ipc_ok s -> to_pid = 0 \/ message = None ->
  ipc_send from_pid to_pid message s = (false, s) /\ ipc_pending_count s = Z.of_nat (length (pending s)).
Proof.
  intros Hok Hr. split; [|by apply count_pending_ok]. unfold ipc_send.
  destruct Hr as [->| ->]; [by rewrite orb_true_r|]. by rewrite orb_true_r.
Qed.

(** ** Theorems *)

(** C30. [ipc_send] succeeds exactly for a receiver other than 0, a message that is neither
    null nor empty and fewer than 64 pending messages; it then adds the message, cut to
    63 characters, to the pending ones. A refused call changes no pending message. *)
Theorem ipc_send_spec s from_pid to_pid message :
  ipc_ok s ->
  exists ok s', ipc_send from_pid to_pid message s = (ok, s') /\ ipc_ok s' /\
    ok = negb (to_pid =? 0) && (length (pending s) <? IPC_MAX_MESSAGES)%nat && negb (bool_decide (text_of message = [])) /\
    pending s' ≡ₚ (if ok then [Message from_pid to_pid (take 63 (text_of message))] else []) ++ pending s /\
    ipc_pending_count s' = Z.of_nat (length (pending s')).
Proof.
  intros Hok. destruct (Z.eqb_spec to_pid 0) as [->|Hto].
  { destruct (send_refused s from_pid 0 message Hok) as (E & Hc); [by left|]. exists false, s. by split_and!. }
  destruct message as [text|].
  - destruct (send_cases s from_pid to_pid text Hok Hto) as (ok & s' & E & Hok' & Hiff & Hp).
    exists ok, s'. split_and!; auto. by apply count_pending_ok.
  - destruct (send_refused s from_pid to_pid None Hok) as (E & Hc); [by right|]. exists false, s. split_and!; auto.
    by rewrite andb_false_r.
Qed.

(** C31. [ipc_recv] delivers one pending message of the receiver and removes exactly that
    one: the text, cut to the buffer, with its sender; every other message stays. If
    there is none it returns 0, the empty string and an unchanged table. *)
Theorem ipc_recv_spec s to_pid out n :
  ipc_ok s -> to_pid <> 0 -> (0 < n <= length out)%nat ->
  exists r out' from s', ipc_recv to_pid (Some out) n s = (r, Some out', from, s') /\ ipc_ok s' /\
    length out' = length out /\ r = Z.of_nat (length (c_str out')) /\
    ((exists m, pending s ≡ₚ m :: pending s' /\ msg_to m = to_pid /\ from = Some (msg_from m) /\
                c_str out' = take (n - 1) (msg_text m)) \/
     (s' = s /\ from = None /\ c_str out' = [] /\ forall m, m ∈ pending s -> msg_to m <> to_pid)).
Proof. apply recv_cases. Qed.

(** Round trip: with nothing pending for the receiver, what [ipc_recv] returns after
    a successful [ipc_send] is that message and its sender, and the table holds the
    messages it held before. *)
Theorem ipc_send_recv_roundtrip s from_pid to_pid text s1 out n :
  ipc_ok s -> to_pid <> 0 -> (64 <= n <= length out)%nat -> (forall m, m ∈ pending s -> msg_to m <> to_pid) ->
  ipc_send from_pid to_pid (Some text) s = (true, s1) ->
  exists r out' s2, ipc_recv to_pid (Some out) n s1 = (r, Some out', Some from_pid, s2) /\
    c_str out' = take 63 (c_str text) /\ pending s2 ≡ₚ pending s.
Proof.
  intros Hok Hto Hn Hnone Hsend.
  destruct (send_cases s from_pid to_pid text Hok Hto) as (ok & s1' & E & Hok1 & _ & Hp).
  rewrite Hsend in E. injection E as <- <-. simpl in Hp.
  destruct (recv_cases s1 to_pid out n Hok1 Hto) as (r & out' & from & s2 & E2 & _ & _ & _ & Hres); [lia|].
  destruct Hres as [(m & Hp2 & Hmt & -> & Ho)|(_ & _ & _ & Hno)].
  - rewrite Hp in Hp2. assert (Hm : m = Message from_pid to_pid (take 63 (c_str text))).
    { assert (Hin : m ∈ Message from_pid to_pid (take 63 (c_str text)) :: pending s) by (rewrite Hp2; apply list_elem_of_here).
      apply elem_of_cons in Hin as [->|Hin]; [done|]. by apply Hnone in Hin. }
    subst m. apply Permutation_cons_inv in Hp2. exists r, out', s2. split_and!; [done| |by symmetry].
    rewrite Ho. simpl. apply take_ge. rewrite length_take. lia.
  - exfalso. apply (Hno (Message from_pid to_pid (take 63 (c_str text)))); [|done]. rewrite Hp. apply list_elem_of_here.
Qed.

(** ** Witnesses *)

Definition demo_ipc : ipc_state := IpcState (replicate 64 (IpcMessage 0 0 (replicate 64 0) false)) true.

Lemma demo_ipc_ok : ipc_ok demo_ipc.
Proof. split; [done|done| |]; apply Forall_replicate; done. Qed.

Lemma ipc_send_spec_witness :
  (exists s', ipc_send 1 2 (Some [104; 105; 0]) demo_ipc = (true, s') /\ ipc_ok s') /\
  (exists s', ipc_send 1 0 (Some [104; 105; 0]) demo_ipc = (false, s') /\ ipc_ok s').
Proof.
  split.
  - destruct (ipc_send_spec demo_ipc 1 2 (Some [104; 105; 0]) demo_ipc_ok) as (ok & s' & E & Hok & Hiff & _).
    assert (Ht : ok = true) by (rewrite Hiff; vm_compute; reflexivity). subst ok. exists s'. split; [exact E|exact Hok].
  - destruct (ipc_send_spec demo_ipc 1 0 (Some [104; 105; 0]) demo_ipc_ok) as (ok & s' & E & Hok & Hiff & _).
    assert (Ht : ok = false) by (rewrite Hiff; vm_compute; reflexivity). subst ok. exists s'. split; [exact E|exact Hok].
Defined.

Lemma ipc_recv_spec_witness : exists r out s', ipc_recv 2 (Some [7; 7]) 2 demo_ipc = (r, out, None, s').
Proof.
  destruct (ipc_recv_spec demo_ipc 2 [7; 7] 2 demo_ipc_ok) as (r & out & from & s' & E & _ & _ & _ & Hres);
    [lia|simpl; lia|].
  destruct Hres as [(m & Hp & _)|(_ & -> & _)].
  - exfalso. assert (Hn : pending demo_ipc = []) by (vm_compute; reflexivity). rewrite Hn in Hp.
    by apply Permutation_nil in Hp.
  - exists r, (Some out), s'. exact E.
Defined.

Lemma ipc_send_recv_roundtrip_witness :
  exists s1 r out s2, ipc_send 1 2 (Some [104; 105; 0]) demo_ipc = (true, s1) /\
    ipc_recv 2 (Some (replicate 64 0)) 64 s1 = (r, Some out, Some 1, s2) /\ c_str out = [104; 105].
Proof.
  destruct (send_cases demo_ipc 1 2 [104; 105; 0] demo_ipc_ok) as (ok & s1 & E & _ & Hiff & _); [lia|].
  assert (Ht : ok = true) by (rewrite Hiff; vm_compute; reflexivity). subst ok.
  destruct (ipc_send_recv_roundtrip demo_ipc 1 2 [104; 105; 0] s1 (replicate 64 0) 64 demo_ipc_ok)
    as (r & out & s2 & E2 & Ho & _); [lia|simpl; lia| |exact E|].
  - intros m Hm. assert (Hn : pending demo_ipc = []) by (vm_compute; reflexivity). rewrite Hn in Hm.
    by apply elem_of_nil in Hm.
  - exists s1, r, out, s2. split; [exact E|]. split; [exact E2|exact Ho].
Defined.
