(* ===== verification/Vfs.v ===== *)
(** kernel/vfs.c: a flat file system of 64 named files in memory.

    The names are arrays of the table, the contents strings in the kernel heap.
    The abstract view is a finite map from names to contents. *)
From Stdlib Require Import ZArith Lia Bool List.
From stdpp Require Import base gmap list numbers option sets.
From S2P Require Import Prelude CStr Interfaces Kheap.
#[local] Open Scope Z_scope.

(** ** Data *)

Definition VFS_MAX_FILES : nat := 64.
Definition VFS_NAME_MAX : nat := 32.

Record vfs_file_t := VfsFile {
  vf_name : list Z;
  vf_data : Z;
  vf_len : Z;
  vf_used : bool;
}.

Record vfs (H : Type) := Vfs {
  vfs_heap : H;
  files : list vfs_file_t;
  vfs_ready : bool;
}.
Arguments Vfs {H}.
Arguments vfs_heap {H}.
Arguments files {H}.
Arguments vfs_ready {H}.

(** ** Operations *)

Definition vfs_name_valid (name : option (list Z)) : bool :=
  match name with
  | None => false
  | Some name => if hd 0 name =? 0 then false else str_len name <? Z.of_nat VFS_NAME_MAX
  end.

(** Consecutive bytes of the heap's memory. *)
Fixpoint store_bytes {H : Type} `{KernelHeap H} (p : Z) (bs : list Z) (h : H) : H :=
  match bs with
  | [] => h
  | b :: bs' => store_bytes (p + 1) bs' (kh_store8 p b h)
  end.
Definition load_bytes {H : Type} `{KernelHeap H} (p : Z) (n : nat) (h : H) : list Z :=
  map (fun k => kh_load8 (p + Z.of_nat k) h) (seq 0 n).

Definition no_file : vfs_file_t := VfsFile [] 0 0 false.

Section Operations.
Context {H : Type} `{KernelHeap H}.
Implicit Types (s : vfs H).

Definition file_at s (i : nat) : vfs_file_t := default no_file (files s !! i).
Definition set_vfs_heap s (h : H) : vfs H := Vfs h (files s) (vfs_ready s).
Definition set_file s (i : nat) (f : vfs_file_t) : vfs H := Vfs (vfs_heap s) (<[i := f]> (files s)) (vfs_ready s).

(** [None] is the result -1. *)
Definition vfs_find_file (name : list Z) s : option nat :=
  List.find (fun i => vf_used (file_at s i) && str_eq (vf_name (file_at s i)) name) (seq 0 VFS_MAX_FILES).

Definition vfs_find_free_slot s : option nat :=
  List.find (fun i => negb (vf_used (file_at s i))) (seq 0 VFS_MAX_FILES).

Definition vfs_write_file (name data : option (list Z)) s : bool * vfs H :=
  match name, data with
  | Some name, Some data =>
      if negb (vfs_ready s) then (false, s) else
      if negb (vfs_name_valid (Some name)) then (false, s) else
      let len := str_len data in
      let '(buf, h) := kh_malloc (len ⊞ 1) (vfs_heap s) in
      let s := set_vfs_heap s h in
      if buf =? 0 then (false, s) else
      let s := set_vfs_heap s (store_bytes buf (take (Z.to_nat len) data ++ [0]) (vfs_heap s)) in
      match vfs_find_file name s with
      | None =>
          match vfs_find_free_slot s with
          | None => (false, set_vfs_heap s (kh_free buf (vfs_heap s)))
          | Some idx =>
              let name := snd (str_copy (vf_name (file_at s idx)) VFS_NAME_MAX name) in
              (true, set_file s idx (VfsFile name buf len true))
          end
      | Some idx =>
          let f := file_at s idx in
          let s := if negb (vf_data f =? 0) then set_vfs_heap s (kh_free (vf_data f) (vfs_heap s)) else s in
          (true, set_file s idx (VfsFile (vf_name f) buf len (vf_used f)))
      end
  | _, _ => (false, s)
  end.

Definition welcome_name : list Z := [119; 101; 108; 99; 111; 109; 101; 46; 116; 120; 116].
Definition welcome_text : list Z :=
  [87; 101; 108; 99; 111; 109; 101; 32; 116; 111; 32; 77; 97; 114; 115; 32; 79; 83; 32; 114; 97; 109; 102; 115; 46].
Definition hello_ping_name : list Z := [97; 112; 112; 46; 104; 101; 108; 108; 111; 95; 112; 105; 110; 103].
Definition helloapp_name : list Z := [97; 112; 112; 46; 104; 101; 108; 108; 111; 97; 112; 112].

Definition clear_file (f : vfs_file_t) : vfs_file_t := VfsFile (<[0%nat := 0]> (vf_name f)) 0 0 false.

(** [app_hello_ping_marshex] comes from a generated header. *)
Definition vfs_init (app_hello_ping_marshex : list Z) s : bool * vfs H :=
  let s := Vfs (vfs_heap s) (map clear_file (files s)) true in
  let '(ok, s) := vfs_write_file (Some welcome_name) (Some welcome_text) s in
  if negb ok then (false, s) else
  let '(ok, s) := vfs_write_file (Some hello_ping_name) (Some app_hello_ping_marshex) s in
  if negb ok then (false, s) else
  let '(ok, s) := vfs_write_file (Some helloapp_name) (Some app_hello_ping_marshex) s in
  if negb ok then (false, s) else (true, s).

(** The pointer to the contents, or 0. *)
Definition vfs_read_file (name : option (list Z)) s : Z :=
  match name with
  | None => 0
  | Some name =>
      if negb (vfs_ready s) || negb (vfs_name_valid (Some name)) then 0 else
      match vfs_find_file name s with
      | None => 0
      | Some idx => vf_data (file_at s idx)
      end
  end.

(** The result and the array [out]; [None] for [out] is a null pointer. *)
Definition vfs_read_file_into (name : option (list Z)) (out : option (list Z)) (out_size : nat) s
  : Z * option (list Z) :=
  match name, out with
  | Some name, Some out =>
      if negb (vfs_ready s) || negb (vfs_name_valid (Some name)) || (out_size =? 0)%nat then (-1, Some out) else
      match vfs_find_file name s with
      | None => (-1, Some out)
      | Some idx =>
          if vf_data (file_at s idx) =? 0 then (0, Some (<[0%nat := 0]> out)) else
          let '(i, out) := str_copy out out_size (load_bytes (vf_data (file_at s idx)) out_size (vfs_heap s)) in
          (i, Some out)
      end
  | _, _ => (-1, out)
  end.

Definition vfs_file_count s : Z :=
  if negb (vfs_ready s) then 0 else Z.of_nat (length (List.filter vf_used (files s))).

(** The [index]-th file in use; [None] is a null pointer. *)
Definition vfs_file_name_at (index : nat) s : option (list Z) :=
  if negb (vfs_ready s) then None else
  vf_name <$> (List.filter vf_used (files s) !! index).

End Operations.

(** ** Abstract view *)

Definition is_byte (c : Z) : Prop := 0 <= c < 256.

Section Invariant.
Context {H : Type} `{KernelHeapOk H}.
Implicit Types (s : vfs H) (M : gmap (list Z) (list Z)) (h : H).

(** The string [c] is in memory at [p]. *)
Definition holds h (p : Z) (c : list Z) : Prop :=
  forall k b, (c ++ [0]) !! k = Some b -> kh_load8 (p + Z.of_nat k) h = b.

(** The heap blocks of the files; [cap p] is the size of the block at [p]. *)
Definition file_blocks (cap : Z -> Z) (f : vfs_file_t) : list (Z * Z) :=
  if vf_used f then [(vf_data f, cap (vf_data f))] else [].
Definition blocks (cap : Z -> Z) (fs : list vfs_file_t) : list (Z * Z) := fs ≫= file_blocks cap.

Record file_ok h (cap : Z -> Z) M (f : vfs_file_t) : Prop := {
  fo_name : c_str (vf_name f) <> [] /\ (length (c_str (vf_name f)) < VFS_NAME_MAX)%nat;
  fo_content : exists c, M !! c_str (vf_name f) = Some c /\ Forall is_byte c /\ Forall (fun b => b <> 0) c /\
    vf_len f = Z.of_nat (length c) /\ Z.of_nat (length c) + 1 <= cap (vf_data f) /\ holds h (vf_data f) c;
}.

(** The file system holds the files [M]; [F] are the heap's other allocations. *)
Record vfs_rep s M (F : list (Z * Z)) : Prop := {
  vr_ready : vfs_ready s = true;
  vr_length : length (files s) = VFS_MAX_FILES;
  vr_names : Forall (fun f => length (vf_name f) = VFS_NAME_MAX) (files s);
  vr_heap : exists cap, kh_rep (vfs_heap s) (blocks cap (files s) ++ F) /\
    forall i f, files s !! i = Some f -> vf_used f = true -> file_ok (vfs_heap s) cap M f;
  vr_unique : forall i j f g, files s !! i = Some f -> files s !! j = Some g -> vf_used f = true -> vf_used g = true ->
    c_str (vf_name f) = c_str (vf_name g) -> i = j;
  vr_complete : forall n c, M !! n = Some c ->
    exists i f, files s !! i = Some f /\ vf_used f = true /\ c_str (vf_name f) = n;
}.

(** ** Lemmas *)

Lemma file_lookup s M F i : vfs_rep s M F -> (i < VFS_MAX_FILES)%nat -> files s !! i = Some (file_at s i).
Proof.
  intros Hr Hi. unfold file_at. destruct (lookup_lt_is_Some_2 (files s) i) as [f ->]; [|done].
  by rewrite (vr_length _ _ _ Hr).
Qed.

Lemma block_in cap fs i f : fs !! i = Some f -> vf_used f = true -> (vf_data f, cap (vf_data f)) ∈ blocks cap fs.
Proof.
  intros Hi Hu. unfold blocks. apply list_elem_of_bind. exists f. split; [|by apply list_elem_of_lookup_2 in Hi].
  unfold file_blocks. rewrite Hu. apply list_elem_of_here.
Qed.

Lemma holds_same h h' p c n :
  Z.of_nat (length c) + 1 <= n -> (forall a, p <= a < p + n -> kh_load8 a h' = kh_load8 a h) ->
  holds h p c -> holds h' p c.
Proof.
  intros Hn Hsame Hc k b Hk. rewrite Hsame; [by apply Hc|]. apply lookup_lt_Some in Hk.
  rewrite length_app in Hk. simpl in Hk. lia.
Qed.

(** Another heap with the same file contents. *)
Lemma rep_heap s M F F' cap h' :
  vfs_rep s M F -> (forall i f, files s !! i = Some f -> vf_used f = true -> file_ok (vfs_heap s) cap M f) ->
  kh_rep h' (blocks cap (files s) ++ F') -> kh_same (blocks cap (files s)) (vfs_heap s) h' ->
  vfs_rep (set_vfs_heap s h') M F'.
Proof.
  intros [] Hfiles Hrep' Hsame.
  split; simpl; auto. exists cap. split; [done|]. intros i f Hi Hu. destruct (Hfiles i f Hi Hu) as [Hn Hc].
  split; [done|]. destruct Hc as (c & HM & Hb & Hz & Hl & Hcap & Hc). exists c. split_and!; auto.
  eapply holds_same; [exact Hcap| |exact Hc]. intros a Ha.
  apply (Hsame (vf_data f) (cap (vf_data f))); [by apply (block_in cap _ i)|done].
Qed.

Lemma store_bytes_ok bs : forall p q n h L,
  kh_rep h L -> (q, n) ∈ L -> q <= p -> p + Z.of_nat (length bs) <= q + n -> Forall is_byte bs ->
  let h' := store_bytes p bs h in
  kh_rep h' L /\ (forall k b, bs !! k = Some b -> kh_load8 (p + Z.of_nat k) h' = b) /\
  (forall a, a < p \/ p + Z.of_nat (length bs) <= a -> kh_load8 a h' = kh_load8 a h).
Proof.
  induction bs as [|b bs IH]; intros p q n h L Hr Hin Hlo Hhi Hb; cbn [store_bytes].
  { split_and!; done. }
  simpl length in *. apply Forall_cons_1 in Hb as [Hb0 Hb].
  destruct (kh_store8_ok h L q n p b Hr Hin) as (Hr1 & Hv1 & Ho1); [lia|].
  destruct (IH (p + 1) q n (kh_store8 p b h) L) as (Hr2 & Hv2 & Ho2); auto; [lia|lia|].
  split_and!; auto.
  - intros [|k] b' Hk; simpl in Hk.
    + injection Hk as <-. rewrite Z.add_0_r, Ho2, Hv1 by lia. by apply Z.mod_small.
    + rewrite <- (Hv2 k b' Hk). f_equal. lia.
  - intros a Ha. rewrite Ho2, Ho1 by lia. done.
Qed.

Lemma find_file_cases s M F name :
  vfs_rep s M F ->
  match vfs_find_file name s with
  | Some i => (i < VFS_MAX_FILES)%nat /\ files s !! i = Some (file_at s i) /\ vf_used (file_at s i) = true /\
              c_str (vf_name (file_at s i)) = c_str name
  | None => M !! c_str name = None
  end.
Proof.
  intros Hr. unfold vfs_find_file. destruct (List.find _ _) as [i|] eqn:Ef.
  - apply find_seq_Some in Ef as (Hi & HP & _). bool_simp. assert (Hi' : (i < VFS_MAX_FILES)%nat) by lia.
    split_and!; auto; [by apply (file_lookup s M F)|by apply str_eq_spec].
  - destruct (M !! c_str name) as [c|] eqn:HM; [|done]. exfalso.
    destruct (vr_complete _ _ _ Hr _ _ HM) as (i & f & Hi & Hu & Hn). pose proof (lookup_lt_Some _ _ _ Hi) as Hlt.
    rewrite (vr_length _ _ _ Hr) in Hlt.
    assert (Hf : vf_used (file_at s i) && str_eq (vf_name (file_at s i)) name = false)
      by (apply (proj1 (find_seq_None _ _ _) Ef i); lia).
    unfold file_at in Hf. rewrite Hi in Hf. simpl in Hf. rewrite Hu in Hf. simpl in Hf.
    by rewrite (proj2 (str_eq_spec _ _) Hn) in Hf.
Qed.

Lemma name_valid_spec name :
  vfs_name_valid (Some name) = true <-> c_str name <> [] /\ (length (c_str name) < VFS_NAME_MAX)%nat.
Proof.
  unfold vfs_name_valid. rewrite str_len_eq. destruct name as [|c name]; simpl; [naive_solver|].
  destruct (c =? 0); [naive_solver|]. rewrite Z.ltb_lt. unfold VFS_NAME_MAX. simpl. split; [|lia].
  intros. split; [done|lia].
Qed.

Lemma blocks_ext cap cap' fs :
  (forall f, f ∈ fs -> file_blocks cap f = file_blocks cap' f) -> blocks cap fs = blocks cap' fs.
Proof.
  unfold blocks. induction fs as [|f fs IH]; intros Hf; [done|]. rewrite !bind_cons.
  rewrite (Hf f) by apply list_elem_of_here. rewrite IH; [done|]. intros g Hg. apply Hf. by apply list_elem_of_further.
Qed.

(** A block aside is no file's block. *)
Lemma aside_not_file h cap fs p sz F j g :
  kh_rep h (blocks cap fs ++ (p, sz) :: F) -> fs !! j = Some g -> vf_used g = true -> vf_data g <> p.
Proof.
  intros Hrep Hj Hu Heq. rewrite (Permutation_app_comm (blocks _ _)) in Hrep. simpl in Hrep.
  pose proof (block_in cap _ j g Hj Hu) as Hin.
  assert (Hin' : (vf_data g, cap (vf_data g)) ∈ F ++ blocks cap fs) by (apply elem_of_app; by right).
  assert (Hp : (p, sz) ∈ (p, sz) :: F ++ blocks cap fs) by apply list_elem_of_here.
  assert (Hall : (vf_data g, cap (vf_data g)) ∈ (p, sz) :: F ++ blocks cap fs) by (by apply list_elem_of_further).
  destruct (kh_live_disjoint _ _ _ _ _ _ Hrep Hin'); destruct (kh_live_range _ _ _ _ Hrep Hall) as (? & ? & ?);
    destruct (kh_live_range _ _ _ _ Hrep Hp) as (? & ? & ?); lia.
Qed.

(** The heap after releasing the block of a replaced file. *)
Lemma release_file h B R F cap f :
  kh_rep h (B ++ F) -> B ≡ₚ file_blocks cap f ++ R ->
  let h' := if vf_used f then kh_free (vf_data f) h else h in
  kh_rep h' (R ++ F) /\ kh_same (R ++ F) h h'.
Proof.
  intros Hrep HB. unfold file_blocks in HB. destruct (vf_used f); cbv zeta.
  - rewrite HB in Hrep. simpl in Hrep. exact (kh_free_ok _ _ _ _ Hrep).
  - rewrite HB in Hrep. split; [exact Hrep|by intros ? ? ? _ _].
Qed.

(** Storing the string [c] at [p], the block of size [sz] that the heap keeps aside,
    as the file of slot [i]: the slot is free, or holds the file of that name, whose old
    block is released. *)
Lemma put_ok s M F p sz c i f nm :
  let n := c_str nm in
  let s' := if vf_used f then set_vfs_heap s (kh_free (vf_data f) (vfs_heap s)) else s in
  vfs_rep s M ((p, sz) :: F) -> holds (vfs_heap s) p c -> Forall is_byte c -> Forall (fun b => b <> 0) c ->
  Z.of_nat (length c) + 1 <= sz -> files s !! i = Some f ->
  (if vf_used f then c_str (vf_name f) = n else M !! n = None) ->
  length nm = VFS_NAME_MAX -> n <> [] -> (length n < VFS_NAME_MAX)%nat ->
  vfs_rep (set_file s' i (VfsFile nm p (Z.of_nat (length c)) true)) (<[n := c]> M) F.
Proof.
  intros n s' Hr Hc Hby Hnz Hsz Hi Hf Hnm Hne Hlt. pose proof Hr as []. destruct vr_heap0 as (cap & Hrep & Hfiles).
  set (cap' := fun q => if q =? p then sz else cap q).
  assert (Hcap : forall j g, files s !! j = Some g -> vf_used g = true -> cap' (vf_data g) = cap (vf_data g)).
  { intros j g Hj Hu. unfold cap'. rewrite (proj2 (Z.eqb_neq _ _)); [done|]. exact (aside_not_file _ _ _ _ _ _ _ _ Hrep Hj Hu). }
  rewrite (blocks_ext cap cap') in Hrep.
  2: { intros g Hg. apply list_elem_of_lookup_1 in Hg as [j Hj]. unfold file_blocks. destruct (vf_used g) eqn:Hu; [|done].
       by rewrite (Hcap j g). }
  destruct (bind_insert_rest (file_blocks cap') (files s) i f Hi) as (R & HR & HR' & Hrest).
  destruct (release_file _ _ R _ cap' f Hrep HR) as [Hrep2 Hsame].
  assert (Hs' : vfs_heap s' = (if vf_used f then kh_free (vf_data f) (vfs_heap s) else vfs_heap s) /\ files s' = files s /\ vfs_ready s' = true)
    by (unfold s'; by destruct (vf_used f)).
  destruct Hs' as (Hh' & Hf' & Hrd'). rewrite <- Hh' in Hrep2, Hsame. clearbody s'. clear Hh'.
  assert (Hother : forall j g, files s !! j = Some g -> vf_used g = true -> j <> i -> c_str (vf_name g) <> n).
  { intros j g Hj Hu Hji Heq. destruct (vf_used f) eqn:Huf.
    - apply Hji. apply (vr_unique0 j i g f); auto. congruence.
    - destruct (fo_content _ _ _ _ (Hfiles j g Hj Hu)) as (c' & HM & _). congruence. }
  assert (Hps : cap' p = sz) by (unfold cap'; by rewrite Z.eqb_refl).
  assert (Hil : (i < length (files s))%nat) by (by apply lookup_lt_Some in Hi).
  split; simpl; rewrite ?Hf'; auto.
  - by rewrite length_insert.
  - by apply Forall_insert.
  - exists cap'. split.
    { unfold blocks. rewrite HR'. unfold file_blocks at 1. simpl. rewrite Hps. by rewrite Permutation_middle. }
    intros j g Hj Hu. destruct (decide (j = i)) as [->|Hji].
    + rewrite list_lookup_insert_eq in Hj by done. injection Hj as <-. split; [by split|]. simpl.
      exists c. rewrite lookup_insert_eq, Hps. split_and!; auto. eapply holds_same; [exact Hsz| |exact Hc].
      intros a Ha. apply (Hsame p sz); [|done]. apply elem_of_app. right. apply list_elem_of_here.
    + rewrite list_lookup_insert_ne in Hj by done. destruct (Hfiles j g Hj Hu) as [Hgn (c' & HM & Hb' & Hz' & Hl' & Hc' & Hh')].
      split; [done|]. exists c'. rewrite lookup_insert_ne by (apply not_eq_sym; by apply (Hother j)).
      rewrite (Hcap j g) by done. split_and!; auto. eapply holds_same; [exact Hc'| |exact Hh'].
      intros a Ha. apply (Hsame (vf_data g) (cap (vf_data g))); [|done]. apply elem_of_app. left.
      apply (Hrest j g); auto. unfold file_blocks. rewrite Hu, (Hcap j g) by done. apply list_elem_of_here.
  - intros j k g1 g2 Hj Hk Hu1 Hu2 Heq.
    destruct (decide (j = i)) as [->|Hji], (decide (k = i)) as [->|Hki]; auto.
    + rewrite list_lookup_insert_eq in Hj by done. rewrite list_lookup_insert_ne in Hk by done. injection Hj as <-.
      exfalso. by apply (Hother k g2).
    + rewrite list_lookup_insert_eq in Hk by done. rewrite list_lookup_insert_ne in Hj by done. injection Hk as <-.
      exfalso. by apply (Hother j g1).
    + rewrite list_lookup_insert_ne in Hj, Hk by done. by apply (vr_unique0 j k g1 g2).
  - intros n' c' Hn'. destruct (decide (n = n')) as [<-|Hnn].
    + exists i. eexists. split; [by apply list_lookup_insert_eq|done].
    + rewrite lookup_insert_ne in Hn' by done. destruct (vr_complete0 n' c' Hn') as (j & g & Hj & Hu & Hgn).
      exists j, g. destruct (decide (j = i)) as [->|]; [|by rewrite list_lookup_insert_ne].
      exfalso. rewrite Hi in Hj. injection Hj as <-. rewrite Hu in Hf. congruence.
Qed.

Lemma load_bytes_lookup p n h k :
  (k < n)%nat -> load_bytes p n h !! k = Some (kh_load8 (p + Z.of_nat k) h).
Proof. intros Hk. unfold load_bytes. rewrite list_lookup_fmap, lookup_seq_lt by done. done. Qed.

Lemma load_bytes_length p n h : length (load_bytes p n h) = n.
Proof. unfold load_bytes. by rewrite length_map, length_seq. Qed.

(** Reading a string back, up to the size of a buffer. *)
Lemma load_string p n h c :
  holds h p c -> Forall (fun b => b <> 0) c -> take (n - 1) (c_str (load_bytes p n h)) = take (n - 1) c.
Proof.
  intros Hc Hnz.
  assert (Hpre : take n (c ++ [0]) = take (length (c ++ [0])) (load_bytes p n h)).
  { apply list_eq. intros k. set (d := c ++ [0]).
    destruct (decide (k < n)%nat); destruct (decide (k < length d)%nat).
    - rewrite !lookup_take_lt by done. destruct (lookup_lt_is_Some_2 d k) as [b Hb]; [done|].
      rewrite load_bytes_lookup, Hb by done. f_equal. symmetry. by apply Hc.
    - rewrite lookup_take_lt by done. rewrite (lookup_take_ge _ (length _)) by lia. apply lookup_ge_None_2. lia.
    - rewrite lookup_take_ge by lia. symmetry. apply lookup_ge_None_2. rewrite length_take, load_bytes_length. lia.
    - rewrite !lookup_take_ge by lia. done. }
  rewrite length_app in Hpre. simpl in Hpre. destruct (decide (length c < n)%nat) as [Hlt|Hge].
  - rewrite take_ge in Hpre by (rewrite length_app; simpl; lia).
    rewrite <- (take_drop (length c + 1) (load_bytes p n h)), <- Hpre, <- app_assoc.
    rewrite c_str_app by done. simpl. by rewrite app_nil_r.
  - rewrite take_app_le in Hpre by lia. rewrite (take_ge (load_bytes p n h)) in Hpre by (rewrite load_bytes_length; lia).
    rewrite <- Hpre. rewrite <- (app_nil_r (take n c)), c_str_app by (by apply Forall_take). simpl.
    rewrite app_nil_r, take_take. f_equal. lia.
Qed.

Lemma used_count s M F :
  vfs_rep s M F -> length (List.filter vf_used (files s)) = size M.
Proof.
  intros []. set (ns := map (fun f => c_str (vf_name f)) (List.filter vf_used (files s))).
  assert (Hlen : length (List.filter vf_used (files s)) = length ns) by (unfold ns; by rewrite length_map).
  rewrite Hlen. destruct vr_heap0 as (cap & _ & Hfiles).
  assert (Hin : forall n, n ∈ ns <-> exists i f, files s !! i = Some f /\ vf_used f = true /\ c_str (vf_name f) = n).
  { intros n. unfold ns. rewrite list_elem_of_In, in_map_iff. split.
    - intros (f & <- & Hf). apply filter_In in Hf as [Hf Hu]. apply list_elem_of_In, list_elem_of_lookup_1 in Hf as [i Hi].
      eauto.
    - intros (i & f & Hi & Hu & <-). exists f. split; [done|]. apply filter_In. split; [|done].
      apply list_elem_of_In. by apply list_elem_of_lookup_2 in Hi. }
  assert (Hnd : NoDup ns).
  { unfold ns. clear - vr_unique0. assert (Hu : forall i j f g, files s !! i = Some f -> files s !! j = Some g ->
      vf_used f = true -> vf_used g = true -> c_str (vf_name f) = c_str (vf_name g) -> i = j) by exact vr_unique0.
    clear vr_unique0. induction (files s) as [|f fs IH]; [constructor|]. simpl.
    assert (IH' := IH (fun i j f g Hi Hj Huf Hug Heq => eq_add_S _ _ (Hu (S i) (S j) f g Hi Hj Huf Hug Heq))).
    destruct (vf_used f) eqn:Huf; [|done]. simpl. constructor; [|done]. rewrite list_elem_of_In, in_map_iff.
    intros (g & Heq & Hg). apply filter_In in Hg as [Hg Hug]. apply list_elem_of_In, list_elem_of_lookup_1 in Hg as [j Hj].
    by pose proof (Hu (S j) O g f Hj eq_refl Hug Huf Heq). }
  rewrite <- size_dom. rewrite <- (size_list_to_set (C := gset (list Z)) ns) by done. f_equal. apply leibniz_equiv.
  intros n. rewrite elem_of_list_to_set, elem_of_dom, Hin. split.
  - intros (i & f & Hi & Hu & <-). destruct (fo_content _ _ _ _ (Hfiles i f Hi Hu)) as (c & -> & _). eauto.
  - intros [c Hc]. by apply (vr_complete0 n c).
Qed.

Lemma rep_size s M F : vfs_rep s M F -> (size M <= VFS_MAX_FILES)%nat.
Proof.
  intros Hr. rewrite <- (used_count s M F Hr), <- (vr_length _ _ _ Hr). apply List.filter_length_le.
Qed.

Lemma all_used_size s M F :
  vfs_rep s M F -> vfs_find_free_slot s = None -> size M = VFS_MAX_FILES.
Proof.
  intros Hr Hf. rewrite <- (used_count s M F Hr), <- (vr_length _ _ _ Hr).
  assert (Hall : forall f, f ∈ files s -> vf_used f = true).
  { intros f Hin. apply list_elem_of_lookup_1 in Hin as [i Hi]. pose proof (lookup_lt_Some _ _ _ Hi) as Hlt.
    rewrite (vr_length _ _ _ Hr) in Hlt. pose proof (proj1 (find_seq_None _ _ _) Hf i ltac:(lia)) as Hu. cbn in Hu.
    apply negb_false_iff in Hu. unfold file_at in Hu. by rewrite Hi in Hu. }
  clear Hf Hr. induction (files s) as [|f fs IH]; [done|]. simpl. rewrite Hall by apply list_elem_of_here. simpl.
  f_equal. apply IH. intros g Hg. apply Hall. by apply list_elem_of_further.
Qed.


(** A string stored in a block of its own. *)
Lemma store_string h L buf sz c :
  kh_rep h ((buf, sz) :: L) -> Forall is_byte c -> Z.of_nat (length c) + 1 <= sz ->
  let h' := store_bytes buf (c ++ [0]) h in
  kh_rep h' ((buf, sz) :: L) /\ holds h' buf c /\ kh_same L h h'.
Proof.
  intros Hrep Hby Hsz.
  assert (Hbz : Forall is_byte (c ++ [0])) by (apply Forall_app; split; [done|by repeat constructor]).
  destruct (store_bytes_ok (c ++ [0]) buf buf sz h ((buf, sz) :: L)) as (Hr2 & Hv & Ho);
    auto; [apply list_elem_of_here|lia|rewrite length_app; simpl; lia|].
  split_and!; auto. intros p n a Hp Ha. apply Ho. rewrite length_app. simpl.
  destruct (kh_live_disjoint _ _ _ _ _ _ Hrep Hp); lia.
Qed.

(** The first half of [vfs_write_file]: the contents in a fresh block. *)
Lemma write_buffer s M F data buf h :
  vfs_rep s M F -> Forall is_byte (c_str data) -> str_len data < 4294967295 ->
  kh_malloc (str_len data ⊞ 1) (vfs_heap s) = (buf, h) ->
  (buf = 0 -> vfs_rep (set_vfs_heap s h) M F) /\
  (buf <> 0 -> exists sz, let h' := store_bytes buf (c_str data ++ [0]) h in
     vfs_rep (set_vfs_heap s h') M ((buf, sz) :: F) /\ holds h' buf (c_str data) /\
     Z.of_nat (length (c_str data)) + 1 <= sz /\ kh_same F (vfs_heap s) h').
Proof.
  intros Hr Hby Hlen Em. rewrite str_len_eq in *. rewrite u32_small in Em by lia.
  assert (Hu : is_u32 (Z.of_nat (length (c_str data)) + 1)) by (unfold is_u32; lia).
  pose proof Hr as []. destruct vr_heap0 as (cap & Hrep & Hfiles).
  destruct (kh_malloc_ok _ _ _ _ _ Hrep Hu Em) as [Hsame Hm]. split.
  - intros ->. destruct Hm as [[_ Hrep']|(sz & _ & Hrep')].
    + apply (rep_heap s M F F cap); auto. intros p n a Hp. apply Hsame. apply elem_of_app. by left.
    + exfalso. assert (Hin : (0, sz) ∈ (0, sz) :: blocks cap (files s) ++ F) by apply list_elem_of_here.
      destruct (kh_live_range _ _ _ _ Hrep' Hin). lia.
  - intros Hne. destruct Hm as [[? _]|(sz & Hsz & Hrep1)]; [done|]. exists sz. cbv zeta.
    destruct (store_string _ _ _ _ _ Hrep1 Hby Hsz) as (Hrep2 & Hh & Hsame2).
    split_and!; [|exact Hh|lia|].
    + apply (rep_heap s M F _ cap); auto.
      * rewrite <- (Permutation_middle (blocks cap (files s))). exact Hrep2.
      * intros p n a Hp Ha. rewrite (Hsame2 p n), (Hsame p n); auto; apply elem_of_app; by left.
    + intros p n a Hp Ha. rewrite (Hsame2 p n), (Hsame p n); auto; apply elem_of_app; by right.
Qed.

Lemma take_c_str data : take (Z.to_nat (str_len data)) data = c_str data.
Proof.
  rewrite str_len_eq, Nat2Z.id. induction data as [|c data IH]; [done|]. simpl. destruct (c =? 0); [done|].
  simpl. by rewrite IH.
Qed.

(** The block set aside is released when there is no slot. *)
Lemma drop_buffer s M F buf sz :
  vfs_rep s M ((buf, sz) :: F) -> vfs_rep (set_vfs_heap s (kh_free buf (vfs_heap s))) M F.
Proof.
  intros Hr. destruct (vr_heap _ _ _ Hr) as (cap & Hrep & Hfiles). rewrite <- (Permutation_middle (blocks cap (files s))) in Hrep.
  destruct (kh_free_ok _ _ _ _ Hrep) as [Hrep' Hsame]. apply (rep_heap s M ((buf, sz) :: F) F cap); auto.
  intros p n a Hp. apply Hsame. apply elem_of_app. by left.
Qed.

Lemma file_data_nonzero s M F i f :
  vfs_rep s M F -> files s !! i = Some f -> vf_used f = true -> vf_data f <> 0.
Proof.
  intros Hr Hi Hu. destruct (vr_heap _ _ _ Hr) as (cap & Hrep & _).
  assert (Hin : (vf_data f, cap (vf_data f)) ∈ blocks cap (files s) ++ F)
    by (apply elem_of_app; left; by apply (block_in cap _ i)).
  destruct (kh_live_range _ _ _ _ Hrep Hin). lia.
Qed.

Lemma write_cases s M F name data :
  vfs_rep s M F -> vfs_name_valid (Some name) = true -> Forall is_byte (c_str data) -> str_len data < 4294967295 ->
  exists ok s', vfs_write_file (Some name) (Some data) s = (ok, s') /\
    vfs_rep s' (if ok then <[c_str name := c_str data]> M else M) F /\
    (ok = false -> fst (kh_malloc (str_len data ⊞ 1) (vfs_heap s)) = 0 \/
                   (M !! c_str name = None /\ size M = VFS_MAX_FILES)).
Proof.
  intros Hr Hv Hby Hlen. unfold vfs_write_file. rewrite (vr_ready _ _ _ Hr), Hv. cbn [negb].
  destruct (kh_malloc (str_len data ⊞ 1) (vfs_heap s)) as [buf h] eqn:Em.
  destruct (write_buffer s M F data buf h Hr Hby Hlen Em) as [Hfail Hsucc].
  destruct (Z.eqb_spec buf 0) as [->|Hb].
  { exists false, (set_vfs_heap s h). split; [done|]. split; [by apply Hfail|auto]. }
  destruct (Hsucc Hb) as (sz & Hr1 & Hholds & Hsz & _). clear Hfail Hsucc. rewrite take_c_str.
  change (vfs_heap (set_vfs_heap s h)) with h. set (h1 := store_bytes buf (c_str data ++ [0]) h) in *.
  change (set_vfs_heap (set_vfs_heap s h) h1) with (set_vfs_heap s h1).
  set (s1 := set_vfs_heap s h1) in *. change h1 with (vfs_heap s1) in Hholds. clearbody s1. clear h1.
  apply name_valid_spec in Hv as [Hne Hnl]. rewrite str_len_eq.
  pose proof (find_file_cases s1 M _ name Hr1) as Hfind.
  destruct (vfs_find_file name s1) as [i|].
  - destruct Hfind as (Hi & Hlk & Hu & Hn). eexists true, _. split; [reflexivity|]. split; [|done].
    rewrite (proj2 (Z.eqb_neq _ 0)) by exact (file_data_nonzero s1 M _ i _ Hr1 Hlk Hu). cbn [negb].
    pose proof (put_ok s1 M F buf sz (c_str data) i (file_at s1 i) (vf_name (file_at s1 i)) Hr1 Hholds Hby
      (c_str_nonzero _) Hsz Hlk) as Hput. rewrite Hu, Hn in Hput. rewrite Hu. apply Hput; auto.
    exact (proj1 (Forall_lookup _ _) (vr_names _ _ _ Hr1) i _ Hlk).
  - destruct (vfs_find_free_slot s1) as [i|] eqn:Ef.
    + unfold vfs_find_free_slot in Ef. apply find_seq_Some in Ef as (Hi & Hu & _). apply negb_true_iff in Hu.
      assert (Hlk : files s1 !! i = Some (file_at s1 i)) by (apply (file_lookup s1 M ((buf, sz) :: F)); [done|lia]).
      pose proof (proj1 (Forall_lookup _ _) (vr_names _ _ _ Hr1) i _ Hlk) as Hl32. cbn in Hl32.
      destruct (str_copy_spec (vf_name (file_at s1 i)) VFS_NAME_MAX name) as (nm & -> & Hnm & Hnml);
        [rewrite Hl32; unfold VFS_NAME_MAX; lia|].
      rewrite take_ge in Hnm by (unfold VFS_NAME_MAX in *; lia). cbn [snd].
      eexists true, _. split; [reflexivity|]. split; [|done].
      pose proof (put_ok s1 M F buf sz (c_str data) i (file_at s1 i) nm Hr1 Hholds Hby (c_str_nonzero _) Hsz Hlk) as Hput.
      rewrite Hu, Hnm in Hput. apply Hput; auto. by rewrite Hnml.
    + exists false, (set_vfs_heap s1 (kh_free buf (vfs_heap s1))). split; [done|]. split; [by apply (drop_buffer s1 M F buf sz)|].
      intros _. right. split; [done|]. by apply (all_used_size s1 M _ Hr1).
Qed.

Lemma read_into_cases s M F name out n :
  vfs_rep s M F -> vfs_name_valid (Some name) = true -> (0 < n <= length out)%nat ->
  match M !! c_str name with
  | None => vfs_read_file_into (Some name) (Some out) n s = (-1, Some out)
  | Some c => exists out', vfs_read_file_into (Some name) (Some out) n s = (Z.of_nat (length (c_str out')), Some out') /\
                           c_str out' = take (n - 1) c /\ length out' = length out
  end.
Proof.
  intros Hr Hv Hn. unfold vfs_read_file_into. rewrite (vr_ready _ _ _ Hr), Hv. cbn [negb orb].
  rewrite (proj2 (Nat.eqb_neq n 0)) by lia. pose proof (find_file_cases s M F name Hr) as Hfind.
  destruct (vfs_find_file name s) as [i|].
  - destruct Hfind as (Hi & Hlk & Hu & Hnm). destruct (vr_heap _ _ _ Hr) as (cap & _ & Hfiles).
    destruct (fo_content _ _ _ _ (Hfiles i _ Hlk Hu)) as (c & HM & _ & Hnz & _ & _ & Hh). rewrite Hnm in HM. rewrite HM.
    rewrite (proj2 (Z.eqb_neq _ 0)) by exact (file_data_nonzero s M F i _ Hr Hlk Hu).
    destruct (str_copy_spec out n (load_bytes (vf_data (file_at s i)) n (vfs_heap s))) as (out' & -> & Ho & Hl); [done|].
    exists out'. split; [done|]. split; [|done]. by rewrite Ho, (load_string _ _ _ c).
  - by rewrite Hfind.
Qed.

(** ** Theorems *)

(** C32. Refinement: [vfs_write_file] with a valid name is insertion into the map from
    names to contents when it returns 1, and leaves the map as it is when it returns 0,
    which happens only when the heap has no block for the contents or when the name is
    new and all 64 slots are taken. An invalid name is refused with nothing changed. *)
Theorem vfs_write_refines_insert s M F name data :
  vfs_rep s M F -> Forall is_byte (c_str data) -> str_len data < 4294967295 ->
  (vfs_name_valid (Some name) = true ->
   exists ok s', vfs_write_file (Some name) (Some data) s = (ok, s') /\
     vfs_rep s' (if ok then <[c_str name := c_str data]> M else M) F /\
     (ok = false -> fst (kh_malloc (str_len data ⊞ 1) (vfs_heap s)) = 0 \/
                    (M !! c_str name = None /\ size M = VFS_MAX_FILES))) /\
  (vfs_name_valid (Some name) = false -> vfs_write_file (Some name) (Some data) s = (false, s)).
Proof.
  intros Hr Hby Hlen. split; [intros Hv; by apply write_cases|].
  intros Hv. unfold vfs_write_file. by rewrite (vr_ready _ _ _ Hr), Hv.
Qed.

(** C33. [vfs_read_file_into] is lookup in the map: it fills the buffer with as much of
    the contents as fits, terminated, and returns the length; for an absent name it
    returns -1 and leaves the buffer alone. [vfs_file_count] is the size of the map. *)
Theorem vfs_read_refines_lookup s M F name out n :
  vfs_rep s M F -> vfs_name_valid (Some name) = true -> (0 < n <= length out)%nat ->
  vfs_file_count s = Z.of_nat (size M) /\
  match M !! c_str name with
  | None => vfs_read_file_into (Some name) (Some out) n s = (-1, Some out)
  | Some c => exists out', vfs_read_file_into (Some name) (Some out) n s = (Z.of_nat (length (c_str out')), Some out') /\
                           c_str out' = take (n - 1) c /\ length out' = length out
  end.
Proof.
  intros Hr Hv Hn. split; [|by apply read_into_cases with F].
  unfold vfs_file_count. by rewrite (vr_ready _ _ _ Hr), (used_count s M F Hr).
Qed.

(** Round trip: after a successful write, reading that name into a large enough
    buffer gives the data written, and reading any other name gives what it gave before. *)
Theorem vfs_write_read_roundtrip s M F name data s1 out n :
  vfs_rep s M F -> vfs_name_valid (Some name) = true -> Forall is_byte (c_str data) -> str_len data < 4294967295 ->
  vfs_write_file (Some name) (Some data) s = (true, s1) ->
  (length (c_str data) < n <= length out)%nat ->
  (exists out', vfs_read_file_into (Some name) (Some out) n s1 = (str_len data, Some out') /\ c_str out' = c_str data) /\
  (forall other, vfs_name_valid (Some other) = true -> c_str other <> c_str name ->
     exists r o o', vfs_read_file_into (Some other) (Some out) n s = (r, Some o) /\
                    vfs_read_file_into (Some other) (Some out) n s1 = (r, Some o') /\ c_str o = c_str o').
Proof.
  intros Hr Hv Hby Hlen Hw Hn. destruct (write_cases s M F name data Hr Hv Hby Hlen) as (ok & s1' & E & Hr1 & _).
  rewrite Hw in E. injection E as <- <-. assert (Hn' : (0 < n <= length out)%nat) by lia. split.
  - pose proof (read_into_cases s1 _ F name out n Hr1 Hv Hn') as Hread. rewrite lookup_insert_eq in Hread.
    destruct Hread as (out' & -> & Ho & _). exists out'. rewrite take_ge in Ho by lia. by rewrite Ho, str_len_eq.
  - intros other Hvo Hne. pose proof (read_into_cases s M F other out n Hr Hvo Hn') as Hread.
    pose proof (read_into_cases s1 _ F other out n Hr1 Hvo Hn') as Hread1.
    rewrite lookup_insert_ne in Hread1 by auto. destruct (M !! c_str other) as [c|].
    + destruct Hread as (o & -> & Ho & _), Hread1 as (o' & -> & Ho' & _). rewrite Ho, Ho'. exists (Z.of_nat (length (take (n - 1) c))), o, o'.
      rewrite Ho, Ho'. done.
    + rewrite Hread, Hread1. exists (-1), out, out. done.
Qed.


End Invariant.

(** ** Witnesses *)

(** An empty file system over the heap of [demo_heap]. *)
Definition demo_vfs : vfs (kheap page_pool) := Vfs demo_heap (replicate 64 (VfsFile (replicate 32 0) 0 0 false)) true.

#[local] Opaque demo_heap.

Lemma demo_files_unused i f : files demo_vfs !! i = Some f -> vf_used f = false.
Proof. intros Hi. by apply lookup_replicate_1 in Hi as [-> _]. Qed.

Lemma demo_vfs_rep : vfs_rep demo_vfs ∅ [].
Proof.
  split; [done|done|by apply Forall_replicate| | |by intros n c Hn].
  - exists (fun _ => 0). split.
    + exists [(65520, true)]. split; [exact demo_heap_rep|done].
    + intros i f Hi Hu. by rewrite (demo_files_unused i f Hi) in Hu.
  - intros i j f g Hi _ Hu. by rewrite (demo_files_unused i f Hi) in Hu.
Qed.

Lemma demo_bytes : Forall is_byte (c_str [104; 105; 0]).
Proof. repeat constructor; unfold is_byte; lia. Qed.

Lemma demo_write : exists s1, vfs_write_file (Some [97; 0]) (Some [104; 105; 0]) demo_vfs = (true, s1).
Proof.
  destruct (write_cases demo_vfs ∅ [] [97; 0] [104; 105; 0] demo_vfs_rep) as (ok & s1 & E & _ & Hf);
    [reflexivity|exact demo_bytes|reflexivity|].
  destruct ok; [by exists s1|]. exfalso. destruct (Hf eq_refl) as [Hz|[_ Hsz]]; [|done].
  destruct (kmalloc_fits demo_heap [(65520, true)] 3 KHEAP_START [(8, false); (65496, true)]) as (s2 & E2 & _);
    [exact demo_heap_rep|lia|reflexivity|].
  change (str_len [104; 105; 0] ⊞ 1) with 3 in Hz. cbn [kh_malloc kheap_kernel_heap vfs_heap demo_vfs] in Hz.
  rewrite E2 in Hz. discriminate Hz.
Qed.

Lemma vfs_write_refines_insert_witness :
  exists ok s', vfs_write_file (Some [97; 0]) (Some [104; 105; 0]) demo_vfs = (ok, s') /\
                vfs_rep s' (if ok then <[[97] := [104; 105]]> ∅ else ∅) [].
Proof.
  destruct (vfs_write_refines_insert demo_vfs ∅ [] [97; 0] [104; 105; 0] demo_vfs_rep demo_bytes) as [Hw _]; [reflexivity|].
  destruct (Hw eq_refl) as (ok & s' & E & Hr & _). exists ok, s'. split; [exact E|exact Hr].
Defined.

Lemma vfs_read_refines_lookup_witness :
  vfs_read_file_into (Some [97; 0]) (Some [1; 2; 3]) 3 demo_vfs = (-1, Some [1; 2; 3]).
Proof.
  destruct (vfs_read_refines_lookup demo_vfs ∅ [] [97; 0] [1; 2; 3] 3 demo_vfs_rep) as [_ Hread];
    [reflexivity|simpl; lia|]. exact Hread.
Defined.

Lemma vfs_write_read_roundtrip_witness :
  exists s1 out', vfs_write_file (Some [97; 0]) (Some [104; 105; 0]) demo_vfs = (true, s1) /\
    vfs_read_file_into (Some [97; 0]) (Some [1; 2; 3; 4]) 4 s1 = (2, Some out') /\ c_str out' = [104; 105].
Proof.
  destruct demo_write as (s1 & E).
  destruct (vfs_write_read_roundtrip demo_vfs ∅ [] [97; 0] [104; 105; 0] s1 [1; 2; 3; 4] 4 demo_vfs_rep)
    as [(out' & E2 & Ho) _]; [reflexivity|exact demo_bytes|reflexivity|exact E|simpl; lia|].
  exists s1, out'. split; [exact E|]. split; [exact E2|exact Ho].
Defined.
