(* ===== verification/Keyboard.v ===== *)
(** kernel/keyboard.c: scancodes to characters, and the ring buffer between the
    interrupt handler and the readers.

    The abstract view of the buffer is a queue of at most 255 characters; the
    handler's state machine has the flags [shift] and [extended]. *)
From Stdlib Require Import ZArith Lia Bool List.
From stdpp Require Import base list numbers option.
From S2P Require Import Prelude.
#[local] Open Scope Z_scope.

(** ** Data *)

Definition KEYBOARD_BUFFER_SIZE : nat := 256.
Definition KEY_SPECIAL_UP : Z := 17.
Definition KEY_SPECIAL_DOWN : Z := 18.
Definition KEY_SPECIAL_LEFT : Z := 19.
Definition KEY_SPECIAL_RIGHT : Z := 20.
Definition KEY_SPECIAL_DELETE : Z := 21.

(** The entries of the arrays up to 0x39; the others are 0. *)
Definition keymap : list Z :=
  [0; 0; 49; 50; 51; 52; 53; 54; 55; 56; 57; 48; 45; 61; 8; 9; 113; 119; 101; 114; 116; 121; 117; 105; 111; 112;
   91; 93; 10; 0; 97; 115; 100; 102; 103; 104; 106; 107; 108; 59; 39; 96; 0; 92; 122; 120; 99; 118; 98; 110; 109;
   44; 46; 47; 0; 0; 0; 32].
Definition keymap_shift : list Z :=
  [0; 0; 33; 64; 35; 36; 37; 94; 38; 42; 40; 41; 95; 43; 8; 9; 81; 87; 69; 82; 84; 89; 85; 73; 79; 80;
   123; 125; 10; 0; 65; 83; 68; 70; 71; 72; 74; 75; 76; 58; 34; 126; 0; 124; 90; 88; 67; 86; 66; 78; 77;
   60; 62; 63; 0; 0; 0; 32].
Definition key_at (m : list Z) (scancode : Z) : Z := nth (Z.to_nat scancode) m 0.

Record keyboard := Keyboard {
  shift : bool;
  extended : bool;
  buffer_head : Z;
  buffer_tail : Z;
  buffer : list Z;
}.

(** ** Operations *)

Definition u8 (x : Z) : Z := x `mod` 256.

Definition set_flags (s : keyboard) (sh ex : bool) : keyboard :=
  Keyboard sh ex (buffer_head s) (buffer_tail s) (buffer s).

Definition keyboard_buffer_push (c : Z) (s : keyboard) : keyboard :=
  let next := u8 (buffer_head s + 1) in
  if next =? buffer_tail s then s else
  Keyboard (shift s) (extended s) next (buffer_tail s) (<[Z.to_nat (buffer_head s) := c]> (buffer s)).

Definition keyboard_handle_scancode (scancode : Z) (s : keyboard) : keyboard :=
  if scancode =? 224 then set_flags s (shift s) true else
  if extended s then
    let s := set_flags s (shift s) false in
    if negb (Z.land scancode 128 =? 0) then s else
    if scancode =? 72 then keyboard_buffer_push KEY_SPECIAL_UP s else
    if scancode =? 80 then keyboard_buffer_push KEY_SPECIAL_DOWN s else
    if scancode =? 75 then keyboard_buffer_push KEY_SPECIAL_LEFT s else
    if scancode =? 77 then keyboard_buffer_push KEY_SPECIAL_RIGHT s else
    if scancode =? 83 then keyboard_buffer_push KEY_SPECIAL_DELETE s else s
  else
  if (scancode =? 42) || (scancode =? 54) then set_flags s true (extended s) else
  if (scancode =? 170) || (scancode =? 182) then set_flags s false (extended s) else
  if negb (Z.land scancode 128 =? 0) then s else
  let c := if shift s then key_at keymap_shift scancode else key_at keymap scancode in
  if negb (c =? 0) then keyboard_buffer_push c s else s.

(** [status] and [data] are what the ports 0x64 and 0x60 read. *)
Definition keyboard_isr (status data : Z) (s : keyboard) : keyboard :=
  if Z.land status 1 =? 0 then s else keyboard_handle_scancode data s.

Definition keyboard_buffer_reset (s : keyboard) : keyboard := Keyboard false false 0 0 (buffer s).

Definition keyboard_try_getchar (s : keyboard) : Z * keyboard :=
  if buffer_head s =? buffer_tail s then (0, s) else
  (nth (Z.to_nat (buffer_tail s)) (buffer s) 0,
   Keyboard (shift s) (extended s) (buffer_head s) (u8 (buffer_tail s + 1)) (buffer s)).

(** ** Abstract view *)

Definition buffered (s : keyboard) : Z := (buffer_head s - buffer_tail s) `mod` 256.
Definition char_in (s : keyboard) (k : nat) : Z :=
  nth (Z.to_nat ((buffer_tail s + Z.of_nat k) `mod` 256)) (buffer s) 0.
Definition queue (s : keyboard) : list Z := map (char_in s) (seq 0 (Z.to_nat (buffered s))).

(** 0 is the answer for an empty buffer, so no 0 may be queued. *)
Record keyboard_ok (s : keyboard) : Prop := {
  kb_head : 0 <= buffer_head s < 256;
  kb_tail : 0 <= buffer_tail s < 256;
  kb_length : length (buffer s) = KEYBOARD_BUFFER_SIZE;
  kb_chars : Forall (fun c => c <> 0) (queue s);
}.

(** The reference: what one scancode means in a state of the flags: the new flags
    and the character typed. *)
Definition special_key (scancode : Z) : option Z :=
  if scancode =? 72 then Some KEY_SPECIAL_UP else if scancode =? 80 then Some KEY_SPECIAL_DOWN else
  if scancode =? 75 then Some KEY_SPECIAL_LEFT else if scancode =? 77 then Some KEY_SPECIAL_RIGHT else
  if scancode =? 83 then Some KEY_SPECIAL_DELETE else None.

Definition decode (sh ex : bool) (scancode : Z) : bool * bool * option Z :=
  if scancode =? 224 then (sh, true, None) else
  if ex then (sh, false, if 128 <=? scancode then None else special_key scancode) else
  if (scancode =? 42) || (scancode =? 54) then (true, false, None) else
  if (scancode =? 170) || (scancode =? 182) then (false, false, None) else
  if 128 <=? scancode then (sh, false, None) else
  let c := key_at (if sh then keymap_shift else keymap) scancode in
  (sh, false, if c =? 0 then None else Some c).

(** What happens to the queue: a full one drops the character. *)
Definition enqueue (q : list Z) (c : option Z) : list Z :=
  match c with None => q | Some c => if (length q <? 255)%nat then q ++ [c] else q end.

(** ** Lemmas *)

Lemma queue_length s : length (queue s) = Z.to_nat (buffered s).
Proof. unfold queue. by rewrite length_map, length_seq. Qed.

Lemma buffered_range s : 0 <= buffered s < 256.
Proof. unfold buffered. apply Z.mod_pos_bound. lia. Qed.

Lemma break_code_bit scancode : 0 <= scancode < 256 -> negb (Z.land scancode 128 =? 0) = (128 <=? scancode).
Proof.
  intros Hs. change 128 with (Z.shiftl 1 7) at 1. rewrite bit_test by lia.
  rewrite Z.testbit_eqb by lia. change (2 ^ 7) with 128.
  destruct (Z.leb_spec 128 scancode), (Z.eqb_spec ((scancode / 128) `mod` 2) 1); try done; exfalso;
    Z.div_mod_to_equations; lia.
Qed.

Lemma push_queue c s :
  keyboard_ok s -> c <> 0 ->
  keyboard_ok (keyboard_buffer_push c s) /\ queue (keyboard_buffer_push c s) = enqueue (queue s) (Some c) /\
  shift (keyboard_buffer_push c s) = shift s /\ extended (keyboard_buffer_push c s) = extended s.
Proof.
  intros Hok Hc. pose proof Hok as []. unfold keyboard_buffer_push, enqueue. rewrite queue_length.
  pose proof (buffered_range s) as Hb. unfold u8.
  assert (Hfull : ((buffer_head s + 1) `mod` 256 =? buffer_tail s) = negb (Z.to_nat (buffered s) <? 255)%nat).
  { unfold buffered in *. destruct (Nat.ltb_spec (Z.to_nat ((buffer_head s - buffer_tail s) `mod` 256)) 255);
      [apply Z.eqb_neq|apply Z.eqb_eq]; Z.div_mod_to_equations; lia. }
  rewrite Hfull. destruct (Nat.ltb_spec (Z.to_nat (buffered s)) 255) as [Hlt|Hge]; cbn [negb]; [|done].
  set (s' := Keyboard _ _ _ _ _).
  assert (Hb' : buffered s' = buffered s + 1).
  { unfold buffered in *. subst s'. cbn. Z.div_mod_to_equations. lia. }
  assert (Hq : queue s' = queue s ++ [c]).
  { unfold queue. rewrite Hb', Z2Nat.inj_add by lia. change (Z.to_nat 1) with 1%nat. rewrite seq_app, map_app. f_equal.
    - apply map_ext_in. intros k Hk. apply in_seq in Hk. unfold char_in. subst s'. cbn.
      rewrite !nth_lookup, list_lookup_insert_ne; [done|]. unfold buffered in *. Z.div_mod_to_equations. lia.
    - cbn [map seq]. f_equal. unfold char_in. subst s'. cbn.
      replace (Z.to_nat ((buffer_tail s + Z.of_nat (Z.to_nat (buffered s))) `mod` 256)) with (Z.to_nat (buffer_head s)).
      + rewrite nth_lookup, list_lookup_insert_eq; [done|]. rewrite kb_length0. unfold KEYBOARD_BUFFER_SIZE. lia.
      + f_equal. rewrite Z2Nat.id by lia. unfold buffered in *. Z.div_mod_to_equations. lia. }
  split_and!; [|exact Hq|done|done]. split; cbn.
  - apply Z.mod_pos_bound. lia.
  - done.
  - by rewrite length_insert.
  - rewrite Hq. apply Forall_app. split; [done|]. by repeat constructor.
Qed.

Lemma set_flags_queue s sh ex : queue (set_flags s sh ex) = queue s.
Proof. done. Qed.

Lemma set_flags_ok s sh ex : keyboard_ok s -> keyboard_ok (set_flags s sh ex).
Proof. by intros []. Qed.

(** One scancode: flags, queue and invariant. *)
Definition typed (s s' : keyboard) (r : bool * bool * option Z) : Prop :=
  keyboard_ok s' /\ shift s' = fst (fst r) /\ extended s' = snd (fst r) /\ queue s' = enqueue (queue s) (snd r).

Lemma typed_flags s sh ex : keyboard_ok s -> typed s (set_flags s sh ex) (sh, ex, None).
Proof. intros Hok. split_and!; [by apply set_flags_ok|done|done|done]. Qed.

Lemma typed_push s c sh ex :
  keyboard_ok s -> c <> 0 -> typed s (keyboard_buffer_push c (set_flags s sh ex)) (sh, ex, Some c).
Proof.
  intros Hok Hc. destruct (push_queue c (set_flags s sh ex) (set_flags_ok s sh ex Hok) Hc) as (Hok' & Hq & Hs & He).
  split_and!; auto.
Qed.

Lemma set_flags_id s : set_flags s (shift s) (extended s) = s.
Proof. by destruct s. Qed.

Lemma scancode_cases scancode s :
  keyboard_ok s -> 0 <= scancode < 256 ->
  typed s (keyboard_handle_scancode scancode s) (decode (shift s) (extended s) scancode).
Proof.
  intros Hok Hsc. unfold keyboard_handle_scancode, decode. rewrite break_code_bit by done.
  destruct (scancode =? 224); [by apply typed_flags|]. destruct (extended s) eqn:Hex.
  - destruct (128 <=? scancode); [by apply typed_flags|]. unfold special_key.
    repeat (match goal with |- context [if ?b then _ else _] => destruct b end; [by apply typed_push|]).
    by apply typed_flags.
  - destruct (_ || _); [by apply typed_flags|]. destruct (_ || _); [by apply typed_flags|].
    destruct (128 <=? scancode).
    { rewrite <- (set_flags_id s) at 2. rewrite Hex. by apply typed_flags. }
    assert ((if shift s then key_at keymap_shift scancode else key_at keymap scancode) =
            key_at (if shift s then keymap_shift else keymap) scancode) as -> by (by destruct (shift s)).
    destruct (Z.eqb_spec (key_at (if shift s then keymap_shift else keymap) scancode) 0) as [Hz|Hz]; cbn [negb].
    + rewrite <- (set_flags_id s) at 2. rewrite Hex. by apply typed_flags.
    + rewrite <- (set_flags_id s) at 3. rewrite Hex. by apply typed_push.
Qed.

Lemma getchar_cases s :
  keyboard_ok s ->
  match queue s with
  | [] => keyboard_try_getchar s = (0, s)
  | c :: q => exists s', keyboard_try_getchar s = (c, s') /\ c <> 0 /\ keyboard_ok s' /\ queue s' = q /\
                         shift s' = shift s /\ extended s' = extended s
  end.
Proof.
  intros Hok. pose proof Hok as []. unfold keyboard_try_getchar. pose proof (buffered_range s) as Hb.
  destruct (Z.eqb_spec (buffer_head s) (buffer_tail s)) as [He|Hne].
  { unfold queue. assert (buffered s = 0) as -> by (unfold buffered; rewrite He, Z.sub_diag; done). done. }
  assert (Hpos : 0 < buffered s) by (unfold buffered in *; Z.div_mod_to_equations; lia).
  set (s' := Keyboard _ _ _ _ _).
  assert (Hb' : buffered s' = buffered s - 1).
  { unfold buffered, u8 in *. subst s'. cbn. unfold u8. Z.div_mod_to_equations. lia. }
  assert (Hq : queue s = nth (Z.to_nat (buffer_tail s)) (buffer s) 0 :: queue s').
  { unfold queue. rewrite Hb'. replace (Z.to_nat (buffered s)) with (S (Z.to_nat (buffered s - 1))) by lia.
    cbn [seq map]. f_equal.
    - unfold char_in. by rewrite Z.add_0_r, Z.mod_small.
    - rewrite <- seq_shift, map_map. apply map_ext_in. intros k Hk. unfold char_in. subst s'. cbn [buffer_tail buffer].
      unfold u8. rewrite Zplus_mod_idemp_l. do 3 f_equal. lia. }
  rewrite Hq in kb_chars0 |- *. apply Forall_cons_1 in kb_chars0 as [Hc Hrest].
  exists s'. split; [done|]. split; [done|]. split; [|done]. split; auto. subst s'. cbn. apply Z.mod_pos_bound. lia.
Qed.

(** ** Theorems *)

(** C34. [keyboard_isr] with a byte waiting implements the reference decoder: the flags
    follow the make and break codes of the shift keys and the 0xE0 prefix, a key that has
    a character appends it to the queue unless 255 are waiting, and everything else
    (releases, unmapped keys) leaves the queue alone. The queue never holds a 0. *)
Theorem keyboard_isr_refines_decode s status scancode :
  keyboard_ok s -> 0 <= scancode < 256 ->
  let s' := keyboard_isr status scancode s in
  let '(sh, ex, c) := decode (shift s) (extended s) scancode in
  (Z.testbit status 0 = false -> s' = s) /\
  (Z.testbit status 0 = true ->
   keyboard_ok s' /\ shift s' = sh /\ extended s' = ex /\ queue s' = enqueue (queue s) c).
Proof.
  intros Hok Hsc. pose proof (scancode_cases scancode s Hok Hsc) as Ht. unfold keyboard_isr.
  pose proof (bit_test status 0 ltac:(lia)) as Hb. change (Z.shiftl 1 0) with 1 in Hb.
  destruct (decode _ _ _) as [[sh ex] c]. destruct (Z.land status 1 =? 0); rewrite <- Hb; cbn [negb]; split; try done.
Qed.

(** Reading [n] times. *)
Fixpoint getchars (n : nat) (s : keyboard) : list Z * keyboard :=
  match n with
  | O => ([], s)
  | S n' => let '(c, s) := keyboard_try_getchar s in let '(cs, s) := getchars n' s in (c :: cs, s)
  end.

(** The buffer is a queue: reads return the characters waiting, each once and in
    the order they were typed, and then 0, the empty answer, with nothing changed. *)
Theorem keyboard_getchar_fifo s n :
  keyboard_ok s -> (n <= length (queue s))%nat ->
  exists s', getchars n s = (take n (queue s), s') /\ keyboard_ok s' /\ queue s' = drop n (queue s) /\
    (n = length (queue s) -> keyboard_try_getchar s' = (0, s')).
Proof.
  revert s. induction n as [|n IH]; intros s Hok Hn.
  - exists s. split_and!; auto. intros Hz. pose proof (getchar_cases s Hok) as Hg. by destruct (queue s).
  - pose proof (getchar_cases s Hok) as Hg. destruct (queue s) as [|c q] eqn:Hq; [simpl in Hn; lia|].
    destruct Hg as (s1 & E & _ & Hok1 & Hq1 & _). cbn [getchars]. rewrite E.
    destruct (IH s1 Hok1) as (s2 & E2 & Hok2 & Hq2 & Hend); [rewrite Hq1; simpl in Hn; lia|].
    rewrite E2. exists s2. rewrite Hq1 in *. split_and!; auto.
Qed.

(** ** Witnesses *)

(** Shift is held and nothing is typed yet. *)
Definition demo_keyboard : keyboard := Keyboard true false 255 255 (replicate 256 0).

Lemma demo_keyboard_ok : keyboard_ok demo_keyboard.
Proof. split; cbn; try lia; done. Qed.

Lemma keyboard_isr_refines_decode_witness : queue (keyboard_isr 1 30 demo_keyboard) = [65].
Proof.
  pose proof (keyboard_isr_refines_decode demo_keyboard 1 30 demo_keyboard_ok ltac:(lia)) as [_ Hq].
  destruct (Hq eq_refl) as (_ & _ & _ & ->). reflexivity.
Defined.

Lemma keyboard_getchar_fifo_witness :
  exists s', getchars 1 (keyboard_isr 1 30 demo_keyboard) = ([65], s') /\ keyboard_try_getchar s' = (0, s').
Proof.
  destruct (scancode_cases 30 demo_keyboard demo_keyboard_ok) as (Hok & _ & _ & Hq); [lia|].
  destruct (keyboard_getchar_fifo (keyboard_handle_scancode 30 demo_keyboard) 1 Hok) as (s' & E & _ & _ & Hend);
    [rewrite Hq; vm_compute; constructor|].
  exists s'. rewrite Hq in *. split; [exact E|]. apply Hend. reflexivity.
Defined.
