(* ===== verification/Loader.v ===== *)
(** kernel/process.c, the program loader: MARSHEX text to bytes, and ELF32
    executables into the one code page of a process.

    The program text is a C string. The image is the function from offsets to
    the bytes found there, also past its end: the loader reads it through a
    pointer. The destination is the process's virtual memory. *)
From Stdlib Require Import ZArith Lia Bool List.
From stdpp Require Import base gmap list numbers option.
From S2P Require Import Prelude CStr.
#[local] Open Scope Z_scope.

(** ** Constants *)

Definition PROCESS_USER_CODE_VADDR : Z := 1073741824.
Definition PROCESS_USER_STACK_TOP : Z := 1073750016.
Definition PROCESS_USER_IMAGE_MAX : Z := 16384.
Definition PROCESS_USER_CODE_SIZE : Z := 4096.
Definition PROCESS_USER_STACK_SIZE : Z := 4096.

Definition ELF_CLASS_32 : Z := 1.
Definition ELF_DATA_LE : Z := 1.
Definition ELF_VERSION_CURRENT : Z := 1.
Definition ELF_MACHINE_X86 : Z := 3.
Definition ELF_TYPE_EXEC : Z := 2.
Definition ELF_PT_LOAD : Z := 1.

(** ** MARSHEX text *)

(** The value of a digit, or [None] for the result 0. *)
Definition parse_hex_nibble (c : Z) : option Z :=
  if (48 <=? c) && (c <=? 57) then Some (c - 48) else
  if (97 <=? c) && (c <=? 102) then Some (10 + (c - 97)) else
  if (65 <=? c) && (c <=? 70) then Some (10 + (c - 65)) else None.

Definition is_ws (c : Z) : bool := (c =? 32) || (c =? 9) || (c =? 10) || (c =? 13).

Fixpoint skip_ws (p : list Z) : list Z :=
  match p with
  | c :: p' => if is_ws c then skip_ws p' else p
  | [] => []
  end.

Fixpoint str_eq_n (a b : list Z) (n : nat) : bool :=
  match n with
  | O => true
  | S n' => if negb (hd 0 a =? hd 0 b) then false else str_eq_n (tl a) (tl b) n'
  end.

(** "MARSHEX" *)
Definition marshex : list Z := [77; 65; 82; 83; 72; 69; 88].

(** One round of the loop: the rest of the text, the count and the array; the
    result is the count, or [None] for a failure, and the array. *)
Definition hex_body (code_cap : Z) (st : list Z * Z * list Z) : (list Z * Z * list Z) + (option Z * list Z) :=
  let '(p, count, code) := st in
  let p := skip_ws p in
  if nth 0 p 0 =? 0 then inr (Some count, code) else
  if nth 1 p 0 =? 0 then inr (None, code) else
  match parse_hex_nibble (nth 0 p 0), parse_hex_nibble (nth 1 p 0) with
  | Some hi, Some lo =>
      if code_cap <=? count then inr (None, code) else
      inl (tl (tl p), count ⊞ 1, <[Z.to_nat count := Z.lor (Z.shiftl hi 4) lo]> code)
  | _, _ => inr (None, code)
  end.

(** [Some n] is success with [*out_len = n]; the outer [None] is a loop that
    does not end. *)
Definition parse_user_image_hex (text : option (list Z)) (code : list Z) (code_cap : Z) : option (option Z * list Z) :=
  match text with
  | None => Some (None, code)
  | Some text =>
      if code_cap =? 0 then Some (None, code) else
      let p := skip_ws text in
      let p := if str_eq_n p marshex 7 then drop 7 p else p in
      match loop (S (length text)) (hex_body code_cap) (p, 0, code) with
      | None => None
      | Some (None, code) => Some (None, code)
      | Some (Some count, code) => Some (if count =? 0 then None else Some count, code)
      end
  end.

(** "app." *)
Definition app_prefix : list Z := [97; 112; 112; 46].

(** The name "app.<program>" in a buffer of 40 bytes, if it fits. *)
Definition alt_name (program_name : list Z) : option (list Z) :=
  if 4 + str_len program_name <? 40 then Some (app_prefix ++ c_str program_name) else None.

(** [read_file] is [vfs_read_file] with the string it points to. The result is
    1 with the length, 0 or -1. *)
Definition process_load_user_image_bytes_from_vfs (read_file : list Z -> option (list Z))
    (program_name : option (list Z)) (dst : list Z) (dst_cap : Z) : option (Z * option Z * list Z) :=
  match program_name with
  | None => Some (0, None, dst)
  | Some program_name =>
      if hd 0 program_name =? 0 then Some (0, None, dst) else
      let image_text :=
        match read_file program_name with
        | Some t => Some t
        | None => match alt_name program_name with Some n => read_file n | None => None end
        end in
      match image_text with
      | None => Some (0, None, dst)
      | Some t =>
          if str_len t <? 2 then Some (-1, None, dst) else
          match parse_user_image_hex (Some t) dst dst_cap with
          | None => None
          | Some (None, dst) => Some (-1, None, dst)
          | Some (Some n, dst) => Some (1, Some n, dst)
          end
      end
  end.

(** ** ELF images *)

Definition img16 (img : Z -> Z) (o : Z) : Z := img o + 256 * img (o + 1).
Definition img32 (img : Z -> Z) (o : Z) : Z := img16 img o + 65536 * img16 img (o + 2).

(** The fields of [elf32_ehdr_t], 52 bytes, and of the [elf32_phdr_t] at [o], 32
    bytes. *)
Definition EHDR_SIZE : Z := 52.
Definition PHDR_SIZE : Z := 32.
Definition e_ident (img : Z -> Z) (i : Z) : Z := img i.
Definition e_type (img : Z -> Z) : Z := img16 img 16.
Definition e_machine (img : Z -> Z) : Z := img16 img 18.
Definition e_version (img : Z -> Z) : Z := img32 img 20.
Definition e_entry (img : Z -> Z) : Z := img32 img 24.
Definition e_phoff (img : Z -> Z) : Z := img32 img 28.
Definition e_ehsize (img : Z -> Z) : Z := img16 img 40.
Definition e_phentsize (img : Z -> Z) : Z := img16 img 42.
Definition e_phnum (img : Z -> Z) : Z := img16 img 44.
Definition p_type (img : Z -> Z) (o : Z) : Z := img32 img o.
Definition p_offset (img : Z -> Z) (o : Z) : Z := img32 img (o + 4).
Definition p_vaddr (img : Z -> Z) (o : Z) : Z := img32 img (o + 8).
Definition p_filesz (img : Z -> Z) (o : Z) : Z := img32 img (o + 16).
Definition p_memsz (img : Z -> Z) (o : Z) : Z := img32 img (o + 20).

Definition elf_magic (img : Z -> Z) : bool :=
  (e_ident img 0 =? 127) && (e_ident img 1 =? 69) && (e_ident img 2 =? 76) && (e_ident img 3 =? 70).

Definition process_is_elf32_image (img : Z -> Z) (image_len : Z) : bool :=
  if image_len <? EHDR_SIZE then false else elf_magic img.

Fixpoint mem_copy_u8 (m : mem) (dst : Z) (src : Z -> Z) (from : Z) (n : nat) : mem :=
  match n with
  | O => m
  | S n' => mem_copy_u8 (wr8 m dst (src from)) (dst + 1) src (from + 1) n'
  end.

Fixpoint mem_zero_u8 (m : mem) (dst : Z) (n : nat) : mem :=
  match n with
  | O => m
  | S n' => mem_zero_u8 (wr8 m dst 0) (dst + 1) n'
  end.

(** The checks on the header: [false] is the return value 0. *)
Definition elf_header_ok (img : Z -> Z) (image_len : Z) : bool :=
  negb (image_len <? EHDR_SIZE) && elf_magic img &&
  (e_ident img 4 =? ELF_CLASS_32) && (e_ident img 5 =? ELF_DATA_LE) && (e_ident img 6 =? ELF_VERSION_CURRENT) &&
  (e_machine img =? ELF_MACHINE_X86) && (e_type img =? ELF_TYPE_EXEC) && (e_version img =? ELF_VERSION_CURRENT) &&
  (e_ehsize img =? EHDR_SIZE) && (e_phentsize img =? PHDR_SIZE) && negb (image_len <? e_phoff img) &&
  negb ((0 <? e_phnum img) && (image_len ⊟ (e_phnum img ⊠ e_phentsize img) <? e_phoff img)).

(** One program header: memory, [loaded_any] and [entry_in_load], or [None] with
    the memory for the return value 0. *)
Definition load_segment (img : Z -> Z) (image_len code code_vaddr code_size o : Z) (m : mem) (loaded entry_in : bool)
  : option (bool * bool) * mem :=
  if negb (p_type img o =? ELF_PT_LOAD) then (Some (loaded, entry_in), m) else
  if p_memsz img o =? 0 then (Some (loaded, entry_in), m) else
  if UINT32_MAX ⊟ p_memsz img o <? p_vaddr img o then (None, m) else
  if p_memsz img o <? p_filesz img o then (None, m) else
  if (image_len <? p_offset img o) || (image_len ⊟ p_offset img o <? p_filesz img o) then (None, m) else
  if p_vaddr img o <? code_vaddr then (None, m) else
  let seg_off := p_vaddr img o ⊟ code_vaddr in
  if (code_size <? seg_off) || (code_size ⊟ seg_off <? p_memsz img o) then (None, m) else
  let m := if 0 <? p_filesz img o
           then mem_copy_u8 m (code + seg_off) img (p_offset img o) (Z.to_nat (p_filesz img o)) else m in
  let m := if p_filesz img o <? p_memsz img o
           then mem_zero_u8 m (code + seg_off + p_filesz img o) (Z.to_nat (p_memsz img o ⊟ p_filesz img o)) else m in
  let entry_in := if (p_vaddr img o <=? e_entry img) && (e_entry img <? p_vaddr img o ⊞ p_memsz img o)
                  then true else entry_in in
  (Some (true, entry_in), m).

Definition phdr_at (img : Z -> Z) (i : Z) : Z := e_phoff img + i * e_phentsize img.

Fixpoint load_segments (img : Z -> Z) (image_len code code_vaddr code_size : Z) (idxs : list Z) (m : mem)
    (loaded entry_in : bool) : option (bool * bool) * mem :=
  match idxs with
  | [] => (Some (loaded, entry_in), m)
  | i :: idxs' =>
      match load_segment img image_len code code_vaddr code_size (phdr_at img i) m loaded entry_in with
      | (None, m) => (None, m)
      | (Some (loaded, entry_in), m) => load_segments img image_len code code_vaddr code_size idxs' m loaded entry_in
      end
  end.

(** [Some entry] is the return value 1 with [*entry_out = entry]. *)
Definition process_load_elf32_single_page (img : Z -> Z) (image_len code code_vaddr code_size : Z) (m : mem)
  : option Z * mem :=
  if negb (elf_header_ok img image_len) then (None, m) else
  let m := mem_zero_u8 m code (Z.to_nat code_size) in
  match load_segments img image_len code code_vaddr code_size (seqZ 0 (e_phnum img)) m false false with
  | (None, m) => (None, m)
  | (Some (loaded_any, entry_in_load), m) =>
      if negb loaded_any then (None, m) else
      if (e_entry img <? code_vaddr) || (code_vaddr ⊞ code_size <=? e_entry img) then (None, m) else
      if negb entry_in_load then (None, m) else (Some (e_entry img), m)
  end.

(** ** Built-in programs *)

Definition write_code (m : mem) (code : Z) (bs : list Z) : mem :=
  mem_copy_u8 m code (fun k => nth (Z.to_nat k) bs 0) 0 (length bs).

Definition ping_bytes : list Z := [184; 17; 0; 0; 0; 205; 128].
Definition exit_bytes : list Z := [205; 129; 235; 254].

Definition process_emit_ping_program (m : mem) (code ping_count : Z) : Z * mem :=
  let ping_count := if ping_count =? 0 then 1 else ping_count in
  let ping_count := if 32 <? ping_count then 32 else ping_count in
  let bs := concat (replicate (Z.to_nat ping_count) ping_bytes) ++ exit_bytes in
  (Z.of_nat (length bs), write_code m code bs).

Definition process_emit_exit_only_program (m : mem) (code : Z) : Z * mem :=
  (Z.of_nat (length exit_bytes), write_code m code exit_bytes).

(** ** Lemmas on the text format *)

(** The digits and the text that tools/elf_to_marshex.sh writes. *)
Definition hex_digit (d : Z) : Z := if d <? 10 then 48 + d else 97 + (d - 10).
Definition render_byte (b : Z) : list Z := [32; hex_digit (b / 16); hex_digit (b `mod` 16)].
Definition render (bs : list Z) : list Z := marshex ++ (bs ≫= render_byte) ++ [10].

Lemma hex_digit_spec d :
  0 <= d < 16 -> parse_hex_nibble (hex_digit d) = Some d /\ is_ws (hex_digit d) = false /\ (hex_digit d =? 0) = false.
Proof.
  intros Hd. assert (Hcases : d ∈ seqZ 0 16) by (apply elem_of_seqZ; lia). revert Hcases.
  change (seqZ 0 16) with [0; 1; 2; 3; 4; 5; 6; 7; 8; 9; 10; 11; 12; 13; 14; 15].
  intros Hin. repeat (apply elem_of_cons in Hin as [->|Hin]; [done|]). by apply elem_of_nil in Hin.
Qed.

Lemma nibbles b : 0 <= b < 256 -> Z.lor (Z.shiftl (b / 16) 4) (b `mod` 16) = b.
Proof.
  intros Hb. rewrite Z.shiftl_mul_pow2 by lia. change (2 ^ 4) with 16.
  rewrite (lor_disjoint _ _ 4); change (2 ^ 4) with 16; Z.div_mod_to_equations; lia.
Qed.

Lemma skip_ws_length p : (length (skip_ws p) <= length p)%nat.
Proof. induction p as [|c p IH]; simpl; [done|]. destruct (is_ws c); simpl; lia. Qed.

Lemma hex_loop_total cap code (text p : list Z) :
  0 <= cap < 4294967296 -> cap <= Z.of_nat (length code) -> (length p <= length text)%nat ->
  exists r code', loop (S (length text)) (hex_body cap) (p, 0, code) = Some (r, code') /\
    length code' = length code /\ drop (Z.to_nat cap) code' = drop (Z.to_nat cap) code /\
    (forall n, r = Some n -> 0 <= n <= cap).
Proof.
  intros Hcap Hlen Hp. set (same := fun c => length c = length code /\ drop (Z.to_nat cap) c = drop (Z.to_nat cap) code).
  destruct (loop_total (hex_body cap)
    (fun st => let '(p, count, c) := st in same c /\ 0 <= count <= cap)
    (fun r => same (snd r) /\ (forall n, fst r = Some n -> 0 <= n <= cap))
    (fun st => Z.of_nat (length (fst (fst st))))) with (fuel := S (length text)) (s := (p, 0, code))
    as ([r code'] & E & [Hl Hd] & Hr); [|split; [done|lia]|cbn; lia|cbn; lia|exists r, code'; done].
  intros [[q count] c] [Hc Hn]. cbn [hex_body]. set (q' := skip_ws q). pose proof (skip_ws_length q) as Hq.
  fold q' in Hq. destruct (nth 0 q' 0 =? 0) eqn:E0; [split; cbn; [done|intros n [= <-]; done]|].
  destruct (nth 1 q' 0 =? 0) eqn:E1; [done|].
  destruct (parse_hex_nibble (nth 0 q' 0)), (parse_hex_nibble (nth 1 q' 0)); try done.
  destruct (Z.leb_spec cap count); [done|]. destruct Hc as [Hl Hd].
  rewrite u32_small by lia. unfold same. rewrite length_insert, drop_insert_lt by lia.
  split; [split_and!; done || lia|]. destruct q' as [|a [|b q']]; try done. cbn in *. lia.
Qed.

Lemma hex_loop_bytes cap bs : forall fuel (pre rest : list Z),
  Forall (fun b => 0 <= b < 256) bs -> Z.of_nat (length pre + length bs) <= cap -> cap < 4294967296 ->
  (length bs <= length rest)%nat -> (length bs < fuel)%nat ->
  loop fuel (hex_body cap) ((bs ≫= render_byte) ++ [10], Z.of_nat (length pre), pre ++ rest) =
  Some (Some (Z.of_nat (length pre + length bs)), pre ++ bs ++ drop (length bs) rest).
Proof.
  induction bs as [|b bs IH]; intros fuel pre rest Hby Hle Hcap Hrest Hfuel;
    (destruct fuel as [|fuel]; [simpl in Hfuel; lia|]).
  { cbn. by rewrite Nat.add_0_r. }
  apply Forall_cons_1 in Hby as [Hb Hby]. rewrite bind_cons.
  destruct (hex_digit_spec (b / 16)) as (Hp1 & Hw1 & Hz1); [Z.div_mod_to_equations; lia|].
  destruct (hex_digit_spec (b `mod` 16)) as (Hp2 & Hw2 & Hz2); [Z.div_mod_to_equations; lia|].
  cbn [loop]. unfold render_byte at 1. cbn [app hex_body skip_ws].
  change (is_ws 32) with true. cbn [skip_ws]. rewrite Hw1. cbn [nth tl]. rewrite Hz1, Hz2, Hp1, Hp2, nibbles by done.
  simpl length in *. rewrite (proj2 (Z.leb_gt _ _)) by lia. rewrite u32_small by lia.
  destruct rest as [|r rest]; [simpl in Hrest; lia|]. rewrite Nat2Z.id.
  rewrite insert_app_r_alt, Nat.sub_diag by lia. cbn [insert list_insert].
  replace (Z.of_nat (length pre) + 1) with (Z.of_nat (length (pre ++ [b]))) by (rewrite length_app; simpl; lia).
  change (b :: rest) with ([b] ++ rest). rewrite app_assoc.
  rewrite (IH fuel (pre ++ [b]) rest) by (auto; rewrite ?length_app; simpl in *; lia).
  rewrite length_app, <- app_assoc. simpl. do 3 f_equal. lia.
Qed.

(** ** Lemmas on memory blocks *)

Lemma mem_copy_rd src n : forall m dst from a,
  rd8 (mem_copy_u8 m dst src from n) a =
  if (dst <=? a) && (a <? dst + Z.of_nat n) then src (from + (a - dst)) `mod` 256 else rd8 m a.
Proof.
  induction n as [|n IH]; intros m dst from a; cbn [mem_copy_u8].
  { destruct (Z.leb_spec dst a), (Z.ltb_spec a (dst + Z.of_nat 0)); try done. lia. }
  rewrite IH. destruct (Z.leb_spec (dst + 1) a), (Z.ltb_spec a (dst + 1 + Z.of_nat n)),
    (Z.leb_spec dst a), (Z.ltb_spec a (dst + Z.of_nat (S n))); cbn [andb]; try lia; try (apply rd8_wr8_ne; lia).
  - do 2 f_equal. lia.
  - assert (a = dst) as -> by lia. rewrite rd8_wr8_eq, Z.sub_diag, Z.add_0_r. done.
Qed.

Lemma mem_zero_rd n : forall m dst a,
  rd8 (mem_zero_u8 m dst n) a = if (dst <=? a) && (a <? dst + Z.of_nat n) then 0 else rd8 m a.
Proof.
  induction n as [|n IH]; intros m dst a; cbn [mem_zero_u8].
  { destruct (Z.leb_spec dst a), (Z.ltb_spec a (dst + Z.of_nat 0)); try done. lia. }
  rewrite IH. destruct (Z.leb_spec (dst + 1) a), (Z.ltb_spec a (dst + 1 + Z.of_nat n)),
    (Z.leb_spec dst a), (Z.ltb_spec a (dst + Z.of_nat (S n))); cbn [andb]; try lia; try done; try (apply rd8_wr8_ne; lia).
  assert (a = dst) as -> by lia. by rewrite rd8_wr8_eq.
Qed.

(** ** Lemmas on segments *)

Definition bytes (img : Z -> Z) : Prop := forall o, 0 <= img o < 256.

Lemma img16_range img o : bytes img -> 0 <= img16 img o < 65536.
Proof. intros Hb. unfold img16. pose proof (Hb o). pose proof (Hb (o + 1)). lia. Qed.

Lemma img32_range img o : bytes img -> is_u32 (img32 img o).
Proof.
  intros Hb. unfold img32, is_u32. pose proof (img16_range img o Hb). pose proof (img16_range img (o + 2) Hb). lia.
Qed.

(** A segment the loader copies. *)
Definition is_load (img : Z -> Z) (o : Z) : bool := (p_type img o =? ELF_PT_LOAD) && negb (p_memsz img o =? 0).

(** It lies in the code page, and its file part in the image. *)
Definition seg_ok (img : Z -> Z) (image_len code_vaddr code_size o : Z) : Prop :=
  p_filesz img o <= p_memsz img o /\ p_offset img o + p_filesz img o <= image_len /\
  code_vaddr <= p_vaddr img o /\ p_vaddr img o + p_memsz img o <= code_vaddr + code_size.

(** What the segment at [o] puts at the virtual address [a]. *)
Definition seg_byte (img : Z -> Z) (o a : Z) : option Z :=
  if is_load img o && (p_vaddr img o <=? a) && (a <? p_vaddr img o + p_memsz img o)
  then Some (if a - p_vaddr img o <? p_filesz img o then img (p_offset img o + (a - p_vaddr img o)) else 0) else None.

(** The contents of the page: zeroes, overwritten by the segments in order. *)
Definition loaded_byte (img : Z -> Z) (os : list Z) (a : Z) : Z :=
  fold_left (fun b o => default b (seg_byte img o a)) os 0.

Definition entry_in (img : Z -> Z) (o : Z) : bool :=
  is_load img o && (p_vaddr img o <=? e_entry img) && (e_entry img <? p_vaddr img o + p_memsz img o).

Section Load.
Context (img : Z -> Z) (image_len code code_vaddr code_size : Z).
Hypothesis Hbytes : bytes img.
Hypothesis Hlen : is_u32 image_len.
Hypothesis Hvaddr : 0 <= code_vaddr.
Hypothesis Htop : code_vaddr + code_size < 4294967296.

(** The address in the process that the virtual address [a] of the image goes to. *)
Definition place (a : Z) : Z := code + (a - code_vaddr).

(** Copying the file part and clearing the rest puts [seg_byte] everywhere. *)
Lemma fill_rd o m a :
  is_load img o = true -> seg_ok img image_len code_vaddr code_size o ->
  0 <= p_filesz img o ->
  let off := p_vaddr img o - code_vaddr in
  let m1 := if 0 <? p_filesz img o
            then mem_copy_u8 m (code + off) img (p_offset img o) (Z.to_nat (p_filesz img o)) else m in
  let m2 := if p_filesz img o <? p_memsz img o
            then mem_zero_u8 m1 (code + off + p_filesz img o) (Z.to_nat (p_memsz img o - p_filesz img o)) else m1 in
  rd8 m2 (place a) = default (rd8 m (place a)) (seg_byte img o a).
Proof.
  intros Hl (Hfm & Hfi & Hv & Hvm) Hf off m1 m2. unfold seg_byte. rewrite Hl. cbn [andb].
  assert (H1 : rd8 m1 (place a) =
    if (p_vaddr img o <=? a) && (a <? p_vaddr img o + p_filesz img o)
    then img (p_offset img o + (a - p_vaddr img o)) else rd8 m (place a)).
  { unfold m1. destruct (Z.ltb_spec 0 (p_filesz img o)).
    - rewrite mem_copy_rd, Z2Nat.id by lia. unfold place, off.
      destruct (Z.leb_spec (p_vaddr img o) a), (Z.ltb_spec a (p_vaddr img o + p_filesz img o));
        cbn [andb]; repeat case_if; try lia; try done.
      rewrite Z.mod_small by apply Hbytes. f_equal. lia.
    - destruct (Z.leb_spec (p_vaddr img o) a), (Z.ltb_spec a (p_vaddr img o + p_filesz img o)); try done; lia. }
  unfold m2. destruct (Z.ltb_spec (p_filesz img o) (p_memsz img o)).
  - rewrite mem_zero_rd, H1, Z2Nat.id by lia. unfold place, off. repeat case_if; cbn [default]; try lia; try done.
  - rewrite H1. repeat case_if; cbn [default]; try lia; try done.
Qed.

Lemma load_segment_cases o m loaded ein :
  (is_load img o = false /\
   load_segment img image_len code code_vaddr code_size o m loaded ein = (Some (loaded, ein), m)) \/
  (is_load img o = true /\ ~ seg_ok img image_len code_vaddr code_size o /\
   load_segment img image_len code code_vaddr code_size o m loaded ein = (None, m)) \/
  (is_load img o = true /\ seg_ok img image_len code_vaddr code_size o /\
   exists m', load_segment img image_len code code_vaddr code_size o m loaded ein =
                (Some (true, ein || entry_in img o), m') /\
     forall a, rd8 m' (place a) = default (rd8 m (place a)) (seg_byte img o a)).
Proof.
  assert (Hf : forall x, is_u32 (img32 img x)) by (intros; by apply img32_range).
  pose proof (Hf (o + 8)) as Hva. pose proof (Hf (o + 16)) as Hfs. pose proof (Hf (o + 20)) as Hms.
  pose proof (Hf (o + 4)) as Hof. fold (p_vaddr img o) in Hva. fold (p_filesz img o) in Hfs. fold (p_memsz img o) in Hms.
  fold (p_offset img o) in Hof. unfold is_u32 in *. clear Hf. unfold load_segment, is_load.
  destruct (p_type img o =? ELF_PT_LOAD) eqn:Hty; cbn [negb andb]; [|by left].
  destruct (Z.eqb_spec (p_memsz img o) 0) as [Hz|Hz]; cbn [negb]; [by left|]. right. unfold UINT32_MAX, seg_ok.
  rewrite (u32_small (4294967295 - _)) by lia. destruct (Z.ltb_spec (4294967295 - p_memsz img o) (p_vaddr img o)); [left; split_and!; [done|lia|done]|].
  destruct (Z.ltb_spec (p_memsz img o) (p_filesz img o)); [left; split_and!; [done|lia|done]|].
  destruct (Z.ltb_spec image_len (p_offset img o)); cbn [orb]; [left; split_and!; [done|lia|done]|].
  rewrite (u32_small (image_len - _)) by lia. destruct (Z.ltb_spec (image_len - p_offset img o) (p_filesz img o)); [left; split_and!; [done|lia|done]|].
  destruct (Z.ltb_spec (p_vaddr img o) code_vaddr); [left; split_and!; [done|lia|done]|].
  rewrite (u32_small (p_vaddr img o - _)) by lia. set (off := p_vaddr img o - code_vaddr).
  destruct (Z.ltb_spec code_size off); cbn [orb]; [left; split_and!; [done|lia|done]|].
  rewrite (u32_small (code_size - _)) by lia. destruct (Z.ltb_spec (code_size - off) (p_memsz img o)); [left; split_and!; [done|lia|done]|].
  right. split; [done|]. split; [split_and!; unfold off in *; lia|].
  rewrite (u32_small (p_memsz img o - _)), (u32_small (p_vaddr img o + _)) by lia.
  assert (Hl : is_load img o = true) by (unfold is_load; rewrite Hty; by apply negb_true_iff, Z.eqb_neq).
  eexists. split; [|intros a; apply (fill_rd o m a Hl); [split_and!; unfold off in *; lia|lia]].
  unfold entry_in. rewrite Hl. cbn [andb]. by destruct (_ && _), ein.
Qed.


(** The effect of the program headers [os], one after the other. *)
Definition segs_byte (os : list Z) (b : Z) (a : Z) : Z := fold_left (fun b o => default b (seg_byte img o a)) os b.

Lemma seg_byte_None o a : is_load img o = false -> seg_byte img o a = None.
Proof. intros Hl. unfold seg_byte. by rewrite Hl. Qed.

Lemma load_segments_ok idxs : forall m loaded ein,
  Forall (fun i => is_load img (phdr_at img i) = true -> seg_ok img image_len code_vaddr code_size (phdr_at img i)) idxs ->
  exists m', load_segments img image_len code code_vaddr code_size idxs m loaded ein =
    (Some (loaded || existsb (fun i => is_load img (phdr_at img i)) idxs,
           ein || existsb (fun i => entry_in img (phdr_at img i)) idxs), m') /\
    forall a, rd8 m' (place a) = segs_byte (map (phdr_at img) idxs) (rd8 m (place a)) a.
Proof.
  induction idxs as [|i idxs IH]; intros m loaded ein Hok; cbn [load_segments map existsb].
  { exists m. rewrite !orb_false_r. done. }
  apply Forall_cons_1 in Hok as [Hi Hok]. cbn [segs_byte fold_left].
  destruct (load_segment_cases (phdr_at img i) m loaded ein) as [[Hl ->]|[(Hl & Hn & _)|(Hl & _ & m' & -> & Hm)]].
  - destruct (IH m loaded ein Hok) as (m' & -> & Hm'). exists m'. unfold entry_in. rewrite Hl. cbn [andb orb]. split; [done|].
    intros a. rewrite Hm'. unfold segs_byte. cbn [fold_left map]. by rewrite (seg_byte_None _ a Hl).
  - by destruct (Hn (Hi Hl)).
  - destruct (IH m' true (ein || entry_in img (phdr_at img i)) Hok) as (m2 & -> & Hm2). exists m2.
    rewrite Hl, orb_true_r, orb_assoc. split; [done|]. intros a. unfold segs_byte in *. cbn [fold_left map]. by rewrite Hm2, Hm.
Qed.

Lemma load_segments_fail idxs : forall m loaded ein,
  ~ Forall (fun i => is_load img (phdr_at img i) = true -> seg_ok img image_len code_vaddr code_size (phdr_at img i)) idxs ->
  exists m', load_segments img image_len code code_vaddr code_size idxs m loaded ein = (None, m').
Proof.
  induction idxs as [|i idxs IH]; intros m loaded ein Hok; cbn [load_segments]; [by destruct Hok|].
  destruct (load_segment_cases (phdr_at img i) m loaded ein) as [[Hl ->]|[(Hl & Hn & ->)|(Hl & Hs & m' & -> & Hm)]].
  - apply IH. intros Hf. apply Hok. constructor; [congruence|done].
  - by exists m.
  - apply IH. intros Hf. apply Hok. constructor; [done|done].
Qed.

(** No write leaves the page, whether the image is accepted or not. *)
Lemma load_segments_confined idxs : forall m loaded ein r m' a,
  load_segments img image_len code code_vaddr code_size idxs m loaded ein = (r, m') ->
  ~ (code_vaddr <= a < code_vaddr + code_size) -> rd8 m' (place a) = rd8 m (place a).
Proof.
  induction idxs as [|i idxs IH]; intros m loaded ein r m' a; cbn [load_segments]; [by intros [= _ <-]|].
  destruct (load_segment_cases (phdr_at img i) m loaded ein) as [[Hl ->]|[(Hl & Hn & ->)|(Hl & Hs & m1 & -> & Hm)]].
  - apply IH.
  - by intros [= _ <-].
  - intros E Ha. rewrite (IH _ _ _ _ _ _ E Ha), Hm. destruct Hs as (_ & _ & Hv & Hvm). unfold seg_byte.
    repeat case_if; done || lia.
Qed.

End Load.
(** The entry point of an accepted image lies in the page. *)
Lemma elf_entry_in_page img image_len code m e m' :
  process_load_elf32_single_page img image_len code PROCESS_USER_CODE_VADDR PROCESS_USER_CODE_SIZE m = (Some e, m') ->
  PROCESS_USER_CODE_VADDR <= e < PROCESS_USER_CODE_VADDR + PROCESS_USER_CODE_SIZE.
Proof.
  unfold process_load_elf32_single_page. destruct (elf_header_ok img image_len); cbn [negb]; [|done].
  destruct (load_segments _ _ _ _ _ _ _ _ _) as [[[l i]|] m1]; [|done]. destruct l, i; cbn [negb]; try done;
    destruct (_ || _) eqn:Er; try done. bool_simp. intros [= <- _].
  change (PROCESS_USER_CODE_VADDR ⊞ PROCESS_USER_CODE_SIZE) with 1073745920 in *.
  unfold PROCESS_USER_CODE_VADDR, PROCESS_USER_CODE_SIZE in *. lia.
Qed.

(** ** The contract of the ELF loader *)

Definition ident_ok (img : Z -> Z) : Prop :=
  forall i b, [127; 69; 76; 70; 1; 1; 1] !! i = Some b -> img (Z.of_nat i) = b.

(** The program header table lies in the image. *)
Definition table_in (img : Z -> Z) (image_len : Z) : Prop := e_phoff img + 32 * e_phnum img <= image_len.

Definition phdrs (img : Z -> Z) : list Z := map (phdr_at img) (seqZ 0 (e_phnum img)).

(** An image the loader is to accept: a 32-bit little-endian x86 executable whose
    header table lies in the image, whose segments lie in the page and in the
    image, and whose entry point is in a segment. *)
Definition elf_valid (img : Z -> Z) (image_len code_vaddr code_size : Z) : Prop :=
  52 <= image_len /\ ident_ok img /\ e_machine img = 3 /\ e_type img = 2 /\ e_version img = 1 /\
  e_ehsize img = 52 /\ e_phentsize img = 32 /\ table_in img image_len /\
  Forall (fun o => is_load img o = true -> seg_ok img image_len code_vaddr code_size o) (phdrs img) /\
  Exists (fun o => entry_in img o = true) (phdrs img).

Lemma ident_ok_unfold img :
  ident_ok img <-> img 0 = 127 /\ img 1 = 69 /\ img 2 = 76 /\ img 3 = 70 /\ img 4 = 1 /\ img 5 = 1 /\ img 6 = 1.
Proof.
  split.
  - intros Hi. split_and!; [apply (Hi 0%nat)|apply (Hi 1%nat)|apply (Hi 2%nat)|apply (Hi 3%nat)|apply (Hi 4%nat)
      |apply (Hi 5%nat)|apply (Hi 6%nat)]; done.
  - intros (? & ? & ? & ? & ? & ? & ?) i b Hb.
    do 7 (destruct i as [|i]; [injection Hb as <-; done|]). done.
Qed.

(** The header checks are the header part of [elf_valid], as long as the table's
    size does not exceed the image's. *)
Lemma elf_header_ok_iff img image_len :
  bytes img -> is_u32 image_len -> 32 * e_phnum img <= image_len ->
  elf_header_ok img image_len = true <->
  52 <= image_len /\ ident_ok img /\ e_machine img = 3 /\ e_type img = 2 /\ e_version img = 1 /\
  e_ehsize img = 52 /\ e_phentsize img = 32 /\ table_in img image_len.
Proof.
  intros Hb Hl Hn. rewrite ident_ok_unfold. unfold elf_header_ok, elf_magic, table_in, EHDR_SIZE, PHDR_SIZE, e_ident.
  unfold ELF_CLASS_32, ELF_DATA_LE, ELF_VERSION_CURRENT, ELF_MACHINE_X86, ELF_TYPE_EXEC, is_u32 in *.
  pose proof (img16_range img 44 Hb) as Hnum. fold (e_phnum img) in Hnum.
  split.
  - intros E. bool_simp. match goal with E : (_ && _) = false |- _ => rename E into Et end.
    match goal with E : e_phentsize img = 32 |- _ => rewrite E in Et end. rewrite (u32_small (_ * _)), (u32_small (image_len - _)) in Et by (rewrite ?u32_small; lia).
    split_and!; try done.
    destruct (Z.ltb_spec 0 (e_phnum img)); cbn [andb] in Et; bool_simp; lia.
  - intros (? & (-> & -> & -> & -> & -> & -> & ->) & -> & -> & -> & -> & -> & Ht).
    rewrite (u32_small (_ * _)), (u32_small (image_len - _)) by (rewrite ?u32_small; lia).
    rewrite (proj2 (Z.ltb_ge image_len 52)), (proj2 (Z.ltb_ge image_len (e_phoff img))),
      (proj2 (Z.ltb_ge (image_len - _) (e_phoff img))) by lia.
    by rewrite andb_false_r.
Qed.

(** Images that agree on the bytes of the file. *)
Definition agree (image_len : Z) (img1 img2 : Z -> Z) : Prop := forall o, 0 <= o < image_len -> img1 o = img2 o.

Section Agree.
Context (image_len : Z) (img1 img2 : Z -> Z).
Hypothesis Hagree : agree image_len img1 img2.
Hypothesis Hb : bytes img1.
Hypothesis Hl : is_u32 image_len.

Lemma img16_agree o : 0 <= o -> o + 2 <= image_len -> img16 img1 o = img16 img2 o.
Proof. intros. unfold img16. by rewrite !Hagree by lia. Qed.

Lemma img32_agree o : 0 <= o -> o + 4 <= image_len -> img32 img1 o = img32 img2 o.
Proof. intros. unfold img32. by rewrite !img16_agree by lia. Qed.

Lemma elf_header_agree : 52 <= image_len -> elf_header_ok img1 image_len = elf_header_ok img2 image_len.
Proof.
  intros. unfold elf_header_ok, elf_magic, e_ident, e_machine, e_type, e_version, e_ehsize, e_phentsize, e_phoff, e_phnum.
  by rewrite !img16_agree, !img32_agree, !Hagree by lia.
Qed.

Lemma mem_copy_agree n : forall m dst from,
  0 <= from -> from + Z.of_nat n <= image_len -> mem_copy_u8 m dst img1 from n = mem_copy_u8 m dst img2 from n.
Proof.
  induction n as [|n IH]; intros m dst from H0 Hn; cbn [mem_copy_u8]; [done|]. rewrite Hagree by lia. apply IH; lia.
Qed.

Lemma load_segment_agree code code_vaddr code_size o m loaded ein :
  52 <= image_len -> 0 <= o -> o + 32 <= image_len ->
  load_segment img1 image_len code code_vaddr code_size o m loaded ein =
  load_segment img2 image_len code code_vaddr code_size o m loaded ein.
Proof.
  intros. unfold load_segment. unfold p_type, p_memsz, p_vaddr, p_filesz, p_offset, e_entry.
  pose proof (img32_range img1 (o + 4) Hb) as Ho. pose proof (img32_range img1 (o + 16) Hb) as Hf.
  rewrite !img32_agree in * by lia.
  do 4 (case_if; [done|]). case_if; [done|]. unfold is_u32 in *.
  match goal with E : (image_len ⊟ _ <? _) = false |- _ => idtac | E : _ <= image_len ⊟ _ |- _ => rewrite u32_small in E by lia end.
  case_if; [done|]. cbv zeta. case_if; [done|]. rewrite mem_copy_agree by lia. done.
Qed.

Lemma load_segments_agree code code_vaddr code_size idxs : forall m loaded ein,
  52 <= image_len -> Forall (fun i => 0 <= i < e_phnum img1) idxs ->
  e_phentsize img1 = 32 -> table_in img1 image_len ->
  load_segments img1 image_len code code_vaddr code_size idxs m loaded ein =
  load_segments img2 image_len code code_vaddr code_size idxs m loaded ein.
Proof.
  induction idxs as [|i idxs IH]; intros m loaded ein H52 Hi He Ht; cbn [load_segments]; [done|].
  apply Forall_cons_1 in Hi as [Hi Hall].
  assert (Hp : phdr_at img1 i = phdr_at img2 i).
  { unfold phdr_at, e_phoff, e_phentsize. by rewrite img16_agree, img32_agree by lia. }
  rewrite <- Hp. pose proof (img32_range img1 28 Hb) as Ho. fold (e_phoff img1) in Ho.
  rewrite load_segment_agree; [|done|unfold phdr_at, table_in, is_u32 in *; rewrite He; lia..].
  destruct (load_segment _ _ _ _ _ _ _ _ _) as [[[l e]|] m']; [|done]. by apply IH.
Qed.

End Agree.

(** ** Theorems *)

(** A sample executable: one segment of 12 bytes, 4 of them in the file. *)
Definition img_of (l : list Z) (o : Z) : Z := if 0 <=? o then nth (Z.to_nat o) l 0 else 0.

Lemma img_of_bytes l : Forall (fun b => 0 <= b < 256) l -> bytes (img_of l).
Proof.
  intros Hl o. unfold img_of. case_if; [|lia]. destruct (nth_in_or_default (Z.to_nat o) l 0) as [Hin| ->]; [|lia].
  exact (proj1 (Forall_forall _ _) Hl _ Hin).
Qed.

Definition ehdr_bytes (phnum : Z) : list Z :=
  [127; 69; 76; 70; 1; 1; 1; 0; 0; 0; 0; 0; 0; 0; 0; 0;
   2; 0; 3; 0; 1; 0; 0; 0; 4; 0; 0; 64; 52; 0; 0; 0;
   0; 0; 0; 0; 0; 0; 0; 0; 52; 0; 32; 0; phnum; 0; 0; 0; 0; 0; 0; 0].
Definition phdr_bytes (offset filesz memsz : Z) : list Z :=
  [1; 0; 0; 0; offset; 0; 0; 0; 0; 0; 0; 64; 0; 0; 0; 0; filesz; 0; 0; 0; memsz; 0; 0; 0; 0; 0; 0; 0; 0; 0; 0; 0].
Definition sample_elf : list Z := ehdr_bytes 1 ++ phdr_bytes 84 4 12 ++ exit_bytes.

Lemma sample_bytes : bytes (img_of sample_elf).
Proof. apply img_of_bytes. unfold sample_elf, ehdr_bytes, phdr_bytes, exit_bytes. cbn [app]. repeat (constructor; [lia|]). constructor. Qed.

Lemma zero_page_rd m code size a :
  0 <= size -> rd8 (mem_zero_u8 m code (Z.to_nat size)) a = if (code <=? a) && (a <? code + size) then 0 else rd8 m a.
Proof. intros Hs. rewrite mem_zero_rd, Z2Nat.id by lia. done. Qed.

Lemma phdrs_Forall img (P : Z -> Prop) :
  Forall P (phdrs img) <-> Forall (fun i => P (phdr_at img i)) (seqZ 0 (e_phnum img)).
Proof. unfold phdrs. apply Forall_map. Qed.

Lemma phdrs_exists img f :
  existsb (fun i => f (phdr_at img i)) (seqZ 0 (e_phnum img)) = true <-> Exists (fun o => f o = true) (phdrs img).
Proof.
  unfold phdrs. rewrite existsb_exists, Exists_exists. split.
  - intros (i & Hi & Hf). exists (phdr_at img i). split; [by apply in_map|done].
  - intros (o & Ho & Hf). apply in_map_iff in Ho as (i & <- & Hi). by exists i.
Qed.

(** The checks on the segments, as one proposition. *)
Definition segs_ok (img : Z -> Z) (image_len code_vaddr code_size : Z) : Prop :=
  Forall (fun i => is_load img (phdr_at img i) = true -> seg_ok img image_len code_vaddr code_size (phdr_at img i))
    (seqZ 0 (e_phnum img)).

#[export] Instance segs_ok_dec img image_len code_vaddr code_size : Decision (segs_ok img image_len code_vaddr code_size).
Proof. apply Forall_dec. intros i. unfold seg_ok. apply (_ : Decision (_ -> _)). Defined.

Definition any_phdr (img : Z -> Z) (f : Z -> bool) : bool := existsb (fun i => f (phdr_at img i)) (seqZ 0 (e_phnum img)).

Lemma segs_entry img image_len code_vaddr code_size :
  segs_ok img image_len code_vaddr code_size -> any_phdr img (entry_in img) = true ->
  code_vaddr <= e_entry img < code_vaddr + code_size /\ any_phdr img (is_load img) = true.
Proof.
  intros Hsegs (i & Hi & Hf)%existsb_exists. 
  pose proof (proj1 (Forall_forall _ _) Hsegs i Hi) as Hok. unfold entry_in in Hf. bool_simp.
  destruct Hok as (? & ? & ? & ?); [done|]. split; [lia|]. apply existsb_exists. by exists i.
Qed.

Lemma elf_valid_iff img image_len code_vaddr code_size :
  bytes img -> is_u32 image_len -> 32 * e_phnum img <= image_len ->
  elf_valid img image_len code_vaddr code_size <->
  elf_header_ok img image_len = true /\ segs_ok img image_len code_vaddr code_size /\ any_phdr img (entry_in img) = true.
Proof.
  intros Hb Hl Hn. rewrite (elf_header_ok_iff img image_len Hb Hl Hn). unfold elf_valid, segs_ok, any_phdr.
  rewrite phdrs_exists, phdrs_Forall. tauto.
Qed.

(** C35. The ELF loader accepts exactly the well-formed images. When the header
    table is not larger than the image, an image that satisfies [elf_valid] is
    loaded, with its entry point inside the page and every byte of the page the one
    the segments put there (zero where there is none), and every other image is
    rejected. *)
Theorem elf_load_spec img image_len code code_vaddr code_size m :
  bytes img -> is_u32 image_len -> 0 <= code_vaddr -> 0 <= code_size -> code_vaddr + code_size < 4294967296 ->
  32 * e_phnum img <= image_len ->
  (elf_valid img image_len code_vaddr code_size ->
   code_vaddr <= e_entry img < code_vaddr + code_size /\
   exists m', process_load_elf32_single_page img image_len code code_vaddr code_size m = (Some (e_entry img), m') /\
     forall a, code_vaddr <= a < code_vaddr + code_size -> rd8 m' (place code code_vaddr a) = loaded_byte img (phdrs img) a) /\
  (~ elf_valid img image_len code_vaddr code_size ->
   exists m', process_load_elf32_single_page img image_len code code_vaddr code_size m = (None, m')).
Proof.
  intros Hb Hl Hv Hs Htop Hn. rewrite (elf_valid_iff img image_len code_vaddr code_size Hb Hl Hn).
  unfold process_load_elf32_single_page. destruct (elf_header_ok img image_len); cbn [negb];
    [|split; [by intros [? _]|intros _; by exists m]].
  set (m0 := mem_zero_u8 m code (Z.to_nat code_size)). split.
  - intros (_ & Hsegs & He). destruct (segs_entry _ _ _ _ Hsegs He) as [Hr Hld]. split; [done|].
    destruct (load_segments_ok img image_len code code_vaddr code_size Hb Hl Hv Htop _ m0 false false Hsegs)
      as (m' & -> & Hm). cbn [orb]. fold (any_phdr img (is_load img)) (any_phdr img (entry_in img)).
    rewrite Hld, He, u32_small by lia. cbn [negb].
    rewrite (proj2 (Z.ltb_ge _ _)), (proj2 (Z.leb_gt _ _)) by lia. cbn [orb]. exists m'. split; [done|].
    intros a Ha. rewrite Hm. unfold m0. rewrite zero_page_rd by lia. unfold place.
    rewrite (proj2 (Z.leb_le _ _)), (proj2 (Z.ltb_lt _ _)) by lia. done.
  - intros Hbad. destruct (decide (segs_ok img image_len code_vaddr code_size)) as [Hsegs|Hno].
    + destruct (load_segments_ok img image_len code code_vaddr code_size Hb Hl Hv Htop _ m0 false false Hsegs)
        as (m' & -> & _). cbn [orb]. fold (any_phdr img (is_load img)) (any_phdr img (entry_in img)).
      destruct (any_phdr img (entry_in img)); [by destruct Hbad|]. cbn [negb]. repeat case_if; eauto.
    + destruct (load_segments_fail img image_len code code_vaddr code_size Hb Hl Hv Htop _ m0 false false Hno)
        as (m' & ->). by exists m'.
Qed.

Lemma sample_valid : elf_valid (img_of sample_elf) 88 PROCESS_USER_CODE_VADDR PROCESS_USER_CODE_SIZE.
Proof.
  unfold elf_valid. rewrite ident_ok_unfold. unfold table_in.
  change (phdrs (img_of sample_elf)) with [52].
  split; [lia|]. split; [split_and!; reflexivity|]. do 5 (split; [reflexivity|]).
  split; [change (52 + 32 * 1 <= 88); lia|]. split.
  - apply Forall_singleton. intros _. unfold seg_ok. change (4 <= 12 /\ 84 + 4 <= 88 /\ 1073741824 <= 1073741824 /\
      1073741824 + 12 <= 1073741824 + 4096). lia.
  - apply Exists_cons_hd. reflexivity.
Qed.

Lemma elf_load_spec_witness : exists m',
  process_load_elf32_single_page (img_of sample_elf) 88 PROCESS_USER_CODE_VADDR PROCESS_USER_CODE_VADDR
    PROCESS_USER_CODE_SIZE ∅ = (Some 1073741828, m') /\
  rd8 m' 1073741825 = 129 /\ rd8 m' 1073741829 = 0.
Proof.
  destruct (elf_load_spec (img_of sample_elf) 88 PROCESS_USER_CODE_VADDR PROCESS_USER_CODE_VADDR PROCESS_USER_CODE_SIZE ∅)
    as [Hok _]; [apply sample_bytes|unfold is_u32; lia|discriminate|discriminate|reflexivity|vm_compute; discriminate|].
  destruct (Hok sample_valid) as (_ & m' & E & Hm). exists m'. split; [exact E|].
  unfold PROCESS_USER_CODE_VADDR, PROCESS_USER_CODE_SIZE in Hm.
  pose proof (Hm 1073741825 ltac:(lia)) as H1. pose proof (Hm 1073741829 ltac:(lia)) as H2.
  unfold place in H1, H2. change (1073741824 + (1073741825 - 1073741824)) with 1073741825 in H1.
  change (1073741824 + (1073741829 - 1073741824)) with 1073741829 in H2.
  rewrite H1, H2. split; reflexivity.
Defined.

Lemma elf_writes_page img image_len code code_vaddr code_size m r m' a :
  bytes img -> is_u32 image_len -> 0 <= code_vaddr -> 0 <= code_size -> code_vaddr + code_size < 4294967296 ->
  process_load_elf32_single_page img image_len code code_vaddr code_size m = (r, m') ->
  ~ (code <= a < code + code_size) -> rd8 m' a = rd8 m a.
Proof.
  intros Hb Hl Hv Hs Htop E Ha. unfold process_load_elf32_single_page in E.
  destruct (elf_header_ok img image_len); cbn [negb] in E; [|by injection E as _ <-].
  destruct (load_segments _ _ _ _ _ _ _ _ _) as [r1 m1] eqn:E1.
  assert (m' = m1) as -> by (destruct r1 as [[l e]|]; repeat case_match; by injection E).
  replace a with (place code code_vaddr (a - code + code_vaddr)) by (unfold place; lia).
  rewrite (load_segments_confined img image_len code code_vaddr code_size Hb Hl Hv Htop _ _ _ _ _ _ _ E1) by lia.
  rewrite zero_page_rd by lia. unfold place. by case_if; try lia.
Qed.

(** C11. The ELF loader never writes outside the code page: whatever the image holds,
    header table out of bounds included, and whether it is accepted or rejected,
    every byte of memory outside the page keeps its value. *)
Theorem elf_load_confined img image_len code code_vaddr code_size m r m' a :
  bytes img -> is_u32 image_len -> 0 <= code_vaddr -> 0 <= code_size -> code_vaddr + code_size < 4294967296 ->
  process_load_elf32_single_page img image_len code code_vaddr code_size m = (r, m') ->
  ~ (code <= a < code + code_size) -> rd8 m' a = rd8 m a.
Proof. apply elf_writes_page. Qed.

Lemma elf_load_confined_witness :
  rd8 (snd (process_load_elf32_single_page (img_of sample_elf) 88 PROCESS_USER_CODE_VADDR PROCESS_USER_CODE_VADDR
         PROCESS_USER_CODE_SIZE {[1073745920 := 7]})) 1073745920 = 7.
Proof.
  destruct (process_load_elf32_single_page _ _ _ _ _ _) as [r m'] eqn:E. cbn [snd].
  rewrite (elf_load_confined (img_of sample_elf) 88 PROCESS_USER_CODE_VADDR PROCESS_USER_CODE_VADDR PROCESS_USER_CODE_SIZE
    {[1073745920 := 7]} r m' 1073745920 sample_bytes); [reflexivity|unfold is_u32; lia|discriminate|discriminate
      |reflexivity|exact E|unfold PROCESS_USER_CODE_VADDR, PROCESS_USER_CODE_SIZE; lia].
Defined.

(** The ELF loader reads only the image: when the header table is not larger than
    the image, two images that agree on the bytes of the file give the same result
    and the same memory, whatever lies behind them in the buffer. *)
Theorem elf_load_reads_image img1 img2 image_len code code_vaddr code_size m :
  bytes img1 -> bytes img2 -> is_u32 image_len -> 32 * e_phnum img1 <= image_len -> agree image_len img1 img2 ->
  process_load_elf32_single_page img1 image_len code code_vaddr code_size m =
  process_load_elf32_single_page img2 image_len code code_vaddr code_size m.
Proof.
  intros Hb Hb2 Hl Hn Ha. unfold process_load_elf32_single_page. destruct (Z.ltb_spec image_len 52) as [Hs|Hs].
  { unfold elf_header_ok, EHDR_SIZE. rewrite (proj2 (Z.ltb_lt image_len 52)) by done. done. }
  rewrite <- (elf_header_agree image_len img1 img2 Ha) by done.
  destruct (elf_header_ok img1 image_len) eqn:Eh; cbn [negb]; [|done].
  apply (elf_header_ok_iff img1 image_len Hb Hl Hn) in Eh as (_ & _ & _ & _ & _ & _ & He & Ht).
  assert (Hnum : e_phnum img1 = e_phnum img2) by (apply (img16_agree image_len); [done|lia..]).
  assert (Hent : e_entry img1 = e_entry img2) by (apply (img32_agree image_len); [done|lia..]).
  rewrite <- Hnum, <- Hent, (load_segments_agree image_len img1 img2); try done.
  apply Forall_forall. intros i Hi. apply list_elem_of_In, elem_of_seqZ in Hi. lia.
Qed.

Lemma elf_load_reads_image_witness :
  process_load_elf32_single_page (img_of sample_elf) 88 PROCESS_USER_CODE_VADDR PROCESS_USER_CODE_VADDR 4096 ∅ =
  process_load_elf32_single_page (img_of (sample_elf ++ [1; 2; 3])) 88 PROCESS_USER_CODE_VADDR PROCESS_USER_CODE_VADDR 4096 ∅.
Proof.
  apply (elf_load_reads_image (img_of sample_elf) (img_of (sample_elf ++ [1; 2; 3]))).
  - apply sample_bytes.
  - apply img_of_bytes. unfold sample_elf, ehdr_bytes, phdr_bytes, exit_bytes. cbn [app].
    repeat (constructor; [lia|]). constructor.
  - unfold is_u32. lia.
  - vm_compute; discriminate.
  - intros o Ho. unfold img_of. case_if; [|done]. rewrite app_nth1; [done|]. change (length sample_elf) with 88%nat. lia.
Defined.

(** The check that keeps the program header table inside the image underflows. An
    image of 52 bytes, a header alone, that announces two program headers passes
    it, because [image_len - ph_bytes] wraps around; the loader then reads the
    headers from whatever follows the image, and accepts or rejects the same file
    accordingly. *)
Theorem elf_table_check_underflows code m :
  let a := img_of (ehdr_bytes 2) in
  let b := img_of (ehdr_bytes 2 ++ phdr_bytes 0 0 16) in
  agree 52 a b /\ ~ table_in a 52 /\
  fst (process_load_elf32_single_page a 52 code PROCESS_USER_CODE_VADDR PROCESS_USER_CODE_SIZE m) = None /\
  fst (process_load_elf32_single_page b 52 code PROCESS_USER_CODE_VADDR PROCESS_USER_CODE_SIZE m) = Some 1073741828.
Proof.
  cbv zeta. split; [|split; [|split; reflexivity]].
  - intros o Ho. unfold img_of. case_if; [|done]. rewrite app_nth1; [done|]. change (length (ehdr_bytes 2)) with 52%nat. lia.
  - unfold table_in. change (~ (52 + 32 * 2 <= 52)). lia.
Qed.

Lemma skip_ws_marshex l : skip_ws (marshex ++ l) = marshex ++ l.
Proof. reflexivity. Qed.

Lemma render_length bs : length (render bs) = (8 + 3 * length bs)%nat.
Proof.
  unfold render. rewrite !length_app. simpl.
  enough (length (bs ≫= render_byte) = (3 * length bs)%nat) by lia.
  induction bs as [|b bs IH]; [done|]. rewrite bind_cons, length_app, IH. simpl. lia.
Qed.

(** C36. MARSHEX text round trip: for a program that fits, the parser returns exactly
    the bytes that the text format of tools/elf_to_marshex.sh encodes, at the
    front of the array, and leaves the rest of the array alone. *)
Theorem marshex_roundtrip bs code code_cap :
  Forall (fun b => 0 <= b < 256) bs -> bs <> [] -> Z.of_nat (length bs) <= code_cap < 4294967296 ->
  code_cap <= Z.of_nat (length code) ->
  parse_user_image_hex (Some (render bs)) code code_cap =
  Some (Some (Z.of_nat (length bs)), bs ++ drop (length bs) code).
Proof.
  intros Hby Hne Hcap Hlen. assert (0 < length bs)%nat by (destruct bs; simpl; [done|lia]).
  unfold parse_user_image_hex. rewrite (proj2 (Z.eqb_neq code_cap 0)) by lia.
  rewrite render_length. unfold render. rewrite skip_ws_marshex.
  change (str_eq_n (marshex ++ _) marshex 7) with true. cbv iota.
  rewrite drop_app_length' by done.
  change (?x, 0, code) with (x, Z.of_nat (length (@nil Z)), [] ++ code).
  rewrite (hex_loop_bytes code_cap bs (S (8 + 3 * length bs)) [] code) by (simpl; done || lia).
  cbn [length app Nat.add]. rewrite (proj2 (Z.eqb_neq _ 0)) by lia. done.
Qed.

Lemma marshex_roundtrip_witness :
  parse_user_image_hex (Some (render [205; 129; 235; 254])) (replicate 6 0) 6 =
  Some (Some 4, [205; 129; 235; 254; 0; 0]).
Proof.
  apply (marshex_roundtrip [205; 129; 235; 254] (replicate 6 0) 6); [|done|simpl; lia|simpl; lia].
  repeat (constructor; [lia|]). constructor.
Defined.

(** The MARSHEX parser terminates on every text, never writes past the capacity
    it is given, and reports a length between 1 and that capacity on success. *)
Theorem marshex_total text code code_cap :
  0 <= code_cap < 4294967296 -> code_cap <= Z.of_nat (length code) ->
  exists r code', parse_user_image_hex text code code_cap = Some (r, code') /\
    length code' = length code /\ drop (Z.to_nat code_cap) code' = drop (Z.to_nat code_cap) code /\
    (forall n, r = Some n -> 1 <= n <= code_cap).
Proof.
  intros Hcap Hlen. destruct text as [text|]; [|by exists None, code]. unfold parse_user_image_hex.
  destruct (Z.eqb_spec code_cap 0); [by exists None, code|].
  set (p := if str_eq_n _ _ _ then _ else _).
  assert (Hp : (length p <= length text)%nat).
  { pose proof (skip_ws_length text). unfold p. destruct (str_eq_n _ _ _); rewrite ?length_drop; lia. }
  destruct (hex_loop_total code_cap code text p Hcap Hlen Hp) as (r & code' & -> & Hl & Hd & Hr).
  destruct r as [n'|]; [|by exists None, code']. pose proof (Hr n' eq_refl).
  exists (if n' =? 0 then None else Some n'), code'. split_and!; [done..|]. intros k. case_if; [done|].
  intros [= <-]. lia.
Qed.

Lemma marshex_total_witness : exists r code',
  parse_user_image_hex (Some [49; 50; 51]) [0; 0] 2 = Some (r, code') /\ length code' = 2%nat.
Proof.
  destruct (marshex_total (Some [49; 50; 51]) [0; 0] 2) as (r & code' & E & Hl & _); [lia|simpl; lia|].
  exists r, code'. done.
Defined.
