(* ===== verification/Process.v ===== *)
(** kernel/process.c, the process table: creating processes, giving them an
    address space and a task, and reclaiming both.

    The state joins the components a process is made of: the scheduler, with the
    heap its stacks come from, the page tables the heap's pages come from, the
    frame allocator below them, and the files. Interrupts are off wherever the
    code turns them off to change the table, so every operation is one step. *)
From Stdlib Require Import ZArith Lia Bool List.
From stdpp Require Import base gmap list numbers option sets relations.
From S2P Require Import Prelude CStr Interfaces Paging Kheap Scheduler Vfs Loader.
#[local] Open Scope Z_scope.

(** ** Data *)

Definition PROCESS_MAX : nat := 32.
Definition PROCESS_USER_PROG_DEFAULT : Z := 1.
Definition PROCESS_USER_PROG_PING_BURST : Z := 2.

Record process_entry_t := Proc {
  pe_pid : Z;
  pe_tid : nat;
  pe_cr3 : Z;
  pe_user_code_frame : Z;
  pe_user_stack_frame : Z;
  pe_user_entry : Z;
  pe_syscall_mask_low : Z;
  pe_is_kernel : bool;
  pe_active : bool;
  pe_name : list Z;
}.

Record process_info_t := Info {
  pi_pid : Z;
  pi_tid : nat;
  pi_cr3 : Z;
  pi_user_code_frame : Z;
  pi_user_stack_frame : Z;
  pi_user_entry : Z;
  pi_syscall_mask_low : Z;
  pi_is_kernel : bool;
}.

Definition SYSCALL_BIT (x : Z) : Z := Z.shiftl 1 x.
Definition PROCESS_SYSCALL_MASK_KERNEL : Z := 4294967295.
Definition PROCESS_SYSCALL_MASK_USER : Z :=
  fold_left (fun m x => Z.lor m (SYSCALL_BIT x)) [0; 1; 2; 3; 4; 5; 6; 7; 9; 10; 11; 13; 14; 15; 16; 17; 18; 19] 0.

(** The static variables of process.c with the components it calls. The
    environment of the scheduler is the directory that [process_activate_tid] asked
    for during the last switch. *)
Record kernel (A : Type) := Kernel {
  k_sched : sched (kheap (paging_state A)) Z;
  k_files : list vfs_file_t;
  k_vfs_ready : bool;
  process_table : list process_entry_t;
  next_pid : Z;
  process_ready : bool;
}.
Arguments Kernel {A}.
Arguments k_sched {A}.
Arguments k_files {A}.
Arguments k_vfs_ready {A}.
Arguments process_table {A}.
Arguments next_pid {A}.
Arguments process_ready {A}.

Definition no_process : process_entry_t := Proc 0 0 0 0 0 0 0 false false [].
Definition proc_at (T : list process_entry_t) (i : nat) : process_entry_t := default no_process (T !! i).

(** Every field but the name zeroed, the name cut to the empty string. *)
Definition cleared_process (e : process_entry_t) : process_entry_t :=
  Proc 0 0 0 0 0 0 0 false false (<[0%nat := 0]> (pe_name e)).

(** "proc". *)
Definition proc_name : list Z := [112; 114; 111; 99].

(** The C conversion from [uint32_t] to [int]. *)
Definition i32 (x : Z) : Z := if x <? 2147483648 then x else x - 4294967296.

(** ** The table *)

Definition process_find_free_slot (T : list process_entry_t) : option nat :=
  List.find (fun i => negb (pe_active (proc_at T i))) (seq 0 PROCESS_MAX).

Definition process_pid_in_use (T : list process_entry_t) (pid : Z) : bool :=
  existsb (fun i => pe_active (proc_at T i) && (pe_pid (proc_at T i) =? pid)) (seq 0 PROCESS_MAX).

Definition process_find_by_tid (T : list process_entry_t) (tid : nat) : option nat :=
  List.find (fun i => pe_active (proc_at T i) && (pe_tid (proc_at T i) =? tid)%nat) (seq 0 PROCESS_MAX).

(** The identifiers of one round of [process_alloc_pid]: the candidate and the new
    [next_pid]. *)
Definition pid_candidate (next : Z) : Z * Z :=
  let pid := if next <? 2 then 2 else next in
  let next := pid ⊞ 1 in
  (pid, if next <? 2 then 2 else next).

Fixpoint alloc_pid_loop (T : list process_entry_t) (tries : nat) (next : Z) : Z * Z :=
  match tries with
  | O => (2, next)
  | S n =>
      let '(pid, next) := pid_candidate next in
      if negb (process_pid_in_use T pid) then (pid, next) else alloc_pid_loop T n next
  end.

(** The identifier and the new [next_pid]. *)
Definition process_alloc_pid (T : list process_entry_t) (next : Z) : Z * Z :=
  alloc_pid_loop T (S PROCESS_MAX) next.

(** ** Operations *)

(** The string at [p], up to its terminator. *)
Fixpoint string_from {H : Type} `{KernelHeap H} (fuel : nat) (p : Z) (h : H) : list Z :=
  match fuel with
  | O => []
  | S n => let c := kh_load8 p h in if c =? 0 then [] else c :: string_from n (p + 1) h
  end.
Definition heap_string {H : Type} `{KernelHeap H} (p : Z) (h : H) : list Z :=
  string_from (Z.to_nat (4294967296 - p)) p h.

Section Operations.
Context {A : Type} `{FrameAllocator A}.
Context (bootstrap user_task_entry : Z).
Implicit Types (k : kernel A).

(** *** Access to the components *)

Definition k_heap k : kheap (paging_state A) := sc_heap (k_sched k).
Definition k_pages k : paging_state A := hp_pages (k_heap k).
Definition set_k_sched k (s : sched (kheap (paging_state A)) Z) : kernel A :=
  Kernel s (k_files k) (k_vfs_ready k) (process_table k) (next_pid k) (process_ready k).
Definition set_k_heap k (h : kheap (paging_state A)) : kernel A := set_k_sched k (set_sc_heap (k_sched k) h).
Definition set_k_pages k (p : paging_state A) : kernel A := set_k_heap k (set_hp_pages (k_heap k) p).
Definition set_table k (T : list process_entry_t) (next : Z) : kernel A :=
  Kernel (k_sched k) (k_files k) (k_vfs_ready k) T next (process_ready k).
Definition k_vfs k : vfs (kheap (paging_state A)) := Vfs (k_heap k) (k_files k) (k_vfs_ready k).
Definition set_k_vfs k (s : vfs (kheap (paging_state A))) : kernel A :=
  let k := set_k_heap k (vfs_heap s) in
  Kernel (k_sched k) (files s) (vfs_ready s) (process_table k) (next_pid k) (process_ready k).

Definition switch_directory (dir : Z) k : kernel A := set_k_pages k (paging_switch_directory dir (k_pages k)).
Definition unmap_page (virt : Z) k : kernel A := set_k_pages k (snd (paging_unmap_page virt (k_pages k))).
Definition map_page (virt phys flags : Z) k : bool * kernel A :=
  let '(ok, p) := paging_map_page virt phys flags (k_pages k) in (ok, set_k_pages k p).
Definition alloc_frame k : Z * kernel A :=
  let '(f, a) := fa_alloc (pg_frames (k_pages k)) in (f, set_k_pages k (set_pg_frames (k_pages k) a)).
Definition free_frame (f : Z) k : kernel A :=
  set_k_pages k (set_pg_frames (k_pages k) (snd (fa_free f (pg_frames (k_pages k))))).

(** A change of the memory behind the page [virt] of the active directory; [f] gets
    the physical address of the page. *)
Definition on_user_page (virt : Z) (f : Z -> mem -> mem) k : kernel A :=
  set_k_pages k (set_pg_mem (k_pages k) (f (default 0 (paging_translate virt (k_pages k))) (pg_mem (k_pages k)))).

(** [vfs_read_file], with the string the pointer it returns points to. *)
Definition read_file k (name : list Z) : option (list Z) :=
  let p := vfs_read_file (Some name) (k_vfs k) in
  if p =? 0 then None else Some (heap_string p (k_heap k)).

(** *** Address spaces *)

Definition process_table_is_empty (m : mem) (table : Z) : bool :=
  forallb (fun i => negb (has_flag (entry m table i) PAGING_FLAG_PRESENT)) table_indices.

Definition process_release_user_table (cr3 virt : Z) k : kernel A :=
  let pd_index := pd_index_of virt in
  if cr3 =? 0 then k else
  let pde := entry (pg_mem (k_pages k)) cr3 pd_index in
  if negb (has_flag pde PAGING_FLAG_PRESENT) then k else
  if negb (has_flag pde PAGING_FLAG_USER) then k else
  let table := table_of pde in
  if process_table_is_empty (pg_mem (k_pages k)) table then
    let k := free_frame table k in
    set_k_pages k (set_pg_mem (k_pages k) (set_entry (pg_mem (k_pages k)) cr3 pd_index 0))
  else k.

Definition process_unmap_user_pages (cr3 : Z) k : kernel A :=
  let prev_cr3 := paging_current_directory_phys (k_pages k) in
  if (cr3 =? 0) || (cr3 =? paging_kernel_directory_phys (k_pages k)) then k else
  let k := switch_directory cr3 k in
  let k := unmap_page PROCESS_USER_CODE_VADDR k in
  let k := unmap_page (PROCESS_USER_STACK_TOP - 4096) k in
  let k := switch_directory prev_cr3 k in
  process_release_user_table cr3 PROCESS_USER_CODE_VADDR k.

(** The entry point and the stack pointer that [process_user_task_entry] enters user
    mode with. *)
Definition process_user_task_entry k : Z * Z :=
  let entry := match process_find_by_tid (process_table k) (current_task (k_sched k)) with
               | Some i => if pe_user_entry (proc_at (process_table k) i) =? 0 then PROCESS_USER_CODE_VADDR
                           else pe_user_entry (proc_at (process_table k) i)
               | None => PROCESS_USER_CODE_VADDR
               end in
  (entry, PROCESS_USER_STACK_TOP - 16).

(** *** The program *)

(** The image in the buffer [image] of the heap: status (1 loaded, 0 no image, -1
    rejected) and entry point. The parser terminates, so its [None] never occurs. *)
Definition load_image (image : Z) (program_name : option (list Z)) k : Z * Z * kernel A :=
  let dst := load_bytes image (Z.to_nat PROCESS_USER_IMAGE_MAX) (k_heap k) in
  match process_load_user_image_bytes_from_vfs (read_file k) program_name dst PROCESS_USER_IMAGE_MAX with
  | None => (-1, PROCESS_USER_CODE_VADDR, k)
  | Some (image_status, loaded_len, dst) =>
      if image_status =? 0 then (0, PROCESS_USER_CODE_VADDR, k) else
      let k := set_k_heap k (store_bytes image dst (k_heap k)) in
      if image_status <? 0 then (-1, PROCESS_USER_CODE_VADDR, k) else
      let img := fun o => kh_load8 (image + o) (k_heap k) in
      let len := default 0 loaded_len in
      if process_is_elf32_image img len then
        let code := default 0 (paging_translate PROCESS_USER_CODE_VADDR (k_pages k)) in
        let '(e, m) := process_load_elf32_single_page img len code PROCESS_USER_CODE_VADDR PROCESS_USER_CODE_SIZE
                         (pg_mem (k_pages k)) in
        let k := set_k_pages k (set_pg_mem (k_pages k) m) in
        match e with
        | Some e => (1, e, k)
        | None => (-1, PROCESS_USER_CODE_VADDR, k)
        end
      else if PROCESS_USER_CODE_SIZE <? len then (-1, PROCESS_USER_CODE_VADDR, k)
      else
        let k := on_user_page PROCESS_USER_CODE_VADDR (fun code m =>
                   mem_copy_u8 (mem_zero_u8 m code (Z.to_nat PROCESS_USER_CODE_SIZE)) code img 0 (Z.to_nat len)) k in
        (1, PROCESS_USER_CODE_VADDR, k)
  end.

Definition emit_builtin (user_prog_id : Z) k : kernel A :=
  on_user_page PROCESS_USER_CODE_VADDR (fun code m =>
    let m := mem_zero_u8 m code (Z.to_nat PROCESS_USER_CODE_SIZE) in
    if user_prog_id =? PROCESS_USER_PROG_DEFAULT then snd (process_emit_exit_only_program m code) else
    if user_prog_id =? PROCESS_USER_PROG_PING_BURST then snd (process_emit_ping_program m code 8)
    else snd (process_emit_ping_program m code 2)) k.

(** The label [fail]. *)
Definition build_fail (cr3 prev_cr3 code_frame stack_frame : Z) (code_mapped stack_mapped : bool) k : kernel A :=
  let k := if stack_mapped then unmap_page (PROCESS_USER_STACK_TOP - 4096) k else k in
  let k := if code_mapped then unmap_page PROCESS_USER_CODE_VADDR k else k in
  let k := if stack_mapped || code_mapped then process_release_user_table cr3 PROCESS_USER_CODE_VADDR k else k in
  let k := if negb (stack_frame =? 0) then free_frame stack_frame k else k in
  let k := if negb (code_frame =? 0) then free_frame code_frame k else k in
  switch_directory prev_cr3 k.

Definition USER_FLAGS : Z := Z.lor (Z.lor PAGING_FLAG_PRESENT PAGING_FLAG_RW) PAGING_FLAG_USER.

(** Code frame, stack frame and entry point, or [None] for the return value 0. *)
Definition process_build_user_image (cr3 user_prog_id : Z) (program_name : option (list Z)) k
  : option (Z * Z * Z) * kernel A :=
  let prev_cr3 := paging_current_directory_phys (k_pages k) in
  let k := switch_directory cr3 k in
  let k := unmap_page PROCESS_USER_CODE_VADDR k in
  let k := unmap_page (PROCESS_USER_STACK_TOP - 4096) k in
  let '(code_frame, k) := alloc_frame k in
  let '(stack_frame, k) := alloc_frame k in
  if (code_frame =? 0) || (stack_frame =? 0)
  then (None, build_fail cr3 prev_cr3 code_frame stack_frame false false k) else
  let '(ok, k) := map_page PROCESS_USER_CODE_VADDR code_frame USER_FLAGS k in
  if negb ok then (None, build_fail cr3 prev_cr3 code_frame stack_frame false false k) else
  let '(ok, k) := map_page (PROCESS_USER_STACK_TOP - 4096) stack_frame USER_FLAGS k in
  if negb ok then (None, build_fail cr3 prev_cr3 code_frame stack_frame true false k) else
  let k := on_user_page (PROCESS_USER_STACK_TOP - PROCESS_USER_STACK_SIZE)
             (fun stack m => mem_zero_u8 m stack (Z.to_nat PROCESS_USER_STACK_SIZE)) k in
  let '(image, h) := kh_malloc PROCESS_USER_IMAGE_MAX (k_heap k) in
  let k := set_k_heap k h in
  let '(image_status, entry, k) :=
    if image =? 0 then (0, PROCESS_USER_CODE_VADDR, k) else
    let '(st, e, k) := load_image image program_name k in
    (st, e, set_k_heap k (kh_free image (k_heap k))) in
  if image_status <? 0 then (None, build_fail cr3 prev_cr3 code_frame stack_frame true true k) else
  let k := if image_status =? 0 then emit_builtin user_prog_id k else k in
  let k := switch_directory prev_cr3 k in
  (Some (code_frame, stack_frame, entry), k).

(** *** Creation *)

(** The tail of [process_spawn_common], once the address space is built. *)
Definition spawn_task (name : option (list Z)) (entry arg : Z) (is_kernel : bool) (slot : nat)
    (cr3 code_frame stack_frame user_entry : Z) k : Z * kernel A :=
  let '(tid, s) := if is_kernel then scheduler_create_task bootstrap entry arg name (k_sched k)
                   else scheduler_create_task bootstrap user_task_entry (Z.of_nat slot + 1) name (k_sched k) in
  let k := set_k_sched k s in
  match tid with
  | None =>
      let k := if is_kernel then k else
               free_frame cr3 (free_frame code_frame (free_frame stack_frame (process_unmap_user_pages cr3 k))) in
      (-1, k)
  | Some tid =>
      let '(pid, next) := process_alloc_pid (process_table k) (next_pid k) in
      let e := Proc pid tid cr3 code_frame stack_frame user_entry
                    (if is_kernel then PROCESS_SYSCALL_MASK_KERNEL else PROCESS_SYSCALL_MASK_USER) is_kernel true
                    (snd (str_copy (pe_name (proc_at (process_table k) slot)) 16 (default proc_name name))) in
      (i32 pid, set_table k (<[slot := e]> (process_table k)) next)
  end.

Definition process_spawn_common (name : option (list Z)) (entry arg : Z) (is_kernel : bool) k : Z * kernel A :=
  if negb (process_ready k) then (-1, k) else
  if is_kernel && (entry =? 0) then (-1, k) else
  match process_find_free_slot (process_table k) with
  | None => (-1, k)
  | Some slot =>
      if is_kernel then
        spawn_task name entry arg true slot (paging_kernel_directory_phys (k_pages k)) 0 0 PROCESS_USER_CODE_VADDR k
      else
        let user_prog_id := if arg =? 0 then PROCESS_USER_PROG_DEFAULT else arg in
        let '(cr3, p) := paging_clone_kernel_directory (k_pages k) in
        let k := set_k_pages k p in
        if cr3 =? 0 then (-1, k) else
        match process_build_user_image cr3 user_prog_id name k with
        | (None, k) => (-1, free_frame cr3 k)
        | (Some (code_frame, stack_frame, user_entry), k) =>
            spawn_task name entry arg false slot cr3 code_frame stack_frame user_entry k
        end
  end.

Definition process_spawn_user (name : option (list Z)) (entry arg : Z) k : Z * kernel A :=
  process_spawn_common name entry arg false k.
Definition process_spawn_kernel (name : option (list Z)) (entry arg : Z) k : Z * kernel A :=
  process_spawn_common name entry arg true k.

(** "kernel", the name of the first entry, is [kernel_name]. *)
Definition process_init k : kernel A :=
  let T := map cleared_process (process_table k) in
  let e := proc_at T 0 in
  let e := Proc 1 0 (paging_kernel_directory_phys (k_pages k)) 0 0 0 PROCESS_SYSCALL_MASK_KERNEL true true
                (snd (str_copy (pe_name e) 16 kernel_name)) in
  Kernel (k_sched k) (k_files k) (k_vfs_ready k) (<[0%nat := e]> T) 2 true.

(** *** Reclaiming *)

Definition reap_entry (i : nat) k : kernel A :=
  let e := proc_at (process_table k) i in
  if pe_active e && negb (pe_tid e =? 0)%nat then
    if scheduler_task_is_zombie (pe_tid e) (k_sched k) then
      let k := process_unmap_user_pages (pe_cr3 e) k in
      let k := if negb (pe_cr3 e =? 0) && negb (pe_cr3 e =? paging_kernel_directory_phys (k_pages k))
               then free_frame (pe_cr3 e) k else k in
      let k := if negb (pe_user_code_frame e =? 0) then free_frame (pe_user_code_frame e) k else k in
      let k := if negb (pe_user_stack_frame e =? 0) then free_frame (pe_user_stack_frame e) k else k in
      let k := set_table k (<[i := cleared_process e]> (process_table k)) (next_pid k) in
      set_k_sched k (snd (scheduler_reap_task (pe_tid e) (k_sched k)))
    else k
  else k.

Definition process_reap k : kernel A :=
  if negb (process_ready k) then k else fold_left (fun k i => reap_entry i k) (seq 0 PROCESS_MAX) k.

(** *** Queries *)

Definition active_entries (T : list process_entry_t) : list process_entry_t := List.filter pe_active T.

Definition process_count k : Z :=
  if negb (process_ready k) then 0 else Z.of_nat (length (active_entries (process_table k))).

Definition process_current_pid k : Z :=
  if negb (process_ready k) then 0 else
  match process_find_by_tid (process_table k) (current_task (k_sched k)) with
  | None => 0
  | Some i => pe_pid (proc_at (process_table k) i)
  end.

(** [None] is the return value 0, the fields those of the [index]-th active entry. *)
Definition process_pid_at (index : nat) k : option (Z * list Z) :=
  if negb (process_ready k) then None else
  e ← active_entries (process_table k) !! index; Some (pe_pid e, pe_name e).

Definition process_info_at (index : nat) k : option process_info_t :=
  if negb (process_ready k) then None else
  e ← active_entries (process_table k) !! index;
  Some (Info (pe_pid e) (pe_tid e) (pe_cr3 e) (pe_user_code_frame e) (pe_user_stack_frame e) (pe_user_entry e)
             (pe_syscall_mask_low e) (pe_is_kernel e)).

Definition process_syscall_allowed (syscall_no : Z) k : bool :=
  if negb (process_ready k) then false else
  if 32 <=? syscall_no then false else
  match process_find_by_tid (process_table k) (current_task (k_sched k)) with
  | None => false
  | Some i => negb (Z.land (pe_syscall_mask_low (proc_at (process_table k) i)) (Z.shiftl 1 syscall_no) =? 0)
  end.

Definition process_current_is_kernel k : bool :=
  if negb (process_ready k) then true else
  match process_find_by_tid (process_table k) (current_task (k_sched k)) with
  | None => true
  | Some i => pe_is_kernel (proc_at (process_table k) i)
  end.

(** The directory [process_activate_tid] switches to. *)
Definition activation_target (T : list process_entry_t) (kernel_dir : Z) (tid : nat) : Z :=
  match process_find_by_tid T tid with
  | Some i => if pe_cr3 (proc_at T i) =? 0 then kernel_dir else pe_cr3 (proc_at T i)
  | None => kernel_dir
  end.

Definition process_activate_tid (tid : nat) k : kernel A :=
  switch_directory (activation_target (process_table k) (paging_kernel_directory_phys (k_pages k)) tid) k.

(** *** Task switches

    A scheduler operation that switches calls [process_activate_tid] last, so its
    effect on the page tables follows the operation. *)
Definition on_sched (f : (Z -> Z -> Z) -> sched (kheap (paging_state A)) Z -> sched (kheap (paging_state A)) Z * option Z)
    k : kernel A :=
  let target := fun tid (_ : Z) =>
    activation_target (process_table k) (paging_kernel_directory_phys (k_pages k)) (Z.to_nat tid) in
  let '(s, resumed) := f target (k_sched k) in
  let k := set_k_sched k s in
  match resumed with
  | None => k
  | Some _ => switch_directory (sc_env s) k
  end.

Definition k_yield (sp : Z) k : kernel A := on_sched (fun act => scheduler_yield act sp) k.
Definition k_exit (sp : Z) k : kernel A := on_sched (fun act => scheduler_exit_current act sp) k.
Definition k_run_pending (sp : Z) k : kernel A := on_sched (fun act => scheduler_run_pending act sp) k.
Definition k_tick k : kernel A := set_k_sched k (scheduler_on_tick (k_sched k)).
Definition k_write_file (name data : list Z) k : kernel A :=
  set_k_vfs k (snd (vfs_write_file (Some name) (Some data) (k_vfs k))).

End Operations.

(** ** Lemmas on the table *)

Lemma proc_at_insert T i j e :
  (i < length T)%nat -> proc_at (<[i := e]> T) j = if decide (i = j) then e else proc_at T j.
Proof.
  intros Hi. unfold proc_at. destruct (decide (i = j)) as [<-|Hne].
  - by rewrite list_lookup_insert_eq.
  - by rewrite list_lookup_insert_ne.
Qed.

Lemma proc_at_map f T i :
  (i < length T)%nat -> proc_at (map f T) i = f (proc_at T i).
Proof.
  intros Hi. unfold proc_at. destruct (lookup_lt_is_Some_2 T i Hi) as [e He].
  change (map f T) with (f <$> T). by rewrite list_lookup_fmap, He.
Qed.

Lemma pid_in_use_false T pid :
  process_pid_in_use T pid = false <->
  forall i, (i < PROCESS_MAX)%nat -> pe_active (proc_at T i) = true -> pe_pid (proc_at T i) <> pid.
Proof.
  unfold process_pid_in_use. rewrite <- not_true_iff_false, existsb_exists. split.
  - intros Hn i Hi Ha Hp. apply Hn. exists i. rewrite in_seq, Ha, Hp, Z.eqb_refl. split; [lia|done].
  - intros Hf (i & Hi & Hu). apply in_seq in Hi. bool_simp. apply (Hf i); [lia|done|done].
Qed.

Lemma find_by_tid_Some T tid i :
  process_find_by_tid T tid = Some i ->
  (i < PROCESS_MAX)%nat /\ pe_active (proc_at T i) = true /\ pe_tid (proc_at T i) = tid.
Proof.
  unfold process_find_by_tid. intros Hf. apply find_seq_Some in Hf as (Hi & Hu & _). bool_simp.
  apply Nat.eqb_eq in H0. split_and!; [lia|done|done].
Qed.

(** ** Identifiers *)

(** The candidates are consecutive in the cycle 2, 3, ..., 2^32 - 1. *)
Definition pid_cycle (p : Z) (n : nat) : Z := 2 + (p - 2 + Z.of_nat n) `mod` 4294967294.

Lemma pid_cycle_0 p : 2 <= p < 4294967296 -> pid_cycle p 0 = p.
Proof. intros. unfold pid_cycle. rewrite Z.add_0_r, Z.mod_small; lia. Qed.

Lemma pid_cycle_range p n : 2 <= pid_cycle p n < 4294967296.
Proof. unfold pid_cycle. pose proof (Z.mod_pos_bound (p - 2 + Z.of_nat n) 4294967294). lia. Qed.

Lemma pid_cycle_S p n : pid_cycle (pid_cycle p 1) n = pid_cycle p (S n).
Proof.
  unfold pid_cycle. f_equal. replace (2 + (p - 2 + Z.of_nat 1) `mod` 4294967294 - 2 + Z.of_nat n)
    with ((p - 2 + Z.of_nat 1) `mod` 4294967294 + Z.of_nat n) by lia.
  rewrite Zplus_mod_idemp_l. f_equal. lia.
Qed.

Lemma pid_cycle_inj p (n m : nat) :
  Z.of_nat n < 4294967294 -> Z.of_nat m < 4294967294 -> pid_cycle p n = pid_cycle p m -> n = m.
Proof. unfold pid_cycle. intros. Z.div_mod_to_equations. lia. Qed.

Lemma pid_candidate_eq next p :
  is_u32 next -> p = fst (pid_candidate next) ->
  2 <= p < 4294967296 /\ pid_candidate next = (p, pid_cycle p 1).
Proof.
  unfold pid_candidate, is_u32. intros Hn ->. cbn [fst]. set (p := if next <? 2 then 2 else next).
  assert (Hp : 2 <= p < 4294967296) by (unfold p; destruct (Z.ltb_spec next 2); lia).
  split; [done|]. f_equal. unfold pid_cycle, u32. clearbody p. clear Hn next.
  destruct (decide (p = 4294967295)) as [->|]; [done|].
  rewrite (Z.mod_small (p + 1)), (Z.mod_small (p - 2 + _)) by lia.
  rewrite (proj2 (Z.ltb_ge _ _)) by lia. lia.
Qed.

Lemma alloc_pid_loop_cases T tries : forall next p,
  is_u32 next -> p = fst (pid_candidate next) ->
  (exists n, (n < tries)%nat /\ process_pid_in_use T (pid_cycle p n) = false /\
     alloc_pid_loop T tries next = (pid_cycle p n, pid_cycle p (S n))) \/
  (forall n, (n < tries)%nat -> process_pid_in_use T (pid_cycle p n) = true).
Proof.
  induction tries as [|n IH]; intros next p Hn Hp; [right; lia|].
  destruct (pid_candidate_eq next p Hn Hp) as [Hr E]. cbn [alloc_pid_loop]. rewrite E.
  destruct (process_pid_in_use T p) eqn:Hu; cbn [negb].
  - destruct (IH (pid_cycle p 1) (pid_cycle p 1)) as [(m & Hm & Hf & ->)|Hall].
    + pose proof (pid_cycle_range p 1). unfold is_u32. lia.
    + unfold pid_candidate. cbn [fst]. pose proof (pid_cycle_range p 1).
      by rewrite (proj2 (Z.ltb_ge _ _)) by lia.
    + left. exists (S m). rewrite !pid_cycle_S in *. split_and!; [lia|done|done].
    + right. intros [|m] Hm; [by rewrite pid_cycle_0|]. rewrite <- pid_cycle_S. apply Hall. lia.
  - left. exists 0%nat. rewrite pid_cycle_0 by done. split_and!; [lia|done|done].
Qed.

(** 33 different identifiers cannot all belong to 32 entries. *)
Lemma pid_pigeonhole T p : exists n, (n < S PROCESS_MAX)%nat /\ process_pid_in_use T (pid_cycle p n) = false.
Proof.
  destruct (List.find (fun n => negb (process_pid_in_use T (pid_cycle p n))) (seq 0 (S PROCESS_MAX))) as [n|] eqn:E.
  { apply find_seq_Some in E as (Hn & Hu & _). exists n. bool_simp. split; [lia|done]. }
  exfalso. rewrite find_seq_None in E.
  assert (Hincl : incl (map (pid_cycle p) (seq 0 (S PROCESS_MAX))) (map (fun i => pe_pid (proc_at T i)) (seq 0 PROCESS_MAX))).
  { intros x Hx. apply in_map_iff in Hx as (n & <- & Hn). apply in_seq in Hn.
    pose proof (E n ltac:(lia)) as Hu. bool_simp. unfold process_pid_in_use in Hu.
    apply existsb_exists in Hu as (i & Hi & Hp). bool_simp. apply in_map_iff. by exists i. }
  apply NoDup_incl_length in Hincl.
  - rewrite !length_map, !length_seq in Hincl. lia.
  - apply NoDup_ListNoDup, NoDup_fmap_2_strong; [|apply NoDup_seq].
    intros a b Ha Hb Hab. apply elem_of_seq in Ha, Hb. apply pid_cycle_inj in Hab; [done|unfold PROCESS_MAX in *; lia..].
Qed.

Lemma alloc_pid_fresh T next :
  is_u32 next ->
  let '(pid, next') := process_alloc_pid T next in
  2 <= pid < 4294967296 /\ 2 <= next' < 4294967296 /\ process_pid_in_use T pid = false.
Proof.
  intros Hn. unfold process_alloc_pid.
  destruct (alloc_pid_loop_cases T (S PROCESS_MAX) next _ Hn eq_refl) as [(n & Hlt & Hf & ->)|Hall].
  - split_and!; try apply pid_cycle_range. done.
  - destruct (pid_pigeonhole T (fst (pid_candidate next))) as (n & Hlt & Hf). by rewrite (Hall n Hlt) in Hf.
Qed.

(** ** The invariant of the table *)

Definition user_space (e : process_entry_t) : Prop :=
  pe_cr3 e <> 0 /\ pe_user_code_frame e <> 0 /\ pe_user_stack_frame e <> 0 /\
  PROCESS_USER_CODE_VADDR <= pe_user_entry e < PROCESS_USER_CODE_VADDR + PROCESS_USER_CODE_SIZE.

(** Entry 0 is the kernel itself. The processes have different identifiers, the
    rights of their kind and, apart from the kernel, a task other than 0; user
    processes have an address space and start inside their code page. *)
Record table_ok (T : list process_entry_t) (next : Z) : Prop := {
  to_length : length T = PROCESS_MAX;
  to_next : is_u32 next;
  to_kernel : let e := proc_at T 0 in pe_active e = true /\ pe_pid e = 1 /\ pe_tid e = 0%nat /\ pe_is_kernel e = true;
  to_pids : forall i j, (i < PROCESS_MAX)%nat -> (j < PROCESS_MAX)%nat ->
    pe_active (proc_at T i) = true -> pe_active (proc_at T j) = true ->
    pe_pid (proc_at T i) = pe_pid (proc_at T j) -> i = j;
  to_entry : forall i, (i < PROCESS_MAX)%nat -> pe_active (proc_at T i) = true ->
    0 < pe_pid (proc_at T i) < 4294967296 /\
    pe_syscall_mask_low (proc_at T i) =
      (if pe_is_kernel (proc_at T i) then PROCESS_SYSCALL_MASK_KERNEL else PROCESS_SYSCALL_MASK_USER) /\
    (i <> 0%nat -> (0 < pe_tid (proc_at T i) < MAX_TASKS)%nat) /\
    (pe_is_kernel (proc_at T i) = false -> user_space (proc_at T i));
  to_names : forall i, (i < PROCESS_MAX)%nat -> length (pe_name (proc_at T i)) = 16%nat;
}.

(** A new process in a free slot. *)
Lemma table_ok_add T next slot e next' :
  table_ok T next -> process_find_free_slot T = Some slot -> is_u32 next' ->
  pe_active e = true -> 0 < pe_pid e < 4294967296 -> process_pid_in_use T (pe_pid e) = false ->
  pe_syscall_mask_low e = (if pe_is_kernel e then PROCESS_SYSCALL_MASK_KERNEL else PROCESS_SYSCALL_MASK_USER) ->
  (0 < pe_tid e < MAX_TASKS)%nat -> (pe_is_kernel e = false -> user_space e) -> length (pe_name e) = 16%nat ->
  table_ok (<[slot := e]> T) next'.
Proof.
  intros [Hlen Hnx Hk Hpids Hent Hnm] Hs Hn' Ha Hp Hu Hm Ht Hus Hnl.
  apply find_seq_Some in Hs as (Hslot & Hfree & _). bool_simp.
  rewrite pid_in_use_false in Hu.
  assert (Hat : forall j, proc_at (<[slot := e]> T) j = if decide (slot = j) then e else proc_at T j)
    by (intros; apply proc_at_insert; lia).
  split; [by rewrite length_insert|done| | | |].
  - rewrite Hat. destruct (decide (slot = 0%nat)) as [->|]; [|done]. destruct Hk as [Hk _]. congruence.
  - intros i j Hi Hj. rewrite !Hat. destruct (decide (slot = i)), (decide (slot = j)); subst; auto.
    + intros _ Haj Heq. by destruct (Hu j Hj Haj).
    + intros Hai _ Heq. by destruct (Hu i Hi Hai).
  - intros i Hi. rewrite Hat. destruct (decide (slot = i)); auto.
  - intros i Hi. rewrite Hat. destruct (decide (slot = i)); auto.
Qed.

(** A process leaves. *)
Lemma table_ok_clear T next i :
  table_ok T next -> (0 < i < PROCESS_MAX)%nat -> table_ok (<[i := cleared_process (proc_at T i)]> T) next.
Proof.
  intros [Hlen Hnx Hk Hpids Hent Hnm] Hi.
  assert (Hat : forall j, proc_at (<[i := cleared_process (proc_at T i)]> T) j =
                          if decide (i = j) then cleared_process (proc_at T i) else proc_at T j)
    by (intros; apply proc_at_insert; lia).
  split; [by rewrite length_insert|done| | | |].
  - rewrite Hat. destruct (decide (i = 0%nat)); [lia|done].
  - intros a b Ha Hb. rewrite !Hat. destruct (decide (i = a)), (decide (i = b)); subst; try done. auto.
  - intros a Ha. rewrite Hat. destruct (decide (i = a)); [done|auto].
  - intros a Ha. rewrite Hat. destruct (decide (i = a)) as [<-|]; auto. cbn. rewrite length_insert. auto.
Qed.

Lemma entry_name_length T next i src :
  table_ok T next -> (i < PROCESS_MAX)%nat -> length (snd (str_copy (pe_name (proc_at T i)) 16 src)) = 16%nat.
Proof.
  intros Hok Hi. pose proof (to_names T next Hok i Hi) as Hl.
  destruct (str_copy_spec (pe_name (proc_at T i)) 16 src) as (d & -> & _ & Hd); [lia|]. cbn. lia.
Qed.

Section Invariant.
Context {A : Type} `{FrameAllocator A}.
Context (bootstrap user_task_entry : Z).
Implicit Types (k : kernel A).

(** Neither the running task nor whether tasks run at all changes. *)
Definition same_cpu k k' : Prop :=
  current_task (k_sched k') = current_task (k_sched k) /\ scheduler_started (k_sched k') = scheduler_started (k_sched k).

#[global] Instance same_cpu_preorder : PreOrder same_cpu.
Proof. split; [by intros k|]. intros k1 k2 k3 [] []. split; congruence. Qed.

(** Most operations leave the table and the tasks alone. *)
Definition same_table k k' : Prop :=
  process_table k' = process_table k /\ next_pid k' = next_pid k /\ process_ready k' = process_ready k /\
  tasks (k_sched k') = tasks (k_sched k) /\ same_cpu k k'.

#[global] Instance same_table_preorder : PreOrder same_table.
Proof. split; [by intros k|]. intros k1 k2 k3 (? & ? & ? & ? & Hc1) (? & ? & ? & ? & Hc2). do 4 (split; [congruence|]). by transitivity k2. Qed.

Lemma set_heap_table h k : same_table k (set_k_heap k h).
Proof. done. Qed.

Lemma set_pages_table p k : same_table k (set_k_pages k p).
Proof. done. Qed.

Lemma same_table_heap h k0 k : same_table k0 k -> same_table k0 (set_k_heap k h).
Proof. intros. by transitivity k. Qed.

Lemma same_table_pages p k0 k : same_table k0 k -> same_table k0 (set_k_pages k p).
Proof. intros. by transitivity k. Qed.

Lemma release_table_table cr3 v k : same_table k (process_release_user_table cr3 v k).
Proof. unfold process_release_user_table. repeat case_match; done. Qed.

Lemma unmap_user_table cr3 k : same_table k (process_unmap_user_pages cr3 k).
Proof. unfold process_unmap_user_pages. case_match; [done|]. etransitivity; [|apply release_table_table]. done. Qed.

Lemma same_table_if (b : bool) (f : kernel A -> kernel A) k0 k :
  same_table k0 k -> (forall k, same_table k (f k)) -> same_table k0 (if b then f k else k).
Proof. intros Hs Hf. destruct b; [|done]. by transitivity k. Qed.

Lemma build_fail_table cr3 prev cf sf cm sm k : same_table k (build_fail cr3 prev cf sf cm sm k).
Proof.
  unfold build_fail. cbv zeta. match goal with |- same_table _ (switch_directory _ ?k') => change (same_table k k') end.
  repeat (apply same_table_if; [|done || intros; apply release_table_table]). reflexivity.
Qed.

Lemma load_image_table image name k st e k' :
  load_image image name k = (st, e, k') ->
  same_table k k' /\ (0 <= st -> PROCESS_USER_CODE_VADDR <= e < PROCESS_USER_CODE_VADDR + PROCESS_USER_CODE_SIZE).
Proof.
  assert (Hin : PROCESS_USER_CODE_VADDR <= PROCESS_USER_CODE_VADDR < PROCESS_USER_CODE_VADDR + PROCESS_USER_CODE_SIZE) by done.
  unfold load_image. generalize (load_bytes image (Z.to_nat PROCESS_USER_IMAGE_MAX) (k_heap k)). intros bs.
  destruct (process_load_user_image_bytes_from_vfs _ _ _ _) as [[[status len] dst]|];
    [|intros [= <- <- <-]; by split].
  destruct (status =? 0); [intros [= <- <- <-]; by split|].
  generalize (store_bytes image dst (k_heap k)). intros h. destruct (status <? 0); [intros [= <- <- <-]; by split|].
  destruct (process_is_elf32_image _ _).
  - destruct (process_load_elf32_single_page _ _ _ _ _ _) as [[e'|] m] eqn:El; intros [= <- <- <-]; [|by split].
    split; [by split_and!|]. intros _. by apply elf_entry_in_page in El.
  - destruct (_ <? _); [intros [= <- <- <-]; by split|].
    unfold on_user_page. generalize (set_pg_mem (k_pages (set_k_heap k h))). intros f.
    set (fm := f _). clearbody fm. intros [= <- <- <-]. split; [by split_and!|done].
Qed.

Lemma build_image_table cr3 prog name k r k' :
  process_build_user_image cr3 prog name k = (r, k') ->
  same_table k k' /\
  (forall cf sf e, r = Some (cf, sf, e) -> cf <> 0 /\ sf <> 0 /\
     PROCESS_USER_CODE_VADDR <= e < PROCESS_USER_CODE_VADDR + PROCESS_USER_CODE_SIZE).
Proof.
  assert (Hin : PROCESS_USER_CODE_VADDR <= PROCESS_USER_CODE_VADDR < PROCESS_USER_CODE_VADDR + PROCESS_USER_CODE_SIZE) by done.
  unfold process_build_user_image.
  set (k1 := unmap_page (PROCESS_USER_STACK_TOP - 4096) _). assert (H1 : same_table k k1) by (do 3 apply same_table_pages; reflexivity). clearbody k1.
  unfold alloc_frame at 1. destruct (fa_alloc _) as [cf a1]. set (k2 := set_k_pages k1 _).
  assert (H2 : same_table k k2) by exact (same_table_pages _ _ _ H1). clearbody k2. clear H1 k1 a1.
  unfold alloc_frame. destruct (fa_alloc _) as [sf a2]. set (k3 := set_k_pages k2 _).
  assert (H3 : same_table k k3) by exact (same_table_pages _ _ _ H2). clearbody k3. clear H2 k2 a2.
  destruct (_ || _) eqn:Ez; [intros [= <- <-]; split; [by etransitivity; [|apply build_fail_table]|done]|]. bool_simp.
  unfold map_page at 1. destruct (paging_map_page _ _ _ _) as [ok p]. set (k4 := set_k_pages k3 p).
  assert (H4 : same_table k k4) by exact (same_table_pages _ _ _ H3). clearbody k4. clear H3 k3 p.
  destruct ok; cbn [negb]; [|intros [= <- <-]; split; [by etransitivity; [|apply build_fail_table]|done]].
  unfold map_page. destruct (paging_map_page _ _ _ _) as [ok p]. set (k5 := set_k_pages k4 p).
  assert (H5 : same_table k k5) by exact (same_table_pages _ _ _ H4). clearbody k5. clear H4 k4 p.
  destruct ok; cbn [negb]; [|intros [= <- <-]; split; [by etransitivity; [|apply build_fail_table]|done]].
  set (k6 := on_user_page _ _ k5). assert (H6 : same_table k k6) by exact (same_table_pages _ _ _ H5). clearbody k6. clear H5 k5.
  destruct (kh_malloc _ _) as [image h]. set (k7 := set_k_heap k6 h).
  assert (H7 : same_table k k7) by exact (same_table_heap _ _ _ H6). clearbody k7. clear H6 k6 h.
  destruct (if image =? 0 then _ else _) as [[st e] k8] eqn:El.
  assert (H8 : same_table k k8 /\
    (0 <= st -> PROCESS_USER_CODE_VADDR <= e < PROCESS_USER_CODE_VADDR + PROCESS_USER_CODE_SIZE)).
  { revert El. destruct (image =? 0); intros El; [injection El as <- <- <-; split; [exact H7|intros _; exact Hin]|].
    destruct (load_image image name k7) as [[st' e'] k'7] eqn:Eli. apply load_image_table in Eli as [Hs He].
    injection El as <- <- <-. split; [|exact He].
    apply same_table_heap. transitivity k7; [exact H7|exact Hs]. }
  clear El. destruct H8 as [H8 He].
  destruct (Z.ltb_spec st 0); [intros [= <- <-]; split; [by etransitivity; [|apply build_fail_table]|done]|].
  intros [= <- <-]. split; [|intros ? ? ? [= <- <- <-]; auto].
  apply same_table_pages. destruct (st =? 0); [apply same_table_pages|]; exact H8.
Qed.

(** [scheduler_create_task] fails with the tasks unchanged, or makes a task other
    than 0 runnable whose slot was free. *)
Lemma create_task_tasks entry arg name (s : sched (kheap (paging_state A)) Z) r s' :
  scheduler_create_task bootstrap entry arg name s = (r, s') ->
  match r with
  | None => tasks s' = tasks s
  | Some tid => (0 < tid < MAX_TASKS)%nat /\ List.find (slot_free s) (seq 1 (MAX_TASKS - 1)) = Some tid /\
      exists t, tk_state t = TASK_RUNNABLE /\ tasks s' = alter (fun _ => t) tid (tasks s)
  end.
Proof.
  unfold scheduler_create_task. destruct (_ || _); [by intros [<- <-]%pair_equal_spec|].
  destruct (List.find _ _) as [idx|] eqn:Ef; [|by intros [<- <-]%pair_equal_spec].
  apply find_seq_Some in Ef as Hfind. destruct Hfind as (Hi & _).
  destruct (kh_malloc _ _) as [stack h]. destruct (stack =? 0); [by intros [<- <-]%pair_equal_spec|].
  destruct (push_frame _ _ _) as [sp h']. intros [<- <-]%pair_equal_spec. unfold MAX_TASKS in *.
  split_and!; [lia|lia|done|]. eexists (Task _ _ _ _ TASK_RUNNABLE _). split; [reflexivity|].
  cbn [tasks set_tasks alter_task set_sc_heap]. destruct (_ && _); reflexivity.
Qed.

Lemma create_task_cpu entry arg name k :
  same_cpu k (set_k_sched k (snd (scheduler_create_task bootstrap entry arg name (k_sched k)))).
Proof.
  unfold scheduler_create_task. destruct (_ || _); [done|]. destruct (List.find _ _) as [idx|]; [|done].
  destruct (kh_malloc _ _) as [stack h]. destruct (stack =? 0); [done|]. destruct (push_frame _ _ _) as [sp h'].
  destruct (_ && _); done.
Qed.

(** Both outcomes of the tail: table and tasks unchanged and -1, or one new entry. *)
Lemma spawn_task_cases name entry arg is_kernel slot cr3 cf sf ue k r k' :
  spawn_task bootstrap user_task_entry name entry arg is_kernel slot cr3 cf sf ue k = (r, k') ->
  (r = -1 /\ same_table k k') \/
  (exists tid pid next t, (0 < tid < MAX_TASKS)%nat /\
     List.find (slot_free (k_sched k)) (seq 1 (MAX_TASKS - 1)) = Some tid /\
     tk_state t = TASK_RUNNABLE /\ tasks (k_sched k') = alter (fun _ => t) tid (tasks (k_sched k)) /\
     process_alloc_pid (process_table k) (next_pid k) = (pid, next) /\ r = i32 pid /\
     process_ready k' = process_ready k /\ same_cpu k k' /\ next_pid k' = next /\
     process_table k' = <[slot := Proc pid tid cr3 cf sf ue
       (if is_kernel then PROCESS_SYSCALL_MASK_KERNEL else PROCESS_SYSCALL_MASK_USER) is_kernel true
       (snd (str_copy (pe_name (proc_at (process_table k) slot)) 16 (default proc_name name)))]> (process_table k)).
Proof.
  unfold spawn_task. destruct (if is_kernel then _ else _) as [tid s] eqn:Ec.
  assert (Hc : exists e a, scheduler_create_task bootstrap e a name (k_sched k) = (tid, s))
    by (destruct is_kernel; eauto).
  destruct Hc as (e & a & Hc). pose proof (create_task_cpu e a name k) as Hcpu. rewrite Hc in Hcpu. apply create_task_tasks in Hc. destruct tid as [tid|].
  - destruct Hc as (Ht & Hf & t & Hrun & Htasks).
    cbn [process_table next_pid set_k_sched]. destruct (process_alloc_pid _ _) as [pid next] eqn:Ep.
    intros [<- <-]%pair_equal_spec. right. exists tid, pid, next, t. split_and!; try reflexivity; done || lia || exact Hcpu.
  - assert (Hs : same_table k (set_k_sched k s)) by (split_and!; done || exact Hcpu).
    intros [<- <-]%pair_equal_spec. left. split; [done|]. destruct is_kernel; [done|].
    do 3 apply same_table_pages. etransitivity; [exact Hs|apply unmap_user_table].
Qed.

Lemma spawn_table_ok name entry arg is_kernel k r k' :
  table_ok (process_table k) (next_pid k) ->
  process_spawn_common bootstrap user_task_entry name entry arg is_kernel k = (r, k') ->
  table_ok (process_table k') (next_pid k').
Proof.
  intros Hok. unfold process_spawn_common.
  destruct (process_ready k); cbn [negb]; [|by intros [= _ <-]].
  destruct (_ && _); [by intros [= _ <-]|]. destruct (process_find_free_slot _) as [slot|] eqn:Ef; [|by intros [= _ <-]].
  assert (Hslot : (slot < PROCESS_MAX)%nat) by (apply find_seq_Some in Ef as (? & _); lia).
  assert (Hadd : forall k1 cr3 cf sf ue, same_table k k1 -> (is_kernel = false -> user_space (Proc 0 0 cr3 cf sf ue 0 false false [])) ->
    spawn_task bootstrap user_task_entry name entry arg is_kernel slot cr3 cf sf ue k1 = (r, k') ->
    table_ok (process_table k') (next_pid k')).
  { intros k1 cr3 cf sf ue (HT & HN & _) Hus E. apply spawn_task_cases in E as [[_ (-> & -> & _)]|E]; [by rewrite HT, HN|].
    destruct E as (tid & pid & next & t & Ht & _ & _ & _ & Ep & _ & _ & _ & -> & ->). rewrite HT, HN in *.
    pose proof (alloc_pid_fresh (process_table k) (next_pid k) (to_next _ _ Hok)) as Hp. rewrite Ep in Hp.
    destruct Hp as (Hp & Hn & Hu). apply (table_ok_add _ (next_pid k)); cbn; auto; [unfold is_u32; lia|lia|].
    by apply (entry_name_length _ (next_pid k)). }
  destruct is_kernel; [by apply Hadd|].
  destruct (paging_clone_kernel_directory _) as [cr3 p]. destruct (Z.eqb_spec cr3 0) as [->|Hc]; [by intros [= _ <-]|].
  destruct (process_build_user_image _ _ _ _) as [[[[cf sf] ue]|] k1] eqn:Eb; apply build_image_table in Eb as [Hs Hb].
  - destruct (Hb cf sf ue eq_refl) as (Hcf & Hsf & Hue). apply Hadd; [exact Hs|]. intros _. exact (conj Hc (conj Hcf (conj Hsf Hue))).
  - intros [= _ <-]. destruct Hs as (HT & HN & _). cbn in *. by rewrite HT, HN.
Qed.

Lemma reap_entry_table i k :
  reap_entry i k = k \/
  (pe_active (proc_at (process_table k) i) = true /\ pe_tid (proc_at (process_table k) i) <> 0%nat /\
   process_table (reap_entry i k) = <[i := cleared_process (proc_at (process_table k) i)]> (process_table k) /\
   next_pid (reap_entry i k) = next_pid k /\ process_ready (reap_entry i k) = process_ready k /\
   tasks (k_sched (reap_entry i k)) = alter cleared (pe_tid (proc_at (process_table k) i)) (tasks (k_sched k)) /\
   same_cpu k (reap_entry i k) /\ state_at (tasks (k_sched k)) (pe_tid (proc_at (process_table k) i)) = TASK_ZOMBIE).
Proof.
  unfold reap_entry. set (e := proc_at _ _). destruct (_ && _) eqn:E; [|by left].
  destruct (scheduler_task_is_zombie _ _) eqn:Ez; [|by left]. right. bool_simp.
  apply Nat.eqb_neq in H1 as Htid.
  match goal with |- context [set_table ?k1 _ _] => assert (Hs : same_table k k1); [|revert Hs; generalize k1] end.
  { repeat (apply same_table_if; [|intros; apply set_pages_table]). apply unmap_user_table. }
  intros k1 (HT & HN & HR & HK & HC).
  do 5 (split; [cbn; congruence|]).
  cbn [k_sched set_k_sched set_table same_cpu]. unfold same_cpu, scheduler_reap_task, scheduler_task_is_zombie in *.
  cbn [k_sched set_k_sched set_table].
  rewrite HK. destruct (_ <=? _)%nat; [done|]. rewrite Ez. apply bool_decide_eq_true in Ez. apply Nat.eqb_neq in Htid. rewrite Htid. cbn [orb negb].
  destruct (_ =? 0); cbn [negb snd tasks alter_task set_tasks set_sc_heap current_task scheduler_started]; by rewrite HK.
Qed.

(** *** Tasks in use stay in use *)

Definition live (ts : list task_t) (j : nat) : Prop := state_at ts j <> TASK_UNUSED.
Definition keeps (ts ts' : list task_t) : Prop := length ts' = length ts /\ forall j, live ts j -> live ts' j.

Lemma live_alter f i ts j :
  (forall t, tk_state t <> TASK_UNUSED -> tk_state (f t) <> TASK_UNUSED) -> live ts j -> live (alter f i ts) j.
Proof.
  unfold live, state_at, task_at. intros Hf. destruct (decide (i = j)) as [<-|Hne].
  - rewrite list_lookup_alter_eq. destruct (ts !! i); cbn; auto.
  - by rewrite list_lookup_alter_ne.
Qed.

Lemma keeps_alter f i ts ts' :
  (forall t, tk_state t <> TASK_UNUSED -> tk_state (f t) <> TASK_UNUSED) -> keeps ts ts' -> keeps ts (alter f i ts').
Proof. intros Hf [Hl Hk]. split; [by rewrite length_alter|]. intros j Hj. apply live_alter; auto. Qed.

Lemma yield_keeps act sp (s : sched (kheap (paging_state A)) Z) :
  keeps (tasks s) (tasks (fst (scheduler_yield act sp s))).
Proof.
  assert (Hr : keeps (tasks s) (tasks s)) by done.
  unfold scheduler_yield. destruct (negb _); [done|]. destruct (scheduler_pick_next s) as [n|]; [|done].
  destruct (bool_decide _); cbn; repeat (apply keeps_alter; [done|]); done.
Qed.

Lemma exit_keeps act sp (s : sched (kheap (paging_state A)) Z) :
  keeps (tasks s) (tasks (fst (scheduler_exit_current act sp s))).
Proof.
  assert (Hr : keeps (tasks s) (tasks s)) by done.
  unfold scheduler_exit_current, scheduler_task_exit. destruct (negb _); [done|]. destruct (_ =? _)%nat; [done|].
  destruct (scheduler_pick_next _) as [n|]; cbn; repeat (apply keeps_alter; [done|]); done.
Qed.

Lemma pending_keeps act sp (s : sched (kheap (paging_state A)) Z) :
  keeps (tasks s) (tasks (fst (scheduler_run_pending act sp s))).
Proof. unfold scheduler_run_pending. destruct (preempt_pending s); [apply yield_keeps|done]. Qed.

(** What a step that is not about processes does: the table stays, tasks in use stay
    in use. *)
Definition task_step k k' : Prop :=
  process_table k' = process_table k /\ next_pid k' = next_pid k /\ process_ready k' = process_ready k /\
  keeps (tasks (k_sched k)) (tasks (k_sched k')).

Lemma on_sched_step f k :
  (forall act s, keeps (tasks s) (tasks (fst (f act s)))) -> task_step k (on_sched f k).
Proof.
  intros Hf. unfold on_sched. set (act := fun tid _ => _). specialize (Hf act (k_sched k)).
  destruct (f act (k_sched k)) as [s r]. destruct r; done.
Qed.

(** ** Runs

    [guard] restricts the moments when a task or a process is created. *)
Inductive k_step (guard : kernel A -> Prop) k : kernel A -> Prop :=
| KSpawn name entry arg is_kernel :
    guard k -> k_step guard k (snd (process_spawn_common bootstrap user_task_entry name entry arg is_kernel k))
| KCreate entry arg name :
    guard k -> k_step guard k (set_k_sched k (snd (scheduler_create_task bootstrap entry arg name (k_sched k))))
| KReap : k_step guard k (process_reap k)
| KYield sp : k_step guard k (k_yield sp k)
| KExit sp : k_step guard k (k_exit sp k)
| KRunPending sp : k_step guard k (k_run_pending sp k)
| KTick : k_step guard k (k_tick k)
| KWriteFile name data : k_step guard k (k_write_file name data k).

Lemma tick_step k : task_step k (k_tick k).
Proof. unfold k_tick, scheduler_on_tick. by destruct (negb _). Qed.

Lemma write_step name data k : task_step k (k_write_file name data k).
Proof. done. Qed.

Lemma create_step entry arg name k :
  task_step k (set_k_sched k (snd (scheduler_create_task bootstrap entry arg name (k_sched k)))).
Proof.
  destruct (scheduler_create_task _ _ _ _ _) as [r s] eqn:E. apply create_task_tasks in E. cbn [snd].
  split_and!; [done..|]. cbn [k_sched set_k_sched]. destruct r as [tid|]; [|by rewrite E].
  destruct E as (_ & _ & t & Ht & ->). apply keeps_alter; [by rewrite Ht|done].
Qed.

(** [process_reap] is a sequence of [reap_entry]. *)
Lemma reap_ind (P : kernel A -> Prop) k :
  P k -> (forall i k, (i < PROCESS_MAX)%nat -> P k -> P (reap_entry i k)) -> P (process_reap k).
Proof.
  intros Hk Hs. unfold process_reap. destruct (negb _); [done|].
  assert (Hall : Forall (fun i => (i < PROCESS_MAX)%nat) (seq 0 PROCESS_MAX)).
  { apply Forall_forall. intros i Hi. apply elem_of_seq in Hi. lia. }
  revert Hall k Hk. induction (seq 0 PROCESS_MAX) as [|i l IH]; intros Hall k Hk; [done|].
  apply Forall_cons_1 in Hall as [Hi Hall]. cbn [fold_left]. auto.
Qed.

Lemma reap_table_ok i k :
  (i < PROCESS_MAX)%nat -> table_ok (process_table k) (next_pid k) ->
  table_ok (process_table (reap_entry i k)) (next_pid (reap_entry i k)).
Proof.
  intros Hi Hok. destruct (reap_entry_table i k) as [->|(Ha & Ht & -> & -> & _)]; [done|].
  apply table_ok_clear; [done|]. destruct (decide (i = 0%nat)) as [->|]; [|lia].
  destruct (to_kernel _ _ Hok) as (_ & _ & Hz & _). congruence.
Qed.

Lemma step_table_ok guard k k' :
  table_ok (process_table k) (next_pid k) -> k_step guard k k' -> table_ok (process_table k') (next_pid k').
Proof.
  assert (Htask : forall k1, task_step k k1 -> table_ok (process_table k) (next_pid k) ->
                             table_ok (process_table k1) (next_pid k1)) by (intros k1 (-> & -> & _); done).
  intros Hok [name entry arg isk _|entry arg name _| |sp|sp|sp| |name data].
  - destruct (process_spawn_common _ _ _ _ _ _ _) as [r k1] eqn:E. by apply spawn_table_ok in E.
  - apply Htask; [apply create_step|done].
  - apply reap_ind; auto using reap_table_ok.
  - apply Htask; [apply on_sched_step; intros; apply yield_keeps|done].
  - apply Htask; [apply on_sched_step; intros; apply exit_keeps|done].
  - apply Htask; [apply on_sched_step; intros; apply pending_keeps|done].
  - apply Htask; [apply tick_step|done].
  - apply Htask; [apply write_step|done].
Qed.

Lemma init_table_ok k :
  length (process_table k) = PROCESS_MAX -> Forall (fun e => length (pe_name e) = 16%nat) (process_table k) ->
  table_ok (process_table (process_init k)) (next_pid (process_init k)).
Proof.
  intros Hl Hn. unfold process_init. cbn [process_table next_pid].
  set (T := map cleared_process (process_table k)). set (e := Proc _ _ _ _ _ _ _ _ _ _).
  assert (HlT : length T = PROCESS_MAX) by (unfold T; by rewrite length_map).
  assert (Hcl : forall i, (i < PROCESS_MAX)%nat -> proc_at T i = cleared_process (proc_at (process_table k) i))
    by (intros; apply proc_at_map; lia).
  assert (Hnm : forall i, (i < PROCESS_MAX)%nat -> length (pe_name (proc_at T i)) = 16%nat).
  { intros i Hi. rewrite Hcl by done. cbn. rewrite length_insert. unfold proc_at.
    destruct (lookup_lt_is_Some_2 (process_table k) i) as [x Hx]; [lia|]. rewrite Hx.
    apply (Forall_lookup_1 _ _ _ _ Hn Hx). }
  assert (Hat : forall j, proc_at (<[0%nat := e]> T) j = if decide (0%nat = j) then e else proc_at T j)
    by (intros; apply proc_at_insert; unfold PROCESS_MAX in *; lia).
  assert (Hact : forall i, (i < PROCESS_MAX)%nat -> pe_active (proc_at (<[0%nat := e]> T) i) = true -> i = 0%nat).
  { intros i Hi. rewrite Hat. destruct (decide (0%nat = i)); [done|]. by rewrite Hcl. }
  split; [by rewrite length_insert|done| | | |].
  - by rewrite Hat.
  - intros i j Hi Hj Hai Haj _. apply Hact in Hai, Haj; [|done..]. congruence.
  - intros i Hi Ha. apply Hact in Ha; [|done]. subst i. rewrite Hat. cbn. by split_and!.
  - intros i Hi. rewrite Hat. destruct (decide (0%nat = i)); [|auto]. cbn [pe_name e].
    destruct (str_copy_spec (pe_name (proc_at T 0)) 16 kernel_name) as (d & -> & _ & Hd); [rewrite Hnm; unfold PROCESS_MAX; lia|].
    cbn. rewrite Hd. apply Hnm. unfold PROCESS_MAX. lia.
Qed.

(** *** Task identifiers *)

(** Every process but the kernel has a task in use, and no two have the same. *)
Record tids_ok k : Prop := {
  td_table : table_ok (process_table k) (next_pid k);
  td_tasks : length (tasks (k_sched k)) = MAX_TASKS;
  td_inj : forall i j, (i < PROCESS_MAX)%nat -> (j < PROCESS_MAX)%nat ->
    pe_active (proc_at (process_table k) i) = true -> pe_active (proc_at (process_table k) j) = true ->
    pe_tid (proc_at (process_table k) i) = pe_tid (proc_at (process_table k) j) -> i = j;
  td_live : forall i, (0 < i < PROCESS_MAX)%nat -> pe_active (proc_at (process_table k) i) = true ->
    live (tasks (k_sched k)) (pe_tid (proc_at (process_table k) i));
}.

Definition no_zombie k : Prop := forall t, state_at (tasks (k_sched k)) t <> TASK_ZOMBIE.

Lemma tids_ok_task_step k k' : tids_ok k -> task_step k k' -> tids_ok k'.
Proof.
  intros [Htab Hlen Hinj Hlive] (HT & HN & _ & Hl & Hk). split; rewrite ?HT, ?HN; auto. congruence.
Qed.

(** What a call of [process_spawn_common] leaves: nothing new, or one entry in the
    first free slot with the first free task. *)
Definition spawned is_kernel k r k' : Prop :=
  (process_table k' = process_table k /\ tasks (k_sched k') = tasks (k_sched k) /\ r = -1) \/
  exists slot tid t e, process_find_free_slot (process_table k) = Some slot /\ (0 < tid < MAX_TASKS)%nat /\
    List.find (slot_free (k_sched k)) (seq 1 (MAX_TASKS - 1)) = Some tid /\
    tk_state t = TASK_RUNNABLE /\ pe_tid e = tid /\ pe_active e = true /\
    pe_is_kernel e = is_kernel /\ r = i32 (pe_pid e) /\
    tasks (k_sched k') = alter (fun _ => t) tid (tasks (k_sched k)) /\ process_table k' = <[slot := e]> (process_table k).

Lemma slot_free_ext (s s' : sched (kheap (paging_state A)) Z) l :
  tasks s' = tasks s -> List.find (slot_free s') l = List.find (slot_free s) l.
Proof.
  intros HK. induction l as [|a l IH]; [done|]. cbn [List.find]. unfold slot_free at 1 3. rewrite HK, IH. done.
Qed.

Lemma spawn_slot name entry arg is_kernel k r k' :
  process_spawn_common bootstrap user_task_entry name entry arg is_kernel k = (r, k') ->
  spawned is_kernel k r k' /\ process_ready k' = process_ready k /\ same_cpu k k'.
Proof.
  assert (Hno : forall k1, same_table k k1 -> r = -1 ->
    spawned is_kernel k r k1 /\ process_ready k1 = process_ready k /\ same_cpu k k1).
  { intros k1 (HT & _ & HR & HK & HC) ->. split; [by left|done]. }
  unfold process_spawn_common. destruct (process_ready k) eqn:Er; cbn [negb]; [|intros [<- <-]%pair_equal_spec; by apply Hno].
  destruct (_ && _); [intros [<- <-]%pair_equal_spec; by apply Hno|].
  destruct (process_find_free_slot _) as [slot|] eqn:Ef; [|intros [<- <-]%pair_equal_spec; by apply Hno].
  assert (Hadd : forall k1 cr3 cf sf ue, same_table k k1 ->
    spawn_task bootstrap user_task_entry name entry arg is_kernel slot cr3 cf sf ue k1 = (r, k') ->
    spawned is_kernel k r k' /\ process_ready k' = true /\ same_cpu k k').
  { intros k1 cr3 cf sf ue Hs1 E. pose proof Hs1 as (HT & HN & HR & HK & HC).
    apply spawn_task_cases in E as [[-> Hs']|E]; [apply Hno; [by transitivity k1|done]|].
    destruct E as (tid & pid & next & t & Ht & Hf & Hr & Htasks & _ & -> & HR' & HC' & _ & HT'). split; [|split; [congruence|by transitivity k1]].
    right. exists slot, tid, t. eexists. split; [done|]. split; [done|]. rewrite HT in HT'. rewrite HK in Htasks.
    rewrite (slot_free_ext (k_sched k)) in Hf by done.
    split_and!; [exact Hf|exact Hr| | | | |exact Htasks|exact HT']; reflexivity. }
  destruct is_kernel; [by apply Hadd|].
  destruct (paging_clone_kernel_directory _) as [cr3 p].
  destruct (cr3 =? 0); [intros [<- <-]%pair_equal_spec; by apply Hno|].
  destruct (process_build_user_image _ _ _ _) as [[[[cf sf] ue]|] k1] eqn:Eb; apply build_image_table in Eb as [Hs _].
  - apply Hadd. exact Hs.
  - intros [<- <-]%pair_equal_spec. apply Hno; [|done]. by apply same_table_pages.
Qed.

Lemma spawn_tids_ok name entry arg is_kernel k r k' :
  tids_ok k -> no_zombie k ->
  process_spawn_common bootstrap user_task_entry name entry arg is_kernel k = (r, k') -> tids_ok k'.
Proof.
  intros [Htab Hlen Hinj Hlive] Hnz E. pose proof E as Hok. apply spawn_table_ok in Hok; [|done].
  apply spawn_slot in E as [[(HT & HK & _)|(slot & tid & t & e & Hs & Htid & Hf & Hrun & He & Ha & _ & _ & HK & HT)] _].
  { split; rewrite ?HT, ?HK in *; auto. }
  apply find_seq_Some in Hf as (_ & Hf & _).
  assert (Hun : state_at (tasks (k_sched k)) tid = TASK_UNUSED).
  { unfold slot_free in Hf. apply orb_true_iff in Hf as [Hf|Hf]; apply bool_decide_eq_true in Hf; [done|].
    by destruct (Hnz tid). }
  apply find_seq_Some in Hs as (Hslot & Hfree & _). bool_simp.
  assert (Hat : forall j, proc_at (process_table k') j = if decide (slot = j) then e else proc_at (process_table k) j).
  { intros. rewrite HT. apply proc_at_insert. rewrite (to_length _ _ Htab). lia. }
  assert (Hs0 : slot <> 0%nat).
  { intros ->. destruct (to_kernel _ _ Htab) as [Hk0 _]. congruence. }
  assert (Hdiff : forall j, (j < PROCESS_MAX)%nat -> pe_active (proc_at (process_table k) j) = true ->
                            pe_tid (proc_at (process_table k) j) <> tid).
  { intros j Hj Haj Heq. destruct (decide (j = 0%nat)) as [->|].
    - destruct (to_kernel _ _ Htab) as (_ & _ & Hk0 & _). rewrite Hk0 in Heq. lia.
    - apply (Hlive j); [lia|done|]. by rewrite Heq. }
  split; [done|by rewrite HK, length_alter| |].
  - intros i j Hi Hj. rewrite !Hat. destruct (decide (slot = i)), (decide (slot = j)); subst; auto.
    + intros _ Haj Heq. symmetry in Heq. by apply Hdiff in Heq.
    + intros Hai _ Heq. by apply Hdiff in Heq.
  - intros i Hi Hai. rewrite Hat in *. rewrite HK. destruct (decide (slot = i)) as [<-|].
    + rewrite He. unfold live. rewrite state_at_alter by lia. rewrite decide_True by done. by rewrite Hrun.
    + apply live_alter; [by rewrite Hrun|auto].
Qed.

Lemma reap_tids_ok i k : (i < PROCESS_MAX)%nat -> tids_ok k -> tids_ok (reap_entry i k).
Proof.
  intros Hi Hok. pose proof (reap_table_ok i k Hi (td_table _ Hok)) as Htab'.
  destruct (reap_entry_table i k) as [->|(Ha & Ht & HT & HN & _ & HK & _)]; [done|].
  destruct Hok as [Htab Hlen Hinj Hlive].
  assert (Hat : forall j, proc_at (process_table (reap_entry i k)) j =
            if decide (i = j) then cleared_process (proc_at (process_table k) i) else proc_at (process_table k) j).
  { intros. rewrite HT. apply proc_at_insert. rewrite (to_length _ _ Htab). lia. }
  split; [done|by rewrite HK, length_alter| |].
  - intros a b Ha' Hb. rewrite !Hat. destruct (decide (i = a)), (decide (i = b)); subst; try done. auto.
  - intros a Ha'. rewrite Hat. destruct (decide (i = a)); [done|]. intros Haa. rewrite HK.
    assert (Hne : pe_tid (proc_at (process_table k) i) <> pe_tid (proc_at (process_table k) a)).
    { intros Heq. apply Hinj in Heq; [done|lia|lia|done|done]. }
    pose proof (Hlive a Ha' Haa) as Hl. unfold live, state_at, task_at in *.
    by rewrite list_lookup_alter_ne.
Qed.

Lemma step_tids_ok k k' : tids_ok k -> k_step no_zombie k k' -> tids_ok k'.
Proof.
  intros Hok [name entry arg isk Hnz|entry arg name _| |sp|sp|sp| |name data].
  - destruct (process_spawn_common _ _ _ _ _ _ _) as [r k1] eqn:E. by apply spawn_tids_ok in E.
  - apply (tids_ok_task_step k); [done|apply create_step].
  - apply reap_ind; auto using reap_tids_ok.
  - apply (tids_ok_task_step k); [done|]. apply on_sched_step. intros; apply yield_keeps.
  - apply (tids_ok_task_step k); [done|]. apply on_sched_step. intros; apply exit_keeps.
  - apply (tids_ok_task_step k); [done|]. apply on_sched_step. intros; apply pending_keeps.
  - apply (tids_ok_task_step k); [done|apply tick_step].
  - apply (tids_ok_task_step k); [done|apply write_step].
Qed.

Lemma init_tids_ok k0 :
  length (process_table k0) = PROCESS_MAX -> Forall (fun e => length (pe_name e) = 16%nat) (process_table k0) ->
  length (tasks (k_sched k0)) = MAX_TASKS -> tids_ok (process_init k0).
Proof.
  intros Hl Hn Ht.
  pose proof (init_table_ok k0 Hl Hn) as Hok. 
  assert (Hz : forall j, (j < PROCESS_MAX)%nat -> pe_active (proc_at (process_table (process_init k0)) j) = true -> j = 0%nat).
  { intros j Hj Ha. destruct (decide (j = 0%nat)); [done|]. unfold process_init in Ha. cbn [process_table] in Ha.
    rewrite proc_at_insert in Ha by (rewrite length_map; lia). rewrite decide_False in Ha by lia.
    by rewrite proc_at_map in Ha by lia. }
  split; [done|done| |].
  - intros a b Ha Hb Haa Hab _. apply Hz in Haa, Hab; [|done..]. congruence.
  - intros a Ha Haa. apply Hz in Haa; lia.
Qed.

Lemma find_own_tid k i :
  tids_ok k -> (i < PROCESS_MAX)%nat -> pe_active (proc_at (process_table k) i) = true ->
  process_find_by_tid (process_table k) (pe_tid (proc_at (process_table k) i)) = Some i.
Proof.
  intros Hok Hi Ha. apply find_seq_Some. rewrite Ha, Nat.eqb_refl. split_and!; [lia|lia|done|].
  intros j Hj. destruct (pe_active (proc_at (process_table k) j)) eqn:Haj; [|done]. cbn [andb].
  apply Nat.eqb_neq. intros Heq. apply (td_inj k Hok j i) in Heq; [lia|lia|done|done|done].
Qed.

Lemma step_ready guard k k' : k_step guard k k' -> process_ready k' = process_ready k.
Proof.
  assert (Htask : forall k1, task_step k k1 -> process_ready k1 = process_ready k) by (intros k1 (_ & _ & -> & _); done).
  intros [name entry arg isk _|entry arg name _| |sp|sp|sp| |name data].
  - destruct (process_spawn_common _ _ _ _ _ _ _) as [r k1] eqn:E. by apply spawn_slot in E as (_ & E & _).
  - apply Htask, create_step.
  - apply (reap_ind (fun k' => process_ready k' = process_ready k)); [done|]. intros i k1 _ <-.
    destruct (reap_entry_table i k1) as [->|(_ & _ & _ & _ & -> & _)]; done.
  - apply Htask, on_sched_step. intros; apply yield_keeps.
  - apply Htask, on_sched_step. intros; apply exit_keeps.
  - apply Htask, on_sched_step. intros; apply pending_keeps.
  - apply Htask, tick_step.
  - apply Htask, write_step.
Qed.

(** ** Theorems *)

(** [process_alloc_pid] always finds a free identifier: whatever the table holds
    and wherever the counter stands, wrap-around at 2^32 included, its 33 attempts
    end in an identifier of at least 2 that no process has. *)
Theorem process_alloc_pid_fresh T next :
  is_u32 next ->
  let '(pid, next') := process_alloc_pid T next in
  2 <= pid < 4294967296 /\ 2 <= next' < 4294967296 /\
  forall i, (i < PROCESS_MAX)%nat -> pe_active (proc_at T i) = true -> pe_pid (proc_at T i) <> pid.
Proof.
  intros Hn. pose proof (alloc_pid_fresh T next Hn) as Hf. destruct (process_alloc_pid T next) as [pid next'].
  by rewrite pid_in_use_false in Hf.
Qed.

(** C6. Every run keeps the process table well formed: the kernel keeps entry 0, the
    processes have different identifiers and exactly the system calls of their kind,
    and user processes have an address space of their own frames and an entry point
    inside their code page. *)
Theorem process_run_invariant k0 k :
  length (process_table k0) = PROCESS_MAX -> Forall (fun e => length (pe_name e) = 16%nat) (process_table k0) ->
  rtc (k_step (fun _ => True)) (process_init k0) k -> table_ok (process_table k) (next_pid k).
Proof.
  intros Hl Hn Hrun. pose proof (init_table_ok k0 Hl Hn) as Hok. clear Hl Hn.
  induction Hrun as [k|k k1 k2 Hstep _ IH]; [done|]. apply IH. by apply (step_table_ok _ k) in Hstep.
Qed.

(** C14. If zombies are reaped before a process or a task is created, the task that runs
    is always taken for its own process: a system call sees that process's identifier,
    kind and rights, and a switch to the task activates that process's directory. *)
Theorem process_identity k0 k i :
  length (process_table k0) = PROCESS_MAX -> Forall (fun e => length (pe_name e) = 16%nat) (process_table k0) ->
  length (tasks (k_sched k0)) = MAX_TASKS ->
  rtc (k_step no_zombie) (process_init k0) k ->
  let e := proc_at (process_table k) i in
  (i < PROCESS_MAX)%nat -> pe_active e = true ->
  (current_task (k_sched k) = pe_tid e ->
   process_current_pid k = pe_pid e /\ process_current_is_kernel k = pe_is_kernel e /\
   forall n, 0 <= n < 32 -> process_syscall_allowed n k = Z.testbit (pe_syscall_mask_low e) n) /\
  (pe_cr3 e <> 0 -> forall dir, activation_target (process_table k) dir (pe_tid e) = pe_cr3 e).
Proof.
  intros Hl Hn Ht Hrun. pose proof (init_tids_ok k0 Hl Hn Ht) as Hok.
  assert (Hr : process_ready (process_init k0) = true) by done. clear Hl Hn Ht.
  revert Hok Hr. induction Hrun as [k|k k1 k2 Hstep _ IH]; intros Hok Hr.
  2: { apply (IH (step_tids_ok k k1 Hok Hstep)). rewrite (step_ready no_zombie k k1 Hstep). exact Hr. }
  intros e Hi Ha. pose proof (find_own_tid k i Hok Hi Ha) as Hf. fold e in Hf. split.
  - intros Hc. unfold process_current_pid, process_current_is_kernel, process_syscall_allowed.
    rewrite Hr, Hc, Hf. cbn [negb]. split_and!; [done|done|]. intros n Hlt.
    rewrite (proj2 (Z.leb_gt 32 n)) by lia. apply bit_test. lia.
  - intros Hc dir. unfold activation_target. rewrite Hf. fold e. by rewrite (proj2 (Z.eqb_neq _ _)).
Qed.

(** Without that discipline a process is taken for another one. When the first free
    task slot is a zombie whose process has not been reaped, a process created in a later
    slot of the table gets that task, and every lookup for it finds an older entry:
    identifier, kind, rights and directory are those of the dead process. *)
Theorem process_zombie_slot_confusion k name entry arg is_kernel r k' i slot :
  table_ok (process_table k) (next_pid k) ->
  (i < slot)%nat -> process_find_free_slot (process_table k) = Some slot ->
  pe_active (proc_at (process_table k) i) = true ->
  List.find (slot_free (k_sched k)) (seq 1 (MAX_TASKS - 1)) = Some (pe_tid (proc_at (process_table k) i)) ->
  process_spawn_common bootstrap user_task_entry name entry arg is_kernel k = (r, k') -> 0 <= r ->
  let T' := process_table k' in
  pe_active (proc_at T' slot) = true /\ pe_is_kernel (proc_at T' slot) = is_kernel /\
  exists j, (j <= i)%nat /\ process_find_by_tid T' (pe_tid (proc_at T' slot)) = Some j /\
    proc_at T' j = proc_at (process_table k) j.
Proof.
  intros Hok Hlt Hs Ha Hfree E Hr. pose proof E as E'.
  apply spawn_slot in E as [[(_ & _ & ->)|(slot' & tid & t & e & Hs' & _ & Hf & _ & He & Hae & Hke & _ & _ & HT)] _]; [lia|].
  rewrite Hs in Hs'. injection Hs' as <-. rewrite Hfree in Hf. injection Hf as Htid. cbv zeta.
  assert (Hbound : (slot < PROCESS_MAX)%nat) by (apply find_seq_Some in Hs as (? & _); lia).
  assert (Hat : forall j, proc_at (process_table k') j = if decide (slot = j) then e else proc_at (process_table k) j).
  { intros. rewrite HT. apply proc_at_insert. rewrite (to_length _ _ Hok). lia. }
  rewrite !Hat, decide_True by done. split_and!; [done|done|].
  destruct (process_find_by_tid (process_table k') (pe_tid e)) as [j|] eqn:Ej.
  - assert (Hj : (j <= i)%nat).
    { apply find_seq_Some in Ej as (_ & _ & Hmin). destruct (decide (j <= i)%nat); [done|].
      specialize (Hmin i ltac:(lia)). rewrite Hat, decide_False in Hmin by lia.
      by rewrite Ha, He, Htid, Nat.eqb_refl in Hmin. }
    exists j. split_and!; [done|done|]. rewrite Hat, decide_False by lia. done.
  - exfalso. pose proof (proj1 (find_seq_None _ _ _) Ej i ltac:(lia)) as Hn. cbv beta in Hn.
    rewrite Hat, decide_False in Hn by lia. by rewrite Ha, He, Htid, Nat.eqb_refl in Hn.
Qed.

End Invariant.

(** ** Witnesses *)

(** A machine with paging on, a heap of one free block, and one process besides the
    kernel whose task 1 is in state [st]. *)
Definition demo_pages : paging_state watermark := Paging (Watermark 16 64) ∅ 4096 true 4096 4096 4096 0.
Definition one_block : mem :=
  wr32 (wr32 (wr32 (wr32 ∅ KHEAP_START 65520) (KHEAP_START + 4) 1) (KHEAP_START + 8) 0) (KHEAP_START + 12) 0.
Definition demo_block_heap : kheap (paging_state watermark) :=
  Kheap demo_pages one_block KHEAP_START (KHEAP_START + 65536) 65536 0 true.
Definition demo_proc (pid : Z) (tid : nat) (active : bool) : process_entry_t :=
  Proc pid tid 4096 0 0 PROCESS_USER_CODE_VADDR (if active then PROCESS_SYSCALL_MASK_KERNEL else 0) active active (replicate 16 0).
Definition idle_task (st : task_state_t) : task_t := Task 0 0 0 0 st (replicate 16 0).
Definition demo_kernel (st : task_state_t) : kernel watermark :=
  Kernel (Sched demo_block_heap 0 (idle_task TASK_RUNNING :: idle_task st :: replicate 14 (idle_task TASK_UNUSED)) true 0 0 false)
         [] true (demo_proc 1 0 true :: demo_proc 2 1 true :: replicate 30 (demo_proc 0 0 false)) 3 true.

Lemma demo_table_ok st : table_ok (process_table (demo_kernel st)) (next_pid (demo_kernel st)).
Proof.
  cbn [process_table next_pid demo_kernel]. set (T := _ :: _).
  assert (Hact : forall i, (i < PROCESS_MAX)%nat -> pe_active (proc_at T i) = true -> i = 0%nat \/ i = 1%nat).
  { unfold PROCESS_MAX. intros i Hi. do 32 (destruct i as [|i]; [by auto|]). lia. }
  split.
  - reflexivity.
  - unfold is_u32. lia.
  - by split_and!.
  - intros i j Hi Hj Hai Haj. apply Hact in Hai as [->| ->], Haj as [->| ->]; done.
  - intros i Hi Ha. apply Hact in Ha as [->| ->]; [| |done]; cbn; unfold MAX_TASKS; (split_and!; [lia|lia|done|lia|done]).
  - unfold PROCESS_MAX. intros i Hi. do 32 (destruct i as [|i]; [done|]). lia.
Qed.

Lemma process_alloc_pid_fresh_witness :
  process_alloc_pid [demo_proc 1 0 true; demo_proc 4294967295 1 true; demo_proc 2 2 true] 4294967295 = (3, 4) /\
  forall i, (i < PROCESS_MAX)%nat -> pe_active (proc_at [demo_proc 1 0 true; demo_proc 4294967295 1 true; demo_proc 2 2 true] i) = true ->
    pe_pid (proc_at [demo_proc 1 0 true; demo_proc 4294967295 1 true; demo_proc 2 2 true] i) <> 3.
Proof.
  split; [reflexivity|].
  exact (proj2 (proj2 (process_alloc_pid_fresh [demo_proc 1 0 true; demo_proc 4294967295 1 true; demo_proc 2 2 true]
    4294967295 ltac:(unfold is_u32; lia)))).
Defined.

Lemma process_run_invariant_witness :
  let k := snd (process_spawn_common 4096 8192 None 12288 0 true (process_init (demo_kernel TASK_UNUSED))) in
  process_count k = 2 /\ table_ok (process_table k) (next_pid k).
Proof.
  intros k. split; [reflexivity|]. apply (process_run_invariant 4096 8192 (demo_kernel TASK_UNUSED)).
  - reflexivity.
  - repeat constructor.
  - apply rtc_once. by apply KSpawn.
Defined.

Lemma demo_no_zombie : no_zombie (process_init (demo_kernel TASK_UNUSED)).
Proof. intros t. do 16 (destruct t as [|t]; [discriminate|]). destruct t; discriminate. Qed.

Lemma process_identity_witness :
  process_current_pid (snd (process_spawn_common 4096 8192 None 12288 0 true (process_init (demo_kernel TASK_UNUSED)))) = 1.
Proof.
  destruct (process_identity 4096 8192 (demo_kernel TASK_UNUSED)
    (snd (process_spawn_common 4096 8192 None 12288 0 true (process_init (demo_kernel TASK_UNUSED)))) 0) as [Hid _].
  - reflexivity.
  - repeat constructor.
  - reflexivity.
  - apply rtc_once. apply KSpawn, demo_no_zombie.
  - unfold PROCESS_MAX. lia.
  - reflexivity.
  - destruct Hid as (Hp & _); [reflexivity|exact Hp].
Defined.

Lemma process_zombie_slot_confusion_witness :
  let k := demo_kernel TASK_ZOMBIE in
  let r := process_spawn_common 4096 8192 None 12288 0 true k in
  fst r = 3 /\ pe_active (proc_at (process_table (snd r)) 2) = true /\
  exists j, (j <= 1)%nat /\ process_find_by_tid (process_table (snd r)) (pe_tid (proc_at (process_table (snd r)) 2)) = Some j.
Proof.
  intros k r. assert (Hr : fst r = 3) by reflexivity. split; [exact Hr|].
  destruct (process_zombie_slot_confusion 4096 8192 k None 12288 0 true (fst r) (snd r) 1 2) as (Ha & _ & j & Hj & Hf & _).
  - apply demo_table_ok.
  - lia.
  - reflexivity.
  - reflexivity.
  - reflexivity.
  - apply surjective_pairing.
  - rewrite Hr. lia.
  - split; [exact Ha|]. exists j. split; [exact Hj|exact Hf].
Defined.
