(* ===== verification/Tasks.v ===== *)
(** The states of the tasks as seen by the whole kernel: which task runs, which come
    next, and that every operation of the kernel keeps this in order, whatever the
    heap and the page tables do. *)
From Stdlib Require Import ZArith Lia Bool List.
From stdpp Require Import base gmap list numbers option.
From S2P Require Import Prelude CStr Interfaces Paging Kheap Scheduler Ipc Vfs Loader Process.
#[local] Open Scope Z_scope.

(** ** Task states *)

Section States.
Context {H E : Type}.
Implicit Types (s : sched H E).

(** One task runs, the current one, and task 0 never ends. *)
Record states_ok s : Prop := {
  st_started : scheduler_started s = true;
  st_length : length (tasks s) = MAX_TASKS;
  st_current : (current_task s < MAX_TASKS)%nat;
  st_running : forall i, (i < MAX_TASKS)%nat -> state_at (tasks s) i = TASK_RUNNING <-> i = current_task s;
  st_zero : state_at (tasks s) 0 = TASK_RUNNING \/ state_at (tasks s) 0 = TASK_RUNNABLE;
}.

Lemma zero_bound : (0 < MAX_TASKS)%nat.
Proof. unfold MAX_TASKS. lia. Qed.

Lemma zero_waits s : states_ok s -> current_task s <> 0%nat -> state_at (tasks s) 0 = TASK_RUNNABLE.
Proof.
  intros Hs Hc. destruct (st_zero s Hs) as [Hr|Hr]; [|done]. apply (st_running s Hs) in Hr; [congruence|apply zero_bound].
Qed.

(** Round robin: while another task runs, its successor has a higher number, or is
    task 0. *)
Lemma successor s n : states_ok s -> current_task s <> 0%nat -> first_runnable s n -> n = 0%nat \/ (current_task s < n)%nat.
Proof.
  intros Hs Hc (i & Hi & -> & _ & Hmin). pose proof (st_current s Hs) as Hb. unfold MAX_TASKS in *.
  destruct (decide (current_task s + i < 16)%nat) as [|Hge]; [right; rewrite Nat.mod_small; lia|].
  destruct (decide (current_task s + i = 16)%nat) as [->|Hgt]; [by left|]. exfalso.
  apply (Hmin (16 - current_task s)%nat); [lia|]. replace (current_task s + (16 - current_task s))%nat with 16%nat by lia.
  apply zero_waits; [done|done].
Qed.

Lemma switched_states s s' next st sp :
  let prev := current_task s in
  states_ok s -> (next < MAX_TASKS)%nat -> next <> prev -> state_at (tasks s) next = TASK_RUNNABLE ->
  st = TASK_RUNNABLE \/ (st = TASK_ZOMBIE /\ prev <> 0%nat) ->
  scheduler_started s' = true -> current_task s' = next -> tasks s' = switched prev next st sp (tasks s) -> states_ok s'.
Proof.
  intros prev [] Hn Hne Hrun Hst Hst' Hc Ht.
  destruct (switched_facts prev next st sp (tasks s)) as (Hl & _ & _ & _ & Hi); [lia|lia|done|].
  rewrite <- Ht in *. rewrite st_length0 in Hi. split; [done|congruence|congruence| |].
  - intros i Hlt. destruct (Hi i Hlt) as (_ & _ & ->). rewrite Hc.
    destruct (decide (i = prev)) as [->|Hip]; [destruct Hst as [->|[-> _]]; (split; [discriminate|congruence])|].
    destruct (decide (i = next)) as [->|]; [done|]. rewrite st_running0 by done. fold prev. split; congruence.
  - destruct (Hi 0%nat zero_bound) as (_ & _ & ->).
    destruct (decide (0%nat = prev)); [destruct Hst as [->|[_ ?]]; [by right|congruence]|].
    destruct (decide (0%nat = next)); auto.
Qed.

Lemma yield_states act sp s :
  states_ok s -> let s' := fst (scheduler_yield act sp s) in
  (none_runnable s /\ current_task s = 0%nat /\ scheduler_yield act sp s = (s, None)) \/
  exists n, first_runnable s n /\ n <> current_task s /\ (n < MAX_TASKS)%nat /\ states_ok s' /\ current_task s' = n /\
    tasks s' = switched (current_task s) n TASK_RUNNABLE sp (tasks s).
Proof.
  intros Hs. pose proof Hs as []. unfold scheduler_yield. rewrite st_started0. cbn [negb].
  destruct (pick_next_cases s st_started0 st_current0) as [(n & -> & Hn & Hne & Hfirst)|[Hnone ->]].
  - right. rewrite bool_decide_eq_true_2 by (by apply st_running0). exists n. pose proof Hfirst as (i & _ & _ & Hrun & _).
    split_and!; [done|done|done| |done|done]. by apply (switched_states s _ n TASK_RUNNABLE sp); auto.
  - left. destruct (Nat.eqb_spec (current_task s) 0) as [Hz|Hz]; cbn [negb andb]; [done|].
    exfalso. apply (Hnone 0%nat zero_bound); [congruence|]. by apply zero_waits.
Qed.

Lemma exit_states act sp s :
  states_ok s -> current_task s <> 0%nat -> let s' := fst (scheduler_exit_current act sp s) in
  exists n, first_runnable s n /\ n <> current_task s /\ (n < MAX_TASKS)%nat /\ states_ok s' /\ current_task s' = n /\
    tasks s' = switched (current_task s) n TASK_ZOMBIE sp (tasks s).
Proof.
  intros Hs Hz. pose proof Hs as []. unfold scheduler_exit_current. rewrite st_started0. cbn [negb].
  rewrite (proj2 (Nat.eqb_neq _ _)) by done. unfold scheduler_task_exit.
  set (s1 := alter_task s (current_task s) (fun t => set_tk_state t TASK_ZOMBIE)).
  assert (Hs1 : forall i, i <> current_task s -> state_at (tasks s1) i = state_at (tasks s) i).
  { intros i Hi. cbn. rewrite state_at_alter by lia. by rewrite decide_False. }
  destruct (pick_next_not_zero s1) as (n & Hpick & Hn & Hne & (i & Hi & Heq & Hrun & Hmin));
    [done|cbn; lia|rewrite Hs1 by auto; by apply zero_waits|].
  rewrite Hpick. change (current_task s1) with (current_task s) in *. rewrite Hs1 in Hrun by done. exists n.
  assert (Hf : first_runnable s n).
  { exists i. split_and!; [lia|lia|done|done|]. intros j Hj. rewrite <- Hs1; [by apply Hmin|].
    intros Hc. unfold MAX_TASKS in *. destruct (decide (current_task s + j < 16)%nat); [rewrite Nat.mod_small in Hc; lia|].
    replace (current_task s + j)%nat with (current_task s + j - 16 + 1 * 16)%nat in Hc by lia.
    rewrite Nat.Div0.mod_add, Nat.mod_small in Hc by lia. lia. }
  split_and!; [done|done|done| |done|done]. by apply (switched_states s _ n TASK_ZOMBIE sp); auto.
Qed.

(** A task other than the running one becomes runnable, unused or cleared. *)
Lemma alter_states s s' (f : task_t -> task_t) i :
  states_ok s -> (i < MAX_TASKS)%nat -> state_at (tasks s) i <> TASK_RUNNING -> i <> 0%nat ->
  (forall t, tk_state (f t) <> TASK_RUNNING) -> scheduler_started s' = true -> current_task s' = current_task s ->
  tasks s' = alter f i (tasks s) -> states_ok s'.
Proof.
  intros [] Hi Hr Hz Hf Hst Hc Ht. split; [done|by rewrite Ht, length_alter|by rewrite Hc| |].
  - intros j Hj. rewrite Ht, Hc, state_at_alter by lia. destruct (decide (i = j)) as [<-|]; [|auto].
    split; [by intros ?%Hf|]. intros Heq. destruct Hr. by apply st_running0.
  - rewrite Ht, state_at_alter by lia. rewrite decide_False by done. done.
Qed.

Lemma same_states s s' :
  states_ok s -> scheduler_started s' = scheduler_started s -> current_task s' = current_task s -> tasks s' = tasks s ->
  states_ok s'.
Proof. intros [] Hst Hc Ht. by split; rewrite ?Hst, ?Hc, ?Ht. Qed.

End States.

(** A switch keeps what a task is: its function and its argument. *)
Lemma switched_entry prev next st sp ts i :
  (i < length ts)%nat -> (prev < length ts)%nat -> (next < length ts)%nat ->
  tk_entry (task_at (switched prev next st sp ts) i) = tk_entry (task_at ts i) /\
  tk_arg (task_at (switched prev next st sp ts) i) = tk_arg (task_at ts i).
Proof.
  intros Hi Hp Hn. unfold switched. rewrite !task_at_alter by (by rewrite ?length_alter). repeat case_decide; subst; done.
Qed.

(** ** The kernel *)

Section Kernel.
Context {A : Type} `{FrameAllocator A}.
Context (bootstrap user_task_entry : Z).
Implicit Types (k : kernel A).

(** Processes and tasks are in order. *)
Record kernel_ok k : Prop := {
  ko_table : table_ok (process_table k) (next_pid k);
  ko_states : states_ok (k_sched k);
  ko_ready : process_ready k = true;
}.

Lemma same_kernel_ok k k' : same_table k k' -> kernel_ok k -> kernel_ok k'.
Proof.
  intros (HT & HN & HR & HK & HC & HS) []. split; rewrite ?HT, ?HN, ?HR; [done| |done]. by apply (same_states (k_sched k)).
Qed.

Lemma heap_kernel_ok h k : kernel_ok k -> kernel_ok (set_k_heap k h).
Proof. by apply same_kernel_ok. Qed.

Lemma pages_kernel_ok p k : kernel_ok k -> kernel_ok (set_k_pages k p).
Proof. by apply same_kernel_ok. Qed.

Lemma free_not_running (s : sched (kheap (paging_state A)) Z) i : slot_free s i = true -> state_at (tasks s) i <> TASK_RUNNING.
Proof. unfold slot_free. intros Hf Hr. rewrite Hr in Hf. done. Qed.

(** A new task in a free slot. *)
Lemma new_task_states (s s' : sched (kheap (paging_state A)) Z) tid t :
  states_ok s -> List.find (slot_free s) (seq 1 (MAX_TASKS - 1)) = Some tid -> tk_state t = TASK_RUNNABLE ->
  current_task s' = current_task s -> scheduler_started s' = scheduler_started s ->
  tasks s' = alter (fun _ => t) tid (tasks s) -> states_ok s'.
Proof.
  intros Hs Hf Ht Hc Hst Htk. apply find_seq_Some in Hf as (Hi & Hf & _). unfold MAX_TASKS in *.
  apply (alter_states s s' (fun _ => t) tid); [done|unfold MAX_TASKS; lia|by apply free_not_running|lia|by rewrite Ht| |done|done].
  rewrite Hst. apply Hs.
Qed.

Lemma on_sched_states f k :
  (forall act, states_ok (fst (f act (k_sched k)))) -> states_ok (k_sched (on_sched f k)).
Proof.
  intros Hf. unfold on_sched. set (act := fun tid _ => _). specialize (Hf act). destruct (f act (k_sched k)) as [s r].
  destruct r; [|done]. by apply (same_states s).
Qed.

Lemma yield_states_ok act sp (s : sched (kheap (paging_state A)) Z) : states_ok s -> states_ok (fst (scheduler_yield act sp s)).
Proof. intros Hs. by destruct (yield_states act sp s Hs) as [(_ & _ & ->)|(n & _ & _ & _ & Hs' & _)]. Qed.

Lemma exit_states_ok act sp (s : sched (kheap (paging_state A)) Z) : states_ok s -> states_ok (fst (scheduler_exit_current act sp s)).
Proof.
  intros Hs. destruct (decide (current_task s = 0%nat)) as [Hz|Hz].
  - unfold scheduler_exit_current. rewrite Hz, Nat.eqb_refl. by destruct (negb _).
  - by destruct (exit_states act sp s Hs Hz) as (n & _ & _ & _ & Hs' & _).
Qed.

Lemma reap_states i k : kernel_ok k -> states_ok (k_sched (reap_entry i k)).
Proof.
  intros [_ Hs _]. destruct (reap_entry_table i k) as [->|(_ & Ht & _ & _ & _ & Htk & [HC HS] & Hz)]; [done|].
  destruct (decide (pe_tid (proc_at (process_table k) i) < MAX_TASKS)%nat) as [Hlt|Hge].
  - apply (alter_states (k_sched k) _ cleared (pe_tid (proc_at (process_table k) i))); try done; [by rewrite Hz|].
    rewrite HS. apply Hs.
  - exfalso. unfold state_at, task_at in Hz. rewrite lookup_ge_None_2 in Hz; [done|]. rewrite (st_length _ Hs). lia.
Qed.

(** Every operation of the kernel keeps both in order. *)
Lemma step_kernel_ok guard k k' : kernel_ok k -> k_step bootstrap user_task_entry guard k k' -> kernel_ok k'.
Proof.
  intros Hk Hstep. pose proof Hk as [Ht Hs Hr]. split; [by apply (step_table_ok bootstrap user_task_entry guard k)| |
    by rewrite (step_ready bootstrap user_task_entry guard k k' Hstep)].
  destruct Hstep as [name entry arg isk _|entry arg name _| |sp|sp|sp| |name data].
  - destruct (process_spawn_common _ _ _ _ _ _ _) as [r k1] eqn:E. apply spawn_slot in E as (E & _ & [HC HS]). cbn [snd].
    destruct E as [(_ & HK & _)|(slot & tid & t & e & _ & _ & Hf & Hrun & _ & _ & _ & _ & HK & _)].
    + by apply (same_states (k_sched k)).
    + by apply (new_task_states (k_sched k) _ tid t).
  - pose proof (create_task_cpu bootstrap entry arg name k) as [HC HS].
    destruct (scheduler_create_task _ _ _ _ _) as [r s] eqn:E. apply create_task_tasks in E. cbn [snd k_sched set_k_sched] in *.
    destruct r as [tid|]; [|by apply (same_states (k_sched k))]. destruct E as (_ & Hf & t & Hrun & HK).
    by apply (new_task_states (k_sched k) _ tid t).
  - apply (reap_ind kernel_ok); [done|]. intros i k1 Hi Hk1. pose proof Hk1 as [Ht1 _ Hr1].
    split; [by apply reap_table_ok|by apply reap_states|]. destruct (reap_entry_table i k1) as [->|(_ & _ & _ & _ & -> & _)]; done.
  - apply on_sched_states. intros. by apply yield_states_ok.
  - apply on_sched_states. intros. by apply exit_states_ok.
  - apply on_sched_states. intros. unfold scheduler_run_pending. case_match; [by apply yield_states_ok|done].
  - apply (same_states (k_sched k)); [done|..]; unfold k_tick, scheduler_on_tick; by destruct (negb _).
  - by apply (same_states (k_sched k)).
Qed.

End Kernel.
