(* ===== verification/Space.v ===== *)
(** The address space of a user process: what [process_build_user_image] (process.c)
    leaves behind in the directory it is given. *)
From Stdlib Require Import ZArith Lia Bool List.
From stdpp Require Import base gmap list numbers option.
From S2P Require Import Prelude CStr Interfaces Paging Kheap Scheduler Ipc Vfs Loader Process Reserve.
#[local] Open Scope Z_scope.

(** ** Bytes of held frames *)

Lemma set_entry_outside m t i v : aligned t -> 0 <= i < 1024 -> same_outside t m (set_entry m t i v).
Proof. intros Ht Hi a Ha. unfold set_entry. apply rd8_wr32_ne. lia. Qed.

Lemma fill_outside t g l : forall m, aligned t -> (forall i, i ∈ l -> 0 <= i < 1024) -> same_outside t m (fill m t g l).
Proof.
  unfold fill. induction l as [|i l IH]; intros m Ht Hl; cbn [fold_left]; [reflexivity|].
  etransitivity; [apply (set_entry_outside m t i (g i)); [done|apply Hl; left]|].
  apply IH; [done|]. intros j Hj. apply Hl. by right.
Qed.

(** The bytes of [f] are as they were. *)
Definition same_frame (f : Z) (m m' : mem) : Prop := forall a, f <= a < f + 4096 -> rd8 m' a = rd8 m a.

#[export] Instance same_frame_preorder f : PreOrder (same_frame f).
Proof. split; [by intros m a|]. intros m1 m2 m3 H1 H2 a Ha. by rewrite H2, H1. Qed.

Lemma outside_other f t m m' : aligned f -> aligned t -> f <> t -> same_outside t m m' -> same_frame f m m'.
Proof. unfold aligned. intros Hf Ht Hne Hs a Ha. apply Hs. Z.div_mod_to_equations. lia. Qed.

Section Held.
Context {A : Type} `{FrameAllocatorOk A}.
Implicit Types (p : paging_state A).

Lemma ensure_table_bytes L p f D i fl :
  held L p -> f ∈ L -> aligned f -> D = paging_active_directory p -> 0 <= i < 1024 ->
  same_frame f (pg_mem p) (pg_mem (snd (ensure_table D i fl p))).
Proof.
  intros [[Hen Hok Hd] Hun [HD HT]] Hf Ha -> Hi.
  assert (HfD : f <> paging_active_directory p) by (by intros ->).
  unfold ensure_table. destruct (has_flag _ PAGING_FLAG_PRESENT); cbn [negb].
  - destruct (has_flag fl _); cbn [snd]; [|reflexivity].
    apply (outside_other _ (paging_active_directory p)); [done|apply Hd|done|]. apply set_entry_outside; [apply Hd|done].
  - destruct (alloc_table_cases p Hok) as [[Hz ->]|(g & a & E & Hg & ->)]; [reflexivity|].
    rewrite (proj2 (Z.eqb_neq g 0)) by done. cbn [snd pg_mem set_pg_mem touch].
    destruct (fa_alloc_some _ _ _ Hok E Hg) as (_ & Hfree & _ & Hm & _).
    assert (Hfg : f <> g) by (intros ->; by apply (Hun g)).
    transitivity (clear_table (pg_mem p) g).
    { apply (outside_other f g); [done..|]. rewrite clear_table_fill. apply fill_outside; [done|apply table_indices_range]. }
    apply (outside_other _ (paging_active_directory p)); [done|apply Hd|done|]. apply set_entry_outside; [apply Hd|done].
Qed.

Lemma map_bytes L p virt phys flags f :
  held L p -> f ∈ L -> aligned f -> same_frame f (pg_mem p) (pg_mem (snd (paging_map_page virt phys flags p))).
Proof.
  intros Hh Hf Ha. unfold paging_map_page. destruct (negb (paging_is_enabled p)); [reflexivity|].
  destruct (_ || _); [reflexivity|]. rewrite flags_present. set (fl := Z.lor flags _).
  pose proof (pd_index_range virt) as Hpd. pose proof (pt_index_range virt) as Hpt.
  pose proof (ensure_table_bytes L p f _ (pd_index_of virt) fl Hh Hf Ha eq_refl Hpd) as Hb.
  destruct Hh as [[Hen Hok Hd] Hun Hoff].
  destruct (@ensure_table_spec A reserve_allocator (reserve_allocator_ok (.∈ L)) p (paging_active_directory p) (pd_index_of virt) fl)
    as (ok & a1 & m1 & E & _ & Hd1 & _ & Hp1 & _); [by split|by apply reserve_dir_ok|done|].
  change (ensure_table (paging_active_directory p) (pd_index_of virt) fl p = (ok, touch p a1 m1)) in E.
  rewrite E in *. cbn [snd pg_mem touch set_pg_mem] in Hb. destruct ok; cbn [negb]; [|exact Hb].
  cbn [pg_mem touch set_pg_mem]. destruct (has_flag _ _); [exact Hb|]. cbn [snd pg_mem set_pg_mem].
  apply reserve_dir_ok in Hd1 as [_ [_ HT]]. etransitivity; [exact Hb|].
  apply (outside_other _ (table_of (entry m1 (paging_active_directory p) (pd_index_of virt)))); [done|apply table_aligned| |].
  - intros Heq. apply (HT (pd_index_of virt) Hpd (Hp1 eq_refl)). by rewrite <- Heq.
  - apply set_entry_outside; [apply table_aligned|done].
Qed.

End Held.

(** ** What the heap does to the pages *)

(** ** The user flag of directory entries *)

Lemma user_flags_spec e : user_flags_ok e = true <-> Z.testbit e 0 = true /\ Z.testbit e 2 = true.
Proof.
  unfold user_flags_ok. change (Z.lor PAGING_FLAG_PRESENT PAGING_FLAG_USER) with 5. rewrite Z.eqb_eq. split.
  - intros E. assert (Hb : forall n, Z.testbit (Z.land e 5) n = Z.testbit 5 n) by (by rewrite E).
    pose proof (Hb 0) as H0. pose proof (Hb 2) as H2. rewrite !Z.land_spec in *. cbn in H0, H2. by rewrite !andb_true_r in *.
  - intros [H0 H2]. apply Z.bits_inj'. intros n Hn. rewrite Z.land_spec.
    destruct (decide (n = 0)) as [->|]; [by rewrite H0|]. destruct (decide (n = 2)) as [->|]; [by rewrite H2|].
    assert (Z.testbit 5 n = false) as ->; [|apply andb_false_r].
    destruct (decide (n = 1)) as [->|]; [done|]. apply Z.bits_above_log2; [lia|]. change (Z.log2 5) with 2. lia.
Qed.

Section UserFlag.
Context {A : Type} `{FrameAllocatorOk A}.
Implicit Types (p : paging_state A).

Definition user_entry p (v : Z) : Prop := user_flags_ok (entry (pg_mem p) (paging_active_directory p) (pd_index_of v)) = true.

Lemma ensure_user p D i fl j :
  fa_ok (pg_frames p) -> dir_ok (pg_frames p) (pg_mem p) D -> 0 <= i < 1024 -> 0 <= j < 1024 ->
  (user_flags_ok (entry (pg_mem p) D j) = true -> user_flags_ok (entry (pg_mem (snd (ensure_table D i fl p))) D j) = true) /\
  (fst (ensure_table D i fl p) = true -> has_flag fl PAGING_FLAG_USER = true ->
   user_flags_ok (entry (pg_mem (snd (ensure_table D i fl p))) D i) = true).
Proof.
  intros Hok Hd Hi Hj. pose proof (dk_aligned _ _ _ Hd) as HDa. unfold ensure_table.
  destruct (has_flag (entry (pg_mem p) D i) PAGING_FLAG_PRESENT) eqn:Hp; cbn [negb].
  - destruct (has_flag fl PAGING_FLAG_USER) eqn:Hfl; cbn [fst snd pg_mem set_pg_mem]; [|done].
    set (e := entry (pg_mem p) D i) in *.
    assert (He : is_u32 (Z.lor e PAGING_FLAG_USER)) by (apply lor_u32; [apply entry_range|done]).
    assert (Hu : user_flags_ok (Z.lor e PAGING_FLAG_USER) = true).
    { apply user_flags_spec. rewrite has_flag_present in Hp. rewrite !Z.lor_spec, Hp. split; [done|]. by rewrite orb_true_r. }
    split; [|intros _ _; by rewrite entry_set_eq]. intros Hold. destruct (decide (j = i)) as [->|]; [by rewrite entry_set_eq|].
    by rewrite entry_set_ne by (assumption || lia).
  - destruct (alloc_table_cases p Hok) as [[Hz ->]|(f & a & E & Hf & ->)]; [done|].
    rewrite (proj2 (Z.eqb_neq f 0)) by done. cbn [fst snd pg_mem set_pg_mem touch].
    destruct (fa_alloc_some _ _ _ Hok E Hf) as (_ & Hfree & Hfu & Hfa & _).
    set (flags := if has_flag fl PAGING_FLAG_USER then _ else _).
    assert (Hfl : 0 <= flags < 4096) by (unfold flags; by destruct (has_flag fl PAGING_FLAG_USER)).
    destruct (make_entry f flags) as (Hu & _ & Hk); [done|unfold is_u32; lia|done|]. split.
    + intros Hold. destruct (decide (j = i)) as [->|].
      * exfalso. apply user_flags_spec in Hold as [Hb0 _]. by rewrite has_flag_present, Hb0 in Hp.
      * rewrite entry_set_ne by (assumption || lia). rewrite clear_table_ne; [done|done|done|done|]. intros ->. by apply (dk_own _ _ _ Hd).
    + intros _ Hus. rewrite entry_set_eq by done. apply user_flags_spec. rewrite !Hk by lia. unfold flags. by rewrite Hus.
Qed.

(** [paging_map_page] keeps user entries, and a mapping for user code makes one. *)
Lemma map_user p virt phys flags v :
  paging_ok p -> let r := paging_map_page virt phys flags p in
  (user_entry p v -> user_entry (snd r) v) /\ (fst r = true -> has_flag flags PAGING_FLAG_USER = true -> user_entry (snd r) virt).
Proof.
  intros [Hen Hok Hd]. unfold user_entry, paging_map_page. destruct (negb (paging_is_enabled p)); [done|].
  destruct (_ || _); [done|]. rewrite flags_present. set (fl := Z.lor flags _). set (D := paging_active_directory p) in *.
  pose proof (pd_index_range virt) as Hpd. pose proof (pt_index_range virt) as Hpt. pose proof (pd_index_range v) as Hpv.
  destruct (ensure_user p D (pd_index_of virt) fl (pd_index_of v) Hok Hd Hpd Hpv) as [Hkeep Hset].
  destruct (ensure_table_spec p D (pd_index_of virt) fl) as (ok & a1 & m1 & E & _ & Hd1 & _ & Hp1 & _); [done..|].
  rewrite E in *. cbn [fst snd] in *. destruct ok; cbn [negb]; [|by split].
  destruct (has_flag (entry (pg_mem (touch p a1 m1)) _ _) _); cbn [fst snd]; [by split|].
  cbn [pg_mem set_pg_mem touch] in *.
  assert (Hsame : forall i x, 0 <= i < 1024 -> entry (set_entry m1 (table_of (entry m1 D (pd_index_of virt))) (pt_index_of virt) x) D i = entry m1 D i).
  { intros i x Hi. apply entry_set_ne; [apply table_aligned|apply Hd1|done|done|]. left. apply (dk_tables _ _ _ Hd1); [done|by apply Hp1]. }
  change (paging_active_directory (set_pg_mem (touch p a1 m1) ?m)) with D. rewrite !Hsame by done. split; [exact Hkeep|].
  intros _ Hus. apply Hset; [done|]. unfold fl. rewrite has_flag_user in *. by rewrite Z.lor_spec, Hus.
Qed.

(** Writing into a held frame. *)
Lemma write_user_entry L p f m' v :
  held L p -> f ∈ L -> aligned f -> same_outside f (pg_mem p) m' -> user_entry p v -> user_entry (set_pg_mem p m') v.
Proof.
  intros [[_ _ Hd] _ [HD _]] Hf Ha Hs. unfold user_entry.
  change (paging_active_directory (set_pg_mem p m')) with (paging_active_directory p). cbn [pg_mem set_pg_mem].
  intros Hu. rewrite (same_outside_entry f (pg_mem p) m'); [exact Hu|done|done|apply Hd|by intros Heq; rewrite Heq in HD|apply pd_index_range].
Qed.

End UserFlag.

Section HeapPages.
Context {P : Type} `{PageMapper P}.
(** An invariant of the end of the heap and the pages that survives mapping one more page. *)
Context (J : Z -> P -> Prop).
Context (Hstep : forall e p, J e p -> let '(ok, p') := pm_map_fresh e p in J (if ok then e ⊞ 4096 else e) p').
Implicit Types (s : kheap P).

Definition pages_kept s : Prop := J (heap_end s) (hp_pages s).

Lemma map_more_pages n : forall s ok s', pages_kept s -> heap_map_more n s = Some (ok, s') -> pages_kept s'.
Proof.
  induction n as [|n IH]; intros s ok s' Hs; cbn [heap_map_more]; [by intros [= _ <-]|].
  pose proof (Hstep (heap_end s) (hp_pages s) Hs) as Hs'.
  destruct (pm_map_fresh _ _) as [ok1 p1]. destruct ok1; cbn [negb]; [|by intros [= _ <-]].
  destruct (loop _ _ _) as [tail|]; [|done]. apply IH. exact Hs'.
Qed.

Lemma kmalloc_pages size s p s' : pages_kept s -> kh_malloc size s = (p, s') -> pages_kept s'.
Proof.
  intros Hs. cbn [kh_malloc kheap_kernel_heap]. destruct (kmalloc size s) as [[p0 s0]|] eqn:E; [|by intros [= _ <-]].
  intros [= _ <-]. revert E. unfold kmalloc. destruct (_ || _); [by intros [= _ <-]|]. destruct (_ <? _); [by intros [= _ <-]|].
  destruct (loop _ _ _) as [r|] eqn:El; [|done]. cbn. intros ->.
  refine (loop_partial (kmalloc_body (align_up_8 size)) pages_kept (fun r => forall p s, r = Some (p, s) -> pages_kept s)
            _ _ _ _ Hs El p0 s0 eq_refl). clear El Hs.
  intros s1 H1. unfold kmalloc_body. destruct (loop _ _ _) as [block|]; [|done]. destruct (block =? 0).
  - destruct (heap_map_more _ s1) as [[ok s2]|] eqn:Em; [|done]. apply (map_more_pages _ _ _ _ H1) in Em.
    destruct ok; cbn [negb]; [done|]. by intros q s3 [= _ <-].
  - intros q s3 [= _ <-]. exact H1.
Qed.

End HeapPages.

(** ** The space under construction *)

Section Space.
Context {A : Type} `{FrameAllocatorOk A}.
Implicit Types (k : kernel A) (p : paging_state A).

(** The frames [L] are held, [D] is the active directory and maps at least what [base]
    says, the frame [z] holds zeros, and the directory's entry for the code page is one
    for user code. *)
Record space (L : list Z) (D : Z) (base : Z -> option Z) (z : Z) p : Prop := {
  sp_held : held L p;
  sp_dir : paging_active_directory p = D;
  sp_base : forall w e, is_u32 w -> base w = Some e -> active_lookup p w = Some e;
  sp_zero : forall a, z <= a < z + 4096 -> rd8 (pg_mem p) a = 0;
  sp_user : user_entry p PROCESS_USER_CODE_VADDR;
}.

Lemma map_fresh_space L D base z virt p :
  z ∈ L -> aligned z -> is_u32 virt -> space L D base z p -> space L D base z (snd (pm_map_fresh virt p)).
Proof.
  intros Hz Haz Hv [Hh HD Hb Hzero Hus]. cbn [pm_map_fresh paging_page_mapper]. unfold map_fresh_page.
  destruct (take_frame p) as [f p1] eqn:E. pose proof E as E'. unfold take_frame in E'.
  destruct (fa_alloc (pg_frames p)) as [f0 a0]. injection E' as -> <-.
  destruct (take_held L p f _ Hh E) as [[-> Hp]|(Hf & _ & Hh1 & _ & Hu & _ & Hm & HD1 & _)].
  { cbn [Z.eqb snd]. rewrite Hp. by split. }
  rewrite (proj2 (Z.eqb_neq f 0)) by done. set (p1 := set_pg_frames p a0) in *.
  assert (Hh1' : held L p1).
  { destruct Hh1 as [Hok Hun [HO HT]]. split; [done|intros g Hg; apply Hun; by right|].
    split; [intros Hc; apply HO; by right|]. intros i Hi Hp Hc. apply (HT i Hi Hp). by right. }
  destruct (map_held L p1 virt f (Z.lor PAGING_FLAG_PRESENT PAGING_FLAG_RW) Hh1' Hv Hu) as (ok & p2 & E2 & Hh2 & HD2 & Hok & Hl2).
  pose proof (map_bytes L p1 virt f (Z.lor PAGING_FLAG_PRESENT PAGING_FLAG_RW) z Hh1' Hz Haz) as Hbytes.
  destruct (map_user p1 virt f (Z.lor PAGING_FLAG_PRESENT PAGING_FLAG_RW) PROCESS_USER_CODE_VADDR (he_ok _ _ Hh1')) as [Hus2 _].
  rewrite E2 in *. cbn [snd] in *. split; [done|congruence| | |by apply Hus2].
  - intros w e Hw Hbw. assert (Hw1 : active_lookup p1 w = Some e) by (unfold active_lookup; rewrite Hm, HD1; by apply Hb).
    rewrite Hl2 by done. destruct ok; [|done]. cbn [andb]. destruct (Z.eqb_spec (page_of w) (page_of virt)) as [Heq|]; [|done].
    exfalso. symmetry in Hok. bool_simp. unfold mapped in *. fold (active_lookup p1 virt) in *.
    unfold active_lookup in Hw1. rewrite (lookup_same_page _ _ virt w) in Hw1 by done. fold (active_lookup p1 virt) in Hw1.
    by rewrite Hw1 in *.
  - intros a Ha. rewrite Hbytes by done. apply Hzero. done.
Qed.

(** Writing into a held frame other than [z]. *)
Lemma write_space L D base z p f m' :
  space L D base z p -> f ∈ L -> aligned f -> aligned z -> f <> z -> same_outside f (pg_mem p) m' ->
  space L D base z (set_pg_mem p m').
Proof.
  intros [Hh HD Hb Hzero Hus] Hf Ha Haz Hne Hs. destruct (write_held L p f m' Hh Hf Ha Hs) as [Hh' Hl].
  split; [done|done| | |].
  - intros w e Hw Hbw. rewrite Hl. by apply Hb.
  - intros a Hin. cbn [pg_mem set_pg_mem]. rewrite <- (Hzero a Hin). by apply (outside_other z f).
  - by apply (write_user_entry L p f).
Qed.

Definition kspace (L : list Z) (D : Z) (base : Z -> option Z) (z : Z) k : Prop :=
  is_u32 (heap_end (k_heap k)) /\ space L D base z (k_pages k).

Lemma kspace_heap L D base z k h :
  kspace L D base z k -> hp_pages h = k_pages k -> heap_end h = heap_end (k_heap k) -> kspace L D base z (set_k_heap k h).
Proof. intros [Hu Hs] Hp He. split; cbn; [by rewrite He|]. unfold k_pages. cbn. by rewrite Hp. Qed.

Lemma kspace_malloc L D base z k n x h :
  z ∈ L -> aligned z -> kspace L D base z k -> kh_malloc n (k_heap k) = (x, h) -> kspace L D base z (set_k_heap k h).
Proof.
  intros Hz Haz Hs E. apply (kmalloc_pages (fun e p => is_u32 e /\ space L D base z p)) with (size := n) (s := k_heap k) (p := x); [|exact Hs|exact E].
  intros e p [He Hp]. pose proof (map_fresh_space L D base z e p Hz Haz He Hp) as Hm. destruct (pm_map_fresh e p) as [ok p'].
  split; [|exact Hm]. destruct ok; [apply u32_range|done].
Qed.

Lemma kfree_pages (x : Z) (h : kheap (paging_state A)) : hp_pages (kfree x h) = hp_pages h /\ heap_end (kfree x h) = heap_end h.
Proof. unfold kfree. repeat case_match; done. Qed.

Lemma store_bytes_pages bs : forall (x : Z) (h : kheap (paging_state A)),
  hp_pages (store_bytes x bs h) = hp_pages h /\ heap_end (store_bytes x bs h) = heap_end h.
Proof. induction bs as [|b bs IH]; intros x h; cbn [store_bytes]; [done|]. destruct (IH (x + 1) (kh_store8 x b h)) as [-> ->]. done. Qed.

(** The code page, behind which is the held frame [cf]. *)
Lemma code_page L D base z k cf :
  kspace L D base z k -> is_u32 cf -> aligned cf -> base PROCESS_USER_CODE_VADDR = Some (pte_for cf USER_FLAGS) ->
  paging_translate PROCESS_USER_CODE_VADDR (k_pages k) = Some cf.
Proof.
  intros [_ [Hh _ Hb _ _]] Hu Ha Hc. apply (translate_held _ _ cf USER_FLAGS); [apply Hh|done|done| |done].
  apply Hb; [|done]. unfold is_u32, PROCESS_USER_CODE_VADDR. lia.
Qed.

Lemma kspace_code L D base z k cf (m' : mem) :
  kspace L D base z k -> cf ∈ L -> aligned cf -> aligned z -> cf <> z ->
  same_outside cf (pg_mem (k_pages k)) m' -> kspace L D base z (set_k_pages k (set_pg_mem (k_pages k) m')).
Proof. intros [Hu Hs] Hin Ha Haz Hne Ho. split; [done|]. by apply (write_space L D base z (k_pages k) cf). Qed.

Lemma zero_copy_outside m cf (src : Z -> Z) n :
  Z.of_nat n <= 4096 -> same_outside cf m (mem_copy_u8 (mem_zero_u8 m cf (Z.to_nat PROCESS_USER_CODE_SIZE)) cf src 0 n).
Proof.
  intros Hn a Ha. rewrite mem_copy_rd, zero_page_rd by done. unfold PROCESS_USER_CODE_SIZE.
  destruct (Z.leb_spec cf a), (Z.ltb_spec a (cf + Z.of_nat n)), (Z.ltb_spec a (cf + 4096)); cbn [andb]; done || lia.
Qed.

Lemma image_length (read : list Z -> option (list Z)) name dst cap st len dst' :
  0 <= cap < 4294967296 -> cap <= Z.of_nat (length dst) ->
  process_load_user_image_bytes_from_vfs read name dst cap = Some (st, len, dst') -> 0 <= default 0 len < 4294967296.
Proof.
  intros Hcap Hlen. unfold process_load_user_image_bytes_from_vfs.
  destruct name as [nm|]; [|intros [= <- <- <-]; cbn; lia]. destruct (_ =? 0); [intros [= <- <- <-]; cbn; lia|].
  set (t := match read nm with Some _ => _ | None => _ end). destruct t as [t|]; [|intros [= <- <- <-]; cbn; lia].
  destruct (_ <? 2); [intros [= <- <- <-]; cbn; lia|].
  destruct (marshex_total (Some t) dst cap Hcap Hlen) as (r & d & -> & _ & _ & Hr).
  destruct r as [n|]; intros [= <- <- <-]; cbn; [|lia]. specialize (Hr n eq_refl). lia.
Qed.

Lemma load_image_space L D base z k cf image name st e k' :
  kspace L D base z k -> cf ∈ L -> is_u32 cf -> aligned cf -> aligned z -> cf <> z ->
  base PROCESS_USER_CODE_VADDR = Some (pte_for cf USER_FLAGS) ->
  load_image image name k = (st, e, k') -> kspace L D base z k'.
Proof.
  intros Hs Hin Hu Ha Haz Hne Hbase. unfold load_image.
  pose proof (load_bytes_length image (Z.to_nat PROCESS_USER_IMAGE_MAX) (k_heap k)) as Hlb. revert Hlb.
  generalize (load_bytes image (Z.to_nat PROCESS_USER_IMAGE_MAX) (k_heap k)). intros bs Hlb.
  destruct (process_load_user_image_bytes_from_vfs _ _ _ _) as [[[status len] dst]|] eqn:El; [|by intros [= _ _ <-]].
  apply image_length in El; [|unfold PROCESS_USER_IMAGE_MAX; lia|rewrite Hlb; unfold PROCESS_USER_IMAGE_MAX; lia].
  destruct (status =? 0); [by intros [= _ _ <-]|].
  destruct (store_bytes_pages dst image (k_heap k)) as [Hp He].
  revert Hp He. generalize (store_bytes image dst (k_heap k)). intros h Hp He.
  pose proof (kspace_heap L D base z k h Hs Hp He) as Hs1. revert Hs1. generalize (set_k_heap k h). intros k1 Hs1.
  clear Hs Hp He. destruct (status <? 0); [by intros [= _ _ <-]|].
  pose proof (code_page L D base z k1 cf Hs1 Hu Ha Hbase) as Hcode.
  destruct (process_is_elf32_image _ _).
  - rewrite Hcode. change (default 0 (Some cf)) with cf.
    destruct (process_load_elf32_single_page _ _ _ _ _ _) as [r m] eqn:Eelf.
    assert (Ho : same_outside cf (pg_mem (k_pages k1)) m).
    { intros a Hout. apply (elf_writes_page _ _ _ _ _ _ _ _ a) in Eelf; [done|intros o; apply rd8_range|done|done|done|done|exact Hout]. }
    pose proof (kspace_code L D base z k1 cf m Hs1 Hin Ha Haz Hne Ho) as Hs2. clear Eelf.
    destruct r; intros [= _ _ <-]; exact Hs2.
  - destruct (Z.ltb_spec PROCESS_USER_CODE_SIZE (default 0 len)) as [|Hle]; [by intros [= _ _ <-]|].
    intros [_ <-]%pair_equal_spec. unfold on_user_page. rewrite Hcode. change (default 0 (Some cf)) with cf.
    apply kspace_code with (cf := cf); [done..|]. apply zero_copy_outside. unfold PROCESS_USER_CODE_SIZE in Hle. lia.
Qed.

Lemma emit_builtin_space L D base z k cf prog :
  kspace L D base z k -> cf ∈ L -> is_u32 cf -> aligned cf -> aligned z -> cf <> z ->
  base PROCESS_USER_CODE_VADDR = Some (pte_for cf USER_FLAGS) -> kspace L D base z (emit_builtin prog k).
Proof.
  intros Hs Hin Hu Ha Haz Hne Hbase. unfold emit_builtin, on_user_page.
  rewrite (code_page L D base z k cf Hs Hu Ha Hbase). change (default 0 (Some cf)) with cf.
  apply kspace_code with (cf := cf); [done..|].
  unfold process_emit_exit_only_program, process_emit_ping_program, write_code.
  destruct (prog =? PROCESS_USER_PROG_DEFAULT); [|destruct (prog =? PROCESS_USER_PROG_PING_BURST)];
    cbn [snd]; apply zero_copy_outside; vm_compute; discriminate.
Qed.

(** The built-in program of a number. *)
Definition builtin_pings (prog : Z) : nat := if prog =? PROCESS_USER_PROG_DEFAULT then 0 else if prog =? PROCESS_USER_PROG_PING_BURST then 8 else 2.
Definition builtin_code (prog : Z) : list Z := concat (replicate (builtin_pings prog) ping_bytes) ++ exit_bytes.

Lemma program_bytes n : Forall (fun x => x `mod` 256 = x) (concat (replicate n ping_bytes) ++ exit_bytes).
Proof.
  apply Forall_app. split; [|by repeat constructor]. induction n as [|n IH]; [constructor|].
  cbn [replicate concat]. apply Forall_app. split; [by repeat constructor|done].
Qed.

Lemma write_code_rd m cf bs i b :
  Forall (fun x => x `mod` 256 = x) bs -> bs !! i = Some b -> rd8 (write_code m cf bs) (cf + Z.of_nat i) = b.
Proof.
  intros Hbs Hi. unfold write_code. rewrite mem_copy_rd. pose proof (lookup_lt_Some _ _ _ Hi) as Hlt.
  rewrite (proj2 (Z.leb_le _ _)), (proj2 (Z.ltb_lt _ _)) by lia. cbn [andb].
  replace (Z.to_nat (0 + (cf + Z.of_nat i - cf))) with i by lia. rewrite (nth_lookup_Some _ _ _ _ Hi).
  rewrite Forall_lookup in Hbs. by apply (Hbs i).
Qed.

Lemma emit_builtin_code L D base z k cf prog i b :
  kspace L D base z k -> is_u32 cf -> aligned cf -> base PROCESS_USER_CODE_VADDR = Some (pte_for cf USER_FLAGS) ->
  builtin_code prog !! i = Some b -> rd8 (pg_mem (k_pages (emit_builtin prog k))) (cf + Z.of_nat i) = b.
Proof.
  intros Hs Hu Ha Hbase Hi. unfold emit_builtin, on_user_page.
  rewrite (code_page L D base z k cf Hs Hu Ha Hbase). change (default 0 (Some cf)) with cf.
  change (k_pages (set_k_pages k ?p)) with p. cbn [pg_mem set_pg_mem].
  set (m := mem_zero_u8 _ _ _). clearbody m.
  assert (Hm : (if prog =? PROCESS_USER_PROG_DEFAULT then snd (process_emit_exit_only_program m cf) else
                if prog =? PROCESS_USER_PROG_PING_BURST then snd (process_emit_ping_program m cf 8)
                else snd (process_emit_ping_program m cf 2)) = write_code m cf (builtin_code prog)).
  { unfold builtin_code, builtin_pings. destruct (prog =? PROCESS_USER_PROG_DEFAULT); [done|]. by destruct (prog =? PROCESS_USER_PROG_PING_BURST). }
  rewrite Hm. apply write_code_rd; [apply program_bytes|done].
Qed.

(** No file holds an image of the program. *)
Definition no_image (name : option (list Z)) k : Prop :=
  forall n, name = Some n -> read_file k n = None /\ forall a, alt_name n = Some a -> read_file k a = None.

(** Whether a file is there does not depend on the heap. *)
Lemma read_file_none k k' n : k_files k' = k_files k -> k_vfs_ready k' = k_vfs_ready k -> read_file k n = None -> read_file k' n = None.
Proof.
  intros Hf Hr. unfold read_file.
  assert (He : vfs_read_file (Some n) (k_vfs k') = vfs_read_file (Some n) (k_vfs k)).
  { unfold vfs_read_file, vfs_find_file, file_at. cbn [vfs_ready files k_vfs]. by rewrite Hf, Hr. }
  rewrite He. by destruct (_ =? 0).
Qed.

Lemma no_image_same name k k' : k_files k' = k_files k -> k_vfs_ready k' = k_vfs_ready k -> no_image name k -> no_image name k'.
Proof.
  intros Hf Hr Hn n ->. destruct (Hn n eq_refl) as [Hn1 Hn2]. split; [exact (read_file_none k k' n Hf Hr Hn1)|].
  intros a Ha. exact (read_file_none k k' a Hf Hr (Hn2 a Ha)).
Qed.

Lemma load_image_none image name k : no_image name k -> load_image image name k = (0, PROCESS_USER_CODE_VADDR, k).
Proof.
  intros Hn. unfold load_image. generalize (load_bytes image (Z.to_nat PROCESS_USER_IMAGE_MAX) (k_heap k)). intros bs.
  assert (E : process_load_user_image_bytes_from_vfs (read_file k) name bs PROCESS_USER_IMAGE_MAX = Some (0, None, bs)).
  { unfold process_load_user_image_bytes_from_vfs. destruct name as [n|]; [|done]. destruct (hd 0 n =? 0); [done|].
    destruct (Hn n eq_refl) as [-> Ha]. destruct (alt_name n) as [a|]; [|done]. by rewrite (Ha a eq_refl). }
  rewrite E. reflexivity.
Qed.

(** ** Building *)

(** A well-formed directory to build in, and the one to return to. *)
Record can_build (cr3 : Z) k : Prop := {
  cb_enabled : paging_is_enabled (k_pages k) = true;
  cb_frames : fa_ok (pg_frames (k_pages k));
  cb_dir : dir_ok (pg_frames (k_pages k)) (pg_mem (k_pages k)) cr3;
  cb_prev : paging_current_dir_phys (k_pages k) <> 0 /\ aligned (paging_current_dir_phys (k_pages k));
  cb_heap : is_u32 (heap_end (k_heap k));
}.

Lemma switch_dir p D : paging_is_enabled p = true -> D <> 0 -> aligned D ->
  paging_switch_directory D p = Paging (pg_frames p) (pg_mem p) (page_directory p) (paging_is_enabled p)
                                       (paging_kernel_dir_phys p) D D (pg_cr0 p).
Proof.
  intros He HD Ha. unfold paging_switch_directory. rewrite He, (proj2 (Z.eqb_neq D 0)), offset_mask by done. cbn [negb orb].
  unfold aligned in Ha. by rewrite Ha.
Qed.

Lemma alloc_frame_take k : alloc_frame k = let '(f, p) := take_frame (k_pages k) in (f, set_k_pages k p).
Proof. unfold alloc_frame, take_frame. by destruct (fa_alloc _). Qed.

Lemma user_pages_u32 : is_u32 PROCESS_USER_CODE_VADDR /\ is_u32 (PROCESS_USER_STACK_TOP - 4096).
Proof. unfold is_u32, PROCESS_USER_CODE_VADDR, PROCESS_USER_STACK_TOP. lia. Qed.

(** What the directory [cr3] maps while and after it is built: the two pages and what it had. *)
Definition built_base (m : mem) (cr3 cf sf : Z) (w : Z) : option Z :=
  if page_of w =? page_of (PROCESS_USER_STACK_TOP - 4096) then Some (pte_for sf USER_FLAGS) else
  if page_of w =? page_of PROCESS_USER_CODE_VADDR then Some (pte_for cf USER_FLAGS) else lookup_page m cr3 w.

(** The directory switched to, with both pages unmapped. *)
Lemma build_start cr3 k k1 :
  can_build cr3 k -> k1 = unmap_page (PROCESS_USER_STACK_TOP - 4096) (unmap_page PROCESS_USER_CODE_VADDR (switch_directory cr3 k)) ->
  held [] (k_pages k1) /\ paging_active_directory (k_pages k1) = cr3 /\ pg_frames (k_pages k1) = pg_frames (k_pages k) /\
  heap_end (k_heap k1) = heap_end (k_heap k) /\
  forall w, is_u32 w -> active_lookup (k_pages k1) w =
    if page_of w =? page_of (PROCESS_USER_STACK_TOP - 4096) then None else
    if page_of w =? page_of PROCESS_USER_CODE_VADDR then None else lookup_page (pg_mem (k_pages k)) cr3 w.
Proof.
  intros [Hen Hok Hd _ _] ->. destruct user_pages_u32 as [Hc Hs].
  set (p0 := paging_switch_directory cr3 (k_pages k)).
  assert (Hp0 : p0 = Paging (pg_frames (k_pages k)) (pg_mem (k_pages k)) (page_directory (k_pages k)) (paging_is_enabled (k_pages k))
                            (paging_kernel_dir_phys (k_pages k)) cr3 cr3 (pg_cr0 (k_pages k))).
  { apply switch_dir; [done| |apply Hd]. pose proof (dk_range _ _ _ Hd). lia. }
  assert (Ha0 : paging_active_directory p0 = cr3).
  { rewrite Hp0. unfold paging_active_directory. cbn [paging_current_dir_phys page_directory].
    rewrite (proj2 (Z.eqb_neq cr3 0)); [done|]. pose proof (dk_range _ _ _ Hd). lia. }
  assert (Hh0 : held [] p0) by (apply held_nil; split; rewrite ?Ha0; rewrite Hp0; done).
  change (k_pages (unmap_page _ _)) with (snd (paging_unmap_page (PROCESS_USER_STACK_TOP - 4096) (snd (paging_unmap_page PROCESS_USER_CODE_VADDR p0)))).
  destruct (unmap_held [] p0 PROCESS_USER_CODE_VADDR Hh0 Hc eq_refl) as (Hh1 & HD1 & Hl1).
  destruct (unmap_held [] _ (PROCESS_USER_STACK_TOP - 4096) Hh1 Hs eq_refl) as (Hh2 & HD2 & Hl2).
  split_and!; [done|by rewrite HD2, HD1| |done|].
  - unfold paging_unmap_page. rewrite Hp0. repeat case_match; done.
  - intros w Hw. rewrite Hl2, Hl1 by done. unfold active_lookup. by rewrite Ha0, Hp0.
Qed.

(** Both pages mapped and the stack cleared. *)
Lemma build_pages cr3 k k1 cf sf p2 p3 p4 p5 :
  can_build cr3 k -> k1 = unmap_page (PROCESS_USER_STACK_TOP - 4096) (unmap_page PROCESS_USER_CODE_VADDR (switch_directory cr3 k)) ->
  take_frame (k_pages k1) = (cf, p2) -> take_frame p2 = (sf, p3) -> cf <> 0 -> sf <> 0 ->
  paging_map_page PROCESS_USER_CODE_VADDR cf USER_FLAGS p3 = (true, p4) ->
  paging_map_page (PROCESS_USER_STACK_TOP - 4096) sf USER_FLAGS p4 = (true, p5) ->
  cf <> sf /\ fa_is_free (pg_frames (k_pages k)) cf /\ fa_is_free (pg_frames (k_pages k)) sf /\
  is_u32 cf /\ aligned cf /\ is_u32 sf /\ aligned sf /\
  paging_translate (PROCESS_USER_STACK_TOP - PROCESS_USER_STACK_SIZE) p5 = Some sf /\
  space [sf; cf] cr3 (built_base (pg_mem (k_pages k)) cr3 cf sf) sf
        (set_pg_mem p5 (mem_zero_u8 (pg_mem p5) sf (Z.to_nat PROCESS_USER_STACK_SIZE))).
Proof.
  intros Hcb Hk1 Et1 Et2 Hcf Hsf Em1 Em2. destruct user_pages_u32 as [Hc Hs].
  destruct (build_start cr3 k k1 Hcb Hk1) as (Hh1 & HD1 & Hfr & _ & Hl1). clear Hk1.
  destruct (take_held _ _ _ _ Hh1 Et1) as [[? _]|(_ & _ & Hh2 & Hf1 & Hu1 & Ha1 & Hm2 & HD2 & Hmono & _)]; [done|].
  destruct (take_held _ _ _ _ Hh2 Et2) as [[? _]|(_ & Hnin & Hh3 & Hf2 & Hu2 & Ha2 & Hm3 & HD3 & _)]; [done|].
  destruct (map_held _ p3 PROCESS_USER_CODE_VADDR cf USER_FLAGS Hh3 Hc Hu1) as (ok & q & E & Hh4 & HD4 & _ & Hl4).
  rewrite E in Em1. injection Em1 as -> ->.
  destruct (map_held _ p4 (PROCESS_USER_STACK_TOP - 4096) sf USER_FLAGS Hh4 Hs Hu2) as (ok & q & E2 & Hh5 & HD5 & _ & Hl5).
  rewrite E2 in Em2. injection Em2 as -> ->. rewrite Hfr in Hf1.
  assert (Hst : paging_translate (PROCESS_USER_STACK_TOP - PROCESS_USER_STACK_SIZE) p5 = Some sf).
  { apply (translate_held p5 _ sf USER_FLAGS); [apply Hh5|done|done| |done]. by rewrite Hl5. }
  split_and!; [intros <-; apply Hnin; left|done|rewrite <- Hfr; by apply Hmono|done|done|done|done|done|].
  destruct (write_held [sf; cf] p5 sf (mem_zero_u8 (pg_mem p5) sf (Z.to_nat PROCESS_USER_STACK_SIZE))) as [Hh6 Hl6]; [done|left|done| |].
  { intros a Ha. rewrite zero_page_rd by done. unfold PROCESS_USER_STACK_SIZE.
    destruct (Z.leb_spec sf a), (Z.ltb_spec a (sf + 4096)); cbn [andb]; done || lia. }
  assert (Hus : user_entry (set_pg_mem p5 (mem_zero_u8 (pg_mem p5) sf (Z.to_nat PROCESS_USER_STACK_SIZE))) PROCESS_USER_CODE_VADDR).
  { destruct (map_user p3 PROCESS_USER_CODE_VADDR cf USER_FLAGS PROCESS_USER_CODE_VADDR (he_ok _ _ Hh3)) as [_ Hus4].
    destruct (map_user p4 (PROCESS_USER_STACK_TOP - 4096) sf USER_FLAGS PROCESS_USER_CODE_VADDR (he_ok _ _ Hh4)) as [Hus5 _].
    rewrite E in Hus4. rewrite E2 in Hus5. specialize (Hus5 (Hus4 eq_refl eq_refl)). cbn [snd] in Hus5.
    apply (write_user_entry [sf; cf] p5 sf); [done|left|done| |exact Hus5].
    intros a Ha. rewrite zero_page_rd by done. unfold PROCESS_USER_STACK_SIZE.
    destruct (Z.leb_spec sf a), (Z.ltb_spec a (sf + 4096)); cbn [andb]; done || lia. }
  split; [done| | | |exact Hus].
  - change (paging_active_directory (set_pg_mem p5 _)) with (paging_active_directory p5). congruence.
  - intros w e Hw. rewrite Hl6, Hl5, Hl4 by done. unfold built_base. cbn [andb].
    destruct (Z.eqb_spec (page_of w) (page_of (PROCESS_USER_STACK_TOP - 4096))); [done|].
    destruct (Z.eqb_spec (page_of w) (page_of PROCESS_USER_CODE_VADDR)); [done|].
    intros Hb. unfold active_lookup. rewrite Hm3, Hm2, HD3, HD2. fold (active_lookup (k_pages k1) w).
    rewrite Hl1 by done. by rewrite !(proj2 (Z.eqb_neq _ _)) by done.
  - intros a Ha. cbn [pg_mem set_pg_mem]. rewrite zero_page_rd by done. unfold PROCESS_USER_STACK_SIZE.
    by rewrite (proj2 (Z.leb_le _ _)), (proj2 (Z.ltb_lt _ _)) by lia.
Qed.

(** The address space of a new user process. *)
Record built (cr3 prog : Z) (name : option (list Z)) k (cf sf e : Z) k' : Prop := {
  bu_fresh : cf <> sf /\ fa_is_free (pg_frames (k_pages k)) cf /\ fa_is_free (pg_frames (k_pages k)) sf;
  bu_frames : is_u32 cf /\ aligned cf /\ is_u32 sf /\ aligned sf;
  bu_own : ~ fa_is_free (pg_frames (k_pages k')) cf /\ ~ fa_is_free (pg_frames (k_pages k')) sf;
  bu_dir : dir_ok (pg_frames (k_pages k')) (pg_mem (k_pages k')) cr3;
  bu_code : lookup_page (pg_mem (k_pages k')) cr3 PROCESS_USER_CODE_VADDR = Some (pte_for cf USER_FLAGS);
  bu_stack : lookup_page (pg_mem (k_pages k')) cr3 (PROCESS_USER_STACK_TOP - 4096) = Some (pte_for sf USER_FLAGS);
  bu_rest : forall w pte, is_u32 w -> page_of w <> page_of PROCESS_USER_CODE_VADDR ->
    page_of w <> page_of (PROCESS_USER_STACK_TOP - 4096) ->
    lookup_page (pg_mem (k_pages k)) cr3 w = Some pte -> lookup_page (pg_mem (k_pages k')) cr3 w = Some pte;
  bu_zero : forall a, sf <= a < sf + 4096 -> rd8 (pg_mem (k_pages k')) a = 0;
  bu_entry : PROCESS_USER_CODE_VADDR <= e < PROCESS_USER_CODE_VADDR + PROCESS_USER_CODE_SIZE;
  bu_back : paging_current_dir_phys (k_pages k') = paging_current_dir_phys (k_pages k);
  bu_user : user_page (pg_mem (k_pages k')) cr3 PROCESS_USER_CODE_VADDR /\
            user_page (pg_mem (k_pages k')) cr3 (PROCESS_USER_STACK_TOP - 4096);
  bu_program : no_image name k -> e = PROCESS_USER_CODE_VADDR /\
    forall i b, builtin_code prog !! i = Some b -> rd8 (pg_mem (k_pages k')) (cf + Z.of_nat i) = b;
}.

Lemma user_pte f : is_u32 f -> aligned f -> user_flags_ok (pte_for f USER_FLAGS) = true.
Proof.
  intros Hu Ha. apply user_flags_spec. unfold pte_for. rewrite page_mask, offset_mask by done. unfold aligned in Ha.
  rewrite Ha, Z.sub_0_r. destruct (make_entry f (Z.lor USER_FLAGS PAGING_FLAG_PRESENT `mod` 4096)) as (_ & _ & Hk); [done|done|done|].
  by rewrite !Hk.
Qed.

Lemma lookup_user_page m D v f :
  user_flags_ok (entry m D (pd_index_of v)) = true -> lookup_page m D v = Some (pte_for f USER_FLAGS) -> is_u32 f -> aligned f ->
  user_page m D v.
Proof.
  intros Hd Hl Hu Ha. split; [done|]. unfold lookup_page in Hl. destruct (has_flag _ _); [|done]. destruct (has_flag _ _); [|done].
  injection Hl as ->. by apply user_pte.
Qed.

Lemma space_built cr3 prog name k cf sf e k8 :
  can_build cr3 k -> kspace [sf; cf] cr3 (built_base (pg_mem (k_pages k)) cr3 cf sf) sf k8 ->
  cf <> sf -> fa_is_free (pg_frames (k_pages k)) cf -> fa_is_free (pg_frames (k_pages k)) sf ->
  PROCESS_USER_CODE_VADDR <= e < PROCESS_USER_CODE_VADDR + PROCESS_USER_CODE_SIZE ->
  is_u32 cf -> aligned cf -> is_u32 sf -> aligned sf ->
  (no_image name k -> e = PROCESS_USER_CODE_VADDR /\
     forall i b, builtin_code prog !! i = Some b -> rd8 (pg_mem (k_pages k8)) (cf + Z.of_nat i) = b) ->
  built cr3 prog name k cf sf e (switch_directory (paging_current_directory_phys (k_pages k)) k8).
Proof.
  intros Hcb [_ [[[Hen Hok Hd] Hun _] HD Hb Hz Hus]] Hne Hf1 Hf2 He Hu1 Ha1 Hu2 Ha2 Hprog. destruct user_pages_u32 as [Hc Hs].
  destruct (cb_prev _ _ Hcb) as [Hp0 Hpa]. unfold paging_current_directory_phys. rewrite (cb_enabled _ _ Hcb). cbn [negb].
  unfold switch_directory. change (k_pages (set_k_pages k8 ?p)) with p.
  assert (Hl : forall w pte, is_u32 w -> built_base (pg_mem (k_pages k)) cr3 cf sf w = Some pte ->
                             lookup_page (pg_mem (k_pages k8)) cr3 w = Some pte).
  { intros w pte Hw Hbw. rewrite <- HD. by apply Hb. }
  rewrite HD in Hd. split; change (k_pages (set_k_pages k8 ?p)) with p; rewrite ?switch_dir by done;
    cbn [pg_frames pg_mem paging_current_dir_phys]; [done|done| |done| | | |done|done|done| |exact Hprog].
  - split; apply Hun; [right; left|left].
  - by apply Hl.
  - by apply Hl.
  - intros w pte Hw Hn1 Hn2 Hlk. apply Hl; [done|]. unfold built_base. by rewrite !(proj2 (Z.eqb_neq _ _)) by done.
  - unfold user_entry in Hus. rewrite HD in Hus. split; [apply (lookup_user_page _ _ _ cf)|apply (lookup_user_page _ _ _ sf)]; try done; by apply Hl.
Qed.

(** Without an image there is none to reject, and three frames are enough. *)
Lemma build_succeeds cr3 prog name k :
  can_build cr3 k -> no_image name k -> fa_ready (pg_frames (k_pages k)) = true -> 3 <= fa_avail (pg_frames (k_pages k)) ->
  is_Some (fst (process_build_user_image cr3 prog name k)).
Proof.
  intros Hcb Hno Hr Hav. unfold process_build_user_image. destruct user_pages_u32 as [Hc Hs].
  set (k1 := unmap_page (PROCESS_USER_STACK_TOP - 4096) _).
  destruct (build_start cr3 k k1 Hcb eq_refl) as (Hh1 & _ & Hfr & _ & Hl1).
  assert (Hf1 : k_files k1 = k_files k /\ k_vfs_ready k1 = k_vfs_ready k) by done. clearbody k1. rewrite <- Hfr in Hr, Hav.
  destruct (take_map_two [] (k_pages k1) PROCESS_USER_CODE_VADDR (PROCESS_USER_STACK_TOP - 4096) USER_FLAGS)
    as (cf & sf & p1 & p2 & p3 & p4 & E1 & E2 & Hcf & Hsf & E3 & E4); [done..|by rewrite Hl1|by rewrite Hl1|].
  rewrite alloc_frame_take, E1, alloc_frame_take. change (k_pages (set_k_pages k1 p1)) with p1. rewrite E2.
  rewrite (proj2 (Z.eqb_neq cf 0)), (proj2 (Z.eqb_neq sf 0)) by done. cbn [orb].
  unfold map_page. change (k_pages (set_k_pages (set_k_pages k1 p1) p2)) with p2. rewrite E3. cbn [negb].
  change (k_pages (set_k_pages (set_k_pages (set_k_pages k1 p1) p2) p3)) with p3. rewrite E4. cbn [negb].
  match goal with |- context [kh_malloc ?n (k_heap ?k6)] =>
    assert (Hf6 : k_files k6 = k_files k /\ k_vfs_ready k6 = k_vfs_ready k) by exact Hf1;
    revert Hf6; generalize k6; intros k5 [Hf5 Hv5]; destruct (kh_malloc n (k_heap k5)) as [image h] end.
  destruct (image =? 0); [by eexists|].
  rewrite load_image_none by (by apply (no_image_same name k)). by eexists.
Qed.

Lemma build_space cr3 prog name k cf sf e k' :
  can_build cr3 k -> process_build_user_image cr3 prog name k = (Some (cf, sf, e), k') -> built cr3 prog name k cf sf e k'.
Proof.
  intros Hcb Hbuild. pose proof (build_image_table cr3 prog name k _ _ Hbuild) as [_ He].
  destruct (He cf sf e eq_refl) as (_ & _ & Hentry). clear He. revert Hbuild. unfold process_build_user_image.
  set (k1 := unmap_page (PROCESS_USER_STACK_TOP - 4096) _).
  assert (Hend : heap_end (k_heap k1) = heap_end (k_heap k)) by done.
  assert (Hfiles : k_files k1 = k_files k /\ k_vfs_ready k1 = k_vfs_ready k) by done.
  assert (Hk1 : k1 = unmap_page (PROCESS_USER_STACK_TOP - 4096) (unmap_page PROCESS_USER_CODE_VADDR (switch_directory cr3 k))) by done.
  clearbody k1. rewrite alloc_frame_take. destruct (take_frame (k_pages k1)) as [cf0 p2] eqn:E1.
  rewrite alloc_frame_take. change (k_pages (set_k_pages k1 p2)) with p2. destruct (take_frame p2) as [sf0 p3] eqn:E2.
  destruct (Z.eqb_spec cf0 0) as [|Hcf]; [done|]. destruct (Z.eqb_spec sf0 0) as [|Hsf]; [done|]. cbn [orb].
  unfold map_page. change (k_pages (set_k_pages (set_k_pages k1 p2) p3)) with p3.
  destruct (paging_map_page PROCESS_USER_CODE_VADDR cf0 USER_FLAGS p3) as [[] p4] eqn:E3; cbn [negb]; [|done].
  change (k_pages (set_k_pages (set_k_pages (set_k_pages k1 p2) p3) p4)) with p4.
  destruct (paging_map_page (PROCESS_USER_STACK_TOP - 4096) sf0 USER_FLAGS p4) as [[] p5] eqn:E4; cbn [negb]; [|done].
  destruct (build_pages cr3 k k1 cf0 sf0 p2 p3 p4 p5 Hcb Hk1 E1 E2 Hcf Hsf E3 E4) as (Hne & Hf1 & Hf2 & Hu1 & Ha1 & Hu2 & Ha2 & Hst & Hsp).
  set (k5 := set_k_pages _ p5). set (k6 := on_user_page _ _ k5).
  assert (H6 : kspace [sf0; cf0] cr3 (built_base (pg_mem (k_pages k)) cr3 cf0 sf0) sf0 k6).
  { split; [change (heap_end (k_heap k6)) with (heap_end (k_heap k1)); rewrite Hend; apply (cb_heap _ _ Hcb)|].
    unfold k6, on_user_page. change (k_pages k5) with p5. rewrite Hst. exact Hsp. }
  assert (Hf6 : k_files k6 = k_files k /\ k_vfs_ready k6 = k_vfs_ready k) by exact Hfiles.
  assert (Hin : cf0 ∈ [sf0; cf0]) by (right; left).
  assert (Hbase : built_base (pg_mem (k_pages k)) cr3 cf0 sf0 PROCESS_USER_CODE_VADDR = Some (pte_for cf0 USER_FLAGS)) by reflexivity.
  clearbody k6. clear Hsp Hst k5 E1 E2 E3 E4 Hk1 Hend.
  destruct (kh_malloc PROCESS_USER_IMAGE_MAX (k_heap k6)) as [image h] eqn:Em.
  apply (kspace_malloc _ _ _ _ _ _ _ _ ltac:(left) Ha2 H6) in Em.
  assert (Hf7 : k_files (set_k_heap k6 h) = k_files k /\ k_vfs_ready (set_k_heap k6 h) = k_vfs_ready k) by exact Hf6.
  revert Em Hf7. generalize (set_k_heap k6 h). intros k7 H7 [Hf7 Hv7].
  destruct (if image =? 0 then _ else _) as [[st e0] k8] eqn:El.
  assert (H8 : kspace [sf0; cf0] cr3 (built_base (pg_mem (k_pages k)) cr3 cf0 sf0) sf0 k8).
  { revert El. destruct (image =? 0); [intros [_ <-]%pair_equal_spec; exact H7|].
    destruct (load_image image name k7) as [[st' e'] k7'] eqn:Eli. intros [_ <-]%pair_equal_spec.
    apply kspace_heap; [|apply kfree_pages..].
    exact (load_image_space _ _ _ _ k7 cf0 image name st' e' k7' H7 Hin Hu1 Ha1 Ha2 Hne Hbase Eli). }
  assert (Hno : no_image name k -> st = 0 /\ e0 = PROCESS_USER_CODE_VADDR).
  { intros Hno. revert El. destruct (image =? 0); [by intros [[= <- <-] _]%pair_equal_spec|].
    rewrite load_image_none by (by apply (no_image_same name k)). by intros [[= <- <-] _]%pair_equal_spec. }
  clear El H7 H6. destruct (st <? 0); [done|].
  assert (Hcode : no_image name k -> e0 = PROCESS_USER_CODE_VADDR /\ forall i b, builtin_code prog !! i = Some b ->
    rd8 (pg_mem (k_pages (if st =? 0 then emit_builtin prog k8 else k8))) (cf0 + Z.of_nat i) = b).
  { intros Hni. destruct (Hno Hni) as [-> He]. split; [done|]. intros i b Hi.
    exact (emit_builtin_code _ _ _ _ k8 cf0 prog i b H8 Hu1 Ha1 Hbase Hi). }
  assert (H9 : kspace [sf0; cf0] cr3 (built_base (pg_mem (k_pages k)) cr3 cf0 sf0) sf0 (if st =? 0 then emit_builtin prog k8 else k8)).
  { destruct (st =? 0); [|exact H8]. exact (emit_builtin_space _ _ _ _ k8 cf0 prog H8 Hin Hu1 Ha1 Ha2 Hne Hbase). }
  revert H9 Hcode. generalize (if st =? 0 then emit_builtin prog k8 else k8). intros k9 H9 Hcode.
  intros [Heq <-]%pair_equal_spec. injection Heq as -> -> ->. by apply space_built.
Qed.

(** C8. The address space a user process starts in. When [process_build_user_image] succeeds, the given directory maps
    the code page and the stack page, readable and writable for user code on both levels of the tables, to two
    different frames that were free and now are the process's own; every other page that was mapped is mapped as
    before, whatever the heap did meanwhile; the stack is all zeros, the entry point lies in the code page, the page
    tables are well formed and the directory that was active is active again. When no file holds an image for the
    name, the code page holds the built-in program of the given number, and with three frames left it succeeds. *)
Theorem process_build_user_image_space cr3 prog name k :
  can_build cr3 k ->
  exists r k', process_build_user_image cr3 prog name k = (r, k') /\
    (forall cf sf e, r = Some (cf, sf, e) -> built cr3 prog name k cf sf e k') /\
    (no_image name k -> fa_ready (pg_frames (k_pages k)) = true -> 3 <= fa_avail (pg_frames (k_pages k)) -> r <> None).
Proof.
  intros Hcb. destruct (process_build_user_image cr3 prog name k) as [r k'] eqn:E. exists r, k'. split_and!; [done| |].
  - intros cf sf e ->. by apply (build_space cr3 prog name).
  - intros Hno Hr Hav ->. destruct (build_succeeds cr3 prog name k Hcb Hno Hr Hav) as [x Hx]. by rewrite E in Hx.
Qed.

End Space.

Lemma demo_can_build : can_build 8192 (demo_kernel TASK_UNUSED).
Proof.
  split; [reflexivity|cbn; lia| |split; [discriminate|reflexivity]|unfold is_u32; cbn; unfold KHEAP_START; lia].
  split; [reflexivity|lia| | |].
  - intros (j & Hj & Hr). cbn in Hr. lia.
  - intros i Hi Hp. discriminate Hp.
  - intros i j Hi Hj Hij Hp. discriminate Hp.
Qed.

Lemma process_build_user_image_space_witness :
  exists cf sf e k', process_build_user_image 8192 1 None (demo_kernel TASK_UNUSED) = (Some (cf, sf, e), k') /\
    built 8192 1 None (demo_kernel TASK_UNUSED) cf sf e k'.
Proof.
  destruct (process_build_user_image_space 8192 1 None (demo_kernel TASK_UNUSED) demo_can_build) as (r & k' & E & Hb & Hs).
  destruct r as [[[cf sf] e]|]; [|destruct Hs; [intros n [=]|reflexivity|cbn; lia|reflexivity]].
  exists cf, sf, e, k'. split; [exact E|]. apply Hb. reflexivity.
Defined.
