(* ===== verification/World.v ===== *)
(** Who owns which physical frame: an account of all address spaces at once.

    The kernel's directory and the page tables under it are shared by every address
    space; a process owns its directory, one page table for the 4 MiB at 1 GiB, and the
    frames behind its pages. [world] states this for all processes together, with the
    frames an operation has in its hands, and each operation of paging.c and process.c
    on an address space is shown to keep the account. *)
From Stdlib Require Import ZArith Lia Bool List.
From stdpp Require Import base gmap list numbers option.
From S2P Require Import Prelude CStr Interfaces Paging Kheap Scheduler Ipc Vfs Loader Process Reserve Space.
#[local] Open Scope Z_scope.

(** ** Address spaces *)

(** The directory entry of the user pages. *)
Definition USER_PD : Z := 256.

(** The two pages of a process. *)
Inductive upage := CodePage | StackPage.
#[export] Instance upage_eq_dec : EqDecision upage.
Proof. solve_decision. Defined.

Definition page_addr (b : upage) : Z :=
  match b with CodePage => PROCESS_USER_CODE_VADDR | StackPage => PROCESS_USER_STACK_TOP - 4096 end.
Definition page_index (b : upage) : Z := match b with CodePage => 0 | StackPage => 1 end.

(** What a process owns: its directory, its page table once it has one, and the frames
    behind the pages that are mapped. *)
Record uspace := USpace { us_dir : Z; us_table : option Z; us_code : option Z; us_stack : option Z }.

Definition us_page (u : uspace) (b : upage) : option Z := match b with CodePage => us_code u | StackPage => us_stack u end.
Definition set_page (u : uspace) (b : upage) (o : option Z) : uspace :=
  match b with
  | CodePage => USpace (us_dir u) (us_table u) o (us_stack u)
  | StackPage => USpace (us_dir u) (us_table u) (us_code u) o
  end.
Definition set_us_table (u : uspace) (o : option Z) : uspace := USpace (us_dir u) o (us_code u) (us_stack u).

Definition us_frames (u : uspace) : list Z :=
  us_dir u :: option_list (us_table u) ++ option_list (us_code u) ++ option_list (us_stack u).

(** The frames in hand and those of the address spaces. *)
Definition owned (R : list Z) (S : list uspace) : list Z := R ++ (S ≫= us_frames).

(** The contents of the private table. *)
Definition opt_pte (o : option Z) : Z := match o with Some f => pte_for f USER_FLAGS | None => 0 end.
Definition us_pte (u : uspace) (j : Z) : Z :=
  if j =? 0 then opt_pte (us_code u) else if j =? 1 then opt_pte (us_stack u) else 0.

Definition private_half (m : mem) (u : uspace) : Prop :=
  match us_table u with
  | Some T => entry m (us_dir u) USER_PD = Z.lor T 7 /\ forall j, 0 <= j < 1024 -> entry m T j = us_pte u j
  | None => present (entry m (us_dir u) USER_PD) = false /\ us_code u = None /\ us_stack u = None
  end.

Lemma page_addr_u32 b : is_u32 (page_addr b).
Proof. destruct b; unfold is_u32; cbn; unfold PROCESS_USER_CODE_VADDR, PROCESS_USER_STACK_TOP; lia. Qed.

Lemma page_addr_index b : pd_index_of (page_addr b) = USER_PD /\ pt_index_of (page_addr b) = page_index b.
Proof. by destruct b. Qed.

Lemma page_index_range b : 0 <= page_index b < 1024.
Proof. destruct b; cbn; lia. Qed.

Lemma us_pte_page u b : us_pte u (page_index b) = opt_pte (us_page u b).
Proof. by destruct b. Qed.

Lemma us_pte_set u b o j : us_pte (set_page u b o) j = if j =? page_index b then opt_pte o else us_pte u j.
Proof.
  unfold us_pte. destruct b; cbn; [by destruct (j =? 0)|].
  destruct (Z.eqb_spec j 0) as [->|]; [done|]. by destruct (j =? 1).
Qed.

Lemma owned_cons R u S : owned R (u :: S) = R ++ us_frames u ++ (S ≫= us_frames).
Proof. done. Qed.

Lemma owned_elem R S f : f ∈ owned R S <-> f ∈ R \/ exists u, u ∈ S /\ f ∈ us_frames u.
Proof.
  unfold owned. rewrite elem_of_app, list_elem_of_bind. naive_solver.
Qed.

(** Frames belong to one space. *)
Lemma frames_apart R S u u' f : NoDup (owned R S) -> u ∈ S -> u' ∈ S -> f ∈ us_frames u -> f ∈ us_frames u' -> u = u'.
Proof.
  unfold owned. intros (_ & _ & Hn)%list.NoDup_app. induction S as [|v S IH]; [by intros ?%not_elem_of_nil|].
  change (NoDup (us_frames v ++ (S ≫= us_frames))) in Hn. apply list.NoDup_app in Hn as (_ & Hd & Hn). intros Hu Hu' Hf Hf'.
  assert (Hnot : forall w, w ∈ S -> f ∈ us_frames w -> f ∉ us_frames v).
  { intros w Hw Hfw Hfv. apply (Hd f Hfv). apply list_elem_of_bind. eauto. }
  apply elem_of_cons in Hu as [->|Hu], Hu' as [->|Hu']; [done| | |by apply IH]; exfalso; by eapply Hnot.
Qed.

Lemma frames_nodup R S u : NoDup (owned R S) -> u ∈ S -> NoDup (us_frames u).
Proof.
  unfold owned. intros (_ & _ & Hn)%list.NoDup_app. induction S as [|v S IH]; [by intros ?%not_elem_of_nil|].
  change (NoDup (us_frames v ++ (S ≫= us_frames))) in Hn. apply list.NoDup_app in Hn as (Hv & _ & Hn). intros [->|Hu]%elem_of_cons; auto.
Qed.

Lemma length_cons_Z (f : Z) (l : list Z) : Z.of_nat (length (f :: l)) = Z.of_nat (length l) + 1.
Proof. cbn [length]. lia. Qed.

Section World.
Context {A : Type} `{FrameReturnOk A}.
Implicit Types (p : paging_state A) (a : A) (m : mem) (S : list uspace) (R : list Z).

(** [K] is the kernel's directory, [R] the frames in hand, [S] the address spaces; [Q]
    is the set and [N] the number of all frames that are free or accounted for. *)
Record world (K : Z) R S (Q : Z -> Prop) (N : Z) p : Prop := {
  wo_enabled : paging_is_enabled p = true;
  wo_alloc : fa_ok (pg_frames p);
  wo_kernel : paging_kernel_dir_phys p = K;
  wo_nodup : NoDup (owned R S);
  wo_given : forall f, f ∈ owned R S -> fa_given (pg_frames p) f /\ 0 < f < 4294967296 /\ aligned f;
  wo_apart : K ∉ owned R S;
  wo_dirs : forall D, D ∈ K :: (us_dir <$> S) -> dir_ok (pg_frames p) (pg_mem p) D;
  wo_off : forall D j, D ∈ K :: (us_dir <$> S) -> 0 <= j < 1024 -> present (entry (pg_mem p) D j) = true ->
    D = K \/ j <> USER_PD -> table_of (entry (pg_mem p) D j) ∉ K :: owned R S;
  wo_plain : forall u j, u ∈ S -> 0 <= j < 1024 -> j <> USER_PD -> has_flag (entry (pg_mem p) (us_dir u) j) PAGING_FLAG_USER = false;
  wo_clean : present (entry (pg_mem p) K USER_PD) = true -> has_flag (entry (pg_mem p) K USER_PD) PAGING_FLAG_USER = true;
  wo_private : forall u, u ∈ S -> private_half (pg_mem p) u;
  wo_active : paging_current_dir_phys p ∈ K :: (us_dir <$> S);
  wo_pool : forall g, Q g <-> fa_is_free (pg_frames p) g \/ g ∈ owned R S;
  wo_worth : N = fa_avail (pg_frames p) + Z.of_nat (length (owned R S));
}.

Lemma world_active K R S Q N p : world K R S Q N p -> paging_active_directory p = paging_current_dir_phys p.
Proof.
  intros W. unfold paging_active_directory. rewrite (proj2 (Z.eqb_neq _ _)); [done|].
  pose proof (dk_range _ _ _ (wo_dirs _ _ _ _ _ _ W _ (wo_active _ _ _ _ _ _ W))). lia.
Qed.

Lemma world_paging_ok K R S Q N p : world K R S Q N p -> paging_ok p.
Proof. intros W. split; [apply W|apply W|]. rewrite (world_active _ _ _ _ _ _ W). apply (wo_dirs _ _ _ _ _ _ W), W. Qed.

Lemma dir_owned R S D : D ∈ us_dir <$> S -> D ∈ owned R S.
Proof. intros (u & -> & Hu)%list_elem_of_fmap. apply owned_elem. right. exists u. split; [done|left]. Qed.

Lemma dir_listed K R S D : D ∈ K :: (us_dir <$> S) -> D ∈ K :: owned R S.
Proof. intros [->|HD]%elem_of_cons; [left|right; by apply dir_owned]. Qed.

(** Directories and page tables of the address spaces. *)
Definition structs S : list Z := S ≫= fun u => us_dir u :: option_list (us_table u).

Lemma struct_owned R S t : t ∈ structs S -> t ∈ owned R S.
Proof.
  intros (u & Ht & Hu)%list_elem_of_bind. apply owned_elem. right. exists u. split; [done|]. unfold us_frames.
  apply elem_of_cons in Ht as [->|Ht]; [left|right]. apply elem_of_app. by left.
Qed.

Lemma struct_listed K R S t : t ∈ K :: structs S -> t ∈ K :: owned R S.
Proof. intros [->|Ht]%elem_of_cons; [left|right; by apply struct_owned]. Qed.

Lemma dir_struct K S D : D ∈ K :: (us_dir <$> S) -> D ∈ K :: structs S.
Proof.
  intros [->|(u & -> & Hu)%list_elem_of_fmap]%elem_of_cons; [left|right]. apply list_elem_of_bind. exists u. split; [left|done].
Qed.

Lemma table_struct K S u T : u ∈ S -> us_table u = Some T -> T ∈ K :: structs S.
Proof. intros Hu HT. right. apply list_elem_of_bind. exists u. split; [|done]. rewrite HT. right. left. Qed.

Lemma table_owned R S u T : u ∈ S -> us_table u = Some T -> T ∈ owned R S.
Proof. intros Hu HT. apply owned_elem. right. exists u. split; [done|]. unfold us_frames. rewrite HT. right. left. Qed.

Lemma world_used K R S Q N p f : world K R S Q N p -> f ∈ K :: owned R S -> ~ fa_is_free (pg_frames p) f.
Proof.
  intros W [->|Hf]%elem_of_cons; [apply (wo_dirs _ _ _ _ _ _ W); left|]. apply fa_given_used. by apply W.
Qed.

Lemma world_aligned K R S Q N p f : world K R S Q N p -> f ∈ K :: owned R S -> aligned f.
Proof. intros W [->|Hf]%elem_of_cons; [apply (wo_dirs _ _ _ _ _ _ W); left|]. by apply W. Qed.

Lemma table_not_dir K R S Q N p u T : world K R S Q N p -> u ∈ S -> us_table u = Some T -> T ∉ K :: (us_dir <$> S).
Proof.
  intros W Hu HT [->|HD]%elem_of_cons; [by apply (wo_apart _ _ _ _ _ _ W), (table_owned _ _ u)|].
  apply list_elem_of_fmap in HD as (u' & -> & Hu'). pose proof (wo_nodup _ _ _ _ _ _ W) as Hn.
  assert (u = u') as <-.
  { apply (frames_apart R S u u' (us_dir u') Hn Hu Hu'); [|left]. unfold us_frames. rewrite HT. right. left. }
  pose proof (frames_nodup _ _ _ Hn Hu) as Hf. unfold us_frames in Hf. rewrite HT in Hf. apply list.NoDup_cons in Hf as [Hf _]. apply Hf. left.
Qed.

(** *** The order of frames and spaces does not matter *)

Lemma owned_perm R R' S S' : R ≡ₚ R' -> S ≡ₚ S' -> owned R S ≡ₚ owned R' S'.
Proof. intros HR HS. unfold owned. by rewrite HR, HS. Qed.

Lemma world_perm K R R' S S' Q N p : R ≡ₚ R' -> S ≡ₚ S' -> world K R S Q N p -> world K R' S' Q N p.
Proof.
  intros HR HS []. pose proof (owned_perm _ _ _ _ HR HS) as Ho.
  split; try done; try (intros *; rewrite <- ?Ho, <- ?HS; auto); by rewrite <- Ho.
Qed.

(** *** Changes of memory *)

(** The account of a state: what is free or owned. *)
Definition pool_of p R S (g : Z) : Prop := fa_is_free (pg_frames p) g \/ g ∈ owned R S.
Definition worth_of p R S : Z := fa_avail (pg_frames p) + Z.of_nat (length (owned R S)).

(** Frames in use keep off the page tables; a directory may get new tables for kernel
    pages, in frames that were free. *)
Lemma world_change K R S Q N p a' m' D :
  world K R S Q N p -> D ∈ K :: (us_dir <$> S) -> fa_ok a' ->
  (forall g, fa_is_free a' g -> fa_is_free (pg_frames p) g) -> (forall g, fa_given (pg_frames p) g -> fa_given a' g) ->
  (forall t j, t ∈ K :: structs S -> t <> D -> 0 <= j < 1024 -> entry m' t j = entry (pg_mem p) t j) ->
  dir_ok a' m' D ->
  (forall j, 0 <= j < 1024 -> entry m' D j = entry (pg_mem p) D j \/
     (j <> USER_PD /\ fa_is_free (pg_frames p) (table_of (entry m' D j)) /\ has_flag (entry m' D j) PAGING_FLAG_USER = false)) ->
  world K R S (pool_of (touch p a' m') R S) (worth_of (touch p a' m') R S) (touch p a' m').
Proof.
  intros W HD Hok Hfree Hgiven Hsame HdD HeD. pose proof (dir_listed K R S D HD) as HDl.
  assert (Hdir : forall D' j, D' ∈ K :: (us_dir <$> S) -> 0 <= j < 1024 -> D' <> D -> entry m' D' j = entry (pg_mem p) D' j).
  { intros D' j HD' Hj Hne. apply Hsame; [by apply dir_struct|done|done]. }
  assert (Huser : forall D', D' ∈ K :: (us_dir <$> S) -> entry m' D' USER_PD = entry (pg_mem p) D' USER_PD).
  { intros D' HD'. destruct (decide (D' = D)) as [->|]; [|by apply Hdir]. by destruct (HeD USER_PD) as [|[]]. }
  assert (Hin : forall u, u ∈ S -> us_dir u ∈ K :: (us_dir <$> S)) by (intros u Hu; right; by apply list_elem_of_fmap_2).
  split; cbn [pg_mem pg_frames touch set_pg_mem set_pg_frames paging_is_enabled paging_kernel_dir_phys paging_current_dir_phys]; try apply W; try done.
  - intros f Hf. destruct (wo_given _ _ _ _ _ _ W f Hf) as (? & ? & ?). auto.
  - intros D' HD'. destruct (decide (D' = D)) as [->|Hne]; [done|].
    apply (dir_ok_mono (pg_frames p) _ (pg_mem p)); [by apply W|done|]. intros j Hj. by rewrite Hdir.
  - intros D' j HD' Hj. destruct (decide (D' = D)) as [->|]; [|rewrite Hdir by done; by apply W].
    destruct (HeD j Hj) as [->|(_ & Hf & _)]; [by apply W|]. intros _ _ Hc. by apply (world_used _ _ _ _ _ _ _ W) in Hc.
  - intros u j Hu Hj Hne. destruct (decide (us_dir u = D)) as [Heq|]; [|rewrite Hdir by auto; by apply W].
    rewrite Heq. destruct (HeD j Hj) as [->|(_ & _ & ?)]; [|done]. rewrite <- Heq. by apply W.
  - rewrite Huser by left. apply W.
  - intros u Hu. pose proof (wo_private _ _ _ _ _ _ W u Hu) as Hp. unfold private_half in *. rewrite Huser by auto.
    destruct (us_table u) as [T|] eqn:ET; [|done]. destruct Hp as [He Hpt]. split; [done|]. intros j Hj. rewrite <- Hpt by done.
    apply Hsame; [by apply (table_struct _ _ u)| |done].
    intros ->. by apply (table_not_dir K R S Q N p u D).
Qed.

Lemma world_same K R S Q N p a' m' :
  world K R S Q N p -> fa_ok a' ->
  (forall g, fa_is_free a' g -> fa_is_free (pg_frames p) g) -> (forall g, fa_given (pg_frames p) g -> fa_given a' g) ->
  (forall t j, t ∈ K :: structs S -> 0 <= j < 1024 -> entry m' t j = entry (pg_mem p) t j) ->
  world K R S (pool_of (touch p a' m') R S) (worth_of (touch p a' m') R S) (touch p a' m').
Proof.
  intros W Hok Hfree Hgiven Hsame. apply (world_change K R S Q N p a' m' K); [done|left|done|done|done| | |].
  - intros t j Ht _. by apply Hsame.
  - apply (dir_ok_mono (pg_frames p) _ (pg_mem p)); [apply W; left|done|]. intros j Hj. rewrite Hsame; [done|left|done].
  - intros j Hj. left. apply Hsame; [left|done].
Qed.

(** Two descriptions of one account. *)
Lemma world_eq K R S Q N Q' N' p : world K R S Q N p -> (forall g, Q' g <-> Q g) -> N' = N -> world K R S Q' N' p.
Proof. intros [] HQ ->. split; try done. intros g. by rewrite HQ. Qed.

(** *** Page tables, entry by entry *)

Definition table_flags (fl : Z) : Z := if has_flag fl PAGING_FLAG_USER then 7 else 3.

Lemma ensure_exact p D i fl :
  fa_ok (pg_frames p) ->
  ensure_table D i fl p =
  let e := entry (pg_mem p) D i in
  if present e then (true, if has_flag fl PAGING_FLAG_USER then set_pg_mem p (set_entry (pg_mem p) D i (Z.lor e PAGING_FLAG_USER)) else p)
  else let '(f, a) := fa_alloc (pg_frames p) in
       if f =? 0 then (false, p) else (true, touch p a (set_entry (clear_table (pg_mem p) f) D i (Z.lor f (table_flags fl)))).
Proof.
  intros Hok. unfold ensure_table, table_flags. cbv zeta. fold (present (entry (pg_mem p) D i)).
  destruct (present _); cbn [negb]; [by destruct (has_flag fl _)|]. unfold paging_alloc_table.
  destruct (fa_alloc (pg_frames p)) as [f a] eqn:E. destruct (Z.eqb_spec f 0) as [->|Hf].
  - rewrite (fa_alloc_none _ _ Hok E). by destruct p.
  - rewrite (proj2 (Z.eqb_neq f 0)) by done. by destruct (has_flag fl _).
Qed.

Lemma map_exact p virt phys flags :
  paging_is_enabled p = true -> aligned virt -> aligned phys ->
  paging_map_page virt phys flags p =
  let D := paging_active_directory p in
  let '(ok, p1) := ensure_table D (pd_index_of virt) (Z.lor flags PAGING_FLAG_PRESENT) p in
  let T := table_of (entry (pg_mem p1) D (pd_index_of virt)) in
  if negb ok then (false, p1) else
  if present (entry (pg_mem p1) T (pt_index_of virt)) then (false, p1) else
  (true, set_pg_mem p1 (set_entry (pg_mem p1) T (pt_index_of virt) (pte_for phys flags))).
Proof.
  intros He Hv Hp. unfold paging_map_page. unfold aligned in *. rewrite He, (offset_mask virt), (offset_mask phys), Hv, Hp, flags_present.
  cbn [negb orb Z.eqb]. by destruct (ensure_table _ _ _ _).
Qed.

(** *** Kernel pages *)

Lemma world_active_dir K R S Q N p : world K R S Q N p -> paging_active_directory p ∈ K :: (us_dir <$> S).
Proof. intros W. rewrite (world_active _ _ _ _ _ _ W). apply W. Qed.

(** A table that was there for a kernel page is shared. *)
Lemma write_shared K R S Q N p T j v :
  world K R S Q N p -> aligned T -> T ∉ K :: owned R S -> 0 <= j < 1024 ->
  world K R S Q N (set_pg_mem p (set_entry (pg_mem p) T j v)).
Proof.
  intros W Ha HT Hj. replace (set_pg_mem p _) with (touch p (pg_frames p) (set_entry (pg_mem p) T j v)) by (by destruct p).
  eapply world_eq; [apply (world_same K R S Q N p)| |]; [done|apply W|done|done| | |].
  - intros t i Ht%(struct_listed K R) Hi. apply entry_set_ne; [done|by apply (world_aligned K R S Q N p)|done|done|]. left. by intros ->.
  - intros g. apply (wo_pool _ _ _ _ _ _ W).
  - apply (wo_worth _ _ _ _ _ _ W).
Qed.

(** A new table for kernel pages of the active directory. *)
Lemma new_shared K R S Q N p f a i :
  let D := paging_active_directory p in
  let m := set_entry (clear_table (pg_mem p) f) D i (Z.lor f 3) in
  world K R S Q N p -> 0 <= i < 1024 -> i <> USER_PD -> present (entry (pg_mem p) D i) = false ->
  fa_alloc (pg_frames p) = (f, a) -> f <> 0 ->
  world K R S (fun g => Q g /\ g <> f) (N - 1) (touch p a m) /\ entry m D i = Z.lor f 3 /\ table_of (Z.lor f 3) = f /\
  f ∉ K :: owned R S /\ (forall j, 0 <= j < 1024 -> entry m f j = 0).
Proof.
  intros D m W Hi Hne Hab E Hf. pose proof (wo_alloc _ _ _ _ _ _ W) as Hok.
  destruct (fa_alloc_some _ _ _ Hok E Hf) as (Hok' & Hfree & Hfu & Hfa & Hiff & Hav).
  destruct (fa_alloc_given _ _ _ Hok E Hf) as [_ Hgiven].
  pose proof (world_active_dir _ _ _ _ _ _ W) as HD. fold D in HD. pose proof (wo_dirs _ _ _ _ _ _ W D HD) as Hd.
  pose proof (dk_aligned _ _ _ Hd) as HDa. assert (Hnew : forall t, t ∈ K :: owned R S -> t <> f).
  { intros t Ht ->. by apply (world_used _ _ _ _ _ _ _ W Ht). }
  assert (HfD : D <> f) by (apply Hnew, dir_listed, HD).
  destruct (make_entry f 3) as (Heu & Het & Heb); [done|unfold is_u32; lia|lia|].
  assert (Hm : forall t j, aligned t -> t <> f -> 0 <= j < 1024 -> t <> D \/ j <> i -> entry m t j = entry (pg_mem p) t j).
  { intros t j Hta Htf Hj Hor. unfold m. rewrite entry_set_ne by (done || destruct Hor; auto). by apply clear_table_ne. }
  assert (HmD : entry m D i = Z.lor f 3) by (by apply entry_set_eq).
  destruct (new_table (pg_frames p) a f (pg_mem p) (clear_table (pg_mem p) f) D i 3) as (Hd' & _);
    [exact Hd|exact Hok|exact E|exact Hf|exact Hi|exact Hab|lia|reflexivity|intros; by apply clear_table_ne|].
  fold m in Hd'. split_and!; [|done|done|intros Hc; by apply Hnew in Hc|].
  - eapply world_eq; [apply (world_change K R S Q N p a m D)| |];
      [exact W|exact HD|exact Hok'| |exact Hgiven| |exact Hd'| | |].
    + intros g Hg. by apply Hiff in Hg as [? _].
    + intros t j Ht%(struct_listed K R) HtD Hj. apply Hm; [by apply (world_aligned K R S Q N p)|by apply Hnew|done|by left].
    + intros j Hj. destruct (decide (j = i)) as [->|]; [|left; apply Hm; auto]. right. rewrite HmD, Het.
      split_and!; [done|done|]. by rewrite has_flag_user, Heb.
    + intros g. unfold pool_of. cbn [pg_frames touch set_pg_mem set_pg_frames]. rewrite (wo_pool _ _ _ _ _ _ W g), Hiff.
      split; [tauto|]. intros [?|Hg]; [tauto|]. split; [by right|]. apply Hnew. by right.
    + unfold worth_of. cbn [pg_frames touch set_pg_mem set_pg_frames]. rewrite Hav, (wo_worth _ _ _ _ _ _ W). lia.
  - intros j Hj. unfold m. rewrite entry_set_ne; [by apply clear_table_eq|done|done|done|done|by left].
Qed.

(** What is left of the account when the kernel takes frames for itself. *)
Definition shrinks K R S (Q : Z -> Prop) (N : Z) p : Prop :=
  exists Q' N', world K R S Q' N' p /\ (forall g, Q' g -> Q g) /\ N' <= N.

Lemma world_shrinks K R S Q N p : world K R S Q N p -> shrinks K R S Q N p.
Proof. intros W. by exists Q, N. Qed.

Lemma shrinks_trans K R S Q N Q' N' p : shrinks K R S Q' N' p -> (forall g, Q' g -> Q g) -> N' <= N -> shrinks K R S Q N p.
Proof. intros (Q1 & N1 & W & HQ & HN) HQ' HN'. exists Q1, N1. split_and!; [done|auto|lia]. Qed.

Lemma world_map_kernel K R S Q N p virt phys flags :
  world K R S Q N p -> pd_index_of virt <> USER_PD -> has_flag flags PAGING_FLAG_USER = false ->
  shrinks K R S Q N (snd (paging_map_page virt phys flags p)).
Proof.
  intros W Hpd Hfl. pose proof (wo_alloc _ _ _ _ _ _ W) as Hok.
  destruct (decide (aligned virt /\ aligned phys)) as [[Hv Hp]|Hn].
  2: { replace (snd _) with p; [by apply world_shrinks|]. unfold paging_map_page. rewrite (wo_enabled _ _ _ _ _ _ W), !offset_mask.
       cbn [negb]. destruct (Z.eqb_spec (virt `mod` 4096) 0), (Z.eqb_spec (phys `mod` 4096) 0); cbn; (done || by exfalso; apply Hn). }
  rewrite map_exact by (done || apply W). cbv zeta. rewrite ensure_exact by done. cbv zeta. set (D := paging_active_directory p).
  set (i := pd_index_of virt) in *. pose proof (pd_index_range virt) as Hi. fold i in Hi. pose proof (pt_index_range virt) as Hj.
  pose proof (world_active_dir _ _ _ _ _ _ W) as HD. fold D in HD.
  assert (Hfl' : has_flag (Z.lor flags PAGING_FLAG_PRESENT) PAGING_FLAG_USER = false).
  { rewrite has_flag_user in *. by rewrite Z.lor_spec, Hfl. }
  unfold table_flags. rewrite Hfl'. destruct (present (entry (pg_mem p) D i)) eqn:Hpr.
  - cbn [negb snd]. cbv iota. destruct (present (entry _ (table_of _) _)); cbn [snd]; [by apply world_shrinks|]. apply world_shrinks, write_shared; [done|apply table_aligned| |done].
    apply (wo_off _ _ _ _ _ _ W); [done|done|done|by right].
  - destruct (fa_alloc (pg_frames p)) as [f a] eqn:E. destruct (Z.eqb_spec f 0) as [->|Hf]; [by apply world_shrinks|]. cbn [negb].
    destruct (new_shared K R S Q N p f a i W Hi Hpd Hpr E Hf) as (W' & He & Ht & Hout & Hz). fold D in W', He, Hz.
    cbn [pg_mem touch set_pg_mem]. rewrite He, Ht, Hz by done. change (present 0) with false. cbn [snd].
    exists (fun g => Q g /\ g <> f), (N - 1). split_and!; [|tauto|lia].
    change (set_pg_mem (touch p a ?m) ?m') with (set_pg_mem (touch p a m) (set_entry (pg_mem (touch p a m)) f (pt_index_of virt) (pte_for phys flags))).
    destruct (fa_alloc_some _ _ _ Hok E Hf) as (_ & _ & _ & Hfa & _).
    by apply write_shared.
Qed.

(** The kernel takes a frame for itself. *)
Lemma world_take K R S Q N p f a :
  world K R S Q N p -> fa_alloc (pg_frames p) = (f, a) -> f <> 0 ->
  world K R S (fun g => Q g /\ g <> f) (N - 1) (set_pg_frames p a).
Proof.
  intros W E Hf. pose proof (wo_alloc _ _ _ _ _ _ W) as Hok.
  destruct (fa_alloc_some _ _ _ Hok E Hf) as (Hok' & Hfree & _ & _ & Hiff & Hav). destruct (fa_alloc_given _ _ _ Hok E Hf) as [_ Hgiven].
  change (set_pg_frames p a) with (touch p a (pg_mem p)).
  eapply world_eq; [apply (world_same K R S Q N p a (pg_mem p))| |]; [exact W|exact Hok'| |exact Hgiven|done| |].
  - intros g Hg. by apply Hiff in Hg as [? _].
  - intros g. unfold pool_of. cbn [pg_frames touch set_pg_mem set_pg_frames]. rewrite (wo_pool _ _ _ _ _ _ W g), Hiff.
    split; [tauto|]. intros [?|Hg]; [tauto|]. split; [by right|]. intros ->. apply (world_used _ _ _ _ _ _ f W); [by right|done].
  - unfold worth_of. cbn [pg_frames touch set_pg_mem set_pg_frames]. rewrite Hav, (wo_worth _ _ _ _ _ _ W). lia.
Qed.

Lemma world_map_fresh K R S Q N p virt :
  world K R S Q N p -> pd_index_of virt <> USER_PD ->
  let '(ok, p') := map_fresh_page virt p in shrinks K R S Q (if ok then N - 1 else N) p'.
Proof.
  intros W Hpd. unfold map_fresh_page. destruct (fa_alloc (pg_frames p)) as [f a] eqn:E.
  destruct (Z.eqb_spec f 0) as [->|Hf].
  { rewrite (fa_alloc_none _ _ (wo_alloc _ _ _ _ _ _ W) E). replace (set_pg_frames p (pg_frames p)) with p by (by destruct p). by apply world_shrinks. }
  pose proof (world_take _ _ _ _ _ _ _ _ W E Hf) as W1.
  pose proof (world_map_kernel _ _ _ _ _ _ virt f (Z.lor PAGING_FLAG_PRESENT PAGING_FLAG_RW) W1 Hpd eq_refl) as Hs.
  destruct (paging_map_page _ _ _ _) as [ok p']. cbn [snd] in Hs. eapply shrinks_trans; [exact Hs|by intros g [? _]|destruct ok; lia].
Qed.

(** *** Changes of ownership *)

(** A table of kernel pages is nobody's. *)
Lemma shared_table K R S Q N p D j :
  world K R S Q N p -> D ∈ K :: (us_dir <$> S) -> 0 <= j < 1024 -> j <> USER_PD -> present (entry (pg_mem p) D j) = true ->
  table_of (entry (pg_mem p) D j) ∉ K :: owned R S /\ ~ fa_is_free (pg_frames p) (table_of (entry (pg_mem p) D j)).
Proof.
  intros W HD Hj Hne Hp. split; [apply (wo_off _ _ _ _ _ _ W); auto|]. by apply (dk_tables _ _ _ (wo_dirs _ _ _ _ _ _ W D HD)).
Qed.

(** A directory whose private half is in order and whose other entries are those of a
    directory [D] of before. *)
Lemma dir_ok_private K R R' S Q N p a' m' u D :
  world K R S Q N p -> D ∈ K :: (us_dir <$> S) ->
  0 < us_dir u < 4294967296 -> aligned (us_dir u) -> NoDup (us_frames u) ->
  (forall f, f ∈ us_frames u -> f ∈ R' /\ ~ fa_is_free a' f /\ aligned f /\ is_u32 f) ->
  (forall f, f ∈ R' -> f ∈ owned R S \/ fa_is_free (pg_frames p) f) ->
  (forall g, fa_is_free a' g -> fa_is_free (pg_frames p) g \/ g ∈ owned R S) ->
  private_half m' u ->
  (forall j, 0 <= j < 1024 -> j <> USER_PD -> present (entry m' (us_dir u) j) = true -> entry m' (us_dir u) j = entry (pg_mem p) D j) ->
  dir_ok a' m' (us_dir u).
Proof.
  intros W HD Hr Ha Hn Hf Hold Hfree Hp He.
  assert (Hdir : us_dir u ∈ us_frames u) by left.
  assert (Hsh : forall j, 0 <= j < 1024 -> j <> USER_PD -> present (entry m' (us_dir u) j) = true ->
    table_of (entry m' (us_dir u) j) ∉ us_frames u /\ ~ fa_is_free a' (table_of (entry m' (us_dir u) j))).
  { intros j Hj Hne Hpr. pose proof Hpr as Hpr'. rewrite He in Hpr' |- * by done.
    destruct (shared_table K R S Q N p D j) as [Hs1 Hs2]; [done..|]. split.
    - intros Hc. apply Hf in Hc as [Hc _]. apply Hold in Hc as [Hc|Hc]; [|done]. apply Hs1. by right.
    - intros Hc. apply Hfree in Hc as [Hc|Hc]; [done|]. apply Hs1. by right. }
  assert (Hpriv : present (entry m' (us_dir u) USER_PD) = true -> table_of (entry m' (us_dir u) USER_PD) ∈ us_frames u /\
    table_of (entry m' (us_dir u) USER_PD) <> us_dir u).
  { unfold private_half in Hp. destruct (us_table u) as [T|] eqn:ET; [|by destruct Hp as [-> _]]. destruct Hp as [-> _]. intros _.
    assert (HT : T ∈ us_frames u) by (unfold us_frames; rewrite ET; right; left). destruct (Hf T HT) as (_ & _ & HTa & HTu).
    destruct (make_entry T 7) as (_ & -> & _); [done|done|lia|]. split; [done|]. intros ->.
    unfold us_frames in Hn. rewrite ET in Hn. apply list.NoDup_cons in Hn as [Hn _]. apply Hn. left. }
  split; [done|done|by apply Hf| |].
  - intros j Hj Hpr. destruct (decide (j = USER_PD)) as [->|Hne].
    + destruct (Hpriv Hpr) as [HT ?]. split; [by apply Hf|done].
    + destruct (Hsh j Hj Hne Hpr) as [HT ?]. split; [done|]. intros Heq. by rewrite Heq in HT.
  - intros i j Hi Hj Hij Hpi Hpj Heq. destruct (decide (i = USER_PD)) as [->|Hni], (decide (j = USER_PD)) as [->|Hnj]; [done| | |].
    + apply (proj1 (Hsh j Hj Hnj Hpj)). rewrite <- Heq. by apply Hpriv.
    + apply (proj1 (Hsh i Hi Hni Hpi)). rewrite Heq. by apply Hpriv.
    + rewrite !He in Heq by done. revert Heq. apply (dk_inj _ _ _ (wo_dirs _ _ _ _ _ _ W D HD)); [done..| |]; [by rewrite <- (He i)|by rewrite <- (He j)].
Qed.

(** Address spaces [U] become [U'] and the frames in hand [R] become [R']: nothing else
    changes hands, and the other spaces' directories and tables stay as they are. *)
Section Update.
Context (K : Z) (R R' : list Z) (U U' S : list uspace) (Q : Z -> Prop) (N : Z) (p : paging_state A) (a' : A) (m' : mem).
Context (W : world K R (U ++ S) Q N p) (Hn : NoDup (owned R' (U' ++ S))).
Context (Hgiven : forall f, f ∈ owned R' (U' ++ S) -> fa_given a' f /\
  (f ∈ owned R (U ++ S) \/ (fa_is_free (pg_frames p) f /\ 0 < f < 4294967296 /\ aligned f))).
Context (Hfree : forall g, fa_is_free a' g -> fa_is_free (pg_frames p) g \/ g ∈ owned R (U ++ S)).
Context (Hsame : forall t j, t ∈ K :: structs S -> 0 <= j < 1024 -> entry m' t j = entry (pg_mem p) t j).
Context (HU : forall u, u ∈ U' -> private_half m' u /\
  (forall j, 0 <= j < 1024 -> j <> USER_PD -> has_flag (entry m' (us_dir u) j) PAGING_FLAG_USER = false) /\
  exists D, D ∈ K :: (us_dir <$> U) /\ forall j, 0 <= j < 1024 -> j <> USER_PD ->
    present (entry m' (us_dir u) j) = true -> entry m' (us_dir u) j = entry (pg_mem p) D j).

Lemma update_out g : g ∉ K :: owned R (U ++ S) -> ~ fa_is_free (pg_frames p) g -> g ∉ owned R' (U' ++ S) /\ ~ fa_is_free a' g.
Proof.
  intros Hg Hnf. split; intros Hc.
  - apply Hgiven in Hc as [_ [Hc|[Hc _]]]; [|done]. apply Hg. by right.
  - apply Hfree in Hc as [Hc|Hc]; [done|]. apply Hg. by right.
Qed.

Lemma update_kernel : K ∉ owned R' (U' ++ S) /\ ~ fa_is_free a' K.
Proof.
  assert (HnK : ~ fa_is_free (pg_frames p) K) by (apply (world_used _ _ _ _ _ _ _ W); left). split; intros Hc.
  - apply Hgiven in Hc as [_ [Hc|[Hc _]]]; [|done]. by apply (wo_apart _ _ _ _ _ _ W).
  - apply Hfree in Hc as [Hc|Hc]; [done|]. by apply (wo_apart _ _ _ _ _ _ W).
Qed.

Lemma update_given f : f ∈ owned R' (U' ++ S) -> fa_given a' f /\ 0 < f < 4294967296 /\ aligned f.
Proof.
  intros Hf. destruct (Hgiven f Hf) as [Hg [Ho|(_ & ? & ?)]]; [|done]. destruct (wo_given _ _ _ _ _ _ W f Ho) as (_ & ? & ?). done.
Qed.

Lemma update_private u : u ∈ U' ++ S -> private_half m' u.
Proof.
  intros [Hu|Hu]%elem_of_app; [by apply HU|].
  assert (Hp : private_half (pg_mem p) u) by (apply (wo_private _ _ _ _ _ _ W), elem_of_app; by right).
  unfold private_half in *. rewrite Hsame by (done || apply dir_struct; right; by apply list_elem_of_fmap_2).
  destruct (us_table u) as [T|] eqn:ET; [|done]. destruct Hp as [? Hp]. split; [done|]. intros j Hj. rewrite <- Hp by done.
  apply Hsame; [by apply (table_struct _ _ u)|done].
Qed.

(** Where the shared entries of a directory come from. *)
Lemma update_entries D :
  D ∈ K :: (us_dir <$> U' ++ S) -> exists D0, D0 ∈ K :: (us_dir <$> U ++ S) /\ (D = K -> D0 = K) /\
  forall j, 0 <= j < 1024 -> D = K \/ j <> USER_PD -> present (entry m' D j) = true -> entry m' D j = entry (pg_mem p) D0 j.
Proof.
  rewrite !fmap_app. intros HD. destruct (decide (D ∈ K :: (us_dir <$> S))) as [HS|HS].
  { exists D. split_and!; [|done|intros j Hj _ _; apply Hsame; [by apply dir_struct|done]].
    apply elem_of_cons in HS as [->|HS]; [left|right]. apply elem_of_app. by right. }
  assert (HK : D <> K) by (intros ->; apply HS; left).
  apply elem_of_cons in HD as [->|[HD|HD]%elem_of_app]; [done| |by exfalso; apply HS; right].
  apply list_elem_of_fmap in HD as (u & -> & Hu). destruct (HU u Hu) as (_ & _ & D0 & HD0 & He). exists D0. split_and!; [|done|].
  - apply elem_of_cons in HD0 as [->|HD0]; [left|right]. apply elem_of_app. by left.
  - intros j Hj [?|Hne]; [done|]. by apply He.
Qed.

Lemma update_kernel_dir : dir_ok a' m' K.
Proof.
  assert (HK : K ∈ K :: (us_dir <$> U ++ S)) by left. pose proof (wo_dirs _ _ _ _ _ _ W K HK) as Hd.
  assert (HeK : forall j, 0 <= j < 1024 -> entry m' K j = entry (pg_mem p) K j) by (intros j Hj; apply Hsame; [left|done]).
  split; [apply Hd|apply Hd|apply update_kernel| |].
  - intros j Hj. rewrite HeK by done. intros Hp. destruct (dk_tables _ _ _ Hd j Hj Hp) as [Hnf HneK]. split; [|done].
    apply update_out; [|done]. apply (wo_off _ _ _ _ _ _ W); auto.
  - intros i j Hi Hj. rewrite !HeK by done. by apply (dk_inj _ _ _ Hd).
Qed.

Lemma update_dirs D : D ∈ K :: (us_dir <$> U' ++ S) -> dir_ok a' m' D.
Proof.
  intros HD. destruct (update_entries D HD) as (D0 & HD0 & _ & He).
  apply elem_of_cons in HD as [->|HD]; [apply update_kernel_dir|].
  apply list_elem_of_fmap in HD as (u & -> & Hu). pose proof (frames_nodup R' _ _ Hn Hu) as Hnu.
  assert (Hfr : forall f, f ∈ us_frames u -> f ∈ owned R' (U' ++ S)) by (intros f Hf; apply owned_elem; eauto).
  destruct (update_given (us_dir u)) as (_ & Hr & Ha); [apply Hfr; left|].
  apply (dir_ok_private K R (owned R' (U' ++ S)) (U ++ S) Q N p a' m' u D0); try done.
  - intros f Hf. destruct (update_given f (Hfr f Hf)) as (Hg & ? & ?). split_and!; [by apply Hfr|by apply fa_given_used|done|unfold is_u32; lia].
  - intros f Hf. destruct (Hgiven f Hf) as [_ [?|[? _]]]; auto.
  - by apply update_private.
  - intros j Hj Hne. apply He; auto.
Qed.

Lemma world_update :
  fa_ok a' -> paging_current_dir_phys p ∈ K :: (us_dir <$> U' ++ S) ->
  (forall g, fa_is_free a' g \/ g ∈ owned R' (U' ++ S) <-> fa_is_free (pg_frames p) g \/ g ∈ owned R (U ++ S)) ->
  fa_avail a' + Z.of_nat (length (owned R' (U' ++ S))) = fa_avail (pg_frames p) + Z.of_nat (length (owned R (U ++ S))) ->
  world K R' (U' ++ S) Q N (touch p a' m').
Proof.
  intros Hok Hact Hpool Hworth.
  split; cbn [pg_mem pg_frames touch set_pg_mem set_pg_frames paging_is_enabled paging_kernel_dir_phys paging_current_dir_phys];
    [apply W|done|apply W|done|apply update_given|apply update_kernel|apply update_dirs| | | |apply update_private|done| |
     by rewrite (wo_worth _ _ _ _ _ _ W)].
  - intros D j HD Hj Hp Hor. destruct (update_entries D HD) as (D0 & HD0 & HDK & He). rewrite (He j Hj Hor Hp) in Hp |- *.
    assert (Hor0 : D0 = K \/ j <> USER_PD) by (destruct Hor; auto). pose proof (wo_off _ _ _ _ _ _ W D0 j HD0 Hj Hp Hor0) as Ho.
    destruct (update_out _ Ho) as [Hno _]; [by apply (dk_tables _ _ _ (wo_dirs _ _ _ _ _ _ W D0 HD0))|].
    intros [Hc|Hc]%elem_of_cons; [|done]. apply Ho. rewrite Hc. left.
  - intros u j [Hu|Hu]%elem_of_app Hj Hne; [by apply HU|].
    rewrite Hsame; [|apply dir_struct; right; by apply list_elem_of_fmap_2|done].
    apply (wo_plain _ _ _ _ _ _ W); [apply elem_of_app; by right|done|done].
  - rewrite Hsame by (done || left). apply W.
  - intros g. rewrite Hpool. apply W.
Qed.

End Update.

(** *** Frames in hand *)

Lemma world_grab K R S Q N p f a :
  world K R S Q N p -> fa_alloc (pg_frames p) = (f, a) -> f <> 0 -> world K (f :: R) S Q N (set_pg_frames p a).
Proof.
  intros W E Hf. pose proof (wo_alloc _ _ _ _ _ _ W) as Hok.
  destruct (fa_alloc_some _ _ _ Hok E Hf) as (Hok' & Hfree & Hr & Ha & Hiff & Hav).
  destruct (fa_alloc_given _ _ _ Hok E Hf) as [Hgf Hgiven].
  assert (Hnew : f ∉ owned R S) by (intros Hc; apply (world_used _ _ _ _ _ _ f W); [by right|done]).
  change (set_pg_frames p a) with (touch p a (pg_mem p)).
  apply (world_update K R (f :: R) [] [] S); [done| | | |done|by intros u ?%not_elem_of_nil|done|apply W| |].
  - apply list.NoDup_cons. split; [done|apply W].
  - intros g [->|Hg]%elem_of_cons; [by auto|]. split; [|by left]. apply Hgiven. by apply (wo_given _ _ _ _ _ _ W).
  - intros g Hg. apply Hiff in Hg as [? _]. by left.
  - intros g. change (owned (f :: R) ([] ++ S)) with (f :: owned R S). rewrite Hiff, elem_of_cons. cbn [app].
    destruct (decide (g = f)) as [->|]; naive_solver.
  - change (owned (f :: R) ([] ++ S)) with (f :: owned R S). rewrite length_cons_Z, Hav. cbn [app]. ring.
Qed.

Lemma world_drop K R S Q N p f :
  world K (f :: R) S Q N p -> world K R S Q N (set_pg_frames p (snd (fa_free f (pg_frames p)))).
Proof.
  intros W. pose proof (wo_alloc _ _ _ _ _ _ W) as Hok. pose proof (wo_nodup _ _ _ _ _ _ W) as Hn.
  change (owned (f :: R) S) with (f :: owned R S) in Hn. apply list.NoDup_cons in Hn as [Hnot Hn].
  destruct (wo_given _ _ _ _ _ _ W f) as (Hgf & Hr & Ha); [left|].
  assert (Hfu : 0 <= f < 4294967296) by lia. pose proof (fa_free_given _ f Hok Hfu Hgf) as Hs. destruct (fa_free f (pg_frames p)) as [ok a] eqn:E. cbn [fst snd] in *. subst ok.
  destruct (fa_free_ok _ _ _ _ Hok Hfu E) as (Hok' & _ & Ht). destruct (Ht eq_refl) as (_ & _ & _ & Hiff & Hav).
  change (set_pg_frames p a) with (touch p a (pg_mem p)).
  apply (world_update K (f :: R) R [] [] S); [done|done| | |done|by intros u ?%not_elem_of_nil|done|apply W| |].
  - intros g Hg. split; [|left; by right]. pose proof (fa_free_keeps _ f g Hok Hfu) as Hk. rewrite E in Hk. apply Hk.
    + apply (wo_given _ _ _ _ _ _ W). by right.
    + by intros ->.
  - intros g Hg. apply Hiff in Hg as [?| ->]; [by left|right; left].
  - intros g. cbn [app]. change (owned (f :: R) S) with (f :: owned R S). rewrite Hiff, elem_of_cons. tauto.
  - cbn [app]. change (owned (f :: R) S) with (f :: owned R S). rewrite length_cons_Z, Hav. ring.
Qed.

(** Writing outside the directories and page tables. *)
Lemma frame_entry t m m' j : same_frame t m m' -> 0 <= j < 1024 -> entry m' t j = entry m t j.
Proof. intros Hs Hj. unfold entry, rd32, rd16. rewrite !Hs by lia. done. Qed.

Lemma world_bytes K R S Q N p m' :
  world K R S Q N p -> (forall t, t ∈ K :: structs S -> same_frame t (pg_mem p) m') -> world K R S Q N (set_pg_mem p m').
Proof.
  intros W Hs. replace (set_pg_mem p m') with (touch p (pg_frames p) m') by (by destruct p).
  eapply world_eq; [apply (world_same K R S Q N p)|apply (wo_pool _ _ _ _ _ _ W)|apply (wo_worth _ _ _ _ _ _ W)];
    [done|apply W|done|done|]. intros t j Ht Hj. by apply frame_entry; [apply Hs|].
Qed.

Lemma world_data K R S Q N p f m' :
  world K R S Q N p -> f ∉ K :: structs S -> aligned f -> same_outside f (pg_mem p) m' -> world K R S Q N (set_pg_mem p m').
Proof.
  intros W Hf Ha Hs. apply world_bytes; [done|]. intros t Ht.
  apply (outside_other t f); [by apply (world_aligned K R S Q N p), struct_listed|done|by intros ->|done].
Qed.

Lemma hand_not_struct K R S Q N p f : world K (f :: R) S Q N p -> f ∉ K :: structs S.
Proof.
  intros W [->|Hf]%elem_of_cons; [apply (wo_apart _ _ _ _ _ _ W); left|].
  pose proof (wo_nodup _ _ _ _ _ _ W) as Hn. change (owned (f :: R) S) with (f :: owned R S) in Hn.
  apply list.NoDup_cons in Hn as [Hn _]. by apply Hn, struct_owned.
Qed.

Lemma page_owned u b f : us_page u b = Some f -> f ∈ us_frames u.
Proof. unfold us_frames. destruct b; cbn; intros ->; rewrite elem_of_cons, !elem_of_app; cbn; set_solver. Qed.

Lemma page_not_struct K R S Q N p u b f : world K R S Q N p -> u ∈ S -> us_page u b = Some f -> f ∉ K :: structs S.
Proof.
  intros W Hu Hb. pose proof (page_owned u b f Hb) as Hfu. pose proof (wo_nodup _ _ _ _ _ _ W) as Hn.
  intros [->|(v & Hfv & Hv)%list_elem_of_bind]%elem_of_cons.
  { apply (wo_apart _ _ _ _ _ _ W), owned_elem. eauto. }
  assert (u = v) as <-.
  { apply (frames_apart R S u v f Hn Hu Hv Hfu). unfold us_frames. apply elem_of_cons in Hfv as [->|Hfv]; [left|right; apply elem_of_app; by left]. }
  pose proof (frames_nodup _ _ _ Hn Hu) as Hnu. unfold us_frames in Hnu. rewrite app_comm_cons in Hnu.
  apply list.NoDup_app in Hnu as (_ & Hd & _). apply (Hd f Hfv), elem_of_app. destruct b; cbn in Hb; rewrite Hb; [left|right]; left.
Qed.

(** *** Directories *)

Lemma world_switch K R S Q N p D :
  world K R S Q N p -> D ∈ K :: (us_dir <$> S) ->
  world K R S Q N (paging_switch_directory D p) /\ paging_current_dir_phys (paging_switch_directory D p) = D.
Proof.
  intros W HD. pose proof (wo_dirs _ _ _ _ _ _ W D HD) as Hd. pose proof (dk_range _ _ _ Hd) as Hr.
  rewrite switch_dir; [|by apply (wo_enabled _ _ _ _ _ _ W)|lia|by apply (dk_aligned _ _ _ Hd)].
  split; [|done]. destruct W. by split.
Qed.

Lemma world_clone K R S Q N p f p' :
  world K R S Q N p -> paging_clone_kernel_directory p = (f, p') ->
  (f = 0 /\ p' = p) \/ (f <> 0 /\ world K R (USpace f None None None :: S) Q N p' /\ paging_current_dir_phys p' = paging_current_dir_phys p).
Proof.
  intros W. pose proof (wo_alloc _ _ _ _ _ _ W) as Hok. unfold paging_clone_kernel_directory. rewrite (wo_enabled _ _ _ _ _ _ W). cbn [negb].
  destruct (fa_alloc (pg_frames p)) as [f0 a] eqn:E. destruct (Z.eqb_spec f0 0) as [->|Hf]; intros [= <- <-].
  { left. split; [done|]. rewrite (fa_alloc_none _ _ Hok E). by destruct p. }
  right. split; [done|]. split; [|done]. destruct (fa_alloc_some _ _ _ Hok E Hf) as (Hok' & Hfree & Hr & Ha & Hiff & Hav).
  destruct (fa_alloc_given _ _ _ Hok E Hf) as [Hgf Hgiven].
  assert (HdK : dir_ok (pg_frames p) (pg_mem p) (paging_kernel_dir_phys p)) by (rewrite (wo_kernel _ _ _ _ _ _ W); apply W; left).
  destruct (clone_cases p f0 a Hok HdK E Hf) as (_ & _ & _ & Hnew & Hold). rewrite (wo_kernel _ _ _ _ _ _ W) in *.
  assert (Hused : forall t, t ∈ K :: owned R S -> t <> f0) by (intros t Ht ->; by apply (world_used _ _ _ _ _ _ _ W Ht)).
  assert (Ho : owned R ([USpace f0 None None None] ++ S) ≡ₚ f0 :: owned R S).
  { unfold owned. cbn. by rewrite Permutation_middle. }
  cbn [pg_mem set_pg_frames]. change (set_pg_mem (set_pg_frames p a) ?m) with (touch p a m).
  apply (world_update K R R [] [USpace f0 None None None] S); [done| | | | | |done| | |].
  - rewrite Ho. apply list.NoDup_cons. split; [|apply W]. intros Hc. by apply (Hused f0); [right|].
  - intros g. rewrite Ho. intros [->|Hg]%elem_of_cons; [by auto|]. split; [|by left]. apply Hgiven. by apply (wo_given _ _ _ _ _ _ W).
  - intros g Hg. apply Hiff in Hg as [? _]. by left.
  - intros t j Ht%(struct_listed K R) Hj. apply Hold; [by apply (world_aligned K R S Q N p)|by apply Hused|done].
  - intros u ->%list_elem_of_singleton. cbn [us_dir us_table us_code us_stack private_half]. split_and!; [|done|done| |].
    + rewrite Hnew by done. unfold clone_pde. pose proof (wo_clean _ _ _ _ _ _ W) as Hc. destruct (has_flag _ _) eqn:Ef; [done|].
      destruct (present (entry (pg_mem p) K USER_PD)) eqn:Ep; [|done]. specialize (Hc eq_refl). congruence.
    + intros j Hj _. rewrite Hnew by done. unfold clone_pde. destruct (has_flag (entry _ K j) _) eqn:Ef; [done|exact Ef].
    + exists K. split; [left|]. intros j Hj _. rewrite Hnew by done. unfold clone_pde. destruct (has_flag _ _); [discriminate|done].
  - pose proof (wo_active _ _ _ _ _ _ W) as Hact. apply elem_of_cons in Hact as [->|Hact]; [left|right; right; done].
  - intros g. rewrite Ho, Hiff, elem_of_cons. cbn [app]. destruct (decide (g = f0)) as [->|]; naive_solver.
  - rewrite Ho, length_cons_Z, Hav. cbn [app]. ring.
Qed.

(** *** User pages *)

Lemma frames_set_page u b f : us_page u b = None -> us_frames (set_page u b (Some f)) ≡ₚ f :: us_frames u.
Proof. unfold us_frames. destruct u as [D T c st], b; cbn; intros ->; cbn; [|destruct T, c; cbn]; solve_Permutation. Qed.

Lemma frames_set_table u T : us_table u = None -> us_frames (set_us_table u (Some T)) ≡ₚ T :: us_frames u.
Proof. unfold us_frames. destruct u as [D o c st]; cbn; intros ->; cbn. solve_Permutation. Qed.

Lemma owned_head R u S l : us_frames u ≡ₚ l -> owned R (u :: S) ≡ₚ l ++ owned R S.
Proof. intros Hl. rewrite owned_cons, Hl. unfold owned. solve_Permutation. Qed.

(** Nothing of the other spaces is [u]'s. *)
Lemma struct_apart K R u S Q N p t : world K R (u :: S) Q N p -> t ∈ K :: structs S -> t ∉ us_frames u.
Proof.
  intros W Ht Hu. pose proof (wo_nodup _ _ _ _ _ _ W) as Hn. apply elem_of_cons in Ht as [->|Ht].
  - apply (wo_apart _ _ _ _ _ _ W), owned_elem. right. exists u. split; [left|done].
  - rewrite (owned_head R u S (us_frames u)) in Hn by done. apply list.NoDup_app in Hn as (_ & Hd & _). apply (Hd t Hu). by apply struct_owned.
Qed.

(** The shared entries of [u]'s directory. *)
Lemma update_same_dir K R u u' S Q N p m' :
  world K R (u :: S) Q N p -> us_dir u' = us_dir u -> private_half m' u' ->
  (forall j, 0 <= j < 1024 -> j <> USER_PD -> entry m' (us_dir u) j = entry (pg_mem p) (us_dir u) j) ->
  forall v, v ∈ [u'] -> private_half m' v /\
    (forall j, 0 <= j < 1024 -> j <> USER_PD -> has_flag (entry m' (us_dir v) j) PAGING_FLAG_USER = false) /\
    exists D, D ∈ K :: (us_dir <$> [u]) /\ forall j, 0 <= j < 1024 -> j <> USER_PD ->
      present (entry m' (us_dir v) j) = true -> entry m' (us_dir v) j = entry (pg_mem p) D j.
Proof.
  intros W Hdir Hp He v ->%list_elem_of_singleton. rewrite Hdir. split_and!; [done| |].
  - intros j Hj Hne. rewrite He by done. apply (wo_plain _ _ _ _ _ _ W); [left|done|done].
  - exists (us_dir u). split; [right; left|]. auto.
Qed.

(** A private table and its entry in the directory. *)
Lemma private_table K R u S Q N p T :
  world K R (u :: S) Q N p -> us_table u = Some T ->
  aligned T /\ aligned (us_dir u) /\ T <> us_dir u /\ is_u32 (Z.lor T 7) /\ table_of (Z.lor T 7) = T /\ present (Z.lor T 7) = true /\
  has_flag (Z.lor T 7) PAGING_FLAG_USER = true /\
  entry (pg_mem p) (us_dir u) USER_PD = Z.lor T 7 /\ forall j, 0 <= j < 1024 -> entry (pg_mem p) T j = us_pte u j.
Proof.
  intros W HT. assert (Hu : u ∈ u :: S) by left. pose proof (wo_private _ _ _ _ _ _ W u Hu) as Hp.
  unfold private_half in Hp. rewrite HT in Hp. destruct Hp as [Hpde Hpte].
  pose proof (frames_nodup _ _ u (wo_nodup _ _ _ _ _ _ W) Hu) as Hnu. unfold us_frames in Hnu. rewrite HT in Hnu. apply list.NoDup_cons in Hnu as [Hnu _].
  destruct (wo_given _ _ _ _ _ _ W T) as (_ & HTr & HTa); [by apply (table_owned _ _ u)|].
  destruct (wo_given _ _ _ _ _ _ W (us_dir u)) as (_ & _ & HDa); [apply dir_owned; left|].
  destruct (make_entry T 7) as (Heu & Het & Heb); [done|unfold is_u32; lia|lia|].
  unfold present. rewrite has_flag_present, has_flag_user, !Heb by lia. split_and!; try done. intros ->. apply Hnu. left.
Qed.

Lemma struct_aligned K R u S Q N p t : world K R (u :: S) Q N p -> t ∈ K :: structs S -> aligned t.
Proof.
  intros W Ht. apply (world_aligned _ _ _ _ _ _ _ W), struct_listed. apply elem_of_cons in Ht as [->|Ht]; [left|right].
  unfold structs. cbn. right. apply elem_of_app. by right.
Qed.

(** Writing the private table. *)
Lemma private_write K R R' u u' S Q N p T m' :
  world K R (u :: S) Q N p -> us_table u = Some T -> us_dir u' = us_dir u -> us_table u' = Some T ->
  owned R' (u' :: S) ≡ₚ owned R (u :: S) ->
  (forall t j, aligned t -> 0 <= j < 1024 -> t <> T -> entry m' t j = entry (pg_mem p) t j) ->
  (forall j, 0 <= j < 1024 -> entry m' T j = us_pte u' j) -> world K R' (u' :: S) Q N (set_pg_mem p m').
Proof.
  intros W HT Hd' HT' Ho Hm HmT. destruct (private_table _ _ _ _ _ _ _ _ W HT) as (HTa & HDa & HTD & _ & _ & _ & _ & Hpde & _).
  assert (HDT : us_dir u <> T) by auto. replace (set_pg_mem p m') with (touch p (pg_frames p) m') by (by destruct p).
  apply (world_update K R R' [u] [u'] S Q N p); cbn [app]; [done|rewrite Ho; apply W| |by left| | |apply W| | |by rewrite Ho].
  - intros g. rewrite Ho. intros Hg. split; [by apply (wo_given _ _ _ _ _ _ W)|by left].
  - intros t j Ht Hj. pose proof (struct_apart _ _ _ _ _ _ _ _ W Ht) as Hne. pose proof (struct_aligned _ _ _ _ _ _ _ _ W Ht) as Hta.
    apply Hm; [done|done|]. intros ->. apply Hne. unfold us_frames. rewrite HT. right. left.
  - apply (update_same_dir K R u _ S Q N); [done|done| |intros j Hj Hne; apply Hm; done].
    unfold private_half. rewrite HT', Hd'. split; [by rewrite Hm|done].
  - cbn. rewrite Hd'. apply (wo_active _ _ _ _ _ _ W).
  - intros g. by rewrite Ho.
Qed.

(** A new table for user pages. *)
Lemma private_new K R u S Q N p T a :
  let m := set_entry (clear_table (pg_mem p) T) (us_dir u) USER_PD (Z.lor T 7) in
  world K R (u :: S) Q N p -> us_table u = None -> fa_alloc (pg_frames p) = (T, a) -> T <> 0 ->
  world K R (set_us_table u (Some T) :: S) Q N (touch p a m).
Proof.
  intros m W HT E HT0. pose proof (wo_alloc _ _ _ _ _ _ W) as Hok. destruct (fa_alloc_some _ _ _ Hok E HT0) as (Hok' & Hfree & HTr & HTa & Hiff & Hav).
  destruct (fa_alloc_given _ _ _ Hok E HT0) as [HgT Hgiven]. pose proof (wo_private _ _ _ _ _ _ W u ltac:(left)) as Hp.
  unfold private_half in Hp. rewrite HT in Hp. destruct Hp as (_ & Hc & Hst).
  assert (Hused : forall t, t ∈ K :: owned R (u :: S) -> t <> T) by (intros t Ht ->; by apply (world_used _ _ _ _ _ _ _ W Ht)).
  assert (HD : us_dir u ∈ K :: owned R (u :: S)) by (right; apply dir_owned; left). pose proof (world_aligned _ _ _ _ _ _ _ W HD) as HDa.
  assert (HTD : us_dir u <> T) by auto. destruct (make_entry T 7) as (Heu & _ & _); [done|unfold is_u32; lia|lia|].
  assert (Hm : forall t j, aligned t -> 0 <= j < 1024 -> t <> T -> t <> us_dir u \/ j <> USER_PD -> entry m t j = entry (pg_mem p) t j).
  { intros t j Ht Hj Hne Hor. unfold m. rewrite entry_set_ne; [by apply clear_table_ne|done|done|done|done|]. destruct Hor; auto. }
  assert (Ho : owned R ([set_us_table u (Some T)] ++ S) ≡ₚ T :: owned R ([u] ++ S)).
  { cbn [app]. by rewrite (owned_head _ _ _ _ (frames_set_table u T HT)), (owned_head R u S (us_frames u)). }
  apply (world_update K R R [u] [set_us_table u (Some T)] S Q N p); cbn [app]; [done| | | | | |done| | |].
  - rewrite Ho. apply list.NoDup_cons. split; [|apply W]. intros Hx. by apply (Hused T); [right|].
  - intros g. rewrite Ho. intros [->|Hg]%elem_of_cons; [by auto|]. split; [|by left]. apply Hgiven. by apply (wo_given _ _ _ _ _ _ W).
  - intros g Hg. apply Hiff in Hg as [? _]. by left.
  - intros t j Ht Hj. pose proof (struct_apart _ _ _ _ _ _ _ _ W Ht) as Hne. pose proof (struct_aligned _ _ _ _ _ _ _ _ W Ht) as Hta.
    apply Hm; [done|done| |left; intros ->; apply Hne; left]. apply Hused. apply elem_of_cons in Ht as [->|Ht]; [left|right].
    apply struct_owned. unfold structs. cbn. right. apply elem_of_app. by right.
  - apply (update_same_dir K R u _ S Q N); [done|done| |intros j Hj Hne; by apply Hm; auto]. split; [by apply entry_set_eq|].
    intros j Hj. unfold us_pte. cbn. rewrite Hc, Hst. unfold m. rewrite entry_set_ne; [|done|done|done|done|by left].
    rewrite clear_table_eq by done. by destruct (j =? 0), (j =? 1).
  - pose proof (wo_active _ _ _ _ _ _ W) as Hact. exact Hact.
  - intros g. rewrite Ho, Hiff, elem_of_cons. cbn [app]. destruct (decide (g = T)) as [->|]; naive_solver.
  - rewrite Ho, length_cons_Z, Hav. cbn [app]. ring.
Qed.

(** Writing a directory entry that was there. *)
Lemma rewrite_entry K R S Q N p D i v :
  world K R S Q N p -> D ∈ K :: (us_dir <$> S) -> 0 <= i < 1024 -> is_u32 v -> entry (pg_mem p) D i = v ->
  world K R S Q N (set_pg_mem p (set_entry (pg_mem p) D i v)).
Proof.
  intros W HD Hi Hv He. replace (set_pg_mem p _) with (touch p (pg_frames p) (set_entry (pg_mem p) D i v)) by (by destruct p).
  eapply world_eq; [apply (world_same K R S Q N p)|apply (wo_pool _ _ _ _ _ _ W)|apply (wo_worth _ _ _ _ _ _ W)]; [done|apply W|done|done|].
  intros t j Ht Hj. destruct (decide (t = D /\ j = i)) as [[-> ->]|Hne]; [by rewrite entry_set_eq|].
  apply entry_set_ne; [by apply (world_aligned K R S Q N p), dir_listed|by apply (world_aligned K R S Q N p), struct_listed|done|done|].
  destruct (decide (D = t)) as [->|]; [right|by left]. intros ->. by apply Hne.
Qed.

(** The last step of [paging_map_page]: the entry of the page. *)
Lemma private_map K R u S Q N p b f T :
  world K (f :: R) (u :: S) Q N p -> us_page u b = None -> us_table u = Some T ->
  world K R (set_page u b (Some f) :: S) Q N (set_pg_mem p (set_entry (pg_mem p) T (page_index b) (pte_for f USER_FLAGS))).
Proof.
  intros W Hb HT. destruct (private_table _ _ _ _ _ _ _ _ W HT) as (HTa & _ & _ & _ & _ & _ & _ & _ & Hpte).
  destruct (wo_given _ _ _ _ _ _ W f ltac:(left)) as (_ & Hfr & Hfa). pose proof (page_index_range b) as Hi.
  apply (private_write K (f :: R) R u _ S Q N p T); [done|done|by destruct b|by destruct b| | |].
  - rewrite (owned_head _ _ _ _ (frames_set_page u b f Hb)), (owned_head (f :: R) u S (us_frames u)) by done. unfold owned. solve_Permutation.
  - intros t j Ht Hj Hne. apply entry_set_ne; auto.
  - intros j Hj. rewrite us_pte_set. destruct (Z.eqb_spec j (page_index b)) as [->|Hne].
    + apply entry_set_eq, pte_for_spec; [unfold is_u32; lia|done].
    + rewrite entry_set_ne by auto. by apply Hpte.
Qed.

(** [paging_map_page] of a user page: it fails only for want of a table. *)
Lemma world_map_user K R u S Q N p b f :
  world K (f :: R) (u :: S) Q N p -> paging_current_dir_phys p = us_dir u -> us_page u b = None ->
  let '(ok, p') := paging_map_page (page_addr b) f USER_FLAGS p in
  paging_current_dir_phys p' = us_dir u /\
  if ok then exists T, world K R (set_page (set_us_table u (Some T)) b (Some f) :: S) Q N p'
  else us_table u = None /\ p' = p.
Proof.
  intros W Hact Hb. pose proof (wo_alloc _ _ _ _ _ _ W) as Hok. destruct (wo_given _ _ _ _ _ _ W f ltac:(left)) as (_ & _ & Hfa).
  assert (HD : us_dir u ∈ K :: (us_dir <$> u :: S)) by (right; left). pose proof (page_index_range b) as Hi. destruct (page_addr_index b) as [Hpd Hpt].
  rewrite map_exact; [|apply (wo_enabled _ _ _ _ _ _ W)|by destruct b|done]. cbv zeta. rewrite ensure_exact by done. cbv zeta.
  rewrite (world_active _ _ _ _ _ _ W), Hact, Hpd, Hpt. unfold table_flags.
  change (has_flag (Z.lor USER_FLAGS PAGING_FLAG_PRESENT) PAGING_FLAG_USER) with true. destruct (us_table u) as [T|] eqn:HT.
  - destruct (private_table _ _ _ _ _ _ _ _ W HT) as (HTa & HDa & HTD & Heu & Het & Hpres & _ & Hpde & Hpte).
    rewrite Hpde, Hpres. cbv iota. rewrite <- Z.lor_assoc. change (Z.lor 7 PAGING_FLAG_USER) with 7. cbn [negb pg_mem set_pg_mem].
    pose proof (rewrite_entry _ _ _ _ _ _ _ USER_PD _ W HD ltac:(done) Heu Hpde) as W1.
    destruct (private_table _ _ _ _ _ _ _ _ W1 HT) as (_ & _ & _ & _ & _ & _ & _ & Hpde1 & Hpte1). cbn [pg_mem set_pg_mem] in Hpde1, Hpte1.
    rewrite Hpde1, Het, Hpte1, us_pte_page, Hb by done. change (present (opt_pte None)) with false. cbv iota. split; [done|]. exists T.
    replace (set_us_table u (Some T)) with u by (destruct u; cbn in *; by rewrite HT). exact (private_map _ _ _ _ _ _ _ b f T W1 Hb HT).
  - pose proof (wo_private _ _ _ _ _ _ W u ltac:(left)) as Hp. unfold private_half in Hp. rewrite HT in Hp. destruct Hp as (-> & _).
    destruct (fa_alloc (pg_frames p)) as [T a] eqn:E. destruct (Z.eqb_spec T 0) as [->|HT0]; [done|]. cbv iota. cbn [negb].
    pose proof (private_new _ _ _ _ _ _ _ _ _ W HT E HT0) as W1. set (u1 := set_us_table u (Some T)) in *.
    destruct (private_table _ _ _ _ _ _ _ _ W1 eq_refl) as (HTa & _ & _ & _ & Het & _ & _ & Hpde1 & Hpte1). cbn [pg_mem touch set_pg_mem] in Hpde1, Hpte1.
    cbn [pg_mem touch set_pg_mem]. change (us_dir u1) with (us_dir u) in Hpde1. rewrite Hpde1, Het, Hpte1, us_pte_page by done.
    replace (us_page u1 b) with (@None Z) by (by destruct b). change (present (opt_pte None)) with false. cbv iota. split; [done|]. exists T.
    apply (private_map _ _ _ _ _ _ _ b f T W1); [by destruct b|done].
Qed.

(** [paging_unmap_page] of a user page puts its frame into the caller's hands. *)
Lemma world_unmap_user K R u S Q N p b :
  world K R (u :: S) Q N p -> paging_current_dir_phys p = us_dir u ->
  world K (option_list (us_page u b) ++ R) (set_page u b None :: S) Q N (snd (paging_unmap_page (page_addr b) p)) /\
  paging_current_dir_phys (snd (paging_unmap_page (page_addr b) p)) = us_dir u.
Proof.
  intros W Hact. unfold paging_unmap_page. rewrite (wo_enabled _ _ _ _ _ _ W), (world_active _ _ _ _ _ _ W), Hact.
  replace (Z.land (page_addr b) 4095 =? 0) with true by (by destruct b). cbn [negb].
  destruct (page_addr_index b) as [-> ->]. pose proof (page_index_range b) as Hi.
  fold (present (entry (pg_mem p) (us_dir u) USER_PD)). destruct (us_table u) as [T|] eqn:HT.
  2: { pose proof (wo_private _ _ _ _ _ _ W u ltac:(left)) as Hp. unfold private_half in Hp. rewrite HT in Hp. destruct Hp as (-> & Hc & Hst).
       cbn [negb snd]. replace (us_page u b) with (@None Z) by (by destruct b). replace (set_page u b None) with u; [done|].
       destruct u, b; cbn in *; congruence. }
  destruct (private_table _ _ _ _ _ _ _ _ W HT) as (HTa & _ & _ & _ & Het & Hpres & _ & Hpde & Hpte). rewrite Hpde, Hpres, Het. cbn [negb].
  fold (present (entry (pg_mem p) T (page_index b))). rewrite Hpte, us_pte_page by done. destruct (us_page u b) as [f|] eqn:Hb.
  - assert (Hfo : f ∈ owned R (u :: S)) by (apply owned_elem; right; exists u; split; [left|by apply (page_owned u b)]).
    destruct (wo_given _ _ _ _ _ _ W f Hfo) as (_ & Hfr & Hfa). cbn [opt_pte].
    destruct (pte_for_spec f USER_FLAGS) as (_ & -> & _); [unfold is_u32; lia|done|]. cbn [negb snd]. split; [|done].
    apply (private_write K R _ u _ S Q N p T); [done|done|by destruct b|by destruct b| | |].
    + rewrite (owned_head R u S (f :: us_frames (set_page u b None))), (owned_head _ (set_page u b None) S _ (reflexivity _)).
      * cbn [option_list option_rect app]. unfold owned. solve_Permutation.
      * rewrite <- (frames_set_page _ b f) by (by destruct b). destruct u, b; cbn in *; by subst.
    + intros t j Ht Hj Hne. apply entry_set_ne; auto.
    + intros j Hj. rewrite us_pte_set. destruct (Z.eqb_spec j (page_index b)) as [->|Hne]; [by apply entry_set_eq|].
      rewrite entry_set_ne by auto. by apply Hpte.
  - change (present (opt_pte None)) with false. cbn [negb snd]. replace (set_page u b None) with u; [done|]. destruct u, b; cbn in *; congruence.
Qed.

(** Taking an empty table out of the directory. *)
Lemma private_unhook K R u S Q N p T :
  world K R (u :: S) Q N p -> us_table u = Some T -> us_code u = None -> us_stack u = None ->
  world K (T :: R) (set_us_table u None :: S) Q N (set_pg_mem p (set_entry (pg_mem p) (us_dir u) USER_PD 0)).
Proof.
  intros W HT Hc Hst. destruct (private_table _ _ _ _ _ _ _ _ W HT) as (HTa & HDa & HTD & _).
  assert (Ho : owned (T :: R) ([set_us_table u None] ++ S) ≡ₚ owned R ([u] ++ S)).
  { cbn [app]. rewrite (owned_head R u S (T :: us_frames (set_us_table u None))), (owned_head _ (set_us_table u None) S _ (reflexivity _)).
    - unfold owned. solve_Permutation.
    - rewrite <- (frames_set_table (set_us_table u None) T) by done. destruct u; cbn in *; by subst. }
  set (m := set_entry _ _ _ _). replace (set_pg_mem p m) with (touch p (pg_frames p) m) by (by destruct p).
  assert (Hm : forall t j, aligned t -> 0 <= j < 1024 -> t <> us_dir u \/ j <> USER_PD -> entry m t j = entry (pg_mem p) t j).
  { intros t j Ht Hj Hor. apply entry_set_ne; [done|done|done|done|]. destruct Hor; auto. }
  apply (world_update K R (T :: R) [u] [set_us_table u None] S Q N p); [done|rewrite Ho; apply W| |by left| | |apply W|apply W| |by rewrite Ho].
  - intros g. rewrite Ho. intros Hg. split; [by apply (wo_given _ _ _ _ _ _ W)|by left].
  - intros t j Ht Hj. pose proof (struct_apart _ _ _ _ _ _ _ _ W Ht) as Hne. pose proof (struct_aligned _ _ _ _ _ _ _ _ W Ht) as Hta.
    apply Hm; [done|done|]. left. intros ->. apply Hne. left.
  - apply (update_same_dir K R u _ S Q N); [done|done| |intros j Hj Hne; apply Hm; auto].
    split_and!; [|done|done]. unfold m. cbn [us_dir set_us_table]. by rewrite entry_set_eq.
  - intros g. by rewrite Ho.
Qed.

(** An address space without pages and table is one frame. *)
Lemma world_dismiss K R u S Q N p :
  world K R (u :: S) Q N p -> us_table u = None -> paging_current_dir_phys p <> us_dir u -> world K (us_dir u :: R) S Q N p.
Proof.
  intros W HT Hact. pose proof (wo_private _ _ _ _ _ _ W u ltac:(left)) as Hp. unfold private_half in Hp. rewrite HT in Hp. destruct Hp as (_ & Hc & Hst).
  assert (Ho : owned (us_dir u :: R) ([] ++ S) ≡ₚ owned R ([u] ++ S)).
  { cbn [app]. rewrite (owned_head R u S [us_dir u]); [done|]. unfold us_frames. by rewrite HT, Hc, Hst. }
  replace p with (touch p (pg_frames p) (pg_mem p)) at 1 by (by destruct p).
  apply (world_update K R (us_dir u :: R) [u] [] S Q N p); [done|rewrite Ho; apply W| |by left|done|by intros v ?%not_elem_of_nil|apply W| | |by rewrite Ho].
  - intros g. rewrite Ho. intros Hg. split; [by apply (wo_given _ _ _ _ _ _ W)|by left].
  - pose proof (wo_active _ _ _ _ _ _ W) as Ha. apply elem_of_cons in Ha as [->|Ha]; [left|]. cbn in Ha. apply elem_of_cons in Ha as [Ha|Ha]; [done|by right].
  - intros g. by rewrite Ho.
Qed.

(** *** User pages *)

(** The table of a space that has pages, and what it holds. *)
Lemma page_has_table K R u S Q N p b f : world K R (u :: S) Q N p -> us_page u b = Some f -> exists T, us_table u = Some T.
Proof.
  intros W Hb. destruct (us_table u) as [T|] eqn:HT; [by exists T|]. exfalso.
  pose proof (wo_private _ _ _ _ _ _ W u ltac:(left)) as Hp. unfold private_half in Hp. rewrite HT in Hp.
  destruct Hp as (_ & ? & ?). destruct b; cbn in Hb; congruence.
Qed.

Lemma page_of_index v b :
  is_u32 v -> page_of v = page_of (page_addr b) <-> pd_index_of v = USER_PD /\ pt_index_of v = page_index b.
Proof. intros Hv. rewrite same_page by (done || apply page_addr_u32). by destruct (page_addr_index b) as [-> ->]. Qed.

(** Each page is mapped to its frame, with the rights of user code. *)
Lemma world_lookup K R u S Q N p b f v :
  world K R (u :: S) Q N p -> us_page u b = Some f -> is_u32 v -> page_of v = page_of (page_addr b) ->
  lookup_page (pg_mem p) (us_dir u) v = Some (pte_for f USER_FLAGS) /\ user_page (pg_mem p) (us_dir u) v.
Proof.
  intros W Hb Hv Hpg. destruct (page_has_table _ _ _ _ _ _ _ _ _ W Hb) as [T HT].
  destruct (private_table _ _ _ _ _ _ _ _ W HT) as (_ & _ & _ & _ & Het & Hpres & Husr & Hpde & Hpte).
  destruct (wo_given _ _ _ _ _ _ W f) as (_ & Hfr & Hfa); [apply owned_elem; right; exists u; split; [left|by apply (page_owned u b)]|].
  apply page_of_index in Hpg as [Hpd Hpt]; [|done].
  assert (Hl : lookup_page (pg_mem p) (us_dir u) v = Some (pte_for f USER_FLAGS)).
  { unfold lookup_page. rewrite Hpd, Hpt, Hpde, Het, Hpte, us_pte_page, Hb by apply page_index_range.
    destruct (pte_for_spec f USER_FLAGS) as (_ & Hpf & _); [unfold is_u32; lia|done|]. unfold present in Hpres, Hpf. rewrite Hpres. cbn [opt_pte]. by rewrite Hpf. }
  split; [done|]. apply (lookup_user_page _ _ _ f); [|done|unfold is_u32; lia|done]. rewrite Hpd, Hpde. apply user_flags_spec.
  unfold present in Hpres. by rewrite <- has_flag_present, <- has_flag_user.
Qed.

(** User code reaches the pages of its space, and no other. *)
Lemma world_user_page K R u S Q N p v :
  world K R (u :: S) Q N p -> is_u32 v ->
  user_page (pg_mem p) (us_dir u) v <-> exists b f, page_of v = page_of (page_addr b) /\ us_page u b = Some f.
Proof.
  intros W Hv. split; [|intros (b & f & Hp & Hb); by apply (world_lookup K R u S Q N p b f v)].
  intros [Hd Ht]. apply user_flags_spec in Hd as [Hd0 Hd2]. pose proof (pd_index_range v) as Hr. pose proof (pt_index_range v) as Hr'.
  destruct (decide (pd_index_of v = USER_PD)) as [Hpd|Hne].
  2: { pose proof (wo_plain _ _ _ _ _ _ W u (pd_index_of v) ltac:(left) Hr Hne) as Hp. rewrite has_flag_user in Hp. congruence. }
  rewrite Hpd in *. destruct (us_table u) as [T|] eqn:HT.
  2: { pose proof (wo_private _ _ _ _ _ _ W u ltac:(left)) as Hp. unfold private_half in Hp. rewrite HT in Hp. destruct Hp as (Hp & _).
       unfold present in Hp. rewrite has_flag_present in Hp. congruence. }
  destruct (private_table _ _ _ _ _ _ _ _ W HT) as (_ & _ & _ & _ & Het & _ & _ & Hpde & Hpte). rewrite Hpde, Het, Hpte in Ht by done.
  assert (Hex : exists b f, pt_index_of v = page_index b /\ us_page u b = Some f).
  { unfold us_pte in Ht. destruct (Z.eqb_spec (pt_index_of v) 0) as [Hj|_].
    - exists CodePage. cbn [us_page page_index]. destruct (us_code u) as [f|]; [by exists f|done].
    - destruct (Z.eqb_spec (pt_index_of v) 1) as [Hj|_]; [|done]. exists StackPage. cbn [us_page page_index].
      destruct (us_stack u) as [f|]; [by exists f|done]. }
  destruct Hex as (b & f & Hj & Hb). exists b, f. split; [|done]. by apply page_of_index.
Qed.

(** The frames behind user pages are no page tables. *)
Lemma page_not_table K R S Q N p u b f D j :
  world K R S Q N p -> u ∈ S -> us_page u b = Some f -> D ∈ K :: (us_dir <$> S) -> 0 <= j < 1024 ->
  present (entry (pg_mem p) D j) = true -> table_of (entry (pg_mem p) D j) <> f.
Proof.
  intros W Hu Hb HD Hj Hpres Hf. destruct (decide (D = K \/ j <> USER_PD)) as [Hoff|Hpriv].
  - apply (wo_off _ _ _ _ _ _ W D j HD Hj Hpres Hoff). rewrite Hf. right. apply owned_elem. right.
    exists u. split; [done|by apply (page_owned u b)].
  - assert (j = USER_PD) as -> by (destruct (decide (j = USER_PD)); [done|exfalso; auto]).
    apply elem_of_cons in HD as [->|HD]; [exfalso; auto|]. apply list_elem_of_fmap in HD as (w & -> & Hw).
    pose proof (wo_private _ _ _ _ _ _ W w Hw) as Hp. unfold private_half in Hp.
    destruct (us_table w) as [T|] eqn:HT; [|destruct Hp as [Hp _]; congruence]. destruct Hp as [Hp _]. rewrite Hp in Hf.
    destruct (wo_given _ _ _ _ _ _ W T) as (_ & HTr & HTa); [by apply (table_owned _ _ w)|].
    destruct (make_entry T 7) as (_ & Het & _); [done|unfold is_u32; lia|lia|]. rewrite Het in Hf. subst f.
    apply (page_not_struct _ _ _ _ _ _ u b T W Hu Hb). right. apply list_elem_of_bind. exists w. split; [|done]. rewrite HT. right. left.
Qed.

End World.
