(* ===== verification/Tlb.v ===== *)
(** The translation buffer of the processor and the instructions that keep it in step
    with the page tables: [invlpg] in [paging_map_page] and [paging_unmap_page], the
    write to cr3 in [paging_switch_directory].

    The processor may remember any translation it has found in the active page tables
    for as long as it is not told otherwise. The theorem is that it never uses one that
    the tables no longer have. *)
From Stdlib Require Import ZArith Lia Bool List.
From stdpp Require Import base gmap list numbers option relations.
From S2P Require Import Prelude CStr Interfaces Paging Reserve Kheap Scheduler Ipc Vfs Loader Process Space World.
#[local] Open Scope Z_scope.

(** ** Data *)

(** What is remembered of a page: its page-table entry, and whether user code may use
    it, by the entries of both levels. *)
#[local] Notation tlb := (gmap Z (Z * bool)).

Section Tlb.
Context {A : Type} `{FrameAllocator A}.
Implicit Types (p : paging_state A).

Record cpu := Cpu { cpu_pages : paging_state A; cpu_tlb : tlb }.
Implicit Types (c : cpu).

(** ** The processor *)

Definition user_allowed_page (m : mem) (D v : Z) : bool :=
  user_flags_ok (entry m D (pd_index_of v)) && user_flags_ok (entry m (table_of (entry m D (pd_index_of v))) (pt_index_of v)).

Definition walk (v : Z) p : option (Z * bool) :=
  (fun pte => (pte, user_allowed_page (pg_mem p) (paging_active_directory p) v)) <$> lookup_page (pg_mem p) (paging_active_directory p) v.

(** The processor may walk the tables at any time and remember what it finds. *)
Definition tlb_fill (v : Z) c : cpu :=
  match walk v (cpu_pages c) with
  | Some e => Cpu (cpu_pages c) (<[page_of v := e]> (cpu_tlb c))
  | None => c
  end.

(** An access of kernel or of user code: the physical address, or a page fault. *)
Definition cpu_access (user : bool) (v : Z) c : option Z :=
  match (match cpu_tlb c !! page_of v with Some e => Some e | None => walk v (cpu_pages c) end) with
  | Some (pte, u) => if user && negb u then None else Some (table_of pte + v `mod` 4096)
  | None => None
  end.

(** ** The operations of paging.c *)

Definition paging_invalidate (virt : Z) (t : tlb) : tlb := delete (page_of virt) t.

Definition cpu_map_page (virt phys flags : Z) c : bool * cpu :=
  let '(ok, p) := paging_map_page virt phys flags (cpu_pages c) in
  (ok, Cpu p (if ok then paging_invalidate virt (cpu_tlb c) else cpu_tlb c)).

Definition cpu_unmap_page (virt : Z) c : bool * cpu :=
  let '(ok, p) := paging_unmap_page virt (cpu_pages c) in
  (ok, Cpu p (if ok then paging_invalidate virt (cpu_tlb c) else cpu_tlb c)).

(** [mov cr3] empties the buffer; the tests before it leave it alone. *)
Definition cpu_switch_directory (D : Z) c : cpu :=
  if negb (paging_is_enabled (cpu_pages c)) || (D =? 0) then c else
  if negb (Z.land D 4095 =? 0) then c else
  Cpu (paging_switch_directory D (cpu_pages c)) ∅.

Definition cpu_clone_directory c : Z * cpu :=
  let '(D, p) := paging_clone_kernel_directory (cpu_pages c) in (D, Cpu p (cpu_tlb c)).

(** What happens to the directory [D] and the tables under it when anything else is
    written: nothing. *)
Definition same_tables (D : Z) (m m' : mem) : Prop :=
  (forall i, 0 <= i < 1024 -> entry m' D i = entry m D i) /\
  forall i j, 0 <= i < 1024 -> 0 <= j < 1024 -> present (entry m D i) = true ->
    entry m' (table_of (entry m D i)) j = entry m (table_of (entry m D i)) j.

End Tlb.
Arguments cpu A : clear implicits.
Arguments Cpu {A}.
Arguments cpu_pages {A}.
Arguments cpu_tlb {A}.

(** ** Steps *)

Section Steps.
Context {A : Type} `{FrameAllocatorOk A}.
Implicit Types (p : paging_state A) (c : cpu A).

Inductive cpu_step c : cpu A -> Prop :=
| CFill v : is_u32 v -> cpu_step c (tlb_fill v c)
| CMap virt phys flags : is_u32 virt -> is_u32 phys -> cpu_step c (snd (cpu_map_page virt phys flags c))
| CUnmap virt : is_u32 virt -> cpu_step c (snd (cpu_unmap_page virt c))
| CSwitch D : dir_ok (pg_frames (cpu_pages c)) (pg_mem (cpu_pages c)) D -> cpu_step c (cpu_switch_directory D c)
| CClone : dir_ok (pg_frames (cpu_pages c)) (pg_mem (cpu_pages c)) (paging_kernel_dir_phys (cpu_pages c)) ->
    cpu_step c (snd (cpu_clone_directory c))
| CFrames a : fa_ok a -> dir_ok a (pg_mem (cpu_pages c)) (paging_active_directory (cpu_pages c)) ->
    cpu_step c (Cpu (set_pg_frames (cpu_pages c) a) (cpu_tlb c))
| CWrite m : same_tables (paging_active_directory (cpu_pages c)) (pg_mem (cpu_pages c)) m ->
    cpu_step c (Cpu (set_pg_mem (cpu_pages c) m) (cpu_tlb c)).

(** Everything remembered is still in the tables. *)
Record coherent c : Prop := {
  co_pages : paging_ok (cpu_pages c);
  co_entry : forall v pte u, is_u32 v -> cpu_tlb c !! page_of v = Some (pte, u) ->
    lookup_page (pg_mem (cpu_pages c)) (paging_active_directory (cpu_pages c)) v = Some pte /\
    (u = true -> user_page (pg_mem (cpu_pages c)) (paging_active_directory (cpu_pages c)) v);
}.

Lemma allowed_user m D v : user_allowed_page m D v = true <-> user_page m D v.
Proof. unfold user_allowed_page, user_page. by rewrite andb_true_iff. Qed.

Lemma walk_spec v p pte u :
  walk v p = Some (pte, u) ->
  lookup_page (pg_mem p) (paging_active_directory p) v = Some pte /\ (u = true -> user_page (pg_mem p) (paging_active_directory p) v).
Proof.
  unfold walk. destruct (lookup_page _ _ v); [|done]. cbn. intros [= <- <-]. split; [done|]. by intros ?%allowed_user.
Qed.

(** Two tables that agree on the entries of [v]. *)
Lemma user_page_entries m m' D v :
  (user_flags_ok (entry m D (pd_index_of v)) = true -> user_flags_ok (entry m' D (pd_index_of v)) = true /\
     table_of (entry m' D (pd_index_of v)) = table_of (entry m D (pd_index_of v)) /\
     entry m' (table_of (entry m D (pd_index_of v))) (pt_index_of v) = entry m (table_of (entry m D (pd_index_of v))) (pt_index_of v)) ->
  user_page m D v -> user_page m' D v.
Proof. intros Hs [Hd Ht]. destruct (Hs Hd) as (Hd' & HT & He). split; [done|]. by rewrite HT, He. Qed.

Lemma same_tables_lookup D m m' v : same_tables D m m' -> lookup_page m' D v = lookup_page m D v.
Proof.
  intros [HD HT]. pose proof (pd_index_range v). pose proof (pt_index_range v).
  apply lookup_page_same; rewrite ?HD by done; [done|done|]. intros Hp. by apply HT.
Qed.

Lemma flags_present_user e : user_flags_ok e = true -> present e = true.
Proof. intros [H0' _]%user_flags_spec. unfold present. by rewrite has_flag_present. Qed.

Lemma same_tables_user D m m' v : same_tables D m m' -> user_page m D v -> user_page m' D v.
Proof.
  intros [HD HT]. pose proof (pd_index_range v). pose proof (pt_index_range v). apply user_page_entries. rewrite HD by done.
  intros Hu. split_and!; [done|done|]. apply HT; [done|done|]. by apply flags_present_user.
Qed.

(** Keeping the buffer, or taking an entry out, while the tables change elsewhere. *)
Lemma coherent_change c p t :
  coherent c -> paging_ok p ->
  (forall v e, is_u32 v -> t !! page_of v = Some e -> cpu_tlb c !! page_of v = Some e /\
     lookup_page (pg_mem p) (paging_active_directory p) v = lookup_page (pg_mem (cpu_pages c)) (paging_active_directory (cpu_pages c)) v /\
     (user_page (pg_mem (cpu_pages c)) (paging_active_directory (cpu_pages c)) v -> user_page (pg_mem p) (paging_active_directory p) v)) ->
  coherent (Cpu p t).
Proof.
  intros [_ Hc] Hok Ht. split; [done|]. cbn [cpu_pages cpu_tlb]. intros v pte u Hv He. destruct (Ht v (pte, u) Hv He) as (Hct & Hl & Hu).
  destruct (Hc v pte u Hv Hct) as [Hlk Hus]. rewrite Hl. auto.
Qed.

(** *** Mapping *)

Lemma ensure_keeps_user p D i fl w :
  fa_ok (pg_frames p) -> dir_ok (pg_frames p) (pg_mem p) D -> 0 <= i < 1024 ->
  user_page (pg_mem p) D w -> user_page (pg_mem (snd (ensure_table D i fl p))) D w.
Proof.
  intros Hok Hd Hi Hu. pose proof (pd_index_range w) as Hw. pose proof (pt_index_range w) as Hw'. pose proof (dk_aligned _ _ _ Hd) as HDa.
  rewrite ensure_exact by done. cbv zeta. pose proof (flags_present_user _ (proj1 Hu)) as Hpw.
  pose proof (table_aligned (pg_mem p) D (pd_index_of w)) as HTa. destruct (dk_tables _ _ _ Hd _ Hw Hpw) as [HTf HTD].
  destruct (present (entry (pg_mem p) D i)) eqn:Hp; cbn [snd].
  - destruct (has_flag fl PAGING_FLAG_USER); [|done]. cbn [pg_mem set_pg_mem]. revert Hu. apply user_page_entries. intros Hfl.
    rewrite (entry_set_ne _ D i _ (table_of (entry (pg_mem p) D (pd_index_of w)))) by (done || left; congruence).
    destruct (decide (i = pd_index_of w)) as [->|Hne]; [|rewrite entry_set_ne by (done || by right); done].
    rewrite entry_set_eq by (apply lor_u32; [apply entry_range|done]). rewrite table_of_lor_user. split_and!; [|done|done].
    apply user_flags_spec in Hfl as [Hb0 Hb2]. apply user_flags_spec. by rewrite !Z.lor_spec, Hb0, Hb2.
  - assert (Hne : i <> pd_index_of w) by congruence.
    destruct (fa_alloc (pg_frames p)) as [f a] eqn:E. destruct (Z.eqb_spec f 0) as [|Hf]; [done|]. cbn [snd pg_mem touch set_pg_mem].
    destruct (fa_alloc_some _ _ _ Hok E Hf) as (_ & Hfree & _ & Hfa & _).
    assert (HDf : f <> D) by (intros ->; by apply (dk_own _ _ _ Hd)). assert (HTf' : f <> table_of (entry (pg_mem p) D (pd_index_of w))) by (by intros ->).
    revert Hu. apply user_page_entries. intros Hfl. rewrite !entry_set_ne by (done || (by right) || left; congruence).
    rewrite !clear_table_ne by done. done.
Qed.

(** Writing the entry of one page keeps the others. *)
Lemma pte_user (a : A) m D virt e w :
  dir_ok a m D -> present (entry m D (pd_index_of virt)) = true -> is_u32 virt -> is_u32 w -> page_of w <> page_of virt ->
  user_page m D w -> user_page (set_entry m (table_of (entry m D (pd_index_of virt))) (pt_index_of virt) e) D w.
Proof.
  intros Hd Hp Hv Hw Hne. pose proof (pd_index_range virt) as Hi. pose proof (pd_index_range w) as Hwr.
  apply user_page_entries. intros Hfl. destruct (dk_tables _ _ _ Hd _ Hi Hp) as [_ HTD]. pose proof (dk_aligned _ _ _ Hd) as HDa.
  pose proof (table_aligned m D (pd_index_of virt)) as HTa. pose proof (table_aligned m D (pd_index_of w)) as HTa'.
  rewrite !(entry_set_ne _ _ (pt_index_of virt) _ D) by (done || apply pt_index_range || by left). split_and!; [done|done|].
  apply entry_set_ne; [done|done|apply pt_index_range|apply pt_index_range|].
  destruct (decide (pd_index_of w = pd_index_of virt)) as [Heq|Hpd].
  - right. intros Hpt. apply Hne. apply same_page; [done|done|]. by rewrite Hpt.
  - left. apply (dk_inj _ _ _ Hd); [done|done|congruence|done|]. by apply flags_present_user.
Qed.

(** A mapping that is made leaves the other pages alone, one that fails all pages. *)
Lemma map_keeps_user p virt phys flags w :
  paging_ok p -> is_u32 virt -> is_u32 w -> let '(ok, p') := paging_map_page virt phys flags p in
  (ok = true -> page_of w <> page_of virt) ->
  user_page (pg_mem p) (paging_active_directory p) w -> user_page (pg_mem p') (paging_active_directory p) w.
Proof.
  intros [Hen Hok Hd] Hv Hw. unfold paging_map_page. rewrite Hen. cbn [negb]. destruct (_ || _); [done|]. rewrite flags_present.
  set (D := paging_active_directory p) in *. set (fl := Z.lor flags PAGING_FLAG_PRESENT). pose proof (pd_index_range virt) as Hi.
  pose proof (ensure_keeps_user p D (pd_index_of virt) fl w Hok Hd Hi) as He.
  destruct (ensure_table_spec p D (pd_index_of virt) fl Hok Hd Hi) as (ok & a & m & E & _ & Hd1 & _ & Hp1 & _). rewrite E in *. cbn [snd pg_mem touch set_pg_mem] in He |- *.
  destruct ok; cbn [negb]; [|auto]. specialize (Hp1 eq_refl). destruct (has_flag (entry m _ (pt_index_of virt)) _); [auto|].
  intros Hne Hu. cbn [pg_mem set_pg_mem]. by apply (pte_user a m D virt); auto.
Qed.

Lemma invalidate_lookup virt (t : tlb) v e : paging_invalidate virt t !! page_of v = Some e -> page_of v <> page_of virt /\ t !! page_of v = Some e.
Proof. unfold paging_invalidate. intros [Hne Ht]%lookup_delete_Some. split; [by apply not_eq_sym|done]. Qed.

Lemma map_coherent virt phys flags c : coherent c -> is_u32 virt -> is_u32 phys -> coherent (snd (cpu_map_page virt phys flags c)).
Proof.
  intros Hc Hv Hph. pose proof (co_pages c Hc) as Hok. unfold cpu_map_page.
  pose proof (fun w Hw => map_keeps_user (cpu_pages c) virt phys flags w Hok Hv Hw) as Hu.
  destruct (map_page_cases (cpu_pages c) virt phys flags) as (ok & a & m & E & Hok' & Hd' & _ & Hl & _); [apply Hok..|done|done|].
  rewrite E in *. cbn [snd]. apply (coherent_change c); [done|by split; [apply Hok| |]|]. intros v e Hvu He.
  change (paging_active_directory (touch (cpu_pages c) a m)) with (paging_active_directory (cpu_pages c)). cbn [pg_mem touch set_pg_mem] in *.
  assert (Hboth : (ok = true -> page_of v <> page_of virt) /\ cpu_tlb c !! page_of v = Some e).
  { destruct ok; [|by split]. apply invalidate_lookup in He as [Hne He]. by split. }
  destruct Hboth as [Hne Het]. split; [done|]. split; [|intros Hup; by apply (Hu v Hvu Hne)]. rewrite Hl by done.
  destruct ok; [|done]. cbn [andb]. by rewrite (proj2 (Z.eqb_neq _ _)) by auto.
Qed.

(** *** Unmapping *)

Lemma unmap_keeps_user p virt w :
  paging_ok p -> is_u32 virt -> is_u32 w -> page_of w <> page_of virt ->
  user_page (pg_mem p) (paging_active_directory p) w -> user_page (pg_mem (snd (paging_unmap_page virt p))) (paging_active_directory p) w.
Proof.
  intros [Hen Hok Hd] Hv Hw Hne. unfold paging_unmap_page. rewrite Hen. cbn [negb]. destruct (negb (Z.land virt 4095 =? 0)); [done|].
  set (D := paging_active_directory p) in *. pose proof (pd_index_range virt) as Hi. pose proof (pd_index_range w) as Hwr.
  destruct (has_flag (entry (pg_mem p) D (pd_index_of virt)) PAGING_FLAG_PRESENT) eqn:Hp; cbn [negb]; [|done].
  destruct (has_flag (entry (pg_mem p) _ (pt_index_of virt)) _); cbn [negb]; [|done]. cbn [snd pg_mem set_pg_mem].
  by apply (pte_user (pg_frames p) (pg_mem p) D virt).
Qed.

Lemma unmap_coherent virt c : coherent c -> is_u32 virt -> coherent (snd (cpu_unmap_page virt c)).
Proof.
  intros Hc Hv. pose proof (co_pages c Hc) as Hok. unfold cpu_unmap_page.
  pose proof (fun w Hw => unmap_keeps_user (cpu_pages c) virt w Hok Hv Hw) as Hu.
  destruct (unmap_page_cases (cpu_pages c) virt) as (ok & m & E & Hd' & _ & Hl); [apply Hok|apply Hok|done|].
  assert (Hsame : ok = false -> m = pg_mem (cpu_pages c)).
  { intros ->. revert E. unfold paging_unmap_page. repeat case_match; intros Eq; first [by apply (f_equal fst) in Eq|by apply (f_equal (fun x => pg_mem (snd x))) in Eq]. }
  rewrite E in *. cbn [snd]. apply (coherent_change c); [done|split; [apply Hok|apply Hok|exact Hd']|]. intros v e Hvu He.
  change (paging_active_directory (set_pg_mem (cpu_pages c) m)) with (paging_active_directory (cpu_pages c)). cbn [pg_mem set_pg_mem snd] in *.
  destruct ok; [|by rewrite Hsame]. apply invalidate_lookup in He as [Hne He]. split; [done|]. split; [|intros Hup; by apply (Hu v Hvu Hne)].
  rewrite Hl by done. cbn [andb]. by rewrite (proj2 (Z.eqb_neq _ _)).
Qed.

(** *** Every step *)

Lemma clone_tables p D p' :
  paging_ok p -> dir_ok (pg_frames p) (pg_mem p) (paging_kernel_dir_phys p) -> paging_clone_kernel_directory p = (D, p') ->
  paging_ok p' /\ paging_active_directory p' = paging_active_directory p /\ same_tables (paging_active_directory p) (pg_mem p) (pg_mem p').
Proof.
  intros [Hen Hok Hd] HdK. unfold paging_clone_kernel_directory. rewrite Hen. cbn [negb].
  destruct (fa_alloc (pg_frames p)) as [f a] eqn:E. destruct (Z.eqb_spec f 0) as [->|Hf]; intros [= <- <-].
  { rewrite (fa_alloc_none _ _ Hok E). replace (set_pg_frames p (pg_frames p)) with p by (by destruct p). split_and!; [by split|done|by split]. }
  destruct (clone_cases p f a Hok HdK E Hf) as (Hok' & _ & Hfree & _ & Hold). destruct (fa_alloc_some _ _ _ Hok E Hf) as (_ & _ & _ & _ & Hiff & _).
  cbn [pg_mem set_pg_frames paging_kernel_dir_phys]. revert Hold. generalize (clone_entries (pg_mem p) f (paging_kernel_dir_phys p)). intros m Hold.
  assert (HD : forall i, 0 <= i < 1024 -> entry m (paging_active_directory p) i = entry (pg_mem p) (paging_active_directory p) i).
  { intros i Hi. apply Hold; [apply Hd| |done]. intros Heq. apply (dk_own _ _ _ Hd). by rewrite Heq. }
  split_and!; [|done|split; [done|]].
  - split; [done|exact Hok'|]. apply (dir_ok_mono _ _ _ _ _ Hd); [intros g Hg; by apply Hiff in Hg as [? _]|]. intros i Hi. cbn [pg_mem set_pg_mem]. by rewrite HD.
  - intros i j Hi Hj Hp. cbn [pg_mem set_pg_mem]. apply Hold; [apply table_aligned| |done]. intros Heq. destruct (dk_tables _ _ _ Hd i Hi Hp) as [Hnf _].
    by rewrite Heq in Hnf.
Qed.

Lemma write_coherent p p' t :
  coherent (Cpu p t) -> same_tables (paging_active_directory p) (pg_mem p) (pg_mem p') ->
  paging_active_directory p' = paging_active_directory p -> paging_ok p' -> coherent (Cpu p' t).
Proof.
  intros Hc Hs Ha Hok. apply (coherent_change (Cpu p t)); [done|done|]. intros v e Hv He. cbn [cpu_pages cpu_tlb] in *. rewrite Ha.
  split; [done|]. split; [by apply same_tables_lookup|by apply same_tables_user].
Qed.

Lemma step_coherent c c' : cpu_step c c' -> coherent c -> coherent c'.
Proof.
  intros Hstep Hc. pose proof (co_pages c Hc) as Hok. destruct Hstep as [v Hv|virt phys flags Hv Hp|virt Hv|D HD|HK|a Ha Hd|m Hm].
  - unfold tlb_fill. destruct (walk v (cpu_pages c)) as [[pte u]|] eqn:E; [|done]. split; [done|]. cbn [cpu_pages cpu_tlb]. intros w x b Hw.
    destruct (decide (page_of v = page_of w)) as [Heq|Hne].
    + rewrite Heq, lookup_insert_eq. intros [= <- <-]. apply walk_spec in E as [Hl Hu].
      rewrite (lookup_same_page _ _ v w) by done. split; [done|]. intros Hb. apply (user_page_same _ _ v w); auto.
    + rewrite lookup_insert_ne by done. by apply Hc.
  - by apply map_coherent.
  - by apply unmap_coherent.
  - unfold cpu_switch_directory. rewrite (pk_enabled _ Hok), offset_mask. pose proof (dk_range _ _ _ HD). pose proof (dk_aligned _ _ _ HD) as HDa.
    unfold aligned in HDa. rewrite HDa, (proj2 (Z.eqb_neq D 0)) by lia. cbn [negb orb Z.eqb]. rewrite (switch_dir _ _ (pk_enabled _ Hok)) by (lia || done).
    split; [|intros w x b Hw Ht; cbn [cpu_tlb] in Ht; by apply lookup_empty_Some in Ht]. cbn [cpu_pages]. split; [apply Hok|apply Hok|].
    unfold paging_active_directory. cbn. by rewrite (proj2 (Z.eqb_neq D 0)) by lia.
  - unfold cpu_clone_directory. destruct (paging_clone_kernel_directory (cpu_pages c)) as [D p] eqn:E. cbn [snd].
    destruct (clone_tables _ _ _ Hok HK E) as (Hok' & Ha & Hs). destruct c as [q t]. by apply (write_coherent q).
  - destruct c as [q t]. apply (write_coherent q); [done|by split|done|]. split; [apply Hok|exact Ha|exact Hd].
  - destruct c as [q t]. cbn [cpu_pages cpu_tlb] in *. apply (write_coherent q); [done|done|done|].
    split; [apply Hok|apply Hok|]. apply (dir_ok_mono _ _ _ _ _ (pk_dir _ Hok)); [done|]. intros i Hi. cbn [pg_mem set_pg_mem].
    change (paging_active_directory (set_pg_mem q m)) with (paging_active_directory q). destruct Hm as [HD _]. by rewrite HD.
Qed.

(** C13. The processor never uses a stale translation. Start with an empty buffer, let the
    processor remember any translation at any time, and let the kernel map, unmap, switch
    and clone address spaces, take and give back frames and write memory outside the
    active tables in any order: every access goes where the page tables say, and an access
    of user code goes through only if the tables give it the user right. *)
Theorem tlb_never_stale p c user v a :
  paging_ok p -> rtc cpu_step (Cpu p ∅) c -> is_u32 v -> cpu_access user v c = Some a ->
  paging_translate v (cpu_pages c) = Some a /\
  (user = true -> user_page (pg_mem (cpu_pages c)) (paging_active_directory (cpu_pages c)) v).
Proof.
  intros Hok Hrun Hv Ha.
  assert (Hc : coherent c).
  { assert (H0' : coherent (Cpu p ∅)) by (split; [done|]; intros w x b Hw Ht; cbn [cpu_tlb] in Ht; by apply lookup_empty_Some in Ht).
    clear Ha. induction Hrun as [|c1 c2 c3 Hs _ IH]; [done|]. apply IH. by apply (step_coherent c1). }
  assert (He : exists pte u, lookup_page (pg_mem (cpu_pages c)) (paging_active_directory (cpu_pages c)) v = Some pte /\
             (u = true -> user_page (pg_mem (cpu_pages c)) (paging_active_directory (cpu_pages c)) v) /\
             (if user && negb u then None else Some (table_of pte + v `mod` 4096)) = Some a).
  { unfold cpu_access in Ha. destruct (cpu_tlb c !! page_of v) as [[pte u]|] eqn:Et.
    - destruct (co_entry c Hc v pte u Hv Et) as [Hl Hu]. by exists pte, u.
    - destruct (walk v (cpu_pages c)) as [[pte u]|] eqn:Ew; [|done]. apply walk_spec in Ew as [Hl Hu]. by exists pte, u. }
  destruct He as (pte & u & Hl & Hu & He). rewrite translate_eq by apply (co_pages c Hc). rewrite Hl. cbn.
  destruct user, u; cbn [andb negb] in He; done || (split; [congruence|auto]).
Qed.

End Steps.

(** ** Witness *)

(** One user page, at 0x40000000: it is remembered, taken away, and mapped again to
    another frame. *)
Definition tlb_mem : mem := wr32 (wr32 ∅ (4096 + 4 * 256) (8192 + 7)) 8192 (12288 + 7).
Definition tlb_pages : paging_state watermark := Paging (Watermark 16 64) tlb_mem 4096 true 4096 4096 4096 0.

Lemma tlb_mem_entries i : 0 <= i < 1024 -> present (entry tlb_mem 4096 i) = true -> i = 256.
Proof.
  intros Hi Hp. destruct (decide (i = 256)) as [|Hne]; [done|]. exfalso. revert Hp. unfold entry, tlb_mem. rewrite !rd32_wr32_ne by lia. discriminate.
Qed.

Lemma tlb_pages_ok : paging_ok tlb_pages.
Proof.
  assert (Hf : forall f, fa_is_free (pg_frames tlb_pages) f -> 65536 <= f) by (intros f (n & -> & Hn); cbn in Hn; lia).
  split; [reflexivity|cbn; lia|]. change (paging_active_directory tlb_pages) with 4096. change (pg_mem tlb_pages) with tlb_mem. split.
  - reflexivity.
  - lia.
  - intros Hc. apply Hf in Hc. lia.
  - intros i Hi Hp. apply tlb_mem_entries in Hp as ->; [|done]. change (table_of (entry tlb_mem 4096 256)) with 8192. split; [|lia].
    intros Hc. apply Hf in Hc. lia.
  - intros i j Hi Hj Hne Hp Hq. apply tlb_mem_entries in Hp, Hq; [|done..]. congruence.
Qed.

Lemma tlb_never_stale_witness :
  let c := snd (cpu_map_page 1073741824 20480 7 (snd (cpu_unmap_page 1073741824 (tlb_fill 1073741824 (Cpu tlb_pages ∅))))) in
  cpu_access true 1073741840 c = Some 20496 /\ paging_translate 1073741840 (cpu_pages c) = Some 20496.
Proof.
  intros c. assert (Ha : cpu_access true 1073741840 c = Some 20496) by (vm_compute; reflexivity). split; [exact Ha|].
  apply (tlb_never_stale tlb_pages c true 1073741840 20496 tlb_pages_ok); [|unfold is_u32; lia|exact Ha].
  eapply rtc_l; [apply (CFill _ 1073741824); unfold is_u32; lia|]. eapply rtc_l; [apply (CUnmap _ 1073741824); unfold is_u32; lia|].
  apply rtc_once. apply (CMap _ 1073741824 20480 7); unfold is_u32; lia.
Defined.
