(* ===== verification/Isolation.v ===== *)
(** Isolation of user processes: every process owns its address space.

    The account of [World] is kept by every operation of process.c and by what it calls
    (the heap, the scheduler, the file system), and by the stores of user code. So user
    code can reach exactly the two pages of its own process, no two processes share a
    frame, and reaping a process gives back exactly the frames it owned. *)
From Stdlib Require Import ZArith Lia Bool List.
From stdpp Require Import base gmap list numbers option.
From S2P Require Import Prelude CStr Interfaces Paging Kheap Scheduler Ipc Vfs Loader Process Reserve Space World Tasks.
#[local] Open Scope Z_scope.

(** ** The heap *)

Section Heap.
Context {A : Type} `{FrameReturnOk A}.
Implicit Types (h : kheap (paging_state A)) (S : list uspace) (R : list Z).

(** The account with the directory [c] active; the heap lies above 3.25 GiB and there
    are not enough frames for it to reach the end of the address space. *)
Record hworld (K c : Z) R S (Q : Z -> Prop) (N : Z) h : Prop := {
  hw_world : world K R S Q N (hp_pages h);
  hw_current : paging_current_dir_phys (hp_pages h) = c;
  hw_low : KHEAP_START <= heap_end h;
  hw_room : heap_end h + 4096 * N < 4294967296;
}.

(** The same when the kernel may have taken frames for itself. *)
Definition hshrinks (K c : Z) R S (Q : Z -> Prop) (N : Z) h : Prop :=
  exists Q' N', hworld K c R S Q' N' h /\ (forall g, Q' g -> Q g) /\ N' <= N.

Lemma hworld_shrinks K c R S Q N h : hworld K c R S Q N h -> hshrinks K c R S Q N h.
Proof. intros W. by exists Q, N. Qed.

Lemma hshrinks_map K c R S c' R' S' Q N h h' :
  hshrinks K c R S Q N h -> (forall Q N, hworld K c R S Q N h -> hworld K c' R' S' Q N h') -> hshrinks K c' R' S' Q N h'.
Proof. intros (Q' & N' & W & ? & ?) Hm. exists Q', N'. auto. Qed.

Lemma hshrinks_bind K c R S c' R' S' Q N h h' :
  hshrinks K c R S Q N h -> (forall Q N, hworld K c R S Q N h -> hshrinks K c' R' S' Q N h') -> hshrinks K c' R' S' Q N h'.
Proof.
  intros (Q' & N' & W & ? & ?) Hm. destruct (Hm Q' N' W) as (Q2 & N2 & ? & ? & ?). exists Q2, N2. split_and!; [done|auto|lia].
Qed.

Lemma hworld_same K c R S Q N h h' :
  hworld K c R S Q N h -> hp_pages h' = hp_pages h -> heap_end h' = heap_end h -> hworld K c R S Q N h'.
Proof. intros [] Hp He. split; by rewrite ?Hp, ?He. Qed.

Lemma hworld_pages K c R S c' R' S' Q N h p :
  hworld K c R S Q N h -> world K R' S' Q N p -> paging_current_dir_phys p = c' -> hworld K c' R' S' Q N (set_hp_pages h p).
Proof. intros [] W Hc. by split. Qed.

Lemma ensure_cur (p : paging_state A) D i fl : paging_current_dir_phys (snd (ensure_table D i fl p)) = paging_current_dir_phys p.
Proof. unfold ensure_table, paging_alloc_table. repeat case_match; simplify_eq; done. Qed.

Lemma map_cur (p : paging_state A) v f fl : paging_current_dir_phys (snd (paging_map_page v f fl p)) = paging_current_dir_phys p.
Proof.
  unfold paging_map_page. destruct (negb _); [done|]. destruct (_ || _); [done|].
  pose proof (ensure_cur p (paging_active_directory p) (pd_index_of v)
    (if negb (has_flag fl PAGING_FLAG_PRESENT) then Z.lor fl PAGING_FLAG_PRESENT else fl)) as Hc.
  destruct (ensure_table _ _ _ _) as [ok p1]. cbn [snd] in Hc. destruct ok; cbn [negb snd]; [|done]. by destruct (has_flag _ _).
Qed.

Lemma heap_page_pd e : KHEAP_START <= e < 4294967296 -> pd_index_of e <> USER_PD.
Proof. intros He. rewrite pd_index_eq by (unfold is_u32, KHEAP_START in *; lia). unfold USER_PD, KHEAP_START in *. Z.div_mod_to_equations. lia. Qed.

(** [kmalloc] may map more pages, and takes frames for that. *)
Lemma hworld_malloc K c R S Q N h n x h' :
  hworld K c R S Q N h -> kh_malloc n h = (x, h') -> hshrinks K c R S Q N h'.
Proof.
  intros [W Hc Hlow Hroom] E.
  set (J := fun e p => exists Q' N', world K R S Q' N' p /\ paging_current_dir_phys p = c /\ (forall g, Q' g -> Q g) /\ N' <= N /\
                       KHEAP_START <= e /\ e + 4096 * N' < 4294967296).
  assert (Hk : pages_kept J h').
  { apply (kmalloc_pages J) with (size := n) (s := h) (p := x); [|by exists Q, N|exact E]. clear.
    intros e p (Q' & N' & W & Hc & HQ & HN & Hlow & Hroom).
    assert (HN0 : 0 <= N') by (rewrite (wo_worth _ _ _ _ _ _ W); pose proof (fa_avail_nonneg _ (wo_alloc _ _ _ _ _ _ W)); lia).
    pose proof (world_map_fresh K R S Q' N' p e W (heap_page_pd e ltac:(lia))) as Hs. cbn [pm_map_fresh paging_page_mapper].
    assert (Hcur : paging_current_dir_phys (snd (map_fresh_page e p)) = c).
    { unfold map_fresh_page. destruct (fa_alloc _) as [f a]. destruct (_ =? 0); [done|]. by rewrite map_cur. }
    destruct (map_fresh_page e p) as [ok p']. destruct Hs as (Q2 & N2 & W2 & HQ2 & HN2).
    assert (HN20 : 0 <= N2) by (rewrite (wo_worth _ _ _ _ _ _ W2); pose proof (fa_avail_nonneg _ (wo_alloc _ _ _ _ _ _ W2)); lia).
    exists Q2, N2. split_and!; [done|done|auto|destruct ok; lia| |]; unfold KHEAP_START in *; destruct ok; rewrite ?u32_small; lia. }
  destruct Hk as (Q' & N' & W' & Hc' & HQ & HN & Hl & Hr). exists Q', N'. by split_and!.
Qed.

Lemma store32_pages h (a v : Z) : hp_pages (kh_store32 a v h) = hp_pages h /\ heap_end (kh_store32 a v h) = heap_end h.
Proof. done. Qed.

End Heap.

(** ** Address spaces *)

Section Kernel.
Context {A : Type} `{FrameReturnOk A}.
Implicit Types (k : kernel A) (S : list uspace) (R : list Z).

Definition kworld (K c : Z) R S (Q : Z -> Prop) (N : Z) k : Prop := hworld K c R S Q N (k_heap k).

Lemma kworld_perm K c R R' S S' Q N k : R ≡ₚ R' -> S ≡ₚ S' -> kworld K c R S Q N k -> kworld K c R' S' Q N k.
Proof. intros HR HS []. split; [by apply (world_perm K R R' S S')|done..]. Qed.

Lemma kw_pages K c R S c' R' S' Q N k p :
  kworld K c R S Q N k -> world K R' S' Q N p -> paging_current_dir_phys p = c' -> kworld K c' R' S' Q N (set_k_pages k p).
Proof. apply hworld_pages. Qed.

Lemma kw_active K c R S Q N k : kworld K c R S Q N k -> c ∈ K :: (us_dir <$> S).
Proof. intros [W <- _ _]. apply (wo_active _ _ _ _ _ _ W). Qed.

Lemma kw_kernel K c R S Q N k : kworld K c R S Q N k -> paging_kernel_dir_phys (k_pages k) = K.
Proof. intros W. apply (wo_kernel _ _ _ _ _ _ (hw_world _ _ _ _ _ _ _ W)). Qed.

Lemma kw_switch K c R S Q N k D : kworld K c R S Q N k -> D ∈ K :: (us_dir <$> S) -> kworld K D R S Q N (switch_directory D k).
Proof. intros W HD. destruct (world_switch _ _ _ _ _ _ D (hw_world _ _ _ _ _ _ _ W) HD). by apply (kw_pages K c R S). Qed.

Lemma kw_unmap K R u S Q N k b :
  kworld K (us_dir u) R (u :: S) Q N k ->
  kworld K (us_dir u) (option_list (us_page u b) ++ R) (set_page u b None :: S) Q N (unmap_page (page_addr b) k).
Proof.
  intros W. destruct (world_unmap_user K R u S Q N (k_pages k) b (hw_world _ _ _ _ _ _ _ W) (hw_current _ _ _ _ _ _ _ W)).
  by apply (kw_pages K (us_dir u) R (u :: S)).
Qed.

Lemma kw_free K c R S Q N k f : kworld K c (f :: R) S Q N k -> kworld K c R S Q N (free_frame f k).
Proof. intros W. apply (kw_pages K c (f :: R) S); [done|apply world_drop, W|apply W]. Qed.

(** A frame in hand, if there is one. *)
Definition hand (f : Z) : list Z := if f =? 0 then [] else [f].

Lemma kw_alloc K c R S Q N k f k' :
  kworld K c R S Q N k -> alloc_frame k = (f, k') -> kworld K c (hand f ++ R) S Q N k'.
Proof.
  intros W. unfold alloc_frame, hand. pose proof (hw_world _ _ _ _ _ _ _ W) as Wp. change (hp_pages (k_heap k)) with (k_pages k) in Wp.
  destruct (fa_alloc (pg_frames (k_pages k))) as [f0 a] eqn:E. intros [= <- <-]. destruct (Z.eqb_spec f0 0) as [->|Hf].
  - rewrite (fa_alloc_none _ _ (wo_alloc _ _ _ _ _ _ Wp) E).
    apply (kw_pages K c R S); [done| |apply W]. by replace (set_pg_frames (k_pages k) _) with (k_pages k) by (by destruct (k_pages k)).
  - apply (kw_pages K c R S); [done|by apply (world_grab _ _ _ _ _ (k_pages k))|apply W].
Qed.

Lemma kw_map K R u S Q N k b f ok k' :
  kworld K (us_dir u) (f :: R) (u :: S) Q N k -> us_page u b = None -> map_page (page_addr b) f USER_FLAGS k = (ok, k') ->
  if ok then exists T, kworld K (us_dir u) R (set_page (set_us_table u (Some T)) b (Some f) :: S) Q N k'
  else us_table u = None /\ kworld K (us_dir u) (f :: R) (u :: S) Q N k'.
Proof.
  intros W Hb. unfold map_page.
  pose proof (world_map_user K R u S Q N (k_pages k) b f (hw_world _ _ _ _ _ _ _ W) (hw_current _ _ _ _ _ _ _ W) Hb) as Hm.
  destruct (paging_map_page _ _ _ _) as [ok' p']. destruct Hm as [Hc Hm]. intros [= <- <-]. destruct ok'.
  - destruct Hm as [T Hm]. exists T. by apply (kw_pages K (us_dir u) (f :: R) (u :: S)).
  - destruct Hm as [HT ->]. split; [done|]. by apply (kw_pages K (us_dir u) (f :: R) (u :: S)); [done|apply W|].
Qed.

(** The label [fail] and the reaper release the table when it is empty, and it is. *)
Lemma kw_release K c R u S Q N k :
  kworld K c R (u :: S) Q N k -> us_code u = None -> us_stack u = None ->
  kworld K c R (set_us_table u None :: S) Q N (process_release_user_table (us_dir u) PROCESS_USER_CODE_VADDR k).
Proof.
  intros W Hc Hst. pose proof (hw_world _ _ _ _ _ _ _ W) as Wp. change (hp_pages (k_heap k)) with (k_pages k) in Wp.
  destruct (wo_given _ _ _ _ _ _ Wp (us_dir u)) as (_ & HDr & _); [apply dir_owned; left|].
  unfold process_release_user_table. rewrite (proj2 (Z.eqb_neq (us_dir u) 0)) by lia.
  change (pd_index_of PROCESS_USER_CODE_VADDR) with USER_PD. destruct (us_table u) as [T|] eqn:HT.
  2: { pose proof (wo_private _ _ _ _ _ _ Wp u ltac:(left)) as Hp. unfold private_half in Hp. rewrite HT in Hp. destruct Hp as [Hp _].
       unfold present in Hp. rewrite Hp. cbn [negb]. by replace (set_us_table u None) with u by (destruct u; cbn in *; by subst). }
  destruct (private_table _ _ _ _ _ _ _ _ Wp HT) as (HTa & _ & _ & _ & Het & Hpres & Huser & Hpde & Hpte).
  unfold present in Hpres. rewrite Hpde, Hpres, Huser, Het. cbn [negb].
  assert (process_table_is_empty (pg_mem (k_pages k)) T = true) as ->.
  { unfold process_table_is_empty. apply forallb_forall. intros j Hj%list_elem_of_In%table_indices_spec. rewrite Hpte by done.
    unfold us_pte. rewrite Hc, Hst. by destruct (j =? 0), (j =? 1). }
  pose proof (private_unhook _ _ _ _ _ _ _ _ Wp HT Hc Hst) as Wu. apply world_drop in Wu.
  exact (kw_pages K c R (u :: S) c R _ Q N k _ W Wu (hw_current _ _ _ _ _ _ _ W)).
Qed.

Lemma kw_unmap_pages K c R u S Q N k :
  kworld K c R (u :: S) Q N k ->
  kworld K c (option_list (us_stack u) ++ option_list (us_code u) ++ R) (USpace (us_dir u) None None None :: S) Q N
         (process_unmap_user_pages (us_dir u) k).
Proof.
  intros W. pose proof (hw_world _ _ _ _ _ _ _ W) as Wp. change (hp_pages (k_heap k)) with (k_pages k) in Wp.
  pose proof (kw_active _ _ _ _ _ _ _ W) as Hact.
  destruct (wo_given _ _ _ _ _ _ Wp (us_dir u)) as (_ & HDr & _); [apply dir_owned; left|].
  assert (HDK : us_dir u <> K) by (intros Heq; apply (wo_apart _ _ _ _ _ _ Wp); rewrite <- Heq; apply dir_owned; left).
  unfold process_unmap_user_pages, paging_kernel_directory_phys, paging_current_directory_phys.
  rewrite (wo_enabled _ _ _ _ _ _ Wp), (wo_kernel _ _ _ _ _ _ Wp), (proj2 (Z.eqb_neq (us_dir u) 0)), (proj2 (Z.eqb_neq (us_dir u) K)) by (done || lia).
  cbn [orb negb]. change (paging_current_dir_phys (k_pages k)) with (paging_current_dir_phys (hp_pages (k_heap k))). rewrite (hw_current _ _ _ _ _ _ _ W).
  pose proof (kw_switch _ _ _ _ _ _ _ (us_dir u) W ltac:(right; left)) as W1.
  apply (kw_unmap _ _ _ _ _ _ _ CodePage) in W1. apply (kw_unmap _ _ (set_page u CodePage None) _ _ _ _ StackPage) in W1.
  apply (kw_switch _ _ _ _ _ _ _ c) in W1; [|exact Hact].
  apply (kw_release _ _ _ (set_page (set_page u CodePage None) StackPage None) _ _ _ _) in W1; [exact W1|done|done].
Qed.

(** The last frame of an address space. *)
Lemma kw_dismiss K c R D S Q N k :
  kworld K c R (USpace D None None None :: S) Q N k -> c <> D -> kworld K c R S Q N (free_frame D k).
Proof.
  intros W Hne. apply kw_free. destruct W as [W Hc Hl Hr]. split; [|done..].
  apply (world_dismiss _ _ (USpace D None None None)); [done|done|]. by rewrite Hc.
Qed.

(** *** Building an address space *)

Lemma page_translate K R u S Q N (p : paging_state A) b f v :
  world K R (u :: S) Q N p -> paging_current_dir_phys p = us_dir u -> us_page u b = Some f -> is_u32 v ->
  page_of v = page_of (page_addr b) -> paging_translate v p = Some (f + v `mod` 4096).
Proof.
  intros W Hc Hb Hv Hp. rewrite translate_eq by apply (wo_enabled _ _ _ _ _ _ W). rewrite (world_active _ _ _ _ _ _ W), Hc.
  destruct (world_lookup K R u S Q N p b f v W Hb Hv Hp) as [-> _].
  destruct (wo_given _ _ _ _ _ _ W f) as (_ & Hfr & Hfa); [apply owned_elem; right; exists u; split; [left|by apply (page_owned u b)]|].
  destruct (pte_for_spec f USER_FLAGS) as (_ & _ & Htf); [unfold is_u32; lia|done|]. cbn. by rewrite Htf.
Qed.

Lemma kw_translate K R u S Q N k b f :
  kworld K (us_dir u) R (u :: S) Q N k -> us_page u b = Some f -> paging_translate (page_addr b) (k_pages k) = Some f.
Proof.
  intros W Hb. change (k_pages k) with (hp_pages (k_heap k)).
  rewrite (page_translate K R u S Q N _ b f _ (hw_world _ _ _ _ _ _ _ W) (hw_current _ _ _ _ _ _ _ W) Hb (page_addr_u32 b) eq_refl).
  f_equal. destruct b; apply Z.add_0_r.
Qed.

Lemma kw_write K c R S Q N k u b f m' :
  kworld K c R S Q N k -> u ∈ S -> us_page u b = Some f -> same_outside f (pg_mem (k_pages k)) m' ->
  kworld K c R S Q N (set_k_pages k (set_pg_mem (k_pages k) m')).
Proof.
  intros W Hu Hb Hs. pose proof (hw_world _ _ _ _ _ _ _ W) as Wp. apply (kw_pages K c R S); [done| |apply W].
  apply (world_data _ _ _ _ _ _ f); [exact Wp|by apply (page_not_struct _ _ _ _ _ _ u b f Wp)| |exact Hs].
  apply (wo_given _ _ _ _ _ _ Wp). apply owned_elem. right. exists u. split; [done|by apply (page_owned u b)].
Qed.

Lemma kw_heap K c R S Q N k h :
  kworld K c R S Q N k -> hp_pages h = k_pages k -> heap_end h = heap_end (k_heap k) -> kworld K c R S Q N (set_k_heap k h).
Proof. intros W Hp He. by apply (hworld_same _ _ _ _ _ _ (k_heap k)). Qed.

Lemma kw_load_image K R u S Q N k cf image name st e k' :
  kworld K (us_dir u) R (u :: S) Q N k -> us_code u = Some cf -> load_image image name k = (st, e, k') ->
  kworld K (us_dir u) R (u :: S) Q N k'.
Proof.
  intros W Hcf. unfold load_image.
  pose proof (load_bytes_length image (Z.to_nat PROCESS_USER_IMAGE_MAX) (k_heap k)) as Hlb. revert Hlb.
  generalize (load_bytes image (Z.to_nat PROCESS_USER_IMAGE_MAX) (k_heap k)). intros bs Hlb.
  destruct (process_load_user_image_bytes_from_vfs _ _ _ _) as [[[status len] dst]|] eqn:El; [|by intros [= _ _ <-]].
  apply image_length in El; [|unfold PROCESS_USER_IMAGE_MAX; lia|rewrite Hlb; unfold PROCESS_USER_IMAGE_MAX; lia].
  destruct (status =? 0); [by intros [= _ _ <-]|].
  destruct (store_bytes_pages dst image (k_heap k)) as [Hp He]. revert Hp He. generalize (store_bytes image dst (k_heap k)). intros h Hp He.
  pose proof (kw_heap _ _ _ _ _ _ k h W Hp He) as W1. revert W1. generalize (set_k_heap k h). intros k1 W1. clear W Hp He.
  destruct (status <? 0); [by intros [= _ _ <-]|]. pose proof (kw_translate _ _ _ _ _ _ _ CodePage cf W1 Hcf) as Hcode. cbn [page_addr] in Hcode.
  assert (Hu : u ∈ u :: S) by left. destruct (process_is_elf32_image _ _).
  - rewrite Hcode. change (default 0 (Some cf)) with cf. destruct (process_load_elf32_single_page _ _ _ _ _ _) as [r m] eqn:Eelf.
    assert (Ho : same_outside cf (pg_mem (k_pages k1)) m).
    { intros a Hout. apply (elf_writes_page _ _ _ _ _ _ _ _ a) in Eelf; [done|intros o; apply rd8_range|done|done|done|done|exact Hout]. }
    pose proof (kw_write _ _ _ _ _ _ k1 u CodePage cf m W1 Hu Hcf Ho) as W2. clear Eelf. destruct r; intros [= _ _ <-]; exact W2.
  - destruct (Z.ltb_spec PROCESS_USER_CODE_SIZE (default 0 len)) as [|Hle]; [by intros [= _ _ <-]|].
    intros [_ <-]%pair_equal_spec. unfold on_user_page. rewrite Hcode. change (default 0 (Some cf)) with cf.
    apply (kw_write _ _ _ _ _ _ k1 u CodePage cf); [done..|]. apply zero_copy_outside. unfold PROCESS_USER_CODE_SIZE in Hle. lia.
Qed.

Lemma kw_emit K R u S Q N k cf prog :
  kworld K (us_dir u) R (u :: S) Q N k -> us_code u = Some cf -> kworld K (us_dir u) R (u :: S) Q N (emit_builtin prog k).
Proof.
  intros W Hcf. unfold emit_builtin, on_user_page. pose proof (kw_translate _ _ _ _ _ _ _ CodePage cf W Hcf) as Hcode. cbn [page_addr] in Hcode.
  rewrite Hcode. change (default 0 (Some cf)) with cf. apply (kw_write _ _ _ _ _ _ k u CodePage cf); [done|left|done|].
  unfold process_emit_exit_only_program, process_emit_ping_program, write_code.
  destruct (prog =? PROCESS_USER_PROG_DEFAULT); [|destruct (prog =? PROCESS_USER_PROG_PING_BURST)];
    cbn [snd]; apply zero_copy_outside; vm_compute; discriminate.
Qed.

Lemma kw_free_hand K c R S Q N k f :
  kworld K c (hand f ++ R) S Q N k -> kworld K c R S Q N (if negb (f =? 0) then free_frame f k else k).
Proof. unfold hand. destruct (f =? 0); [done|]. apply kw_free. Qed.

Lemma kw_fail_early K c D R S Q N k cf sf :
  kworld K D (hand sf ++ hand cf ++ R) (USpace D None None None :: S) Q N k -> c ∈ K :: D :: (us_dir <$> S) ->
  kworld K c R (USpace D None None None :: S) Q N (build_fail D c cf sf false false k).
Proof. intros W Hc. unfold build_fail. cbv zeta. cbn [orb]. apply (kw_switch _ D); [|done]. by do 2 apply kw_free_hand. Qed.

Lemma kw_fail_late K c D R S Q N k T cf sf :
  kworld K D R (USpace D (Some T) (Some cf) (Some sf) :: S) Q N k -> c ∈ K :: D :: (us_dir <$> S) ->
  kworld K c R (USpace D None None None :: S) Q N (build_fail D c cf sf true true k).
Proof.
  intros W Hc. unfold build_fail. cbv zeta. cbn [orb]. apply (kw_switch _ D); [|done]. do 2 apply kw_free_hand.
  apply (kw_unmap _ _ (USpace D (Some T) (Some cf) (Some sf)) _ _ _ _ StackPage) in W.
  apply (kw_unmap _ _ (USpace D (Some T) (Some cf) None) _ _ _ _ CodePage) in W.
  apply (kw_release _ _ _ (USpace D (Some T) None None)) in W; [|done|done].
  pose proof (hw_world _ _ _ _ _ _ _ W) as Wp. assert (Hne : forall f, f ∈ [cf; sf] -> f <> 0).
  { intros f Hf. destruct (wo_given _ _ _ _ _ _ Wp f) as (_ & Hr & _); [|lia]. apply owned_elem. left. cbn. set_solver. }
  unfold hand. rewrite (proj2 (Z.eqb_neq cf 0)), (proj2 (Z.eqb_neq sf 0)) by (apply Hne; set_solver).
  eapply kworld_perm; [| |exact W]; [apply Permutation_swap|done].
Qed.

(** *** The heap's clients *)

Definition kshrinks (K c : Z) R S (Q : Z -> Prop) (N : Z) k : Prop := hshrinks K c R S Q N (k_heap k).

Lemma kw_shrinks K c R S Q N k : kworld K c R S Q N k -> kshrinks K c R S Q N k.
Proof. apply hworld_shrinks. Qed.

Lemma kw_malloc K c R S Q N k n x h : kworld K c R S Q N k -> kh_malloc n (k_heap k) = (x, h) -> kshrinks K c R S Q N (set_k_heap k h).
Proof. apply hworld_malloc. Qed.

Lemma push_frame_pages bootstrap stack (h : kheap (paging_state A)) sp h' :
  push_frame bootstrap stack h = (sp, h') -> hp_pages h' = hp_pages h /\ heap_end h' = heap_end h.
Proof.
  unfold push_frame. cbv zeta. intros [_ <-]%pair_equal_spec.
  split; [by rewrite !(fun h a v => proj1 (store32_pages h a v))|by rewrite !(fun h a v => proj2 (store32_pages h a v))].
Qed.

Lemma kw_create K c R S Q N k bootstrap entry arg name :
  kworld K c R S Q N k -> kshrinks K c R S Q N (set_k_sched k (snd (scheduler_create_task bootstrap entry arg name (k_sched k)))).
Proof.
  intros W. unfold scheduler_create_task. destruct (_ || _); [by apply kw_shrinks|]. destruct (List.find _ _) as [idx|]; [|by apply kw_shrinks].
  destruct (kh_malloc TASK_STACK_SIZE (sc_heap (k_sched k))) as [stack h] eqn:Em. apply (kw_malloc _ _ _ _ _ _ _ _ _ _ W) in Em.
  destruct (stack =? 0); [exact Em|]. cbn [tasks sc_heap set_sc_heap].
  match goal with |- context [push_frame bootstrap stack (sc_heap ?s1)] => assert (Hs1 : hp_pages (sc_heap s1) = hp_pages h /\ heap_end (sc_heap s1) = heap_end h) end.
  { destruct (_ && _); [apply kfree_pages|done]. }
  destruct (push_frame _ _ _) as [sp h2] eqn:Ep. apply push_frame_pages in Ep as [Hp He]. destruct Hs1 as [Hp1 He1].
  apply (hshrinks_map _ _ _ _ _ _ _ _ _ _ _ Em). intros Q' N' W'. apply (hworld_same _ _ _ _ _ _ _ _ W'); cbn; [by rewrite Hp, Hp1|by rewrite He, He1].
Qed.

Lemma hw_write K c R S Q N name data (v : vfs (kheap (paging_state A))) :
  hworld K c R S Q N (vfs_heap v) -> hshrinks K c R S Q N (vfs_heap (snd (vfs_write_file (Some name) (Some data) v))).
Proof.
  intros Wv.
  unfold vfs_write_file. destruct (negb _); [by apply hworld_shrinks|].
  destruct (negb _); [by apply hworld_shrinks|].
  destruct (kh_malloc _ _) as [buf h] eqn:Em. apply (hworld_malloc _ _ _ _ _ _ _ _ _ _ Wv) in Em.
  destruct (buf =? 0); [exact Em|]. cbn [vfs_heap set_vfs_heap].
  destruct (store_bytes_pages (take (Z.to_nat (str_len data)) data ++ [0]) buf h) as [Hp He]. revert Hp He.
  generalize (store_bytes buf (take (Z.to_nat (str_len data)) data ++ [0]) h). intros h1 Hp1 He1.
  assert (Hk : forall x : kheap (paging_state A), hp_pages x = hp_pages h1 -> heap_end x = heap_end h1 -> hshrinks K c R S Q N x).
  { intros x Hp He. apply (hshrinks_map _ _ _ _ _ _ _ _ _ _ _ Em). intros Q' N' W'. apply (hworld_same _ _ _ _ _ _ _ _ W'); congruence. }
  destruct (vfs_find_file _ _) as [idx|]; [|destruct (vfs_find_free_slot _) as [idx|]].
  - apply Hk; cbn; destruct (negb _); cbn; apply kfree_pages || done.
  - by apply Hk.
  - apply Hk; apply kfree_pages.
Qed.

Lemma kw_write_file K c R S Q N k name data : kworld K c R S Q N k -> kshrinks K c R S Q N (k_write_file name data k).
Proof. intros W. exact (hw_write K c R S Q N name data (k_vfs k) W). Qed.

Lemma kw_previous K c R S Q N k : kworld K c R S Q N k -> paging_current_directory_phys (k_pages k) = c.
Proof.
  intros [W Hc _ _]. change (hp_pages (k_heap k)) with (k_pages k) in *. unfold paging_current_directory_phys.
  by rewrite (wo_enabled _ _ _ _ _ _ W).
Qed.

(** The second half of [process_build_user_image], once both pages are mapped. *)
Lemma kw_build_program K c D R S Q N k T cf sf prog name r k' :
  kworld K D R (USpace D (Some T) (Some cf) (Some sf) :: S) Q N k -> c ∈ K :: D :: (us_dir <$> S) ->
  (let '(image, h) := kh_malloc PROCESS_USER_IMAGE_MAX (k_heap k) in
   let k := set_k_heap k h in
   let '(image_status, entry, k) :=
     if image =? 0 then (0, PROCESS_USER_CODE_VADDR, k) else
     let '(st, e, k) := load_image image name k in
     (st, e, set_k_heap k (kh_free image (k_heap k))) in
   if image_status <? 0 then (None, build_fail D c cf sf true true k) else
   let k := if image_status =? 0 then emit_builtin prog k else k in
   (Some (cf, sf, entry), switch_directory c k)) = (r, k') ->
  match r with
  | Some (cf', sf', _) => cf' = cf /\ sf' = sf /\ kshrinks K c R (USpace D (Some T) (Some cf) (Some sf) :: S) Q N k'
  | None => kshrinks K c R (USpace D None None None :: S) Q N k'
  end.
Proof.
  intros W Hc. set (u := USpace D (Some T) (Some cf) (Some sf)) in *.
  destruct (kh_malloc PROCESS_USER_IMAGE_MAX (k_heap k)) as [image h] eqn:Em. apply (kw_malloc _ _ _ _ _ _ _ _ _ _ W) in Em. clear W.
  cbv zeta. revert Em. generalize (set_k_heap k h). intros k1 W1. 
  match goal with |- context [if image =? 0 then ?a else ?b] => destruct (if image =? 0 then a else b) as [[st e] k2] eqn:El end.
  assert (W2 : kshrinks K D R (u :: S) Q N k2).
  { revert El. destruct (image =? 0); [intros [_ <-]%pair_equal_spec; exact W1|].
    destruct (load_image image name k1) as [[st' e'] k1'] eqn:Eli. intros [_ <-]%pair_equal_spec.
    apply (hshrinks_map _ _ _ _ _ _ _ _ _ _ _ W1). intros Q' N' W.
    pose proof (kw_load_image _ _ u _ _ _ k1 cf _ _ _ _ _ W eq_refl Eli) as W'. apply (kw_heap _ _ _ _ _ _ _ _ W'); apply kfree_pages. }
  clear El W1. destruct (st <? 0).
  { intros [<- <-]%pair_equal_spec. apply (hshrinks_map _ _ _ _ _ _ _ _ _ _ _ W2). intros Q' N' W. by apply (kw_fail_late K c D R S Q' N' k2 T cf sf). }
  intros [<- <-]%pair_equal_spec. split_and!; [done|done|]. apply (hshrinks_map _ _ _ _ _ _ _ _ _ _ _ W2). intros Q' N' W.
  apply (kw_switch K D); [|done]. destruct (st =? 0); [|exact W]. by apply (kw_emit K R u S Q' N' k2 cf).
Qed.

(** [process_build_user_image] in a new directory: with a result, the address space is
    complete; without one, every frame has been given back. *)
Lemma kw_build K c D R S Q N k prog name r k' :
  kworld K c R (USpace D None None None :: S) Q N k -> process_build_user_image D prog name k = (r, k') ->
  match r with
  | Some (cf, sf, _) => exists T, kshrinks K c R (USpace D (Some T) (Some cf) (Some sf) :: S) Q N k'
  | None => kshrinks K c R (USpace D None None None :: S) Q N k'
  end.
Proof.
  intros W. pose proof (kw_active _ _ _ _ _ _ _ W) as Hc. unfold process_build_user_image. rewrite (kw_previous _ _ _ _ _ _ _ W).
  apply (kw_switch _ _ _ _ _ _ _ D) in W; [|right; left].
  apply (kw_unmap _ _ (USpace D None None None) _ _ _ _ CodePage) in W. apply (kw_unmap _ _ (USpace D None None None) _ _ _ _ StackPage) in W.
  cbn [option_list option_rect us_page set_page us_code us_stack us_dir us_table app page_addr] in W.
  revert W. generalize (unmap_page (PROCESS_USER_STACK_TOP - 4096) (unmap_page PROCESS_USER_CODE_VADDR (switch_directory D k))). intros k1 W.
  destruct (alloc_frame k1) as [cf k2] eqn:E1. apply (kw_alloc _ _ _ _ _ _ _ _ _ W) in E1. clear W.
  destruct (alloc_frame k2) as [sf k3] eqn:E2. apply (kw_alloc _ _ _ _ _ _ _ _ _ E1) in E2 as W3. clear E1 E2.
  destruct (_ || _) eqn:Ez; [intros [<- <-]%pair_equal_spec; by apply kw_shrinks, kw_fail_early|].
  apply orb_false_iff in Ez as [Hcf Hsf]. pose proof W3 as W3'. unfold hand in W3'. rewrite Hcf, Hsf in W3'. cbn [app] in W3'.
  apply (kworld_perm K D (sf :: cf :: R) (cf :: sf :: R) _ _ Q N k3 (Permutation_swap _ _ _) (reflexivity _)) in W3'.
  destruct (map_page PROCESS_USER_CODE_VADDR cf USER_FLAGS k3) as [ok k4] eqn:E3.
  apply (kw_map K (sf :: R) (USpace D None None None) S Q N k3 CodePage cf ok k4 W3' eq_refl) in E3.
  destruct ok; cbn [negb].
  2: { intros [<- <-]%pair_equal_spec. apply kw_shrinks, kw_fail_early; [|done]. unfold hand. rewrite Hcf, Hsf. cbn [app].
       eapply kworld_perm; [apply Permutation_swap|done|apply E3]. }
  destruct E3 as [T E3]. cbn [set_page set_us_table us_dir us_table us_code us_stack] in E3.
  destruct (map_page (PROCESS_USER_STACK_TOP - 4096) sf USER_FLAGS k4) as [ok k5] eqn:E4.
  apply (kw_map K R (USpace D (Some T) (Some cf) None) S Q N k4 StackPage sf ok k5 E3 eq_refl) in E4.
  destruct ok; cbn [negb]; [|by destruct E4 as [[=] _]]. destruct E4 as [T' E4]. cbn [set_page set_us_table us_dir us_table us_code us_stack] in E4.
  set (k6 := on_user_page _ _ k5).
  assert (W6 : kworld K D R (USpace D (Some T') (Some cf) (Some sf) :: S) Q N k6).
  { unfold k6, on_user_page. change (PROCESS_USER_STACK_TOP - PROCESS_USER_STACK_SIZE) with (page_addr StackPage).
    rewrite (kw_translate K R (USpace D (Some T') (Some cf) (Some sf)) S Q N k5 StackPage sf E4 eq_refl). change (default 0 (Some sf)) with sf.
    apply (kw_write K D R _ Q N k5 (USpace D (Some T') (Some cf) (Some sf)) StackPage sf _ E4 ltac:(left) eq_refl).
    intros a Ha. rewrite zero_page_rd by done. unfold PROCESS_USER_STACK_SIZE.
    destruct (Z.leb_spec sf a), (Z.ltb_spec a (sf + 4096)); cbn [andb]; done || lia. }
  clearbody k6. intros Hr. apply (kw_build_program K c D R S Q N k6 T' cf sf prog name r k' W6 Hc) in Hr.
  destruct r as [[[cf' sf'] e]|]; [|exact Hr]. destruct Hr as (-> & -> & Hr). by exists T'.
Qed.

End Kernel.

(** ** Processes *)

Definition is_user (e : process_entry_t) : bool := pe_active e && negb (pe_is_kernel e).
Definition user_entries (T : list process_entry_t) : list process_entry_t := List.filter is_user T.

Lemma user_entries_elem T e : e ∈ user_entries T <-> e ∈ T /\ is_user e = true.
Proof. unfold user_entries. rewrite !list_elem_of_In, filter_In. done. Qed.

(** An entry and all the others. *)
Definition other_users (T : list process_entry_t) (i : nat) : list process_entry_t :=
  user_entries (take i T) ++ user_entries (drop (S i) T).

Lemma users_split T i e : T !! i = Some e -> user_entries T ≡ₚ (if is_user e then [e] else []) ++ other_users T i.
Proof.
  intros He. unfold other_users, user_entries. rewrite <- (take_drop_middle T i e He) at 1. rewrite filter_app. cbn [List.filter].
  destruct (is_user e); cbn [app]; [|done]. symmetry. apply Permutation_middle.
Qed.

Lemma users_insert T i e : (i < length T)%nat -> user_entries (<[i := e]> T) ≡ₚ (if is_user e then [e] else []) ++ other_users T i.
Proof.
  intros Hi. rewrite (users_split (<[i := e]> T) i e) by (by apply list_lookup_insert_eq).
  unfold other_users. by rewrite take_insert_ge, drop_insert_lt by lia.
Qed.

(** The address space of an entry, with the frame of its page table. *)
Definition space_of (x : process_entry_t * Z) : uspace :=
  USpace (pe_cr3 x.1) (Some x.2) (Some (pe_user_code_frame x.1)) (Some (pe_user_stack_frame x.1)).

Lemma pick_entry (L : list (process_entry_t * Z)) e l :
  e :: l ≡ₚ L.*1 -> exists t L', L ≡ₚ (e, t) :: L' /\ l ≡ₚ L'.*1.
Proof.
  intros HL. assert (He : e ∈ L.*1) by (rewrite <- HL; left). apply list_elem_of_fmap in He as ([e' t] & -> & Hin).
  apply list_elem_of_split in Hin as (l1 & l2 & ->). exists t, (l1 ++ l2). split; [by rewrite Permutation_middle|].
  rewrite fmap_app, fmap_cons in HL. rewrite fmap_app. apply (Permutation_cons_inv (a := e')). by rewrite HL, Permutation_middle.
Qed.

Section Processes.
Context {A : Type} `{FrameReturnOk A}.
Context (bootstrap user_task_entry : Z).
Implicit Types (k : kernel A).

(** The running task is in the kernel's address space, or in that of its process. *)
Definition in_own_space (K c : Z) k : Prop :=
  c = K \/ exists e, e ∈ user_entries (process_table k) /\ pe_cr3 e = c /\ pe_tid e = current_task (k_sched k).

Definition kernel_entries (K : Z) k : Prop := forall e, e ∈ process_table k -> pe_active e = true -> pe_is_kernel e = true ->
  pe_cr3 e = K /\ pe_user_code_frame e = 0 /\ pe_user_stack_frame e = 0.

(** Every frame is accounted for: [L] are the user processes with their page tables, [Q]
    and [N] the frames that are free or belong to one of them. *)
Record account (K : Z) (Q : Z -> Prop) (N : Z) (L : list (process_entry_t * Z)) k : Prop := {
  ac_ok : kernel_ok k;
  ac_users : user_entries (process_table k) ≡ₚ L.*1;
  ac_world : exists c, kworld K c [] (space_of <$> L) Q N k /\ in_own_space K c k;
  ac_kernel : kernel_entries K k;
}.

(** *** Reaping *)

Lemma kw_other_dir K c R u S Q N k : kworld K c R (u :: S) Q N k -> c ∈ K :: (us_dir <$> S) -> c <> us_dir u.
Proof.
  intros W Hc ->. apply (struct_apart _ _ _ _ _ _ _ (us_dir u) (hw_world _ _ _ _ _ _ _ W)); [by apply dir_struct|left].
Qed.

Definition release_frames (e : process_entry_t) k : kernel A :=
  let k := process_unmap_user_pages (pe_cr3 e) k in
  let k := if negb (pe_cr3 e =? 0) && negb (pe_cr3 e =? paging_kernel_directory_phys (k_pages k))
           then free_frame (pe_cr3 e) k else k in
  let k := if negb (pe_user_code_frame e =? 0) then free_frame (pe_user_code_frame e) k else k in
  if negb (pe_user_stack_frame e =? 0) then free_frame (pe_user_stack_frame e) k else k.

Lemma release_user K c e t S Q N k :
  kworld K c [] (space_of (e, t) :: S) Q N k -> c <> pe_cr3 e -> kworld K c [] S Q N (release_frames e k).
Proof.
  intros W Hc. pose proof (hw_world _ _ _ _ _ _ _ W) as Wp.
  assert (Hpos : forall f, f ∈ us_frames (space_of (e, t)) -> f <> 0).
  { intros f Hf. destruct (wo_given _ _ _ _ _ _ Wp f) as (_ & Hr & _); [|lia]. apply owned_elem. right. eexists. split; [left|done]. }
  assert (HK : pe_cr3 e <> K) by (intros Heq; apply (wo_apart _ _ _ _ _ _ Wp); rewrite <- Heq; apply (dir_owned [] (space_of (e, t) :: S)); left).
  apply kw_unmap_pages in W. cbn [us_dir us_code us_stack space_of fst snd option_list option_rect app] in W. unfold release_frames. cbv zeta.
  unfold paging_kernel_directory_phys. rewrite (kw_kernel _ _ _ _ _ _ _ W).
  rewrite (proj2 (Z.eqb_neq (pe_cr3 e) 0)), (proj2 (Z.eqb_neq (pe_cr3 e) K)) by (done || apply Hpos; unfold us_frames; cbn; set_solver).
  rewrite (proj2 (Z.eqb_neq (pe_user_code_frame e) 0)), (proj2 (Z.eqb_neq (pe_user_stack_frame e) 0)) by (apply Hpos; unfold us_frames; cbn; set_solver).
  cbn [negb andb]. apply kw_dismiss in W; [|done]. apply kw_free, kw_free. eapply kworld_perm; [apply Permutation_swap|done|exact W].
Qed.

Lemma release_kernel K c S Q N e k :
  kworld K c [] S Q N k -> pe_cr3 e = K -> pe_user_code_frame e = 0 -> pe_user_stack_frame e = 0 -> release_frames e k = k.
Proof.
  intros W He Hc Hs. unfold release_frames, process_unmap_user_pages, paging_kernel_directory_phys.
  pose proof (kw_kernel _ _ _ _ _ _ _ W) as HK.
  rewrite He, Hc, Hs, HK, (Z.eqb_refl K), orb_true_r. cbv iota zeta. by rewrite HK, (Z.eqb_refl K), andb_false_r.
Qed.

Lemma reap_entry_eq i k :
  let e := proc_at (process_table k) i in
  reap_entry i k =
  if pe_active e && negb (pe_tid e =? 0)%nat && scheduler_task_is_zombie (pe_tid e) (k_sched k) then
    let k := release_frames e k in
    let k := set_table k (<[i := cleared_process e]> (process_table k)) (next_pid k) in
    set_k_sched k (snd (scheduler_reap_task (pe_tid e) (k_sched k)))
  else k.
Proof. cbv zeta. unfold reap_entry. destruct (_ && _); [|done]. by destruct (scheduler_task_is_zombie _ _). Qed.

Lemma reap_task_heap K c R S Q N k tid :
  kworld K c R S Q N k -> kworld K c R S Q N (set_k_sched k (snd (scheduler_reap_task tid (k_sched k)))).
Proof.
  intros W. unfold scheduler_reap_task. destruct (_ || _); [done|]. destruct (negb (bool_decide _)); [done|].
  destruct (negb _); [|done]. apply (hworld_same _ _ _ _ _ _ _ _ W); apply kfree_pages.
Qed.

Lemma release_table e k : same_table k (release_frames e k).
Proof. unfold release_frames. cbv zeta. repeat (apply same_table_if; [|intros; apply set_pages_table]). apply unmap_user_table. Qed.

Lemma proc_at_lookup T next i : table_ok T next -> (i < PROCESS_MAX)%nat -> T !! i = Some (proc_at T i).
Proof.
  intros Hok Hi. unfold proc_at. destruct (lookup_lt_is_Some_2 T i) as [e ->]; [rewrite (to_length _ _ Hok); lia|done].
Qed.

Lemma cleared_not_user e : is_user (cleared_process e) = false.
Proof. done. Qed.

Lemma insert_elem (T : list process_entry_t) i e x : x ∈ <[i := e]> T -> x = e \/ x ∈ T.
Proof.
  intros [j Hj]%list_elem_of_lookup. destruct (decide (i = j)) as [<-|Hne].
  - left. apply list_lookup_insert_Some in Hj as [(_ & -> & _)|[? _]]; done.
  - right. rewrite list_lookup_insert_ne in Hj by done. by apply list_elem_of_lookup_2 in Hj.
Qed.

Lemma reap_spaces K Q N i k L c :
  kernel_ok k -> user_entries (process_table k) ≡ₚ L.*1 -> kworld K c [] (space_of <$> L) Q N k -> in_own_space K c k -> kernel_entries K k ->
  let e := proc_at (process_table k) i in
  process_table k !! i = Some e -> pe_active e = true -> scheduler_task_is_zombie (pe_tid e) (k_sched k) = true ->
  exists Z L', L ≡ₚ Z ++ L' /\ Z.*1 = (if is_user e then [e] else []) /\
    other_users (process_table k) i ≡ₚ L'.*1 /\ kworld K c [] (space_of <$> L') Q N (release_frames e k) /\
    (c = K \/ exists x, x ∈ other_users (process_table k) i /\ pe_cr3 x = c /\ pe_tid x = current_task (k_sched k)).
Proof.
  intros Hok HL W Hown Hker e He Ha Hz. pose proof (users_split _ _ _ He) as Hsp. destruct (is_user e) eqn:Hu; cbn [app] in Hsp.
  - rewrite Hsp in HL. apply pick_entry in HL as (t & L' & HL & Ho). exists [(e, t)], L'. do 3 (split; [done|]).
    assert (W1 : kworld K c [] (space_of (e, t) :: (space_of <$> L')) Q N k) by (apply (kworld_perm K c [] [] (space_of <$> L)); [done|by rewrite HL|done]).
    assert (Hc : c = K \/ exists x, x ∈ other_users (process_table k) i /\ pe_cr3 x = c /\ pe_tid x = current_task (k_sched k)).
    { destruct Hown as [|(x & Hx & Hcr & Htid)]; [by left|]. rewrite Hsp in Hx. apply elem_of_cons in Hx as [->|Hx]; [|right; by exists x].
      exfalso. unfold scheduler_task_is_zombie in Hz. pose proof (ko_states _ Hok) as Hs. rewrite Htid in Hz.
      destruct (_ <=? _)%nat; [done|]. apply bool_decide_eq_true in Hz.
      pose proof (proj2 (st_running _ Hs _ (st_current _ Hs)) eq_refl) as Hrun. congruence. }
    split; [|exact Hc]. apply (release_user K c e t); [exact W1|].
    apply (kw_other_dir _ _ _ (space_of (e, t)) _ _ _ _ W1). destruct Hc as [->|(x & Hx & <- & _)]; [left|right].
    rewrite Ho in Hx. apply list_elem_of_fmap in Hx as (y & -> & Hy). apply list_elem_of_fmap. exists (space_of y). split; [done|by apply list_elem_of_fmap_2].
  - assert (Hk : pe_is_kernel e = true) by (unfold is_user in Hu; rewrite Ha in Hu; by destruct (pe_is_kernel e)).
    destruct (Hker e) as (Hcr & Hcf & Hsf); [by apply list_elem_of_lookup_2 in He|done|done|].
    exists [], L. rewrite (release_kernel K c (space_of <$> L) Q N) by done. split_and!; [done|done|by rewrite <- Hsp|done|].
    destruct Hown as [|(x & Hx & ?)]; [by left|right]. exists x. rewrite Hsp in Hx. done.
Qed.

(** The entries that [process_reap] takes away. *)
Definition reapable (e : process_entry_t) k : bool :=
  pe_active e && negb (pe_tid e =? 0)%nat && scheduler_task_is_zombie (pe_tid e) (k_sched k).

(** Reaping keeps the account exactly: the frames of the process are free again. *)
Lemma reap_account K Q N L i k :
  (i < PROCESS_MAX)%nat -> account K Q N L k -> let e := proc_at (process_table k) i in
  exists Z L', L ≡ₚ Z ++ L' /\ Z.*1 = (if reapable e k && is_user e then [e] else []) /\ account K Q N L' (reap_entry i k).
Proof.
  intros Hi Hac. pose proof Hac as [Hok HL (c & W & Hown) Hker].
  assert (Hok' : kernel_ok (reap_entry i k)).
  { split; [apply reap_table_ok; [done|apply Hok]|by apply reap_states|]. destruct (reap_entry_table i k) as [->|(_ & _ & _ & _ & -> & _)]; apply Hok. }
  revert Hok'. rewrite reap_entry_eq. cbv zeta. set (e := proc_at (process_table k) i). fold (reapable e k).
  destruct (reapable e k) eqn:Ez; cbn [andb]; [|intros _; by exists [], L]. intros Hok'.
  pose proof (proc_at_lookup _ _ i (ko_table _ Hok) Hi) as He. fold e in He. apply andb_true_iff in Ez as [[Ha Ht]%andb_true_iff Hz].
  pose proof (release_table e k) as (HT & _ & _ & _ & HC & _).
  destruct (reap_spaces K Q N i k L c Hok HL W Hown Hker He Ha Hz) as (Z & L' & HZ & HZ1 & HL' & W' & Hown'). fold e in W', HZ1.
  exists Z, L'. split; [done|]. split; [done|].
  revert Hok' HT HC W'. generalize (release_frames e k). intros k1 Hok' HT HC W'.
  assert (Hlen : (i < length (process_table k))%nat) by (rewrite (to_length _ _ (ko_table _ Hok)); lia).
  assert (Hu : user_entries (<[i := cleared_process e]> (process_table k1)) ≡ₚ other_users (process_table k) i) by (rewrite HT; by apply users_insert).
  split; [done|cbn; by rewrite Hu| |].
  - exists c. split; [by apply reap_task_heap|].
    destruct Hown' as [|(x & Hx & Hcr & Htid)]; [by left|right]. exists x. split_and!; [cbn; by rewrite Hu|done|].
    rewrite Htid, <- HC. cbn. unfold scheduler_reap_task. by repeat case_match.
  - intros x Hx. cbn in Hx. rewrite HT in Hx. apply insert_elem in Hx as [->|Hx]; [done|by apply Hker].
Qed.

(** *** Task switches *)

(** An operation of the scheduler leaves the heap alone and activates the task it
    switches to. *)
Definition activates (f : (Z -> Z -> Z) -> sched (kheap (paging_state A)) Z -> sched (kheap (paging_state A)) Z * option Z) : Prop :=
  forall act s, let '(s', r) := f act s in
  sc_heap s' = sc_heap s /\
  match r with Some _ => sc_env s' = act (Z.of_nat (current_task s')) (sc_env s) | None => current_task s' = current_task s end.

Lemma yield_activates sp : activates (fun act => scheduler_yield act sp).
Proof.
  intros act s. unfold scheduler_yield. destruct (negb _); [done|]. destruct (scheduler_pick_next s); [|done].
  by destruct (bool_decide _).
Qed.

Lemma exit_activates sp : activates (fun act => scheduler_exit_current act sp).
Proof.
  intros act s. unfold scheduler_exit_current, scheduler_task_exit. destruct (negb _); [done|]. destruct (_ =? _)%nat; [done|].
  by destruct (scheduler_pick_next _).
Qed.

Lemma pending_activates sp : activates (fun act => scheduler_run_pending act sp).
Proof. intros act s. unfold scheduler_run_pending. destruct (preempt_pending s); [apply (yield_activates sp)|done]. Qed.

(** The directory of a task: the kernel's or that of its process. *)
Lemma target_own K c L Q N k tid :
  user_entries (process_table k) ≡ₚ L.*1 -> kworld K c [] (space_of <$> L) Q N k -> kernel_entries K k ->
  table_ok (process_table k) (next_pid k) ->
  let D := activation_target (process_table k) (paging_kernel_directory_phys (k_pages k)) tid in
  D ∈ K :: (us_dir <$> (space_of <$> L)) /\
  (D = K \/ exists e, e ∈ user_entries (process_table k) /\ pe_cr3 e = D /\ pe_tid e = tid).
Proof.
  intros HL W Hker Hok D. unfold D, activation_target, paging_kernel_directory_phys. rewrite (kw_kernel _ _ _ _ _ _ _ W).
  destruct (process_find_by_tid _ _) as [i|] eqn:Ef; [|split; [left|by left]].
  apply find_by_tid_Some in Ef as (Hi & Ha & Ht). set (e := proc_at _ i) in *. destruct (_ =? 0); [split; [left|by left]|].
  assert (He : e ∈ process_table k) by (apply (list_elem_of_lookup_2 _ i); by apply (proc_at_lookup _ (next_pid k))).
  destruct (pe_is_kernel e) eqn:Ek; [destruct (Hker e He Ha Ek) as [-> _]; split; [left|by left]|].
  assert (Hu : e ∈ user_entries (process_table k)) by (apply user_entries_elem; split; [done|unfold is_user; by rewrite Ha, Ek]).
  split; [right|right; by exists e]. rewrite HL in Hu. apply list_elem_of_fmap in Hu as (y & Hy & Hin).
  apply list_elem_of_fmap. exists (space_of y). split; [cbn; by rewrite <- Hy|by apply list_elem_of_fmap_2].
Qed.

Lemma on_sched_account K Q N L k f :
  activates f -> account K Q N L k -> kernel_ok (on_sched f k) -> account K Q N L (on_sched f k).
Proof.
  intros Hf [Hok HL (c & W & Hown) Hker] Hok'. revert Hok'. unfold on_sched. set (act := fun tid _ => _).
  specialize (Hf act (k_sched k)). destruct (f act (k_sched k)) as [s r]. destruct Hf as [Hh Hr]. intros Hok'.
  assert (Ws : kworld K c [] (space_of <$> L) Q N (set_k_sched k s)) by (unfold kworld, k_heap; cbn; by rewrite Hh).
  destruct r as [sp|]; (split; [exact Hok'|exact HL| |intros x; exact (Hker x)]).
  - destruct (target_own K c L Q N k (current_task s) HL W Hker (ko_table _ Hok)) as [HD Ho].
    assert (Hact : sc_env s = activation_target (process_table k) (paging_kernel_directory_phys (k_pages k)) (current_task s)).
    { exact (eq_trans Hr (f_equal (activation_target (process_table k) (paging_kernel_directory_phys (k_pages k))) (Nat2Z.id (current_task s)))). }
    rewrite <- Hact in HD, Ho. exists (sc_env s). split; [by apply (kw_switch K c)|exact Ho].
  - exists c. split; [done|]. destruct Hown as [|(e & He & Hc & Ht)]; [by left|right]. exists e.
    split_and!; [done|done|]. change (current_task (k_sched (set_k_sched k s))) with (current_task s). by rewrite Hr.
Qed.

(** *** Creation *)

(** The account, when the kernel may have taken frames for itself. *)
Definition accounted (K : Z) (Q : Z -> Prop) (N : Z) k : Prop :=
  exists Q' N' L, account K Q' N' L k /\ (forall g, Q' g -> Q g) /\ N' <= N.

Lemma account_accounted K Q N L k : account K Q N L k -> accounted K Q N k.
Proof. intros Hac. by exists Q, N, L. Qed.

(** Table and tasks stay, only the heap changes. *)
Lemma heap_account K Q N k k' c L :
  kernel_ok k' -> user_entries (process_table k) ≡ₚ L.*1 -> in_own_space K c k -> kernel_entries K k ->
  process_table k' = process_table k -> current_task (k_sched k') = current_task (k_sched k) ->
  kshrinks K c [] (space_of <$> L) Q N k' -> accounted K Q N k'.
Proof.
  intros Hok HL Hown Hker HT HC (Q' & N' & W & HQ & HN). exists Q', N', L. split_and!; [|done|done].
  split; [done|by rewrite HT| |unfold kernel_entries; by rewrite HT]. exists c. split; [done|]. unfold in_own_space. by rewrite HT, HC.
Qed.

Lemma spawn_undo K c D T cf sf S Q N k :
  kworld K c [] (USpace D (Some T) (Some cf) (Some sf) :: S) Q N k -> c ∈ K :: (us_dir <$> S) ->
  kworld K c [] S Q N (free_frame D (free_frame cf (free_frame sf (process_unmap_user_pages D k)))).
Proof.
  intros W Hc. pose proof (kw_other_dir _ _ _ _ _ _ _ _ W Hc) as Hne. apply kw_unmap_pages in W.
  apply kw_dismiss; [|exact Hne]. apply kw_free, kw_free. exact W.
Qed.

(** A free slot holds no user process. *)
Lemma free_slot_users k slot e :
  kernel_ok k -> process_find_free_slot (process_table k) = Some slot ->
  user_entries (<[slot := e]> (process_table k)) ≡ₚ (if is_user e then [e] else []) ++ user_entries (process_table k).
Proof.
  intros Hok Hs. apply find_seq_Some in Hs as (Hslot & Hfree & _). apply negb_true_iff in Hfree.
  rewrite users_insert by (rewrite (to_length _ _ (ko_table _ Hok)); lia).
  rewrite (users_split (process_table k) slot (proc_at (process_table k) slot)) by (apply (proc_at_lookup _ (next_pid k)); [apply Hok|lia]).
  by replace (is_user (proc_at (process_table k) slot)) with false by (unfold is_user; by rewrite Hfree).
Qed.

(** The tail of a spawn, with an address space [u] that is complete or none. *)
Lemma spawn_task_account K c Q N name entry arg (isk : bool) slot cr3 cf sf ue k k1 k' L (u : list uspace) :
  kernel_ok k -> kernel_ok k' -> user_entries (process_table k) ≡ₚ L.*1 -> in_own_space K c k -> kernel_entries K k ->
  process_find_free_slot (process_table k) = Some slot -> same_table k k1 -> c ∈ K :: (us_dir <$> (space_of <$> L)) ->
  (if isk then u = [] /\ cr3 = K /\ cf = 0 /\ sf = 0 else exists T, u = [USpace cr3 (Some T) (Some cf) (Some sf)]) ->
  kshrinks K c [] (u ++ (space_of <$> L)) Q N k1 ->
  snd (spawn_task bootstrap user_task_entry name entry arg isk slot cr3 cf sf ue k1) = k' -> accounted K Q N k'.
Proof.
  intros Hok Hok' HL Hown Hker Hslot (HT & HN & _ & _ & HC & _) Hc Hu W1.
  assert (Hcr : exists e a, (if isk then scheduler_create_task bootstrap entry arg name (k_sched k1)
     else scheduler_create_task bootstrap user_task_entry (Z.of_nat slot + 1) name (k_sched k1)) = scheduler_create_task bootstrap e a name (k_sched k1))
    by (destruct isk; eauto). destruct Hcr as (en & ar & Hcr). unfold spawn_task. rewrite Hcr.
  assert (W2 : kshrinks K c [] (u ++ (space_of <$> L)) Q N (set_k_sched k1 (snd (scheduler_create_task bootstrap en ar name (k_sched k1)))))
    by (apply (hshrinks_bind _ _ _ _ _ _ _ _ _ _ _ W1); intros; by apply kw_create).
  pose proof (create_task_cpu bootstrap en ar name k1) as [HC2 _].
  clear Hcr. destruct (scheduler_create_task bootstrap en ar name (k_sched k1)) as [tid s]. cbn [snd] in W2, HC2. cbv zeta. clear W1.
  assert (HT2 : process_table (set_k_sched k1 s) = process_table k) by exact HT. rewrite HC in HC2.
  revert W2 HC2 HT2. generalize (set_k_sched k1 s). intros k2 W2 HC2 HT2. destruct tid as [tid|].
  - destruct (process_alloc_pid _ _) as [pid next]. cbn [snd]. set (e := Proc _ _ _ _ _ _ _ _ _ _). intros <-.
    pose proof (free_slot_users k slot e Hok Hslot) as Hus. rewrite <- HT2 in Hus.
    destruct W2 as (Q' & N' & W2 & HQ & HN').
    assert (Hin : in_own_space K c (set_table k2 (<[slot := e]> (process_table k2)) next)).
    { destruct Hown as [|(x & Hx & ? & Ht)]; [by left|right]. exists x. split_and!; [|done|cbn; by rewrite Ht, HC2].
      cbn. rewrite Hus, HT2. apply elem_of_app. by right. }
    assert (Hker' : kernel_entries K (set_table k2 (<[slot := e]> (process_table k2)) next)).
    { intros x Hx. cbn in Hx. rewrite HT2 in Hx. apply insert_elem in Hx as [->|Hx]; [|by apply Hker].
      destruct isk; [|done]. destruct Hu as (_ & -> & -> & ->). done. }
    destruct isk.
    + destruct Hu as (-> & _). exists Q', N', L. split_and!; [|done|done]. split; [done|cbn; by rewrite Hus, HT2|by exists c|done].
    + destruct Hu as (T & ->). exists Q', N', ((e, T) :: L). split_and!; [|done|done]. split; [done|cbn; by rewrite Hus, HT2, HL|by exists c|done].
  - destruct isk; cbn [snd]; intros <-.
    + destruct Hu as (-> & _). by apply (heap_account K Q N k k2 c L).
    + destruct Hu as (T & ->). apply (heap_account K Q N k _ c L); [done|done|done|done| | |].
      * change (process_table (process_unmap_user_pages cr3 k2) = process_table k). by rewrite (proj1 (unmap_user_table cr3 k2)).
      * destruct (unmap_user_table cr3 k2) as (_ & _ & _ & _ & Hcu & _). by rewrite <- HC2, <- Hcu.
      * apply (hshrinks_map _ _ _ _ _ _ _ _ _ _ _ W2). intros Q' N' W. by apply (spawn_undo K c cr3 T cf sf).
Qed.

Lemma spawn_account K Q N L name entry arg isk k :
  account K Q N L k -> let k' := snd (process_spawn_common bootstrap user_task_entry name entry arg isk k) in
  kernel_ok k' -> accounted K Q N k'.
Proof.
  intros Hac k'. assert (Hsame : k' = k -> accounted K Q N k') by (intros ->; by apply (account_accounted K Q N L)).
  pose proof Hac as [Hok HL (c & W & Hown) Hker]. pose proof (kw_active _ _ _ _ _ _ _ W) as Hc. revert Hsame. unfold k', process_spawn_common.
  destruct (negb (process_ready k)); [auto|]. destruct (_ && _); [auto|]. destruct (process_find_free_slot _) as [slot|] eqn:Hslot; [|auto].
  intros _ Hok'. destruct isk.
  { apply (spawn_task_account K c Q N name entry arg true slot (paging_kernel_directory_phys (k_pages k)) 0 0 PROCESS_USER_CODE_VADDR k k _ L []); try done.
    - split_and!; [done|by apply (kw_kernel _ _ _ _ _ _ _ W)|done|done].
    - by apply kw_shrinks. }
  destruct (paging_clone_kernel_directory (k_pages k)) as [D p] eqn:Ec.
  destruct (world_clone K [] (space_of <$> L) Q N (k_pages k) D p (hw_world _ _ _ _ _ _ _ W) Ec) as [[-> ->]|(HD & Wc & Hcur)].
  { cbn [Z.eqb snd]. apply (heap_account K Q N k _ c L); [exact Hok'|done..|]. apply kw_shrinks.
    apply (kw_pages K c [] (space_of <$> L)); [done|apply W|apply W]. }
  rewrite (proj2 (Z.eqb_neq D 0)) in * by done.
  assert (W1 : kworld K c [] (USpace D None None None :: (space_of <$> L)) Q N (set_k_pages k p)).
  { apply (kw_pages K c [] (space_of <$> L)); [done|exact Wc|]. rewrite Hcur. apply W. }
  pose proof (set_pages_table p k) as Hst. revert Hst W1 Hok'. generalize (set_k_pages k p). intros k1 Hst W1 Hok'.
  destruct (process_build_user_image D _ name k1) as [r k2] eqn:Eb. pose proof (build_image_table _ _ _ _ _ _ Eb) as [Hst2 _].
  apply (kw_build K c D [] (space_of <$> L) Q N k1 _ _ _ _ W1) in Eb. assert (Hst3 : same_table k k2) by (by transitivity k1).
  destruct r as [[[cf sf] ue]|].
  - destruct Eb as [T Eb]. apply (spawn_task_account K c Q N name entry arg false slot D cf sf ue k k2 _ L [USpace D (Some T) (Some cf) (Some sf)]); try done.
    by exists T.
  - cbn [snd] in *. destruct Hst3 as (HT3 & _ & _ & _ & HC3 & _). apply (heap_account K Q N k _ c L); [exact Hok'|done..|].
    apply (hshrinks_map _ _ _ _ _ _ _ _ _ _ _ Eb). intros Q' N' W'. apply (kw_dismiss K c [] D); [exact W'|].
    apply (kw_other_dir K c [] (USpace D None None None) _ Q' N' k2 W'). exact Hc.
Qed.

(** *** Every operation *)

Lemma accounted_bind K Q N k k' :
  accounted K Q N k -> (forall Q N L, account K Q N L k -> accounted K Q N k') -> accounted K Q N k'.
Proof.
  intros (Q1 & N1 & L & Hac & HQ & HN) Hf. destruct (Hf _ _ _ Hac) as (Q2 & N2 & L2 & ? & ? & ?).
  exists Q2, N2, L2. split_and!; [done|auto|lia].
Qed.

Lemma reap_all_account K Q N L k : account K Q N L k -> exists L', account K Q N L' (process_reap k).
Proof.
  intros Hac. apply (reap_ind (fun k => exists L, account K Q N L k)); [by exists L|].
  intros i k1 Hi [L1 Hac1]. destruct (reap_account K Q N L1 i k1 Hi Hac1) as (_ & L' & _ & _ & Hac'). by exists L'.
Qed.

(** Whatever the kernel does, the account is kept. *)
Lemma step_accounted guard K Q N k k' : k_step bootstrap user_task_entry guard k k' -> accounted K Q N k -> accounted K Q N k'.
Proof.
  intros Hstep Hac. apply (accounted_bind K Q N k k' Hac). clear Q N Hac. intros Q N L Hac.
  pose proof (step_kernel_ok bootstrap user_task_entry guard k k' (ac_ok _ _ _ _ _ Hac) Hstep) as Hok'.
  pose proof Hac as [Hok HL (c & W & Hown) Hker].
  destruct Hstep as [name entry arg isk _|entry arg name _| |sp|sp|sp| |name data].
  - by apply (spawn_account K Q N L).
  - apply (heap_account K Q N k _ c L); [done|done|done|done|done|apply create_task_cpu|by apply kw_create].
  - destruct (reap_all_account K Q N L k Hac) as [L' Hac']. by apply (account_accounted K Q N L').
  - apply (account_accounted K Q N L). apply on_sched_account; [apply yield_activates|done|exact Hok'].
  - apply (account_accounted K Q N L). apply on_sched_account; [apply exit_activates|done|exact Hok'].
  - apply (account_accounted K Q N L). apply on_sched_account; [apply pending_activates|done|exact Hok'].
  - apply (heap_account K Q N k _ c L); [exact Hok'|done|done|done|done| |apply kw_shrinks];
      unfold k_tick, scheduler_on_tick; destruct (negb _); done.
  - apply (heap_account K Q N k _ c L); [exact Hok'|done|done|done|done|done|]. by apply kw_write_file.
Qed.

(** *** What user code reaches *)

Definition own_frames (e : process_entry_t) : list Z := [pe_cr3 e; pe_user_code_frame e; pe_user_stack_frame e].

(** User code of a process reaches the code page and the stack page of that process and
    nothing else; the frames behind them are neither free, nor another process's, nor a
    directory or a page table. *)
Record isolated (K : Z) k : Prop := {
  is_reach : forall e v, e ∈ user_entries (process_table k) -> is_u32 v ->
    user_page (pg_mem (k_pages k)) (pe_cr3 e) v <->
    page_of v = page_of PROCESS_USER_CODE_VADDR \/ page_of v = page_of (PROCESS_USER_STACK_TOP - 4096);
  is_code : forall e, e ∈ user_entries (process_table k) ->
    lookup_page (pg_mem (k_pages k)) (pe_cr3 e) PROCESS_USER_CODE_VADDR = Some (pte_for (pe_user_code_frame e) USER_FLAGS);
  is_stack : forall e, e ∈ user_entries (process_table k) ->
    lookup_page (pg_mem (k_pages k)) (pe_cr3 e) (PROCESS_USER_STACK_TOP - 4096) = Some (pte_for (pe_user_stack_frame e) USER_FLAGS);
  is_apart : NoDup (user_entries (process_table k) ≫= own_frames);
  is_held : forall f, f ∈ user_entries (process_table k) ≫= own_frames -> f <> K /\ ~ fa_is_free (pg_frames (k_pages k)) f;
  is_tables : forall e D j, e ∈ user_entries (process_table k) -> D ∈ K :: (pe_cr3 <$> user_entries (process_table k)) ->
    0 <= j < 1024 -> present (entry (pg_mem (k_pages k)) D j) = true ->
    table_of (entry (pg_mem (k_pages k)) D j) ∉ [pe_user_code_frame e; pe_user_stack_frame e];
}.

(** The space of a user process, first in the account. *)
Lemma account_pick K Q N L k e :
  account K Q N L k -> e ∈ user_entries (process_table k) ->
  exists t S c, kworld K c [] (space_of (e, t) :: S) Q N k /\ in_own_space K c k.
Proof.
  intros [_ HL (c & W & Hown) _] He. rewrite HL in He. apply list_elem_of_fmap in He as ([e' t] & -> & Hin).
  apply list_elem_of_split in Hin as (l1 & l2 & ->). exists t, (space_of <$> l1 ++ l2), c. split; [|done].
  apply (kworld_perm K c [] [] (space_of <$> l1 ++ (e', t) :: l2)); [done| |done]. by rewrite <- Permutation_middle.
Qed.

Lemma own_sublist (L : list (process_entry_t * Z)) : (L.*1 ≫= own_frames) `sublist_of` owned [] (space_of <$> L).
Proof.
  induction L as [|[e t] L IH]; [done|]. change (own_frames e ++ (L.*1 ≫= own_frames) `sublist_of` us_frames (space_of (e, t)) ++ owned [] (space_of <$> L)).
  apply sublist_app; [|done]. unfold own_frames, us_frames. cbn. by repeat constructor.
Qed.

Lemma account_isolated K Q N L k : account K Q N L k -> isolated K k.
Proof.
  intros Hac. pose proof Hac as [Hok HL (c & W & Hown) Hker]. pose proof (hw_world _ _ _ _ _ _ _ W) as Wp.
  assert (Hpick : forall e, e ∈ user_entries (process_table k) -> exists t S, world K [] (space_of (e, t) :: S) Q N (k_pages k)).
  { intros e He. destruct (account_pick K Q N L k e Hac He) as (t & S & c' & W' & _). exists t, S. apply (hw_world _ _ _ _ _ _ _ W'). }
  assert (Hown_in : forall f, f ∈ user_entries (process_table k) ≫= own_frames -> f ∈ owned [] (space_of <$> L)).
  { intros f Hf. rewrite HL in Hf. apply (elem_of_sublist _ _ _ Hf), own_sublist. }
  split.
  - intros e v He Hv. destruct (Hpick e He) as (t & S & We). change (pe_cr3 e) with (us_dir (space_of (e, t))).
    rewrite (world_user_page K [] _ S Q N _ v We Hv). split.
    + intros ([|] & f & Hp & _); [by left|by right].
    + intros [Hp|Hp]; [by exists CodePage, (pe_user_code_frame e)|by exists StackPage, (pe_user_stack_frame e)].
  - intros e He. destruct (Hpick e He) as (t & S & We). by apply (world_lookup K [] _ S Q N _ CodePage _ _ We eq_refl (page_addr_u32 CodePage)).
  - intros e He. destruct (Hpick e He) as (t & S & We). by apply (world_lookup K [] _ S Q N _ StackPage _ _ We eq_refl (page_addr_u32 StackPage)).
  - rewrite HL. apply (sublist_NoDup _ (owned [] (space_of <$> L))); [apply Wp|apply own_sublist].
  - intros f Hf. apply Hown_in in Hf. split; [intros ->; by apply (wo_apart _ _ _ _ _ _ Wp)|].
    apply fa_given_used. by apply (wo_given _ _ _ _ _ _ Wp).
  - intros e D j He HD Hj Hpres. rewrite HL in He, HD. apply list_elem_of_fmap in He as (x & -> & Hx).
    assert (HD' : D ∈ K :: (us_dir <$> (space_of <$> L))).
    { apply elem_of_cons in HD as [->|HD]; [left|right]. apply list_elem_of_fmap in HD as (y & -> & Hy). apply list_elem_of_fmap in Hy as (z & -> & Hz).
      apply list_elem_of_fmap. exists (space_of z). split; [done|by apply list_elem_of_fmap_2]. }
    assert (Hn : forall b f, us_page (space_of x) b = Some f -> table_of (entry (pg_mem (k_pages k)) D j) <> f).
    { intros b f Hb. apply (page_not_table K [] (space_of <$> L) Q N (k_pages k) (space_of x) b); try done. by apply list_elem_of_fmap_2. }
    intros [Hin|Hin%list_elem_of_singleton]%elem_of_cons; [by apply (Hn CodePage _ eq_refl)|by apply (Hn StackPage _ eq_refl)].
Qed.

(** *** User code *)

(** User code runs in the address space of its process, never in the kernel's. *)
Definition user_mode k : Prop := paging_current_directory_phys (k_pages k) <> paging_kernel_directory_phys (k_pages k).

(** Memory differs in the code and the stack of process [e] only. *)
Definition writes_own (e : process_entry_t) k k' : Prop :=
  exists m', k' = set_k_pages k (set_pg_mem (k_pages k) m') /\
    forall a, rd8 m' a <> rd8 (pg_mem (k_pages k)) a ->
      exists f, f ∈ [pe_user_code_frame e; pe_user_stack_frame e] /\ f <= a < f + 4096.

Lemma user_mode_own K c Q N S k :
  kworld K c [] S Q N k -> in_own_space K c k -> user_mode k ->
  exists e, e ∈ user_entries (process_table k) /\ pe_cr3 e = c /\ pe_tid e = current_task (k_sched k).
Proof.
  intros W Hown Hu. unfold user_mode in Hu. rewrite (kw_previous _ _ _ _ _ _ _ W) in Hu. unfold paging_kernel_directory_phys in Hu.
  rewrite (kw_kernel _ _ _ _ _ _ _ W) in Hu. by destruct Hown.
Qed.

(** An access of user code goes to the process that runs. *)
Lemma user_target K Q N L k :
  account K Q N L k -> user_mode k ->
  exists e, e ∈ user_entries (process_table k) /\ pe_tid e = current_task (k_sched k) /\
    forall v, is_u32 v -> user_page (pg_mem (k_pages k)) (paging_active_directory (k_pages k)) v ->
      pd_index_of v = USER_PD /\
      exists f a, f ∈ [pe_user_code_frame e; pe_user_stack_frame e] /\ paging_translate v (k_pages k) = Some a /\ f <= a < f + 4096.
Proof.
  intros Hac Hu. destruct (ac_world _ _ _ _ _ Hac) as (c & W & Hown). destruct (user_mode_own K c Q N _ k W Hown Hu) as (e & He & Hc & Ht).
  exists e. split; [done|]. split; [done|]. intros v Hv Hp. destruct (account_pick K Q N L k e Hac He) as (t & S & c' & W' & _).
  assert (c' = c) as -> by (by rewrite <- (hw_current _ _ _ _ _ _ _ W'), <- (hw_current _ _ _ _ _ _ _ W)).
  pose proof (hw_world _ _ _ _ _ _ _ W') as Wp. pose proof (hw_current _ _ _ _ _ _ _ W') as Hcur. change (hp_pages (k_heap k)) with (k_pages k) in *.
  rewrite (world_active _ _ _ _ _ _ Wp), Hcur, <- Hc in Hp. change (pe_cr3 e) with (us_dir (space_of (e, t))) in Hp.
  apply (world_user_page K [] _ S Q N _ v Wp Hv) in Hp as (b & f & Hpg & Hb). split; [by apply (page_of_index v b) in Hpg as [? _]|].
  exists f, (f + v `mod` 4096). split; [destruct b; cbn in Hb; simplify_eq; set_solver|]. split.
  - apply (page_translate K [] (space_of (e, t)) S Q N _ b f v Wp); [by rewrite Hcur|done|done|done].
  - pose proof (Z.mod_pos_bound v 4096 ltac:(lia)). lia.
Qed.

Lemma writes_own_account K Q N L e k k' :
  account K Q N L k -> e ∈ user_entries (process_table k) -> writes_own e k k' -> account K Q N L k'.
Proof.
  intros Hac He (m' & -> & Hm). pose proof Hac as [Hok HL (c & W & Hown) Hker]. split; [by apply pages_kernel_ok|done| |done].
  exists c. split; [|done]. apply (kw_pages K c [] (space_of <$> L)); [done| |apply W].
  pose proof (hw_world _ _ _ _ _ _ _ W) as Wp. change (hp_pages (k_heap k)) with (k_pages k) in *. apply world_bytes; [done|].
  intros t Ht a Ha. destruct (decide (rd8 m' a = rd8 (pg_mem (k_pages k)) a)) as [|Hne]; [done|]. exfalso.
  destruct (Hm a Hne) as (f & Hf & Hfa). rewrite HL in He. apply list_elem_of_fmap in He as (x & -> & Hx).
  assert (Hb : exists b, us_page (space_of x) b = Some f).
  { apply elem_of_cons in Hf as [->|Hf]; [|apply list_elem_of_singleton in Hf as ->]; [by exists CodePage|by exists StackPage]. }
  destruct Hb as [b Hb]. assert (Hxs : space_of x ∈ space_of <$> L) by (by apply list_elem_of_fmap_2).
  pose proof (page_not_struct _ _ _ _ _ _ (space_of x) b f Wp Hxs Hb) as Hns.
  pose proof (world_aligned K [] (space_of <$> L) Q N _ t Wp (struct_listed _ _ _ _ Ht)) as Hta.
  assert (Hfa' : aligned f).
  { apply (wo_given _ _ _ _ _ _ Wp f). apply owned_elem. right. exists (space_of x). split; [done|by apply (page_owned _ b)]. }
  assert (t = f) by (unfold aligned in *; Z.div_mod_to_equations; lia). by subst t.
Qed.

End Processes.
