(* ===== verification/Exec.v ===== *)
(** kernel/exec.c: the registry of built-in programs, and kernel/timer.c: the
    tick counter.

    The two kernel programs are known by the addresses of their functions. *)
From Stdlib Require Import ZArith Lia Bool List.
From stdpp Require Import base gmap list numbers option.
From S2P Require Import Prelude CStr Interfaces Paging Kheap Scheduler Ipc Vfs Loader Process.
#[local] Open Scope Z_scope.

(** ** Programs *)

Inductive exec_mode_t := EXEC_MODE_KERNEL | EXEC_MODE_USER.

#[export] Instance exec_mode_eq_dec : EqDecision exec_mode_t.
Proof. solve_decision. Defined.

Record program_entry_t := Program {
  pg_name : list Z;
  pg_mode : exec_mode_t;
  pg_entry : Z;
  pg_user_prog_id : Z;
}.

Section Exec.
Context {A : Type} `{FrameAllocator A}.
Context (bootstrap user_task_entry app_counter app_writer : Z).
Implicit Types (k : kernel A).

(** "counter", "writer", "hello_ping", "helloapp", "userprobe" and "uping". *)
Definition programs : list program_entry_t :=
  [Program [99; 111; 117; 110; 116; 101; 114] EXEC_MODE_KERNEL app_counter 0;
   Program [119; 114; 105; 116; 101; 114] EXEC_MODE_KERNEL app_writer 0;
   Program [104; 101; 108; 108; 111; 95; 112; 105; 110; 103] EXEC_MODE_USER 0 0;
   Program [104; 101; 108; 108; 111; 97; 112; 112] EXEC_MODE_USER 0 0;
   Program [117; 115; 101; 114; 112; 114; 111; 98; 101] EXEC_MODE_USER 0 1;
   Program [117; 112; 105; 110; 103] EXEC_MODE_USER 0 2].

Definition exec_program_count : Z := Z.of_nat (length programs).

(** [None] is a null pointer. *)
Definition exec_program_name_at (index : Z) : option (list Z) :=
  if exec_program_count <=? index then None else pg_name <$> programs !! Z.to_nat index.

Definition exec_name_copy_at (index : Z) (out : list Z) (out_size : nat) : Z * list Z :=
  match exec_program_name_at index with
  | None => (-1, out)
  | Some name => str_copy_checked out out_size (Some name)
  end.

Fixpoint spawn_named (name : list Z) (i : Z) (ps : list program_entry_t) k : Z * kernel A :=
  match ps with
  | [] => (-1, k)
  | p :: ps' =>
      if str_eq (pg_name p) name then
        let '(pid, k) :=
          if bool_decide (pg_mode p = EXEC_MODE_USER)
          then process_spawn_user bootstrap user_task_entry (Some (pg_name p)) 0 (pg_user_prog_id p) k
          else process_spawn_kernel bootstrap user_task_entry (Some (pg_name p)) (pg_entry p) (i + 1) k in
        (if pid <? 0 then -1 else pid, k)
      else spawn_named name (i + 1) ps' k
  end.

Definition exec_spawn (name : list Z) k : Z * kernel A := spawn_named name 0 programs k.

End Exec.

(** ** The timer *)

Definition PIT_INPUT_HZ : Z := 1193182.

Record timer := Timer { timer_ticks : Z; timer_hz : Z }.

(** The state, and the bytes written to the ports 0x43 and 0x40. *)
Definition timer_init (hz : Z) : timer * list (Z * Z) :=
  let hz := if hz =? 0 then 100 else hz in
  let divisor := PIT_INPUT_HZ / hz in
  let divisor := if divisor =? 0 then 1 else divisor in
  (Timer 0 hz, [(67, 54); (64, Z.land divisor 255); (64, Z.land (Z.shiftr divisor 8) 255)]).

(** The tick counter of [timer_isr], which then calls [scheduler_on_tick]. *)
Definition timer_tick (t : timer) : timer := Timer ((timer_ticks t + 1) `mod` 18446744073709551616) (timer_hz t).

(** The two halves of the counter, read with interrupts off and joined. *)
Definition timer_read_ticks_atomic (t : timer) : Z :=
  Z.lor (Z.shiftl (u32 (Z.shiftr (timer_ticks t) 32)) 32) (u32 (timer_ticks t)).
Definition timer_get_ticks (t : timer) : Z := timer_read_ticks_atomic t.
Definition timer_get_ticks32 (t : timer) : Z := u32 (timer_read_ticks_atomic t).
Definition timer_get_hz (t : timer) : Z := timer_hz t.
Definition timer_get_uptime_seconds (t : timer) : Z := u32 (timer_read_ticks_atomic t) / timer_hz t.
