(* ===== verification/Syscall.v ===== *)
(** kernel/syscall.c: the system calls, the boundary between user programs and the
    kernel.

    A pointer that a program passes is a virtual address of the active address
    space. The bytes behind it are those of physical memory at the address the page
    tables translate it to, or, in the window of the kernel heap, those of the
    heap's memory. A call that fills a buffer uses the translation the call started
    with. *)
From Stdlib Require Import ZArith Lia Bool List.
From stdpp Require Import base gmap list numbers option sets.
From S2P Require Import Prelude CStr Interfaces Paging Kheap Scheduler Ipc Vfs Loader Process Exec.
#[local] Open Scope Z_scope.

(** ** Data *)

Definition SYSCALL_GET_TICKS32 : Z := 0.
Definition SYSCALL_GET_HEAP_TOTAL : Z := 1.
Definition SYSCALL_GET_HEAP_USED : Z := 2.
Definition SYSCALL_GET_TASK_COUNT : Z := 3.
Definition SYSCALL_GET_RUNNABLE_COUNT : Z := 4.
Definition SYSCALL_GET_CURRENT_TASK : Z := 5.
Definition SYSCALL_VFS_COUNT : Z := 6.
Definition SYSCALL_VFS_READ : Z := 7.
Definition SYSCALL_VFS_WRITE : Z := 8.
Definition SYSCALL_PROCESS_COUNT : Z := 9.
Definition SYSCALL_PROCESS_CURRENT : Z := 10.
Definition SYSCALL_EXEC_COUNT : Z := 11.
Definition SYSCALL_EXEC_SPAWN : Z := 12.
Definition SYSCALL_EXEC_NAME_AT : Z := 13.
Definition SYSCALL_IPC_SEND : Z := 14.
Definition SYSCALL_IPC_RECV : Z := 15.
Definition SYSCALL_IPC_PENDING : Z := 16.
Definition SYSCALL_USER_PING : Z := 17.
Definition SYSCALL_USER_PING_COUNT : Z := 18.
Definition SYSCALL_PROCESS_EXIT : Z := 19.

Definition SYSCALL_DENIED : Z := 4294967293.

Record machine (A : Type) := Machine {
  m_kernel : kernel A;
  m_ipc : ipc_state;
  m_timer : timer;
  user_ping_count : Z;
}.
Arguments Machine {A}.
Arguments m_kernel {A}.
Arguments m_ipc {A}.
Arguments m_timer {A}.
Arguments user_ping_count {A}.

(** ** Checking pointers *)

Section Pointers.
Context {A : Type} `{FrameAllocator A}.
Implicit Types (p : paging_state A) (k : kernel A).

Definition mapped_body p (end_ : Z) (page : Z) : Z + bool :=
  match paging_translate page p with
  | None => inr false
  | Some _ => if Z.land end_ 4294963200 <=? page then inr true else inl (page ⊞ 4096)
  end.

(** [None] is a walk that does not end. *)
Definition ptr_range_mapped (ptr size : Z) p : option bool :=
  if (ptr =? 0) || (size =? 0) then Some false else
  if UINT32_MAX ⊟ (size ⊟ 1) <? ptr then Some false else
  let end_ := (ptr ⊞ size) ⊟ 1 in
  loop PAGE_WALK_FUEL (mapped_body p end_) (Z.land ptr 4294963200).

Definition ptr_range_ok (ptr size : Z) (user_only : bool) p : option bool :=
  match ptr_range_mapped ptr size p with
  | None => None
  | Some false => Some false
  | Some true => if user_only then paging_user_accessible ptr size p else Some true
  end.

(** Both walks end, so the default is never used. *)
Definition range_ok (ptr size : Z) (user_only : bool) k : bool :=
  default false (ptr_range_ok ptr size user_only (k_pages k)).

(** *** Memory behind a pointer *)

Definition in_heap (v : Z) k : bool := (KHEAP_START <=? v) && (v <? heap_end (k_heap k)).

Definition vload8 (v : Z) k : Z :=
  if in_heap v k then rd8 (hp_mem (k_heap k)) v else
  match paging_translate v (k_pages k) with Some a => rd8 (pg_mem (k_pages k)) a | None => 0 end.

Definition vload (v : Z) (n : nat) k : list Z := map (fun i => vload8 (v + Z.of_nat i) k) (seq 0 n).

(** A store with the translation of [k0]. *)
Definition vstore8 k0 (v b : Z) k : kernel A :=
  if in_heap v k0 then set_k_heap k (set_hp_mem (k_heap k) (wr8 (hp_mem (k_heap k)) v b)) else
  match paging_translate v (k_pages k0) with
  | Some a => set_k_pages k (set_pg_mem (k_pages k) (wr8 (pg_mem (k_pages k)) a b))
  | None => k
  end.

Fixpoint vstore k0 (v : Z) (bs : list Z) k : kernel A :=
  match bs with
  | [] => k
  | b :: bs' => vstore k0 (v + 1) bs' (vstore8 k0 v b k)
  end.

(** *** Strings from the caller *)

(** From index [i] with [room] bytes before the last one of [dst]; [None] is the
    result UINT32_MAX. *)
Fixpoint copy_in_loop (room : nat) (i : nat) (dst : list Z) (src : Z) (user_only : bool) k : option nat * list Z :=
  let p := src ⊞ Z.of_nat i in
  if negb (range_ok p 1 user_only k) then (None, dst) else
  match room with
  | O => if negb (vload8 p k =? 0) then (None, dst) else (Some i, <[i := 0]> dst)
  | S r => if vload8 p k =? 0 then (Some i, <[i := 0]> dst)
           else copy_in_loop r (S i) (<[i := vload8 p k]> dst) src user_only k
  end.

Definition copy_in_string (dst : list Z) (dst_size : nat) (src : Z) (user_only : bool) k : option nat * list Z :=
  match dst_size with
  | O => (None, dst)
  | S room => if src =? 0 then (None, dst) else copy_in_loop room 0 dst src user_only k
  end.

(** A local array of [n] bytes filled by [copy_in_string]; [None] if that failed. *)
Definition get_string (n : nat) (src : Z) (user_only : bool) k : option (list Z) :=
  let '(r, buf) := copy_in_string (replicate n 0) n src user_only k in
  match r with Some _ => Some buf | None => None end.

End Pointers.

(** ** The dispatcher *)

Section Dispatch.
Context {A : Type} `{FrameAllocator A}.
Context (bootstrap user_task_entry app_counter app_writer : Z).
Implicit Types (m : machine A).

Definition set_m_kernel m (k : kernel A) : machine A := Machine k (m_ipc m) (m_timer m) (user_ping_count m).
Definition set_m_ipc m (s : ipc_state) : machine A := Machine (m_kernel m) s (m_timer m) (user_ping_count m).
Definition set_m_ping m (n : Z) : machine A := Machine (m_kernel m) (m_ipc m) (m_timer m) n.

(** The handler of the timer interrupt. *)
Definition timer_isr m : machine A :=
  Machine (k_tick (m_kernel m)) (m_ipc m) (timer_tick (m_timer m)) (user_ping_count m).

(** Filling the caller's buffer: [f] maps its old contents to a result and new
    contents. *)
Definition fill_buffer (out_ptr out_size : Z) (f : list Z -> Z * list Z) (k : kernel A) : Z * kernel A :=
  let '(r, bs) := f (vload out_ptr (Z.to_nat out_size) k) in (u32 r, vstore k out_ptr bs k).

Definition sys_vfs_read (name_ptr out_ptr out_size : Z) (user_only : bool) m : Z * machine A :=
  let k := m_kernel m in
  match get_string 40 name_ptr user_only k with
  | None => (UINT32_MAX, m)
  | Some name =>
      if hd 0 name =? 0 then (UINT32_MAX, m) else
      if negb (range_ok out_ptr out_size user_only k) then (UINT32_MAX, m) else
      let '(r, k) := fill_buffer out_ptr out_size (fun out =>
        let '(r, o) := vfs_read_file_into (Some name) (Some out) (Z.to_nat out_size) (k_vfs k) in (r, default out o)) k in
      (r, set_m_kernel m k)
  end.

Definition sys_vfs_write (name_ptr data_ptr : Z) (user_only : bool) m : Z * machine A :=
  let k := m_kernel m in
  match get_string 40 name_ptr user_only k with
  | None => (0, m)
  | Some name =>
      if hd 0 name =? 0 then (0, m) else
      match get_string 128 data_ptr user_only k with
      | None => (0, m)
      | Some data =>
          let '(ok, s) := vfs_write_file (Some name) (Some data) (k_vfs k) in
          (if ok then 1 else 0, set_m_kernel m (set_k_vfs k s))
      end
  end.

Definition sys_exec_spawn (name_ptr : Z) (user_only : bool) m : Z * machine A :=
  match get_string 40 name_ptr user_only (m_kernel m) with
  | None => (UINT32_MAX, m)
  | Some name =>
      if hd 0 name =? 0 then (UINT32_MAX, m) else
      let '(r, k) := exec_spawn bootstrap user_task_entry app_counter app_writer name (m_kernel m) in
      (u32 r, set_m_kernel m k)
  end.

Definition sys_exec_name_at (index out_ptr out_size : Z) (user_only : bool) m : Z * machine A :=
  let k := m_kernel m in
  if negb (range_ok out_ptr out_size user_only k) then (UINT32_MAX, m) else
  let '(r, k) := fill_buffer out_ptr out_size (fun out =>
    exec_name_copy_at app_counter app_writer index out (Z.to_nat out_size)) k in
  (r, set_m_kernel m k).

Definition sys_ipc_send (to_pid msg_ptr : Z) (user_only : bool) m : Z * machine A :=
  let from_pid := process_current_pid (m_kernel m) in
  match get_string 64 msg_ptr user_only (m_kernel m) with
  | None => (0, m)
  | Some msg =>
      if hd 0 msg =? 0 then (0, m) else
      let '(ok, s) := ipc_send from_pid to_pid (Some msg) (m_ipc m) in
      (if ok then 1 else 0, set_m_ipc m s)
  end.

Definition sys_ipc_recv (out_ptr out_size : Z) (user_only : bool) m : Z * machine A :=
  let k := m_kernel m in
  if negb (range_ok out_ptr out_size user_only k) then (UINT32_MAX, m) else
  let '(r, out, _, s) := ipc_recv (process_current_pid k) (Some (vload out_ptr (Z.to_nat out_size) k))
                           (Z.to_nat out_size) (m_ipc m) in
  (u32 r, set_m_ipc (set_m_kernel m (vstore k out_ptr (default [] out) k)) s).

(** [frame] are the registers the interrupt stub saved, [sp] the stack pointer a
    task switch would save. *)
Definition syscall_dispatch (frame : list Z) (sp : Z) m : Z * machine A :=
  let syscall_no := nth 7 frame 0 in
  let k := m_kernel m in
  let user_only := negb (process_current_is_kernel k) in
  if negb (process_syscall_allowed syscall_no k) then (SYSCALL_DENIED, m) else
  if syscall_no =? SYSCALL_GET_TICKS32 then (timer_get_ticks32 (m_timer m), m) else
  if syscall_no =? SYSCALL_GET_HEAP_TOTAL then (kheap_total_bytes (k_heap k), m) else
  if syscall_no =? SYSCALL_GET_HEAP_USED then (kheap_used_bytes (k_heap k), m) else
  if syscall_no =? SYSCALL_GET_TASK_COUNT then (scheduler_task_count (k_sched k), m) else
  if syscall_no =? SYSCALL_GET_RUNNABLE_COUNT then (scheduler_runnable_count (k_sched k), m) else
  if syscall_no =? SYSCALL_GET_CURRENT_TASK then (scheduler_current_task_id (k_sched k), m) else
  if syscall_no =? SYSCALL_VFS_COUNT then (vfs_file_count (k_vfs k), m) else
  if syscall_no =? SYSCALL_VFS_READ then sys_vfs_read (nth 4 frame 0) (nth 6 frame 0) (nth 5 frame 0) user_only m else
  if syscall_no =? SYSCALL_VFS_WRITE then sys_vfs_write (nth 4 frame 0) (nth 6 frame 0) user_only m else
  if syscall_no =? SYSCALL_PROCESS_COUNT then (process_count k, m) else
  if syscall_no =? SYSCALL_PROCESS_CURRENT then (process_current_pid k, m) else
  if syscall_no =? SYSCALL_EXEC_COUNT then (exec_program_count app_counter app_writer, m) else
  if syscall_no =? SYSCALL_EXEC_SPAWN then sys_exec_spawn (nth 4 frame 0) user_only m else
  if syscall_no =? SYSCALL_EXEC_NAME_AT then sys_exec_name_at (nth 4 frame 0) (nth 6 frame 0) (nth 5 frame 0) user_only m else
  if syscall_no =? SYSCALL_IPC_SEND then sys_ipc_send (nth 4 frame 0) (nth 6 frame 0) user_only m else
  if syscall_no =? SYSCALL_IPC_RECV then sys_ipc_recv (nth 6 frame 0) (nth 5 frame 0) user_only m else
  if syscall_no =? SYSCALL_IPC_PENDING then (ipc_pending_count (m_ipc m), m) else
  if syscall_no =? SYSCALL_USER_PING then
    let n := user_ping_count m ⊞ 1 in (n, set_m_ping m n) else
  if syscall_no =? SYSCALL_USER_PING_COUNT then (user_ping_count m, m) else
  if syscall_no =? SYSCALL_PROCESS_EXIT then (0, set_m_kernel m (k_exit sp k)) else
  (UINT32_MAX, m).

End Dispatch.

(** ** Lemmas on pointers *)

Lemma user_flags_present e : user_flags_ok e = true -> has_flag e PAGING_FLAG_PRESENT = true.
Proof.
  unfold user_flags_ok. intros E. apply Z.eqb_eq in E. rewrite has_flag_present.
  change (Z.lor PAGING_FLAG_PRESENT PAGING_FLAG_USER) with 5 in E.
  assert (Hb : Z.testbit (Z.land e 5) 0 = true) by (by rewrite E). rewrite Z.land_spec in Hb.
  by apply andb_true_iff in Hb as [? _].
Qed.

Lemma user_page_mapped m D v : user_page m D v -> mapped m D v = true.
Proof.
  intros [Hd Ht]. unfold mapped, lookup_page. by rewrite (user_flags_present _ Hd), (user_flags_present _ Ht).
Qed.

Section PointerLemmas.
Context {A : Type} `{FrameAllocator A}.
Implicit Types (p : paging_state A) (k : kernel A).

Definition active_mapped p (v : Z) : Prop := mapped (pg_mem p) (paging_active_directory p) v = true.
Definition active_user p (v : Z) : Prop := user_page (pg_mem p) (paging_active_directory p) v.

Lemma active_mapped_same p v w :
  is_u32 v -> is_u32 w -> page_of v = page_of w -> active_mapped p v -> active_mapped p w.
Proof.
  intros Hv Hw Hp. apply same_page in Hp as [Hpd Hpt]; auto. unfold active_mapped, mapped, lookup_page.
  by rewrite Hpd, Hpt.
Qed.

Lemma mapped_cases p ptr size :
  paging_is_enabled p = true -> is_u32 ptr -> is_u32 size ->
  exists b, ptr_range_mapped ptr size p = Some b /\
    (b = true <-> ptr <> 0 /\ 0 < size /\ ptr + size <= 4294967296 /\ forall v, ptr <= v < ptr + size -> active_mapped p v).
Proof.
  intros Hen Hp Hs. unfold ptr_range_mapped, UINT32_MAX. unfold is_u32 in *.
  destruct (Z.eqb_spec ptr 0) as [->|Hz]; cbn [orb]; [exists false; split; [done|]; split; [done|lia]|].
  destruct (Z.eqb_spec size 0) as [->|Hne]; [exists false; split; [done|]; split; [done|lia]|].
  rewrite (u32_small (size - 1)) by lia. rewrite (u32_small (_ - (size - 1))) by lia.
  destruct (Z.ltb_spec (4294967295 - (size - 1)) ptr); [exists false; split; [done|]; split; [done|lia]|].
  rewrite range_last by (unfold is_u32; lia).
  destruct (page_walk (mapped_body p (ptr + size - 1)) (active_mapped p) ptr (ptr + size - 1)) as (b & Hb & Hiff);
    try (unfold is_u32; lia); [by apply active_mapped_same| |].
  - intros page Hpg. unfold mapped_body. rewrite translate_eq by done. unfold active_mapped, mapped.
    destruct (lookup_page _ _ page); cbn; [by right|by left].
  - exists b. split; [done|]. rewrite Hiff. split.
    + intros Hall. split_and!; try lia. intros v Hv. apply Hall. lia.
    + intros (_ & _ & _ & Hall) v Hv. apply Hall. lia.
Qed.

(** What a checked range is: not null, not empty, inside the address space, and every
    byte mapped, for a user process to a user page. *)
Definition good_range (ptr size : Z) (user_only : bool) p : Prop :=
  ptr <> 0 /\ 0 < size /\ ptr + size <= 4294967296 /\
  forall v, ptr <= v < ptr + size -> if user_only then active_user p v else active_mapped p v.

Lemma range_cases p ptr size user_only :
  paging_is_enabled p = true -> is_u32 ptr -> is_u32 size ->
  exists b, ptr_range_ok ptr size user_only p = Some b /\ (b = true <-> good_range ptr size user_only p).
Proof.
  intros Hen Hp Hs. unfold ptr_range_ok, good_range.
  destruct (mapped_cases p ptr size Hen Hp Hs) as (b & -> & Hb). destruct b.
  - destruct (proj1 Hb eq_refl) as (Hz & Hne & Hr & Hm). destruct user_only.
    + destruct (user_accessible_cases p ptr size Hen Hp Hs) as (b & -> & Hu). exists b. split; [done|].
      rewrite Hu. split; [intros (_ & _ & Hv)|intros (_ & _ & _ & Hv)]; split_and!; auto.
    + exists true. split; [done|]. split; [|done]. by intros _.
  - exists false. split; [done|]. rewrite Hb. split; intros (Hz & Hne & Hr & Hv); split_and!; auto.
    + intros v Hvr. destruct user_only; [|auto]. exfalso. enough (false = true) by done. by apply Hb.
    + intros v Hvr. specialize (Hv v Hvr). destruct user_only; [|done]. by apply user_page_mapped.
Qed.

Lemma range_ok_spec k ptr size user_only :
  paging_is_enabled (k_pages k) = true -> is_u32 ptr -> is_u32 size ->
  range_ok ptr size user_only k = true <-> good_range ptr size user_only (k_pages k).
Proof.
  intros Hen Hp Hs. unfold range_ok. destruct (range_cases (k_pages k) ptr size user_only Hen Hp Hs) as (b & -> & Hb).
  exact Hb.
Qed.

(** ** Lemmas on memory *)

(** A store through user pages changes physical memory only, and only where those
    pages are. *)
Definition stored k v n k' : Prop :=
  exists m', k' = set_k_pages k (set_pg_mem (k_pages k) m') /\
    forall a, rd8 m' a <> rd8 (pg_mem (k_pages k)) a ->
      exists u, v <= u < v + Z.of_nat n /\ u < 4294967296 /\ active_user (k_pages k) u /\ paging_translate u (k_pages k) = Some a.

Lemma set_pages_id k : set_k_pages k (set_pg_mem (k_pages k) (pg_mem (k_pages k))) = k.
Proof. by destruct k as [[[[]]]]. Qed.

Lemma stored_nothing k v n : stored k v n k.
Proof. exists (pg_mem (k_pages k)). split; [by rewrite set_pages_id|done]. Qed.

Lemma vstore_stored k0 bs : forall v k,
  (exists m, k = set_k_pages k0 (set_pg_mem (k_pages k0) m)) ->
  (forall i, (i < length bs)%nat -> in_heap (v + Z.of_nat i) k0 = false) ->
  exists m m', k = set_k_pages k0 (set_pg_mem (k_pages k0) m) /\
    vstore k0 v bs k = set_k_pages k0 (set_pg_mem (k_pages k0) m') /\
    forall a, rd8 m' a <> rd8 m a ->
      exists u, v <= u < v + Z.of_nat (length bs) /\ paging_translate u (k_pages k0) = Some a.
Proof.
  induction bs as [|b bs IH]; intros v k [m ->] Hh; cbn [vstore].
  { exists m, m. split_and!; done. }
  unfold vstore8. pose proof (Hh 0%nat ltac:(simpl; lia)) as H0. rewrite Z.add_0_r in H0. rewrite H0.
  assert (Hh' : forall i, (i < length bs)%nat -> in_heap (v + 1 + Z.of_nat i) k0 = false).
  { intros i Hi. specialize (Hh (S i) ltac:(simpl; lia)). by replace (v + 1 + Z.of_nat i) with (v + Z.of_nat (S i)) by lia. }
  destruct (paging_translate v (k_pages k0)) as [a0|] eqn:Et.
  - match goal with |- context [vstore k0 (v + 1) bs ?k1] =>
      change k1 with (set_k_pages k0 (set_pg_mem (k_pages k0) (wr8 m a0 b))) end.
    destruct (IH (v + 1) (set_k_pages k0 (set_pg_mem (k_pages k0) (wr8 m a0 b)))) as (m1 & m' & E1 & -> & Hm);
      [by eexists|done|]. apply (f_equal (fun k => pg_mem (k_pages k))) in E1. cbn in E1. subst m1.
    exists m, m'. split_and!; [done..|]. intros a Ha. destruct (decide (rd8 m' a = rd8 (wr8 m a0 b) a)) as [Heq|Hne].
    + exists v. split; [simpl length; lia|]. destruct (decide (a0 = a)) as [->|Hna]; [done|].
      rewrite Heq, rd8_wr8_ne in Ha; [done|congruence].
    + destruct (Hm a Hne) as (u & Hu & Hta). exists u. split; [simpl length; lia|done].
  - destruct (IH (v + 1) (set_k_pages k0 (set_pg_mem (k_pages k0) m))) as (m1 & m' & E1 & -> & Hm);
      [by eexists|done|]. apply (f_equal (fun k => pg_mem (k_pages k))) in E1. cbn in E1. subst m1.
    exists m, m'. split_and!; [done..|]. intros a Ha. destruct (Hm a Ha) as (u & Hu & Hta).
    exists u. split; [simpl length; lia|done].
Qed.

(** The heap's pages are not user pages. *)
Definition heap_private k : Prop := forall v, in_heap v k = true -> ~ active_user (k_pages k) v.

Lemma fill_stored k ptr size bs :
  heap_private k -> good_range ptr size true (k_pages k) -> Z.of_nat (length bs) <= size ->
  stored k ptr (Z.to_nat size) (vstore k ptr bs k).
Proof.
  intros Hp (_ & Hs & Hend & Hu) Hl. destruct (vstore_stored k bs ptr k) as (m & m' & Ek & -> & Hm).
  - exists (pg_mem (k_pages k)). by rewrite set_pages_id.
  - intros i Hi. destruct (in_heap (ptr + Z.of_nat i) k) eqn:E; [|done]. exfalso. apply (Hp _ E). apply Hu. lia.
  - apply (f_equal (fun k => pg_mem (k_pages k))) in Ek. cbn in Ek. subst m.
    exists m'. split; [done|]. intros a Ha. destruct (Hm a Ha) as (u & Hur & Ht). exists u. split_and!; [lia|lia|lia|apply Hu; lia|done].
Qed.

(** ** Lemmas on strings *)

Section CopyIn.
Context (src : Z) (user_only : bool) (k : kernel A).

(** The [i]-th byte of the caller's string, and whether it may be read. *)
Definition str_acc (i : nat) : bool := range_ok (src ⊞ Z.of_nat i) 1 user_only k.
Definition str_byte (i : nat) : Z := vload8 (src ⊞ Z.of_nat i) k.
Definition str_bytes (n : nat) : list Z := map str_byte (seq 0 n).

(** The first [n] bytes may be read and are not the terminator. *)
Definition str_prefix (n : nat) : Prop := forall i, (i < n)%nat -> str_acc i = true /\ str_byte i <> 0.

Lemma str_prefix_S n : str_prefix n -> str_acc n = true -> str_byte n <> 0 -> str_prefix (S n).
Proof. intros Hp Ha Hb i Hi. destruct (decide (i = n)) as [->|]; [done|]. apply Hp. lia. Qed.

Lemma str_bytes_S n : str_bytes (S n) = str_bytes n ++ [str_byte n].
Proof. unfold str_bytes. by rewrite seq_S, map_app. Qed.

Definition copied (n : nat) (dst : list Z) (r : option nat * list Z) : Prop :=
  match r with
  | (Some len, dst') => (len < n)%nat /\ str_prefix len /\ str_acc len = true /\ str_byte len = 0 /\
      length dst' = length dst /\ c_str dst' = str_bytes len
  | (None, _) => exists i, (i < n)%nat /\ str_prefix i /\
      (str_acc i = false \/ (i = (n - 1)%nat /\ str_acc i = true /\ str_byte i <> 0))
  end.

Lemma copied_end n dst len :
  (len < n)%nat -> (n <= length dst)%nat -> str_prefix len -> str_acc len = true -> str_byte len = 0 ->
  take len dst = str_bytes len -> copied n dst (Some len, <[len := 0]> dst).
Proof.
  intros Hl Hn Hp Ha Hb Ht. cbn. split_and!; auto; [by rewrite length_insert|].
  rewrite insert_take_drop by lia. rewrite Ht, c_str_app; [by rewrite app_nil_r|].
  apply Forall_forall. intros x Hx. unfold str_bytes in Hx. apply list_elem_of_fmap in Hx as (i & -> & Hi).
  apply elem_of_seq in Hi. apply Hp. lia.
Qed.

Lemma copy_in_cases room : forall i dst n,
  n = (i + S room)%nat -> (n <= length dst)%nat -> str_prefix i -> take i dst = str_bytes i ->
  copied n dst (copy_in_loop room i dst src user_only k).
Proof.
  induction room as [|room IH]; intros i dst n Hn Hl Hp Ht; cbn [copy_in_loop];
    fold (str_acc i) (str_byte i); destruct (str_acc i) eqn:Ha; cbn [negb];
    try (exists i; split_and!; [lia|done|by left]).
  - destruct (Z.eqb_spec (str_byte i) 0) as [Hz|Hz]; cbn [negb]; [apply copied_end; auto; lia|].
    exists i. split_and!; [lia|done|]. right. split_and!; [lia|done|done].
  - destruct (Z.eqb_spec (str_byte i) 0) as [Hz|Hz]; [apply copied_end; auto; lia|].
    assert (Hrec : copied n (<[i := str_byte i]> dst) (copy_in_loop room (S i) (<[i := str_byte i]> dst) src user_only k)).
    { apply IH; [lia|by rewrite length_insert|by apply str_prefix_S|].
      rewrite (take_S_r _ _ (str_byte i)) by (apply list_lookup_insert_eq; lia).
      by rewrite take_insert_ge, Ht, str_bytes_S by lia. }
    revert Hrec. unfold copied. destruct (copy_in_loop _ _ _ _ _ _) as [[len|] dst']; [|done].
    by rewrite length_insert.
Qed.

End CopyIn.

End PointerLemmas.

(** ** Lemmas on the dispatcher *)

Section DispatchLemmas.
Context {A : Type} `{FrameAllocator A}.
Context (bootstrap user_task_entry app_counter app_writer : Z).
Implicit Types (m : machine A).

Lemma str_copy_length dst n src : (0 < n <= length dst)%nat -> length (snd (str_copy dst n src)) = length dst.
Proof. intros Hn. by destruct (str_copy_spec dst n src Hn) as (d & -> & _ & Hd). Qed.

Lemma vload_length v n (k : kernel A) : length (vload v n k) = n.
Proof. unfold vload. by rewrite length_map, length_seq. Qed.

Lemma read_into_length name out n (s : vfs (kheap (paging_state A))) :
  (0 < n <= length out)%nat -> length (default out (snd (vfs_read_file_into (Some name) (Some out) n s))) = length out.
Proof.
  intros Hn. unfold vfs_read_file_into. destruct (_ || _); [done|]. destruct (vfs_find_file name s) as [i|]; [|done].
  destruct (_ =? 0); [cbn; apply length_insert|].
  destruct (str_copy out n _) as [r o] eqn:E. cbn. pose proof (str_copy_length out n (load_bytes (vf_data (file_at s i)) n (vfs_heap s)) Hn) as Hl.
  by rewrite E in Hl.
Qed.

Lemma recv_length to_pid out n s :
  (0 < n <= length out)%nat -> length (default [] (snd (fst (fst (ipc_recv to_pid (Some out) n s))))) = length out.
Proof.
  intros Hn. unfold ipc_recv. destruct (_ || _); [done|]. destruct (List.find _ _) as [i|]; [|cbn; apply length_insert].
  unfold str_copy_checked. destruct (str_copy out n _) as [r o] eqn:E. cbn.
  pose proof (str_copy_length out n (im_text (message_at s i)) Hn) as Hl. by rewrite E in Hl.
Qed.

Lemma name_copy_length index out n :
  (0 < n <= length out)%nat -> length (snd (exec_name_copy_at app_counter app_writer index out n)) = length out.
Proof.
  intros Hn. unfold exec_name_copy_at. destruct (exec_program_name_at _ _ _); [|done]. by apply str_copy_length.
Qed.

(** What a call of a user process may do to the machine: a buffer of its own memory, the
    messages and the ping counter. *)
Definition confined m (ptr size : Z) m' : Prop :=
  stored (m_kernel m) ptr (Z.to_nat size) (m_kernel m') /\ m_timer m' = m_timer m.

Lemma confined_same m ptr size m' : m_kernel m' = m_kernel m -> m_timer m' = m_timer m -> confined m ptr size m'.
Proof. intros Hk Ht. split; [rewrite Hk; apply stored_nothing|done]. Qed.

Section User.
Context (m : machine A).
Hypothesis Hen : paging_is_enabled (k_pages (m_kernel m)) = true.
Hypothesis Hpriv : heap_private (m_kernel m).

Lemma range_stored ptr size bs :
  is_u32 ptr -> is_u32 size -> range_ok ptr size true (m_kernel m) = true -> length bs = Z.to_nat size ->
  stored (m_kernel m) ptr (Z.to_nat size) (vstore (m_kernel m) ptr bs (m_kernel m)).
Proof.
  intros Hp Hs Hr Hl. apply range_ok_spec in Hr; [|done..]. apply fill_stored; [done|done|]. unfold is_u32 in *. lia.
Qed.

Lemma range_size ptr size : is_u32 ptr -> is_u32 size -> range_ok ptr size true (m_kernel m) = true -> (0 < Z.to_nat size)%nat.
Proof. intros Hp Hs Hr. apply range_ok_spec in Hr as (_ & Hpos & _); [lia|done..]. Qed.

Lemma vfs_read_confined name_ptr out_ptr out_size r m' :
  is_u32 out_ptr -> is_u32 out_size -> sys_vfs_read name_ptr out_ptr out_size true m = (r, m') ->
  confined m out_ptr out_size m'.
Proof.
  intros Hp Hs. unfold sys_vfs_read. destruct (get_string _ _ _ _) as [name|]; [|intros [_ <-]%pair_equal_spec; by apply confined_same].
  destruct (_ =? 0); [intros [_ <-]%pair_equal_spec; by apply confined_same|].
  destruct (range_ok _ _ _ _) eqn:Hr; cbn [negb]; [|intros [_ <-]%pair_equal_spec; by apply confined_same].
  pose proof (range_size _ _ Hp Hs Hr) as Hpos. unfold fill_buffer.
  pose proof (read_into_length name (vload out_ptr (Z.to_nat out_size) (m_kernel m)) (Z.to_nat out_size) (k_vfs (m_kernel m))) as Hl.
  destruct (vfs_read_file_into _ _ _ _) as [r' o]. rewrite vload_length in Hl. cbn [snd] in Hl.
  intros [_ <-]%pair_equal_spec. split; [|done]. apply range_stored; auto.
Qed.

Lemma name_at_confined index out_ptr out_size r m' :
  is_u32 out_ptr -> is_u32 out_size -> sys_exec_name_at app_counter app_writer index out_ptr out_size true m = (r, m') ->
  confined m out_ptr out_size m'.
Proof.
  intros Hp Hs. unfold sys_exec_name_at.
  destruct (range_ok _ _ _ _) eqn:Hr; cbn [negb]; [|intros [_ <-]%pair_equal_spec; by apply confined_same].
  pose proof (range_size _ _ Hp Hs Hr) as Hpos. unfold fill_buffer.
  pose proof (name_copy_length index (vload out_ptr (Z.to_nat out_size) (m_kernel m)) (Z.to_nat out_size)) as Hl.
  destruct (exec_name_copy_at _ _ _ _ _) as [r' o]. rewrite vload_length in Hl. cbn [snd] in Hl.
  intros [_ <-]%pair_equal_spec. split; [|done]. apply range_stored; auto.
Qed.

Lemma ipc_recv_confined out_ptr out_size r m' :
  is_u32 out_ptr -> is_u32 out_size -> sys_ipc_recv out_ptr out_size true m = (r, m') -> confined m out_ptr out_size m'.
Proof.
  intros Hp Hs. unfold sys_ipc_recv.
  destruct (range_ok _ _ _ _) eqn:Hr; cbn [negb]; [|intros [_ <-]%pair_equal_spec; by apply confined_same].
  pose proof (range_size _ _ Hp Hs Hr) as Hpos.
  pose proof (recv_length (process_current_pid (m_kernel m)) (vload out_ptr (Z.to_nat out_size) (m_kernel m)) (Z.to_nat out_size) (m_ipc m)) as Hl.
  destruct (ipc_recv _ _ _ _) as [[[r' o] f] s]. rewrite vload_length in Hl. cbn [fst snd] in Hl.
  intros [_ <-]%pair_equal_spec. split; [|done]. cbn [m_kernel set_m_ipc set_m_kernel]. apply range_stored; auto.
Qed.

Lemma ipc_send_confined to_pid msg_ptr r m' ptr size : sys_ipc_send to_pid msg_ptr true m = (r, m') -> confined m ptr size m'.
Proof.
  unfold sys_ipc_send. destruct (get_string _ _ _ _); [|intros [_ <-]%pair_equal_spec; by apply confined_same].
  destruct (_ =? 0); [intros [_ <-]%pair_equal_spec; by apply confined_same|].
  destruct (ipc_send _ _ _ _) as [ok s]. intros [_ <-]%pair_equal_spec. by apply confined_same.
Qed.

End User.
End DispatchLemmas.

(** ** Theorems *)

(** The calls a user process may make: all but writing files and starting programs. *)
Definition user_calls : list Z := [0; 1; 2; 3; 4; 5; 6; 7; 9; 10; 11; 13; 14; 15; 16; 17; 18; 19].

Lemma user_mask_bits n : 0 <= n < 32 -> Z.testbit PROCESS_SYSCALL_MASK_USER n = bool_decide (n ∈ user_calls).
Proof.
  intros Hn. assert (Hin : n ∈ seqZ 0 32) by (apply elem_of_seqZ; lia). revert Hin.
  change (seqZ 0 32) with [0; 1; 2; 3; 4; 5; 6; 7; 8; 9; 10; 11; 12; 13; 14; 15; 16; 17; 18; 19; 20; 21; 22; 23; 24; 25; 26; 27; 28; 29; 30; 31].
  intros Hin. repeat (apply elem_of_cons in Hin as [->|Hin]; [reflexivity|]). by apply elem_of_nil in Hin.
Qed.

Section Theorems.
Context {A : Type} `{FrameAllocator A}.
Context (bootstrap user_task_entry app_counter app_writer : Z).
Implicit Types (m : machine A) (k : kernel A).

(** The process of entry [i] is the one that runs, and it is a user process. *)
Record user_runs k (i : nat) : Prop := {
  ur_ready : process_ready k = true;
  ur_found : process_find_by_tid (process_table k) (current_task (k_sched k)) = Some i;
  ur_user : pe_is_kernel (proc_at (process_table k) i) = false;
  ur_mask : pe_syscall_mask_low (proc_at (process_table k) i) = PROCESS_SYSCALL_MASK_USER;
}.

Lemma user_allowed k i n :
  user_runs k i -> 0 <= n -> process_syscall_allowed n k = bool_decide (n ∈ user_calls).
Proof.
  intros [Hr Hf Hu Hm] Hn. unfold process_syscall_allowed. rewrite Hr, Hf, Hm. cbn [negb].
  destruct (Z.leb_spec 32 n).
  - symmetry. apply bool_decide_eq_false. intros Hin. unfold user_calls in Hin.
    repeat (apply elem_of_cons in Hin as [->|Hin]; [lia|]). by apply elem_of_nil in Hin.
  - rewrite bit_test, user_mask_bits by lia. done.
Qed.

(** C37. The pointer check of the system calls ends on every range and accepts exactly
    the ranges that are not null and not empty, do not wrap around and lie on mapped
    pages, for a user process on pages of its own. *)
Theorem ptr_range_ok_spec (p : paging_state A) ptr size user_only :
  paging_is_enabled p = true -> is_u32 ptr -> is_u32 size ->
  exists b, ptr_range_ok ptr size user_only p = Some b /\
    (b = true <-> ptr <> 0 /\ 0 < size /\ ptr + size <= 4294967296 /\
       forall v, ptr <= v < ptr + size -> if user_only then active_user p v else active_mapped p v).
Proof. apply range_cases. Qed.

(** [copy_in_string] reads the caller's string byte by byte and never past an address
    that fails the check. It succeeds exactly when the terminator comes within the
    size of the buffer and every byte up to it may be read; the buffer then holds
    that string. Otherwise a byte that may not be read, or a string that is too long,
    is the reason. *)
Theorem copy_in_string_spec k dst dst_size src user_only :
  src <> 0 -> (0 < dst_size <= length dst)%nat ->
  copied src user_only k dst_size dst (copy_in_string dst dst_size src user_only k).
Proof.
  intros Hs Hn. unfold copy_in_string. destruct dst_size as [|room]; [lia|].
  rewrite (proj2 (Z.eqb_neq src 0)) by done. apply copy_in_cases; [lia|lia| |done]. intros i Hi. lia.
Qed.

(** A call of a user process, made with the rights of that process. *)
Lemma user_call_confined frame sp m r m' i :
  paging_is_enabled (k_pages (m_kernel m)) = true -> heap_private (m_kernel m) -> user_runs (m_kernel m) i ->
  is_u32 (nth 5 frame 0) -> is_u32 (nth 6 frame 0) -> 0 <= nth 7 frame 0 ->
  syscall_dispatch bootstrap user_task_entry app_counter app_writer frame sp m = (r, m') ->
  (nth 7 frame 0 ∉ user_calls -> r = SYSCALL_DENIED /\ m' = m) /\
  (nth 7 frame 0 <> SYSCALL_PROCESS_EXIT -> confined m (nth 6 frame 0) (nth 5 frame 0) m') /\
  (nth 7 frame 0 = SYSCALL_PROCESS_EXIT -> m' = set_m_kernel m (k_exit sp (m_kernel m))).
Proof.
  intros Hen Hpriv Hur H5 H6 H7. unfold syscall_dispatch. set (n := nth 7 frame 0) in *.
  rewrite (user_allowed _ i n Hur H7).
  assert (process_current_is_kernel (m_kernel m) = false) as ->.
  { destruct Hur as [Hr Hf Hu _]. unfold process_current_is_kernel. by rewrite Hr, Hf. }
  destruct (bool_decide_reflect (n ∈ user_calls)) as [Hin|Hout]; cbn [negb].
  2: { intros [<- <-]%pair_equal_spec. split; [done|]. split; [intros _; by apply confined_same|].
       intros Hx. exfalso. apply Hout. rewrite Hx. unfold user_calls, SYSCALL_PROCESS_EXIT. set_solver. }
  intros E. split; [done|].
  assert (Hsimple : forall r0 m0, (r0, m0) = (r, m') -> m_kernel m0 = m_kernel m -> m_timer m0 = m_timer m ->
            confined m (nth 6 frame 0) (nth 5 frame 0) m').
  { intros r0 m0 [_ <-]%pair_equal_spec Hk Ht. by apply confined_same. }
  assert (H8 : n <> SYSCALL_VFS_WRITE /\ n <> SYSCALL_EXEC_SPAWN).
  { split; intros Hx; rewrite Hx in Hin; unfold user_calls, SYSCALL_VFS_WRITE, SYSCALL_EXEC_SPAWN in Hin;
      repeat (apply elem_of_cons in Hin as [Hin|Hin]; [discriminate Hin|]); by apply elem_of_nil in Hin. }
  destruct H8 as [H8 H12]. clearbody n.
  split; intros Hx; revert E.
  - rewrite (proj2 (Z.eqb_neq n SYSCALL_VFS_WRITE)), (proj2 (Z.eqb_neq n SYSCALL_EXEC_SPAWN)),
      (proj2 (Z.eqb_neq n SYSCALL_PROCESS_EXIT)) by done.
    do 7 (destruct (n =? _); [intros E; by apply Hsimple in E|]).
    destruct (n =? _); [by apply vfs_read_confined|].
    do 3 (destruct (n =? _); [intros E; by apply Hsimple in E|]).
    destruct (n =? _); [by apply name_at_confined|].
    destruct (n =? _); [by apply ipc_send_confined|].
    destruct (n =? _); [by apply ipc_recv_confined|].
    do 3 (destruct (n =? _); [intros E; by apply Hsimple in E|]).
    intros E. by apply Hsimple in E.
  - rewrite Hx. by intros [_ <-]%pair_equal_spec.
Qed.

(** C7. A user process cannot leave its address space through a system call: it gets
    only the calls of its mask, everything else is refused with nothing changed; a
    call other than exit changes no memory but bytes on user pages of the buffer it
    passes, and no file, process, task, page frame or heap block. *)
Theorem syscall_user_confined frame sp m r m' i :
  paging_is_enabled (k_pages (m_kernel m)) = true -> heap_private (m_kernel m) -> user_runs (m_kernel m) i ->
  is_u32 (nth 5 frame 0) -> is_u32 (nth 6 frame 0) -> 0 <= nth 7 frame 0 ->
  syscall_dispatch bootstrap user_task_entry app_counter app_writer frame sp m = (r, m') ->
  (nth 7 frame 0 ∉ user_calls -> r = SYSCALL_DENIED /\ m' = m) /\
  (nth 7 frame 0 <> SYSCALL_PROCESS_EXIT -> confined m (nth 6 frame 0) (nth 5 frame 0) m') /\
  (nth 7 frame 0 = SYSCALL_PROCESS_EXIT -> m' = set_m_kernel m (k_exit sp (m_kernel m))).
Proof. intros Hen Hpriv Hur H5 H6 H7 E. by apply (user_call_confined frame sp m r m' i). Qed.

End Theorems.

(** ** Witnesses *)

(** Entry 1 is a user process, running, with one user page at 0x40000000 that holds
    the string "hi". *)
Definition demo_user_mem : mem :=
  wr8 (wr8 (wr32 (wr32 ∅ (4096 + 4 * 256) (8192 + 7)) 8192 (12288 + 7)) 12304 104) 12305 105.
Definition demo_user_pages : paging_state watermark := Paging (Watermark 16 64) demo_user_mem 4096 true 4096 4096 4096 0.
Definition demo_user_proc : process_entry_t :=
  Proc 2 1 4096 12288 16384 PROCESS_USER_CODE_VADDR PROCESS_SYSCALL_MASK_USER false true (replicate 16 0).
Definition demo_user_kernel : kernel watermark :=
  Kernel (Sched (Kheap demo_user_pages one_block KHEAP_START (KHEAP_START + 65536) 65536 0 true) 0
            (idle_task TASK_RUNNABLE :: idle_task TASK_RUNNING :: replicate 14 (idle_task TASK_UNUSED)) true 1 0 false)
         [] true (demo_proc 1 0 true :: demo_user_proc :: replicate 30 (demo_proc 0 0 false)) 3 true.
Definition demo_machine : machine watermark := Machine demo_user_kernel (IpcState [] true) (Timer 0 100) 0.

Lemma demo_user_page v : 1073741824 <= v < 1073745920 -> active_user demo_user_pages v.
Proof.
  intros Hv. apply (user_page_same _ _ 1073741824); [unfold is_u32; lia|unfold is_u32; lia| |].
  - unfold page_of. Z.div_mod_to_equations. lia.
  - split; reflexivity.
Qed.

Lemma demo_other_page v : is_u32 v -> active_user demo_user_pages v -> pd_index_of v = 256.
Proof.
  intros Hv [Hd _]. destruct (decide (pd_index_of v = 256)) as [|Hne]; [done|]. exfalso. revert Hd.
  change (paging_active_directory demo_user_pages) with 4096. change (pg_mem demo_user_pages) with demo_user_mem.
  pose proof (pd_index_range v). unfold entry, demo_user_mem.
  rewrite !rd32_wr8_ne, !rd32_wr32_ne by lia. discriminate.
Qed.

Lemma demo_heap_private : heap_private demo_user_kernel.
Proof.
  intros v Hh Hu. unfold in_heap in Hh. bool_simp.
  change (heap_end (k_heap demo_user_kernel)) with 3489726464 in *. unfold KHEAP_START in *.
  assert (Hv : is_u32 v) by (unfold is_u32; lia).
  apply demo_other_page in Hu; [|done]. rewrite pd_index_eq in Hu by done. Z.div_mod_to_equations. lia.
Qed.

Lemma ptr_range_ok_spec_witness : ptr_range_ok 1073741840 16 true demo_user_pages = Some true.
Proof.
  destruct (ptr_range_ok_spec demo_user_pages 1073741840 16 true) as (b & E & Hb);
    [reflexivity|unfold is_u32; lia|unfold is_u32; lia|].
  rewrite E. f_equal. apply Hb. split_and!; [lia|lia|lia|]. intros v Hv. apply demo_user_page. lia.
Defined.

Lemma copy_in_string_spec_witness :
  copied 1073741840 true demo_user_kernel 8 (replicate 8 7)
    (copy_in_string (replicate 8 7) 8 1073741840 true demo_user_kernel) /\
  fst (copy_in_string (replicate 8 7) 8 1073741840 true demo_user_kernel) = Some 2%nat.
Proof.
  split; [|reflexivity]. apply (copy_in_string_spec demo_user_kernel (replicate 8 7) 8 1073741840 true); [lia|simpl; lia].
Defined.

Lemma syscall_user_confined_witness :
  let r := syscall_dispatch 4096 8192 12288 16384 [0; 0; 0; 0; 1073741840; 0; 1073741840; 8] 0 demo_machine in
  fst r = SYSCALL_DENIED /\ snd r = demo_machine.
Proof.
  intros r.
  destruct (syscall_user_confined 4096 8192 12288 16384 [0; 0; 0; 0; 1073741840; 0; 1073741840; 8] 0 demo_machine (fst r) (snd r) 1)
    as [Hd _]; [reflexivity|apply demo_heap_private|split; reflexivity|unfold is_u32; cbn; lia|unfold is_u32; cbn; lia|cbn; lia
      |apply surjective_pairing|].
  apply Hd. cbn [nth]. unfold user_calls. intros Hin.
  repeat (apply elem_of_cons in Hin as [Hin|Hin]; [discriminate Hin|]). by apply elem_of_nil in Hin.
Defined.
