(* ===== verification/Vga.v ===== *)
(** kernel/vga.c, the text screen, and kernel/serial.c, the serial line.

    The screen is the array of 80 x 25 character cells at 0xB8000, each the
    character with the colour in its upper byte, and the cursor. *)
From Stdlib Require Import ZArith Lia Bool List.
From stdpp Require Import base list numbers option.
From S2P Require Import Prelude CStr.
#[local] Open Scope Z_scope.

(** ** Data *)

Definition VGA_WIDTH : nat := 80.
Definition VGA_HEIGHT : nat := 25.
Definition vga_color : Z := 7.

Record screen := Screen {
  cells : list Z;
  cursor_row : nat;
  cursor_col : nat;
}.

(** [((uint16_t)vga_color << 8) | c] *)
Definition cell (c : Z) : Z := Z.lor (Z.shiftl vga_color 8) (c `mod` 256).
Definition blank : Z := cell 32.

(** ** Operations *)

(** The two loops over rows and columns visit the cells 80 to 1999 in order. *)
Definition vga_scroll (vga : list Z) : list Z :=
  let vga := fold_left (fun vga i => <[(i - VGA_WIDTH)%nat := nth i vga 0]> vga)
                       (seq VGA_WIDTH ((VGA_HEIGHT - 1) * VGA_WIDTH)) vga in
  fold_left (fun vga col => <[((VGA_HEIGHT - 1) * VGA_WIDTH + col)%nat := blank]> vga) (seq 0 VGA_WIDTH) vga.

Definition vga_newline (s : screen) : screen :=
  let row := S (cursor_row s) in
  if (VGA_HEIGHT <=? row)%nat then Screen (vga_scroll (cells s)) (VGA_HEIGHT - 1) 0
  else Screen (cells s) row 0.

Definition vga_backspace (s : screen) : screen :=
  if (cursor_col s =? 0)%nat && (cursor_row s =? 0)%nat then s else
  let '(row, col) := if (cursor_col s =? 0)%nat then ((cursor_row s - 1)%nat, VGA_WIDTH)
                     else (cursor_row s, cursor_col s) in
  let col := (col - 1)%nat in
  Screen (<[(row * VGA_WIDTH + col)%nat := blank]> (cells s)) row col.

Definition vga_putc (c : Z) (s : screen) : screen :=
  if c =? 10 then vga_newline s else
  if c =? 8 then vga_backspace s else
  let s := if (VGA_WIDTH <=? cursor_col s)%nat then vga_newline s else s in
  Screen (<[(cursor_row s * VGA_WIDTH + cursor_col s)%nat := cell c]> (cells s)) (cursor_row s) (S (cursor_col s)).

(** A loop over the characters of a string. *)
Definition vga_write (cs : list Z) (s : screen) : screen := fold_left (fun s c => vga_putc c s) cs s.
Definition vga_puts (str : list Z) (s : screen) : screen := vga_write (c_str str) s.

Definition vga_clear (s : screen) : screen :=
  Screen (fold_left (fun vga i => <[i := blank]> vga) (seq 0 (VGA_WIDTH * VGA_HEIGHT)) (cells s)) 0 0.

(** "0123456789ABCDEF" *)
Definition hex_char (d : Z) : Z := nth (Z.to_nat d) [48; 49; 50; 51; 52; 53; 54; 55; 56; 57; 65; 66; 67; 68; 69; 70] 0.

(** The characters of a number of [n] hexadecimal digits, highest first. *)
Definition hex_digits (n : nat) (value : Z) : list Z :=
  map (fun i => hex_char (Z.land (Z.shiftr value (4 * Z.of_nat (n - 1 - i))) 15)) (seq 0 n).
(** "0x" *)
Definition hex_prefix : list Z := [48; 120].

Definition vga_put_hex32 (value : Z) (s : screen) : screen := vga_write (hex_prefix ++ hex_digits 8 value) s.
Definition vga_put_hex64 (value : Z) (s : screen) : screen := vga_write (hex_prefix ++ hex_digits 16 value) s.

(** The array [buf] of [vga_put_dec32], lowest digit first. *)
Fixpoint dec_buf (fuel : nat) (value : Z) : list Z :=
  match fuel with
  | O => []
  | S n => if value <=? 0 then [] else (48 + value `mod` 10) :: dec_buf n (value / 10)
  end.
Definition dec_digits (value : Z) : list Z := if value =? 0 then [48] else rev (dec_buf 10 value).

Definition vga_put_dec32 (value : Z) (s : screen) : screen := vga_write (dec_digits value) s.

(** ** Bounds *)

(** The cursor is on the screen, or behind the last column. *)
Record screen_ok (s : screen) : Prop := {
  sk_cells : length (cells s) = (VGA_WIDTH * VGA_HEIGHT)%nat;
  sk_row : (cursor_row s < VGA_HEIGHT)%nat;
  sk_col : (cursor_col s <= VGA_WIDTH)%nat;
}.

Lemma fold_insert_length {B : Type} (f : B -> list Z -> nat) (g : B -> list Z -> Z) l : forall vga,
  length (fold_left (fun vga x => <[f x vga := g x vga]> vga) l vga) = length vga.
Proof. induction l as [|x l IH]; intros vga; cbn [fold_left]; [done|]. by rewrite IH, length_insert. Qed.

Lemma scroll_length vga : length (vga_scroll vga) = length vga.
Proof.
  unfold vga_scroll.
  rewrite (fold_insert_length (fun col _ => ((VGA_HEIGHT - 1) * VGA_WIDTH + col)%nat) (fun _ _ => blank)).
  apply (fold_insert_length (fun i _ => (i - VGA_WIDTH)%nat) (fun i vga => nth i vga 0)).
Qed.

#[global] Opaque vga_scroll.

Lemma screen_size : (VGA_WIDTH * VGA_HEIGHT = 2000)%nat.
Proof. reflexivity. Qed.

Lemma newline_ok s : screen_ok s -> screen_ok (vga_newline s) /\ cursor_col (vga_newline s) = 0%nat.
Proof.
  intros [Hc Hr Hl]. unfold vga_newline.
  destruct (Nat.leb_spec VGA_HEIGHT (S (cursor_row s))); (split; [split; cbn [cells cursor_row cursor_col]|done]).
  - by rewrite scroll_length.
  - unfold VGA_HEIGHT. lia.
  - lia.
  - exact Hc.
  - lia.
  - lia.
Qed.

Lemma backspace_ok s : screen_ok s -> screen_ok (vga_backspace s).
Proof.
  intros [Hc Hr Hl]. unfold vga_backspace. destruct (Nat.eqb_spec (cursor_col s) 0), (Nat.eqb_spec (cursor_row s) 0);
    cbn [andb]; (split; cbn [cells cursor_row cursor_col]; [by rewrite ?length_insert|lia|unfold VGA_WIDTH in *; lia]).
Qed.

Lemma putc_ok c s : screen_ok s -> screen_ok (vga_putc c s).
Proof.
  intros Hok. unfold vga_putc. destruct (c =? 10); [by apply newline_ok|]. destruct (c =? 8); [by apply backspace_ok|].
  assert (Hs : forall s, screen_ok s -> (cursor_col s < VGA_WIDTH)%nat -> forall v,
    screen_ok (Screen (<[(cursor_row s * VGA_WIDTH + cursor_col s)%nat := v]> (cells s)) (cursor_row s) (S (cursor_col s)))).
  { intros s0 [Hc Hr Hl] Hlt v. split; cbn [cells cursor_row cursor_col]; [by rewrite length_insert|done|lia]. }
  destruct (Nat.leb_spec VGA_WIDTH (cursor_col s)); [|by apply Hs].
  destruct (newline_ok s Hok) as [Hn Hz]. apply Hs; [done|]. rewrite Hz. unfold VGA_WIDTH. lia.
Qed.

Lemma clear_ok s : screen_ok s -> screen_ok (vga_clear s).
Proof.
  intros [Hc _ _]. split; cbn [vga_clear cells cursor_row cursor_col]; [|unfold VGA_HEIGHT; lia|lia].
  by rewrite (fold_insert_length (fun i _ => i) (fun _ _ => blank)).
Qed.

Lemma write_ok cs s : screen_ok s -> screen_ok (vga_write cs s).
Proof.
  unfold vga_write. revert s. induction cs as [|c cs IH]; intros s Hok; cbn [fold_left]; [done|]. by apply IH, putc_ok.
Qed.

#[export] Hint Resolve putc_ok backspace_ok write_ok : mars.

(** ** The serial line

    [sent] are the bytes given to the transmitter, in order. The loop that waits for
    the transmitter is not modelled: it has no other effect. *)

Definition COM1 : Z := 1016.

Record serial := Serial { serial_ready : bool; sent : list Z }.

(** The state, and the port writes. *)
Definition serial_init (s : serial) : serial * list (Z * Z) :=
  (Serial true (sent s),
   [(COM1 + 1, 0); (COM1 + 3, 128); (COM1, 3); (COM1 + 1, 0); (COM1 + 3, 3); (COM1 + 2, 199); (COM1 + 4, 11)]).

Definition serial_putc (c : Z) (s : serial) : serial :=
  if negb (serial_ready s) then s else Serial true (sent s ++ [c `mod` 256]).

Fixpoint serial_puts (str : list Z) (s : serial) : serial :=
  match str with
  | [] => s
  | c :: str' =>
      if c =? 0 then s else
      let s := if c =? 10 then serial_putc 13 s else s in
      serial_puts str' (serial_putc c s)
  end.

Definition serial_put_hex32 (value : Z) (s : serial) : serial :=
  fold_left (fun s c => serial_putc c s) (hex_digits 8 value) (serial_puts hex_prefix s).

(** What goes out for a string: carriage return before every line feed. *)
Definition on_the_wire (str : list Z) : list Z := flat_map (fun c => if c =? 10 then [13; 10] else [c `mod` 256]) str.

Lemma serial_puts_sent str : forall s,
  serial_puts str s = if serial_ready s then Serial true (sent s ++ on_the_wire (c_str str)) else s.
Proof.
  induction str as [|c str IH]; intros [[] out]; cbn [serial_puts c_str serial_ready sent].
  - by rewrite app_nil_r.
  - done.
  - destruct (c =? 0); [by rewrite app_nil_r|]. unfold on_the_wire. cbn [flat_map].
    rewrite IH. destruct (Z.eqb_spec c 10) as [->|]; cbn [serial_putc serial_ready negb sent app]; by rewrite <- !app_assoc.
  - destruct (c =? 0); [done|]. rewrite IH. by destruct (c =? 10).
Qed.
