(* ===== verification/Shell.v ===== *)
(** kernel/kernel.c, the shell: numbers and words of a command line, the line
    editor with its history, and what both show on the screen.

    A [char *] is the list of the bytes it points to, an array of characters a list
    of its length. *)
From Stdlib Require Import ZArith Lia Bool List.
From stdpp Require Import base list numbers option.
From S2P Require Import Prelude CStr Vga Keyboard.
#[local] Open Scope Z_scope.

(** ** Words and numbers *)

Fixpoint starts_with (text prefix : list Z) : bool :=
  match prefix with
  | [] => true
  | c :: prefix' =>
      if c =? 0 then true else
      if negb (hd 0 text =? c) then false else starts_with (tl text) prefix'
  end.

(** The loop of [parse_u32]; [None] is the result 0. *)
Fixpoint parse_dec (value : Z) (s : list Z) : option Z :=
  match s with
  | [] => Some value
  | ch :: s' =>
      if ch =? 0 then Some value else
      if (ch <? 48) || (57 <? ch) then None else
      if UINT32_MAX / 10 <? value then None else
      let value := (value ⊠ 10) ⊞ (ch - 48) in
      if value <? ch - 48 then None else parse_dec value s'
  end.

Definition parse_u32 (s : list Z) : option Z := if hd 0 s =? 0 then None else parse_dec 0 s.

Definition digit_value (base ch : Z) : option Z :=
  if (48 <=? ch) && (ch <=? 57) then Some (ch - 48) else
  if (base =? 16) && (97 <=? ch) && (ch <=? 102) then Some (10 + (ch - 97)) else
  if (base =? 16) && (65 <=? ch) && (ch <=? 70) then Some (10 + (ch - 65)) else None.

(** The loop of [parse_u32_auto]. *)
Fixpoint parse_base (base value : Z) (s : list Z) : option Z :=
  match s with
  | [] => Some value
  | ch :: s' =>
      if ch =? 0 then Some value else
      match digit_value base ch with
      | None => None
      | Some digit =>
          if base <=? digit then None else
          if UINT32_MAX / base <? value then None else
          let value := (value ⊠ base) ⊞ digit in
          if value <? digit then None else parse_base base value s'
      end
  end.

Definition parse_u32_auto (s : list Z) : option Z :=
  if nth 0 s 0 =? 0 then None else
  if (nth 0 s 0 =? 48) && ((nth 1 s 0 =? 120) || (nth 1 s 0 =? 88)) then
    let s := drop 2 s in
    if hd 0 s =? 0 then None else parse_base 16 0 s
  else parse_base 10 0 s.

Fixpoint skip_spaces (s : list Z) : list Z :=
  match s with
  | c :: s' => if c =? 32 then skip_spaces s' else s
  | [] => []
  end.

(** The rest of the text and the array [token], of which [i] bytes are filled. *)
Fixpoint token_loop (s : list Z) (i : nat) (token : list Z) (token_size : nat) : list Z * list Z :=
  match s with
  | [] => (s, <[i := 0]> token)
  | c :: s' =>
      if (c =? 0) || (c =? 32) then (s, <[i := 0]> token) else
      if (S i <? token_size)%nat then token_loop s' (S i) (<[i := c]> token) token_size
      else token_loop s' i token token_size
  end.

Definition read_token (s : list Z) (token : list Z) (token_size : nat) : list Z * list Z :=
  let s := skip_spaces s in
  if hd 0 s =? 0 then (s, <[0%nat := 0]> token) else token_loop s 0 token token_size.

(** ** The line editor *)

Definition SHELL_LINE_MAX : nat := 128.
Definition SHELL_HISTORY_MAX : nat := 8.

(** The local variables of the shell loop of [kernel_main], and the screen. *)
Record editor := Editor {
  ed_line : list Z;
  ed_len : nat;
  ed_cursor : nat;
  ed_history : list (list Z);
  ed_hcount : nat;
  ed_hcursor : Z;
  ed_screen : screen;
}.

Fixpoint iter_screen (n : nat) (f : screen -> screen) (s : screen) : screen :=
  match n with O => s | S n' => iter_screen n' f (f s) end.

(** The characters of [text] that fit, appended to the line. *)
Fixpoint append_text (text : list Z) (line : list Z) (len : nat) (s : screen) : list Z * nat * screen :=
  match text with
  | [] => (line, len, s)
  | c :: text' =>
      if (c =? 0) || negb (len <? SHELL_LINE_MAX - 1)%nat then (line, len, s)
      else append_text text' (<[len := c]> line) (S len) (vga_putc c s)
  end.

Definition shell_replace_line (line : list Z) (line_len : nat) (text : list Z) (s : screen) : list Z * nat * screen :=
  let s := iter_screen line_len vga_backspace s in
  let '(line, len, s) := append_text text line 0 s in
  (<[len := 0]> line, len, s).

Definition shell_redraw_line (line : list Z) (line_len cursor_pos : nat) (s : screen) : screen :=
  let s := iter_screen line_len vga_backspace s in
  let s := vga_write (take line_len line) s in
  iter_screen (line_len - cursor_pos) vga_backspace s.

(** The new cursor position is [line_len]. *)
Definition shell_move_cursor_to_end (line : list Z) (cursor_pos line_len : nat) (s : screen) : screen :=
  vga_write (take (line_len - cursor_pos) (drop cursor_pos line)) s.

(** [for (i = at; i + 1 < at + n + 1; i++) line[i] = line[i + 1];] *)
Fixpoint shift_left (n i : nat) (line : list Z) : list Z :=
  match n with O => line | S n' => shift_left n' (S i) (<[i := nth (S i) line 0]> line) end.
(** [for (; n > 0; i--, n--) line[i] = line[i - 1];] *)
Fixpoint shift_right (n i : nat) (line : list Z) : list Z :=
  match n with O => line | S n' => shift_right n' (i - 1) (<[i := nth (i - 1) line 0]> line) end.

Definition set_ed_line ed (line : list Z) (len cursor : nat) (s : screen) : editor :=
  Editor line len cursor (ed_history ed) (ed_hcount ed) (ed_hcursor ed) s.
Definition set_ed_hcursor ed (h : Z) : editor :=
  Editor (ed_line ed) (ed_len ed) (ed_cursor ed) (ed_history ed) (ed_hcount ed) h (ed_screen ed).
Definition history_at ed (i : Z) : list Z := nth (Z.to_nat i) (ed_history ed) [].

(** The line becomes [text], shown from the end of the old line. *)
Definition recall ed (text : list Z) : editor :=
  let s := shell_move_cursor_to_end (ed_line ed) (ed_cursor ed) (ed_len ed) (ed_screen ed) in
  let '(line, len, s) := shell_replace_line (ed_line ed) (ed_len ed) text s in
  set_ed_line ed line len len s.

Definition key_up ed : editor :=
  if (ed_hcount ed =? 0)%nat then ed else
  let h := if ed_hcursor ed <? 0 then Z.of_nat (ed_hcount ed) - 1
           else if 0 <? ed_hcursor ed then ed_hcursor ed - 1 else ed_hcursor ed in
  recall (set_ed_hcursor ed h) (history_at ed h).

Definition key_down ed : editor :=
  if (ed_hcount ed =? 0)%nat || (ed_hcursor ed <? 0) then ed else
  let h := ed_hcursor ed + 1 in
  if Z.of_nat (ed_hcount ed) <=? h then recall (set_ed_hcursor ed (-1)) []
  else recall (set_ed_hcursor ed h) (history_at ed h).

Definition key_left ed : editor :=
  if (0 <? ed_cursor ed)%nat
  then set_ed_line ed (ed_line ed) (ed_len ed) (ed_cursor ed - 1) (vga_backspace (ed_screen ed)) else ed.

Definition key_right ed : editor :=
  if (ed_cursor ed <? ed_len ed)%nat
  then set_ed_line ed (ed_line ed) (ed_len ed) (S (ed_cursor ed)) (vga_putc (nth (ed_cursor ed) (ed_line ed) 0) (ed_screen ed))
  else ed.

Definition key_delete ed : editor :=
  if (ed_cursor ed <? ed_len ed)%nat then
    let line := shift_left (ed_len ed - 1 - ed_cursor ed) (ed_cursor ed) (ed_line ed) in
    let len := (ed_len ed - 1)%nat in
    let line := <[len := 0]> line in
    set_ed_line ed line len (ed_cursor ed) (shell_redraw_line line len (ed_cursor ed) (ed_screen ed))
  else ed.

Definition key_backspace ed : editor :=
  if (0 <? ed_cursor ed)%nat then
    if (ed_cursor ed =? ed_len ed)%nat then
      let len := (ed_len ed - 1)%nat in
      set_ed_line ed (<[len := 0]> (ed_line ed)) len (ed_cursor ed - 1) (vga_backspace (ed_screen ed))
    else
      let at_ := (ed_cursor ed - 1)%nat in
      let line := shift_left (ed_len ed - 1 - at_) at_ (ed_line ed) in
      let len := (ed_len ed - 1)%nat in
      let line := <[len := 0]> line in
      set_ed_line ed line len at_ (shell_redraw_line line len at_ (ed_screen ed))
  else ed.

Definition key_insert (c : Z) ed : editor :=
  if (ed_len ed <? SHELL_LINE_MAX - 1)%nat then
    if (ed_cursor ed =? ed_len ed)%nat then
      let line := <[ed_len ed := c]> (ed_line ed) in
      let len := S (ed_len ed) in
      set_ed_line ed (<[len := 0]> line) len (S (ed_cursor ed)) (vga_putc c (ed_screen ed))
    else
      let line := shift_right (ed_len ed - ed_cursor ed) (ed_len ed) (ed_line ed) in
      let line := <[ed_cursor ed := c]> line in
      let len := S (ed_len ed) in
      let line := <[len := 0]> line in
      set_ed_line ed line len (S (ed_cursor ed)) (shell_redraw_line line len (S (ed_cursor ed)) (ed_screen ed))
  else ed.

(** One key: [inl] waits for the next one, [inr] is a finished line. *)
Definition shell_key (c : Z) ed : editor + editor :=
  if c =? KEY_SPECIAL_UP then inl (key_up ed) else
  if c =? KEY_SPECIAL_DOWN then inl (key_down ed) else
  if c =? KEY_SPECIAL_LEFT then inl (key_left ed) else
  if c =? KEY_SPECIAL_RIGHT then inl (key_right ed) else
  if c =? KEY_SPECIAL_DELETE then inl (key_delete ed) else
  if c =? 10 then
    inr (set_ed_line ed (<[ed_len ed := 0]> (ed_line ed)) (ed_len ed) (ed_cursor ed) (vga_putc 10 (ed_screen ed))) else
  if c =? 8 then inl (key_backspace ed) else inl (key_insert c ed).

(** "mars> ", and the state a new line starts with. *)
Definition prompt : list Z := [109; 97; 114; 115; 62; 32].
Definition shell_prompt ed : editor :=
  Editor (<[0%nat := 0]> (ed_line ed)) 0 0 (ed_history ed) (ed_hcount ed) (-1) (vga_puts prompt (ed_screen ed)).

(** ** History *)

(** A row copied with its terminator, whatever its length. *)
Fixpoint row_copy (i : nat) (dst src : list Z) : list Z :=
  match src with
  | [] => dst
  | c :: src' => let dst := <[i := c]> dst in if c =? 0 then dst else row_copy (S i) dst src'
  end.

Definition shift_rows (h : list (list Z)) : list (list Z) :=
  fold_left (fun h row => <[(row - 1)%nat := row_copy 0 (nth (row - 1) h []) (nth row h [])]> h)
            (seq 1 (SHELL_HISTORY_MAX - 1)) h.

(** The table and the count. *)
Definition shell_store_history (history : list (list Z)) (history_count : nat) (line : list Z) : list (list Z) * nat :=
  if hd 0 line =? 0 then (history, history_count) else
  if (0 <? history_count)%nat && str_eq (nth (history_count - 1) history []) line then (history, history_count) else
  if (history_count <? SHELL_HISTORY_MAX)%nat then
    (<[history_count := snd (str_copy (nth history_count history []) SHELL_LINE_MAX line)]> history, S history_count)
  else
    let history := shift_rows history in
    (<[(SHELL_HISTORY_MAX - 1)%nat := snd (str_copy (nth (SHELL_HISTORY_MAX - 1) history []) SHELL_LINE_MAX line)]> history,
     history_count).

(** The inner loop, on what [keyboard_try_getchar] returns: 0 is no key. [None] is still waiting. *)
Fixpoint shell_loop (keys : list Z) ed : option editor :=
  match keys with
  | [] => None
  | c :: keys' =>
      if c =? 0 then shell_loop keys' ed else
      match shell_key c ed with inl ed' => shell_loop keys' ed' | inr ed' => Some ed' end
  end.

(** One turn of the outer loop, up to the call of [run_command] with the line. *)
Definition shell_read (keys : list Z) ed : option editor :=
  match shell_loop keys (shell_prompt ed) with
  | None => None
  | Some ed =>
      let '(history, count) := shell_store_history (ed_history ed) (ed_hcount ed) (ed_line ed) in
      Some (Editor (ed_line ed) (ed_len ed) (ed_cursor ed) history count (ed_hcursor ed) (ed_screen ed))
  end.

(** ** Lemmas on arrays *)

Lemma shift_left_eq ys : forall pre x rest,
  exists z, shift_left (length ys) (length pre) (pre ++ x :: ys ++ rest) = pre ++ ys ++ z :: rest.
Proof.
  induction ys as [|y ys IH]; intros pre x rest; cbn [shift_left length app]; [by exists x|].
  rewrite app_nth2, insert_app_r_alt by lia. replace (S (length pre) - length pre)%nat with 1%nat by lia.
  rewrite Nat.sub_diag. cbn [nth insert list_insert].
  destruct (IH (pre ++ [y]) y rest) as [z Hz]. exists z. rewrite length_app in Hz. cbn [length] in Hz.
  rewrite Nat.add_1_r, <- !app_assoc in Hz. exact Hz.
Qed.

Lemma shift_right_eq pre xs : forall z rest,
  exists w, shift_right (length xs) (length pre + length xs) (pre ++ xs ++ z :: rest) = pre ++ w :: xs ++ rest.
Proof.
  induction xs as [|x xs IH] using rev_ind; intros z rest; [by exists z|].
  assert (Hn : nth (length (pre ++ xs)) (pre ++ (xs ++ [x]) ++ z :: rest) 0 = x).
  { rewrite <- app_assoc, app_assoc, app_nth2, Nat.sub_diag by lia. done. }
  assert (Hi : <[length (pre ++ xs ++ [x]) := x]> (pre ++ (xs ++ [x]) ++ z :: rest) = pre ++ xs ++ x :: x :: rest).
  { rewrite (app_assoc pre (xs ++ [x])), insert_app_r_alt, Nat.sub_diag by lia. cbn [insert list_insert].
    by rewrite <- !app_assoc. }
  destruct (IH x (x :: rest)) as [w Hw]. exists w.
  replace (length (xs ++ [x])) with (S (length xs)) by (rewrite length_app; simpl; lia). cbn [shift_right].
  replace (length pre + S (length xs) - 1)%nat with (length pre + length xs)%nat by lia.
  rewrite <- (length_app pre xs) at 2.
  replace (length pre + S (length xs))%nat with (length (pre ++ xs ++ [x])) by (rewrite !length_app; simpl; lia).
  rewrite Hn, Hi, Hw, <- app_assoc. done.
Qed.

Lemma append_text_eq text : forall line len s,
  fst (append_text text line len s) =
  let '(i, line') := copy_chars (SHELL_LINE_MAX - 1 - len) len line text in (line', i).
Proof.
  induction text as [|c text IH]; intros line len s; cbn [append_text].
  { by destruct (SHELL_LINE_MAX - 1 - len)%nat. }
  destruct (SHELL_LINE_MAX - 1 - len)%nat as [|r] eqn:Er; cbn [copy_chars].
  - rewrite (proj2 (Nat.ltb_ge _ _)) by lia. by rewrite orb_true_r.
  - rewrite (proj2 (Nat.ltb_lt _ _)) by lia. cbn [negb]. rewrite orb_false_r. destruct (c =? 0); [done|].
    rewrite IH. by replace (SHELL_LINE_MAX - 1 - S len)%nat with r by lia.
Qed.

Lemma append_text_screen text : forall line len s, screen_ok s -> screen_ok (snd (append_text text line len s)).
Proof.
  induction text as [|c text IH]; intros line len s Hs; cbn [append_text]; [done|].
  destruct (_ || _); [done|]. by apply IH, putc_ok.
Qed.

Lemma iter_screen_ok n : forall s, screen_ok s -> screen_ok (iter_screen n vga_backspace s).
Proof. induction n as [|n IH]; intros s Hs; cbn [iter_screen]; [done|]. by apply IH, backspace_ok. Qed.

Lemma redraw_ok line len cur s : screen_ok s -> screen_ok (shell_redraw_line line len cur s).
Proof. intros Hs. unfold shell_redraw_line. by apply iter_screen_ok, write_ok, iter_screen_ok. Qed.

(** ** The abstract editor *)

(** The text, the cursor in it, the lines of the history and the one shown, or -1. *)
Record view := View { v_text : list Z; v_pos : nat; v_hist : list (list Z); v_shown : Z }.

Definition show (v : view) (h : Z) (t : list Z) : view := View t (length t) (v_hist v) h.
Definition hist_at (v : view) (h : Z) : list Z := nth (Z.to_nat h) (v_hist v) [].

Definition edit (c : Z) (v : view) : view :=
  let '(View t pos hist h) := v in
  if c =? KEY_SPECIAL_UP then
    match hist with
    | [] => v
    | _ => let h := if h <? 0 then Z.of_nat (length hist) - 1 else if 0 <? h then h - 1 else h in show v h (hist_at v h)
    end
  else if c =? KEY_SPECIAL_DOWN then
    if h <? 0 then v else
    if Z.of_nat (length hist) <=? h + 1 then show v (-1) [] else show v (h + 1) (hist_at v (h + 1))
  else if c =? KEY_SPECIAL_LEFT then View t (pos - 1) hist h
  else if c =? KEY_SPECIAL_RIGHT then View t (Nat.min (S pos) (length t)) hist h
  else if c =? KEY_SPECIAL_DELETE then View (take pos t ++ drop (S pos) t) pos hist h
  else if c =? 8 then View (take (pos - 1) t ++ drop pos t) (pos - 1) hist h
  else if (length t <? SHELL_LINE_MAX - 1)%nat then View (take pos t ++ c :: drop pos t) (S pos) hist h
  else v.

(** The array holds the terminated string [t]. *)
Definition holds_line (line t : list Z) : Prop :=
  length line = SHELL_LINE_MAX /\ Forall (fun c => c <> 0) t /\ exists rest, line = t ++ 0 :: rest.

Definition row_is (row t : list Z) : Prop := length row = SHELL_LINE_MAX /\ c_str row = t /\ (length t < SHELL_LINE_MAX)%nat.

Record hist_rep (history : list (list Z)) (count : nat) (hist : list (list Z)) : Prop := {
  hi_rows : length history = SHELL_HISTORY_MAX;
  hi_size : Forall (fun row => length row = SHELL_LINE_MAX) history;
  hi_count : count = length hist;
  hi_le : (length hist <= SHELL_HISTORY_MAX)%nat;
  hi_row : forall i, (i < length hist)%nat -> row_is (nth i history []) (nth i hist []);
}.

Record editor_rep (ed : editor) (v : view) : Prop := {
  er_line : holds_line (ed_line ed) (v_text v);
  er_len : ed_len ed = length (v_text v);
  er_cursor : ed_cursor ed = v_pos v;
  er_pos : (v_pos v <= length (v_text v))%nat;
  er_hist : hist_rep (ed_history ed) (ed_hcount ed) (v_hist v);
  er_shown : ed_hcursor ed = v_shown v;
  er_range : -1 <= v_shown v < Z.of_nat (length (v_hist v));
  er_screen : screen_ok (ed_screen ed);
}.

Lemma holds_line_len line t : holds_line line t -> (length t < SHELL_LINE_MAX)%nat.
Proof. intros (Hl & _ & rest & ->). rewrite length_app in Hl. simpl in Hl. lia. Qed.

Lemma recall_rep ed v h row :
  editor_rep ed v -> ed_hcursor ed = h -> -1 <= h < Z.of_nat (length (v_hist v)) -> (length (c_str row) < SHELL_LINE_MAX)%nat ->
  editor_rep (recall ed row) (View (c_str row) (length (c_str row)) (v_hist v) h).
Proof.
  intros [Hl Hlen Hc Hp Hh _ _ Hs] Hsh Hr Hrow. unfold recall, shell_replace_line.
  set (s1 := iter_screen _ _ _). assert (Hs1 : screen_ok s1) by (apply iter_screen_ok, write_ok; done). clearbody s1.
  pose proof (append_text_eq row (ed_line ed) 0 s1) as Ha. pose proof (append_text_screen row (ed_line ed) 0 s1 Hs1) as Hs2.
  destruct Hl as (Hll & _ & _).
  destruct (copy_chars_spec (SHELL_LINE_MAX - 1 - 0) 0 (ed_line ed) row) as (w & Ew & Hw); [rewrite Hll; unfold SHELL_LINE_MAX; lia|].
  rewrite Ew in Ha. cbn [take app Nat.add] in Ha. rewrite take_ge in Hw by (unfold SHELL_LINE_MAX in *; lia). subst w.
  destruct (append_text _ _ _ _) as [[line len] s2]. cbn [fst snd] in *. injection Ha as -> ->.
  assert (Hd : exists d rest, drop (length (c_str row)) (ed_line ed) = d :: rest).
  { destruct (drop _ _) as [|d rest] eqn:E; [|eauto]. apply (f_equal length) in E. rewrite length_drop in E. simpl in E. lia. }
  destruct Hd as (d & rest & Hd). rewrite Hd.
  rewrite insert_app_r_alt, Nat.sub_diag by lia. cbn [insert list_insert].
  split; cbn; auto. split_and!; [|apply c_str_nonzero|by eexists].
  apply (f_equal length) in Hd. rewrite length_drop in Hd. simpl in Hd. rewrite length_app. simpl. lia.
Qed.

(** Replacing the text and the cursor. *)
Lemma set_line_rep ed v line t pos s :
  editor_rep ed v -> holds_line line t -> (pos <= length t)%nat -> screen_ok s ->
  editor_rep (set_ed_line ed line (length t) pos s) (View t pos (v_hist v) (v_shown v)).
Proof. intros [] Hl Hp Hs. by split. Qed.

(** Removing the character after [a]. *)
Lemma remove_at ed v line a x b :
  editor_rep ed v -> v_text v = a ++ x :: b ->
  line = <[(ed_len ed - 1)%nat := 0]> (shift_left (ed_len ed - 1 - length a) (length a) (ed_line ed)) ->
  holds_line line (a ++ b) /\ (ed_len ed - 1)%nat = length (a ++ b).
Proof.
  intros [(Hll & Hnz & rest & Hline) Hlen _ _ _ _ _ _] Ht ->.
  rewrite Ht in *. rewrite length_app in Hlen. simpl in Hlen.
  replace (ed_len ed - 1 - length a)%nat with (length b) by lia.
  rewrite Hline in *. rewrite <- app_assoc. cbn [app].
  destruct (shift_left_eq b a x (0 :: rest)) as [z ->].
  replace (ed_len ed - 1)%nat with (length (a ++ b)) by (rewrite length_app; lia).
  rewrite app_assoc, insert_app_r_alt, Nat.sub_diag by lia. cbn [insert list_insert].
  split; [|done]. split_and!.
  - rewrite !length_app in *. simpl in *. rewrite ?length_app in *. simpl in *. lia.
  - apply Forall_app in Hnz as [Ha Hb]. apply Forall_app. split; [done|]. by inversion Hb.
  - by eexists.
Qed.

Lemma nonzero_split (P : Z -> Prop) (a b : list Z) x : Forall P (a ++ b) -> P x -> Forall P (a ++ x :: b).
Proof. intros Hab Hx. apply Forall_app in Hab as [Ha Hb]. apply Forall_app. split; [done|]. by constructor. Qed.

(** Writing [c] between [a] and [b], and the terminator behind them. *)
Lemma insert_at (a b : list Z) w c rest :
  Forall (fun c => c <> 0) (a ++ b) -> c <> 0 -> length (a ++ w :: b ++ rest) = SHELL_LINE_MAX -> rest <> [] ->
  holds_line (<[S (length (a ++ b)) := 0]> (<[length a := c]> (a ++ w :: b ++ rest))) (a ++ c :: b).
Proof.
  intros Hnz Hc Hl Hr. destruct rest as [|r rest]; [done|].
  rewrite insert_app_r_alt, Nat.sub_diag by lia. cbn [insert list_insert].
  replace (a ++ c :: b ++ r :: rest) with ((a ++ c :: b) ++ r :: rest) by (by rewrite <- app_assoc).
  replace (S (length (a ++ b))) with (length (a ++ c :: b)) by (rewrite !length_app; simpl; lia).
  rewrite insert_app_r_alt, Nat.sub_diag by lia. cbn [insert list_insert]. split_and!; [|by apply nonzero_split|by eexists].
  rewrite !length_app in *. simpl in *. rewrite ?length_app in *. simpl in *. lia.
Qed.

Lemma key_insert_rep c ed v :
  editor_rep ed v -> c <> 0 -> (length (v_text v) < SHELL_LINE_MAX - 1)%nat ->
  editor_rep (key_insert c ed) (View (take (v_pos v) (v_text v) ++ c :: drop (v_pos v) (v_text v)) (S (v_pos v)) (v_hist v) (v_shown v)).
Proof.
  intros Hr Hc Hlt. pose proof Hr as [(Hll & Hnz & rest & Hline) Hlen Hcur Hpos _ _ _ Hs].
  set (a := take (v_pos v) (v_text v)). set (b := drop (v_pos v) (v_text v)).
  assert (Hab : v_text v = a ++ b) by (symmetry; apply take_drop).
  assert (Hla : length a = v_pos v) by (unfold a; rewrite length_take; lia).
  assert (Hrest : rest <> []).
  { intros ->. rewrite Hline, length_app in Hll. simpl in Hll. lia. }
  rewrite Hab in *. clearbody a b. rewrite length_app in *.
  assert (HS : S (ed_len ed) = length (a ++ c :: b)) by (rewrite length_app; simpl; lia).
  assert (Hfin : forall w s, screen_ok s -> length (a ++ w :: b ++ rest) = SHELL_LINE_MAX ->
    editor_rep (set_ed_line ed (<[S (ed_len ed) := 0]> (<[ed_cursor ed := c]> (a ++ w :: b ++ rest))) (S (ed_len ed)) (S (ed_cursor ed)) s)
      (View (a ++ c :: b) (S (v_pos v)) (v_hist v) (v_shown v))).
  { intros w s Hso Hw. rewrite Hcur, <- Hla, HS. apply set_line_rep; [done| |rewrite length_app; simpl; lia|done].
    rewrite <- HS, Hlen, <- length_app. by apply insert_at. }
  unfold key_insert. rewrite (proj2 (Nat.ltb_lt _ _)) by lia.
  destruct (Nat.eqb_spec (ed_cursor ed) (ed_len ed)) as [Heq|Hne].
  - assert (b = []) as -> by (destruct b; [done|simpl in *; lia]). rewrite app_nil_r in *.
    rewrite Heq in Hfin |- *. rewrite Hline. apply (Hfin 0); [by apply putc_ok|]. by rewrite Hline in Hll.
  - rewrite Hline, <- app_assoc. destruct (shift_right_eq a b 0 rest) as [w Hw].
    replace (ed_len ed - ed_cursor ed)%nat with (length b) by lia. rewrite Hlen, Hw, <- Hlen.
    apply Hfin; [by apply redraw_ok|]. rewrite Hline in Hll. rewrite !length_app in *. simpl in *. rewrite length_app. lia.
Qed.

Lemma key_remove_rep ed v line a x b pos s :
  editor_rep ed v -> v_text v = a ++ x :: b -> (pos <= length (a ++ b))%nat -> screen_ok s ->
  line = <[(ed_len ed - 1)%nat := 0]> (shift_left (ed_len ed - 1 - length a) (length a) (ed_line ed)) ->
  editor_rep (set_ed_line ed line (ed_len ed - 1) pos s) (View (a ++ b) pos (v_hist v) (v_shown v)).
Proof.
  intros Hr Ht Hp Hs Hline. destruct (remove_at ed v line a x b Hr Ht Hline) as [Hl ->]. by apply set_line_rep.
Qed.

Lemma text_split (t : list Z) pos :
  (pos < length t)%nat -> exists x, t = take pos t ++ x :: drop (S pos) t /\ length (take pos t) = pos.
Proof.
  intros Hp. destruct (lookup_lt_is_Some_2 t pos Hp) as [x Hx]. exists x.
  split; [by rewrite take_drop_middle|]. rewrite length_take. lia.
Qed.

Lemma key_delete_rep ed v :
  editor_rep ed v ->
  editor_rep (key_delete ed) (View (take (v_pos v) (v_text v) ++ drop (S (v_pos v)) (v_text v)) (v_pos v) (v_hist v) (v_shown v)).
Proof.
  intros Hr. pose proof Hr as [_ Hlen Hcur Hpos _ _ _ Hs]. unfold key_delete. rewrite Hcur.
  destruct (Nat.ltb_spec (v_pos v) (ed_len ed)) as [Hlt|Hge].
  - destruct (text_split (v_text v) (v_pos v)) as (x & Ht & Hla); [lia|].
    eapply (key_remove_rep ed v _ (take (v_pos v) (v_text v)) x (drop (S (v_pos v)) (v_text v))); [done|done| | |].
    + rewrite length_app, Hla. lia.
    + by apply redraw_ok.
    + by rewrite Hla.
  - rewrite take_ge, drop_ge, app_nil_r by lia. by destruct v.
Qed.

Lemma key_backspace_rep ed v :
  editor_rep ed v ->
  editor_rep (key_backspace ed) (View (take (v_pos v - 1) (v_text v) ++ drop (v_pos v) (v_text v)) (v_pos v - 1) (v_hist v) (v_shown v)).
Proof.
  intros Hr. pose proof Hr as [_ Hlen Hcur Hpos _ _ _ Hs]. unfold key_backspace. rewrite Hcur.
  destruct (Nat.ltb_spec 0 (v_pos v)) as [Hlt|Hge].
  2: { destruct v as [t pos hist h]. cbn [v_pos v_text v_hist v_shown] in *. by replace pos with 0%nat in * by lia. }
  destruct (text_split (v_text v) (v_pos v - 1)) as (x & Ht & Hla); [lia|].
  replace (S (v_pos v - 1)) with (v_pos v) in Ht by lia.
  assert (Hl : (v_pos v - 1 <= length (take (v_pos v - 1) (v_text v) ++ drop (v_pos v) (v_text v)))%nat)
    by (rewrite length_app, Hla; lia).
  destruct (Nat.eqb_spec (v_pos v) (ed_len ed)) as [Heq|Hne].
  - eapply (key_remove_rep ed v _ _ x _ _ _ Hr Ht Hl); [by apply backspace_ok|].
    rewrite Hla, <- Heq, Nat.sub_diag. done.
  - eapply (key_remove_rep ed v _ _ x _ _ _ Hr Ht Hl); [by apply redraw_ok|]. by rewrite Hla.
Qed.

Lemma history_row ed v h :
  editor_rep ed v -> 0 <= h < Z.of_nat (length (v_hist v)) ->
  c_str (history_at ed h) = hist_at v h /\ (length (c_str (history_at ed h)) < SHELL_LINE_MAX)%nat.
Proof.
  intros Hr Hh. destruct (hi_row _ _ _ (er_hist _ _ Hr) (Z.to_nat h)) as (_ & Hc & Hl); [lia|].
  unfold history_at, hist_at. by rewrite Hc.
Qed.

Lemma show_rep ed v h :
  editor_rep ed v -> 0 <= h < Z.of_nat (length (v_hist v)) ->
  editor_rep (recall (set_ed_hcursor ed h) (history_at ed h)) (show v h (hist_at v h)).
Proof.
  intros Hr Hh. destruct (history_row ed v h Hr Hh) as [Hc Hl]. unfold show. rewrite <- Hc.
  pose proof Hr as [Hl1 Hlen Hcur Hpos Hhist Hsh Hrange Hs].
  apply (recall_rep (set_ed_hcursor ed h) (View (v_text v) (v_pos v) (v_hist v) h)); [by split; cbn; auto; lia|done|cbn; lia|done].
Qed.

(** ** History *)

(** The newest line last; a line like the newest one is not kept twice. *)
Definition remember (line : list Z) (hist : list (list Z)) : list (list Z) :=
  if bool_decide (line = []) then hist else
  if bool_decide (hist !! (length hist - 1)%nat = Some line) then hist else
  if (length hist <? SHELL_HISTORY_MAX)%nat then hist ++ [line] else tl hist ++ [line].

Lemma row_copy_eq src : forall pre rest,
  (length (c_str src) < length src)%nat -> (length (c_str src) < length rest)%nat ->
  row_copy (length pre) (pre ++ rest) src = pre ++ c_str src ++ 0 :: drop (S (length (c_str src))) rest.
Proof.
  induction src as [|c src IH]; intros pre rest Hs Hr; [simpl in Hs; lia|]. cbn [row_copy c_str] in *.
  destruct rest as [|r rest]; [simpl in Hr; lia|].
  rewrite insert_app_r_alt, Nat.sub_diag by lia. cbn [insert list_insert].
  destruct (Z.eqb_spec c 0) as [->|Hc]; [done|]. cbn [length] in *.
  specialize (IH (pre ++ [c]) rest). rewrite length_app in IH. cbn [length] in IH.
  rewrite Nat.add_1_r, <- !app_assoc in IH. cbn [app] in IH. rewrite IH by lia. done.
Qed.

Lemma row_copy_row dst src t :
  length dst = SHELL_LINE_MAX -> row_is src t -> row_is (row_copy 0 dst src) t.
Proof.
  intros Hd (Hl & Hc & Ht). pose proof (row_copy_eq src [] dst) as He. cbn [length app] in He.
  rewrite He, Hc by (rewrite Hc; lia). split_and!; [| |done].
  - rewrite length_app. simpl. rewrite length_drop. lia.
  - rewrite c_str_app; [simpl; apply app_nil_r|]. rewrite <- Hc. apply c_str_nonzero.
Qed.

Lemma str_copy_row dst src :
  length dst = SHELL_LINE_MAX -> (length (c_str src) < SHELL_LINE_MAX)%nat ->
  row_is (snd (str_copy dst SHELL_LINE_MAX src)) (c_str src).
Proof.
  intros Hd Hs. destruct (str_copy_spec dst SHELL_LINE_MAX src) as (d & -> & Hc & Hl); [unfold SHELL_LINE_MAX in *; lia|].
  cbn [snd]. rewrite take_ge in Hc by lia. split_and!; [lia|done|done].
Qed.

Lemma nth_insert (l : list (list Z)) i j x :
  (i < length l)%nat -> nth j (<[i := x]> l) [] = if decide (i = j) then x else nth j l [].
Proof.
  intros Hi. rewrite !nth_lookup. destruct (decide (i = j)) as [<-|Hne].
  - by rewrite list_lookup_insert_eq.
  - by rewrite list_lookup_insert_ne.
Qed.

Lemma hist_last history count hist :
  hist_rep history count hist -> (0 < count)%nat ->
  hist !! (length hist - 1)%nat = Some (c_str (nth (count - 1) history [])).
Proof.
  intros [Hr Hz -> Hle Hrow] Hc. destruct (Hrow (length hist - 1)%nat) as (_ & -> & _); [lia|].
  destruct (lookup_lt_is_Some_2 hist (length hist - 1)) as [x Hx]; [lia|].
  by rewrite Hx, (nth_lookup_Some _ _ _ _ Hx).
Qed.

Lemma hist_shift history hist :
  hist_rep history SHELL_HISTORY_MAX hist ->
  length (shift_rows history) = SHELL_HISTORY_MAX /\ Forall (fun row => length row = SHELL_LINE_MAX) (shift_rows history) /\
  forall i, (i < SHELL_HISTORY_MAX - 1)%nat -> row_is (nth i (shift_rows history) []) (nth (S i) hist []).
Proof.
  intros [Hr Hz Hc Hle Hrow]. unfold SHELL_HISTORY_MAX in *.
  assert (Hall : forall i, (i < 8)%nat -> row_is (nth i history []) (nth i hist [])) by (intros; apply Hrow; lia).
  clear Hrow. do 8 (destruct history as [|? history]; [done|]). destruct history; [|done].
  unfold shift_rows. cbn [seq SHELL_HISTORY_MAX Nat.sub fold_left nth insert list_insert].
  assert (Hlen : forall i, (i < 8)%nat -> length (nth i [l; l0; l1; l2; l3; l4; l5; l6] []) = SHELL_LINE_MAX)
    by (intros i Hi; by destruct (Hall i Hi)).
  assert (Hcopy : forall i, (i < 7)%nat -> row_is (row_copy 0 (nth i [l; l0; l1; l2; l3; l4; l5; l6] [])
                                       (nth (S i) [l; l0; l1; l2; l3; l4; l5; l6] [])) (nth (S i) hist [])).
  { intros i Hi. apply row_copy_row; [apply Hlen; lia|apply Hall; lia]. }
  split_and!; [done| |].
  - repeat constructor; first [exact (proj1 (Hcopy 0%nat ltac:(lia)))|exact (proj1 (Hcopy 1%nat ltac:(lia)))
      |exact (proj1 (Hcopy 2%nat ltac:(lia)))|exact (proj1 (Hcopy 3%nat ltac:(lia)))|exact (proj1 (Hcopy 4%nat ltac:(lia)))
      |exact (proj1 (Hcopy 5%nat ltac:(lia)))|exact (proj1 (Hcopy 6%nat ltac:(lia)))|exact (Hlen 7%nat ltac:(lia))].
  - intros i Hi. do 7 (destruct i as [|i]; [first [exact (Hcopy 0%nat ltac:(lia))|exact (Hcopy 1%nat ltac:(lia))
      |exact (Hcopy 2%nat ltac:(lia))|exact (Hcopy 3%nat ltac:(lia))|exact (Hcopy 4%nat ltac:(lia))
      |exact (Hcopy 5%nat ltac:(lia))|exact (Hcopy 6%nat ltac:(lia))]|]). lia.
Qed.

Lemma rows_insert (history : list (list Z)) i row :
  Forall (fun row => length row = SHELL_LINE_MAX) history -> length row = SHELL_LINE_MAX ->
  Forall (fun row => length row = SHELL_LINE_MAX) (<[i := row]> history).
Proof. intros Ha Hr. by apply Forall_insert. Qed.

Lemma row_length (history : list (list Z)) i :
  Forall (fun row => length row = SHELL_LINE_MAX) history -> (i < length history)%nat -> length (nth i history []) = SHELL_LINE_MAX.
Proof.
  intros Ha Hi. destruct (lookup_lt_is_Some_2 history i Hi) as [r Hr]. rewrite (nth_lookup_Some _ _ _ _ Hr).
  apply (Forall_lookup_1 _ _ _ _ Ha Hr).
Qed.

Lemma c_str_nil s : (hd 0 s =? 0) = bool_decide (c_str s = []).
Proof.
  destruct s as [|c s]; [done|]. cbn [hd c_str]. destruct (Z.eqb_spec c 0); [done|].
  by rewrite bool_decide_eq_false_2.
Qed.

(** A row written behind the rows of [hist]. *)
Lemma hist_push history n hist row t :
  length history = SHELL_HISTORY_MAX -> Forall (fun row => length row = SHELL_LINE_MAX) history ->
  n = length hist -> (n < SHELL_HISTORY_MAX)%nat ->
  (forall i, (i < n)%nat -> row_is (nth i history []) (nth i hist [])) -> row_is row t ->
  hist_rep (<[n := row]> history) (S n) (hist ++ [t]).
Proof.
  intros Hr Hz -> Hlt Hrow Hn. split.
  - by rewrite length_insert.
  - apply rows_insert; [done|apply Hn].
  - rewrite length_app. simpl. lia.
  - rewrite length_app. simpl. lia.
  - intros i Hi. rewrite length_app in Hi. simpl in Hi. rewrite nth_insert by lia.
    destruct (decide (length hist = i)) as [<-|Hne].
    + rewrite app_nth2, Nat.sub_diag by lia. exact Hn.
    + rewrite app_nth1 by lia. apply Hrow. lia.
Qed.

Lemma store_history_rep history count line hist :
  hist_rep history count hist -> (length (c_str line) < SHELL_LINE_MAX)%nat ->
  let '(history', count') := shell_store_history history count line in
  hist_rep history' count' (remember (c_str line) hist).
Proof.
  intros Hrep Hlen. unfold shell_store_history, remember.
  assert (Hempty : (hd 0 line =? 0) = bool_decide (c_str line = [])) by apply c_str_nil. rewrite Hempty.
  destruct (bool_decide _); [done|].
  assert (Hdup : (0 <? count)%nat && str_eq (nth (count - 1) history []) line =
                 bool_decide (hist !! (length hist - 1)%nat = Some (c_str line))).
  { pose proof (hi_count _ _ _ Hrep) as Hc. destruct (Nat.ltb_spec 0 count) as [H0|H0]; cbn [andb].
    - rewrite (hist_last _ _ _ Hrep H0). apply eq_true_iff_eq. rewrite str_eq_spec, bool_decide_eq_true.
      split; [by intros ->|by intros [= ->]].
    - destruct hist; [|simpl in *; lia]. by rewrite bool_decide_eq_false_2. }
  rewrite Hdup. destruct (bool_decide _); [done|]. pose proof Hrep as [Hr Hz Hc Hle Hrow]. rewrite <- Hc.
  destruct (Nat.ltb_spec count SHELL_HISTORY_MAX) as [Hlt|Hge].
  - apply hist_push; [done|done|done|done|intros; apply Hrow; lia|].
    apply str_copy_row; [|done]. apply row_length; [done|lia].
  - assert (count = SHELL_HISTORY_MAX) as -> by lia. destruct (hist_shift _ _ Hrep) as (Hsl & Hsz & Hsr).
    apply (hist_push (shift_rows history) (SHELL_HISTORY_MAX - 1) (tl hist)); [done|done| | | |].
    + by rewrite length_tl, <- Hc.
    + unfold SHELL_HISTORY_MAX. lia.
    + intros i Hi. destruct hist as [|h0 hist]; [simpl in Hc; unfold SHELL_HISTORY_MAX in Hc; lia|]. exact (Hsr i Hi).
    + apply str_copy_row; [|done]. apply row_length; [done|]. rewrite Hsl. unfold SHELL_HISTORY_MAX. lia.
Qed.

(** ** Numbers *)

(** The reference: the value of a string of digits, however large. *)
Definition digits_value (base : Z) (acc : Z) (l : list Z) : Z :=
  fold_left (fun a c => base * a + default 0 (digit_value base c)) l acc.
Definition all_digits (base : Z) (l : list Z) : bool := forallb (fun c => bool_decide (is_Some (digit_value base c))) l.

(** A number that fits, or nothing. *)
Definition numeral (base : Z) (l : list Z) : option Z :=
  if all_digits base l && (digits_value base 0 l <=? UINT32_MAX) then Some (digits_value base 0 l) else None.

Lemma digit_value_range base ch d : base = 10 \/ base = 16 -> digit_value base ch = Some d -> 0 <= d < base.
Proof.
  unfold digit_value. intros [->| ->]; cbn [Z.eqb andb Pos.eqb]; repeat case_if; intros [= <-]; lia.
Qed.

Lemma digits_value_mono base l : forall acc, 1 <= base -> 0 <= acc -> acc <= digits_value base acc l.
Proof.
  unfold digits_value. induction l as [|c l IH]; intros acc Hb Ha; cbn [fold_left]; [lia|].
  assert (Hd : 0 <= default 0 (digit_value base c)).
  { unfold digit_value. repeat case_if; cbn; lia. }
  specialize (IH (base * acc + default 0 (digit_value base c)) Hb). nia.
Qed.

Lemma digits_value_cons base acc c l :
  digits_value base acc (c :: l) = digits_value base (base * acc + default 0 (digit_value base c)) l.
Proof. done. Qed.

Lemma all_digits_cons base c l :
  all_digits base (c :: l) = bool_decide (is_Some (digit_value base c)) && all_digits base l.
Proof. done. Qed.

(** The overflow tests stop exactly the numbers that do not fit. *)
Lemma parse_base_spec base s : forall value,
  base = 10 \/ base = 16 -> is_u32 value ->
  parse_base base value s =
  if all_digits base (c_str s) && (digits_value base value (c_str s) <=? UINT32_MAX)
  then Some (digits_value base value (c_str s)) else None.
Proof.
  induction s as [|ch s IH]; intros value Hb Hv; cbn [parse_base c_str].
  { unfold UINT32_MAX, is_u32 in *. cbn. by rewrite (proj2 (Z.leb_le _ _)) by lia. }
  destruct (ch =? 0).
  { unfold UINT32_MAX, is_u32 in *. cbn. by rewrite (proj2 (Z.leb_le _ _)) by lia. }
  rewrite all_digits_cons, digits_value_cons. destruct (digit_value base ch) as [d|] eqn:Ed.
  2: { by rewrite bool_decide_eq_false_2 by (by intros [? [=]]). }
  pose proof (digit_value_range base ch d Hb Ed) as Hd. rewrite bool_decide_eq_true_2 by eauto. cbn [andb].
  change (default 0 (Some d)) with d.
  rewrite (proj2 (Z.leb_gt base d)) by lia.
  pose proof (digits_value_mono base (c_str s) (base * value + d)) as Hm.
  assert (Hover : UINT32_MAX < base * value + d -> all_digits base (c_str s) &&
            (digits_value base (base * value + d) (c_str s) <=? UINT32_MAX) = false).
  { intros Hlt. rewrite (proj2 (Z.leb_gt _ _)), andb_false_r; [done|]. unfold is_u32 in Hv. nia. }
  unfold is_u32 in Hv. destruct (Z.ltb_spec (UINT32_MAX / base) value) as [Hbig|Hsmall].
  { rewrite Hover; [done|]. unfold UINT32_MAX in *. destruct Hb as [->| ->]; Z.div_mod_to_equations; lia. }
  destruct (decide (base * value + d <= UINT32_MAX)) as [Hle|Hgt].
  - rewrite (Z.mul_comm value), (u32_small (base * value)), u32_small by (unfold UINT32_MAX in *; nia).
    rewrite (proj2 (Z.ltb_ge _ d)) by nia. apply IH; [done|]. unfold is_u32, UINT32_MAX in *. nia.
  - rewrite Hover by lia. assert (Hw : (value ⊠ base) ⊞ d <? d = true).
    { apply Z.ltb_lt. unfold u32. rewrite Zplus_mod_idemp_l. unfold UINT32_MAX in *.
      destruct Hb as [->| ->]; Z.div_mod_to_equations; lia. }
    by rewrite Hw.
Qed.

Lemma parse_dec_base s : forall value, parse_dec value s = parse_base 10 value s.
Proof.
  induction s as [|ch s IH]; intros value; cbn [parse_dec parse_base]; [done|]. destruct (ch =? 0); [done|].
  unfold digit_value. cbn [Z.eqb andb Pos.eqb].
  destruct (Z.ltb_spec ch 48), (Z.leb_spec 48 ch), (Z.ltb_spec 57 ch), (Z.leb_spec ch 57); cbn [orb andb]; try lia; try done.
  rewrite (proj2 (Z.leb_gt 10 (ch - 48))) by lia. destruct (_ <? value); [done|]. destruct (_ <? _); [done|apply IH].
Qed.

Lemma parse_u32_eq s : parse_u32 s = if bool_decide (c_str s = []) then None else numeral 10 (c_str s).
Proof.
  unfold parse_u32. rewrite c_str_nil. destruct (bool_decide _); [done|]. rewrite parse_dec_base.
  by rewrite (parse_base_spec 10 s 0) by (auto || done).
Qed.

(** What [parse_u32_auto] computes, as a definition without overflow. *)
Definition reads_as (t : list Z) : option Z :=
  match t with
  | [] => None
  | c0 :: c1 :: t' => if (c0 =? 48) && ((c1 =? 120) || (c1 =? 88))
                      then match t' with [] => None | _ => numeral 16 t' end else numeral 10 t
  | _ => numeral 10 t
  end.

Lemma parse_u32_auto_eq s : parse_u32_auto s = reads_as (c_str s).
Proof.
  unfold parse_u32_auto, reads_as.
  assert (H10 : parse_base 10 0 s = numeral 10 (c_str s)) by (by rewrite (parse_base_spec 10 s 0) by (auto || done)).
  destruct s as [|c0 s]; [done|]. cbn [nth c_str]. cbn [c_str] in H10. destruct (Z.eqb_spec c0 0) as [->|H0]; [done|].
  destruct s as [|c1 s]; cbn [nth c_str drop] in *.
  { change (0 =? 120) with false. change (0 =? 88) with false. rewrite andb_false_r. exact H10. }
  destruct (Z.eqb_spec c1 0) as [->|H1].
  { change (0 =? 120) with false. change (0 =? 88) with false. rewrite andb_false_r. exact H10. }
  destruct (_ && _); [|exact H10]. rewrite drop_0, c_str_nil.
  pose proof (parse_base_spec 16 s 0 (or_intror eq_refl)) as H16.
  destruct (c_str s) as [|x l] eqn:E; [by rewrite bool_decide_eq_true_2|]. rewrite bool_decide_eq_false_2 by done. by apply H16.
Qed.

(** ** Printed numbers are read back *)

Lemma hex_char_value d : 0 <= d < 16 -> digit_value 16 (hex_char d) = Some d /\ hex_char d <> 0.
Proof.
  intros Hd. rewrite <- (Z2Nat.id d) by lia. assert (Hn : (Z.to_nat d < 16)%nat) by lia.
  revert Hn. generalize (Z.to_nat d). clear d Hd. intros n Hn.
  do 16 (destruct n as [|n]; [split; [reflexivity|discriminate]|]). lia.
Qed.

Lemma hex_digits_cons n v : hex_digits (S n) v = hex_char (Z.land (Z.shiftr v (4 * Z.of_nat n)) 15) :: hex_digits n v.
Proof.
  unfold hex_digits. cbn [seq map]. replace (S n - 1 - 0)%nat with n by lia. f_equal.
  rewrite <- seq_shift, map_map. apply map_ext. intros i. by replace (S n - 1 - S i)%nat with (n - 1 - i)%nat by lia.
Qed.

Lemma nibble v n : 0 <= v -> Z.land (Z.shiftr v (4 * Z.of_nat n)) 15 = (v / 16 ^ Z.of_nat n) `mod` 16.
Proof.
  intros Hv. change 15 with (Z.ones 4). rewrite Z.land_ones by lia. rewrite Z.shiftr_div_pow2 by lia.
  rewrite Z.pow_mul_r by lia. reflexivity.
Qed.

Lemma hex_digits_value n v : forall acc, 0 <= v ->
  all_digits 16 (hex_digits n v) = true /\ Forall (fun c => c <> 0) (hex_digits n v) /\
  digits_value 16 acc (hex_digits n v) = acc * 16 ^ Z.of_nat n + v `mod` 16 ^ Z.of_nat n.
Proof.
  induction n as [|n IH]; intros acc Hv.
  { split_and!; [done|constructor|]. cbn. rewrite Z.mod_1_r. lia. }
  rewrite hex_digits_cons, nibble by done.
  pose proof (Z.mod_pos_bound (v / 16 ^ Z.of_nat n) 16 ltac:(lia)) as Hd.
  destruct (hex_char_value _ Hd) as [Hc Hnz]. rewrite all_digits_cons, digits_value_cons, Hc.
  change (default 0 (Some ?d)) with d. destruct (IH (16 * acc + (v / 16 ^ Z.of_nat n) `mod` 16) Hv) as (-> & Hf & ->).
  split_and!; [by rewrite bool_decide_eq_true_2 by eauto|by constructor|].
  rewrite Nat2Z.inj_succ, Z.pow_succ_r, (Z.mul_comm 16 (16 ^ _)), Z.rem_mul_r by lia. lia.
Qed.

Lemma all_digits_app base a b : all_digits base (a ++ b) = all_digits base a && all_digits base b.
Proof. apply forallb_app. Qed.

Lemma digits_value_snoc base l c : digits_value base 0 (l ++ [c]) =
  base * digits_value base 0 l + default 0 (digit_value base c).
Proof. unfold digits_value. by rewrite fold_left_app. Qed.

Lemma dec_buf_value fuel : forall v, 0 <= v < 10 ^ Z.of_nat fuel ->
  all_digits 10 (rev (dec_buf fuel v)) = true /\ Forall (fun c => c <> 0) (rev (dec_buf fuel v)) /\
  digits_value 10 0 (rev (dec_buf fuel v)) = v /\ (0 < v -> rev (dec_buf fuel v) <> []).
Proof.
  induction fuel as [|n IH]; intros v Hv; cbn [dec_buf].
  { cbn in Hv. assert (v = 0) as -> by lia. split_and!; [done|constructor|done|lia]. }
  destruct (Z.leb_spec v 0) as [Hz|Hz].
  { assert (v = 0) as -> by lia. split_and!; [done|constructor|done|lia]. }
  rewrite Nat2Z.inj_succ, Z.pow_succ_r in Hv by lia. destruct (IH (v / 10)) as (Ha & Hf & Hd & _).
  { split; [apply Z.div_pos; lia|apply Z.div_lt_upper_bound; lia]. }
  pose proof (Z.mod_pos_bound v 10 ltac:(lia)) as Hm. pose proof (Z.div_mod v 10 ltac:(lia)) as Hdm.
  assert (Hc : digit_value 10 (48 + v `mod` 10) = Some (v `mod` 10)).
  { unfold digit_value. rewrite !(proj2 (Z.leb_le _ _)) by lia. cbn [andb]. f_equal. lia. }
  cbn [rev]. rewrite all_digits_app, digits_value_snoc, all_digits_cons, Ha, Hd, Hc.
  split_and!; [by rewrite bool_decide_eq_true_2 by eauto| |change (default 0 (Some ?d)) with d; lia|intros _ [_ [=]]%app_nil].
  apply Forall_app. split; [done|]. repeat constructor. lia.
Qed.

Lemma dec_digits_value v :
  is_u32 v ->
  all_digits 10 (dec_digits v) = true /\ Forall (fun c => c <> 0) (dec_digits v) /\
  digits_value 10 0 (dec_digits v) = v /\ dec_digits v <> [].
Proof.
  intros Hv. unfold is_u32 in Hv. unfold dec_digits. destruct (Z.eqb_spec v 0) as [->|Hne].
  { split_and!; [done|by repeat constructor|done|done]. }
  destruct (dec_buf_value 10 v) as (Ha & Hf & Hd & Hn); [change (10 ^ Z.of_nat 10) with 10000000000; lia|].
  split_and!; [done..|]. apply Hn. lia.
Qed.

Lemma numeral_value base t v : all_digits base t = true -> digits_value base 0 t = v -> is_u32 v -> numeral base t = Some v.
Proof.
  intros Ha Hd Hv. unfold numeral. rewrite Ha, Hd, (proj2 (Z.leb_le _ _)); [done|]. unfold is_u32, UINT32_MAX in *. lia.
Qed.

Lemma reads_as_dec t : all_digits 10 t = true -> t <> [] -> reads_as t = numeral 10 t.
Proof.
  intros Ha Hne. destruct t as [|c0 [|c1 t]]; [done|done|]. cbn [reads_as].
  destruct (Z.eqb_spec c1 120) as [->|]; [by rewrite !all_digits_cons, andb_false_r in Ha|].
  destruct (Z.eqb_spec c1 88) as [->|]; [by rewrite !all_digits_cons, andb_false_r in Ha|].
  by rewrite andb_false_r.
Qed.

(** A number printed by [vga_put_dec32] or [vga_put_hex32] is read back by the shell's parsers, whatever
    follows its terminator. *)
Theorem number_roundtrip v rest :
  is_u32 v ->
  parse_u32 (dec_digits v ++ 0 :: rest) = Some v /\
  parse_u32_auto (dec_digits v ++ 0 :: rest) = Some v /\
  parse_u32_auto (hex_prefix ++ hex_digits 8 v ++ 0 :: rest) = Some v.
Proof.
  intros Hv. destruct (dec_digits_value v Hv) as (Ha & Hf & Hd & Hn).
  pose proof (numeral_value 10 _ v Ha Hd Hv) as Hnum.
  assert (Hc : c_str (dec_digits v ++ 0 :: rest) = dec_digits v) by (rewrite c_str_app by done; apply app_nil_r).
  assert (Hv0 : 0 <= v) by (unfold is_u32 in Hv; lia).
  destruct (hex_digits_value 8 v 0 Hv0) as (Hha & Hhf & Hhd).
  rewrite parse_u32_eq, !parse_u32_auto_eq, Hc, bool_decide_eq_false_2 by done. split_and!; [done| |].
  - by rewrite reads_as_dec.
  - rewrite app_assoc, c_str_app, app_nil_r; [|apply Forall_app; split; [by repeat constructor|done]].
    cbn [hex_prefix app reads_as Z.eqb Pos.eqb andb orb]. destruct (hex_digits 8 v) as [|x l] eqn:E; [by apply (f_equal length) in E|].
    apply numeral_value; [done| |done]. rewrite Hhd. rewrite Z.mod_small; [lia|]. unfold is_u32 in Hv.
    change (16 ^ Z.of_nat 8) with 4294967296. lia.
Qed.

Lemma number_roundtrip_witness :
  is_u32 4294967295 /\ parse_u32 (dec_digits 4294967295 ++ [0]) = Some 4294967295 /\
  parse_u32_auto (hex_prefix ++ hex_digits 8 4294967295 ++ [0]) = Some 4294967295.
Proof.
  assert (Hv : is_u32 4294967295) by (unfold is_u32; lia).
  destruct (number_roundtrip 4294967295 [] Hv) as (H1 & _ & H3). auto.
Defined.

(** ** The editor refines the abstract one *)

Lemma key_left_rep ed v :
  editor_rep ed v -> editor_rep (key_left ed) (View (v_text v) (v_pos v - 1) (v_hist v) (v_shown v)).
Proof.
  intros Hr. pose proof Hr as [Hl Hlen Hcur Hpos _ _ _ Hs]. unfold key_left. rewrite Hcur.
  destruct (Nat.ltb_spec 0 (v_pos v)).
  - rewrite Hlen. apply set_line_rep; [done|done|lia|by apply backspace_ok].
  - destruct v as [t pos hist h]. cbn [v_pos v_text v_hist v_shown] in *. by replace pos with 0%nat in * by lia.
Qed.

Lemma key_right_rep ed v :
  editor_rep ed v -> editor_rep (key_right ed) (View (v_text v) (Nat.min (S (v_pos v)) (length (v_text v))) (v_hist v) (v_shown v)).
Proof.
  intros Hr. pose proof Hr as [Hl Hlen Hcur Hpos _ _ _ Hs]. unfold key_right. rewrite Hcur, Hlen.
  destruct (Nat.ltb_spec (v_pos v) (length (v_text v))).
  - rewrite Nat.min_l by lia. apply set_line_rep; [done|done|lia|by apply putc_ok].
  - rewrite Nat.min_r by lia. destruct v as [t pos hist h]. cbn [v_pos v_text v_hist v_shown] in *.
    by replace (length t) with pos by lia.
Qed.

Lemma key_up_rep ed v : editor_rep ed v -> editor_rep (key_up ed) (edit KEY_SPECIAL_UP v).
Proof.
  intros Hr. pose proof Hr as [_ _ _ _ Hh Hsh Hrange _]. unfold key_up. rewrite Hsh, (hi_count _ _ _ Hh).
  destruct v as [t pos hist h]. cbn [edit v_hist v_shown] in *. rewrite Z.eqb_refl.
  destruct hist as [|h0 hist]; [done|]. cbn [length Nat.eqb] in *.
  apply (show_rep ed (View t pos (h0 :: hist) h) _ Hr). cbn [v_hist length]. repeat case_match; lia.
Qed.

Lemma key_down_rep ed v : editor_rep ed v -> editor_rep (key_down ed) (edit KEY_SPECIAL_DOWN v).
Proof.
  intros Hr. pose proof Hr as [Hl Hlen Hcur Hpos Hh Hsh Hrange Hs]. unfold key_down. rewrite Hsh, (hi_count _ _ _ Hh).
  destruct v as [t pos hist h]. cbn [edit v_hist v_shown] in *.
  change (KEY_SPECIAL_DOWN =? KEY_SPECIAL_UP) with false. rewrite Z.eqb_refl.
  destruct (Z.ltb_spec h 0); [by rewrite orb_true_r|].
  rewrite orb_false_r, (proj2 (Nat.eqb_neq _ _)) by lia.
  destruct (Z.leb_spec (Z.of_nat (length hist)) (h + 1)).
  - apply (recall_rep (set_ed_hcursor ed (-1)) (View t pos hist (-1)) (-1) []); [|done|cbn; lia|cbn; unfold SHELL_LINE_MAX; lia].
    split; cbn; auto; lia.
  - apply (show_rep ed (View t pos hist h) _ Hr). cbn. lia.
Qed.

(** One key other than Enter. *)
Lemma shell_key_rep c ed v :
  editor_rep ed v -> c <> 0 -> c <> 10 -> exists ed', shell_key c ed = inl ed' /\ editor_rep ed' (edit c v).
Proof.
  intros Hr H0 H10. unfold shell_key. rewrite (proj2 (Z.eqb_neq c 10)) by done.
  destruct (Z.eqb_spec c KEY_SPECIAL_UP) as [->|H1]; [eexists; split; [done|by apply key_up_rep]|].
  destruct (Z.eqb_spec c KEY_SPECIAL_DOWN) as [->|H2]; [eexists; split; [done|by apply key_down_rep]|].
  assert (Hed : forall v', v' = edit c v -> forall e, editor_rep e v' -> exists ed', inl e = @inl editor editor ed' /\ editor_rep ed' (edit c v))
    by (intros v' <- e He; eauto).
  destruct v as [t pos hist h]. cbn [edit] in *. rewrite (proj2 (Z.eqb_neq _ _) H1), (proj2 (Z.eqb_neq _ _) H2) in *.
  destruct (c =? KEY_SPECIAL_LEFT); [eapply Hed; [reflexivity|]; by apply (key_left_rep ed (View t pos hist h))|].
  destruct (c =? KEY_SPECIAL_RIGHT); [eapply Hed; [reflexivity|]; by apply (key_right_rep ed (View t pos hist h))|].
  destruct (c =? KEY_SPECIAL_DELETE); [eapply Hed; [reflexivity|]; by apply (key_delete_rep ed (View t pos hist h))|].
  destruct (c =? 8); [eapply Hed; [reflexivity|]; by apply (key_backspace_rep ed (View t pos hist h))|].
  pose proof (er_len _ _ Hr) as Hlen. cbn [v_text] in Hlen.
  destruct (Nat.ltb_spec (length t) (SHELL_LINE_MAX - 1)) as [Hlt|Hge]; (eapply Hed; [reflexivity|]).
  - by apply (key_insert_rep c ed (View t pos hist h)).
  - unfold key_insert. rewrite (proj2 (Nat.ltb_ge _ _)) by lia. exact Hr.
Qed.

Lemma shell_key_enter ed v :
  editor_rep ed v -> exists ed', shell_key 10 ed = inr ed' /\ editor_rep ed' v.
Proof.
  intros Hr. pose proof Hr as [(Hl & Hnz & rest & Hline) Hlen Hcur Hpos _ _ _ Hs]. eexists. split; [reflexivity|].
  rewrite Hline, Hlen, insert_app_r_alt, Nat.sub_diag by lia. cbn [insert list_insert].
  rewrite <- Hline, Hcur. destruct v as [t pos hist h]. cbn [v_text v_pos] in *.
  apply (set_line_rep ed (View t pos hist h)); [done|split_and!; eauto|done|by apply putc_ok].
Qed.

Lemma shell_loop_rep keys more : forall ed v,
  editor_rep ed v -> 10 ∉ keys ->
  exists ed', shell_loop (keys ++ 10 :: more) ed = Some ed' /\
              editor_rep ed' (fold_left (fun v c => edit c v) (filter (fun c => c <> 0) keys) v).
Proof.
  induction keys as [|c keys IH]; intros ed v Hr Hk; cbn [app shell_loop].
  { destruct (shell_key_enter ed v Hr) as (ed' & -> & Hr'). by exists ed'. }
  apply not_elem_of_cons in Hk as [Hc Hk]. destruct (Z.eqb_spec c 0) as [->|H0].
  { rewrite filter_cons_False by auto. by apply IH. }
  rewrite filter_cons_True by done. cbn [fold_left].
  destruct (shell_key_rep c ed v Hr H0) as (ed1 & -> & Hr1); [done|]. by apply IH.
Qed.

(** Between two lines: the editor's arrays have their sizes and the history holds [hist]. *)
Record shell_idle (ed : editor) (hist : list (list Z)) : Prop := {
  si_line : length (ed_line ed) = SHELL_LINE_MAX;
  si_hist : hist_rep (ed_history ed) (ed_hcount ed) hist;
  si_screen : screen_ok (ed_screen ed);
}.

Lemma shell_prompt_rep ed hist : shell_idle ed hist -> editor_rep (shell_prompt ed) (View [] 0 hist (-1)).
Proof.
  intros [Hl Hh Hs].
  assert (Hline : holds_line (<[0%nat := 0]> (ed_line ed)) []).
  { split_and!; [by rewrite length_insert|constructor|]. destruct (ed_line ed) as [|x line]; [done|by eexists]. }
  split; cbn [shell_prompt ed_line ed_len ed_cursor ed_history ed_hcount ed_hcursor ed_screen v_text v_pos v_hist v_shown length];
    [exact Hline|reflexivity|reflexivity|lia|exact Hh|reflexivity|lia|].
  unfold vga_puts. by apply write_ok.
Qed.

(** C38. The shell's loop refines an editor of texts: whatever keys come before Enter (arrows, Delete, Backspace,
    characters, and the idle polls that give no key), the line handed to [run_command] is the text that the
    abstract editor [edit] computes from them, the history becomes [remember] of it, and the line, the history
    and the screen are such that the next line starts from a state of the same kind. *)
Theorem shell_read_refines ed hist keys more :
  shell_idle ed hist -> 10 ∉ keys ->
  exists ed', shell_read (keys ++ 10 :: more) ed = Some ed' /\
    let text := v_text (fold_left (fun v c => edit c v) (filter (fun c => c <> 0) keys) (View [] 0 hist (-1))) in
    c_str (ed_line ed') = text /\ (length text < SHELL_LINE_MAX)%nat /\ shell_idle ed' (remember text hist).
Proof.
  intros Hi Hk. destruct (shell_loop_rep keys more _ _ (shell_prompt_rep ed hist Hi) Hk) as (ed1 & Hed & Hr).
  unfold shell_read. rewrite Hed. set (v := fold_left _ _ _) in *.
  assert (Hv : v_hist v = hist).
  { unfold v. clear. generalize (View [] 0 hist (-1)) (eq_refl : v_hist (View [] 0 hist (-1)) = hist).
    induction (filter _ keys) as [|c l IH]; intros v Hv; cbn [fold_left]; [done|]. apply IH.
    destruct v as [t pos hist' h]. cbn [v_hist] in Hv. subst hist'. cbn [edit]. repeat case_match; done. }
  clearbody v. pose proof Hr as [Hline Hlen Hcur Hpos Hh Hsh Hrange Hs].
  assert (Hc : c_str (ed_line ed1) = v_text v).
  { destruct Hline as (_ & Hnz & rest & ->). rewrite c_str_app by done. apply app_nil_r. }
  pose proof (holds_line_len _ _ Hline) as Hlt.
  pose proof (store_history_rep (ed_history ed1) (ed_hcount ed1) (ed_line ed1) hist) as Hst.
  destruct (shell_store_history _ _ _) as [history count]. eexists. split; [reflexivity|]. cbn zeta. split_and!; [done|done|].
  destruct Hline as (Hl & _). split; cbn [ed_line ed_history ed_hcount ed_screen]; [done| |done]. rewrite <- Hc. apply Hst; [by rewrite <- Hv|by rewrite Hc].
Qed.

(** The state of [kernel_main] before the first line. *)
Definition demo_editor : editor :=
  Editor (replicate SHELL_LINE_MAX 0) 0 0 (replicate SHELL_HISTORY_MAX (replicate SHELL_LINE_MAX 0)) 0 (-1)
         (Screen (replicate 2000 0) 0 0).

Lemma demo_editor_idle : shell_idle demo_editor [].
Proof.
  split; [reflexivity| |].
  - split; [reflexivity| |reflexivity|cbn; lia|intros i Hi; cbn in Hi; lia].
    apply Forall_replicate. reflexivity.
  - split; cbn [demo_editor ed_screen cells cursor_row cursor_col]; [|unfold VGA_HEIGHT; lia|lia].
    rewrite screen_size. apply length_replicate.
Qed.

(** "ab", Left, no key, "c", Enter gives "acb". *)
Lemma shell_read_refines_witness :
  exists ed', shell_read ([97; 98; KEY_SPECIAL_LEFT; 0; 99] ++ [10]) demo_editor = Some ed' /\
    c_str (ed_line ed') = [97; 99; 98] /\ shell_idle ed' [[97; 99; 98]].
Proof.
  destruct (shell_read_refines demo_editor [] [97; 98; KEY_SPECIAL_LEFT; 0; 99] []) as (ed' & He & Ht & _ & Hi).
  - exact demo_editor_idle.
  - intros Hin. apply list_elem_of_In in Hin. cbn in Hin. unfold KEY_SPECIAL_LEFT in Hin. lia.
  - exists ed'. split; [exact He|]. split; [exact Ht|exact Hi].
Defined.

(** The parsers' overflow tests on 32 bits are exact: a decimal word, or one with the prefix 0x, gives its
    value exactly when all its characters are digits, there is at least one, and the value is below 2^32. *)
Theorem shell_numbers_exact s :
  parse_u32 s = (if bool_decide (c_str s = []) then None else numeral 10 (c_str s)) /\
  parse_u32_auto s = reads_as (c_str s).
Proof. split; [apply parse_u32_eq|apply parse_u32_auto_eq]. Qed.

(** Left moves by [vga_backspace], which blanks the cell: the line keeps the character that the screen loses. *)
Theorem shell_left_erases ed v :
  editor_rep ed v -> (0 < v_pos v)%nat -> (0 < cursor_col (ed_screen ed))%nat ->
  let s := ed_screen (key_left ed) in
  ed_line (key_left ed) = ed_line ed /\
  cells s !! (cursor_row s * VGA_WIDTH + cursor_col s)%nat = Some blank.
Proof.
  intros [_ _ Hcur _ _ _ _ [Hc Hr Hl]] Hp Hcol. unfold key_left. rewrite Hcur, (proj2 (Nat.ltb_lt _ _) Hp).
  cbn [set_ed_line ed_screen ed_line]. split; [done|]. unfold vga_backspace.
  rewrite (proj2 (Nat.eqb_neq (cursor_col _) 0)) by lia. cbn [andb cells cursor_row cursor_col].
  apply list_lookup_insert_eq. rewrite Hc. unfold VGA_WIDTH, VGA_HEIGHT in *. lia.
Qed.

(** Inserting in the middle of a line redraws it from the cursor instead of from its end: after "ab", Left, "c"
    the line is "acb", but the screen shows "marsac", the end of the prompt overwritten and the "b" missing. *)
Theorem shell_insert_garbles :
  match shell_loop [97; 98; KEY_SPECIAL_LEFT; 99; 10] (shell_prompt demo_editor) with
  | Some ed => c_str (ed_line ed) = [97; 99; 98] /\
               take 9 (cells (ed_screen ed)) = map cell [109; 97; 114; 115; 97; 99; 32; 32] ++ [0]
  | None => False
  end.
Proof. split; vm_compute; reflexivity. Qed.
