(* ===== verification/Tables.v ===== *)
(** kernel/gdt.c and the descriptor tables of kernel/interrupts.c: segments, the task
    state segment and the interrupt gates, as the processor reads them.

    The addresses of the tables and of the assembly stubs, and the code selector read
    from the processor, are arguments. *)
From Stdlib Require Import ZArith Lia Bool List.
From stdpp Require Import base list numbers option.
From S2P Require Import Prelude.
#[local] Open Scope Z_scope.

(** ** Segments *)

Record gdt_entry := GdtEntry {
  limit_low : Z;
  base_low : Z;
  base_mid : Z;
  access : Z;
  granularity : Z;
  base_high : Z;
}.

Record gdt_ptr := GdtPtr { gp_limit : Z; gp_base : Z }.

(** The fields of the task state segment that the kernel sets; [sizeof] is 104 and
    the other fields stay 0. *)
Record tss_entry := Tss {
  tss_esp0 : Z;
  tss_ss0 : Z;
  tss_es : Z;
  tss_cs : Z;
  tss_ss : Z;
  tss_ds : Z;
  tss_fs : Z;
  tss_gs : Z;
  tss_iomap_base : Z;
}.
Definition sizeof_tss : Z := 25 * 4 + 2 * 2.

(** The static variables of gdt.c, and the selectors loaded by [gdt_flush] and
    [tss_flush]. *)
Record gdt_state := Gdt {
  gdt : list gdt_entry;
  gdt_descriptor : gdt_ptr;
  tss : tss_entry;
  loaded : list Z;
}.

Definition encode_segment (base limit acc flags : Z) : gdt_entry :=
  GdtEntry (Z.land limit 65535) (Z.land base 65535) (Z.land (Z.shiftr base 16) 255) acc
           (Z.lor (Z.land (Z.shiftr limit 16) 15) (Z.land flags 240)) (Z.land (Z.shiftr base 24) 255).

Definition gdt_set_entry (index : nat) (base limit acc flags : Z) (g : list gdt_entry) : list gdt_entry :=
  <[index := encode_segment base limit acc flags]> g.

Definition gdt_set_kernel_stack (kernel_stack_top : Z) (s : gdt_state) : gdt_state :=
  let t := tss s in
  Gdt (gdt s) (gdt_descriptor s)
      (Tss kernel_stack_top (tss_ss0 t) (tss_es t) (tss_cs t) (tss_ss t) (tss_ds t) (tss_fs t) (tss_gs t) (tss_iomap_base t))
      (loaded s).

Definition gdt_init (gdt_addr tss_addr kernel_stack_top : Z) (s : gdt_state) : gdt_state :=
  let g := fold_left (fun g i => gdt_set_entry i 0 0 0 0 g) (seq 0 6) (gdt s) in
  let g := gdt_set_entry 1 0 1048575 154 192 g in
  let g := gdt_set_entry 2 0 1048575 146 192 g in
  let g := gdt_set_entry 3 0 1048575 250 192 g in
  let g := gdt_set_entry 4 0 1048575 242 192 g in
  let t := Tss kernel_stack_top 16 19 11 19 19 19 19 sizeof_tss in
  let g := gdt_set_entry 5 tss_addr (sizeof_tss - 1) 137 0 g in
  Gdt g (GdtPtr (8 * 6 - 1) gdt_addr) t [16; 40].

(** ** Gates *)

Definition IDT_ENTRIES : nat := 256.
Definition IDT_TYPE_INTERRUPT_GATE : Z := 142.
Definition IDT_TYPE_TRAP_GATE_USER : Z := 239.

Record idt_entry := IdtEntry {
  offset_low : Z;
  selector : Z;
  zero : Z;
  type_attr : Z;
  offset_high : Z;
}.

(** The stubs of interrupts_asm.s and usermode_asm.s. *)
Inductive stub :=
  | irq0_stub | irq1_stub | irq_master_stub | irq_slave_stub | isr_fault_stub | page_fault_stub
  | syscall_stub | usermode_exit_stub.

#[export] Instance stub_eq_dec : EqDecision stub.
Proof. solve_decision. Defined.

Section Interrupts.
Context (address : stub -> Z) (cs : Z).

Definition idt_set_gate_attr (vector : nat) (handler : stub) (attr : Z) (t : list idt_entry) : list idt_entry :=
  let addr := address handler in
  <[vector := IdtEntry (Z.land addr 65535) cs 0 attr (Z.land (Z.shiftr addr 16) 65535)]> t.

Definition idt_set_gate (vector : nat) (handler : stub) (t : list idt_entry) : list idt_entry :=
  idt_set_gate_attr vector handler IDT_TYPE_INTERRUPT_GATE t.

Definition idt_clear (t : list idt_entry) : list idt_entry :=
  fold_left (fun t i => <[i := IdtEntry 0 0 0 0 0]> t) (seq 0 IDT_ENTRIES) t.

(** [for (vec = first; vec < first + n; vec++) idt_set_gate(vec, handler);] *)
Definition idt_set_gates (first n : nat) (handler : stub) (t : list idt_entry) : list idt_entry :=
  fold_left (fun t vec => idt_set_gate vec handler t) (seq first n) t.

(** The bytes written to the ports of the two interrupt controllers. *)
Definition pic_remap_and_mask : list (Z * Z) :=
  [(32, 17); (160, 17); (33, 32); (161, 40); (33, 4); (161, 2); (33, 1); (161, 1); (33, 252); (161, 255)].

(** The table, the limit [idt_load] gives to the processor, and the port writes; the
    keyboard's queue is emptied besides, by [keyboard_buffer_reset]. *)
Definition interrupts_init (t : list idt_entry) : list idt_entry * Z * list (Z * Z) :=
  let t := idt_clear t in
  let t := idt_set_gates 0 32 isr_fault_stub t in
  let t := idt_set_gate 14 page_fault_stub t in
  let t := idt_set_gates 32 8 irq_master_stub t in
  let t := idt_set_gates 40 8 irq_slave_stub t in
  let t := idt_set_gate_attr 128 syscall_stub IDT_TYPE_TRAP_GATE_USER t in
  let t := idt_set_gate_attr 129 usermode_exit_stub IDT_TYPE_TRAP_GATE_USER t in
  let t := idt_set_gate 32 irq0_stub t in
  let t := idt_set_gate 33 irq1_stub t in
  (t, 8 * Z.of_nat IDT_ENTRIES - 1, pic_remap_and_mask).

End Interrupts.

(** ** What the processor reads *)

(** A segment as the processor takes it apart: base, limit in bytes, present, privilege
    level, code or data, 32 bits. *)
Definition segment_base (e : gdt_entry) : Z :=
  base_low e + Z.shiftl (base_mid e) 16 + Z.shiftl (base_high e) 24.
Definition segment_limit (e : gdt_entry) : Z :=
  let limit := limit_low e + Z.shiftl (Z.land (granularity e) 15) 16 in
  if Z.testbit (granularity e) 7 then 4096 * limit + 4095 else limit.
Definition descriptor_present (acc : Z) : bool := Z.testbit acc 7.
Definition descriptor_dpl (acc : Z) : Z := Z.land (Z.shiftr acc 5) 3.
Definition segment_application (e : gdt_entry) : bool := Z.testbit (access e) 4.
Definition segment_code (e : gdt_entry) : bool := Z.testbit (access e) 3.
(** A data segment that grows down, or conforming code. *)
Definition segment_down_or_conforming (e : gdt_entry) : bool := Z.testbit (access e) 2.
(** A writable data segment, or readable code. *)
Definition segment_rw (e : gdt_entry) : bool := Z.testbit (access e) 1.
(** The flags: the limit counts pages, 32-bit operands and addresses, 64-bit code. *)
Definition segment_pages (e : gdt_entry) : bool := Z.testbit (granularity e) 7.
Definition segment_32 (e : gdt_entry) : bool := Z.testbit (granularity e) 6.
Definition segment_64 (e : gdt_entry) : bool := Z.testbit (granularity e) 5.
(** The type of a system descriptor. *)
Definition system_type (e : gdt_entry) : Z := Z.land (access e) 15.
Definition TSS32_AVAILABLE : Z := 9.

Definition gate_offset (e : idt_entry) : Z := offset_low e + Z.shiftl (offset_high e) 16.
(** An interrupt gate clears the interrupt flag, a trap gate does not. *)
Definition gate_clears_if (e : idt_entry) : bool := Z.land (type_attr e) 15 =? 14.

(** ** Lemmas *)

Lemma land_mask v n : 0 <= n -> Z.land v (Z.ones n) = v `mod` 2 ^ n.
Proof. intros Hn. by apply Z.land_ones. Qed.

Lemma split_16 v : is_u32 v -> Z.land v 65535 + Z.shiftl (Z.land (Z.shiftr v 16) 65535) 16 = v.
Proof.
  unfold is_u32. intros Hv. change 65535 with (Z.ones 16).
  rewrite !land_mask, Z.shiftr_div_pow2, Z.shiftl_mul_pow2 by lia. change (2 ^ 16) with 65536. Z.div_mod_to_equations. lia.
Qed.

Lemma encode_segment_base base limit acc flags : is_u32 base -> segment_base (encode_segment base limit acc flags) = base.
Proof.
  unfold is_u32, segment_base, encode_segment. intros Hv. cbn [base_low base_mid base_high].
  change 65535 with (Z.ones 16). change 255 with (Z.ones 8).
  rewrite !land_mask, !Z.shiftr_div_pow2, !Z.shiftl_mul_pow2 by lia.
  change (2 ^ 16) with 65536. change (2 ^ 8) with 256. change (2 ^ 24) with 16777216. Z.div_mod_to_equations. lia.
Qed.

Lemma encode_segment_limit base limit acc flags :
  0 <= limit < 1048576 -> 0 <= flags < 256 ->
  segment_limit (encode_segment base limit acc flags) = if Z.testbit flags 7 then 4096 * limit + 4095 else limit.
Proof.
  intros Hl Hf. unfold segment_limit, encode_segment. cbn [limit_low granularity].
  assert (Hlow : Z.land (Z.lor (Z.land (Z.shiftr limit 16) 15) (Z.land flags 240)) 15 = Z.shiftr limit 16).
  { rewrite Z.land_lor_distr_l, <- !Z.land_assoc. change (Z.land 240 15) with 0. change (Z.land 15 15) with (Z.ones 4).
    rewrite Z.land_0_r, Z.lor_0_r, land_mask, Z.mod_small; [done| |lia]. rewrite Z.shiftr_div_pow2 by lia.
    change (2 ^ 16) with 65536. change (2 ^ 4) with 16. Z.div_mod_to_equations. lia. }
  assert (Hbit : Z.testbit (Z.lor (Z.land (Z.shiftr limit 16) 15) (Z.land flags 240)) 7 = Z.testbit flags 7).
  { rewrite Z.lor_spec, !Z.land_spec. change (Z.testbit 15 7) with false. change (Z.testbit 240 7) with true.
    by rewrite andb_false_r, andb_true_r. }
  assert (Hlim : Z.land limit 65535 + Z.shiftl (Z.shiftr limit 16) 16 = limit).
  { change 65535 with (Z.ones 16). rewrite land_mask, Z.shiftr_div_pow2, Z.shiftl_mul_pow2 by lia.
    change (2 ^ 16) with 65536. Z.div_mod_to_equations. lia. }
  by rewrite Hlow, Hbit, Hlim.
Qed.

(** The processor decodes a descriptor written by [gdt_set_entry] to the base, the limit and the access byte
    that were asked for. *)
Theorem gdt_set_entry_roundtrip index base limit acc flags g :
  is_u32 base -> 0 <= limit < 1048576 -> 0 <= flags < 256 -> (index < length g)%nat ->
  exists e, gdt_set_entry index base limit acc flags g !! index = Some e /\
    segment_base e = base /\ access e = acc /\
    segment_limit e = (if Z.testbit flags 7 then 4096 * limit + 4095 else limit).
Proof.
  intros Hb Hl Hf Hi. exists (encode_segment base limit acc flags).
  split; [by apply list_lookup_insert_eq|]. by rewrite encode_segment_base, encode_segment_limit.
Qed.

Lemma gdt_set_entry_roundtrip_witness :
  exists e, gdt_set_entry 1 1193046 1048575 154 192 [encode_segment 0 0 0 0; encode_segment 0 0 0 0] !! 1%nat = Some e /\
    segment_base e = 1193046 /\ segment_limit e = 4294967295.
Proof.
  destruct (gdt_set_entry_roundtrip 1 1193046 1048575 154 192 [encode_segment 0 0 0 0; encode_segment 0 0 0 0])
    as (e & He & Hb & _ & Hl); [unfold is_u32; lia|lia|lia|cbn; lia|].
  exists e. split; [exact He|]. split; [exact Hb|exact Hl].
Defined.

(** A selector's privilege level and descriptor. *)
Definition selected (sel : Z) (s : gdt_state) : option gdt_entry := gdt s !! Z.to_nat (sel / 8).

(** A flat segment of 4 GiB for the privilege level of its selector, with every bit of the
    access byte and of the flags: present, an application segment, readable code or
    writable data that grows up (not conforming, for code), counted in pages, of 32 and
    not of 64 bits. *)
Record flat_segment (sel : Z) (code : bool) (s : gdt_state) (e : gdt_entry) : Prop := {
  fs_selected : selected sel s = Some e;
  fs_base : segment_base e = 0;
  fs_limit : segment_limit e = 4294967295;
  fs_present : descriptor_present (access e) = true;
  fs_application : segment_application e = true;
  fs_code : segment_code e = code;
  fs_rw : segment_rw e = true;
  fs_up : segment_down_or_conforming e = false;
  fs_pages : segment_pages e = true;
  fs_32 : segment_32 e = true;
  fs_64 : segment_64 e = false;
  fs_dpl : descriptor_dpl (access e) = Z.land sel 3;
}.

(** The descriptor of an available task state segment of 32 bits, reserved to the kernel. *)
Record tss_segment (sel base limit : Z) (s : gdt_state) (e : gdt_entry) : Prop := {
  ts_selected : selected sel s = Some e;
  ts_base : segment_base e = base;
  ts_limit : segment_limit e = limit;
  ts_present : descriptor_present (access e) = true;
  ts_system : segment_application e = false;
  ts_type : system_type e = TSS32_AVAILABLE;
  ts_dpl : descriptor_dpl (access e) = 0;
}.

(** The table [gdt_init] leaves, entry by entry. *)
Lemma gdt_init_entries gdt_addr tss_addr stack_top s :
  length (gdt s) = 6%nat ->
  gdt (gdt_init gdt_addr tss_addr stack_top s) =
  [encode_segment 0 0 0 0; encode_segment 0 1048575 154 192; encode_segment 0 1048575 146 192;
   encode_segment 0 1048575 250 192; encode_segment 0 1048575 242 192; encode_segment tss_addr (sizeof_tss - 1) 137 0].
Proof.
  intros Hlen. destruct s as [g d t l]. cbn [gdt] in Hlen. do 6 (destruct g as [|? g]; [done|]). by destruct g.
Qed.

(** C39. After [gdt_init] every selector the kernel uses names the segment it is meant for: 0x08 and 0x10 (the code and
    data of the kernel) and 0x1B and 0x23 (those [usermode_switch] enters user mode with) are present, flat 32-bit
    segments of 4 GiB in pages, of the privilege level in the selector, the code ones readable and not conforming and
    the data ones writable and growing up; 0x28 is an available 32-bit task state segment of privilege level 0 that
    covers the kernel's [tss] exactly; the null descriptor is not present; a trap from user mode switches to the given
    stack in the kernel's data segment, and the port bitmap lies beyond the limit, so user mode has no port; and the
    processor is given the whole table, the kernel's data selector and the task state segment. *)
Theorem gdt_init_segments gdt_addr tss_addr stack_top s :
  length (gdt s) = 6%nat -> is_u32 tss_addr ->
  let s' := gdt_init gdt_addr tss_addr stack_top s in
  (exists k_code k_data u_code u_data,
     flat_segment 8 true s' k_code /\ flat_segment 16 false s' k_data /\
     flat_segment 27 true s' u_code /\ flat_segment 35 false s' u_data) /\
  (exists e, tss_segment 40 tss_addr (sizeof_tss - 1) s' e /\ segment_limit e < tss_iomap_base (tss s')) /\
  (exists e, selected 0 s' = Some e /\ descriptor_present (access e) = false) /\
  (tss_ss0 (tss s') = 16 /\ tss_esp0 (tss s') = stack_top) /\
  (gp_limit (gdt_descriptor s') = 8 * Z.of_nat (length (gdt s')) - 1 /\ gp_base (gdt_descriptor s') = gdt_addr) /\
  loaded s' = [16; 40].
Proof.
  intros Hlen Ht s'. pose proof (gdt_init_entries gdt_addr tss_addr stack_top s Hlen) as Hg. fold s' in Hg.
  split; [|split; [|split; [|split; [|split]]]].
  - do 4 eexists. split_and!; (split; [unfold selected; rewrite Hg|..]; reflexivity).
  - eexists. split.
    + split; [unfold selected; rewrite Hg; reflexivity|by apply encode_segment_base| |reflexivity..].
      by rewrite encode_segment_limit by (unfold sizeof_tss; lia).
    + rewrite encode_segment_limit by (unfold sizeof_tss; lia). reflexivity.
  - eexists. split; [unfold selected; rewrite Hg; reflexivity|reflexivity].
  - split; reflexivity.
  - split; [by rewrite Hg|reflexivity].
  - reflexivity.
Qed.

Definition demo_gdt : gdt_state :=
  Gdt (replicate 6 (encode_segment 0 0 0 0)) (GdtPtr 0 0) (Tss 0 0 0 0 0 0 0 0 0) [].

Lemma gdt_init_segments_witness :
  length (gdt demo_gdt) = 6%nat /\
  (exists e, flat_segment 27 true (gdt_init 4096 8192 65536 demo_gdt) e) /\
  exists e, tss_segment 40 8192 103 (gdt_init 4096 8192 65536 demo_gdt) e.
Proof.
  split; [reflexivity|].
  destruct (gdt_init_segments 4096 8192 65536 demo_gdt) as ((c & d & uc & ud & _ & _ & Hu & _) & (e & He & _) & _);
    [reflexivity|unfold is_u32; lia|].
  split; [exists uc; exact Hu|exists e; exact He].
Defined.

(** ** The interrupt table *)

(** The stub meant for a vector. *)
Definition handler_of (v : nat) : option stub :=
  if (v =? 14)%nat then Some page_fault_stub else
  if (v <? 32)%nat then Some isr_fault_stub else
  if (v =? 32)%nat then Some irq0_stub else
  if (v =? 33)%nat then Some irq1_stub else
  if (v <? 40)%nat then Some irq_master_stub else
  if (v <? 48)%nat then Some irq_slave_stub else
  if (v =? 128)%nat then Some syscall_stub else
  if (v =? 129)%nat then Some usermode_exit_stub else None.

Section Gates.
Context (address : stub -> Z) (cs : Z).
Hypothesis Haddress : forall h, is_u32 (address h).

Definition gate (h : stub) (attr : Z) : idt_entry :=
  IdtEntry (Z.land (address h) 65535) cs 0 attr (Z.land (Z.shiftr (address h) 16) 65535).

Lemma fold_insert_lookup {T : Type} (x : T) n : forall first (t : list T) j,
  (j < length t)%nat ->
  fold_left (fun t i => <[i := x]> t) (seq first n) t !! j =
  if decide (first <= j < first + n)%nat then Some x else t !! j.
Proof.
  induction n as [|n IH]; intros first t j Hj; cbn [seq fold_left]; [by rewrite decide_False by lia|].
  rewrite IH by (by rewrite length_insert). destruct (decide (S first <= j < S first + n)%nat).
  - by rewrite decide_True by lia.
  - destruct (decide (first = j)) as [<-|Hne].
    + rewrite list_lookup_insert_eq by done. by rewrite decide_True by lia.
    + rewrite list_lookup_insert_ne by done. by rewrite decide_False by lia.
Qed.

Lemma fold_insert_size {T : Type} (x : T) l : forall t : list T, length (fold_left (fun t i => <[i := x]> t) l t) = length t.
Proof. induction l as [|i l IH]; intros t; cbn [fold_left]; [done|]. by rewrite IH, length_insert. Qed.

Lemma set_gates_lookup first n h t j :
  (j < length t)%nat ->
  idt_set_gates address cs first n h t !! j =
  if decide (first <= j < first + n)%nat then Some (gate h IDT_TYPE_INTERRUPT_GATE) else t !! j.
Proof. apply (fold_insert_lookup (gate h IDT_TYPE_INTERRUPT_GATE)). Qed.

Lemma set_gates_size first n h t : length (idt_set_gates address cs first n h t) = length t.
Proof. apply (fold_insert_size (gate h IDT_TYPE_INTERRUPT_GATE)). Qed.

Lemma set_gate_lookup v h attr t j :
  (j < length t)%nat ->
  idt_set_gate_attr address cs v h attr t !! j = if decide (v = j) then Some (gate h attr) else t !! j.
Proof.
  intros Hj. unfold idt_set_gate_attr. destruct (decide (v = j)) as [<-|Hne].
  - by apply list_lookup_insert_eq.
  - by apply list_lookup_insert_ne.
Qed.

Lemma set_gate_size v h attr t : length (idt_set_gate_attr address cs v h attr t) = length t.
Proof. apply length_insert. Qed.

Definition attr_of (v : nat) : Z :=
  if (v =? 128)%nat || (v =? 129)%nat then IDT_TYPE_TRAP_GATE_USER else IDT_TYPE_INTERRUPT_GATE.

(** The whole table. *)
Lemma interrupts_init_lookup t v :
  length t = IDT_ENTRIES -> (v < IDT_ENTRIES)%nat ->
  fst (fst (interrupts_init address cs t)) !! v =
  Some match handler_of v with Some h => gate h (attr_of v) | None => IdtEntry 0 0 0 0 0 end.
Proof.
  intros Hlen Hv. unfold interrupts_init, idt_set_gate, idt_clear. cbn [fst].
  rewrite !set_gate_lookup, !set_gates_lookup, !set_gate_lookup, !set_gates_lookup, fold_insert_lookup
    by (rewrite ?set_gate_size, ?set_gates_size, ?set_gate_size, ?set_gates_size, ?fold_insert_size, Hlen; done).
  unfold handler_of, attr_of, IDT_ENTRIES in *.
  do 4 (case_decide; [by subst v|]). rewrite !(proj2 (Nat.eqb_neq v 32)), !(proj2 (Nat.eqb_neq v 33)),
    !(proj2 (Nat.eqb_neq v 128)), !(proj2 (Nat.eqb_neq v 129)) by congruence.
  destruct (Nat.eqb_spec v 14), (Nat.ltb_spec v 32), (Nat.ltb_spec v 40), (Nat.ltb_spec v 48); repeat case_decide; try lia; done.
Qed.

Lemma attr_user v : attr_of v = IDT_TYPE_TRAP_GATE_USER <-> v = 128%nat \/ v = 129%nat.
Proof.
  unfold attr_of. destruct (Nat.eqb_spec v 128), (Nat.eqb_spec v 129); cbn; split; try done; try lia; auto.
Qed.

(** C40. After [interrupts_init] every vector has the gate meant for it: the gate of a vector with a handler is
    present, in the kernel's code segment and leads to that handler; every other gate is not present. User code
    can raise the gates 0x80 and 0x81 only, and all others turn interrupts off. The table is as long as the
    processor is told. *)
Theorem interrupts_init_gates t t' limit ports v :
  length t = IDT_ENTRIES -> (v < IDT_ENTRIES)%nat -> interrupts_init address cs t = (t', limit, ports) ->
  limit = 8 * Z.of_nat (length t') - 1 /\
  exists e, t' !! v = Some e /\
  match handler_of v with
  | None => descriptor_present (type_attr e) = false
  | Some h => descriptor_present (type_attr e) = true /\ gate_offset e = address h /\ selector e = cs /\
              (descriptor_dpl (type_attr e) = 3 <-> v = 128%nat \/ v = 129%nat) /\
              (gate_clears_if e = false <-> v = 128%nat \/ v = 129%nat)
  end.
Proof.
  intros Hlen Hv Hi. pose proof (interrupts_init_lookup t v Hlen Hv) as Hl. rewrite Hi in Hl. cbn [fst] in Hl. split.
  - unfold interrupts_init in Hi. injection Hi as <- <- _.
    unfold idt_set_gate, idt_clear. rewrite !set_gate_size, !set_gates_size, set_gate_size, set_gates_size, fold_insert_size, Hlen.
    reflexivity.
  - eexists. split; [exact Hl|]. destruct (handler_of v) as [h|] eqn:Eh; [|reflexivity]. cbn [gate type_attr selector].
    pose proof (attr_user v) as Ha.
    assert (Hattr : attr_of v = IDT_TYPE_TRAP_GATE_USER \/ attr_of v = IDT_TYPE_INTERRUPT_GATE) by (unfold attr_of; case_match; auto).
    assert (Hoff : gate_offset (gate h (attr_of v)) = address h) by (apply split_16, Haddress).
    rewrite <- Ha. unfold gate_clears_if. cbn [gate type_attr]. destruct Hattr as [-> | ->]; by split_and!.
Qed.

End Gates.

Lemma interrupts_init_gates_witness :
  exists t' limit ports e, interrupts_init (fun _ => 1052672) 8 (replicate IDT_ENTRIES (IdtEntry 0 0 0 0 0)) = (t', limit, ports) /\
    t' !! 128%nat = Some e /\ gate_offset e = 1052672 /\ descriptor_dpl (type_attr e) = 3.
Proof.
  destruct (interrupts_init (fun _ => 1052672) 8 (replicate IDT_ENTRIES (IdtEntry 0 0 0 0 0))) as [[t' limit] ports] eqn:Ei.
  assert (Ha : forall h : stub, is_u32 1052672) by (intros _; unfold is_u32; lia).
  destruct (interrupts_init_gates (fun _ => 1052672) 8 Ha (replicate IDT_ENTRIES (IdtEntry 0 0 0 0 0)) t' limit ports 128)
    as (_ & e & He & _ & Ho & _ & Hd & _); [apply length_replicate|unfold IDT_ENTRIES; lia|exact Ei|].
  exists t', limit, ports, e. split; [reflexivity|]. split; [exact He|]. split; [exact Ho|apply Hd; auto].
Defined.
