(* ===== verification/Usermode.v ===== *)
(** kernel/usermode.c: the user-mode test program of the shell, mapped once into the
    kernel's address space. *)
From Stdlib Require Import ZArith Lia Bool List.
From stdpp Require Import base gmap list numbers option.
From S2P Require Import Prelude Interfaces Paging Reserve.
#[local] Open Scope Z_scope.

(** ** Data *)

Definition USER_CODE_VADDR : Z := 1073741824.
Definition USER_STACK_TOP : Z := 1073750016.

(** [prepared], with the memory system it works on. *)
Record usermode (A : Type) := Usermode { um_pages : paging_state A; prepared : bool }.
Arguments Usermode {A}.
Arguments um_pages {A}.
Arguments prepared {A}.

(** mov eax, 17; int 0x80; int 0x80; int 0x81; jmp -2 *)
Definition test_code : list Z := [184; 17; 0; 0; 0; 205; 128; 205; 128; 205; 129; 235; 254].

(** [code[0] = ...; code[1] = ...;] at the physical address of the page. *)
Fixpoint put_code (code : Z) (bytes : list Z) (m : mem) : mem :=
  match bytes with
  | [] => m
  | b :: bytes' => put_code (code + 1) bytes' (wr8 m code b)
  end.

(** ** Operations *)

Section Operations.
Context {A : Type} `{FrameAllocator A}.
Implicit Types (p : paging_state A) (s : usermode A).

Definition usermode_prepare s : bool * usermode A :=
  if prepared s then (true, s) else
  let '(code_frame, p) := take_frame (um_pages s) in
  let '(stack_frame, p) := take_frame p in
  if (code_frame =? 0) || (stack_frame =? 0) then
    let p := if negb (code_frame =? 0) then give_back code_frame p else p in
    let p := if negb (stack_frame =? 0) then give_back stack_frame p else p in
    (false, Usermode p false)
  else
  let '(ok, p) := paging_map_page USER_CODE_VADDR code_frame user_map_flags p in
  if negb ok then (false, Usermode (give_back code_frame (give_back stack_frame p)) false) else
  let '(ok, p) := paging_map_page (USER_STACK_TOP - 4096) stack_frame user_map_flags p in
  if negb ok then
    let p := snd (paging_unmap_page USER_CODE_VADDR p) in
    (false, Usermode (give_back code_frame (give_back stack_frame p)) false)
  else
    let code := default 0 (paging_translate USER_CODE_VADDR p) in
    (true, Usermode (set_pg_mem p (put_code code test_code (pg_mem p))) true).

Definition usermode_is_prepared s : bool := prepared s.

(** The entry point and the stack pointer [usermode_switch] is called with; [None] is
    a return without effect. *)
Definition usermode_enter_test s : option (Z * Z) :=
  if negb (prepared s) then None else Some (USER_CODE_VADDR, USER_STACK_TOP - 16).

End Operations.

(** ** The bytes of the program *)

Lemma put_code_rd8 bytes : forall code m a,
  rd8 (put_code code bytes m) a =
  if (code <=? a) && (a <? code + Z.of_nat (length bytes)) then nth (Z.to_nat (a - code)) bytes 0 `mod` 256 else rd8 m a.
Proof.
  induction bytes as [|b bytes IH]; intros code m a; cbn [put_code length].
  { destruct (Z.leb_spec code a), (Z.ltb_spec a (code + Z.of_nat 0)); cbn [andb]; try done; lia. }
  rewrite IH. destruct (Z.leb_spec (code + 1) a), (Z.ltb_spec a (code + 1 + Z.of_nat (length bytes))),
    (Z.leb_spec code a), (Z.ltb_spec a (code + Z.of_nat (S (length bytes)))); cbn [andb]; try lia;
    try (apply rd8_wr8_ne; lia).
  - replace (Z.to_nat (a - code)) with (S (Z.to_nat (a - (code + 1)))) by lia. done.
  - assert (a = code) as -> by lia. rewrite rd8_wr8_eq, Z.sub_diag. done.
Qed.

Lemma put_code_outside bytes m f : Z.of_nat (length bytes) <= 4096 -> same_outside f m (put_code f bytes m).
Proof.
  intros Hb a Ha. rewrite put_code_rd8.
  destruct (Z.leb_spec f a), (Z.ltb_spec a (f + Z.of_nat (length bytes))); cbn [andb]; done || lia.
Qed.

(** ** Preparing the test *)

Section Theorems.
Context {A : Type} `{FrameAllocatorOk A}.
Implicit Types (p : paging_state A) (s : usermode A).

(** What [usermode_prepare] promises when it returns 1. *)
Record prepared_ok p p' (code_frame stack_frame : Z) : Prop := {
  po_pages : paging_ok p';
  po_ne : code_frame <> stack_frame;
  po_code : fa_is_free (pg_frames p) code_frame;
  po_stack : fa_is_free (pg_frames p) stack_frame;
  po_lookup : forall w, is_u32 w -> active_lookup p' w =
    if page_of w =? page_of (USER_STACK_TOP - 4096) then Some (pte_for stack_frame user_map_flags) else
    if page_of w =? page_of USER_CODE_VADDR then Some (pte_for code_frame user_map_flags) else active_lookup p w;
  po_bytes : forall i b, test_code !! i = Some b -> rd8 (pg_mem p') (code_frame + Z.of_nat i) = b;
}.

Lemma test_code_bytes i b : test_code !! i = Some b -> (i < 13)%nat /\ nth i test_code 0 `mod` 256 = b.
Proof.
  intros Hb. pose proof (lookup_lt_Some _ _ _ Hb) as Hi. cbn in Hi. split; [done|].
  rewrite (nth_lookup_Some _ _ _ _ Hb). revert Hb. do 13 (destruct i as [|i]; [intros [= <-]; reflexivity|]). intros [=].
Qed.

Lemma give_back_lookup f p w : active_lookup (give_back f p) w = active_lookup p w.
Proof. done. Qed.

Lemma code_u32 : is_u32 USER_CODE_VADDR /\ is_u32 (USER_STACK_TOP - 4096).
Proof. unfold is_u32, USER_CODE_VADDR, USER_STACK_TOP. lia. Qed.

(** The program written into its own frame. *)
Lemma code_written L p cf :
  held L p -> cf ∈ L -> is_u32 cf -> aligned cf -> active_lookup p USER_CODE_VADDR = Some (pte_for cf user_map_flags) ->
  let p' := set_pg_mem p (put_code (default 0 (paging_translate USER_CODE_VADDR p)) test_code (pg_mem p)) in
  paging_ok p' /\ (forall w, active_lookup p' w = active_lookup p w) /\
  forall i b, test_code !! i = Some b -> rd8 (pg_mem p') (cf + Z.of_nat i) = b.
Proof.
  intros Hh Hin Hu Ha Hcode. rewrite (translate_held p USER_CODE_VADDR cf user_map_flags); [|apply Hh|done..].
  change (default 0 (Some cf)) with cf.
  destruct (write_held L p cf (put_code cf test_code (pg_mem p))) as [Hw Hl]; [done..|apply put_code_outside; cbn; lia|].
  split_and!; [apply Hw|exact Hl|].
  intros i b Hb. destruct (test_code_bytes i b Hb) as [Hi <-]. cbn [pg_mem set_pg_mem]. rewrite put_code_rd8.
  rewrite (proj2 (Z.leb_le _ _)), (proj2 (Z.ltb_lt _ _)) by (cbn; lia). cbn [andb].
  by replace (Z.to_nat (cf + Z.of_nat i - cf)) with i by lia.
Qed.

Lemma usermode_prepare_cases s r s' :
  paging_ok (um_pages s) -> prepared s = false -> usermode_prepare s = (r, s') ->
  prepared s' = r /\
  if r then exists code_frame stack_frame, prepared_ok (um_pages s) (um_pages s') code_frame stack_frame
  else forall w, is_u32 w -> active_lookup (um_pages s') w = active_lookup (um_pages s) w.
Proof.
  intros Hpok Hnp. unfold usermode_prepare. rewrite Hnp. destruct code_u32 as [Hc1 Hs1].
  destruct (take_frame (um_pages s)) as [cf p1] eqn:E1. destruct (take_frame p1) as [sf p2] eqn:E2.
  assert (Hfail : forall p f b, (forall w, is_u32 w -> active_lookup p w = active_lookup (um_pages s) w) ->
    forall w, is_u32 w -> active_lookup (if negb b then give_back f p else p) w = active_lookup (um_pages s) w) by (intros p f []; done).
  destruct (take_held _ _ _ _ (held_nil _ Hpok) E1) as [[-> ->]|(Hcf & _ & Hh1 & Hf1 & Hu1 & Ha1 & Hm1 & HD1 & Hmono1 & _)].
  { cbn [Z.eqb orb negb]. intros [= <- <-]. split; [done|]. apply Hfail. intros w Hw.
    destruct (take_held _ _ _ _ (held_nil _ Hpok) E2) as [[-> ->]|(_ & _ & _ & _ & _ & _ & Hm & HD & _)]; [done|].
    unfold active_lookup. by rewrite Hm, HD. }
  assert (Hl1 : forall w, active_lookup p1 w = active_lookup (um_pages s) w) by (intros; unfold active_lookup; by rewrite Hm1, HD1).
  destruct (take_held _ _ _ _ Hh1 E2) as [[-> ->]|(Hsf & Hnin & Hh2 & Hf2 & Hu2 & Ha2 & Hm2 & HD2 & _)].
  { rewrite orb_true_r. intros [= <- <-]. split; [done|]. apply Hfail. auto. }
  assert (Hl2 : forall w, active_lookup p2 w = active_lookup (um_pages s) w) by (intros; unfold active_lookup; rewrite Hm2, HD2; apply Hl1).
  rewrite (proj2 (Z.eqb_neq cf 0)), (proj2 (Z.eqb_neq sf 0)) by done. cbn [orb].
  destruct (map_held _ p2 USER_CODE_VADDR cf user_map_flags Hh2 Hc1 Hu1) as (ok3 & p3 & -> & Hh3 & HD3 & Hok3 & Hl3).
  destruct ok3; cbn [negb]; [|intros [= <- <-]; split; [done|intros w Hw; cbn [um_pages]; by rewrite !give_back_lookup, Hl3, Hl2]].
  destruct (map_held _ p3 (USER_STACK_TOP - 4096) sf user_map_flags Hh3 Hs1 Hu2) as (ok4 & p4 & -> & Hh4 & HD4 & Hok4 & Hl4).
  destruct ok4; cbn [negb]; intros [= <- <-]; (split; [done|]); cbn [um_pages].
  - exists cf, sf.
    destruct (code_written _ p4 cf Hh4) as (Hp5 & Hl5 & Hb5); [right; left|done|done|by rewrite Hl4, Hl3|].
    split; [exact Hp5|intros <-; apply Hnin; left|exact Hf1|by apply Hmono1| |exact Hb5]. intros w Hw. rewrite Hl5, Hl4, Hl3 by done. cbn [andb]. by rewrite Hl2.
  - intros w Hw. destruct (unmap_held _ p4 USER_CODE_VADDR Hh4 Hc1 eq_refl) as (_ & _ & Hl5).
    rewrite !give_back_lookup, Hl5, Hl4, Hl3, Hl2 by done. cbn [andb].
    destruct (Z.eqb_spec (page_of w) (page_of USER_CODE_VADDR)) as [Heq|]; [|done]. rewrite <- Hl2.
    symmetry in Hok3. bool_simp. unfold mapped in *. unfold active_lookup. rewrite (lookup_same_page _ _ USER_CODE_VADDR w) by done.
    by destruct (lookup_page _ _ USER_CODE_VADDR).
Qed.

(** With three frames left and both pages free it succeeds. *)
Lemma usermode_prepare_succeeds s :
  paging_ok (um_pages s) -> fa_ready (pg_frames (um_pages s)) = true -> 3 <= fa_avail (pg_frames (um_pages s)) ->
  active_lookup (um_pages s) USER_CODE_VADDR = None -> active_lookup (um_pages s) (USER_STACK_TOP - 4096) = None ->
  fst (usermode_prepare s) = true.
Proof.
  intros Hp Hr Hav Hc Hs. unfold usermode_prepare. destruct (prepared s); [done|]. destruct code_u32 as [Hc1 Hs1].
  destruct (take_map_two [] (um_pages s) USER_CODE_VADDR (USER_STACK_TOP - 4096) user_map_flags)
    as (cf & sf & p1 & p2 & p3 & p4 & -> & -> & Hcf & Hsf & E3 & E4); [by apply held_nil|done..|].
  rewrite (proj2 (Z.eqb_neq cf 0)), (proj2 (Z.eqb_neq sf 0)) by done. cbn [orb]. by rewrite E3, E4.
Qed.

(** [usermode_prepare] either maps both pages of the test program, to two different frames that were free, readable
    and writable in user mode, with the program in the first one and every other page mapped as before; or it
    fails and every page is mapped as before. It succeeds when both pages are unmapped and three frames are left,
    and once it has succeeded it does nothing. *)
Theorem usermode_prepare_spec s :
  paging_ok (um_pages s) -> prepared s = false ->
  exists r s', usermode_prepare s = (r, s') /\ prepared s' = r /\
    (if r then usermode_prepare s' = (true, s') /\
               exists code_frame stack_frame, prepared_ok (um_pages s) (um_pages s') code_frame stack_frame
     else forall w, is_u32 w -> active_lookup (um_pages s') w = active_lookup (um_pages s) w) /\
    (fa_ready (pg_frames (um_pages s)) = true -> 3 <= fa_avail (pg_frames (um_pages s)) ->
     active_lookup (um_pages s) USER_CODE_VADDR = None -> active_lookup (um_pages s) (USER_STACK_TOP - 4096) = None -> r = true).
Proof.
  intros Hp Hn. destruct (usermode_prepare s) as [r s'] eqn:E.
  destruct (usermode_prepare_cases s r s' Hp Hn E) as [Hpr Hr]. exists r, s'. split_and!; [done|done| |].
  - destruct r; [|done]. split; [|done]. unfold usermode_prepare. by rewrite Hpr.
  - intros Hr1 Hav Hc Hs. pose proof (usermode_prepare_succeeds s Hp Hr1 Hav Hc Hs) as Ht. by rewrite E in Ht.
Qed.

End Theorems.

Lemma usermode_prepare_spec_witness :
  exists s', usermode_prepare (Usermode (demo_paging 2048 4096) false) = (true, s') /\
    exists cf sf, prepared_ok (demo_paging 2048 4096) (um_pages s') cf sf.
Proof.
  destruct (usermode_prepare_spec (Usermode (demo_paging 2048 4096) false) demo_paging_ok eq_refl)
    as (r & s' & E & _ & Hr & Ht).
  assert (r = true) as -> by (apply Ht; [reflexivity|cbn; lia|reflexivity|reflexivity]).
  exists s'. split; [exact E|]. destruct Hr as [_ Hr]. exact Hr.
Defined.
