(* ===== verification/BootWorld.v ===== *)
(** Who owns which frame at boot: until the first process is created, the kernel's
    directory is the only one, and the account of [World] holds with no address space
    at all. *)
From Stdlib Require Import ZArith Lia Bool List.
From stdpp Require Import base gmap list numbers option.
From S2P Require Import Prelude CStr Interfaces Paging Reserve Kheap Scheduler Ipc Vfs Loader Process Tasks Space World Isolation Usermode.
#[local] Open Scope Z_scope.

(** ** The kernel's directory *)

Section Quiet.
Context {A : Type} `{FrameReturnOk A}.
Implicit Types (p : paging_state A).

(** The kernel's directory is active, and if there is a table at 1 GiB, it is one for
    user pages, so that a clone leaves it out. *)
Record quiet (K : Z) p : Prop := {
  qu_active : paging_current_dir_phys p = K;
  qu_kernel : paging_kernel_dir_phys p = K;
  qu_some : K <> 0;
  qu_clean : present (entry (pg_mem p) K USER_PD) = true -> has_flag (entry (pg_mem p) K USER_PD) PAGING_FLAG_USER = true;
}.

Lemma quiet_active K p : quiet K p -> paging_active_directory p = K.
Proof. intros [Ha _ Hs _]. unfold paging_active_directory. rewrite Ha. by rewrite (proj2 (Z.eqb_neq _ _)). Qed.

Lemma quiet_world K p :
  paging_ok p -> quiet K p -> world (K) [] [] (fa_is_free (pg_frames p)) (fa_avail (pg_frames p)) p.
Proof.
  intros [Hen Hok Hd] Hq. pose proof (quiet_active K p Hq) as Ha. rewrite Ha in Hd.
  assert (Hone : forall D, D ∈ K :: (us_dir <$> []) -> D = K) by (intros D; apply list_elem_of_singleton).
  split; try done.
  - apply Hq.
  - apply NoDup_nil_2.
  - by intros f ?%not_elem_of_nil.
  - apply not_elem_of_nil.
  - intros D HD. by apply Hone in HD as ->.
  - intros D j HD Hj Hp _ Hin. apply Hone in HD as ->. apply list_elem_of_singleton in Hin. by destruct (dk_tables _ _ _ Hd j Hj Hp).
  - by intros u j ?%not_elem_of_nil.
  - apply Hq.
  - by intros u ?%not_elem_of_nil.
  - rewrite (qu_active _ _ Hq). left.
  - intros g. rewrite elem_of_nil. tauto.
  - cbn. lia.
Qed.

Lemma same_quiet K p a m : quiet K p ->
  entry m (K) USER_PD = entry (pg_mem p) (K) USER_PD -> quiet K (touch p a m).
Proof. intros [] He. split; cbn; [done|done|done|]. by rewrite He. Qed.

Lemma ensure_quiet K p i fl :
  fa_ok (pg_frames p) -> dir_ok (pg_frames p) (pg_mem p) (K) -> quiet K p -> 0 <= i < 1024 ->
  i <> USER_PD \/ has_flag fl PAGING_FLAG_USER = true -> quiet K (snd (ensure_table (K) i fl p)).
Proof.
  intros Hok Hd Hq Hi Hor. pose proof (dk_aligned _ _ _ Hd) as Ha. rewrite ensure_exact by done. cbv zeta.
  assert (HU : 0 <= USER_PD < 1024) by (unfold USER_PD; lia).
  assert (Hset : forall a m v, is_u32 v -> entry m K USER_PD = entry (pg_mem p) K USER_PD ->
                  (i = USER_PD -> has_flag v PAGING_FLAG_USER = true) -> quiet K (touch p a (set_entry m K i v))).
  { intros a m v Hv Hm Hu. split; [apply Hq|apply Hq|apply Hq|]. cbn [touch pg_mem set_pg_mem set_pg_frames].
    destruct (decide (i = USER_PD)) as [->|Hne]; [intros _; rewrite entry_set_eq by done; auto|].
    rewrite entry_set_ne by (done || by right). rewrite Hm. apply Hq. }
  destruct (present (entry (pg_mem p) K i)) eqn:Hp; cbn [snd].
  - destruct (has_flag fl PAGING_FLAG_USER) eqn:Hfl; [|done].
    replace (set_pg_mem p _) with (touch p (pg_frames p) (set_entry (pg_mem p) K i (Z.lor (entry (pg_mem p) K i) PAGING_FLAG_USER))) by (by destruct p).
    apply Hset; [|done|intros _; rewrite has_flag_user, Z.lor_spec; apply orb_true_r].
    apply lor_u32; [apply entry_range|done].
  - destruct (fa_alloc (pg_frames p)) as [f a] eqn:E. destruct (Z.eqb_spec f 0) as [|Hf]; [done|]. cbn [snd].
    destruct (fa_alloc_some _ _ _ Hok E Hf) as (_ & Hfree & Hr & Hfa & _).
    assert (HKf : f <> K) by (intros ->; by apply (dk_own _ _ _ Hd)).
    assert (Hfl : 0 <= table_flags fl < 4096) by (unfold table_flags; destruct (has_flag _ _); lia).
    destruct (make_entry f (table_flags fl)) as (Heu & _ & Heb); [done|unfold is_u32; lia|done|].
    apply Hset; [done|by apply clear_table_ne|]. intros Heq. destruct Hor as [|Hus]; [done|].
    rewrite has_flag_user, Heb by lia. unfold table_flags. by rewrite Hus.
Qed.

(** Mapping keeps it so, outside the 4 MiB at 1 GiB or for user code. *)
Lemma map_quiet K p virt phys flags :
  paging_ok p -> quiet K p -> pd_index_of virt <> USER_PD \/ has_flag flags PAGING_FLAG_USER = true ->
  quiet K (snd (paging_map_page virt phys flags p)).
Proof.
  intros [Hen Hok Hd] Hq Hor. rewrite (quiet_active K p Hq) in Hd. pose proof (pd_index_range virt) as Hi.
  unfold paging_map_page. rewrite Hen. cbn [negb]. destruct (_ || _); [done|]. rewrite flags_present, (quiet_active K p Hq).
  set (fl := Z.lor flags PAGING_FLAG_PRESENT).
  assert (Hor' : pd_index_of virt <> USER_PD \/ has_flag fl PAGING_FLAG_USER = true).
  { destruct Hor as [|Hu]; [by left|right]. unfold fl. rewrite has_flag_user in *. by rewrite Z.lor_spec, Hu. }
  pose proof (ensure_quiet K p (pd_index_of virt) fl Hok Hd Hq Hi Hor') as Hq1.
  destruct (ensure_table_spec p (K) (pd_index_of virt) fl Hok Hd Hi) as (ok & a1 & m1 & E & _ & Hd1 & _ & Hp1 & _).
  rewrite E in *. cbn [snd] in Hq1. destruct ok; cbn [negb]; [|done]. specialize (Hp1 eq_refl).
  cbn [pg_mem touch set_pg_mem set_pg_frames]. destruct (has_flag (entry m1 _ (pt_index_of virt)) _); [exact Hq1|]. cbn [snd].
  apply (same_quiet K (touch p a1 m1) a1); [exact Hq1|]. cbn [pg_mem touch set_pg_mem set_pg_frames paging_kernel_dir_phys].
  apply entry_set_ne; [apply table_aligned|apply Hd1|apply pt_index_range|unfold USER_PD; lia|]. left. by apply (dk_tables _ _ _ Hd1).
Qed.

(** ** The set-up of the heap and of the user-mode test *)

Lemma take_quiet K p f p' : quiet K p -> take_frame p = (f, p') -> quiet K p'.
Proof. intros Hq. unfold take_frame. destruct (fa_alloc _) as [g a]. intros [= _ <-]. by destruct Hq; split. Qed.

Lemma fresh_quiet K p virt : paging_ok p -> quiet K p -> pd_index_of virt <> USER_PD -> quiet K (snd (map_fresh_page virt p)).
Proof.
  intros Hok Hq Hpd. unfold map_fresh_page. destruct (fa_alloc (pg_frames p)) as [f a] eqn:E.
  assert (Hq1 : quiet K (set_pg_frames p a)) by (by destruct Hq; split). destruct (Z.eqb_spec f 0) as [|Hf]; [done|].
  apply map_quiet; [by apply (paging_take_frame p f a)|done|by left].
Qed.

Lemma initial_quiet K n : forall i (h : kheap (paging_state A)),
  paging_ok (hp_pages h) -> quiet K (hp_pages h) -> 0 <= i -> i + Z.of_nat n <= 16 -> quiet K (hp_pages (snd (map_initial n i h))).
Proof.
  induction n as [|n IH]; intros i h Hok Hq Hi Hn; [done|]. cbn [map_initial].
  assert (Hv : KHEAP_START ⊞ (i ⊠ 4096) = KHEAP_START + i * 4096) by (unfold KHEAP_START; rewrite (u32_small (i * 4096)), u32_small by lia; lia).
  rewrite Hv. change (pm_map_fresh (KHEAP_START + i * 4096) (hp_pages h)) with (map_fresh_page (KHEAP_START + i * 4096) (hp_pages h)).
  assert (Hpd : pd_index_of (KHEAP_START + i * 4096) <> USER_PD) by (apply heap_page_pd; unfold KHEAP_START; lia).
  pose proof (fresh_quiet K (hp_pages h) (KHEAP_START + i * 4096) Hok Hq Hpd) as Hq1.
  destruct (map_fresh_page (KHEAP_START + i * 4096) (hp_pages h)) as [ok p1] eqn:E. cbn [snd] in Hq1.
  destruct (map_fresh_page_ok (hp_pages h) (KHEAP_START + i * 4096) ok p1 Hok) as (Hok1 & _); [unfold is_u32, KHEAP_START; lia|exact E|].
  destruct ok; cbn [negb]; [|done]. apply IH; [done|done|lia|lia].
Qed.

Lemma kheap_init_quiet K (h : kheap (paging_state A)) :
  paging_ok (hp_pages h) -> quiet K (hp_pages h) -> quiet K (hp_pages (snd (kheap_init h))).
Proof.
  intros Hok Hq. unfold kheap_init. pose proof (initial_quiet K (Z.to_nat KHEAP_INITIAL_PAGES) 0 h Hok Hq ltac:(lia) ltac:(vm_compute; discriminate)) as Hq1.
  destruct (map_initial _ _ _) as [ok h1]. by destruct ok.
Qed.

Lemma user_flags_set : has_flag user_map_flags PAGING_FLAG_USER = true.
Proof. done. Qed.

Lemma prepare_quiet K (s : usermode A) :
  paging_ok (um_pages s) -> quiet K (um_pages s) -> prepared s = false -> fst (usermode_prepare s) = true ->
  quiet K (um_pages (snd (usermode_prepare s))).
Proof.
  intros Hok Hq Hp. unfold usermode_prepare. rewrite Hp. pose proof (held_nil _ Hok) as Hh0. destruct code_u32 as [Hc Hs].
  destruct (take_frame (um_pages s)) as [cf p1] eqn:E1. destruct (take_frame p1) as [sf p2] eqn:E2.
  destruct (Z.eqb_spec cf 0) as [|Hcf]; [done|]. destruct (Z.eqb_spec sf 0) as [|Hsf]; [done|]. cbn [orb].
  destruct (take_held _ _ _ _ Hh0 E1) as [[? _]|(_ & _ & Hh1 & _ & Hu1 & Ha1 & _)]; [done|].
  destruct (take_held _ _ _ _ Hh1 E2) as [[? _]|(_ & _ & Hh2 & _ & Hu2 & _)]; [done|].
  pose proof (take_quiet K _ _ _ (take_quiet K _ _ _ Hq E1) E2) as Hq2.
  pose proof (map_quiet K p2 USER_CODE_VADDR cf user_map_flags (he_ok _ _ Hh2) Hq2 (or_intror user_flags_set)) as Hq3.
  destruct (map_held _ p2 USER_CODE_VADDR cf user_map_flags Hh2 Hc Hu1) as (ok3 & p3 & E3 & Hh3 & _ & _ & Hl3). rewrite E3 in *. cbn [snd] in Hq3.
  destruct ok3; cbn [negb]; [|done].
  pose proof (map_quiet K p3 (USER_STACK_TOP - 4096) sf user_map_flags (he_ok _ _ Hh3) Hq3 (or_intror user_flags_set)) as Hq4.
  destruct (map_held _ p3 (USER_STACK_TOP - 4096) sf user_map_flags Hh3 Hs Hu2) as (ok4 & p4 & E4 & Hh4 & _ & _ & Hl4). rewrite E4 in *. cbn [snd] in Hq4.
  destruct ok4; cbn [negb]; [|done]. intros _. cbn [snd um_pages].
  assert (Hcode : active_lookup p4 USER_CODE_VADDR = Some (pte_for cf user_map_flags)) by (by rewrite Hl4, Hl3).
  rewrite (translate_held p4 USER_CODE_VADDR cf user_map_flags) by (done || apply Hh4). change (default 0 (Some cf)) with cf.
  replace (set_pg_mem p4 _) with (touch p4 (pg_frames p4) (put_code cf test_code (pg_mem p4))) by (by destruct p4).
  apply same_quiet; [done|]. apply (same_outside_entry cf); [apply put_code_outside; cbn; lia|done| | |unfold USER_PD; lia].
  - rewrite <- (quiet_active _ _ Hq4). apply (pk_dir _ (he_ok _ _ Hh4)).
  - rewrite <- (quiet_active _ _ Hq4). intros Heq. destruct (he_off _ _ Hh4) as [HD _]. apply HD. rewrite Heq. right. left.
Qed.

(** [paging_init] maps at most the first GiB. *)
Lemma init_quiet p :
  let D := page_directory p in let h := fa_highest (pg_frames p) in
  aligned D -> 0 < D < 4294967296 -> ~ fa_is_free (pg_frames p) D -> fa_ok (pg_frames p) -> fa_ready (pg_frames p) = true ->
  0 <= h <= 1073741824 -> (identity_end_of h + 4194303) / 4194304 <= fa_avail (pg_frames p) -> identity_end_of h <= 1073741824 ->
  quiet D (paging_init p).
Proof.
  intros D h Ha HD Hnf Hok Hr Hh Hav Hend.
  destruct (paging_init_cases p) as (a & m & -> & _ & _ & _ & _ & _ & Hab); auto; [lia|]. fold D h in Hab |- *.
  split; cbn [paging_current_dir_phys paging_kernel_dir_phys pg_mem]; [done|done|lia|]. rewrite Hab; [done|]. unfold USER_PD. split; [|lia].
  Z.div_mod_to_equations. lia.
Qed.

End Quiet.

(** ** The files *)

Section Files.
Context {A : Type} `{FrameReturnOk A}.

Lemma vfs_init_world K c R S Q N hello (s : vfs (kheap (paging_state A))) :
  hworld K c R S Q N (vfs_heap s) -> hshrinks K c R S Q N (vfs_heap (snd (vfs_init hello s))).
Proof.
  intros W. unfold vfs_init. set (s0 := Vfs _ _ _). apply (hworld_shrinks K c R S Q N (vfs_heap s0)) in W.
  assert (Hw : forall n d s, hshrinks K c R S Q N (vfs_heap s) -> hshrinks K c R S Q N (vfs_heap (snd (vfs_write_file (Some n) (Some d) s)))).
  { intros n d s' Hs. apply (hshrinks_bind _ _ _ _ _ _ _ _ _ _ _ Hs). intros. by apply hw_write. }
  pose proof (Hw welcome_name welcome_text _ W) as H1'. destruct (vfs_write_file _ _ s0) as [ok s1]. cbn [snd] in H1'.
  destruct ok; cbn [negb]; [|done]. pose proof (Hw hello_ping_name hello _ H1') as H2'. destruct (vfs_write_file _ _ s1) as [ok s2].
  cbn [snd] in H2'. destruct ok; cbn [negb]; [|done]. pose proof (Hw helloapp_name hello _ H2') as H3'.
  destruct (vfs_write_file _ _ s2) as [ok s3]. cbn [snd] in H3'. by destruct ok.
Qed.

End Files.

(** ** The processes *)

Section Processes.
Context {A : Type} `{FrameReturnOk A}.
Implicit Types (k : kernel A).

Lemma cleared_users T : user_entries (map cleared_process T) = [].
Proof. induction T as [|e T IH]; [done|exact IH]. Qed.

(** The only process is the kernel's. *)
Lemma init_users K k :
  paging_is_enabled (k_pages k) = true -> paging_kernel_dir_phys (k_pages k) = K ->
  user_entries (process_table (process_init k)) = [] /\ kernel_entries K (process_init k).
Proof.
  intros Hen HK. unfold process_init. set (e := Proc _ _ _ _ _ _ _ _ _ _). cbn [process_table]. destruct (process_table k) as [|x T].
  { split; [done|]. intros y Hy. by apply not_elem_of_nil in Hy. }
  split; [exact (cleared_users T)|]. intros y Hy Ha _. cbn [process_table map] in Hy. apply elem_of_cons in Hy as [->|Hy].
  - cbn [pe_cr3 e]. unfold paging_kernel_directory_phys. by rewrite HK.
  - apply list_elem_of_fmap in Hy as (z & -> & _). done.
Qed.

(** The account at the end of the set-up, before the first process. *)
Lemma boot_account K Q N k :
  kernel_ok k -> user_entries (process_table k) = [] -> kernel_entries K k -> hshrinks K K [] [] Q N (k_heap k) ->
  exists Q' N', account K Q' N' [] k.
Proof.
  intros Hok Hu Hker (Q' & N' & W & _). exists Q', N'. split; [done|by rewrite Hu| |done]. exists K. split; [exact W|by left].
Qed.

End Processes.
