(* ===== verification/System.v ===== *)
(** The kernel as one system: the state of all components, what the processor does
    between two task switches, and the code of the tasks.

    Kernel code is written in a state monad over that state. The main task (task 0)
    is in direct style: when it yields, the other tasks run until it is scheduled
    again. Every other task is a continuation: what its stack holds while it is
    suspended. Interrupts come from a list that the hardware decides, and are taken
    when the processor waits in [hlt]. *)
From Stdlib Require Import ZArith Lia Bool List Ascii String.
From stdpp Require Import base gmap list numbers option sets.
From S2P Require Import Prelude CStr Interfaces Pmm Paging Reserve Kheap Scheduler Ipc Vfs Keyboard Loader Process Exec.
From S2P Require Import Syscall Vga Shell Tables Usermode.
#[local] Open Scope Z_scope.

(** ** State *)

(** What the linker and the compiler choose: the addresses of functions, of static
    arrays and of the local array of [sysrun], the stack pointers, and what is left in
    the registers ebx and ecx when user mode is entered. *)
Record layout := Layout {
  at_bootstrap : Z;
  at_user_task_entry : Z;
  at_app_counter : Z;
  at_app_writer : Z;
  at_demo_task : Z;
  at_long_name : Z;
  at_one_byte : Z;
  at_sys_name : Z;
  at_sys_data : Z;
  at_sys_out : Z;
  at_sysrun_name : Z;
  at_switch_sp : Z;
  at_stack_top : Z;
  at_user_ebx : Z;
  at_user_ecx : Z;
}.

(** A suspended kernel task: inside the [scheduler_yield] of iteration [i] of its loop. *)
Inductive continuation :=
  | InDemo (id i : Z)
  | InCounter (tag i : Z)
  | InWriter (i : Z).

(** An interrupt; the keyboard's with what its two ports read. *)
Inductive irq := IrqTimer | IrqKeyboard (status data : Z).

(** The components, the suspended tasks, the bytes written to ports during
    initialisation, and the interrupts still to come. *)
Record system := System {
  sy_machine : machine pmm_state;
  sy_screen : screen;
  sy_serial : serial;
  sy_prepared : bool;
  sy_gdt : gdt_state;
  sy_idt : list idt_entry;
  sy_ports : list (Z * Z);
  sy_keyboard : keyboard;
  sy_conts : gmap nat continuation;
  sy_irqs : list irq;
}.

Definition sy_kernel (s : system) : kernel pmm_state := m_kernel (sy_machine s).
Definition sy_sched (s : system) := k_sched (sy_kernel s).
Definition sy_pages (s : system) : paging_state pmm_state := k_pages (sy_kernel s).
Definition sy_pmm (s : system) : pmm_state := pg_frames (sy_pages s).
Definition current (s : system) : nat := current_task (sy_sched s).

Definition set_machine (s : system) (m : machine pmm_state) : system :=
  System m (sy_screen s) (sy_serial s) (sy_prepared s) (sy_gdt s) (sy_idt s) (sy_ports s) (sy_keyboard s) (sy_conts s) (sy_irqs s).
Definition set_screen (s : system) (v : screen) : system :=
  System (sy_machine s) v (sy_serial s) (sy_prepared s) (sy_gdt s) (sy_idt s) (sy_ports s) (sy_keyboard s) (sy_conts s) (sy_irqs s).
Definition set_serial (s : system) (v : serial) : system :=
  System (sy_machine s) (sy_screen s) v (sy_prepared s) (sy_gdt s) (sy_idt s) (sy_ports s) (sy_keyboard s) (sy_conts s) (sy_irqs s).
Definition set_prepared (s : system) (b : bool) : system :=
  System (sy_machine s) (sy_screen s) (sy_serial s) b (sy_gdt s) (sy_idt s) (sy_ports s) (sy_keyboard s) (sy_conts s) (sy_irqs s).
Definition set_gdt (s : system) (g : gdt_state) : system :=
  System (sy_machine s) (sy_screen s) (sy_serial s) (sy_prepared s) g (sy_idt s) (sy_ports s) (sy_keyboard s) (sy_conts s) (sy_irqs s).
Definition set_idt (s : system) (t : list idt_entry) : system :=
  System (sy_machine s) (sy_screen s) (sy_serial s) (sy_prepared s) (sy_gdt s) t (sy_ports s) (sy_keyboard s) (sy_conts s) (sy_irqs s).
Definition set_ports (s : system) (l : list (Z * Z)) : system :=
  System (sy_machine s) (sy_screen s) (sy_serial s) (sy_prepared s) (sy_gdt s) (sy_idt s) l (sy_keyboard s) (sy_conts s) (sy_irqs s).
Definition set_keyboard (s : system) (b : keyboard) : system :=
  System (sy_machine s) (sy_screen s) (sy_serial s) (sy_prepared s) (sy_gdt s) (sy_idt s) (sy_ports s) b (sy_conts s) (sy_irqs s).
Definition set_conts (s : system) (c : gmap nat continuation) : system :=
  System (sy_machine s) (sy_screen s) (sy_serial s) (sy_prepared s) (sy_gdt s) (sy_idt s) (sy_ports s) (sy_keyboard s) c (sy_irqs s).
Definition set_irqs (s : system) (l : list irq) : system :=
  System (sy_machine s) (sy_screen s) (sy_serial s) (sy_prepared s) (sy_gdt s) (sy_idt s) (sy_ports s) (sy_keyboard s) (sy_conts s) l.

Definition set_kernel (s : system) (k : kernel pmm_state) : system := set_machine s (set_m_kernel (sy_machine s) k).
Definition set_pages (s : system) (p : paging_state pmm_state) : system := set_kernel s (set_k_pages (sy_kernel s) p).

(** ** The monad *)

(** [Halted] is a processor that executes [hlt] for good, or one that was reset;
    [Waiting] one in [hlt] when no further interrupt comes; [Unknown] an instruction
    outside the modelled ones, a command that changed memory the kernel uses under its
    feet, or the end of the fuel. *)
Inductive outcome (X : Type) := Done (x : X) | Halted | Waiting | Unknown.
Arguments Done {X}.
Arguments Halted {X}.
Arguments Waiting {X}.
Arguments Unknown {X}.

Definition M (X : Type) : Type := system -> outcome X * system.

#[export] Instance M_ret : MRet M := fun X x s => (Done x, s).
#[export] Instance M_bind : MBind M := fun X Y f m s =>
  match m s with
  | (Done x, s) => f x s
  | (Halted, s) => (Halted, s)
  | (Waiting, s) => (Waiting, s)
  | (Unknown, s) => (Unknown, s)
  end.

Definition gets {X : Type} (f : system -> X) : M X := fun s => (Done (f s), s).
Definition modify (f : system -> system) : M unit := fun s => (Done tt, f s).
Definition stop {X : Type} (o : outcome X) : M X := fun s => (o, s).

(** Operations of the components, as actions of the system. *)
Definition on_machine {X : Type} (f : machine pmm_state -> X * machine pmm_state) : M X :=
  fun s => let '(x, m) := f (sy_machine s) in (Done x, set_machine s m).
Definition on_kernel {X : Type} (f : kernel pmm_state -> X * kernel pmm_state) : M X :=
  fun s => let '(x, k) := f (sy_kernel s) in (Done x, set_kernel s k).
Definition on_pages {X : Type} (f : paging_state pmm_state -> X * paging_state pmm_state) : M X :=
  fun s => let '(x, p) := f (sy_pages s) in (Done x, set_pages s p).
Definition modify_kernel (f : kernel pmm_state -> kernel pmm_state) : M unit :=
  modify (fun s => set_kernel s (f (sy_kernel s))).

(** [for (i = 0; i < n; i++) m;] *)
Fixpoint repeat_m (n : nat) (m : M unit) : M unit :=
  match n with O => mret tt | S n => m;; repeat_m n m end.

(** ** Output *)

(** The characters of a string literal. *)
Definition txt (t : string) : list Z := map (fun c => Z.of_N (N_of_ascii c)) (list_ascii_of_string t).

(** A call of an output function: [puts] of a literal, of a literal with a line feed
    at the end, of a computed string; [put_dec32], [put_hex32], [put_hex64];
    [putc] of a line feed. *)
Inductive out := Txt (t : string) | Line (t : string) | Str (l : list Z) | Dec (v : Z) | Hex (v : Z) | Hex64 (v : Z) | Nl.

Definition put (o : out) (s : screen) : screen :=
  match o with
  | Txt t => vga_puts (txt t) s
  | Line t => vga_puts (txt t ++ [10]) s
  | Str l => vga_puts l s
  | Dec v => vga_put_dec32 v s
  | Hex v => vga_put_hex32 v s
  | Hex64 v => vga_put_hex64 v s
  | Nl => vga_putc 10 s
  end.
Definition puts (os : list out) (s : screen) : screen := fold_left (fun s o => put o s) os s.
Definition print (os : list out) : M unit := modify (fun s => set_screen s (puts os (sy_screen s))).

(** The serial line has [puts] and [put_hex32]. *)
Definition send (o : out) (s : serial) : serial :=
  match o with
  | Txt t => serial_puts (txt t) s
  | Line t => serial_puts (txt t ++ [10]) s
  | Str l => serial_puts l s
  | Hex v => serial_put_hex32 v s
  | Nl => serial_puts [10] s
  | Dec _ | Hex64 _ => s
  end.
Definition log (os : list out) : M unit :=
  modify (fun s => set_serial s (fold_left (fun s o => send o s) os (sy_serial s))).

(** ** Faults *)

(** [(error_code & bit) != 0] *)
Definition has_bit (e bit : Z) : bool := negb (Z.land e bit =? 0).

(** What both loggers of the flags put out, one to the screen and one to the line. *)
Definition fault_flags (error_code : Z) : list out :=
  [Txt " flags="; Txt (if has_bit error_code 1 then "P" else "NP"); Txt (if has_bit error_code 2 then "|W" else "|R");
   Txt (if has_bit error_code 4 then "|U" else "|K")]
  ++ (if has_bit error_code 8 then [Txt "|RSVD"] else []) ++ (if has_bit error_code 16 then [Txt "|IF"] else []).
Definition paging_log_fault_flags_vga (error_code : Z) : M unit := print (fault_flags error_code).
Definition paging_log_fault_flags_serial (error_code : Z) : M unit := log (fault_flags error_code).

Section System.
Context (L : layout) (fuel : nat).

(** After a call that may have ended the task [tid]: whether the task goes on. A task
    that ended leaves no continuation; one that found no successor waits for good. *)
Definition settle (tid : nat) : M bool := fun s =>
  if (current s =? tid)%nat then
    if bool_decide (state_at (tasks (sy_sched s)) tid = TASK_ZOMBIE) then (Halted, s) else (Done true, s)
  else (Done false, set_conts s (delete tid (sy_conts s))).

(** [scheduler_exit_current()]: [true] when it returns to the caller. *)
Definition exit_current : M bool :=
  tid ← gets current;
  modify_kernel (k_exit (at_switch_sp L));;
  settle tid.

Definition paging_handle_page_fault (error_code cr2 : Z) : M unit :=
  tid ← gets (fun s => scheduler_current_task_id (sy_sched s));
  pid ← gets (fun s => process_current_pid (sy_kernel s));
  if has_bit error_code 4 && negb (tid =? 0) then
    print [Str [10]; Line "user page fault: task terminated"; Txt "cr2="; Hex cr2; Txt " err="; Hex error_code; Txt " pid=";
           Dec pid; Txt " tid="; Dec tid];;
    paging_log_fault_flags_vga error_code;;
    print [Nl];;
    log [Txt "user page fault: task terminated cr2="; Hex cr2; Txt " err="; Hex error_code; Txt " pid="; Hex pid;
         Txt " tid="; Hex tid];;
    paging_log_fault_flags_serial error_code;;
    log [Nl];;
    _ ← exit_current;
    mret tt
  else
    print [Str [10; 10]; Line "KERNEL PANIC: page fault"; Txt "cr2="; Hex cr2; Txt " err="; Hex error_code; Txt " pid=";
           Dec pid; Txt " tid="; Dec tid];;
    paging_log_fault_flags_vga error_code;;
    print [Nl];;
    log [Txt "KERNEL PANIC: page fault cr2="; Hex cr2; Txt " err="; Hex error_code; Txt " pid="; Hex pid;
         Txt " tid="; Hex tid];;
    paging_log_fault_flags_serial error_code;;
    log [Nl];;
    stop Halted.

Definition interrupts_fault_panic : M unit :=
  tid ← gets (fun s => scheduler_current_task_id (sy_sched s));
  pid ← gets (fun s => process_current_pid (sy_kernel s));
  print [Str [10; 10]; Line "KERNEL PANIC: CPU exception"; Txt "pid="; Dec pid; Txt " tid="; Dec tid; Nl;
         Line "System halted"];;
  log [Line "KERNEL PANIC: CPU exception"; Txt "pid="; Hex pid; Txt " tid="; Hex tid; Nl; Line "System halted"];;
  stop Halted.

(** ** System calls *)

(** [int $0x80] in a kernel task: the registers a call does not read are 0. *)
Definition int80 (eax ebx ecx edx : Z) : M Z :=
  on_machine (syscall_dispatch (at_bootstrap L) (at_user_task_entry L) (at_app_counter L) (at_app_writer L)
                [0; 0; 0; 0; ebx; edx; ecx; eax] (at_switch_sp L)).

(** ** User mode *)

(** The registers that system calls read, and the instruction pointer. *)
Record regs := Regs { eax : Z; ebx : Z; ecx : Z; edx : Z; eip : Z }.
Definition set_eax (r : regs) (v : Z) : regs := Regs v (ebx r) (ecx r) (edx r) (eip r).
Definition jump (r : regs) (v : Z) : regs := Regs (eax r) (ebx r) (ecx r) (edx r) (u32 v).

(** The instructions of the programs the kernel emits. *)
Inductive insn := MovEax (imm : Z) | Int (vector : Z) | JmpShort (rel : Z) | OtherInsn.

(** A byte of code, fetched in user mode; [None] is a page fault. *)
Definition fetch8 (v : Z) (s : system) : option Z :=
  if default false (paging_user_accessible v 1 (sy_pages s)) then Some (vload8 v (sy_kernel s)) else None.

(** [n] bytes, or the address of the first one that faults. *)
Fixpoint fetch (n : nat) (v : Z) (s : system) : list Z + Z :=
  match n with
  | O => inl []
  | S n =>
      match fetch8 v s with
      | None => inr v
      | Some b => match fetch n (u32 (v + 1)) s with inl bs => inl (b :: bs) | inr f => inr f end
      end
  end.

Definition insn_length (opcode : Z) : nat :=
  if opcode =? 184 then 5%nat else if (opcode =? 205) || (opcode =? 235) then 2%nat else 1%nat.

Definition i8 (b : Z) : Z := if b <? 128 then b else b - 256.

Definition decode_insn (bs : list Z) : insn :=
  let opcode := nth 0 bs 0 in
  let b := fun i => nth i bs 0 in
  if opcode =? 184 then MovEax (b 1%nat + 256 * b 2%nat + 65536 * b 3%nat + 16777216 * b 4%nat) else
  if opcode =? 205 then Int (b 1%nat) else
  if opcode =? 235 then JmpShort (i8 (b 1%nat)) else OtherInsn.

(** The instruction at [v] with its length, or the address that faults. *)
Definition fetch_insn (v : Z) (s : system) : (insn * nat) + Z :=
  match fetch8 v s with
  | None => inr v
  | Some opcode =>
      match fetch (insn_length opcode) v s with
      | inl bs => inl (decode_insn bs, insn_length opcode)
      | inr f => inr f
      end
  end.

(** The error code of a fetch: a user access, of a present page or not. *)
Definition fetch_error (v : Z) (s : system) : Z :=
  match paging_translate v (sy_pages s) with Some _ => 5 | None => 4 end.

(** [int $0x80] in user mode: the result, or [None] when the call ended the task. *)
Definition user_int80 (r : regs) : M (option Z) :=
  tid ← gets current;
  v ← on_machine (syscall_dispatch (at_bootstrap L) (at_user_task_entry L) (at_app_counter L) (at_app_writer L)
                    [0; 0; 0; 0; ebx r; edx r; ecx r; eax r] (at_switch_sp L));
  b ← settle tid;
  mret (if (b : bool) then Some v else None).

(** usermode_asm.s: back to the kernel in the main task, the end of any other task. *)
Definition usermode_exit : M unit :=
  tid ← gets current;
  if (tid =? 0)%nat then mret tt else
  b ← exit_current;
  if (b : bool) then stop Halted else mret tt.

(** From user mode to the end of the task, or to the return of [usermode_switch]. An
    interrupt number without a gate for user mode is a protection fault. *)
Fixpoint run_user (n : nat) (r : regs) : M unit :=
  match n with
  | O => stop Unknown
  | S n =>
      i ← gets (fetch_insn (eip r));
      match (i : (insn * nat) + Z) with
      | inr cr2 =>
          error ← gets (fetch_error cr2);
          paging_handle_page_fault error cr2
      | inl (MovEax v, len) => run_user n (jump (set_eax r v) (eip r + Z.of_nat len))
      | inl (JmpShort rel, len) => run_user n (jump r (eip r + Z.of_nat len + rel))
      | inl (Int v, len) =>
          if v =? 128 then
            x ← user_int80 r;
            match (x : option Z) with
            | Some x => run_user n (jump (set_eax r x) (eip r + Z.of_nat len))
            | None => mret tt
            end
          else if v =? 129 then usermode_exit else interrupts_fault_panic
      | inl (OtherInsn, _) => stop Unknown
      end
  end.

(** [usermode_switch(entry, user_stack_top)], with its arguments in eax and edx. *)
Definition usermode_switch (entry user_stack_top : Z) : M unit :=
  run_user fuel (Regs entry (at_user_ebx L) (at_user_ecx L) user_stack_top entry).

(** ** Tasks *)

Definition suspend (c : continuation) : M unit :=
  modify (fun s => set_conts s (<[current s := c]> (sy_conts s)));;
  modify_kernel (k_yield (at_switch_sp L)).

(** The loops from iteration [i]: to the next yield, or to the end of the task. *)
Definition task_exit : M unit := _ ← exit_current; mret tt.

Definition demo_task (id i : Z) : M unit :=
  if i <? 12 then
    log [Txt "task "; Hex id; Txt " tick "; Hex i; Nl];;
    suspend (InDemo id i)
  else task_exit.

Definition app_counter (tag i : Z) : M unit :=
  if i <? 16 then
    ticks ← gets (fun s => timer_get_ticks32 (m_timer (sy_machine s)));
    log [Txt "app counter tag="; Hex tag; Txt " i="; Hex i; Txt " ticks="; Hex ticks; Nl];;
    suspend (InCounter tag i)
  else task_exit.

(** The array [payload]: "write#", a digit and the terminator. *)
Definition payload (i : Z) : list Z := txt "write#" ++ [48 + i `mod` 10; 0].

Definition app_writer (i : Z) : M unit :=
  if i <? 4 then
    modify_kernel (k_write_file (txt "app.log") (payload i));;
    suspend (InWriter i)
  else task_exit.

(** [process_user_task_entry], which enters user mode on the task's own kernel stack. *)
Definition user_task : M unit :=
  target ← gets (fun s => process_user_task_entry (sy_kernel s));
  modify (fun s => set_gdt s (gdt_set_kernel_stack (at_stack_top L) (sy_gdt s)));;
  usermode_switch (fst (target : Z * Z)) (snd target).

(** [scheduler_task_bootstrap], where a new task starts. *)
Definition scheduler_task_bootstrap : M unit :=
  t ← gets (fun s => task_at (tasks (sy_sched s)) (current s));
  if tk_entry t =? 0 then task_exit else
  if tk_entry t =? at_user_task_entry L then user_task else
  if tk_entry t =? at_demo_task L then demo_task (tk_arg t) 0 else
  if tk_entry t =? at_app_counter L then app_counter (tk_arg t) 0 else
  if tk_entry t =? at_app_writer L then app_writer 0 else stop Unknown.

(** The running task, from where it stopped to its next switch. *)
Definition slice : M unit :=
  c ← gets (fun s => sy_conts s !! current s);
  match (c : option continuation) with
  | None => scheduler_task_bootstrap
  | Some (InDemo id i) => demo_task id (i + 1)
  | Some (InCounter tag i) => app_counter tag (i + 1)
  | Some (InWriter i) => app_writer (i + 1)
  end.

(** Until the main task runs again. *)
Fixpoint resume (n : nat) : M unit :=
  match n with
  | O => stop Unknown
  | S n =>
      tid ← gets current;
      if (tid =? 0)%nat then mret tt else slice;; resume n
  end.

(** [scheduler_yield()] and [scheduler_run_pending()] in the main task. *)
Definition yield : M unit := modify_kernel (k_yield (at_switch_sp L));; resume fuel.
Definition run_pending : M unit := modify_kernel (k_run_pending (at_switch_sp L));; resume fuel.

(** ** Waiting *)

(** [hlt]: the next interrupt wakes the processor up. *)
Definition hlt : M unit := fun s =>
  match sy_irqs s with
  | [] => (Waiting, s)
  | IrqTimer :: l => (Done tt, set_irqs (set_machine s (timer_isr (sy_machine s))) l)
  | IrqKeyboard status data :: l => (Done tt, set_irqs (set_keyboard s (keyboard_isr status data (sy_keyboard s))) l)
  end.

End System.

(** ** What is printed *)

Definition render (o : out) : list Z :=
  match o with
  | Txt t => c_str (txt t)
  | Line t => c_str (txt t ++ [10])
  | Str l => c_str l
  | Dec v => dec_digits v
  | Hex v => hex_prefix ++ hex_digits 8 v
  | Hex64 v => hex_prefix ++ hex_digits 16 v
  | Nl => [10]
  end.

Lemma put_render o s : put o s = vga_write (render o) s.
Proof. by destruct o. Qed.

Lemma vga_write_app a b s : vga_write (a ++ b) s = vga_write b (vga_write a s).
Proof. apply fold_left_app. Qed.

Lemma puts_render os : forall s, puts os s = vga_write (flat_map render os) s.
Proof.
  induction os as [|o os IH]; intros s; cbn [puts fold_left flat_map]; [done|].
  rewrite vga_write_app, <- put_render. apply IH.
Qed.

Lemma puts_ok os s : screen_ok s -> screen_ok (puts os s).
Proof. rewrite puts_render. apply write_ok. Qed.

Lemma bind_done {X Y : Type} (m : M X) (f : X -> M Y) s x s' : m s = (Done x, s') -> (m ≫= f) s = f x s'.
Proof. cbv [mbind M_bind]. by intros ->. Qed.

(** ** Actions that print and do nothing else *)

Definition prints (m : M unit) : Prop :=
  forall s, exists cs, m s = (Done tt, set_screen s (vga_write cs (sy_screen s))).
(** Actions that find something out. *)
Definition reads {X : Type} (m : M X) : Prop := forall s, exists x, m s = (Done x, s).

Lemma prints_print os : prints (print os).
Proof. intros s. exists (flat_map render os). unfold print, modify. by rewrite puts_render. Qed.

Lemma reads_gets {X : Type} (f : system -> X) : reads (gets f).
Proof. intros s. by exists (f s). Qed.

Lemma prints_bind {X : Type} (m : M X) (f : X -> M unit) : reads m -> (forall x, prints (f x)) -> prints (m ≫= f).
Proof. intros Hm Hf s. destruct (Hm s) as [x Hx]. cbv [mbind M_bind]. rewrite Hx. apply Hf. Qed.

Lemma set_machine_id s : set_machine s (sy_machine s) = s.
Proof. by destruct s. Qed.

#[export] Hint Resolve prints_print reads_gets : mars.

(** ** Preservation *)

Definition preserves (P : system -> Prop) {X : Type} (m : M X) : Prop := forall s, P s -> P (snd (m s)).

Section Preserves.
Context (P : system -> Prop).

Lemma preserves_ret {X : Type} (x : X) : preserves P (mret x).
Proof. by intros s Hs. Qed.

Lemma preserves_stop {X : Type} (o : outcome X) : preserves P (stop o).
Proof. by intros s Hs. Qed.

Lemma preserves_gets {X : Type} (f : system -> X) : preserves P (gets f).
Proof. by intros s Hs. Qed.

Lemma preserves_bind {X Y : Type} (m : M X) (f : X -> M Y) : preserves P m -> (forall x, preserves P (f x)) -> preserves P (m ≫= f).
Proof.
  intros Hm Hf s Hs. specialize (Hm s Hs). cbv [mbind M_bind]. destruct (m s) as [[x| | |] s']; cbn [snd] in *; try done.
  by apply Hf.
Qed.

Lemma preserves_repeat n m : preserves P m -> preserves P (repeat_m n m).
Proof. intros Hm. induction n; cbn [repeat_m]; [apply preserves_ret|]. by apply preserves_bind. Qed.

Lemma preserves_if {X : Type} (b : bool) (m1 m2 : M X) : preserves P m1 -> preserves P m2 -> preserves P (if b then m1 else m2).
Proof. by destruct b. Qed.

End Preserves.

Create HintDb sysm.
#[export] Hint Resolve preserves_ret preserves_stop preserves_gets preserves_bind preserves_repeat preserves_if : sysm.

(** ** Returning *)

(** From states with [P] the action returns, to such a state. *)
Definition returns (P : system -> Prop) {X : Type} (m : M X) : Prop :=
  forall s, P s -> exists x s', m s = (Done x, s') /\ P s'.

Section Returns.
Context (P : system -> Prop).

Lemma returns_ret {X : Type} (x : X) : returns P (mret x).
Proof. intros s Hs. by exists x, s. Qed.

Lemma returns_gets {X : Type} (f : system -> X) : returns P (gets f).
Proof. intros s Hs. by exists (f s), s. Qed.

Lemma returns_modify (f : system -> system) : (forall s, P s -> P (f s)) -> returns P (modify f).
Proof. intros Hf s Hs. exists tt, (f s). auto. Qed.

Lemma returns_bind {X Y : Type} (m : M X) (f : X -> M Y) : returns P m -> (forall x, returns P (f x)) -> returns P (m ≫= f).
Proof. intros Hm Hf s Hs. destruct (Hm s Hs) as (x & s1 & E & H1). rewrite (bind_done _ _ _ _ _ E). by apply Hf. Qed.

Lemma returns_if {X : Type} (b : bool) (m1 m2 : M X) : returns P m1 -> returns P m2 -> returns P (if b then m1 else m2).
Proof. by destruct b. Qed.

Lemma returns_repeat n m : returns P m -> returns P (repeat_m n m).
Proof. intros Hm. induction n; cbn [repeat_m]; [apply returns_ret|]. by apply returns_bind. Qed.

End Returns.

#[export] Hint Resolve returns_ret returns_gets returns_bind returns_if returns_repeat : sysm.
