(* ===== verification/Commands.v ===== *)
(** kernel/kernel.c: the self-test and the commands of the shell.

    Each command is an action of the system, named after the command; [run_command]
    chooses by the text of the line. A local array starts with zeros; no command
    reads it before it is filled. *)
From Stdlib Require Import ZArith Lia Bool List Ascii String.
From stdpp Require Import base gmap list numbers option sets.
From S2P Require Import Prelude CStr Interfaces Pmm Paging Reserve Kheap Scheduler Ipc Vfs Keyboard Loader Process Exec.
From S2P Require Import Syscall Vga Shell Tables Usermode System.
#[local] Open Scope Z_scope.

(** ** Memory information *)

Definition MULTIBOOT_INFO_MEM_FLAG : Z := 1.

(** The loop of [print_mem_info] over the memory map: entries, and those of type 1. *)
Definition count_body (m : mem) (mmap_end : Z) (st : Z * Z * Z) : (Z * Z * Z) + (Z * Z) :=
  let '(entry, entries, usable_entries) := st in
  if entry <? mmap_end then
    inl (entry ⊞ (mmap_size m entry + 4), entries ⊞ 1,
         if mmap_type m entry =? 1 then usable_entries ⊞ 1 else usable_entries)
  else inr (entries, usable_entries).

Definition print_mem_info (mbi : multiboot_info_t) : M unit :=
  (if has_bit (mbi_flags mbi) MULTIBOOT_INFO_MEM_FLAG
   then print [Txt "mem lower KB: "; Dec (mbi_mem_lower mbi); Nl; Txt "mem upper KB: "; Dec (mbi_mem_upper mbi); Nl]
   else print [Line "mem info not provided"]);;
  if has_bit (mbi_flags mbi) MULTIBOOT_INFO_MMAP_FLAG then
    m ← gets (fun s => pg_mem (sy_pages s));
    match loop (Z.to_nat (mbi_mmap_length mbi + 1)) (count_body m (mbi_mmap_addr mbi ⊞ mbi_mmap_length mbi))
               (mbi_mmap_addr mbi, 0, 0) with
    | Some (entries, usable_entries) =>
        print [Txt "mmap entries: "; Dec entries; Nl; Txt "usable entries: "; Dec usable_entries; Nl]
    | None => stop Unknown
    end
  else print [Line "mmap not provided"].

(** The loop of [print_mmap_regions], which shows at most eight entries. *)
Fixpoint mmap_lines (n : nat) (shown : Z) (m : mem) (mmap_end entry : Z) : list out :=
  match n with
  | O => []
  | S n =>
      if entry <? mmap_end then
        [Txt "#"; Dec shown; Txt " base="; Hex64 (mmap_base m entry); Txt " len="; Hex64 (mmap_len m entry);
         Txt " type="; Dec (mmap_type m entry); Nl] ++
        (if 8 <=? shown + 1 then [Line "..."] else mmap_lines n (shown + 1) m mmap_end (entry ⊞ (mmap_size m entry + 4)))
      else []
  end.

Definition print_mmap_regions (mbi : multiboot_info_t) : M unit :=
  if negb (has_bit (mbi_flags mbi) MULTIBOOT_INFO_MMAP_FLAG) then print [Line "mmap not provided"] else
  m ← gets (fun s => pg_mem (sy_pages s));
  print (mmap_lines 8 0 m (mbi_mmap_addr mbi ⊞ mbi_mmap_length mbi) (mbi_mmap_addr mbi)).

(** ** Sleeping and rebooting *)

(** [while ((timer_get_ticks32() - start) < wait_ticks) hlt;] *)
Fixpoint sleep_loop (n : nat) (start wait_ticks : Z) : M unit :=
  match n with
  | O => stop Unknown
  | S n =>
      now ← gets (fun s => timer_get_ticks32 (m_timer (sy_machine s)));
      if now ⊟ start <? wait_ticks then hlt;; sleep_loop n start wait_ticks else mret tt
  end.

(** Every turn of the loop takes an interrupt. *)
Definition sleep_ticks (wait_ticks : Z) : M unit :=
  start ← gets (fun s => timer_get_ticks32 (m_timer (sy_machine s)));
  n ← gets (fun s => length (sy_irqs s));
  sleep_loop (S n) start wait_ticks.

Definition seconds_to_ticks (seconds hz : Z) : Z :=
  if UINT32_MAX / hz <? seconds then UINT32_MAX else u32 (seconds * hz).
Definition milliseconds_to_ticks (milliseconds hz : Z) : Z :=
  let wait_ticks := if UINT32_MAX / hz <? milliseconds then UINT32_MAX / 1000 else u32 (milliseconds * hz) / 1000 in
  if (wait_ticks =? 0) && (0 <? milliseconds) then 1 else wait_ticks.

Definition sleep_seconds (seconds : Z) : M unit :=
  hz ← gets (fun s => timer_get_hz (m_timer (sy_machine s)));
  sleep_ticks (seconds_to_ticks seconds hz).
Definition sleep_milliseconds (milliseconds : Z) : M unit :=
  hz ← gets (fun s => timer_get_hz (m_timer (sy_machine s)));
  sleep_ticks (milliseconds_to_ticks milliseconds hz).

(** [while ((inb(0x64) & 2) != 0 && timeout > 0) timeout--;] for the bytes the port
    reads. *)
Fixpoint controller_wait (timeout : nat) (port : nat -> Z) (i : nat) : nat :=
  match timeout with
  | O => O
  | S t => if has_bit (port i) 2 then controller_wait t port (S i) else timeout
  end.

(** An empty interrupt table makes the exception of [int3] a reset. *)
Definition reboot_via_triple_fault : M unit := stop Halted.

(** [resets] says whether the keyboard controller carries out the reset command. *)
Definition reboot_system (port : nat -> Z) (resets : bool) : M unit :=
  log [Line "reboot: i8042 reset"];;
  if (0 <? controller_wait (Z.to_nat 1000000) port 0)%nat && resets then stop Halted else
  log [Line "reboot: fallback triple-fault"];;
  reboot_via_triple_fault.

Section Commands.
Context (L : layout) (fuel : nat) (mbi : multiboot_info_t) (port : nat -> Z) (resets : bool).

(** ** Calls of the components *)

Definition on_pmm {X : Type} (f : pmm_state -> X * pmm_state) : M X :=
  on_pages (fun p => let '(x, a) := f (pg_frames p) in (x, set_pg_frames p a)).
Definition on_ipc {X : Type} (f : ipc_state -> X * ipc_state) : M X :=
  on_machine (fun m => let '(x, s) := f (m_ipc m) in (x, set_m_ipc m s)).

Definition spawn (name : list Z) : M Z :=
  on_kernel (exec_spawn (at_bootstrap L) (at_user_task_entry L) (at_app_counter L) (at_app_writer L) name).
Definition spawn_kernel (name : list Z) (entry arg : Z) : M Z :=
  on_kernel (process_spawn_kernel (at_bootstrap L) (at_user_task_entry L) (Some name) entry arg).
Definition spawn_user (name : list Z) (entry arg : Z) : M Z :=
  on_kernel (process_spawn_user (at_bootstrap L) (at_user_task_entry L) (Some name) entry arg).
Definition create_task (entry arg : Z) (name : list Z) : M (option nat) :=
  on_kernel (fun k => let '(r, s) := scheduler_create_task (at_bootstrap L) entry arg (Some name) (k_sched k) in
                      (r, set_k_sched k s)).
Definition write_file (name data : list Z) : M bool :=
  on_kernel (fun k => let '(ok, s) := vfs_write_file (Some name) (Some data) (k_vfs k) in (ok, set_k_vfs k s)).
Definition reap : M unit := modify_kernel process_reap.
Definition yield_and_reap : M unit := yield L fuel;; reap.

(** ** The self-test *)

(** [stress_created], [stress_failed] and [stress_ok] after the rounds. *)
Fixpoint stress_rounds (n : nat) (stress_created : Z) : M (Z * Z * Z) :=
  match n with
  | O => mret (stress_created, 0, 1)
  | S n =>
      stress_pid ← spawn (txt "userprobe");
      if stress_pid <? 0 then mret (stress_created, 1, 0) else
      repeat_m 6 yield_and_reap;;
      stress_rounds n (stress_created + 1)
  end.

Definition kernel_run_selftest : M bool :=
  log [Line "selftest: start"];;
  ping_before ← int80 L SYSCALL_USER_PING_COUNT 0 0 0;
  prog_count ← int80 L SYSCALL_EXEC_COUNT 0 0 0;
  long_write ← int80 L SYSCALL_VFS_WRITE (at_long_name L) (at_one_byte L) 0;
  pid_probe ← spawn (txt "userprobe");
  pid_hello_ping ← spawn (txt "hello_ping");
  pid_helloapp ← spawn (txt "helloapp");
  ok ← write_file (txt "app.badimg") (txt "MARSHEX GG");
  pid_badimg ← (if (ok : bool) then spawn_user (txt "badimg") 0 0 else mret (-1));
  (if (0 <=? pid_probe) || (0 <=? pid_hello_ping) || (0 <=? pid_helloapp) then repeat_m 12 yield_and_reap else mret tt);;
  stress ← stress_rounds 4 0;
  let '(stress_created, stress_failed, stress_ok) := (stress : Z * Z * Z) in
  reap;;
  proc_after ← gets (fun s => process_count (sy_kernel s));
  ping_after ← int80 L SYSCALL_USER_PING_COUNT 0 0 0;
  let ping_delta := ping_after ⊟ ping_before in
  log [Txt "selftest: ping_delta="; Hex ping_delta; Txt " pid_probe="; Hex (u32 pid_probe);
       Txt " pid_hello_ping="; Hex (u32 pid_hello_ping); Txt " pid_helloapp="; Hex (u32 pid_helloapp);
       Txt " pid_badimg="; Hex (u32 pid_badimg); Txt " long_write="; Hex long_write; Txt " stress_ok="; Hex stress_ok;
       Txt " stress_created="; Hex stress_created; Txt " stress_failed="; Hex stress_failed;
       Txt " proc_after="; Hex proc_after; Txt " prog_count="; Hex prog_count; Nl];;
  if (6 <=? prog_count) && (0 <=? pid_probe) && (0 <=? pid_hello_ping) && (0 <=? pid_helloapp) && (pid_badimg <? 0) &&
     (ping_delta =? 6) && (long_write =? 0) && negb (stress_ok =? 0) && (stress_created =? 4) && (stress_failed =? 0) &&
     (proc_after =? 1)
  then log [Line "selftest: PASS"];; mret true
  else log [Line "selftest: FAIL spawn path"];; mret false.

(** ** Commands about memory *)

Definition cmd_help : M unit :=
  print [Line "commands: help clear mem mmap pmm heap kmalloc syscall syscallfs tasks taskdemo ps spawnproc progs run sysrun send recv ipc upings selftest stressproc userprep usertest psx ls cat write aspace alloc allocn free vm vmmap vmunmap vmxlate vmfault uptime time ticks sleep sleepms reboot echo";
         Line "editing: up/down for history"].

Definition cmd_clear : M unit := modify (fun s => set_screen s (vga_clear (sy_screen s))).

Definition cmd_pmm : M unit :=
  a ← gets sy_pmm;
  if negb (pmm_ready a) then print [Line "pmm: not initialized"] else
  print [Txt "pmm total frames: "; Dec (pmm_total_frames a); Nl; Txt "pmm used frames: "; Dec (pmm_used_frames a); Nl;
         Txt "pmm free frames: "; Dec (pmm_free_frames a); Nl].

Definition cmd_heap : M unit :=
  h ← gets (fun s => k_heap (sy_kernel s));
  print [Txt "heap total bytes: "; Dec (kheap_total_bytes h); Nl; Txt "heap used bytes: "; Dec (kheap_used_bytes h); Nl].

Definition malloc (bytes : Z) : M Z :=
  on_kernel (fun k => let '(p, h) := kh_malloc bytes (k_heap k) in (p, set_k_heap k h)).
Definition free (ptr : Z) : M unit := modify_kernel (fun k => set_k_heap k (kh_free ptr (k_heap k))).

Definition cmd_kmalloc (arg : list Z) : M unit :=
  match parse_u32 arg with
  | None => print [Line "usage: kmalloc <bytes>"]
  | Some bytes =>
      ptr ← malloc bytes;
      if ptr =? 0 then print [Line "kmalloc failed"] else
      print [Txt "kmalloc ptr: "; Hex ptr; Nl];;
      free ptr;;
      print [Line "kfree done"]
  end.

Definition cmd_alloc : M unit :=
  frame ← on_pmm pmm_alloc_frame;
  if frame =? 0 then print [Line "alloc failed"] else print [Txt "frame: "; Hex frame; Nl].

(** The loop of [allocn], with the frames taken so far. *)
Definition allocn_body (count : Z) (st : Z * pmm_state) : (Z * pmm_state) + (Z * pmm_state) :=
  let '(ok, a) := st in
  if ok <? count then
    let '(frame, a) := pmm_alloc_frame a in
    if frame =? 0 then inr (ok, a) else inl (ok + 1, a)
  else inr (ok, a).

Definition cmd_allocn (arg : list Z) : M unit :=
  match parse_u32 arg with
  | None => print [Line "usage: allocn <count>"]
  | Some count =>
      a ← gets sy_pmm;
      match loop FRAME_FUEL (allocn_body count) (0, a) with
      | None => stop Unknown
      | Some (ok, a) => on_pmm (fun _ => (tt, a));; print [Txt "allocated frames: "; Dec ok; Nl]
      end
  end.

Definition page_base (v : Z) : Z := Z.land v 4294963200.

(** *** Raw memory

    The static tables of the kernel and the bytes of its heap are not in [pg_mem], and the
    kernel's own accesses are not translated. The commands [free], [vmunmap] and [vmfault]
    let the operator give away, unmap or overwrite any page; when the page is one the
    kernel may be using, what the machine does from there on is not modelled, and the
    command ends in [Unknown], as a program does at an instruction that is not modelled. *)

(** Directory [dir] uses frame [f]: as a page table, or behind a page other than the
    identity mapping of [f]. *)
Definition dir_uses (m : mem) (dir f : Z) : bool :=
  existsb (fun i =>
    let pde := entry m dir i in
    has_flag pde PAGING_FLAG_PRESENT &&
    ((table_of pde =? f) ||
     existsb (fun j =>
       let pte := entry m (table_of pde) j in
       has_flag pte PAGING_FLAG_PRESENT && (table_of pte =? f) && negb (i * 4194304 + j * 4096 =? f)) table_indices))
  table_indices.

(** Frame [f] is a directory, a page table or behind a page of the kernel (its heap
    included) or of a process. *)
Definition frame_in_use (f : Z) (k : kernel pmm_state) : bool :=
  existsb (fun dir => (dir =? f) || dir_uses (pg_mem (k_pages k)) dir f)
          (paging_kernel_directory_phys (k_pages k) :: map pe_cr3 (active_entries (process_table k))).

(** The page of [virt] is one through which the kernel reaches its code, its tables or
    its heap. *)
Definition kernel_page (virt : Z) (k : kernel pmm_state) : bool :=
  (virt <? identity_end_of (pmm_highest_address (pg_frames (k_pages k)))) || in_heap virt k.

Definition cmd_free (arg : list Z) : M unit :=
  match parse_u32_auto arg with
  | None => print [Line "usage: free <frame_addr>"]
  | Some frame =>
      ok ← on_pmm (pmm_free_frame frame);
      if negb ok then print [Line "free failed"] else
      print [Txt "freed frame: "; Hex (page_base frame); Nl];;
      used ← gets (fun s => frame_in_use frame (sy_kernel s));
      if (used : bool) then stop Unknown else mret tt
  end.

(** ** Commands about paging *)

Definition cmd_aspace : M unit :=
  p ← gets sy_pages;
  print [Txt "cr3 current: "; Hex (paging_current_directory_phys p); Nl; Txt "cr3 kernel: ";
         Hex (paging_kernel_directory_phys p); Nl].

Definition cmd_vm : M unit :=
  b ← gets (fun s => paging_enabled (sy_pages s));
  print [Txt "paging: "; Line (if (b : bool) then "enabled" else "disabled")].

Definition cmd_vmmap (arg : list Z) : M unit :=
  let '(p, tok1) := read_token arg (replicate 32 0) 32 in
  let '(p, tok2) := read_token p (replicate 32 0) 32 in
  match parse_u32_auto tok1, parse_u32_auto tok2 with
  | Some virt, Some phys =>
      ok ← on_pages (paging_map_page virt phys (Z.lor PAGING_FLAG_PRESENT PAGING_FLAG_RW));
      if negb ok then print [Line "vmmap failed"] else
      print [Txt "mapped "; Hex (page_base virt); Txt " -> "; Hex (page_base phys); Nl]
  | _, _ => print [Line "usage: vmmap <virt> <phys>"]
  end.

Definition cmd_vmunmap (arg : list Z) : M unit :=
  match parse_u32_auto arg with
  | None => print [Line "usage: vmunmap <virt>"]
  | Some virt =>
      ok ← on_pages (paging_unmap_page virt);
      if negb ok then print [Line "vmunmap: not mapped"] else
      used ← gets (fun s => kernel_page virt (sy_kernel s));
      if (used : bool) then stop Unknown else print [Txt "unmapped "; Hex (page_base virt); Nl]
  end.

Definition cmd_vmxlate (arg : list Z) : M unit :=
  match parse_u32_auto arg with
  | None => print [Line "usage: vmxlate <virt>"]
  | Some virt =>
      r ← gets (fun s => paging_translate virt (sy_pages s));
      match (r : option Z) with
      | None => print [Line "vmxlate: unmapped"]
      | Some phys => print [Txt "phys: "; Hex phys; Nl]
      end
  end.

(** A write by the kernel to a page that is not there faults with code 2. A page that is
    there was put there by the operator with [vmmap] and may be any page of the machine,
    one with a table of the kernel too: the run leaves the model at this write. *)
Definition cmd_vmfault : M unit :=
  print [Line "triggering page fault..."];;
  r ← gets (fun s => paging_translate 1342177280 (sy_pages s));
  match (r : option Z) with
  | None => paging_handle_page_fault L 2 1342177280
  | Some _ => stop Unknown
  end;;
  print [Line "unexpected: write succeeded"].

(** ** Commands about tasks and processes *)

Definition cmd_syscall : M unit :=
  ticks ← int80 L SYSCALL_GET_TICKS32 0 0 0;
  heap_total ← int80 L SYSCALL_GET_HEAP_TOTAL 0 0 0;
  heap_used ← int80 L SYSCALL_GET_HEAP_USED 0 0 0;
  print [Txt "sys ticks: "; Dec ticks; Nl; Txt "sys heap total: "; Dec heap_total; Nl; Txt "sys heap used: ";
         Dec heap_used; Nl].

(** The static arrays [name] and [data] are in memory, as is [out], which has 64 bytes. *)
Definition cmd_syscallfs : M unit :=
  task_count ← int80 L SYSCALL_GET_TASK_COUNT 0 0 0;
  runnable_count ← int80 L SYSCALL_GET_RUNNABLE_COUNT 0 0 0;
  current_task ← int80 L SYSCALL_GET_CURRENT_TASK 0 0 0;
  file_count ← int80 L SYSCALL_VFS_COUNT 0 0 0;
  write_ok ← int80 L SYSCALL_VFS_WRITE (at_sys_name L) (at_sys_data L) 0;
  read_len ← int80 L SYSCALL_VFS_READ (at_sys_name L) (at_sys_out L) 64;
  text ← gets (fun s => vload (at_sys_out L) 64 (sy_kernel s));
  print [Txt "sys tasks: "; Dec task_count; Txt ", runnable: "; Dec runnable_count; Txt ", current: "; Dec current_task; Nl;
         Txt "sys files: "; Dec file_count; Nl; Txt "sys write: "; Dec write_ok; Txt ", read_len: "; Dec read_len; Nl;
         Txt "sys read: "; Str text; Nl].

Definition cmd_tasks : M unit :=
  s ← gets sy_sched;
  print [Txt "tasks total: "; Dec (scheduler_task_count s); Nl; Txt "tasks runnable: "; Dec (scheduler_runnable_count s); Nl].

Definition cmd_taskdemo : M unit :=
  t1 ← create_task (at_demo_task L) 1 (txt "demo1");
  t2 ← create_task (at_demo_task L) 2 (txt "demo2");
  match (t1 : option nat), (t2 : option nat) with
  | Some _, Some _ =>
      print [Line "taskdemo: created"];;
      repeat_m 40 (yield L fuel);;
      print [Line "taskdemo: done"]
  | _, _ => print [Line "taskdemo: create failed"]
  end.

Definition ps_lines (k : kernel pmm_state) : list out :=
  flat_map (fun i => match process_pid_at i k with
                     | Some (pid, name) => [Txt "pid="; Dec pid; Txt " name="; Str name; Nl]
                     | None => []
                     end) (seq 0 (Z.to_nat (process_count k))).
Definition cmd_ps : M unit :=
  k ← gets sy_kernel;
  print ([Txt "processes: "; Dec (process_count k); Nl] ++ ps_lines k).

Definition cmd_spawnproc : M unit :=
  p1 ← spawn_kernel (txt "proc1") (at_demo_task L) 257;
  p2 ← spawn_kernel (txt "proc2") (at_demo_task L) 258;
  if (p1 <? 0) || (p2 <? 0) then print [Line "spawnproc failed"] else
  print [Txt "spawned pids: "; Dec (u32 p1); Txt ", "; Dec (u32 p2); Nl].

Definition psx_lines (k : kernel pmm_state) : list out :=
  flat_map (fun i => match process_info_at i k with
                     | None => []
                     | Some info =>
                         [Txt "pid="; Dec (pi_pid info); Txt " tid="; Dec (Z.of_nat (pi_tid info)); Txt " kind=";
                          Txt (if pi_is_kernel info then "kernel" else "user"); Nl;
                          Txt "  cr3="; Hex (pi_cr3 info); Txt " ucode="; Hex (pi_user_code_frame info);
                          Txt " ustack="; Hex (pi_user_stack_frame info); Txt " uentry="; Hex (pi_user_entry info); Nl;
                          Txt "  mask="; Hex (pi_syscall_mask_low info); Nl]
                     end) (seq 0 (Z.to_nat (process_count k))).
Definition cmd_psx : M unit := k ← gets sy_kernel; print (psx_lines k).

Definition progs_lines : list out :=
  flat_map (fun i => match exec_program_name_at (at_app_counter L) (at_app_writer L) i with
                     | Some name => [Txt "- "; Str name; Nl]
                     | None => []
                     end) (seqZ 0 (exec_program_count (at_app_counter L) (at_app_writer L))).
Definition cmd_progs : M unit :=
  print ([Txt "programs: "; Dec (exec_program_count (at_app_counter L) (at_app_writer L)); Nl] ++ progs_lines).

Definition cmd_run (arg : list Z) : M unit :=
  let '(_, name) := read_token arg (replicate 40 0) 40 in
  if hd 0 name =? 0 then print [Line "usage: run <program>"] else
  pid ← spawn name;
  if pid <? 0 then print [Line "run failed"] else print [Txt "run pid: "; Dec (u32 pid); Nl].

(** The system call reads the local array [name] from the stack. *)
Definition cmd_sysrun (arg : list Z) : M unit :=
  let '(_, name) := read_token arg (replicate 40 0) 40 in
  modify_kernel (fun k => vstore k (at_sysrun_name L) name k);;
  if hd 0 name =? 0 then print [Line "usage: sysrun <program>"] else
  pid ← int80 L SYSCALL_EXEC_SPAWN (at_sysrun_name L) 0 0;
  if pid =? UINT32_MAX then print [Line "sysrun failed"] else print [Txt "sysrun pid: "; Dec pid; Nl].

Definition cmd_upings : M unit :=
  count ← int80 L SYSCALL_USER_PING_COUNT 0 0 0;
  print [Txt "user ping count: "; Dec count; Nl].

Definition cmd_selftest : M unit :=
  ok ← kernel_run_selftest;
  print [Line (if (ok : bool) then "selftest: PASS (see serial log)" else "selftest: FAIL (see serial log)")].

(** [created] and [failed] after the rounds of [stressproc]. *)
Fixpoint stressproc_rounds (n : nat) (created failed : Z) : M (Z * Z) :=
  match n with
  | O => mret (created, failed)
  | S n =>
      pid ← spawn (txt "userprobe");
      if pid <? 0 then stressproc_rounds n created (failed + 1) else
      repeat_m 6 yield_and_reap;;
      stressproc_rounds n (created + 1) failed
  end.

Definition stressproc (rounds : Z) : M unit :=
  if (rounds =? 0) || (2000 <? rounds) then print [Line "stressproc: rounds must be 1..2000"] else
  counts ← stressproc_rounds (Z.to_nat rounds) 0 0;
  let '(created, failed) := (counts : Z * Z) in
  let drain_iters := if 256 <? rounds then 1024 else rounds * 4 + 16 in
  repeat_m (Z.to_nat drain_iters) yield_and_reap;;
  reap;;
  remaining ← gets (fun s => process_count (sy_kernel s));
  print [Txt "stressproc created="; Dec created; Txt " failed="; Dec failed; Txt " remaining="; Dec remaining; Nl];;
  print [Line (if (failed =? 0) && (remaining =? 1) then "stressproc: PASS" else "stressproc: FAIL")].

Definition cmd_stressproc (rest : list Z) : M unit :=
  let arg := skip_spaces rest in
  if hd 0 arg =? 0 then stressproc 32 else
  match parse_u32 arg with
  | None => print [Line "usage: stressproc [rounds]"]
  | Some rounds => stressproc rounds
  end.

Definition prepare : M bool := fun s =>
  let '(ok, u) := usermode_prepare (Usermode (sy_pages s) (sy_prepared s)) in
  (Done ok, set_prepared (set_pages s (um_pages u)) (prepared u)).

Definition cmd_userprep : M unit :=
  ok ← prepare;
  print [Line (if negb ok then "userprep failed" else "userprep ok")].

Definition enter_test : M unit :=
  t ← gets (fun s => usermode_enter_test (Usermode (sy_pages s) (sy_prepared s)));
  match (t : option (Z * Z)) with
  | None => mret tt
  | Some (entry, user_stack_top) =>
      modify (fun s => set_gdt s (gdt_set_kernel_stack (at_stack_top L) (sy_gdt s)));;
      usermode_switch L fuel entry user_stack_top
  end.

Definition cmd_usertest : M unit :=
  b ← gets sy_prepared;
  if negb b then print [Line "run userprep first"] else
  print [Line "entering user mode test"];;
  enter_test;;
  print [Line "user mode test returned"].

(** ** Commands about messages and files *)

Definition cmd_send (arg : list Z) : M unit :=
  let '(p, pid_tok) := read_token arg (replicate 16 0) 16 in
  let msg := skip_spaces p in
  match parse_u32 pid_tok with
  | None => print [Line "usage: send <pid> <message>"]
  | Some to_pid =>
      if hd 0 msg =? 0 then print [Line "usage: send <pid> <message>"] else
      me ← gets (fun s => process_current_pid (sy_kernel s));
      ok ← on_ipc (ipc_send me to_pid (Some msg));
      print [Line (if negb ok then "send failed" else "sent")]
  end.

Definition cmd_recv : M unit :=
  me ← gets (fun s => process_current_pid (sy_kernel s));
  r ← on_ipc (fun s => let '(received, msg, from_pid, s) := ipc_recv me (Some (replicate 64 0)) 64 s in
                       ((received, default [] msg, default 0 from_pid), s));
  let '(received, msg, from_pid) := (r : Z * list Z * Z) in
  if received <? 0 then print [Line "recv failed"] else
  if received =? 0 then print [Line "no messages"] else
  print [Txt "from "; Dec from_pid; Txt ": "; Str msg; Nl].

Definition cmd_ipc : M unit :=
  s ← gets (fun s => m_ipc (sy_machine s));
  print [Txt "ipc pending: "; Dec (ipc_pending_count s); Nl].

Definition ls_lines (k : kernel pmm_state) : list out :=
  flat_map (fun i => match vfs_file_name_at i (k_vfs k) with
                     | Some name => [Txt "- "; Str name; Nl]
                     | None => []
                     end) (seq 0 (Z.to_nat (vfs_file_count (k_vfs k)))).
Definition cmd_ls : M unit :=
  k ← gets sy_kernel;
  print ([Txt "files: "; Dec (vfs_file_count (k_vfs k)); Nl] ++ ls_lines k).

Definition cmd_cat (arg : list Z) : M unit :=
  let '(_, name) := read_token arg (replicate 40 0) 40 in
  if hd 0 name =? 0 then print [Line "usage: cat <name>"] else
  content ← gets (fun s => read_file (sy_kernel s) name);
  match (content : option (list Z)) with
  | None => print [Line "cat: file not found"]
  | Some content => print [Str content; Nl]
  end.

Definition cmd_write (arg : list Z) : M unit :=
  let '(p, name) := read_token arg (replicate 40 0) 40 in
  let text := skip_spaces p in
  if (hd 0 name =? 0) || (hd 0 text =? 0) then print [Line "usage: write <name> <text>"] else
  ok ← write_file name text;
  print [Line (if negb ok then "write failed" else "write ok")].

(** ** Commands about time *)

Definition cmd_uptime : M unit :=
  t ← gets (fun s => m_timer (sy_machine s));
  print [Txt "uptime: "; Dec (timer_get_uptime_seconds t); Line " s"].
Definition cmd_time : M unit :=
  t ← gets (fun s => m_timer (sy_machine s));
  print [Txt "hz: "; Dec (timer_get_hz t); Txt ", ticks: "; Dec (timer_get_ticks32 t); Txt ", uptime: ";
         Dec (timer_get_uptime_seconds t); Line " s"].
Definition cmd_ticks : M unit :=
  t ← gets (fun s => m_timer (sy_machine s));
  print [Txt "ticks: "; Dec (timer_get_ticks32 t); Nl].

Definition cmd_sleep (arg : list Z) : M unit :=
  match parse_u32 arg with
  | None => print [Line "usage: sleep <seconds>"]
  | Some seconds => sleep_seconds seconds
  end.
Definition cmd_sleepms (arg : list Z) : M unit :=
  match parse_u32 arg with
  | None => print [Line "usage: sleepms <milliseconds>"]
  | Some milliseconds => sleep_milliseconds milliseconds
  end.

Definition cmd_echo (arg : list Z) : M unit := print [Str arg; Nl].
Definition cmd_unknown (line : list Z) : M unit := print [Txt "unknown command: "; Str line; Nl].

(** ** The interpreter *)

(** [streq(line, "...")] and [starts_with(line, "...")] for a literal. *)
Definition streq (line : list Z) (t : string) : bool := str_eq line (txt t).
Definition starts (line : list Z) (t : string) : bool := starts_with line (txt t).

Definition run_command (line : list Z) : M unit :=
  if hd 0 line =? 0 then mret tt else
  if streq line "help" then cmd_help else
  if streq line "clear" then cmd_clear else
  if streq line "mem" then print_mem_info mbi else
  if streq line "mmap" then print_mmap_regions mbi else
  if streq line "pmm" then cmd_pmm else
  if streq line "heap" then cmd_heap else
  if starts line "kmalloc " then cmd_kmalloc (drop 8 line) else
  if streq line "syscall" then cmd_syscall else
  if streq line "syscallfs" then cmd_syscallfs else
  if streq line "tasks" then cmd_tasks else
  if streq line "taskdemo" then cmd_taskdemo else
  if streq line "ps" then cmd_ps else
  if streq line "spawnproc" then cmd_spawnproc else
  if streq line "psx" then cmd_psx else
  if streq line "progs" then cmd_progs else
  if starts line "run " then cmd_run (drop 4 line) else
  if starts line "sysrun " then cmd_sysrun (drop 7 line) else
  if starts line "send " then cmd_send (drop 5 line) else
  if streq line "recv" then cmd_recv else
  if streq line "ipc" then cmd_ipc else
  if streq line "upings" then cmd_upings else
  if streq line "selftest" then cmd_selftest else
  if starts line "stressproc" then cmd_stressproc (drop 10 line) else
  if streq line "aspace" then cmd_aspace else
  if streq line "userprep" then cmd_userprep else
  if streq line "usertest" then cmd_usertest else
  if streq line "ls" then cmd_ls else
  if starts line "cat " then cmd_cat (drop 4 line) else
  if starts line "write " then cmd_write (drop 6 line) else
  if streq line "vm" then cmd_vm else
  if starts line "vmmap " then cmd_vmmap (drop 6 line) else
  if starts line "vmunmap " then cmd_vmunmap (drop 8 line) else
  if starts line "vmxlate " then cmd_vmxlate (drop 8 line) else
  if streq line "vmfault" then cmd_vmfault else
  if streq line "alloc" then cmd_alloc else
  if starts line "allocn " then cmd_allocn (drop 7 line) else
  if starts line "free " then cmd_free (drop 5 line) else
  if streq line "uptime" then cmd_uptime else
  if streq line "time" then cmd_time else
  if streq line "ticks" then cmd_ticks else
  if starts line "sleep " then cmd_sleep (drop 6 line) else
  if starts line "sleepms " then cmd_sleepms (drop 8 line) else
  if streq line "reboot" then reboot_system port resets else
  if starts line "echo " then cmd_echo (drop 5 line) else
  cmd_unknown line.

End Commands.
