(* ===== verification/Boot.v ===== *)
(** kernel/kernel.c: [kernel_main], from the boot loader to the shell. *)
From Stdlib Require Import ZArith Lia Bool List Ascii String.
From stdpp Require Import base gmap list numbers option sets.
From S2P Require Import Prelude CStr Interfaces Pmm Paging Reserve Kheap Scheduler Ipc Vfs Keyboard Loader Process Exec.
From S2P Require Import Syscall Vga Shell Tables Usermode System Commands.
#[local] Open Scope Z_scope.

Definition MULTIBOOT_BOOTLOADER_MAGIC : Z := 732803074.

(** What else the linker and the processor decide: the end of the kernel, the tables,
    the stubs, the code selector, and the text of the generated program. *)
Record image := Image {
  im_kernel_end : Z;
  im_gdt : Z;
  im_tss : Z;
  im_address : stub -> Z;
  im_cs : Z;
  im_hello_ping : list Z;
}.

Section Boot.
Context (L : layout) (I : image) (fuel : nat) (mbi_addr : Z) (mbi : multiboot_info_t) (port : nat -> Z) (resets : bool).

(** ** Initialisation *)

Definition outs (ws : list (Z * Z)) : M unit := modify (fun s => set_ports s (sy_ports s ++ ws)).

Definition init_serial : M unit := fun s =>
  let '(l, ws) := serial_init (sy_serial s) in outs ws (set_serial s l).
Definition init_gdt : M unit :=
  modify (fun s => set_gdt s (gdt_init (im_gdt I) (im_tss I) (at_stack_top L) (sy_gdt s))).
Definition init_interrupts : M unit := fun s =>
  let '(t, _, ws) := interrupts_init (im_address I) (im_cs I) (sy_idt s) in
  outs ws (set_keyboard (set_idt s t) (keyboard_buffer_reset (sy_keyboard s))).
Definition init_timer : M unit := fun s =>
  let '(t, ws) := timer_init 100 in
  let m := sy_machine s in
  outs ws (set_machine s (Machine (m_kernel m) (m_ipc m) t (user_ping_count m))).
Definition init_pmm : M unit := fun s =>
  match pmm_init (pg_mem (sy_pages s)) mbi_addr mbi (im_kernel_end I) (sy_pmm s) with
  | None => (Unknown, s)
  | Some a => (Done tt, set_pages s (set_pg_frames (sy_pages s) a))
  end.
Definition init_paging : M unit := modify (fun s => set_pages s (paging_init (sy_pages s))).
Definition init_heap : M bool :=
  on_kernel (fun k => let '(ok, h) := kheap_init (k_heap k) in (ok, set_k_heap k h)).
Definition init_scheduler : M unit := modify_kernel (fun k => set_k_sched k (scheduler_init (k_sched k))).
Definition init_process : M unit := modify_kernel process_init.
Definition init_ipc : M bool := on_ipc ipc_init.
Definition init_vfs : M bool :=
  on_kernel (fun k => let '(ok, v) := vfs_init (im_hello_ping I) (k_vfs k) in (ok, set_k_vfs k v)).

(** [vga_puts] and [serial_puts] of the same line. *)
Definition say (t : string) : M unit := print [Line t];; log [Line t].
(** A message, and the loop around [hlt]. *)
Definition die (t : string) : M unit := say t;; stop Halted.

(** Up to [pmm_init]; then paging and the components on the heap. *)
Definition boot_hardware (multiboot_magic : Z) : M unit :=
  modify (fun s => set_screen s (vga_clear (sy_screen s)));;
  print [Line "Mars OS"];;
  init_serial;;
  log [Line "Mars OS boot"];;
  (if negb (multiboot_magic =? MULTIBOOT_BOOTLOADER_MAGIC) then die "error: invalid multiboot magic" else mret tt);;
  print [Txt "boot ok, mbi="; Hex mbi_addr; Nl];;
  log [Txt "mbi="; Hex mbi_addr; Nl];;
  init_gdt;;
  init_interrupts;;
  init_timer;;
  init_pmm.

(** [process_init] and [exec_init] always return 1. *)
Definition boot_components : M unit :=
  init_paging;;
  ok ← init_heap;
  (if negb ok then die "kheap: init failed" else mret tt);;
  init_scheduler;;
  init_process;;
  ok ← init_ipc;
  (if negb ok then die "ipc: init failed" else mret tt);;
  ok ← prepare;
  say (if (ok : bool) then "usermode: prepared" else "usermode: unavailable");;
  ok ← init_vfs;
  (if negb ok then die "vfs: init failed" else mret tt).

Definition boot_report : M unit :=
  print [Line "interrupts: enabled (keyboard irq)"];;
  log [Line "interrupts enabled"];;
  b ← gets (fun s => paging_enabled (sy_pages s));
  say (if (b : bool) then "paging: enabled" else "paging: disabled");;
  a ← gets sy_pmm;
  (if pmm_ready a then
     say "pmm: ready";; print [Txt "pmm total frames: "; Dec (pmm_total_frames a); Nl]
   else say "pmm: unavailable");;
  say "kheap: ready";; say "scheduler: ready";; say "process: ready";; say "exec: ready";; say "ipc: ready";; say "vfs: ready".

(** What follows the set-up of the hardware, to the prompt. *)
Definition boot_software : M unit :=
  boot_components;;
  boot_report;;
  ok ← kernel_run_selftest L fuel;
  (if negb ok then print [Line "selftest failed; halting"];; log [Line "selftest: HALT"];; stop Halted else mret tt);;
  print [Line "type 'help'"; Nl].

Definition boot (multiboot_magic : Z) : M unit := boot_hardware multiboot_magic;; boot_software.

(** ** The shell *)

Definition getchar : M Z := fun s =>
  let '(c, b) := keyboard_try_getchar (sy_keyboard s) in (Done c, set_keyboard s b).

(** The editor draws on the system's screen. *)
Definition with_screen (ed : editor) (v : screen) : editor :=
  Editor (ed_line ed) (ed_len ed) (ed_cursor ed) (ed_history ed) (ed_hcount ed) (ed_hcursor ed) v.
Definition on_editor {X : Type} (f : editor -> X) (ed : editor) : M X := fun s => (Done (f (with_screen ed (sy_screen s))), s).
Definition show_editor (ed : editor) : M unit := modify (fun s => set_screen s (ed_screen ed)).

(** The inner loop; every turn takes a character or an interrupt. *)
Fixpoint read_line (n : nat) (ed : editor) : M editor :=
  match n with
  | O => stop Unknown
  | S n =>
      run_pending L fuel;;
      reap;;
      c ← getchar;
      if c =? 0 then hlt;; read_line n ed else
      r ← on_editor (shell_key c) ed;
      match (r : editor + editor) with
      | inl ed => show_editor ed;; read_line n ed
      | inr ed => show_editor ed;; mret ed
      end
  end.

Definition remember_line (ed : editor) : editor :=
  let '(history, count) := shell_store_history (ed_history ed) (ed_hcount ed) (ed_line ed) in
  Editor (ed_line ed) (ed_len ed) (ed_cursor ed) history count (ed_hcursor ed) (ed_screen ed).

(** One turn of the outer loop. *)
Definition shell_turn (ed : editor) : M editor :=
  ed ← on_editor shell_prompt ed;
  show_editor ed;;
  ed ← read_line fuel ed;
  let ed := remember_line ed in
  run_command L fuel mbi port resets (ed_line ed);;
  mret ed.

Fixpoint shell (n : nat) (ed : editor) : M unit :=
  match n with
  | O => stop Unknown
  | S n => ed ← shell_turn ed; shell n ed
  end.

Definition kernel_main (multiboot_magic : Z) (ed : editor) : M unit := boot multiboot_magic;; shell fuel ed.

End Boot.
