(* ===== verification/BootSpec.v ===== *)
(** What booting establishes: from an initialised frame allocator, [kernel_main] sets up
    paging, the heap, the scheduler, the process table, the message queue, the user-mode
    test and the file system, and leaves every component in a good state. *)
From Stdlib Require Import ZArith Lia Bool List Ascii String.
From stdpp Require Import base gmap list numbers option sets.
From S2P Require Import Prelude CStr Interfaces Pmm Paging Reserve Kheap Scheduler Ipc Vfs Keyboard Loader Process Tasks Exec.
From S2P Require Import Space World Isolation BootWorld Syscall Vga Shell Tables Usermode System Commands Boot.
#[local] Open Scope Z_scope.

(** ** How many frames an operation takes *)

Section Budget.
Context {A : Type} `{FrameAllocatorOk A}.
Implicit Types (p : paging_state A) (a : A).

(** From [a] to [a'], at most [n] frames were taken and none was given back. *)
Definition spends (n : Z) a a' : Prop := fa_avail a - n <= fa_avail a' <= fa_avail a /\ fa_ready a' = fa_ready a.

Lemma spends_trans n m a b c : spends n a b -> spends m b c -> spends (n + m) a c.
Proof. intros [Hr1 Ht1] [Hr2 Ht2]. split; [lia|congruence]. Qed.

Lemma spends_refl a : spends 0 a a.
Proof. split; [lia|done]. Qed.

Lemma spends_mono n m a b : spends n a b -> n <= m -> spends m a b.
Proof. intros [Hr Ht] Hle. split; [lia|done]. Qed.

Lemma alloc_spends a : fa_ok a -> spends 1 a (snd (fa_alloc a)).
Proof.
  intros Hok. split; [|apply fa_alloc_ready]. destruct (fa_alloc a) as [f a'] eqn:E. cbn [snd].
  destruct (decide (f = 0)) as [->|Hf]; [rewrite (fa_alloc_none _ _ Hok E); lia|].
  apply fa_alloc_some in E as (_ & _ & _ & _ & _ & ->); [lia|done|done].
Qed.

Lemma ensure_table_spends D i flags p :
  fa_ok (pg_frames p) -> spends 1 (pg_frames p) (pg_frames (snd (ensure_table D i flags p))).
Proof.
  intros Hok. assert (H1 : spends 1 (pg_frames p) (pg_frames p)) by (apply (spends_mono 0); [apply spends_refl|lia]).
  unfold ensure_table. destruct (has_flag (entry _ _ _) _); cbn [negb]; [by destruct (has_flag _ _)|].
  unfold paging_alloc_table. pose proof (alloc_spends _ Hok) as Ha. destruct (fa_alloc _) as [f a]. cbn [snd] in Ha.
  destruct (Z.eqb_spec f 0) as [->|Hf]; [exact Ha|]. rewrite (proj2 (Z.eqb_neq f 0)) by done. exact Ha.
Qed.

Lemma map_page_spends virt phys flags p :
  fa_ok (pg_frames p) -> spends 1 (pg_frames p) (pg_frames (snd (paging_map_page virt phys flags p))).
Proof.
  intros Hok. assert (H1 : spends 1 (pg_frames p) (pg_frames p)) by (apply (spends_mono 0); [apply spends_refl|lia]).
  unfold paging_map_page. destruct (negb (paging_is_enabled p)); [exact H1|]. destruct (_ || _); [exact H1|].
  match goal with |- context [ensure_table ?D ?i ?f p] => pose proof (ensure_table_spends D i f p Hok) as He;
    destruct (ensure_table D i f p) as [ok p1] end.
  cbn [snd] in He. destruct ok; cbn [negb]; [|exact He]. destruct (has_flag _ _); exact He.
Qed.

(** Two frames are enough for a page and its table. *)
Lemma map_fresh_succeeds virt p :
  paging_ok p -> fa_ready (pg_frames p) = true -> 2 <= fa_avail (pg_frames p) ->
  is_u32 virt -> aligned virt -> paging_mapped p virt = false ->
  exists p', map_fresh_page virt p = (true, p') /\ spends 2 (pg_frames p) (pg_frames p') /\
    paging_active_directory p' = paging_active_directory p.
Proof.
  intros Hok Hr Hav Hv Ha Hm. unfold map_fresh_page. pose proof (alloc_spends _ (pk_frames _ Hok)) as Hs.
  destruct (fa_alloc (pg_frames p)) as [f a] eqn:E. cbn [snd] in Hs.
  assert (Hf : f <> 0) by (pose proof (fa_alloc_avail _ (pk_frames _ Hok) Hr ltac:(lia)) as Hne; by rewrite E in Hne).
  rewrite (proj2 (Z.eqb_neq f 0)) by done. pose proof (fa_alloc_some _ _ _ (pk_frames _ Hok) E Hf) as (_ & _ & _ & Hfa & _).
  destruct (paging_take_frame p f a Hok E Hf) as ([Hen1 Hok1 Hd1] & Hav1 & Hfu).
  pose proof (map_page_spends virt f (Z.lor PAGING_FLAG_PRESENT PAGING_FLAG_RW) (set_pg_frames p a) Hok1) as Hs2.
  destruct (map_page_cases (set_pg_frames p a) virt f (Z.lor PAGING_FLAG_PRESENT PAGING_FLAG_RW))
    as (ok & a' & m' & E' & _ & _ & Hiff & _); auto.
  rewrite E' in *. cbn [snd pg_frames touch set_pg_mem set_pg_frames] in Hs2.
  assert (Htrue : ok = true).
  { rewrite Hiff. cbn [pg_mem pg_frames set_pg_frames]. unfold paging_mapped in Hm.
    change (paging_active_directory (set_pg_frames p a)) with (paging_active_directory p). rewrite Hm.
    pose proof (fa_alloc_avail a Hok1) as Hne. destruct Hs as [_ Hrd]. rewrite Hrd, Hav1 in Hne. specialize (Hne Hr ltac:(lia)).
    unfold page_aligned. unfold aligned in Ha. rewrite Ha, Hfa. cbn [Z.eqb negb andb].
    rewrite (proj2 (Z.eqb_neq _ 0)) by done. apply orb_true_r. }
  clear Hiff. subst ok. eexists. split; [reflexivity|]. split; [|done]. exact (spends_trans 1 1 _ _ _ Hs Hs2).
Qed.

(** ** The heap's first pages *)

Lemma map_initial_succeeds n : forall i (s : kheap (paging_state A)),
  paging_ok (hp_pages s) -> fa_ready (pg_frames (hp_pages s)) = true -> 2 * Z.of_nat n <= fa_avail (pg_frames (hp_pages s)) ->
  0 <= i -> i + Z.of_nat n <= 16 ->
  (forall w, KHEAP_START + 4096 * i <= w < KHEAP_START + 65536 -> paging_mapped (hp_pages s) w = false) ->
  exists p', map_initial n i s = (true, set_hp_pages s p') /\ spends (2 * Z.of_nat n) (pg_frames (hp_pages s)) (pg_frames p') /\
    paging_ok p' /\ paging_active_directory p' = paging_active_directory (hp_pages s) /\
    forall w, 0 <= w < KHEAP_START -> paging_mapped p' w = paging_mapped (hp_pages s) w.
Proof.
  induction n as [|n IH]; intros i s Hok Hr Hav Hi Hn Hu.
  { exists (hp_pages s). split; [by destruct s|]. split_and!; [apply spends_refl|done..]. }
  cbn [map_initial]. unfold KHEAP_START in *.
  rewrite (u32_small (i * 4096)), (u32_small (3489660928 + _)) by lia.
  destruct (map_fresh_succeeds (3489660928 + i * 4096) (hp_pages s)) as (p1 & E & Hs1 & HD1); auto;
    [lia|unfold is_u32; lia|unfold aligned; Z.div_mod_to_equations; lia|apply Hu; lia|].
  change (pm_map_fresh (3489660928 + i * 4096) (hp_pages s)) with (map_fresh_page (3489660928 + i * 4096) (hp_pages s)).
  rewrite E. cbn [negb].
  destruct (map_fresh_page_ok (hp_pages s) (3489660928 + i * 4096) true p1 Hok ltac:(unfold is_u32; lia) E) as (Hok1 & _ & _ & Hm1).
  pose proof Hs1 as [Hav1 Hr1].
  destruct (IH (i + 1) (set_hp_pages s p1)) as (p2 & E2 & Hs2 & Hok2 & HD2 & Hm2); cbn [hp_pages set_hp_pages]; auto; try lia; [congruence| |].
  { intros w Hw. rewrite Hm1 by (unfold is_u32; lia). rewrite Hu by lia. cbn [orb andb].
    apply Z.eqb_neq. Z.div_mod_to_equations. lia. }
  exists p2. split_and!.
  - rewrite E2. reflexivity.
  - cbn [hp_pages set_hp_pages] in Hs2. replace (2 * Z.of_nat (S n)) with (2 + 2 * Z.of_nat n) by lia. by apply (spends_trans _ _ _ _ _ Hs1).
  - done.
  - cbn [hp_pages set_hp_pages] in HD2. congruence.
  - intros w Hw. cbn [hp_pages set_hp_pages] in Hm2. rewrite Hm2, Hm1 by (unfold is_u32; lia). cbn [andb].
    replace (w / 4096 =? (3489660928 + i * 4096) / 4096) with false; [apply orb_false_r|].
    symmetry. apply Z.eqb_neq. Z.div_mod_to_equations. lia.
Qed.

Lemma kheap_init_succeeds (s : kheap (paging_state A)) :
  paging_ok (hp_pages s) -> fa_ready (pg_frames (hp_pages s)) = true ->
  32 <= fa_avail (pg_frames (hp_pages s)) -> KHEAP_START + 65536 + 4096 * fa_avail (pg_frames (hp_pages s)) < 4294967296 ->
  (forall w, KHEAP_START <= w < KHEAP_START + 65536 -> paging_mapped (hp_pages s) w = false) ->
  exists s', kheap_init s = (true, s') /\ heap_rep s' [(65520, true)] /\ spends 32 (pg_frames (hp_pages s)) (pg_frames (hp_pages s')) /\
    paging_active_directory (hp_pages s') = paging_active_directory (hp_pages s) /\
    forall w, 0 <= w < KHEAP_START -> paging_mapped (hp_pages s') w = paging_mapped (hp_pages s) w.
Proof.
  intros Hok Hr Hav Hroom Hu. destruct (kheap_init_cases (P := paging_state A) s) as (ok & s1 & E & _ & Hrep); [exact Hok|exact Hroom|].
  destruct (map_initial_succeeds (Z.to_nat KHEAP_INITIAL_PAGES) 0 s) as (p' & E' & Hs & Hok' & HD & Hm);
    [exact Hok|exact Hr|unfold KHEAP_INITIAL_PAGES; lia|lia|unfold KHEAP_INITIAL_PAGES; lia|intros w Hw; apply Hu; lia|].
  unfold kheap_init in E. rewrite E' in E. cbn [negb] in E. injection E as <- <-.
  eexists. split; [unfold kheap_init; rewrite E'; reflexivity|].
  split; [exact (Hrep eq_refl)|]. cbn [hp_pages]. split_and!; [exact Hs|exact HD|exact Hm].
Qed.

End Budget.

(** ** Room at the end of the heap *)

Section Room.
Context {P : Type} `{PageMapperOk P}.
Implicit Types (h : kheap P).

(** All blocks are in use but the last one, which has [n] bytes. *)
Definition tail_room h (n : Z) : Prop :=
  exists l, heap_rep h (l ++ [(n, true)]) /\ Forall (fun b => snd b = false) l.

Lemma first_fit_tail want n l : forall a,
  Forall (fun b : blk => snd b = false) l -> want <= n ->
  exists b, first_fit want a (l ++ [(n, true)]) = Some (b, l ++ take_block want n).
Proof.
  induction l as [|[sz fr] l IH]; intros a Hl Hw; cbn [app first_fit].
  - rewrite (proj2 (Z.leb_le _ _)) by lia. exists a. cbn [andb]. by rewrite app_nil_r.
  - apply Forall_cons_1 in Hl as [Hf Hl]. cbn in Hf. subst fr. cbn [andb].
    destruct (IH (a + HEADER + sz) Hl Hw) as [b ->]. by exists b.
Qed.

Lemma kmalloc_tail h n size :
  tail_room h n -> 0 < size -> size + 40 <= n <= 65536 ->
  exists p h' l n', kh_malloc size h = (p, h') /\ p <> 0 /\ heap_rep h' (l ++ [(n', true)]) /\ Forall (fun b => snd b = false) l /\
    (exists sz, size <= sz /\ (p, sz) ∈ Kheap.live KHEAP_START (l ++ [(n', true)])) /\ n - size - 24 <= n' <= n /\
    hp_pages h' = hp_pages h.
Proof.
  intros (l & Hr & Hl) Hs Hn. assert (Hsz : 0 < size <= 2147483647) by lia.
  destruct (align_up_8_eq size Hsz) as (Hge & Hw & Hwm).
  destruct (first_fit_tail (align_up_8 size) n l KHEAP_START Hl ltac:(lia)) as [b Hff].
  destruct (first_fit_split _ _ _ _ _ Hff) as (l1 & sz & l2 & El & Hb & Hle & El').
  destruct (kmalloc_fits h _ size b _ Hr Hsz Hff) as (h' & E & Hr' & Hpg & _ & Hblo).
  assert (Etb : take_block (align_up_8 size) n = [(align_up_8 size, false); (n - align_up_8 size - HEADER, true)]).
  { unfold take_block. by rewrite (proj2 (Z.ltb_lt _ _)) by lia. }
  rewrite Etb in *. replace (l ++ [(align_up_8 size, false); (n - align_up_8 size - HEADER, true)])
    with ((l ++ [(align_up_8 size, false)]) ++ [(n - align_up_8 size - HEADER, true)]) in * by (by rewrite <- app_assoc).
  exists (b + HEADER), h', (l ++ [(align_up_8 size, false)]), (n - align_up_8 size - HEADER). split_and!; try done.
  - cbn [kh_malloc kheap_kernel_heap]. by rewrite E.
  - unfold KHEAP_START, HEADER in *. lia.
  - apply Forall_app. split; [done|]. by repeat constructor.
  - exists (taken_size (align_up_8 size) sz). unfold taken_size. split; [destruct (_ <? _); lia|]. rewrite El'.
    rewrite !live_app, take_block_live, <- Hb. apply elem_of_app. right. apply elem_of_app. left. apply list_elem_of_here.
  - unfold HEADER in *. lia.
  - unfold HEADER in *. lia.
Qed.

(** Stores into a live block keep the list of blocks. *)
Lemma store_rep bs : forall h l p sz a,
  heap_rep h l -> (p, sz) ∈ Kheap.live KHEAP_START l -> p <= a -> a + Z.of_nat (length bs) <= p + sz ->
  heap_rep (store_bytes a bs h) l.
Proof.
  induction bs as [|b bs IH]; intros h l p sz a Hr Hin Hlo Hhi; cbn [store_bytes]; [done|]. cbn [length] in Hhi.
  apply (IH _ l p sz); [|done|lia|lia]. destruct Hr. split; cbn; auto. apply seg_store; auto. exists p, sz. split; [done|lia].
Qed.

Lemma store_tail h n size p h' c :
  tail_room h n -> 0 < size -> size + 40 <= n <= 65536 -> kh_malloc size h = (p, h') -> Z.of_nat (length c) <= size ->
  p <> 0 /\ hp_pages h' = hp_pages h /\ exists n', tail_room (store_bytes p c h') n' /\ n - size - 24 <= n' <= n.
Proof.
  intros Ht Hs Hn E Hc. destruct (kmalloc_tail h n size Ht Hs Hn) as (q & h1 & l & n' & E' & Hq & Hr & Hl & (sz & Hsz & Hin) & Hn' & Hpg).
  rewrite E in E'. injection E' as <- <-. split; [done|]. split; [done|]. exists n'. split; [|done]. exists l. split; [|done].
  apply (store_rep _ _ _ p sz); [done|done|lia|lia].
Qed.

End Room.

(** ** The files of the first boot *)

Section Files.
Context {P : Type} `{PageMapperOk P}.
Implicit Types (s : vfs (kheap P)).

(** A new file takes a block at the end of the heap. *)
Lemma write_new s M F name data n :
  vfs_rep s M F -> vfs_name_valid (Some name) = true -> M !! c_str name = None -> (size M < VFS_MAX_FILES)%nat ->
  Forall is_byte (c_str data) -> tail_room (vfs_heap s) n -> Z.of_nat (length (c_str data)) + 41 <= n <= 65536 ->
  exists s' n', vfs_write_file (Some name) (Some data) s = (true, s') /\ vfs_rep s' (<[c_str name := c_str data]> M) F /\
    hp_pages (vfs_heap s') = hp_pages (vfs_heap s) /\
    tail_room (vfs_heap s') n' /\ n - Z.of_nat (length (c_str data)) - 25 <= n' <= n.
Proof.
  intros Hr Hv HM Hsz Hby Ht Hn. pose proof (str_len_eq data) as Hlen.
  destruct (write_cases s M F name data Hr Hv Hby ltac:(lia)) as (ok & s' & E & Hr' & Hok).
  rewrite Hlen, u32_small in Hok by lia.
  destruct (kh_malloc (Z.of_nat (length (c_str data)) + 1) (vfs_heap s)) as [buf h] eqn:Em.
  destruct (store_tail _ n (Z.of_nat (length (c_str data)) + 1) buf h (c_str data ++ [0]) Ht ltac:(lia) ltac:(lia) Em ltac:(rewrite length_app; cbn; lia)) as (Hbuf & Hpg & n' & Ht' & Hn').
  destruct ok; [|exfalso; destruct (Hok eq_refl) as [Hz|[_ Hfull]]; [by cbn in Hz|lia]].
  assert (Hheap : vfs_heap s' = store_bytes buf (c_str data ++ [0]) h).
  { revert E. unfold vfs_write_file. rewrite (vr_ready _ _ _ Hr), Hv, Hlen, (u32_small (_ + 1)), Em by lia. cbn [negb].
    rewrite (proj2 (Z.eqb_neq buf 0)) by done. rewrite <- Hlen, take_c_str.
    pose proof (find_file_cases s M F name Hr) as Hf. set (s1 := set_vfs_heap _ _).
    change (vfs_find_file name s1) with (vfs_find_file name s). change (vfs_find_free_slot s1) with (vfs_find_free_slot s).
    destruct (vfs_find_file name s) as [i|].
    - exfalso. destruct Hf as (Hi & Hlk & Hu & Hnm). destruct (vr_heap _ _ _ Hr) as (cap & _ & Hfiles).
      destruct (fo_content _ _ _ _ (Hfiles i _ Hlk Hu)) as (c & HM' & _). congruence.
    - destruct (vfs_find_free_slot s); [intros [_ <-]%pair_equal_spec; reflexivity|intros [Hc _]%pair_equal_spec; discriminate Hc]. }
  exists s', n'. rewrite Hheap, <- Hpg. split_and!; [done|done| |done|lia|lia].
  clear. revert h buf. induction (c_str data ++ [0]) as [|b bs IH]; intros h p; cbn [store_bytes]; [done|]. by rewrite IH.
Qed.

Lemma cleared_files_rep h fs F :
  length fs = VFS_MAX_FILES -> Forall (fun f => length (vf_name f) = VFS_NAME_MAX) fs -> kh_rep h F ->
  vfs_rep (Vfs h (map clear_file fs) true) ∅ F.
Proof.
  intros Hl Hn Hh. assert (Hun : forall i f, map clear_file fs !! i = Some f -> vf_used f = false).
  { intros i f Hi. rewrite list_lookup_fmap in Hi. destruct (fs !! i); [|done]. by injection Hi as <-. }
  split; cbn [vfs_ready files vfs_heap]; [done|by rewrite length_map| | | |].
  - apply Forall_fmap. apply (Forall_impl _ _ _ Hn). intros f Hf. cbn. by rewrite length_insert.
  - exists (fun _ => 0). split; [|intros i f Hi Hu; by rewrite (Hun i f Hi) in Hu].
    replace (blocks (fun _ => 0) (map clear_file fs)) with (@nil (Z * Z)); [done|].
    clear. induction fs as [|f fs IH]; [done|]. exact IH.
  - intros i j f g Hi _ Hu. by rewrite (Hun i f Hi) in Hu.
  - intros nm c. by rewrite lookup_empty.
Qed.

(** The three files. *)
Definition boot_files (hello : list Z) : gmap (list Z) (list Z) :=
  <[helloapp_name := c_str hello]> (<[hello_ping_name := c_str hello]> (<[welcome_name := welcome_text]> ∅)).

Lemma vfs_init_succeeds s hello :
  length (files s) = VFS_MAX_FILES -> Forall (fun f => length (vf_name f) = VFS_NAME_MAX) (files s) ->
  heap_rep (vfs_heap s) [(65520, true)] -> Forall is_byte (c_str hello) -> Z.of_nat (length (c_str hello)) <= 16384 ->
  exists s' n, vfs_init hello s = (true, s') /\ vfs_rep s' (boot_files hello) [] /\ tail_room (vfs_heap s') n /\ 32000 <= n <= 65536 /\
    hp_pages (vfs_heap s') = hp_pages (vfs_heap s).
Proof.
  intros Hl Hn Hh Hby Hlen. unfold vfs_init. set (s0 := Vfs _ _ _).
  assert (Hr0 : vfs_rep s0 ∅ []) by (apply cleared_files_rep; [done|done|by exists [(65520, true)]]).
  assert (Ht0 : tail_room (vfs_heap s0) 65520) by (exists []; by split).
  destruct (write_new s0 ∅ [] welcome_name welcome_text 65520 Hr0 eq_refl eq_refl ltac:(rewrite map_size_empty; unfold VFS_MAX_FILES; lia))
    as (s1 & n1 & -> & Hr1 & Hp1 & Ht1 & Hn1); [by repeat constructor|done|cbn; lia|]. cbn [negb].
  destruct (write_new s1 _ [] hello_ping_name hello n1 Hr1 eq_refl eq_refl) as (s2 & n2 & -> & Hr2 & Hp2 & Ht2 & Hn2);
    [rewrite map_size_insert_None, map_size_empty by done; unfold VFS_MAX_FILES; lia|done|done|cbn in Hn1; lia|]. cbn [negb].
  destruct (write_new s2 _ [] helloapp_name hello n2 Hr2 eq_refl) as (s3 & n3 & -> & Hr3 & Hp3 & Ht3 & Hn3);
    [done|rewrite !map_size_insert_None, map_size_empty by done; unfold VFS_MAX_FILES; lia|done|done|cbn in Hn1; lia|]. cbn [negb].
  exists s3, n3. split_and!; [done|done|done|cbn in Hn1; lia|lia|by rewrite Hp3, Hp2, Hp1].
Qed.

End Files.

(** ** Preparing the user-mode test *)

Section Prepare.
Context {A : Type} `{FrameAllocatorOk A}.
Implicit Types (p : paging_state A).

Lemma take_frame_spends p : fa_ok (pg_frames p) -> spends 1 (pg_frames p) (pg_frames (snd (take_frame p))).
Proof. intros Hok. pose proof (alloc_spends _ Hok) as Hs. unfold take_frame. by destruct (fa_alloc _). Qed.

Lemma prepare_spends (s : usermode A) :
  paging_ok (um_pages s) -> prepared s = false -> fst (usermode_prepare s) = true ->
  spends 4 (pg_frames (um_pages s)) (pg_frames (um_pages (snd (usermode_prepare s)))).
Proof.
  intros Hok Hp. unfold usermode_prepare. rewrite Hp. pose proof (held_nil _ Hok) as Hh0. destruct code_u32 as [Hc Hs].
  pose proof (take_frame_spends (um_pages s) (pk_frames _ Hok)) as Hs1.
  destruct (take_frame (um_pages s)) as [cf p1] eqn:E1. destruct (take_frame p1) as [sf p2] eqn:E2. cbn [snd] in Hs1.
  destruct (Z.eqb_spec cf 0) as [|Hcf]; [done|]. destruct (Z.eqb_spec sf 0) as [|Hsf]; [done|]. cbn [orb].
  destruct (take_held _ _ _ _ Hh0 E1) as [[? _]|(_ & _ & Hh1 & _ & Hu1 & _)]; [done|].
  pose proof (take_frame_spends p1 (pk_frames _ (he_ok _ _ Hh1))) as Hs2. rewrite E2 in Hs2. cbn [snd] in Hs2.
  destruct (take_held _ _ _ _ Hh1 E2) as [[? _]|(_ & _ & Hh2 & _ & Hu2 & _)]; [done|].
  pose proof (map_page_spends USER_CODE_VADDR cf user_map_flags p2 (pk_frames _ (he_ok _ _ Hh2))) as Hs3.
  destruct (map_held _ p2 USER_CODE_VADDR cf user_map_flags Hh2 Hc Hu1) as (ok & p3 & E3 & Hh3 & _). rewrite E3 in *. cbn [snd] in Hs3.
  destruct ok; cbn [negb]; [|done].
  pose proof (map_page_spends (USER_STACK_TOP - 4096) sf user_map_flags p3 (pk_frames _ (he_ok _ _ Hh3))) as Hs4.
  destruct (paging_map_page (USER_STACK_TOP - 4096) sf user_map_flags p3) as [ok p4]. cbn [snd] in Hs4.
  destruct ok; cbn [negb]; [|done]. intros _. cbn [snd um_pages pg_frames set_pg_mem].
  exact (spends_trans 3 1 _ _ _ (spends_trans 2 1 _ _ _ (spends_trans 1 1 _ _ _ Hs1 Hs2) Hs3) Hs4).
Qed.

(** Other page tables under the same heap. *)
Lemma heap_rep_pages (h : kheap (paging_state A)) l p :
  heap_rep h l -> paging_ok p -> fa_avail (pg_frames p) <= fa_avail (pg_frames (hp_pages h)) ->
  (forall v, KHEAP_START <= v < heap_end h -> paging_mapped p v = paging_mapped (hp_pages h) v) ->
  heap_rep (set_hp_pages h p) l.
Proof.
  intros [? ? ? ? ? ? ? ? ? ? _ Hmap Hroom] Hok Hav Hm. split; cbn; auto.
  - intros v Hv. etransitivity; [by apply Hm|]. by apply Hmap.
  - cbn in Hroom. lia.
Qed.

End Prepare.

(** ** Paging, heap and test program *)

Section Memory.
Context {A : Type} `{FrameReturnOk A}.

(** What must be true of the frames and the static directory before [paging_init]. *)
Record memory_ready (p : paging_state A) : Prop := {
  mr_frames : fa_ok (pg_frames p);
  mr_ready : fa_ready (pg_frames p) = true;
  mr_highest : 0 <= fa_highest (pg_frames p) <= 1073741824;
  mr_enough : (identity_end_of (fa_highest (pg_frames p)) + 4194303) / 4194304 + 36 <= fa_avail (pg_frames p);
  mr_room : fa_avail (pg_frames p) <= 196000;
  mr_dir : aligned (page_directory p) /\ 0 < page_directory p < 4294967296 /\ ~ fa_is_free (pg_frames p) (page_directory p);
}.

(** The frames that are left after booting, at least. *)
Definition spare (p : paging_state A) : Z :=
  fa_avail (pg_frames p) - ((identity_end_of (fa_highest (pg_frames p)) + 4194303) / 4194304 + 36).

Lemma identity_end_below h : 0 <= h <= 1073741824 -> identity_end_of h <= 1073741824.
Proof.
  intros Hh. unfold identity_end_of. rewrite align_up_4k_eq by lia.
  destruct (_ <? _); Z.div_mod_to_equations; lia.
Qed.

Lemma boot_memory (h : kheap (paging_state A)) :
  memory_ready (hp_pages h) ->
  exists h1 u cf sf, kheap_init (set_hp_pages h (paging_init (hp_pages h))) = (true, h1) /\ heap_rep h1 [(65520, true)] /\
    usermode_prepare (Usermode (hp_pages h1) false) = (true, u) /\ prepared u = true /\
    heap_rep (set_hp_pages h1 (um_pages u)) [(65520, true)] /\ prepared_ok (hp_pages h1) (um_pages u) cf sf /\
    quiet (page_directory (hp_pages h)) (hp_pages h1) /\ quiet (page_directory (hp_pages h)) (um_pages u) /\
    fa_ready (pg_frames (um_pages u)) = true /\ spare (hp_pages h) <= fa_avail (pg_frames (um_pages u)).
Proof.
  intros [Hok Hr Hh Hen Hroom (Ha & HD & Hnf)].
  destruct (paging_init_cases (hp_pages h)) as (a1 & m1 & E1 & Hok1 & Hd1 & Hl1 & Hav1 & Hr1 & Hab1); auto; [lia|lia|].
  pose proof (identity_end_below _ Hh) as Hie.
  pose proof (init_quiet (hp_pages h) Ha HD Hnf Hok Hr Hh ltac:(lia) Hie) as Hq1. rewrite E1 in Hq1 |- *. set (p1 := Paging a1 m1 _ _ _ _ _ _).
  assert (HD1 : paging_active_directory p1 = page_directory (hp_pages h)).
  { unfold paging_active_directory. cbn. by rewrite (proj2 (Z.eqb_neq _ 0)) by lia. }
  assert (Hp1 : paging_ok p1) by (split; [done|exact Hok1|rewrite HD1; exact Hd1]).
  assert (Hun : forall w, 1073741824 <= w < 4294967296 -> active_lookup p1 w = None).
  { intros w Hw. unfold active_lookup. rewrite HD1. cbn [pg_mem p1]. rewrite Hl1 by (unfold is_u32; lia).
    by rewrite (proj2 (Z.ltb_ge _ _)) by lia. }
  assert (Hun' : forall w, 1073741824 <= w < 4294967296 -> paging_mapped p1 w = false).
  { intros w Hw. unfold paging_mapped, mapped. fold (active_lookup p1 w). by rewrite Hun. }
  assert (Hq : 0 <= (identity_end_of (fa_highest (pg_frames (hp_pages h))) + 4194303) / 4194304).
  { apply Z.div_pos; [|lia]. destruct (identity_end_spec (fa_highest (pg_frames (hp_pages h)))) as (_ & Hr' & _); lia. }
  destruct (kheap_init_succeeds (set_hp_pages h p1)) as (h1 & E2 & Hrep & Hsp & HDh & Hm2); cbn [hp_pages set_hp_pages pg_frames p1] in *;
    [exact Hp1|exact Hr1|lia|unfold KHEAP_START; lia|intros w Hw; apply Hun'; unfold KHEAP_START in Hw; lia|].
  pose proof (kheap_init_quiet _ (set_hp_pages h p1) Hp1 Hq1) as Hq2. rewrite E2 in Hq2. cbn [snd] in Hq2.
  pose proof (hr_pages _ _ Hrep) as Hp2. change (paging_ok (hp_pages h1)) in Hp2. destruct Hsp as [Hav2 Hr2].
  assert (Hnone : forall w, 1073741824 <= w < KHEAP_START -> active_lookup (hp_pages h1) w = None).
  { intros w Hw. specialize (Hm2 w ltac:(lia)). rewrite Hun' in Hm2 by (unfold KHEAP_START in Hw; lia).
    unfold paging_mapped, mapped in Hm2. unfold active_lookup. by destruct (lookup_page _ _ w). }
  pose proof (usermode_prepare_succeeds (Usermode (hp_pages h1) false)) as Hsucc. cbn [um_pages] in Hsucc.
  specialize (Hsucc Hp2 ltac:(congruence) ltac:(lia) ltac:(apply Hnone; unfold USER_CODE_VADDR, KHEAP_START; lia)
    ltac:(apply Hnone; unfold USER_STACK_TOP, KHEAP_START; lia)).
  pose proof (prepare_spends (Usermode (hp_pages h1) false) Hp2 eq_refl Hsucc) as [Hav3 Hr3].
  pose proof (prepare_quiet _ (Usermode (hp_pages h1) false) Hp2 Hq2 eq_refl Hsucc) as Hq3.
  destruct (usermode_prepare (Usermode (hp_pages h1) false)) as [r u] eqn:E3. cbn [fst snd um_pages] in Hsucc, Hav3, Hr3, Hq3. subst r.
  destruct (usermode_prepare_cases (Usermode (hp_pages h1) false) true u Hp2 eq_refl E3) as (Hpu & cf & sf & Hpo).
  exists h1, u, cf, sf. split_and!; [exact E2|exact Hrep|done|done| |done|done|done|congruence|unfold spare; lia].
  apply heap_rep_pages; [exact Hrep|apply Hpo|lia|]. intros v Hv. unfold paging_mapped, mapped.
  fold (active_lookup (um_pages u) v) (active_lookup (hp_pages h1) v). rewrite (po_lookup _ _ _ _ Hpo); cbn [um_pages].
  - rewrite !(proj2 (Z.eqb_neq (page_of v) _)); [done|..]; unfold page_of, USER_CODE_VADDR, USER_STACK_TOP, KHEAP_START in *;
      Z.div_mod_to_equations; lia.
  - pose proof (rep_bound _ _ Hrep). rewrite (hr_end _ _ Hrep) in Hv. unfold is_u32, KHEAP_START in *. lia.
Qed.

End Memory.

(** ** Booting *)

Section Boot.
Context (I : image).
Implicit Types (s : system).

(** The state [pmm_init] leaves, the static arrays having their sizes. *)
Record boot_state s : Prop := {
  bs_memory : memory_ready (sy_pages s);
  bs_tasks : length (tasks (sy_sched s)) = MAX_TASKS /\ Forall (fun t => length (tk_name t) = 16%nat) (tasks (sy_sched s));
  bs_table : length (process_table (sy_kernel s)) = PROCESS_MAX /\
             Forall (fun e => length (pe_name e) = 16%nat) (process_table (sy_kernel s));
  bs_files : length (k_files (sy_kernel s)) = VFS_MAX_FILES /\
             Forall (fun f => length (vf_name f) = VFS_NAME_MAX) (k_files (sy_kernel s));
  bs_ipc : length (ipc_messages (m_ipc (sy_machine s))) = IPC_MAX_MESSAGES /\
           Forall (fun m => length (im_text m) = IPC_TEXT_MAX) (ipc_messages (m_ipc (sy_machine s)));
  bs_screen : screen_ok (sy_screen s);
  bs_unprepared : sy_prepared s = false;
  bs_hello : Forall is_byte (c_str (im_hello_ping I)) /\ Z.of_nat (length (c_str (im_hello_ping I))) <= 16384;
}.

(** Every component is ready, the kernel is the only process, its heap has a block of 32000
    bytes at its end, and at least [room] frames are left. *)
Record booted (room : Z) s : Prop := {
  bd_paging : paging_ok (sy_pages s);
  bd_tasks : states_ok (sy_sched s) /\ current s = 0%nat /\ none_runnable (sy_sched s);
  bd_table : table_ok (process_table (sy_kernel s)) (next_pid (sy_kernel s)) /\ process_count (sy_kernel s) = 1 /\
             process_current_pid (sy_kernel s) = 1;
  bd_files : vfs_rep (k_vfs (sy_kernel s)) (boot_files (im_hello_ping I)) [];
  bd_ipc : ipc_ok (m_ipc (sy_machine s)) /\ pending (m_ipc (sy_machine s)) = [];
  bd_screen : screen_ok (sy_screen s);
  bd_test : sy_prepared s = true;
  bd_tids : tids_ok (sy_kernel s) /\ no_zombie (sy_kernel s);
  bd_account : exists Q N, account (paging_kernel_dir_phys (sy_pages s)) Q N [] (sy_kernel s);
  bd_alone : forall i, (0 < i < MAX_TASKS)%nat -> state_at (tasks (sy_sched s)) i = TASK_UNUSED;
  bd_heap : exists n, tail_room (k_heap (sy_kernel s)) n /\ 32000 <= n <= 65536;
  bd_room : fa_ready (pg_frames (sy_pages s)) = true /\ room <= fa_avail (pg_frames (sy_pages s));
}.

Lemma init_states {H E : Type} (sc : sched H E) :
  length (tasks sc) = MAX_TASKS ->
  states_ok (scheduler_init sc) /\ current_task (scheduler_init sc) = 0%nat /\ none_runnable (scheduler_init sc) /\
  (forall t, state_at (tasks (scheduler_init sc)) t <> TASK_ZOMBIE) /\
  forall i, (0 < i < MAX_TASKS)%nat -> state_at (tasks (scheduler_init sc)) i = TASK_UNUSED.
Proof.
  intros Hl. set (ts := tasks (scheduler_init sc)).
  assert (Hst : forall i, (i < MAX_TASKS)%nat -> state_at ts i = if decide (0%nat = i) then TASK_RUNNING else TASK_UNUSED).
  { intros i Hi. unfold ts, scheduler_init. cbn [tasks].
    assert (Hl0 : (0 < length (map cleared (tasks sc)))%nat) by (rewrite length_map, Hl; apply zero_bound).
    rewrite state_at_alter by (by rewrite length_alter). destruct (decide (0%nat = i)) as [<-|Hne].
    - cbn [tk_state]. change (state_at (alter (fun t => set_tk_state t TASK_RUNNING) 0%nat (map cleared (tasks sc))) 0 = TASK_RUNNING).
      rewrite state_at_alter by done. by rewrite decide_True.
    - rewrite state_at_alter by done. rewrite decide_False by done. unfold state_at, task_at. rewrite list_lookup_fmap.
      by destruct (tasks sc !! i). }
  assert (Hlen : length ts = MAX_TASKS) by (unfold ts, scheduler_init; cbn; by rewrite !length_alter, length_map).
  split_and!; [|done| | |].
  - split; [done|unfold scheduler_init; cbn; by rewrite !length_alter, length_map|apply zero_bound| |].
    + intros i Hi. fold ts. rewrite Hst by done. cbn. destruct (decide (0%nat = i)); split; congruence.
    + left. fold ts. by rewrite Hst by apply zero_bound.
  - intros i Hi Hne. fold ts. rewrite Hst by done. cbn in Hne. by rewrite decide_False by congruence.
  - intros t. fold ts. destruct (decide (t < MAX_TASKS)%nat) as [Hlt|Hge]; [rewrite Hst by done; by destruct (decide _)|].
    unfold state_at, task_at. by rewrite lookup_ge_None_2 by lia.
  - intros i Hi. fold ts. rewrite Hst by lia. by rewrite decide_False by lia.
Qed.

Lemma init_messages (m : ipc_state) :
  length (ipc_messages m) = IPC_MAX_MESSAGES -> Forall (fun x => length (im_text x) = IPC_TEXT_MAX) (ipc_messages m) ->
  exists m', ipc_init m = (true, m') /\ ipc_ok m' /\ pending m' = [].
Proof.
  intros Hl Ht. eexists. split; [reflexivity|]. split.
  - split; cbn [ipc_ready ipc_messages]; [done|by rewrite length_map| |].
    + apply Forall_fmap. apply (Forall_impl _ _ _ Ht). intros x Hx. cbn. by rewrite length_insert.
    + apply Forall_fmap, Forall_true. intros x. done.
  - unfold pending. cbn [ipc_messages]. clear. induction (ipc_messages m) as [|x l IH]; [done|]. exact IH.
Qed.

Lemma init_processes (k : kernel pmm_state) :
  length (process_table k) = PROCESS_MAX -> Forall (fun e => length (pe_name e) = 16%nat) (process_table k) ->
  let k' := process_init k in
  table_ok (process_table k') (next_pid k') /\ process_count k' = 1 /\ (current_task (k_sched k) = 0%nat -> process_current_pid k' = 1).
Proof.
  intros Hl Hn k'. pose proof (init_table_ok k Hl Hn) as Hok. fold k' in Hok. split; [done|].
  destruct (process_table k) as [|e T] eqn:ET; [done|].
  assert (HT : exists e', process_table k' = e' :: map cleared_process T /\ pe_active e' = true /\ pe_tid e' = 0%nat /\ pe_pid e' = 1).
  { unfold k', process_init. rewrite ET. eexists. split; [reflexivity|]. done. }
  destruct HT as (e' & HT & Ha & Ht & Hp). split.
  - unfold process_count. change (process_ready k') with true. cbn [negb]. rewrite HT. cbn [active_entries List.filter]. rewrite Ha.
    replace (List.filter pe_active (map cleared_process T)) with (@nil process_entry_t); [done|].
    clear. induction T as [|x T IH]; [done|]. exact IH.
  - intros Hc. unfold process_current_pid. change (process_ready k') with true. change (current_task (k_sched k')) with (current_task (k_sched k)).
    assert (He : proc_at (process_table k') 0 = e') by (by rewrite HT).
    assert (Hf : process_find_by_tid (process_table k') 0 = Some 0%nat).
    { apply find_seq_Some. split_and!; [lia|unfold PROCESS_MAX; lia|by rewrite He, Ha, Ht|lia]. }
    rewrite Hc, Hf, He. exact Hp.
Qed.

(** Printing keeps a booted system booted. *)
Lemma booted_print r s v : booted r s -> screen_ok v -> booted r (set_screen s v).
Proof. intros [] Hv. by split. Qed.

Lemma booted_log r s v : booted r s -> booted r (set_serial s v).
Proof. intros []. by split. Qed.

Lemma print_booted r os : returns (booted r) (print os).
Proof. apply returns_modify. intros s Hb. apply booted_print; [done|]. apply puts_ok, (bd_screen _ _ Hb). Qed.

Lemma log_booted r os : returns (booted r) (log os).
Proof. apply returns_modify. intros s Hb. by apply booted_log. Qed.

Lemma say_booted r t : returns (booted r) (say t).
Proof. apply returns_bind; [apply print_booted|intros; apply log_booted]. Qed.

#[local] Hint Resolve print_booted log_booted say_booted : sysm.

Lemma report_booted r : returns (booted r) boot_report.
Proof. unfold boot_report. repeat first [apply returns_bind; [|intros]|apply returns_if|auto with sysm]. Qed.

(** The components, from paging to the file system. *)
Lemma components_booted s : boot_state s -> exists s', boot_components I s = (Done tt, s') /\ booted (spare (sy_pages s)) s'.
Proof.
  intros [Hmem [Htl Htn] [Hpl Hpn] [Hfl Hfn] [Hil Hit] Hscr Hup [Hby Hlen]].
  destruct (boot_memory (k_heap (sy_kernel s)) Hmem) as (h1 & u & cf & sf & Eh & Hrep1 & Eu & Hu & Hrep & Hpo & Hq1 & Hq2 & Hfr & Hroom').
  unfold boot_components. erewrite bind_done by reflexivity. set (s1 := set_pages s _).
  assert (E1 : init_heap s1 = (Done true, set_kernel s1 (set_k_heap (sy_kernel s1) h1))).
  { unfold init_heap, on_kernel. change (k_heap (sy_kernel s1)) with (set_hp_pages (k_heap (sy_kernel s)) (paging_init (hp_pages (k_heap (sy_kernel s))))).
    rewrite Eh. reflexivity. }
  rewrite (bind_done _ _ _ _ _ E1). cbn [negb]. erewrite bind_done by reflexivity. set (s2 := set_kernel s1 _).
  erewrite bind_done by reflexivity. set (s3 := set_kernel s2 _). erewrite bind_done by reflexivity. set (s4 := set_kernel s3 _).
  destruct (init_messages (m_ipc (sy_machine s)) Hil Hit) as (q & Eq & Hq & Hpend).
  assert (E5 : init_ipc s4 = (Done true, set_machine s4 (set_m_ipc (sy_machine s4) q))).
  { unfold init_ipc, on_ipc, on_machine. change (m_ipc (sy_machine s4)) with (m_ipc (sy_machine s)). rewrite Eq. reflexivity. }
  rewrite (bind_done _ _ _ _ _ E5). cbn [negb]. erewrite bind_done by reflexivity. set (s5 := set_machine s4 _).
  assert (E6 : prepare s5 = (Done true, set_prepared (set_pages s5 (um_pages u)) true)).
  { unfold prepare. change (sy_pages s5) with (hp_pages h1). change (sy_prepared s5) with (sy_prepared s). rewrite Hup, Eu, Hu. reflexivity. }
  rewrite (bind_done _ _ _ _ _ E6). set (s6 := set_prepared _ true). cbv iota.
  destruct (init_states (k_sched (sy_kernel s2))) as (Hst & Hcur & Hnone & Hnz & Hun); [exact Htl|].
  destruct (init_processes (sy_kernel s3)) as (Htab & Hcount & Hpid); [exact Hpl|exact Hpn|]. specialize (Hpid Hcur).
  pose proof (init_tids_ok (sy_kernel s3) Hpl Hpn ltac:(exact (st_length _ Hst))) as Htd.
  destruct (init_users (page_directory (hp_pages (k_heap (sy_kernel s)))) (sy_kernel s3) (pk_enabled _ (hr_pages _ _ Hrep1)) (qu_kernel _ _ Hq1)) as [Hus Hker].
  pose proof (hr_end _ _ Hrep) as Hend. pose proof (hr_room _ _ Hrep) as Hroom. rewrite <- Hend in Hroom.
  assert (Hlow : KHEAP_START <= heap_end (set_hp_pages h1 (um_pages u))) by (rewrite Hend; pose proof (rep_bound _ _ Hrep); lia).
  assert (Hw6 : hworld (page_directory (hp_pages (k_heap (sy_kernel s)))) (page_directory (hp_pages (k_heap (sy_kernel s)))) [] []
                  (fa_is_free (pg_frames (um_pages u))) (fa_avail (pg_frames (um_pages u))) (vfs_heap (k_vfs (sy_kernel s6)))).
  { split; [exact (quiet_world _ (um_pages u) (hr_pages _ _ Hrep) Hq2)|exact (qu_active _ _ Hq2)|exact Hlow|exact Hroom]. }
  apply (vfs_init_world _ _ _ _ _ _ (im_hello_ping I)) in Hw6.
  destruct (vfs_init_succeeds (k_vfs (sy_kernel s6)) (im_hello_ping I)) as (v & n & Ev & Hv & Ht & Hn & Hpg); [exact Hfl|exact Hfn|exact Hrep|done|done|].
  rewrite Ev in Hw6. cbn [snd] in Hw6. 
  assert (Hsc : forall t, exists w, say t s6 = (Done tt, set_serial (set_screen s6 w) (sy_serial (snd (say t s6)))) /\ screen_ok w).
  { intros t. eexists. split; [reflexivity|]. apply puts_ok. exact Hscr. }
  destruct (Hsc "usermode: prepared"%string) as (w & E7 & Hw). rewrite (bind_done _ _ _ _ _ E7). set (s7 := set_serial _ _).
  assert (E8 : init_vfs I s7 = (Done true, set_kernel s7 (set_k_vfs (sy_kernel s7) v))).
  { unfold init_vfs, on_kernel. change (k_vfs (sy_kernel s7)) with (k_vfs (sy_kernel s6)). rewrite Ev. reflexivity. }
  rewrite (bind_done _ _ _ _ _ E8). cbn [negb]. eexists. split; [reflexivity|]. set (s8 := set_kernel s7 _).
  assert (Hkv : k_vfs (sy_kernel s8) = v) by (destruct v; reflexivity).
  assert (Hkh : k_heap (sy_kernel s8) = vfs_heap v) by done.
  assert (Hpv : sy_pages s8 = um_pages u) by (change (sy_pages s8) with (hp_pages (vfs_heap v)); rewrite Hpg; done).
  split.
  - destruct Ht as (l & Hl & _). exact (hr_pages _ _ Hl).
  - split_and!; [apply (same_states (scheduler_init (k_sched (sy_kernel s2)))); [exact Hst|reflexivity..]|exact Hcur|exact Hnone].
  - split_and!; [exact Htab|exact Hcount|exact Hpid].
  - rewrite Hkv. exact Hv.
  - split; [exact Hq|exact Hpend].
  - exact Hw.
  - reflexivity.
  - split; [|exact Hnz]. destruct Htd as [Ta Tl Ti Tv]. split; [exact Ta|exact Tl|exact Ti|exact Tv].
  - assert (HK : paging_kernel_dir_phys (sy_pages s8) = page_directory (hp_pages (k_heap (sy_kernel s)))).
    { destruct Hw6 as (Q & N & W & _). apply (wo_kernel _ _ _ _ _ _ (hw_world _ _ _ _ _ _ _ W)). }
    rewrite HK. apply (boot_account (page_directory (hp_pages (k_heap (sy_kernel s)))) (fa_is_free (pg_frames (um_pages u)))
      (fa_avail (pg_frames (um_pages u))) (sy_kernel s8)); [|exact Hus|exact Hker|exact Hw6].
    split; [exact Htab|apply (same_states (scheduler_init (k_sched (sy_kernel s2)))); [exact Hst|reflexivity..]|reflexivity].
  - exact Hun.
  - rewrite Hkh. exists n. split; [exact Ht|exact Hn].
  - rewrite Hpv. split; [exact Hfr|exact Hroom'].
Qed.

Lemma boot_booted s : boot_state s -> exists s', (boot_components I;; boot_report) s = (Done tt, s') /\ booted (spare (sy_pages s)) s'.
Proof.
  intros Hs. destruct (components_booted s Hs) as (s1 & E & Hb). rewrite (bind_done _ _ _ _ _ E).
  destruct (report_booted _ s1 Hb) as ([] & s2 & E2 & Hb2). by exists s2.
Qed.

(** C2. Booting succeeds and leaves every component in order. Given a frame allocator in its invariant on a machine
    with at most 1 GiB of memory, at least 36 free frames more than the identity map needs and at most 196000 free
    frames, the static arrays at their sizes and a built-in program of at most 16384 bytes, [kernel_main] runs from
    [paging_init] to the self-test without stopping: paging is enabled with well-formed tables, the kernel is the only
    process and the only task, the file system holds exactly the three built-in files on a well-formed heap with a free
    block of at least 32000 bytes at its end, no message is pending, the user-mode test is prepared, every frame is
    accounted for with no user process, and all the free frames but those of the identity map and 36 are still free. *)
Theorem boot_establishes s :
  boot_state s -> exists s', (boot_components I;; boot_report) s = (Done tt, s') /\ booted (spare (sy_pages s)) s'.
Proof. apply boot_booted. Qed.

End Boot.

(** ** Witness: a machine with half a megabyte of memory *)

Definition demo_image : image := Image 1048576 0 0 (fun _ => 0) 8 (txt "MARSHEX CD 81").
Definition demo_layout : layout :=
  Layout 1052672 1056768 1060864 1064960 1069056 1200000 1200128 1200192 1200256 1200320 1200448 1250000 1260000 0 0.
Definition demo_mbi : multiboot_info_t := MultibootInfo 0 0 0 0 0 0 0 [] 0 0.
Definition fresh_pages : paging_state pmm_state := Paging demo_frames ∅ 4096 false 0 0 0 0.
Definition fresh_kernel : kernel pmm_state :=
  Kernel (Sched (Kheap fresh_pages ∅ 0 0 0 0 false) 0 (replicate 16 (Task 0 0 0 0 TASK_UNUSED (replicate 16 0))) false 0 0 false)
         (replicate 64 (VfsFile (replicate 32 0) 0 0 false)) false
         (replicate 32 (Proc 0 0 0 0 0 0 0 false false (replicate 16 0))) 0 false.
Definition fresh_system : system :=
  System (Machine fresh_kernel (IpcState (replicate 64 (IpcMessage 0 0 (replicate 64 0) false)) false) (Timer 0 100) 0)
         (Screen (replicate 2000 0) 0 0) (Serial true []) false demo_gdt (replicate 256 (IdtEntry 0 0 0 0 0)) []
         (Keyboard false false 0 0 (replicate 256 0)) ∅ [].

Lemma fresh_boot_state : boot_state demo_image fresh_system.
Proof.
  destruct demo_frames_ok as (Hok & Hinit & Hhi & Hav & Hfree). split.
  - assert (Hh : fa_highest (pg_frames fresh_pages) = 1572864) 
      by (change (pmm_highest_address demo_frames = 1572864); unfold pmm_highest_address; rewrite Hinit; exact Hhi).
    change (memory_ready fresh_pages). split; rewrite ?Hh; [exact Hok|exact Hinit|lia| | |].
    + change (fa_avail (pg_frames fresh_pages)) with (pmm_avail demo_frames). rewrite Hav. vm_compute. discriminate.
    + change (fa_avail (pg_frames fresh_pages)) with (pmm_avail demo_frames). rewrite Hav. lia.
    + change (page_directory fresh_pages) with 4096. split_and!; [reflexivity|lia|lia|].
      change (~ frame_free demo_frames 4096). intros Hf. apply Hfree in Hf. lia.
  - split; [done|]. apply Forall_replicate. done.
  - split; [done|]. apply Forall_replicate. done.
  - split; [done|]. apply Forall_replicate. done.
  - split; [done|]. apply Forall_replicate. done.
  - split; cbn [sy_screen fresh_system cells cursor_row cursor_col]; [by rewrite length_replicate|unfold VGA_HEIGHT; lia|lia].
  - done.
  - split; [|vm_compute; discriminate].
    vm_compute. repeat (apply Forall_cons; split; [split; [discriminate|reflexivity]|]). apply Forall_nil. exact I.
Qed.

Lemma boot_establishes_witness :
  exists s', (boot_components demo_image;; boot_report) fresh_system = (Done tt, s') /\ process_current_pid (sy_kernel s') = 1.
Proof.
  destruct (boot_establishes demo_image fresh_system fresh_boot_state) as (s' & E & Hb). exists s'. split; [exact E|].
  apply (bd_table _ _ _ Hb).
Defined.

(** A booted system, for the witnesses of the commands. *)
Lemma demo_booted : exists s, booted demo_image (spare fresh_pages) s.
Proof. destruct (components_booted demo_image fresh_system fresh_boot_state) as (s & _ & Hb). by exists s. Qed.
