(* ===== verification/SpawnSpec.v ===== *)
(** The life of a user process when there is memory for it: it is created, it is entered by
    the next switch, and when it ends it is found by the next reaping.

    [spawn_succeeds] shows that [process_spawn_common] creates a user process whenever the
    table and the scheduler have a slot, four frames are left and the heap has room for
    the image buffer and the stack; [yield_enters] that the processor then runs in the
    address space of the process, and [exit_leaves] that the process is reaped. *)
From Stdlib Require Import ZArith Lia Bool List.
From stdpp Require Import base gmap list numbers option.
From S2P Require Import Prelude CStr Interfaces Pmm Paging Kheap Scheduler Vfs Loader Process Reserve Tasks Space World Isolation BootSpec.
#[local] Open Scope Z_scope.

Section Spawn.
Context {A : Type} `{FrameReturnOk A}.
Context (bootstrap user_task_entry : Z).
Implicit Types (k : kernel A) (h : kheap (paging_state A)).

(** The heap of [k] is [h], with the page tables of the moment. *)
Definition heap_is h k : Prop := k_heap k = set_hp_pages h (k_pages k).

Lemma heap_is_self k : heap_is (k_heap k) k.
Proof. unfold heap_is, k_pages. by destruct (k_heap k). Qed.

Lemma heap_is_pages h k p : heap_is h k -> heap_is h (set_k_pages k p).
Proof. unfold heap_is. intros Hh. change (set_hp_pages (k_heap k) p = set_hp_pages h p). by rewrite Hh. Qed.

Lemma heap_is_new h k p : heap_is h (set_k_heap k (set_hp_pages h p)).
Proof. done. Qed.

Lemma kfree_set_pages a h p : kfree a (set_hp_pages h p) = set_hp_pages (kfree a h) p.
Proof. unfold kfree. cbn. by repeat case_match. Qed.

(** A buffer that fits is taken and given back: the blocks are the same. *)
Lemma buffer_roundtrip h l n size :
  heap_rep h (l ++ [(n, true)]) -> Forall (fun b => snd b = false) l -> 0 < size -> size + 40 <= n <= 65536 ->
  exists a h1 h2, a <> 0 /\ (forall p, kh_malloc size (set_hp_pages h p) = (a, set_hp_pages h1 p)) /\
    (forall p, kh_free a (set_hp_pages h1 p) = set_hp_pages h2 p) /\ heap_rep h2 (l ++ [(n, true)]).
Proof.
  intros Hr Hl Hs Hn. assert (Hsz : 0 < size <= 2147483647) by lia. destruct (align_up_8_eq size Hsz) as (Hge & Hw & Hwm).
  destruct (first_fit_tail (align_up_8 size) n l KHEAP_START Hl ltac:(lia)) as [b Hf].
  destruct (kmalloc_fits_pages h _ size b _ Hr Hsz Hf) as (h1 & Hr1 & _ & E).
  destruct (kmalloc_fits h _ size b _ Hr Hsz Hf) as (_ & _ & _ & _ & _ & Hb).
  destruct (first_fit_split _ _ _ _ _ Hf) as (l1 & sz & l2 & El & Eb & Hle & El').
  exists (b + HEADER), h1, (kfree (b + HEADER) h1). split; [unfold KHEAP_START, HEADER in *; lia|]. split; [|split].
  - intros p. cbn [kh_malloc kheap_kernel_heap]. by rewrite E.
  - intros p. apply kfree_set_pages.
  - rewrite <- (take_mark_merge _ (align_up_8 size) b _ (hr_sizes _ _ Hr) (hr_coalesced _ _ Hr) Hf).
    apply (kfree_rep h1 _ _ (taken_size (align_up_8 size) sz)); [done|].
    rewrite El', !live_app, take_block_live, Eb. set_solver.
Qed.

(** Building an address space without a file: it succeeds, and the heap is as before. *)
Lemma build_heap cr3 prog name k h l n :
  can_build cr3 k -> no_image name k -> fa_ready (pg_frames (k_pages k)) = true -> 3 <= fa_avail (pg_frames (k_pages k)) ->
  heap_is h k -> heap_rep h (l ++ [(n, true)]) -> Forall (fun b => snd b = false) l -> PROCESS_USER_IMAGE_MAX + 40 <= n <= 65536 ->
  exists cf sf e k' h', process_build_user_image cr3 prog name k = (Some (cf, sf, e), k') /\
    heap_is h' k' /\ heap_rep h' (l ++ [(n, true)]).
Proof.
  intros Hcb Hno Hr Hav Hh Hrep Hl Hn. unfold process_build_user_image. destruct user_pages_u32 as [Hc Hs].
  set (k1 := unmap_page (PROCESS_USER_STACK_TOP - 4096) _).
  destruct (build_start cr3 k k1 Hcb eq_refl) as (Hh1 & _ & Hfr & _ & Hl1).
  assert (Hf1 : k_files k1 = k_files k /\ k_vfs_ready k1 = k_vfs_ready k) by done.
  assert (Hk1 : heap_is h k1) by (unfold k1; by do 3 apply heap_is_pages). clearbody k1. rewrite <- Hfr in Hr, Hav.
  destruct (take_map_two [] (k_pages k1) PROCESS_USER_CODE_VADDR (PROCESS_USER_STACK_TOP - 4096) USER_FLAGS)
    as (cf & sf & p1 & p2 & p3 & p4 & E1 & E2 & Hcf & Hsf & E3 & E4); [done..|by rewrite Hl1|by rewrite Hl1|].
  rewrite alloc_frame_take, E1, alloc_frame_take. change (k_pages (set_k_pages k1 p1)) with p1. rewrite E2.
  rewrite (proj2 (Z.eqb_neq cf 0)), (proj2 (Z.eqb_neq sf 0)) by done. cbn [orb].
  unfold map_page. change (k_pages (set_k_pages (set_k_pages k1 p1) p2)) with p2. rewrite E3. cbn [negb].
  change (k_pages (set_k_pages (set_k_pages (set_k_pages k1 p1) p2) p3)) with p3. rewrite E4. cbn [negb].
  match goal with |- context [kh_malloc ?n (k_heap ?k6)] =>
    assert (Hf6 : k_files k6 = k_files k /\ k_vfs_ready k6 = k_vfs_ready k) by exact Hf1;
    assert (Hh6 : heap_is h k6) by (do 5 apply heap_is_pages; exact Hk1);
    revert Hf6 Hh6; generalize k6; intros k5 [Hf5 Hv5] Hh5 end.
  destruct (buffer_roundtrip h l n PROCESS_USER_IMAGE_MAX Hrep Hl ltac:(done) Hn) as (a & h1 & h2 & Ha & Em & Ef & Hrep2).
  rewrite Hh5, Em, (proj2 (Z.eqb_neq a 0)) by done. rewrite load_image_none by (by apply (no_image_same name k)).
  change (k_heap (set_k_heap k5 (set_hp_pages h1 (k_pages k5)))) with (set_hp_pages h1 (k_pages k5)). rewrite Ef. cbn [Z.ltb Z.compare Z.eqb].
  eexists cf, sf, _, _, h2. split; [reflexivity|]. split; [|exact Hrep2]. unfold emit_builtin, on_user_page, switch_directory. do 2 apply heap_is_pages.
  apply heap_is_new.
Qed.

(** A new task gets its stack from the end of the heap. *)
Lemma create_succeeds k h n entry arg name tid :
  heap_is h k -> tail_room h n -> TASK_STACK_SIZE + 40 <= n <= 65536 -> scheduler_started (k_sched k) = true -> entry <> 0 ->
  List.find (slot_free (k_sched k)) (seq 1 (MAX_TASKS - 1)) = Some tid ->
  exists s', scheduler_create_task bootstrap entry arg name (k_sched k) = (Some tid, s').
Proof.
  intros Hh (l & Hr & Hl) Hn Hst He Hf. unfold scheduler_create_task. rewrite Hst, (proj2 (Z.eqb_neq entry 0)), Hf by done. cbn [negb orb].
  destruct (buffer_roundtrip h l n TASK_STACK_SIZE Hr Hl ltac:(done) Hn) as (a & h1 & _ & Ha & Em & _).
  change (sc_heap (k_sched k)) with (k_heap k). rewrite Hh, Em, (proj2 (Z.eqb_neq a 0)) by done.
  destruct (push_frame _ _ _) as [sp h']. by eexists.
Qed.

(** What a kernel needs to create a user process. *)
Record can_spawn k : Prop := {
  cs_room : exists n, tail_room (k_heap k) n /\ PROCESS_USER_IMAGE_MAX + 40 <= n <= 65536;
  cs_frames : fa_ready (pg_frames (k_pages k)) = true /\ 4 <= fa_avail (pg_frames (k_pages k));
  cs_slot : is_Some (process_find_free_slot (process_table k));
  cs_task : is_Some (List.find (slot_free (k_sched k)) (seq 1 (MAX_TASKS - 1)));
}.

(** A process [e] has been created for the task [tid], which is runnable. *)
Record new_process k k' (slot tid : nat) (e : process_entry_t) : Prop := {
  np_slot : process_find_free_slot (process_table k) = Some slot;
  np_table : process_table k' = <[slot := e]> (process_table k);
  np_user : is_user e = true;
  np_tid : pe_tid e = tid;
  np_free : List.find (slot_free (k_sched k)) (seq 1 (MAX_TASKS - 1)) = Some tid;
  np_tasks : exists t, tk_state t = TASK_RUNNABLE /\ tasks (k_sched k') = alter (fun _ => t) tid (tasks (k_sched k));
  np_cpu : same_cpu k k';
}.

(** With the resources there, [process_spawn_common] creates the process. *)
Theorem spawn_succeeds K Q N L name entry arg k :
  account K Q N L k -> can_spawn k -> no_image name k -> user_task_entry <> 0 ->
  exists slot tid e k', snd (process_spawn_common bootstrap user_task_entry name entry arg false k) = k' /\ new_process k k' slot tid e.
Proof.
  intros Hac [(n & (l & Hrep & Hl) & Hn) [Hr Hav] [slot Hslot] [tid Htid]] Hno Hute.
  pose proof Hac as [Hok HL (c & W & Hown) Hker]. pose proof (hw_world _ _ _ _ _ _ _ W) as Wp. change (hp_pages (k_heap k)) with (k_pages k) in Wp.
  unfold process_spawn_common. rewrite (ko_ready _ Hok), Hslot. cbn [negb andb].
  destruct (paging_clone_kernel_directory (k_pages k)) as [D p] eqn:Ec.
  assert (Hfr : D <> 0 /\ fa_ready (pg_frames p) = true /\ 3 <= fa_avail (pg_frames p)).
  { revert Ec. unfold paging_clone_kernel_directory. rewrite (wo_enabled _ _ _ _ _ _ Wp). cbn [negb].
    pose proof (fa_alloc_avail _ (wo_alloc _ _ _ _ _ _ Wp) Hr ltac:(lia)) as Hnz. pose proof (fa_alloc_ready (pg_frames (k_pages k))) as Hr'.
    destruct (fa_alloc (pg_frames (k_pages k))) as [f a] eqn:E. cbn [fst snd] in *. rewrite (proj2 (Z.eqb_neq f 0)) by done.
    destruct (fa_alloc_some _ _ _ (wo_alloc _ _ _ _ _ _ Wp) E Hnz) as (_ & _ & _ & _ & _ & Ha). intros [= <- <-]. cbn. split_and!; [done|congruence|lia]. }
  destruct Hfr as (HD & Hr1 & Hav1). rewrite (proj2 (Z.eqb_neq D 0)) by done.
  destruct (world_clone K [] (space_of <$> L) Q N (k_pages k) D p Wp Ec) as [[-> _]|(_ & Wc & Hcur)]; [done|].
  set (k1 := set_k_pages k p). set (prog := if arg =? 0 then _ else _).
  assert (Hcb : can_build D k1).
  { pose proof (dk_range _ _ _ (wo_dirs _ _ _ _ _ _ Wc _ (wo_active _ _ _ _ _ _ Wc))).
    split; [apply (wo_enabled _ _ _ _ _ _ Wc)|apply (wo_alloc _ _ _ _ _ _ Wc)| | |].
    - apply (wo_dirs _ _ _ _ _ _ Wc). right. left.
    - change (k_pages k1) with p. split; [lia|]. apply (dk_aligned _ _ _ (wo_dirs _ _ _ _ _ _ Wc _ (wo_active _ _ _ _ _ _ Wc))).
    - change (heap_end (k_heap k1)) with (heap_end (k_heap k)). pose proof (hw_low _ _ _ _ _ _ _ W). pose proof (hw_room _ _ _ _ _ _ _ W).
      pose proof (wo_worth _ _ _ _ _ _ Wp). pose proof (fa_avail_nonneg _ (wo_alloc _ _ _ _ _ _ Wp)). unfold is_u32, KHEAP_START in *. lia. }
  destruct (build_heap D prog name k1 (k_heap k) l n) as (cf & sf & ue & k2 & h2 & Eb & Hh2 & Hrep2);
    [exact Hcb|by apply (no_image_same name k)|exact Hr1|exact Hav1|apply heap_is_pages, heap_is_self|exact Hrep|exact Hl|exact Hn|].
  rewrite Eb. pose proof (build_image_table _ _ _ _ _ _ Eb) as [Hst _]. assert (Hst2 : same_table k k2) by (transitivity k1; [apply set_pages_table|exact Hst]).
  destruct Hst2 as (HT & HN & _ & HK & HC).
  destruct (create_succeeds k2 h2 n user_task_entry (Z.of_nat slot + 1) name tid) as [s' Es]; try done;
    [by exists l|unfold TASK_STACK_SIZE, PROCESS_USER_IMAGE_MAX in *; lia|by rewrite (proj2 HC), (st_started _ (ko_states _ Hok))|by rewrite (slot_free_ext (k_sched k))|].
  unfold spawn_task. rewrite Es. pose proof (create_task_cpu bootstrap user_task_entry (Z.of_nat slot + 1) name k2) as Hcpu. rewrite Es in Hcpu. cbn [snd] in Hcpu.
  apply create_task_tasks in Es as (_ & Hf & t & Hrun & Htasks). cbn [process_table next_pid set_k_sched].
  destruct (process_alloc_pid _ _) as [pid next]. cbn [snd]. eexists slot, tid, _, _. split; [reflexivity|].
  split; [done|cbn; by rewrite HT|reflexivity|reflexivity|done| |].
  - exists t. split; [done|]. cbn. by rewrite Htasks, HK.
  - transitivity k2; [exact HC|exact Hcpu].
Qed.

(** *** Running and ending *)

Lemma pick_only (s : sched (kheap (paging_state A)) Z) tid :
  scheduler_started s = true -> current_task s = 0%nat -> (0 < tid < MAX_TASKS)%nat -> state_at (tasks s) tid = TASK_RUNNABLE ->
  (forall j, (0 < j < MAX_TASKS)%nat -> j <> tid -> state_at (tasks s) j <> TASK_RUNNABLE) -> scheduler_pick_next s = Some tid.
Proof.
  intros Hs Hc Ht Hr Ho. unfold scheduler_pick_next. rewrite Hs, Hc. cbn [negb].
  assert (Hm : forall j, (j < MAX_TASKS)%nat -> ((0 + j) mod MAX_TASKS)%nat = j) by (intros j Hj; by apply Nat.mod_small).
  replace (List.find _ _) with (Some tid); [by rewrite Hm by lia|]. symmetry. apply find_seq_Some. rewrite Hm by lia.
  unfold MAX_TASKS in *. split_and!; [lia|lia|by apply bool_decide_eq_true|]. intros j Hj. apply bool_decide_eq_false.
  rewrite Hm by lia. apply Ho; lia.
Qed.

(** The switch to the task of a user process enters the address space of that process. *)
Lemma yield_enters K Q N L k i sp :
  account K Q N L k -> tids_ok k -> (i < PROCESS_MAX)%nat -> let e := proc_at (process_table k) i in
  is_user e = true -> scheduler_pick_next (k_sched k) = Some (pe_tid e) ->
  let k' := k_yield sp k in
  user_mode k' /\ current_task (k_sched k') = pe_tid e /\ process_table k' = process_table k /\
  paging_active_directory (k_pages k') = pe_cr3 e.
Proof.
  intros Hac Htd Hi e Hus Hp. pose proof Hac as [Hok HL (c & W & Hown) Hker]. pose proof Hus as [Ha Hk]%andb_true_iff.
  assert (Hin : e ∈ user_entries (process_table k)).
  { apply user_entries_elem. split; [|exact Hus]. apply (list_elem_of_lookup_2 _ i), (proc_at_lookup _ (next_pid k)); [apply Hok|done]. }
  assert (HD : pe_cr3 e ∈ us_dir <$> (space_of <$> L)).
  { rewrite HL in Hin. apply list_elem_of_fmap in Hin as (x & -> & Hx). apply list_elem_of_fmap. exists (space_of x). split; [done|by apply list_elem_of_fmap_2]. }
  pose proof (hw_world _ _ _ _ _ _ _ W) as Wp. pose proof (dir_owned [] _ _ HD) as Howned. destruct (wo_given _ _ _ _ _ _ Wp _ Howned) as (_ & Hr & _).
  assert (HDK : pe_cr3 e <> K) by (intros Heq; apply (wo_apart _ _ _ _ _ _ Wp); by rewrite <- Heq).
  unfold k_yield, on_sched. set (act := fun tid _ => _). pose proof (yield_activates sp act (k_sched k)) as Hact.
  assert (Hy : exists s r, scheduler_yield act sp (k_sched k) = (s, Some r) /\ current_task s = pe_tid e).
  { unfold scheduler_yield. rewrite (st_started _ (ko_states _ Hok)), Hp. cbn [negb]. eexists _, _. split; [reflexivity|]. by destruct (bool_decide _). }
  destruct Hy as (s & r & Ey & Hc). cbv beta in Hact. rewrite Ey in Hact |- *. destruct Hact as [Hh Henv].
  assert (Htarget : sc_env s = pe_cr3 e).
  { rewrite Henv, Hc. unfold act, activation_target. rewrite Nat2Z.id. pose proof (find_own_tid k i Htd Hi Ha) as Hf. fold e in Hf. rewrite Hf. fold e. by rewrite (proj2 (Z.eqb_neq _ 0)) by lia. }
  rewrite Htarget. assert (Ws : kworld K c [] (space_of <$> L) Q N (set_k_sched k s)) by (unfold kworld, k_heap; cbn; by rewrite Hh).
  pose proof (kw_switch _ _ _ _ _ _ _ (pe_cr3 e) Ws ltac:(right; exact HD)) as W2. cbv zeta. split_and!; [|done|done|].
  - unfold user_mode. rewrite (kw_previous _ _ _ _ _ _ _ W2). unfold paging_kernel_directory_phys. by rewrite (kw_kernel _ _ _ _ _ _ _ W2).
  - pose proof (world_active _ _ _ _ _ _ (hw_world _ _ _ _ _ _ _ W2)) as Hwa. etransitivity; [exact Hwa|]. apply (hw_current _ _ _ _ _ _ _ W2).
Qed.

(** A process whose task exits is one that [process_reap] takes away. *)
Lemma exit_ends k i sp :
  kernel_ok k -> let e := proc_at (process_table k) i in
  is_user e = true -> pe_tid e <> 0%nat -> current_task (k_sched k) = pe_tid e ->
  let k' := k_exit sp k in process_table k' = process_table k /\ reapable e k' = true.
Proof.
  intros Hok e Hus Ht Hc. pose proof Hus as [Ha _]%andb_true_iff. pose proof (ko_states _ Hok) as [Hst Hlen Hcur _ _].
  unfold k_exit, on_sched. set (act := fun tid _ => _).
  assert (Hx : exists s r, scheduler_exit_current act sp (k_sched k) = (s, r) /\ state_at (tasks s) (pe_tid e) = TASK_ZOMBIE).
  { unfold scheduler_exit_current, scheduler_task_exit. rewrite Hst, (proj2 (Nat.eqb_neq (current_task _) 0)) by congruence. cbn [negb].
    set (s1 := alter_task _ _ _). assert (Hz : state_at (tasks s1) (pe_tid e) = TASK_ZOMBIE).
    { unfold s1. cbn [tasks alter_task set_tasks]. rewrite state_at_alter by (rewrite Hlen; exact Hcur). by rewrite decide_True by done. }
    assert (Hlen1 : length (tasks s1) = MAX_TASKS) by (unfold s1; cbn; by rewrite length_alter).
    assert (Hnext : forall n, scheduler_pick_next s1 = Some n -> (n < MAX_TASKS)%nat /\ n <> pe_tid e).
    { intros n. unfold scheduler_pick_next. destruct (negb _); [done|]. destruct (List.find _ _) as [j|] eqn:Ef.
      - apply find_seq_Some in Ef as (_ & Hr%bool_decide_eq_true & _). pose proof (Nat.mod_upper_bound (current_task s1 + j) MAX_TASKS ltac:(done)) as Hb.
        revert Hr Hb. generalize ((current_task s1 + j) mod MAX_TASKS)%nat. intros q Hr Hb [= <-]. split; [exact Hb|congruence].
      - destruct (_ && _); [|done]. intros [= <-]. split; [apply zero_bound|done]. }
    destruct (scheduler_pick_next s1) as [n|]; [|eexists _, _; split; [reflexivity|exact Hz]].
    destruct (Hnext n eq_refl) as [Hn Hne]. eexists _, _. split; [reflexivity|].
    cbn [tasks alter_task set_tasks set_current activate current_task].
    rewrite state_at_alter by (rewrite length_alter, Hlen1; exact Hcur). change (current_task s1) with (current_task (k_sched k)). rewrite Hc, decide_True by done.
    cbn [tk_state set_tk_sp]. change (state_at (alter (fun t => set_tk_state t TASK_RUNNING) n (tasks s1)) (pe_tid e) = TASK_ZOMBIE).
    rewrite state_at_alter by lia. by rewrite decide_False. }
  destruct Hx as (s & r & -> & Hz).
  assert (Hre : forall k', tasks (k_sched k') = tasks s -> reapable e k' = true).
  { intros k' HK. unfold reapable, scheduler_task_is_zombie. rewrite Ha, (proj2 (Nat.eqb_neq _ 0)), HK by done. cbn [negb andb].
    assert (Hlt : (pe_tid e < MAX_TASKS)%nat) by (rewrite <- Hc; exact Hcur). rewrite (proj2 (Nat.leb_gt _ _)) by lia. by apply bool_decide_eq_true. }
  destruct r; split; try done; by apply Hre.
Qed.

End Spawn.
