(* ===== verification/IsolationSpec.v ===== *)
(** Isolation of user processes on the whole machine.

    The steps of the machine are the operations of the kernel, the stores of user code
    and the system calls of user processes. The theorems state what one process can do
    to another and to the kernel, and that a process that ends gives back every frame
    it owned. *)
From Stdlib Require Import ZArith Lia Bool List.
From stdpp Require Import base gmap list numbers option.
From S2P Require Import Prelude CStr Interfaces Pmm Paging Kheap Scheduler Ipc Vfs Loader Process Reserve Space World Tasks Isolation Exec Syscall.
From S2P Require Import BootWorld System Boot BootSpec SpawnSpec.
#[local] Open Scope Z_scope.

(** ** Reaping all processes *)

Section Reaping.
Context {A : Type} `{FrameReturnOk A}.
Implicit Types (k : kernel A).

(** Reaping one entry does not touch the others. *)
Lemma reap_other i j k :
  tids_ok k -> (i < PROCESS_MAX)%nat -> (j < PROCESS_MAX)%nat -> i <> j ->
  proc_at (process_table (reap_entry i k)) j = proc_at (process_table k) j /\
  reapable (proc_at (process_table k) j) (reap_entry i k) = reapable (proc_at (process_table k) j) k.
Proof.
  intros [Htab Hlen Hinj _] Hi Hj Hne. destruct (reap_entry_table i k) as [->|(Ha & Ht & HT & HN & _ & HK & _)]; [done|].
  split; [rewrite HT, proc_at_insert by (rewrite (to_length _ _ Htab); lia); by rewrite decide_False|].
  unfold reapable. destruct (pe_active (proc_at (process_table k) j)) eqn:Haj; [|done]. cbn [andb].
  assert (Htid : pe_tid (proc_at (process_table k) i) <> pe_tid (proc_at (process_table k) j)) by (intros Heq; by apply Hinj in Heq).
  f_equal. unfold scheduler_task_is_zombie, state_at, task_at. by rewrite HK, list_lookup_alter_ne.
Qed.

Definition reaped k : list process_entry_t := List.filter (fun e => reapable e k && is_user e) (process_table k).

Lemma reap_list K Q N l : forall L k,
  NoDup l -> (forall i, i ∈ l -> (i < PROCESS_MAX)%nat) -> tids_ok k -> account K Q N L k ->
  exists Z L', L ≡ₚ Z ++ L' /\ Z.*1 = List.filter (fun e => reapable e k && is_user e) (map (proc_at (process_table k)) l) /\
    account K Q N L' (fold_left (fun k i => reap_entry i k) l k).
Proof.
  induction l as [|i l IH]; intros L k Hn Hl Htd Hac; [by exists [], L|]. apply list.NoDup_cons in Hn as [Hi Hn].
  destruct (reap_account K Q N L i k (Hl i ltac:(left)) Hac) as (Z1 & L1 & HL1 & HZ1 & Hac1).
  destruct (IH L1 (reap_entry i k) Hn) as (Z2 & L2 & HL2 & HZ2 & Hac2); [intros j Hj; apply Hl; by right|apply reap_tids_ok; [apply Hl; left|done]|done|].
  exists (Z1 ++ Z2), L2. split; [by rewrite HL1, HL2, app_assoc|]. split; [|done].
  rewrite fmap_app, HZ1, HZ2. cbn [map List.filter].
  assert (Hrest : List.filter (fun e => reapable e (reap_entry i k) && is_user e) (map (proc_at (process_table (reap_entry i k))) l) =
                  List.filter (fun e => reapable e k && is_user e) (map (proc_at (process_table k)) l)).
  { assert (Hall : forall j, j ∈ l -> (j < PROCESS_MAX)%nat /\ i <> j) by (intros j Hj; split; [apply Hl; by right|by intros ->]).
    revert Hall. generalize l. clear -Htd Hl. intros l'. specialize (Hl i ltac:(left)). induction l' as [|j l' IH]; intros Hall; [done|].
    cbn [map List.filter]. destruct (Hall j ltac:(left)) as [Hj Hne]. destruct (reap_other i j k Htd Hl Hj Hne) as [-> ->].
    rewrite IH; [done|]. intros x Hx. apply Hall. by right. }
  rewrite Hrest. by destruct (reapable _ _ && is_user _).
Qed.

Lemma table_list k : length (process_table k) = PROCESS_MAX -> map (proc_at (process_table k)) (seq 0 PROCESS_MAX) = process_table k.
Proof.
  intros Hl. rewrite <- Hl. apply list_eq. intros i. rewrite list_lookup_fmap. destruct (decide (i < length (process_table k))%nat) as [Hi|Hi].
  - rewrite lookup_seq_lt by done. cbn. unfold proc_at. by destruct (lookup_lt_is_Some_2 _ _ Hi) as [e ->].
  - rewrite (lookup_ge_None_2 (process_table k)), lookup_seq_ge by lia. done.
Qed.

Lemma reap_all K Q N L k :
  tids_ok k -> account K Q N L k ->
  exists Z L', L ≡ₚ Z ++ L' /\ Z.*1 = reaped k /\ account K Q N L' (process_reap k).
Proof.
  intros Htd Hac. unfold process_reap. rewrite (ko_ready _ (ac_ok _ _ _ _ _ Hac)). cbn [negb]. unfold reaped.
  destruct (reap_list K Q N (seq 0 PROCESS_MAX) L k) as (Z & L' & HL & HZ & Hac'); [apply NoDup_seq| |done|done|].
  { intros i Hi. apply elem_of_seq in Hi. lia. }
  exists Z, L'. rewrite (table_list k (to_length _ _ (td_table _ Htd))) in HZ. done.
Qed.

(** What the account says about the free frames. *)
Lemma account_free K Q N L k g :
  account K Q N L k -> fa_is_free (pg_frames (k_pages k)) g <-> Q g /\ g ∉ owned [] (space_of <$> L).
Proof.
  intros Hac. destruct (ac_world _ _ _ _ _ Hac) as (c & W & _). pose proof (hw_world _ _ _ _ _ _ _ W) as Wp.
  rewrite (wo_pool _ _ _ _ _ _ Wp g). change (hp_pages (k_heap k)) with (k_pages k) in *. split; [|tauto].
  intros Hf. split; [by left|]. intros Hin. apply (fa_given_used _ _ (proj1 (wo_given _ _ _ _ _ _ Wp g Hin))). done.
Qed.

Lemma account_avail K Q N L k : account K Q N L k -> fa_avail (pg_frames (k_pages k)) = N - 4 * Z.of_nat (length L).
Proof.
  intros Hac. destruct (ac_world _ _ _ _ _ Hac) as (c & W & _). pose proof (wo_worth _ _ _ _ _ _ (hw_world _ _ _ _ _ _ _ W)) as Hw.
  change (hp_pages (k_heap k)) with (k_pages k) in Hw.
  assert (Hlen : length (owned [] (space_of <$> L)) = (4 * length L)%nat).
  { clear. unfold owned. induction L as [|x L IH]; [done|]. change (length (us_frames (space_of x) ++ ((space_of <$> L) ≫= us_frames)) = (4 * S (length L))%nat).
    rewrite length_app. cbn [app] in IH. rewrite IH. cbn. lia. }
  rewrite Hlen in Hw. lia.
Qed.

(** The page table of a process. *)
Definition user_table k (e : process_entry_t) : Z := table_of (entry (pg_mem (k_pages k)) (pe_cr3 e) USER_PD).

Lemma account_table K Q N L k e t :
  account K Q N L k -> (e, t) ∈ L -> t = user_table k e.
Proof.
  intros Hac Hin. destruct (ac_world _ _ _ _ _ Hac) as (c & W & _). pose proof (hw_world _ _ _ _ _ _ _ W) as Wp.
  assert (Hs : space_of (e, t) ∈ space_of <$> L) by (by apply list_elem_of_fmap_2).
  destruct (wo_private _ _ _ _ _ _ Wp _ Hs) as [Hp _]. unfold user_table. change (hp_pages (k_heap k)) with (k_pages k) in *.
  cbn [us_dir space_of fst snd] in Hp. rewrite Hp.
  destruct (wo_given _ _ _ _ _ _ Wp t) as (_ & HTr & HTa); [by apply (table_owned _ _ (space_of (e, t)))|].
  by destruct (make_entry t 7) as (_ & -> & _); [|unfold is_u32; lia|lia|].
Qed.

(** The effect of [process_reap] on an accounted kernel. *)
Lemma reap_returns K Q N L k :
  account K Q N L k -> tids_ok k ->
  let k' := process_reap k in
  user_entries (process_table k) ≡ₚ reaped k ++ user_entries (process_table k') /\
  (forall g, fa_is_free (pg_frames (k_pages k')) g <->
     fa_is_free (pg_frames (k_pages k)) g \/ exists e, e ∈ reaped k /\ g ∈ user_table k e :: own_frames e) /\
  fa_avail (pg_frames (k_pages k')) = fa_avail (pg_frames (k_pages k)) + 4 * Z.of_nat (length (reaped k)).
Proof.
  intros Hac Htd k'. destruct (reap_all K Q N L k Htd Hac) as (Z & L' & HL & HZ & Hac'). fold k' in Hac'. split; [|split].
  - by rewrite (ac_users _ _ _ _ _ Hac), (ac_users _ _ _ _ _ Hac'), HL, fmap_app, HZ.
  - intros g. rewrite (account_free K Q N L' k' g Hac'), (account_free K Q N L k g Hac).
    assert (Hown : g ∈ owned [] (space_of <$> L) <-> g ∈ owned [] (space_of <$> Z) \/ g ∈ owned [] (space_of <$> L')).
    { unfold owned. cbn [app]. by rewrite HL, fmap_app, bind_app, elem_of_app. }
    assert (HZo : g ∈ owned [] (space_of <$> Z) <-> exists e, e ∈ reaped k /\ g ∈ user_table k e :: own_frames e).
    { rewrite owned_elem, <- HZ. split.
      - intros [Hg%not_elem_of_nil|(u & Hu & Hg)]; [done|]. apply list_elem_of_fmap in Hu as ([e t] & -> & Hin).
        exists e. split; [apply list_elem_of_fmap; by exists (e, t)|].
        rewrite <- (account_table K Q N L k e t Hac) by (rewrite HL; apply elem_of_app; by left). revert Hg. unfold us_frames, own_frames. cbn. set_solver.
      - intros (e & He & Hg). right. apply list_elem_of_fmap in He as ([e' t] & -> & Hin). cbn [fst] in Hg. exists (space_of (e', t)). split; [by apply list_elem_of_fmap_2|].
        rewrite <- (account_table K Q N L k e' t Hac) in Hg by (rewrite HL; apply elem_of_app; by left). revert Hg. unfold us_frames, own_frames. cbn. set_solver. }
    assert (Hdis : g ∈ owned [] (space_of <$> Z) -> Q g /\ g ∉ owned [] (space_of <$> L')).
    { destruct (ac_world _ _ _ _ _ Hac) as (c & W & _). pose proof (hw_world _ _ _ _ _ _ _ W) as Wp. intros Hg.
      split; [apply (wo_pool _ _ _ _ _ _ Wp); right; apply Hown; by left|]. pose proof (wo_nodup _ _ _ _ _ _ Wp) as Hn.
      unfold owned in Hn, Hg |- *. cbn [app] in *. rewrite HL, fmap_app, bind_app in Hn. apply list.NoDup_app in Hn as (_ & Hn & _). by apply Hn. }
    rewrite <- HZo, Hown. destruct (decide (g ∈ owned [] (space_of <$> Z))); tauto.
  - rewrite (account_avail K Q N L' k' Hac'), (account_avail K Q N L k Hac), HL, length_app, <- HZ, length_fmap. lia.
Qed.

End Reaping.

(** ** The machine *)

Section Machine.
Context {A : Type} `{FrameReturnOk A}.
Context (bootstrap user_task_entry app_counter app_writer : Z).
Implicit Types (m : machine A) (k : kernel A).

(** A store of user code: the processor translates the address. *)
Definition user_store (v b : Z) k : kernel A :=
  match paging_translate v (k_pages k) with
  | Some a => set_k_pages k (set_pg_mem (k_pages k) (wr8 (pg_mem (k_pages k)) a b))
  | None => k
  end.

(** What user code does: a store to a page it may access, or a system call. *)
Inductive user_step m : machine A -> Prop :=
| UStore v b :
    is_u32 v -> user_page (pg_mem (k_pages (m_kernel m))) (paging_active_directory (k_pages (m_kernel m))) v ->
    user_step m (set_m_kernel m (user_store v b (m_kernel m)))
| UCall frame sp :
    (forall n, is_u32 (nth n frame 0)) ->
    user_step m (snd (syscall_dispatch bootstrap user_task_entry app_counter app_writer frame sp m)).

Inductive m_step m : machine A -> Prop :=
| MKernel k : k_step bootstrap user_task_entry no_zombie (m_kernel m) k -> m_step m (set_m_kernel m k)
| MUser m' : user_mode (m_kernel m) -> user_step m m' -> m_step m m'.

(** What the step of process [e] did to the state outside the kernel's memory: the clock
    is as it was, the ping counter may have been raised by one, and the messages are as
    they were, or one was sent in the name of [e], or one addressed to [e] was taken. *)
Definition own_messages (e : process_entry_t) m m' : Prop :=
  m_timer m' = m_timer m /\
  (user_ping_count m' = user_ping_count m \/ user_ping_count m' = user_ping_count m ⊞ 1) /\
  (m_ipc m' = m_ipc m \/
   (exists to_pid text, m_ipc m' = snd (ipc_send (pe_pid e) to_pid text (m_ipc m))) \/
   (exists out n, m_ipc m' = snd (ipc_recv (pe_pid e) out n (m_ipc m)))).

Lemma own_messages_same e m m' :
  m_timer m' = m_timer m -> user_ping_count m' = user_ping_count m -> m_ipc m' = m_ipc m -> own_messages e m m'.
Proof. intros Ht Hp Hi. split; [done|]. split; by left. Qed.

Lemma user_step_messages m m' i :
  user_runs (m_kernel m) i -> user_step m m' -> own_messages (proc_at (process_table (m_kernel m)) i) m m'.
Proof.
  intros Hu. set (e := proc_at _ _).
  assert (Hpid : process_current_pid (m_kernel m) = pe_pid e).
  { destruct Hu as [Hr Hf _ _]. unfold process_current_pid. by rewrite Hr, Hf. }
  destruct 1 as [v b _ _|frame sp _]; [by apply own_messages_same|].
  assert (Hsame : own_messages e m m) by (by apply own_messages_same).
  assert (Hker : forall k, own_messages e m (set_m_kernel m k)) by (intros k; by apply own_messages_same).
  unfold syscall_dispatch. destruct (negb _); [exact Hsame|].
  do 7 (destruct (_ =? _); [exact Hsame|]).
  destruct (_ =? _); [unfold sys_vfs_read, fill_buffer; by repeat case_match|].
  destruct (_ =? _); [unfold sys_vfs_write; by repeat case_match|].
  do 3 (destruct (_ =? _); [exact Hsame|]).
  destruct (_ =? _); [unfold sys_exec_spawn; by repeat case_match|].
  destruct (_ =? _); [unfold sys_exec_name_at, fill_buffer; by repeat case_match|].
  destruct (_ =? _).
  { unfold sys_ipc_send. destruct (get_string _ _ _ _) as [msg|]; [|exact Hsame]. destruct (_ =? _); [exact Hsame|]. rewrite Hpid.
    destruct (ipc_send _ _ _ _) as [ok s] eqn:E. split; [done|]. split; [by left|]. right. left. exists (nth 4 frame 0), (Some msg). by rewrite E. }
  destruct (_ =? _).
  { unfold sys_ipc_recv. destruct (negb _); [exact Hsame|]. rewrite Hpid. destruct (ipc_recv _ _ _ _) as [[[r out] from] s] eqn:E.
    split; [done|]. split; [by left|]. right. right. eexists _, _. by rewrite E. }
  destruct (_ =? _); [exact Hsame|]. destruct (_ =? _); [split; [done|]; split; [by right|by left]|].
  destruct (_ =? _); [exact Hsame|]. destruct (_ =? _); [apply Hker|exact Hsame].
Qed.

(** The process that runs, as the system calls see it, and what it reaches. *)
Lemma user_mode_runs K Q N L k :
  tids_ok k -> account K Q N L k -> user_mode k ->
  exists i, user_runs k i /\ let e := proc_at (process_table k) i in
    e ∈ user_entries (process_table k) /\
    forall v, is_u32 v -> active_user (k_pages k) v -> pd_index_of v = USER_PD /\
      exists f a, f ∈ [pe_user_code_frame e; pe_user_stack_frame e] /\ paging_translate v (k_pages k) = Some a /\ f <= a < f + 4096.
Proof.
  intros Htd Hac Hu. destruct (user_target K Q N L k Hac Hu) as (e & He & Ht & Hreach). pose proof (td_table _ Htd) as Htab.
  apply user_entries_elem in He as [He Hus]. pose proof Hus as [Ha Hk]%andb_true_iff. apply negb_true_iff in Hk.
  pose proof He as [i Hi]%list_elem_of_lookup. assert (Hlt : (i < PROCESS_MAX)%nat) by (rewrite <- (to_length _ _ Htab); by apply lookup_lt_Some in Hi).
  assert (Hat : proc_at (process_table k) i = e) by (unfold proc_at; by rewrite Hi).
  exists i. rewrite Hat. split; [split|].
  - apply (ko_ready _ (ac_ok _ _ _ _ _ Hac)).
  - rewrite <- Ht, <- Hat. apply find_own_tid; [done|done|by rewrite Hat].
  - by rewrite Hat.
  - destruct (to_entry _ _ Htab i Hlt) as (_ & -> & _); [by rewrite Hat|]. by rewrite Hat, Hk.
  - cbv zeta. split; [by apply user_entries_elem|exact Hreach].
Qed.

(** The heap is out of reach of user code. *)
Lemma user_heap_private K Q N L k :
  account K Q N L k -> user_mode k -> paging_is_enabled (k_pages k) = true /\ heap_private k.
Proof.
  intros Hac Hu. destruct (ac_world _ _ _ _ _ Hac) as (c & W & _). split; [apply (wo_enabled _ _ _ _ _ _ (hw_world _ _ _ _ _ _ _ W))|].
  destruct (user_target K Q N L k Hac Hu) as (e & _ & _ & Hreach). intros v Hh Hp. unfold in_heap in Hh. bool_simp.
  pose proof (hw_room _ _ _ _ _ _ _ W). pose proof (wo_worth _ _ _ _ _ _ (hw_world _ _ _ _ _ _ _ W)).
  pose proof (fa_avail_nonneg _ (wo_alloc _ _ _ _ _ _ (hw_world _ _ _ _ _ _ _ W))). unfold KHEAP_START in *.
  assert (Hv : is_u32 v) by (unfold is_u32; lia). destruct (Hreach v Hv Hp) as [Hpd _]. revert Hpd. apply heap_page_pd. unfold KHEAP_START, is_u32 in *. lia.
Qed.

(** What a step of user code does to the kernel: it writes into the pages of the process
    that runs, or ends that process. *)
Lemma user_step_effect K Q N L m m' :
  tids_ok (m_kernel m) -> account K Q N L (m_kernel m) -> user_mode (m_kernel m) -> user_step m m' ->
  exists i, user_runs (m_kernel m) i /\ proc_at (process_table (m_kernel m)) i ∈ user_entries (process_table (m_kernel m)) /\
    (writes_own (proc_at (process_table (m_kernel m)) i) (m_kernel m) (m_kernel m') \/ exists sp, m_kernel m' = k_exit sp (m_kernel m)).
Proof.
  intros Htd Hac Hu Hstep. destruct (user_mode_runs K Q N L _ Htd Hac Hu) as (i & Hi & He & Hreach). exists i. split; [done|]. split; [done|].
  destruct (user_heap_private K Q N L _ Hac Hu) as [Hen Hpriv]. destruct Hstep as [v b Hv Hp|frame sp Hf].
  - left. cbn [m_kernel set_m_kernel]. destruct (Hreach v Hv Hp) as (_ & f & a & Hfe & Ht & Ha). unfold user_store. rewrite Ht.
    eexists. split; [done|]. intros x Hx. exists f. split; [done|]. destruct (decide (a = x)) as [<-|Hne]; [done|]. by rewrite rd8_wr8_ne in Hx.
  - destruct (syscall_dispatch bootstrap user_task_entry app_counter app_writer frame sp m) as [r m2] eqn:E. cbn [snd].
    destruct (user_call_confined bootstrap user_task_entry app_counter app_writer frame sp m r m2 i) as (_ & Hc & Hx); try done; [apply Hf|].
    destruct (decide (nth 7 frame 0 = SYSCALL_PROCESS_EXIT)) as [Hexit|Hne]; [right; exists sp; by rewrite Hx|left].
    destruct (Hc Hne) as [(mm & -> & Hm) _]. exists mm. split; [done|]. intros a Ha. destruct (Hm a Ha) as (u & Hur & Hu32 & Hpg & Ht).
    pose proof (Hf 6%nat) as H6. assert (Hu' : is_u32 u) by (unfold is_u32 in *; lia).
    destruct (Hreach u Hu' Hpg) as (_ & f & a' & Hfe & Ht' & Ha'). exists f. split; [done|]. congruence.
Qed.

(** Every step keeps the account and the task of each process. *)
Lemma m_step_kept K Q N m m' :
  m_step m m' -> tids_ok (m_kernel m) /\ accounted K Q N (m_kernel m) -> tids_ok (m_kernel m') /\ accounted K Q N (m_kernel m').
Proof.
  intros Hstep [Htd Hac].
  assert (Hk : forall k', k_step bootstrap user_task_entry no_zombie (m_kernel m) k' -> tids_ok k' /\ accounted K Q N k').
  { intros k' Hs. split; [by apply (step_tids_ok bootstrap user_task_entry (m_kernel m))|by apply (step_accounted bootstrap user_task_entry no_zombie K Q N (m_kernel m))]. }
  destruct Hstep as [k' Hs|m' Hu Hs]; [by apply Hk|]. destruct Hac as (Q' & N' & L & Hac & HQ & HN).
  destruct (user_step_effect K Q' N' L m m' Htd Hac Hu Hs) as (i & _ & He & [Hw|[sp ->]]); [|apply Hk, KExit].
  split; [|exists Q', N', L; split; [by apply (writes_own_account K Q' N' L _ (m_kernel m) _ Hac He)|done]].
  destruct Hw as (mm & -> & _). apply (tids_ok_task_step (m_kernel m)); done.
Qed.

Lemma run_kept K Q N m0 m :
  rtc m_step m0 m -> tids_ok (m_kernel m0) /\ accounted K Q N (m_kernel m0) -> tids_ok (m_kernel m) /\ accounted K Q N (m_kernel m).
Proof. induction 1 as [|m1 m2 m3 Hs _ IH]; [done|]. intros Hk. apply IH. by apply (m_step_kept K Q N m1 m2 Hs). Qed.

End Machine.

(** ** More than 1 GiB of memory *)

Section Sharing.
Context {A : Type} `{FrameAllocatorOk A}.

(** Two directories [K] and [D] share the table at 1 GiB, and [D] is active: the old page
    is taken out of both, and the new one is put into both. *)
Lemma shared_unmap (q : paging_state A) D K e :
  paging_is_enabled q = true -> paging_active_directory q = D -> aligned D -> aligned K ->
  entry (pg_mem q) D USER_PD = e -> entry (pg_mem q) K USER_PD = e -> present e = true -> table_of e <> D -> table_of e <> K ->
  exists m, snd (paging_unmap_page PROCESS_USER_CODE_VADDR q) = set_pg_mem q m /\ present (entry m (table_of e) 0) = false /\
    entry m D USER_PD = e /\ entry m K USER_PD = e.
Proof.
  intros Hen Ha HDa HKa HeD HeK Hp HTD HTK. unfold paging_unmap_page. rewrite Hen, Ha.
  change (Z.land PROCESS_USER_CODE_VADDR 4095 =? 0) with true. cbn [negb].
  change (pd_index_of PROCESS_USER_CODE_VADDR) with USER_PD. change (pt_index_of PROCESS_USER_CODE_VADDR) with 0. rewrite HeD.
  unfold present in Hp. rewrite Hp. cbn [negb]. destruct (has_flag (entry (pg_mem q) (table_of e) 0) PAGING_FLAG_PRESENT) eqn:Ep; cbn [negb snd].
  - exists (set_entry (pg_mem q) (table_of e) 0 0). split; [done|]. rewrite entry_set_eq by (unfold is_u32; lia). pose proof (table_aligned (pg_mem q) D USER_PD) as HTa. rewrite HeD in HTa.
    rewrite !entry_set_ne by (assumption || (unfold USER_PD; lia) || (left; assumption)). done.
  - exists (pg_mem q). split; [by destruct q|]. done.
Qed.

Lemma shared_map (q : paging_state A) D K e f :
  paging_is_enabled q = true -> fa_ok (pg_frames q) -> paging_active_directory q = D -> aligned D -> aligned K -> D <> K ->
  entry (pg_mem q) D USER_PD = e -> entry (pg_mem q) K USER_PD = e -> present e = true -> table_of e <> D -> table_of e <> K ->
  present (entry (pg_mem q) (table_of e) 0) = false -> is_u32 f -> aligned f -> is_u32 e ->
  exists p, paging_map_page PROCESS_USER_CODE_VADDR f USER_FLAGS q = (true, p) /\
    lookup_page (pg_mem p) K PROCESS_USER_CODE_VADDR = Some (pte_for f USER_FLAGS).
Proof.
  intros Hen Hok Ha HDa HKa HDK HeD HeK Hp HTD HTK Hz Hf Hfa Heu. pose proof (table_aligned (pg_mem q) D USER_PD) as HTa. rewrite HeD in HTa.
  rewrite map_exact by done. rewrite Ha. cbv zeta.
  change (pd_index_of PROCESS_USER_CODE_VADDR) with USER_PD. change (pt_index_of PROCESS_USER_CODE_VADDR) with 0.
  rewrite ensure_exact by done. cbv zeta. rewrite HeD, Hp.
  change (has_flag (Z.lor USER_FLAGS PAGING_FLAG_PRESENT) PAGING_FLAG_USER) with true. cbv iota. cbn [pg_mem set_pg_mem negb].
  rewrite entry_set_eq, table_of_lor_user by (by apply lor_u32).
  rewrite (entry_set_ne (pg_mem q) D USER_PD _ (table_of e) 0), Hz by (assumption || (unfold USER_PD; lia) || (left; by apply not_eq_sym)).
  eexists. split; [reflexivity|]. cbn [pg_mem set_pg_mem]. unfold lookup_page.
  change (pd_index_of PROCESS_USER_CODE_VADDR) with USER_PD. change (pt_index_of PROCESS_USER_CODE_VADDR) with 0.
  rewrite !(entry_set_ne _ _ _ _ K USER_PD), HeK by (assumption || (unfold USER_PD; lia) || (left; assumption)).
  fold (present e). rewrite Hp. destruct (pte_for_spec f USER_FLAGS Hf Hfa) as (Hpu & Hpp & _).
  rewrite entry_set_eq by done. fold (present (pte_for f USER_FLAGS)). by rewrite Hpp.
Qed.

(** The bound on the memory is needed. With more than 1 GiB, the identity mapping has a
    table at 1 GiB that is not for user code; a clone shares it, and what
    [process_build_user_image] maps at the address of the code page appears in the
    kernel's directory, and in that of every other process, in the place of the page that
    was there. *)
Theorem clone_shares_high_memory (p : paging_state A) D p1 f :
  let K := paging_kernel_dir_phys p in
  paging_ok p -> paging_active_directory p = K ->
  present (entry (pg_mem p) K USER_PD) = true -> has_flag (entry (pg_mem p) K USER_PD) PAGING_FLAG_USER = false ->
  paging_clone_kernel_directory p = (D, p1) -> D <> 0 -> is_u32 f -> aligned f ->
  let p2 := snd (paging_unmap_page PROCESS_USER_CODE_VADDR (paging_switch_directory D p1)) in
  exists p3, paging_map_page PROCESS_USER_CODE_VADDR f USER_FLAGS p2 = (true, p3) /\
    lookup_page (pg_mem p3) K PROCESS_USER_CODE_VADDR = Some (pte_for f USER_FLAGS).
Proof.
  intros K [Hen Hok Hd] Ha Hpres Husr Ec HD Hf Hfa. rewrite Ha in Hd. unfold paging_clone_kernel_directory in Ec. rewrite Hen in Ec. cbn [negb] in Ec.
  destruct (fa_alloc (pg_frames p)) as [f0 a] eqn:E. destruct (Z.eqb_spec f0 0) as [->|Hne]; injection Ec as <- <-; [done|].
  destruct (clone_cases p f0 a Hok Hd E Hne) as (Hok1 & Hd1 & _ & Hnew & Hold). cbn [pg_mem set_pg_frames paging_kernel_dir_phys]. fold K in Hd1, Hnew, Hold |- *.
  assert (HKf : f0 <> K) by (destruct (fa_alloc_some _ _ _ Hok E Hne) as (_ & Hfree & _); intros ->; by apply (dk_own _ _ _ Hd)).
  assert (HU : 0 <= USER_PD < 1024) by (unfold USER_PD; lia). specialize (Hnew USER_PD HU). unfold clone_pde in Hnew. rewrite Husr in Hnew.
  specialize (Hold K USER_PD (dk_aligned _ _ _ Hd) ltac:(congruence) HU).
  pose proof (dk_tables _ _ _ Hd1 USER_PD HU) as HTD. rewrite Hnew in HTD. specialize (HTD Hpres) as [_ HTD].
  destruct (dk_tables _ _ _ Hd USER_PD HU Hpres) as [_ HTK]. pose proof (entry_range (pg_mem p) K USER_PD) as Heu.
  pose proof (dk_aligned _ _ _ Hd) as HKa. pose proof (dk_aligned _ _ _ Hd1) as HDa.
  revert Hpres Hnew Hold HTD HTK Heu. clear Hd1 Husr. generalize (entry (pg_mem p) K USER_PD) (clone_entries (pg_mem p) f0 K). intros e m1 Hpres HeD HeK HTD HTK Heu.
  assert (Hsw : paging_switch_directory f0 (set_pg_mem (set_pg_frames p a) m1) = Paging a m1 (page_directory p) true K f0 f0 (pg_cr0 p)).
  { unfold paging_switch_directory. cbn [paging_is_enabled set_pg_mem set_pg_frames]. rewrite Hen, (proj2 (Z.eqb_neq f0 0)), offset_mask by done.
    unfold aligned in HDa. by rewrite HDa. }
  cbv zeta. rewrite Hsw. set (q := Paging a m1 _ _ _ _ _ _).
  assert (Hact : forall m, paging_active_directory (set_pg_mem q m) = f0) by (intros m; unfold paging_active_directory; cbn; by rewrite (proj2 (Z.eqb_neq f0 0))).
  destruct (shared_unmap q f0 K e eq_refl (Hact m1) HDa HKa HeD HeK Hpres HTD HTK) as (m2 & -> & Hz & HeD2 & HeK2).
  by apply (shared_map (set_pg_mem q m2) f0 K e f).
Qed.

End Sharing.

(** ** From boot *)

Section Boot.
Context (I : image) (bootstrap user_task_entry app_counter app_writer : Z).
Implicit Types (s : system) (m : machine pmm_state).

(** The machine after the set-up of [kernel_main], and whatever follows. *)
Definition reachable s m : Prop :=
  exists s', (boot_components I;; boot_report) s = (Done tt, s') /\
    rtc (m_step bootstrap user_task_entry app_counter app_writer) (sy_machine s') m.

Lemma reachable_kept s m :
  boot_state I s -> reachable s m ->
  tids_ok (m_kernel m) /\ exists K Q N L, account K Q N L (m_kernel m).
Proof.
  intros Hb (s' & E & Hrun). destruct (boot_booted I s Hb) as (s1 & E1 & Hbd). rewrite E in E1. injection E1 as <-.
  destruct (bd_account _ _ _ Hbd) as (Q & N & Hac).
  destruct (run_kept bootstrap user_task_entry app_counter app_writer (paging_kernel_dir_phys (sy_pages s')) Q N _ _ Hrun) as [Htd (Q' & N' & L & Hac' & _)].
  { split; [apply (bd_tids _ _ _ Hbd)|exact (account_accounted _ _ _ _ _ Hac)]. }
  split; [done|]. by exists (paging_kernel_dir_phys (sy_pages s')), Q', N', L.
Qed.

(** C3. Processes are isolated. After booting a machine within the bounds of [boot_state]
    (at most 1 GiB of memory, 36 frames more than the identity map needs and at most
    196000 free ones), in every state reached by the eight operations of [k_step]
    (creating a process or a task, reaping, yielding, exiting, running a pending switch,
    a timer tick, writing a file), the stores of user code and the system calls of user
    processes, in any order except that zombies are reaped before a process or a task is
    created: user code of a process can access the two pages of that process and no other
    address, and the frames behind them belong to that process alone: they are not free,
    not mapped for another process, not the kernel's directory and not a page table. And
    whatever user code does next, a store or a system call, changes in the kernel nothing
    but bytes of the code and stack frames of the process that runs, or ends that process;
    outside of it, it can only raise the ping counter, send a message under its own pid or
    take one addressed to it. *)
Theorem process_isolation s m :
  boot_state I s -> reachable s m ->
  isolated (paging_kernel_dir_phys (k_pages (m_kernel m))) (m_kernel m) /\
  forall m', user_mode (m_kernel m) -> user_step bootstrap user_task_entry app_counter app_writer m m' ->
    exists i, let e := proc_at (process_table (m_kernel m)) i in
      user_runs (m_kernel m) i /\ e ∈ user_entries (process_table (m_kernel m)) /\
      (writes_own e (m_kernel m) (m_kernel m') \/ exists sp, m_kernel m' = k_exit sp (m_kernel m)) /\
      own_messages e m m'.
Proof.
  intros Hb Hr. destruct (reachable_kept s m Hb Hr) as (Htd & K & Q & N & L & Hac). split.
  - destruct (ac_world _ _ _ _ _ Hac) as (c & W & _). rewrite (kw_kernel _ _ _ _ _ _ _ W). by apply (account_isolated K Q N L).
  - intros m' Hu Hs. destruct (user_step_effect bootstrap user_task_entry app_counter app_writer K Q N L m m' Htd Hac Hu Hs) as (i & Hi & He & Hw).
    exists i. split; [done|]. split; [done|]. split; [done|]. by apply (user_step_messages bootstrap user_task_entry app_counter app_writer).
Qed.

(** C5. Reaping gives back exactly what a process owned. After booting a machine within
    the bounds of [boot_state], in every state reached by the operations of [k_step], the
    stores of user code and the system calls of user processes, in any order except that
    zombies are reaped before a process or a task is created, [process_reap] removes the
    user processes that have ended and no other, and the frames that are free afterwards
    are those that were free and, for each process removed, its directory, its page
    table, its code frame and its stack frame: four frames each. *)
Theorem process_reap_returns s m :
  boot_state I s -> reachable s m ->
  let k := m_kernel m in let k' := process_reap k in
  user_entries (process_table k) ≡ₚ reaped k ++ user_entries (process_table k') /\
  (forall g, fa_is_free (pg_frames (k_pages k')) g <->
     fa_is_free (pg_frames (k_pages k)) g \/ exists e, e ∈ reaped k /\ g ∈ user_table k e :: own_frames e) /\
  fa_avail (pg_frames (k_pages k')) = fa_avail (pg_frames (k_pages k)) + 4 * Z.of_nat (length (reaped k)).
Proof. intros Hb Hr k. destruct (reachable_kept s m Hb Hr) as (Htd & K & Q & N & L & Hac). by apply (reap_returns K Q N L). Qed.

(** A booted machine can create a user process. *)
Lemma booted_can_spawn r s : booted I r s -> 4 <= r -> can_spawn (sy_kernel s).
Proof.
  intros Hb Hr. split.
  - destruct (bd_heap _ _ _ Hb) as (n & Ht & Hn). exists n. split; [exact Ht|]. unfold PROCESS_USER_IMAGE_MAX. lia.
  - destruct (bd_room _ _ _ Hb) as [Hf Ha]. split; [exact Hf|]. etransitivity; [exact Hr|exact Ha].
  - destruct (process_find_free_slot (process_table (sy_kernel s))) as [i|] eqn:E; [by exists i|]. exfalso.
    destruct (bd_table _ _ _ Hb) as (Htab & Hc & _). unfold process_count in Hc. destruct (negb _); [done|].
    assert (Hall : active_entries (process_table (sy_kernel s)) = process_table (sy_kernel s)).
    { apply forallb_filter_id, forallb_forall. intros e He. apply list_elem_of_In, list_elem_of_lookup in He as [i Hi].
      pose proof (lookup_lt_Some _ _ _ Hi) as Hlt. rewrite (to_length _ _ Htab) in Hlt.
      pose proof (proj1 (find_seq_None _ _ _) E i ltac:(lia)) as Hn. cbv beta in Hn. unfold proc_at in Hn. rewrite Hi in Hn. by apply negb_false_iff in Hn. }
    rewrite Hall, (to_length _ _ Htab) in Hc. discriminate Hc.
  - exists 1%nat. apply find_seq_Some. unfold MAX_TASKS. split_and!; [lia|lia| |lia]. unfold slot_free.
    rewrite (bd_alone _ _ _ Hb) by (unfold MAX_TASKS; lia). done.
Qed.

Lemma reachable_step s m m' :
  reachable s m -> m_step bootstrap user_task_entry app_counter app_writer m m' -> reachable s m'.
Proof. intros (s' & E & Hrun) Hs. exists s'. split; [exact E|]. by apply rtc_r with m. Qed.

(** A user process can end itself. *)
Lemma exit_call s m sp :
  boot_state I s -> reachable s m -> user_mode (m_kernel m) -> reachable s (set_m_kernel m (k_exit sp (m_kernel m))).
Proof.
  intros Hb Hr Hu. destruct (reachable_kept s m Hb Hr) as (Htd & K & Q & N & L & Hac).
  destruct (user_mode_runs K Q N L _ Htd Hac Hu) as (i & Hi & _). destruct (user_heap_private K Q N L _ Hac Hu) as [Hen Hpriv].
  set (frame := [0; 0; 0; 0; 0; 0; 0; SYSCALL_PROCESS_EXIT]).
  assert (Hf : forall n, is_u32 (nth n frame 0)) by (intros n; unfold frame, SYSCALL_PROCESS_EXIT, is_u32; do 8 (destruct n as [|n]; [cbn; lia|]); destruct n; cbn; lia).
  apply (reachable_step s m); [exact Hr|]. apply MUser; [exact Hu|].
  destruct (syscall_dispatch bootstrap user_task_entry app_counter app_writer frame sp m) as [r m'] eqn:E.
  destruct (user_call_confined bootstrap user_task_entry app_counter app_writer frame sp m r m' i) as (_ & _ & Hx); try done; try apply Hf.
  rewrite <- (Hx eq_refl). replace m' with (snd (syscall_dispatch bootstrap user_task_entry app_counter app_writer frame sp m)) by (by rewrite E).
  by apply UCall.
Qed.

(** With four frames to spare after booting, a user process can live: there is a state in
    which it runs in its own address space, and one in which it has ended and waits to be
    reaped. *)
Theorem process_lives s :
  boot_state I s -> 4 <= spare (sy_pages s) -> user_task_entry <> 0 ->
  exists m1 m2 e, reachable s m1 /\ reachable s m2 /\ user_mode (m_kernel m1) /\ e ∈ user_entries (process_table (m_kernel m1)) /\
    paging_active_directory (k_pages (m_kernel m1)) = pe_cr3 e /\ e ∈ reaped (m_kernel m2).
Proof.
  intros Hs Hspare Hute. destruct (boot_booted I s Hs) as (s' & E & Hb). pose proof (bd_tids _ _ _ Hb) as [Htd0 Hnz].
  destruct (bd_account _ _ _ Hb) as (Q0 & N0 & Hac0). destruct (bd_tasks _ _ _ Hb) as (Hst & Hcur & _).
  destruct (spawn_succeeds bootstrap user_task_entry _ Q0 N0 [] None 0 0 (sy_kernel s') Hac0) as (slot & tid & e & k1 & Ek1 & Hnew);
    [by apply (booted_can_spawn (spare (sy_pages s)))|done|done|]. destruct Hnew as [Hslot Htab Hus Htid Hfree (t & Hrun & Htasks) [Hcpu Hsta]].
  set (m1 := set_m_kernel (sy_machine s') k1).
  assert (Hr1 : reachable s m1).
  { exists s'. split; [exact E|]. apply rtc_once, MKernel. rewrite <- Ek1. by apply KSpawn. }
  destruct (reachable_kept s m1 Hs Hr1) as (Htd & K & Q & N & L & Hac). change (m_kernel m1) with k1 in *.
  apply find_seq_Some in Hfree as (Ht & _). apply find_seq_Some in Hslot as (Hsl & _).
  assert (Hat : proc_at (process_table k1) slot = e).
  { rewrite Htab, proc_at_insert by (rewrite (to_length _ _ (td_table _ Htd0)); lia). by rewrite decide_True. }
  assert (Hstate : forall j, state_at (tasks (k_sched k1)) j = if decide (tid = j) then TASK_RUNNABLE else state_at (tasks (sy_sched s')) j).
  { intros j. rewrite Htasks, state_at_alter, Hrun; [done|]. change (k_sched (sy_kernel s')) with (sy_sched s'). rewrite (st_length _ Hst). unfold MAX_TASKS in *. lia. }
  assert (Hpick : scheduler_pick_next (k_sched k1) = Some (pe_tid (proc_at (process_table k1) slot))).
  { rewrite Hat, Htid. unfold MAX_TASKS in Ht. apply pick_only.
    - rewrite Hsta. exact (st_started _ Hst).
    - rewrite Hcpu. exact Hcur.
    - unfold MAX_TASKS. lia.
    - rewrite Hstate. by rewrite decide_True.
    - intros j Hj Hne. rewrite Hstate, decide_False by congruence. by rewrite (bd_alone _ _ _ Hb) by done. }
  rewrite <- Hat in Hus. destruct (yield_enters K Q N L k1 slot 65536 Hac Htd ltac:(lia) Hus Hpick) as (Hum & Hc2 & HT2 & Hdir). rewrite Hat in Hus, Hc2, Hdir.
  set (m2 := set_m_kernel m1 (k_yield 65536 k1)).
  assert (Hr2 : reachable s m2) by (apply (reachable_step s m1); [exact Hr1|apply MKernel, KYield]).
  pose proof (exit_call s m2 65536 Hs Hr2 Hum) as Hr3. destruct (reachable_kept s m2 Hs Hr2) as (_ & K2 & Q2 & N2 & L2 & Hac2).
  change (m_kernel m2) with (k_yield 65536 k1) in *.
  assert (Hin : e ∈ process_table k1) by (rewrite <- Hat; apply (list_elem_of_lookup_2 _ slot), (proc_at_lookup _ (next_pid k1)); [apply (td_table _ Htd)|lia]).
  assert (Hat2 : proc_at (process_table (k_yield 65536 k1)) slot = e) by (by rewrite HT2).
  destruct (exit_ends (k_yield 65536 k1) slot 65536 (ac_ok _ _ _ _ _ Hac2)) as [HT3 Hre]; rewrite ?Hat2; [done|lia|done|]. rewrite Hat2 in Hre.
  exists m2, (set_m_kernel m2 (k_exit 65536 (m_kernel m2))), e. split_and!; [exact Hr2|exact Hr3|exact Hum| |exact Hdir|].
  - apply user_entries_elem. split; [|done]. change (e ∈ process_table (k_yield 65536 k1)). by rewrite HT2.
  - unfold reaped. apply list_elem_of_In, filter_In. rewrite Hus. change (m_kernel m2) with (k_yield 65536 k1).
    split; [apply list_elem_of_In; cbn; by rewrite HT3, HT2|].
    change (reapable e (k_exit 65536 (k_yield 65536 k1)) && true = true). by rewrite Hre.
Qed.

End Boot.

(** ** Witnesses *)

Lemma demo_spare : 4 <= spare fresh_pages.
Proof.
  destruct demo_frames_ok as (_ & Hinit & Hhi & Hav & _). unfold spare.
  change (fa_avail (pg_frames fresh_pages)) with (pmm_avail demo_frames). rewrite Hav.
  change (fa_highest (pg_frames fresh_pages)) with (pmm_highest_address demo_frames). unfold pmm_highest_address. rewrite Hinit, Hhi.
  vm_compute. discriminate.
Qed.

(** A user process that runs after booting is isolated, and its store into its code page
    stays within its frames. *)
Lemma process_isolation_witness :
  exists m e m', reachable demo_image 4096 8192 12288 16384 fresh_system m /\ e ∈ user_entries (process_table (m_kernel m)) /\
    user_mode (m_kernel m) /\ isolated (paging_kernel_dir_phys (k_pages (m_kernel m))) (m_kernel m) /\
    user_step 4096 8192 12288 16384 m m' /\
    exists i, user_runs (m_kernel m) i /\ own_messages (proc_at (process_table (m_kernel m)) i) m m'.
Proof.
  destruct (process_lives demo_image 4096 8192 12288 16384 fresh_system fresh_boot_state demo_spare ltac:(lia)) as (m & _ & e & Hr & _ & Hu & He & Hdir & _).
  destruct (process_isolation demo_image 4096 8192 12288 16384 fresh_system m fresh_boot_state Hr) as [His Hstep].
  assert (Hs : user_step 4096 8192 12288 16384 m (set_m_kernel m (user_store PROCESS_USER_CODE_VADDR 144 (m_kernel m)))).
  { apply UStore; [split; [discriminate|reflexivity]|]. rewrite Hdir. apply (is_reach _ _ His e PROCESS_USER_CODE_VADDR He); [split; [discriminate|reflexivity]|left; reflexivity]. }
  destruct (Hstep _ Hu Hs) as (i & Hi & _ & _ & Hm).
  exists m, e, (set_m_kernel m (user_store PROCESS_USER_CODE_VADDR 144 (m_kernel m))).
  split; [exact Hr|]. split; [exact He|]. split; [exact Hu|]. split; [exact His|]. split; [exact Hs|]. exists i. split; [exact Hi|exact Hm].
Defined.

(** A user process that has ended after booting is reaped, and gives back frames. *)
Lemma process_reap_returns_witness :
  exists m e, reachable demo_image 4096 8192 12288 16384 fresh_system m /\ e ∈ reaped (m_kernel m) /\
    fa_avail (pg_frames (k_pages (m_kernel m))) + 4 <= fa_avail (pg_frames (k_pages (process_reap (m_kernel m)))).
Proof.
  destruct (process_lives demo_image 4096 8192 12288 16384 fresh_system fresh_boot_state demo_spare ltac:(lia)) as (_ & m & e & _ & Hr & _ & _ & _ & He).
  destruct (process_reap_returns demo_image 4096 8192 12288 16384 fresh_system m fresh_boot_state Hr) as (_ & _ & Hav).
  exists m, e. split; [exact Hr|]. split; [exact He|]. cbv zeta in Hav. rewrite Hav. destruct (reaped (m_kernel m)) as [|x l]; [apply not_elem_of_nil in He; destruct He|].
  cbn [length]. lia.
Defined.
