(* ===== verification/CommandSpec.v ===== *)
(** What the commands of the shell do: theorems about [run_command]. *)
From Stdlib Require Import ZArith Lia Bool List Ascii String.
From stdpp Require Import base gmap list numbers option sets.
From S2P Require Import Prelude CStr Interfaces Pmm Paging Reserve Kheap Scheduler Ipc Vfs Keyboard Loader Process Exec.
From S2P Require Import Syscall Vga Shell Tables Usermode Tasks System Commands Boot BootSpec.
#[local] Open Scope Z_scope.

(** ** Choosing the command *)

Fixpoint is_prefix (p l : list Z) : bool :=
  match p, l with
  | [], _ => true
  | c :: p', d :: l' => (c =? d) && is_prefix p' l'
  | _, _ => false
  end.
Fixpoint same_text (a b : list Z) : bool :=
  match a, b with
  | [], [] => true
  | c :: a', d :: b' => (c =? d) && same_text a' b'
  | _, _ => false
  end.

Lemma same_text_spec a : forall b, same_text a b = true <-> a = b.
Proof.
  induction a as [|c a IH]; intros [|d b]; cbn; try done. rewrite andb_true_iff, Z.eqb_eq, IH. split; [by intros [-> ->]|].
  by intros [= -> ->].
Qed.

Lemma is_prefix_spec p : forall l, is_prefix p l = true <-> exists r, l = p ++ r.
Proof.
  induction p as [|c p IH]; intros l; cbn.
  { split; [by exists l|done]. }
  destruct l as [|d l]; [split; [done|by intros [r [=]]]|].
  rewrite andb_true_iff, Z.eqb_eq, IH. split.
  - intros (-> & r & ->). by exists r.
  - intros [r [= -> ->]]. split; [done|by exists r].
Qed.

Lemma streq_text line t : streq line t = same_text (c_str line) (c_str (txt t)).
Proof.
  unfold streq. destruct (str_eq line (txt t)) eqn:E; symmetry.
  - apply same_text_spec. by apply str_eq_spec.
  - apply not_true_is_false. rewrite same_text_spec, <- str_eq_spec, E. done.
Qed.

Lemma starts_text_eq prefix : forall line, starts_with line prefix = is_prefix (c_str prefix) (c_str line).
Proof.
  induction prefix as [|c prefix IH]; intros line; cbn [starts_with c_str]; [done|].
  destruct (Z.eqb_spec c 0) as [|Hc]; [done|]. destruct line as [|d line]; cbn [hd tl c_str is_prefix].
  - by rewrite (proj2 (Z.eqb_neq 0 c)) by done.
  - destruct (Z.eqb_spec d c) as [->|Hd]; cbn [negb].
    + by rewrite (proj2 (Z.eqb_neq c 0)), Z.eqb_refl, IH by done.
    + destruct (Z.eqb_spec d 0); [done|]. by rewrite (proj2 (Z.eqb_neq c d)) by done.
Qed.

Lemma starts_text line t : starts line t = is_prefix (c_str (txt t)) (c_str line).
Proof. apply starts_text_eq. Qed.

Lemma hd_text line : (hd 0 line =? 0) = match c_str line with [] => true | _ => false end.
Proof. destruct line as [|c line]; [done|]. cbn. by destruct (c =? 0). Qed.

(** The rest of a line behind the name of the command. *)
Lemma drop_text line a r : c_str line = a ++ r -> Forall (fun c => c <> 0) a -> c_str (drop (length a) line) = r.
Proof.
  revert line. induction a as [|c a IH]; intros line H Ha; cbn [length]; [by rewrite drop_0|].
  destruct line as [|d line]; [done|]. cbn [c_str app] in H. destruct (Z.eqb_spec d 0); [done|].
  injection H as -> H. cbn [drop]. apply IH; [done|]. by apply Forall_cons_1 in Ha as [_ Ha].
Qed.

(** Reduces [run_command] on a line whose text starts as [H] says: every test before
    the right one evaluates. *)
Ltac eval_tests :=
  repeat match goal with
  | |- context [same_text ?a ?b] => let v := eval vm_compute in (same_text a b) in change (same_text a b) with v
  | |- context [is_prefix ?a ?b] => let v := eval vm_compute in (is_prefix a b) in change (is_prefix a b) with v
  end; cbv iota.
Ltac dispatch H :=
  lazymatch type of H with ?a = ?x => let v := eval vm_compute in x in change (a = v) in H end;
  unfold run_command; rewrite hd_text, ?streq_text, ?starts_text, H; eval_tests.

(** ** Words *)

(** The first word of a text, and what follows it. *)
Fixpoint word (t : list Z) : list Z :=
  match t with c :: t' => if c =? 32 then [] else c :: word t' | [] => [] end.
Fixpoint after_word (t : list Z) : list Z :=
  match t with c :: t' => if c =? 32 then t else after_word t' | [] => [] end.

Lemma skip_spaces_text s : c_str (skip_spaces s) = skip_spaces (c_str s).
Proof.
  induction s as [|c s IH]; [done|]. cbn [skip_spaces c_str]. destruct (Z.eqb_spec c 32) as [->|Hc].
  - cbn. exact IH.
  - cbn [c_str]. destruct (c =? 0); [done|]. cbn [skip_spaces]. by rewrite (proj2 (Z.eqb_neq c 32)).
Qed.

Lemma token_loop_spec s : forall i token n,
  (i < n <= length token)%nat -> Forall (fun c => c <> 0) (take i token) ->
  c_str (fst (token_loop s i token n)) = after_word (c_str s) /\
  c_str (snd (token_loop s i token n)) = take i token ++ take (n - 1 - i) (word (c_str s)).
Proof.
  assert (Hend : forall i (token : list Z), (i < length token)%nat -> Forall (fun c => c <> 0) (take i token) ->
    c_str (<[i := 0]> token) = take i token).
  { intros i token Hi Hnz. rewrite insert_take_drop by done. rewrite c_str_app by done. cbn. by rewrite app_nil_r. }
  induction s as [|c s IH]; intros i token n Hi Hnz; cbn [token_loop c_str].
  { cbn. rewrite take_nil, app_nil_r. split; [done|]. apply Hend; [lia|done]. }
  destruct (Z.eqb_spec c 0) as [->|Hc]; cbn [orb].
  { cbn. rewrite take_nil, app_nil_r. split; [done|]. apply Hend; [lia|done]. }
  destruct (Z.eqb_spec c 32) as [->|Hs].
  { cbn. rewrite take_nil, app_nil_r. split; [done|]. apply Hend; [lia|done]. }
  cbn [word after_word]. rewrite (proj2 (Z.eqb_neq c 32)) by done.
  destruct (Nat.ltb_spec (S i) n) as [Hlt|Hge].
  - assert (Htk : take (S i) (<[i := c]> token) = take i token ++ [c]).
    { rewrite (take_S_r _ _ c) by (apply list_lookup_insert_eq; lia). by rewrite take_insert_ge by lia. }
    destruct (IH (S i) (<[i := c]> token) n) as [-> ->]; [rewrite length_insert; lia| |].
    { rewrite Htk. apply Forall_app. split; [done|by repeat constructor]. }
    split; [done|]. rewrite Htk, <- app_assoc. f_equal. replace (n - 1 - i)%nat with (S (n - 1 - S i)) by lia. done.
  - destruct (IH i token n Hi Hnz) as [-> ->]. split; [done|]. by replace (n - 1 - i)%nat with 0%nat by lia.
Qed.

Lemma read_token_spec s token n :
  (0 < n <= length token)%nat ->
  let '(rest, tok) := read_token s token n in
  c_str rest = after_word (skip_spaces (c_str s)) /\ c_str tok = take (n - 1) (word (skip_spaces (c_str s))).
Proof.
  intros Hn. unfold read_token. rewrite <- skip_spaces_text. rewrite hd_text.
  destruct (c_str (skip_spaces s)) as [|c t] eqn:Et.
  - rewrite Et. split; [done|]. rewrite insert_take_drop by lia. cbn. by rewrite take_nil.
  - destruct (token_loop_spec (skip_spaces s) 0 token n) as [H1 H2]; [lia|done|].
    destruct (token_loop _ _ _ _) as [rest tok]. cbn [fst snd] in *. rewrite H1, H2, Et. cbn [take app].
    by rewrite Nat.sub_0_r.
Qed.

(** ** Reading files *)

Lemma string_from_holds {H : Type} `{KernelHeapOk H} (h : H) c : forall fuel p,
  holds h p c -> Forall (fun b => b <> 0) c -> (length c < fuel)%nat -> string_from fuel p h = c.
Proof.
  induction c as [|b c IH]; intros fuel p Hh Hnz Hf; (destruct fuel as [|fuel]; [cbn in Hf; lia|]); cbn [string_from].
  - pose proof (Hh 0%nat 0 eq_refl) as H0'. rewrite Z.add_0_r in H0'. by rewrite H0'.
  - apply Forall_cons_1 in Hnz as [Hb Hnz]. pose proof (Hh 0%nat b eq_refl) as H0'. rewrite Z.add_0_r in H0'.
    rewrite H0', (proj2 (Z.eqb_neq b 0)) by done. f_equal. apply IH; [|done|cbn in Hf; lia].
    intros k x Hk. rewrite <- (Hh (S k) x) by done. f_equal. lia.
Qed.

(** [vfs_read_file] with the string behind its pointer is lookup in the map of files. *)
Lemma read_file_lookup (k : kernel pmm_state) M F name :
  vfs_rep (k_vfs k) M F -> vfs_name_valid (Some name) = true -> read_file k name = M !! c_str name.
Proof.
  intros Hr Hv. unfold read_file, vfs_read_file. rewrite (vr_ready _ _ _ Hr), Hv. cbn [negb orb].
  pose proof (find_file_cases _ M F name Hr) as Hf. destruct (vfs_find_file name (k_vfs k)) as [i|]; [|by rewrite Hf].
  destruct Hf as (Hi & Hlk & Hu & Hnm). destruct (vr_heap _ _ _ Hr) as (cap & Hrep & Hfiles).
  destruct (fo_content _ _ _ _ (Hfiles i _ Hlk Hu)) as (c & HM & _ & Hnz & _ & Hcap & Hh). rewrite Hnm in HM. rewrite HM.
  rewrite (proj2 (Z.eqb_neq _ 0)) by exact (file_data_nonzero _ M F i _ Hr Hlk Hu). f_equal.
  assert (Hin : (vf_data (file_at (k_vfs k) i), cap (vf_data (file_at (k_vfs k) i))) ∈ blocks cap (files (k_vfs k)) ++ F)
    by (apply elem_of_app; left; by apply (block_in cap _ i)).
  destruct (kh_live_range _ _ _ _ Hrep Hin) as (Hp & Hend & _). unfold heap_string.
  apply string_from_holds; [exact Hh|done|lia].
Qed.

Lemma stored_text (v : vfs (kheap (paging_state pmm_state))) M F name c : vfs_rep v M F -> M !! name = Some c -> c_str c = c.
Proof.
  intros Hr HM. destruct (vr_complete _ _ _ Hr _ _ HM) as (i & f & Hi & Hu & Hn).
  destruct (vr_heap _ _ _ Hr) as (cap & _ & Hfiles). destruct (fo_content _ _ _ _ (Hfiles i f Hi Hu)) as (c' & HM' & _ & Hnz & _).
  rewrite Hn, HM in HM'. injection HM' as ->. rewrite <- (app_nil_r c') at 1. rewrite c_str_app by done. by rewrite app_nil_r.
Qed.

(** A word the shell passes on unchanged: a valid file name without spaces. *)
Definition file_word (name : list Z) : Prop :=
  name <> [] /\ (length name < VFS_NAME_MAX)%nat /\ Forall (fun c => c <> 0 /\ c <> 32) name.

Lemma word_app name rest : Forall (fun c => c <> 0 /\ c <> 32) name -> hd 32 rest = 32 ->
  word (name ++ rest) = name /\ after_word (name ++ rest) = rest.
Proof.
  intros Hn Hr. induction Hn as [|c name [_ Hc] _ [IH1 IH2]]; cbn [app word after_word].
  - destruct rest as [|d rest]; [done|]. cbn in Hr. subst d. done.
  - rewrite (proj2 (Z.eqb_neq c 32)) by done. by rewrite IH1, IH2.
Qed.

Lemma skip_word name rest : file_word name -> skip_spaces (name ++ rest) = name ++ rest.
Proof.
  intros (Hne & _ & Hn). destruct name as [|c name]; [done|]. apply Forall_cons_1 in Hn as [[_ Hc] _]. cbn.
  by rewrite (proj2 (Z.eqb_neq c 32)).
Qed.

(** The token a command reads from an argument that starts with such a word. *)
Lemma file_token arg name rest :
  c_str arg = name ++ rest -> file_word name -> hd 32 rest = 32 ->
  exists p tok, read_token arg (replicate 40 0) 40 = (p, tok) /\ c_str p = rest /\ c_str tok = name /\
    (hd 0 tok =? 0) = false /\ vfs_name_valid (Some tok) = true.
Proof.
  intros Ha Hw Hr. pose proof Hw as (Hne & Hl & Hn). destruct (word_app name rest Hn Hr) as [H1 H2].
  pose proof (read_token_spec arg (replicate 40 0) 40) as Hs. destruct (read_token arg _ 40) as [p tok].
  destruct Hs as [Hp Ht]; [rewrite length_replicate; lia|]. rewrite Ha, skip_word, H1 in Ht by done.
  rewrite Ha, skip_word, H2 in Hp by done. rewrite take_ge in Ht by (unfold VFS_NAME_MAX in Hl; lia).
  exists p, tok. split_and!; [done|done|done| |].
  - rewrite hd_text, Ht. by destruct name.
  - apply name_valid_spec. by rewrite Ht.
Qed.

Section Theorems.
Context (L : layout) (fuel : nat) (mbi : multiboot_info_t) (port : nat -> Z) (resets : bool).

(** ** Commands that only report *)

(** System calls without effect. *)
Lemma int80_query n b c d :
  n ∈ [SYSCALL_GET_TICKS32; SYSCALL_GET_HEAP_TOTAL; SYSCALL_GET_HEAP_USED; SYSCALL_USER_PING_COUNT] -> reads (int80 L n b c d).
Proof.
  intros Hn s. unfold int80, on_machine. cbv [nth syscall_dispatch].
  destruct (negb _); [exists SYSCALL_DENIED; by rewrite set_machine_id|].
  repeat (apply elem_of_cons in Hn as [->|Hn]; [eexists; cbn; rewrite set_machine_id; done|]). by apply elem_of_nil in Hn.
Qed.

Definition query_words : list string :=
  ["help"; "mmap"; "pmm"; "heap"; "syscall"; "tasks"; "ps"; "psx"; "progs"; "ipc"; "upings"; "aspace"; "ls"; "vm";
   "uptime"; "time"; "ticks"]%string.
Definition query_prefixes : list string := ["cat "; "vmxlate "; "echo "]%string.
Definition is_query (line : list Z) : bool := existsb (streq line) query_words || existsb (starts line) query_prefixes.

Ltac head_of m := lazymatch m with ?f _ => head_of f | _ => m end.
Ltac prints_tac :=
  repeat first
    [ apply prints_print | apply prints_bind; [apply reads_gets|intros]
    | apply prints_bind; [apply int80_query; repeat constructor|intros] | case_match
    | lazymatch goal with |- prints ?m => let h := head_of m in unfold h end ].

(** C20. The commands that report on the system (help, mmap, pmm, heap, syscall, tasks, ps, psx, progs, ipc, upings,
    aspace, ls, vm, uptime, time, ticks, cat, vmxlate, echo) always return, and change nothing but the screen,
    to which they append text: memory, processes, tasks, files, messages and counters stay exactly as they are. *)
Theorem queries_only_print line s :
  is_query line = true ->
  exists cs, run_command L fuel mbi port resets line s = (Done tt, set_screen s (vga_write cs (sy_screen s))).
Proof.
  intros Hq. revert s. change (prints (run_command L fuel mbi port resets line)).
  unfold is_query in Hq. apply orb_true_iff in Hq as [Hq|Hq]; apply existsb_exists in Hq as (t & Ht & Hq).
  - rewrite streq_text in Hq. apply same_text_spec in Hq.
    repeat (destruct Ht as [<-|Ht]; [dispatch Hq; prints_tac|]). done.
  - rewrite starts_text in Hq. apply is_prefix_spec in Hq as [r Hq].
    repeat (destruct Ht as [<-|Ht]; [dispatch Hq; prints_tac|]). done.
Qed.

(** ** Files *)

(** C18. Files through the shell. The commands write and cat implement the map from names to contents that the file
    system represents: write stores the text under the name and says so, or, when the heap or the table is full,
    says so and keeps the map; cat prints exactly the contents of the named file, or that there is none, and
    changes nothing else. So a text that was written is what cat prints. *)
Theorem shell_files_refine_map s M F name text line1 line2 :
  vfs_rep (k_vfs (sy_kernel s)) M F -> file_word name ->
  text <> [] -> hd 0 text <> 32 -> Forall (fun c => is_byte c /\ c <> 0) text -> Z.of_nat (length text) < 4294967295 ->
  c_str line1 = txt "write " ++ name ++ 32 :: text -> c_str line2 = txt "cat " ++ name ->
  (exists (ok : bool) s', run_command L fuel mbi port resets line1 s = (Done tt, s') /\
     vfs_rep (k_vfs (sy_kernel s')) (if ok then <[name := text]> M else M) F /\
     sy_screen s' = vga_write (txt (if ok then "write ok" else "write failed") ++ [10]) (sy_screen s)) /\
  run_command L fuel mbi port resets line2 s =
    (Done tt, set_screen s (vga_write (default (txt "cat: file not found") (M !! name) ++ [10]) (sy_screen s))).
Proof.
  intros Hr Hw Hne Hsp Hby Hlen H1 H2. split.
  - dispatch H1. assert (Harg : c_str (drop 6 line1) = name ++ 32 :: text) by (by apply (drop_text line1 (txt "write ")); [|repeat constructor]).
    destruct (file_token _ name (32 :: text) Harg Hw eq_refl) as (p & tok & Et & Hp & Htok & Hhd & Hv).
    unfold cmd_write. rewrite Et, Hhd, hd_text, skip_spaces_text, Hp. cbn [skip_spaces orb]. rewrite Z.eqb_refl.
    assert (Hskip : skip_spaces text = text) by (destruct text as [|c t]; [done|]; cbn in Hsp |- *; by rewrite (proj2 (Z.eqb_neq c 32))).
    rewrite Hskip. destruct text as [|c t] eqn:Etext; [done|]. cbv iota. rewrite <- Etext in *.
    set (data := skip_spaces p). assert (Hdata : c_str data = text) by (unfold data; rewrite skip_spaces_text, Hp; exact Hskip).
    destruct (write_cases (k_vfs (sy_kernel s)) M F tok data Hr Hv) as (ok & v & Ew & Hv' & _).
    { rewrite Hdata. apply (Forall_impl _ _ _ Hby). tauto. }
    { by rewrite str_len_eq, Hdata. }
    rewrite Htok, Hdata in Hv'. exists ok. eexists. split.
    { rewrite (bind_done _ _ _ ok (set_kernel s (set_k_vfs (sy_kernel s) v))); [reflexivity|].
      unfold write_file, on_kernel. rewrite Ew. reflexivity. }
    split; [by destruct v|]. cbn [sy_screen set_screen set_kernel set_machine]. rewrite puts_render. by destruct ok.
  - dispatch H2. assert (Harg : c_str (drop 4 line2) = name ++ []) by (rewrite app_nil_r; by apply (drop_text line2 (txt "cat ")); [|repeat constructor]).
    destruct (file_token _ name [] Harg Hw eq_refl) as (p & tok & Et & _ & Htok & Hhd & Hv).
    unfold cmd_cat. rewrite Et, Hhd. cbv [gets mbind M_bind]. rewrite (read_file_lookup _ M F tok Hr Hv), Htok.
    destruct (M !! name) as [c|] eqn:EM; unfold print, modify; rewrite puts_render; [|done].
    cbn [flat_map render]. by rewrite app_nil_r, (stored_text _ M F name c Hr EM).
Qed.

End Theorems.

(** ** Sleeping *)

(** What an interrupt does, and a list of them. *)
Definition handle (i : irq) (s : system) : system :=
  match i with
  | IrqTimer => set_machine s (timer_isr (sy_machine s))
  | IrqKeyboard status data => set_keyboard s (keyboard_isr status data (sy_keyboard s))
  end.
Definition handle_all (l : list irq) (s : system) : system := fold_left (fun s i => handle i s) l s.

Definition is_timer (i : irq) : bool := match i with IrqTimer => true | _ => false end.
Definition ticks_in (l : list irq) : Z := Z.of_nat (length (List.filter is_timer l)).
Definition ticks_of (s : system) : Z := timer_ticks (m_timer (sy_machine s)).

Lemma hlt_cons i l s : sy_irqs s = i :: l -> hlt s = (Done tt, set_irqs (handle i s) l).
Proof. unfold hlt. intros ->. by destruct i. Qed.

Lemma ticks_in_cons i l : ticks_in (i :: l) = (if is_timer i then 1 else 0) + ticks_in l.
Proof. unfold ticks_in. cbn [List.filter]. destruct (is_timer i); cbn [length]; lia. Qed.

Lemma ticks32_eq t : timer_get_ticks32 t = u32 (timer_ticks t).
Proof.
  unfold timer_get_ticks32, timer_read_ticks_atomic, u32. rewrite <- !Z.land_ones with (n := 32) by lia.
  rewrite Z.land_lor_distr_l. rewrite (Z.land_ones (Z.shiftl _ 32)), Z.shiftl_mul_pow2 by lia. rewrite Z.mod_mul by lia.
  rewrite Z.lor_0_l, <- Z.land_assoc. f_equal.
Qed.

Lemma u32_diff a b : u32 (u32 (a + b) - u32 a) = u32 b.
Proof. unfold u32. rewrite <- Zminus_mod. f_equal. lia. Qed.

Lemma tick_diff t n : (u32 ((t + n) `mod` 18446744073709551616) - u32 t) `mod` 4294967296 = n `mod` 4294967296.
Proof.
  fold (u32 (u32 ((t + n) `mod` 18446744073709551616) - u32 t)). unfold u32.
  rewrite (Z.mod_mod_divide (t + n) 18446744073709551616 4294967296) by (by exists 4294967296).
  rewrite <- Zminus_mod. f_equal. lia.
Qed.

(** The clock after some interrupts. *)
Lemma handle_ticks i s : ticks_of (handle i s) = if is_timer i then (ticks_of s + 1) `mod` 18446744073709551616 else ticks_of s.
Proof. by destruct i. Qed.

(** The loop, [k] ticks after its start, takes interrupts up to the one that makes the
    count complete. *)
Lemma sleep_loop_spec w t pre post : forall n k s,
  0 <= k <= w -> w < 4294967296 -> ticks_of s = (t + k) `mod` 18446744073709551616 -> sy_irqs s = pre ++ post ->
  ticks_in pre = w - k -> (pre = [] \/ exists l, pre = l ++ [IrqTimer]) -> (length pre < n)%nat ->
  sleep_loop n (u32 t) w s = (Done tt, set_irqs (handle_all pre s) post).
Proof.
  induction pre as [|i pre IH]; intros n k s Hk Hw Ht Hirq Htk Hlast Hn; (destruct n as [|n]; [cbn in Hn; lia|]); cbn [sleep_loop].
  - change (ticks_in []) with 0 in Htk. cbv [gets mbind M_bind]. rewrite ticks32_eq. fold (ticks_of s). rewrite Ht.
    unfold u32 at 1. rewrite tick_diff, Z.mod_small by lia. rewrite (proj2 (Z.ltb_ge _ _)) by lia.
    cbn [app] in Hirq. cbn. by destruct s; cbn in Hirq; subst.
  - assert (Hpos : 0 < ticks_in (i :: pre)).
    { destruct Hlast as [|[l Hl]]; [done|]. rewrite Hl. unfold ticks_in. rewrite List.filter_app, length_app. cbn. lia. }
    cbv [gets mbind M_bind]. rewrite ticks32_eq. fold (ticks_of s). rewrite Ht.
    unfold u32 at 1. rewrite tick_diff, Z.mod_small by lia. rewrite (proj2 (Z.ltb_lt _ _)) by lia.
    rewrite (hlt_cons i (pre ++ post)) by done. cbn [handle_all fold_left]. fold (handle_all pre (handle i s)).
    rewrite ticks_in_cons in Htk. assert (0 <= ticks_in pre) by (unfold ticks_in; lia).
    assert (Hset : handle_all pre (set_irqs (handle i s) (pre ++ post)) = set_irqs (handle_all pre (handle i s)) (pre ++ post)).
    { clear. generalize (handle i s) (pre ++ post). induction pre as [|j pre IH]; intros s0 l; [done|]. cbn. rewrite <- IH.
      by destruct j. }
    rewrite (IH n (k + if is_timer i then 1 else 0)); [by rewrite Hset|destruct (is_timer i); lia|done| |done|destruct (is_timer i); lia| |cbn in Hn; lia].
    + change (ticks_of (set_irqs (handle i s) (pre ++ post))) with (ticks_of (handle i s)). rewrite handle_ticks, Ht.
      destruct (is_timer i); [|by rewrite Z.add_0_r]. rewrite Zplus_mod_idemp_l. f_equal. lia.
    + destruct Hlast as [|[l Hl]]; [done|]. destruct l as [|j l]; cbn in Hl; [left|right; exists l]; congruence.
Qed.

(** The same when the interrupts end too early. *)
Lemma sleep_loop_waits w t pre : forall n k s,
  0 <= k -> w < 4294967296 -> ticks_of s = (t + k) `mod` 18446744073709551616 -> sy_irqs s = pre ->
  k + ticks_in pre < w -> (length pre < n)%nat ->
  sleep_loop n (u32 t) w s = (Waiting, set_irqs (handle_all pre s) []).
Proof.
  induction pre as [|i pre IH]; intros n k s Hk Hw Ht Hirq Htk Hn; (destruct n as [|n]; [cbn in Hn; lia|]); cbn [sleep_loop].
  - change (ticks_in []) with 0 in Htk. cbv [gets mbind M_bind]. rewrite ticks32_eq. fold (ticks_of s). rewrite Ht.
    unfold u32 at 1. rewrite tick_diff, Z.mod_small by lia. rewrite (proj2 (Z.ltb_lt _ _)) by lia.
    unfold hlt. rewrite Hirq. cbn. by destruct s; cbn in Hirq; subst.
  - rewrite ticks_in_cons in Htk. assert (0 <= ticks_in pre) by (unfold ticks_in; lia).
    cbv [gets mbind M_bind]. rewrite ticks32_eq. fold (ticks_of s). rewrite Ht.
    unfold u32 at 1. rewrite tick_diff, Z.mod_small by (destruct (is_timer i); lia).
    rewrite (proj2 (Z.ltb_lt _ _)) by (destruct (is_timer i); lia).
    rewrite (hlt_cons i pre) by done. cbn [handle_all fold_left]. fold (handle_all pre (handle i s)).
    assert (Hset : handle_all pre (set_irqs (handle i s) pre) = set_irqs (handle_all pre (handle i s)) pre).
    { clear. generalize (handle i s). generalize pre at 2 4. induction pre as [|j pre IH]; intros l s0; [done|]. cbn. rewrite <- IH.
      by destruct j. }
    rewrite (IH n (k + if is_timer i then 1 else 0)); [by rewrite Hset|destruct (is_timer i); lia|done| |done|destruct (is_timer i); lia|cbn in Hn; lia].
    change (ticks_of (set_irqs (handle i s) pre)) with (ticks_of (handle i s)). rewrite handle_ticks, Ht.
    destruct (is_timer i); [|by rewrite Z.add_0_r]. rewrite Zplus_mod_idemp_l. f_equal. lia.
Qed.

Lemma seconds_saturate n hz : 0 <= n -> 0 < hz -> seconds_to_ticks n hz = Z.min (n * hz) UINT32_MAX.
Proof.
  intros Hn Hh. unfold seconds_to_ticks, UINT32_MAX. destruct (Z.ltb_spec (4294967295 / hz) n) as [Hlt|Hge].
  - rewrite Z.min_r; [done|]. apply Z.lt_le_incl. pose proof (Z.mul_succ_div_gt 4294967295 hz Hh). nia.
  - assert (n * hz <= 4294967295) by (pose proof (Z.mul_div_le 4294967295 hz Hh); nia).
    rewrite Z.min_l by done. apply u32_small. lia.
Qed.

Lemma number_arg arg d n :
  c_str arg = d -> all_digits 10 d = true -> digits_value 10 0 d = n -> d <> [] -> is_u32 n -> parse_u32 arg = Some n.
Proof. intros Harg Ha Hd Hne Hn. rewrite parse_u32_eq, Harg, bool_decide_eq_false_2 by done. by apply numeral_value. Qed.

(** At 100 Hz, 19 ms are one tick, and a large number gives fewer ticks than it asks for. *)
Lemma sleepms_short : milliseconds_to_ticks 19 100 = 1 /\ milliseconds_to_ticks 50000000 100 = 4294967.
Proof. split; reflexivity. Qed.

(** The command on a decimal number. *)
Lemma sleep_command L fuel mbi port resets d n line s :
  c_str line = txt "sleep " ++ d -> all_digits 10 d = true -> digits_value 10 0 d = n -> d <> [] -> is_u32 n ->
  0 < timer_hz (m_timer (sy_machine s)) ->
  run_command L fuel mbi port resets line s =
    sleep_loop (S (length (sy_irqs s))) (u32 (ticks_of s)) (Z.min (n * timer_hz (m_timer (sy_machine s))) UINT32_MAX) s.
Proof.
  intros Hline Ha Hd Hne Hn Hh. assert (Harg : c_str (drop 6 line) = d).
  { apply (drop_text line (txt "sleep ")); [exact Hline|by repeat constructor]. }
  pose proof (number_arg _ d n Harg Ha Hd Hne Hn) as Hp.
  dispatch Hline. unfold cmd_sleep. rewrite Hp. unfold sleep_seconds, sleep_ticks. cbv [gets mbind M_bind].
  unfold timer_get_hz, is_u32 in *. rewrite seconds_saturate by lia. by rewrite ticks32_eq.
Qed.

(** C19. Sleeping. The command sleep n returns after exactly n seconds of timer interrupts (n times the frequency,
    at most 2^32 - 1), whatever keyboard interrupts come in between and even when the 32-bit tick count wraps around
    meanwhile; every interrupt up to then is handled, none after. With too few timer interrupts it never returns. *)
Theorem sleep_exact L fuel mbi port resets n line s :
  let hz := timer_hz (m_timer (sy_machine s)) in
  let w := Z.min (n * hz) UINT32_MAX in
  is_u32 n -> 0 < hz -> 0 <= ticks_of s < 18446744073709551616 -> c_str line = txt "sleep " ++ dec_digits n ->
  (forall pre post, sy_irqs s = pre ++ post -> ticks_in pre = w -> (pre = [] \/ exists l, pre = l ++ [IrqTimer]) ->
     run_command L fuel mbi port resets line s = (Done tt, set_irqs (handle_all pre s) post)) /\
  (ticks_in (sy_irqs s) < w ->
     run_command L fuel mbi port resets line s = (Waiting, set_irqs (handle_all (sy_irqs s) s) [])).
Proof.
  intros hz w Hn Hh Ht Hline. destruct (dec_digits_value n Hn) as (Ha & Hf & Hd & Hne).
  assert (Hw : 0 <= w < 4294967296) by (unfold w, UINT32_MAX, is_u32 in *; nia).
  assert (Ht0 : ticks_of s = (ticks_of s + 0) `mod` 18446744073709551616) by (rewrite Z.add_0_r, Z.mod_small; lia).
  assert (Hrun : run_command L fuel mbi port resets line s = sleep_loop (S (length (sy_irqs s))) (u32 (ticks_of s)) w s)
    by exact (sleep_command L fuel mbi port resets _ n line s Hline Ha Hd Hne Hn Hh).
  rewrite Hrun. split.
  - intros pre post Hirq Htk Hlast. apply (sleep_loop_spec w (ticks_of s) pre post _ 0); try done; try lia.
    rewrite Hirq, length_app. lia.
  - intros Hlt. apply (sleep_loop_waits w (ticks_of s) _ _ 0); try done; lia.
Qed.

(** ** Taking frames *)

Lemma allocn_loop count a :
  pmm_ok a -> pmm_ready a = true -> 0 <= count ->
  exists a', loop FRAME_FUEL (allocn_body count) (0, a) = Some (Z.min count (pmm_avail a), a') /\
    pmm_ok a' /\ pmm_avail a' = pmm_avail a - Z.min count (pmm_avail a).
Proof.
  intros Hok Hr Hc.
  destruct (loop_total (allocn_body count)
    (fun st => pmm_ok (snd st) /\ pmm_ready (snd st) = true /\ 0 <= fst st <= count /\ pmm_avail (snd st) + fst st = pmm_avail a)
    (fun r => fst r = Z.min count (pmm_avail a) /\ pmm_ok (snd r) /\ pmm_avail (snd r) = pmm_avail a - fst r)
    (fun st => pmm_avail (snd st))) with (fuel := FRAME_FUEL) (s := (0, a)) as ([k a'] & -> & Hk & Hok' & Hav).
  - intros [ok b] (Hb & Hrb & Hrange & Hav). cbn [fst snd] in *. unfold allocn_body. pose proof (avail_nonneg b Hb) as Hnn.
    destruct (Z.ltb_spec ok count) as [Hlt|Hge]; [|cbn [fst snd]; lia || (split_and!; [lia|done|lia])].
    pose proof (alloc_avail b Hb Hrb) as Hsome. pose proof (alloc_ready b) as Hrd. destruct (pmm_alloc_frame b) as [f b'] eqn:E.
    cbn [fst snd] in *. destruct (Z.eqb_spec f 0) as [->|Hf].
    + apply alloc_none in E as ->; [|done]. cbn [fst snd]. assert (pmm_avail b = 0) by (destruct (decide (pmm_avail b = 0)); [done|destruct Hsome; [lia|done]]).
      split_and!; [lia|done|lia].
    + destruct (alloc_some b f b' Hb E Hf) as (Hb' & _ & _ & _ & _ & Hav'). pose proof (avail_nonneg b' Hb').
      cbn [fst snd]. split_and!; [done|congruence|lia|lia|lia|lia|lia].
  - cbn [fst snd]. split_and!; [done|done|lia|lia|lia].
  - cbn [snd]. rewrite FRAME_FUEL_eq. pose proof (total_le_max a Hok). pose proof (used_nonneg a Hok).
    unfold pmm_avail, PMM_MAX_FRAMES in *. lia.
  - cbn [snd]. by apply avail_nonneg.
  - cbn [fst snd] in *. subst k. by exists a'.
Qed.

Lemma allocn_command L fuel mbi port resets d n line s :
  c_str line = txt "allocn " ++ d -> all_digits 10 d = true -> digits_value 10 0 d = n -> d <> [] -> is_u32 n ->
  run_command L fuel mbi port resets line s = cmd_allocn (drop 7 line) s /\ parse_u32 (drop 7 line) = Some n.
Proof.
  intros Hline Ha Hd Hne Hn. assert (Harg : c_str (drop 7 line) = d).
  { apply (drop_text line (txt "allocn ")); [exact Hline|by repeat constructor]. }
  split; [by dispatch Hline|]. by apply (number_arg _ d).
Qed.

(** The command allocn n always returns, takes exactly min(n, free) frames, where free is the number of free frames,
    and prints that number; it leaves the frame allocator in its invariant and changes nothing else. *)
Theorem allocn_exact L fuel mbi port resets n line s :
  let k := Z.min n (pmm_avail (sy_pmm s)) in
  pmm_ok (sy_pmm s) -> pmm_ready (sy_pmm s) = true -> is_u32 n -> c_str line = txt "allocn " ++ dec_digits n ->
  exists a, run_command L fuel mbi port resets line s =
      (Done tt, set_screen (set_pages s (set_pg_frames (sy_pages s) a))
                  (vga_write (txt "allocated frames: " ++ dec_digits k ++ [10]) (sy_screen s))) /\
    pmm_ok a /\ pmm_avail a = pmm_avail (sy_pmm s) - k.
Proof.
  intros k Hok Hr Hn Hline. destruct (dec_digits_value n Hn) as (Ha & Hf & Hd & Hne).
  destruct (allocn_command L fuel mbi port resets _ n line s Hline Ha Hd Hne Hn) as [-> Hp].
  destruct (allocn_loop n (sy_pmm s) Hok Hr) as (a & El & Ha' & Hav); [unfold is_u32 in Hn; lia|]. fold k in El, Hav.
  exists a. split; [|done]. unfold cmd_allocn. rewrite Hp. erewrite bind_done by reflexivity. rewrite El.
  erewrite bind_done by reflexivity. unfold print, modify. rewrite puts_render. cbn [flat_map render]. rewrite app_nil_r. reflexivity.
Qed.

(** ** Witnesses *)

Lemma queries_only_print_witness :
  exists cs, run_command demo_layout 16 demo_mbi (fun _ => 0) true (txt "psx" ++ [0]) fresh_system =
    (Done tt, set_screen fresh_system (vga_write cs (sy_screen fresh_system))).
Proof. apply (queries_only_print demo_layout 16 demo_mbi (fun _ => 0) true). reflexivity. Defined.

Lemma shell_files_refine_map_witness :
  exists s, run_command demo_layout 16 demo_mbi (fun _ => 0) true (txt "cat note" ++ [0]) s =
    (Done tt, set_screen s (vga_write (txt "cat: file not found" ++ [10]) (sy_screen s))).
Proof.
  destruct demo_booted as (s & Hb). exists s.
  apply (shell_files_refine_map demo_layout 16 demo_mbi (fun _ => 0) true s _ _ (txt "note") (txt "hello")
           (txt "write note hello" ++ [0]) (txt "cat note" ++ [0]) (bd_files _ _ _ Hb)).
  - split_and!; [discriminate|vm_compute; lia|]. by repeat constructor.
  - discriminate.
  - discriminate.
  - repeat (apply Forall_cons; split; [vm_compute; repeat split; discriminate|]). by apply Forall_nil.
  - reflexivity.
  - reflexivity.
  - reflexivity.
Defined.

(** 100 ticks that carry the count past 2^32, with a key pressed meanwhile. *)
Definition demo_ticks : list irq := replicate 50 IrqTimer ++ IrqKeyboard 1 30 :: replicate 50 IrqTimer.
Definition ticking_system : system :=
  set_irqs (set_machine fresh_system (Machine fresh_kernel (m_ipc (sy_machine fresh_system)) (Timer 4294967290 100) 0))
           (demo_ticks ++ [IrqTimer]).

Lemma sleep_exact_witness :
  run_command demo_layout 16 demo_mbi (fun _ => 0) true (txt "sleep 1" ++ [0]) ticking_system =
    (Done tt, set_irqs (handle_all demo_ticks ticking_system) [IrqTimer]).
Proof.
  apply (sleep_exact demo_layout 16 demo_mbi (fun _ => 0) true 1 (txt "sleep 1" ++ [0]) ticking_system).
  - vm_compute. repeat split; discriminate.
  - reflexivity.
  - vm_compute. repeat split; discriminate.
  - reflexivity.
  - reflexivity.
  - reflexivity.
  - right. exists (replicate 50 IrqTimer ++ IrqKeyboard 1 30 :: replicate 49 IrqTimer). reflexivity.
Defined.

Lemma allocn_exact_witness :
  exists a, run_command demo_layout 16 demo_mbi (fun _ => 0) true (txt "allocn 5" ++ [0]) fresh_system =
    (Done tt, set_screen (set_pages fresh_system (set_pg_frames (sy_pages fresh_system) a))
                (vga_write (txt "allocated frames: " ++ dec_digits (Z.min 5 (pmm_avail demo_frames)) ++ [10]) (sy_screen fresh_system))) /\
    pmm_avail a = pmm_avail demo_frames - Z.min 5 (pmm_avail demo_frames).
Proof.
  destruct demo_frames_ok as (Hok & Hinit & _).
  destruct (allocn_exact demo_layout 16 demo_mbi (fun _ => 0) true 5 (txt "allocn 5" ++ [0]) fresh_system) as (a & E & _ & Ha).
  - exact Hok.
  - exact Hinit.
  - unfold is_u32. lia.
  - reflexivity.
  - exists a. split; [exact E|exact Ha].
Defined.
