(* ===== verification/Invariant.v ===== *)
(** The invariant of the running system: whatever is typed, as long as the run stays within
    the model, tasks, processes, messages, keyboard and screen stay in order. *)
From Stdlib Require Import ZArith Lia Bool List Ascii String.
From stdpp Require Import base gmap list numbers option sets.
From S2P Require Import Prelude CStr Interfaces Pmm Paging Reserve Kheap Scheduler Ipc Vfs Keyboard Loader Process Tasks Exec.
From S2P Require Import Syscall Vga Shell Tables Usermode System Commands Boot BootSpec.
#[local] Open Scope Z_scope.

(** ** System calls *)

Section Calls.
Context {A : Type} `{FrameAllocator A}.
Context (bootstrap user_task_entry app_counter app_writer : Z).
Implicit Types (k : kernel A) (m : machine A).

Definition machine_ok m : Prop := kernel_ok (m_kernel m) /\ ipc_ok (m_ipc m).

Lemma send_keeps_ok from to text s : ipc_ok s -> ipc_ok (snd (ipc_send from to (Some text) s)).
Proof.
  intros Hs. destruct (decide (to = 0)) as [->|Hto].
  - unfold ipc_send. rewrite orb_true_r. done.
  - by destruct (send_cases s from to text Hs Hto) as (ok & s' & -> & Hs' & _).
Qed.

Lemma recv_keeps_ok to out n s : ipc_ok s -> length out = n -> ipc_ok (snd (ipc_recv to (Some out) n s)).
Proof.
  intros Hs Hn. destruct (decide (to = 0)) as [->|Hto]; [unfold ipc_recv; by rewrite orb_true_r|].
  destruct n as [|n]; [unfold ipc_recv; by rewrite orb_true_r|].
  by destruct (recv_cases s to out (S n) Hs Hto) as (r & o & f & s' & -> & Hs' & _); [lia|].
Qed.

Lemma spawn_kernel_ok name entry arg is_kernel k :
  kernel_ok k -> kernel_ok (snd (process_spawn_common bootstrap user_task_entry name entry arg is_kernel k)).
Proof. intros Hk. apply (step_kernel_ok bootstrap user_task_entry (fun _ => True) k); [done|]. by constructor. Qed.

Lemma create_kernel_ok entry arg name k :
  kernel_ok k -> kernel_ok (set_k_sched k (snd (scheduler_create_task bootstrap entry arg name (k_sched k)))).
Proof. intros Hk. apply (step_kernel_ok bootstrap user_task_entry (fun _ => True) k); [done|]. by constructor. Qed.

Lemma spawn_named_ok name ps : forall i k, kernel_ok k -> kernel_ok (snd (spawn_named bootstrap user_task_entry name i ps k)).
Proof.
  induction ps as [|p ps IH]; intros i k Hk; cbn [spawn_named]; [done|]. destruct (str_eq _ _); [|by apply IH].
  match goal with |- context [let '(_, _) := ?m in _] => assert (Hs : kernel_ok (snd m)) end.
  { destruct (bool_decide _); by apply spawn_kernel_ok. }
  destruct (if bool_decide _ then _ else _) as [pid k1]. by destruct (pid <? 0).
Qed.

Lemma exec_spawn_ok name k : kernel_ok k -> kernel_ok (snd (exec_spawn bootstrap user_task_entry app_counter app_writer name k)).
Proof. apply spawn_named_ok. Qed.

Lemma vstore_table k0 bs : forall v k, same_table k (vstore k0 v bs k).
Proof.
  induction bs as [|b bs IH]; intros v k; cbn [vstore]; [done|].
  transitivity (vstore8 k0 v b k); [|apply IH]. unfold vstore8. repeat case_match; done.
Qed.

Lemma vstore_kernel_ok k0 v bs k : kernel_ok k -> kernel_ok (vstore k0 v bs k).
Proof. apply same_kernel_ok, vstore_table. Qed.

Lemma vfs_kernel_ok k v : kernel_ok k -> kernel_ok (set_k_vfs k v).
Proof. by apply same_kernel_ok. Qed.

Lemma yield_kernel_ok sp k : kernel_ok k -> kernel_ok (k_yield sp k).
Proof. intros Hk. apply (step_kernel_ok 0 0 (fun _ => True) k); [done|]. by constructor. Qed.

Lemma exit_kernel_ok sp k : kernel_ok k -> kernel_ok (k_exit sp k).
Proof. intros Hk. apply (step_kernel_ok 0 0 (fun _ => True) k); [done|]. by constructor. Qed.

Lemma pending_kernel_ok sp k : kernel_ok k -> kernel_ok (k_run_pending sp k).
Proof. intros Hk. apply (step_kernel_ok 0 0 (fun _ => True) k); [done|]. by constructor. Qed.

Lemma reap_kernel_ok k : kernel_ok k -> kernel_ok (process_reap k).
Proof. intros Hk. apply (step_kernel_ok 0 0 (fun _ => True) k); [done|]. by constructor. Qed.

Lemma tick_kernel_ok k : kernel_ok k -> kernel_ok (k_tick k).
Proof. intros Hk. apply (step_kernel_ok 0 0 (fun _ => True) k); [done|]. by constructor. Qed.

(** No system call, whoever makes it and with whatever registers, breaks the tasks, the
    processes or the messages. *)
Lemma dispatch_ok frame sp m :
  machine_ok m -> machine_ok (snd (syscall_dispatch bootstrap user_task_entry app_counter app_writer frame sp m)).
Proof.
  intros [Hk Hi]. assert (Hm : machine_ok m) by done. unfold syscall_dispatch. destruct (negb _); [done|].
  repeat match goal with |- context [if ?b then _ else _] => destruct b; [try exact Hm|] end; [..|exact Hm].
  - unfold sys_vfs_read. destruct (get_string _ _ _ _) as [name|]; [|done]. destruct (hd 0 name =? 0); [done|].
    destruct (negb _); [done|]. unfold fill_buffer. destruct (vfs_read_file_into _ _ _ _) as [r o].
    split; [by apply vstore_kernel_ok|done].
  - unfold sys_vfs_write. destruct (get_string 40 _ _ _) as [name|]; [|done]. destruct (hd 0 name =? 0); [done|].
    destruct (get_string 128 _ _ _) as [data|]; [|done]. destruct (vfs_write_file _ _ _) as [ok v].
    split; [by apply vfs_kernel_ok|done].
  - unfold sys_exec_spawn. destruct (get_string _ _ _ _) as [name|]; [|done]. destruct (hd 0 name =? 0); [done|].
    pose proof (exec_spawn_ok name (m_kernel m) Hk) as Hs. destruct (exec_spawn _ _ _ _ _ _) as [r k]. split; [exact Hs|done].
  - unfold sys_exec_name_at. destruct (negb _); [done|]. unfold fill_buffer. destruct (exec_name_copy_at _ _ _ _ _) as [r o].
    split; [by apply vstore_kernel_ok|done].
  - unfold sys_ipc_send. destruct (get_string _ _ _ _) as [msg|]; [|done]. destruct (hd 0 msg =? 0); [done|].
    pose proof (send_keeps_ok (process_current_pid (m_kernel m)) (nth 4 frame 0) msg (m_ipc m) Hi) as Hs.
    destruct (ipc_send _ _ _ _) as [ok q]. split; [done|exact Hs].
  - unfold sys_ipc_recv. destruct (negb _); [done|].
    pose proof (recv_keeps_ok (process_current_pid (m_kernel m)) (vload (nth 6 frame 0) (Z.to_nat (nth 5 frame 0)) (m_kernel m))
                  (Z.to_nat (nth 5 frame 0)) (m_ipc m) Hi (vload_length _ _ _)) as Hs.
    destruct (ipc_recv _ _ _ _) as [[[r o] f] q]. split; [by apply vstore_kernel_ok|exact Hs].
  - split; [by apply exit_kernel_ok|done].
Qed.

End Calls.

(** ** The invariant *)

(** The keyboard sends bytes. *)
Definition irq_ok (i : irq) : Prop := match i with IrqTimer => True | IrqKeyboard _ data => 0 <= data < 256 end.

Record sys_ok (s : system) : Prop := {
  so_kernel : kernel_ok (sy_kernel s);
  so_ipc : ipc_ok (m_ipc (sy_machine s));
  so_screen : screen_ok (sy_screen s);
  so_keyboard : keyboard_ok (sy_keyboard s);
  so_irqs : Forall irq_ok (sy_irqs s);
}.

Lemma sys_ok_machine s m : sys_ok s -> machine_ok m -> sys_ok (set_machine s m).
Proof. intros [] []. by split. Qed.

Lemma sys_ok_kernel s k : sys_ok s -> kernel_ok k -> sys_ok (set_kernel s k).
Proof. intros [] ?. by split. Qed.

Section Preservation.
Context (L : layout) (fuel : nat) (mbi : multiboot_info_t) (port : nat -> Z) (resets : bool).
Notation keeps := (preserves sys_ok).

Lemma keeps_modify f : (forall s, sys_ok s -> sys_ok (f s)) -> keeps (modify f).
Proof. intros Hf s. apply Hf. Qed.

Lemma keeps_print os : keeps (print os).
Proof. apply keeps_modify. intros s []. split; try done. by apply puts_ok. Qed.

Lemma keeps_log os : keeps (log os).
Proof. apply keeps_modify. by intros s []. Qed.

Lemma keeps_machine {X : Type} (f : machine pmm_state -> X * machine pmm_state) :
  (forall m, machine_ok m -> machine_ok (snd (f m))) -> keeps (on_machine f).
Proof.
  intros Hf s Hs. unfold on_machine. specialize (Hf (sy_machine s)). destruct (f (sy_machine s)) as [x m]. cbn [snd] in *.
  apply sys_ok_machine; [done|]. apply Hf. split; apply Hs.
Qed.

Lemma keeps_kernel {X : Type} (f : kernel pmm_state -> X * kernel pmm_state) :
  (forall k, kernel_ok k -> kernel_ok (snd (f k))) -> keeps (on_kernel f).
Proof.
  intros Hf s Hs. unfold on_kernel. specialize (Hf (sy_kernel s)). destruct (f (sy_kernel s)) as [x k]. cbn [snd] in *.
  apply sys_ok_kernel; [done|]. apply Hf, Hs.
Qed.

Lemma keeps_modify_kernel f : (forall k, kernel_ok k -> kernel_ok (f k)) -> keeps (modify_kernel f).
Proof. intros Hf. apply keeps_modify. intros s Hs. apply sys_ok_kernel; [done|]. apply Hf, Hs. Qed.

Lemma keeps_pages {X : Type} (f : paging_state pmm_state -> X * paging_state pmm_state) : keeps (on_pages f).
Proof.
  intros s Hs. unfold on_pages. destruct (f (sy_pages s)) as [x p]. apply sys_ok_kernel; [done|].
  apply pages_kernel_ok, Hs.
Qed.

Lemma keeps_pmm {X : Type} (f : pmm_state -> X * pmm_state) : keeps (on_pmm f).
Proof. apply keeps_pages. Qed.

Lemma keeps_ipc {X : Type} (f : ipc_state -> X * ipc_state) : (forall q, ipc_ok q -> ipc_ok (snd (f q))) -> keeps (on_ipc f).
Proof.
  intros Hf. apply keeps_machine. intros m [Hk Hi]. specialize (Hf _ Hi). destruct (f (m_ipc m)) as [x q]. by split.
Qed.

Lemma keeps_settle tid : keeps (settle tid).
Proof. intros s Hs. unfold settle. repeat case_match; try done. destruct Hs. by split. Qed.

Lemma keeps_int80 a b c d : keeps (int80 L a b c d).
Proof. apply keeps_machine. intros m. apply dispatch_ok. Qed.

Lemma keeps_hlt : keeps hlt.
Proof.
  intros s Hs. unfold hlt. destruct (sy_irqs s) as [|i l] eqn:E; [done|]. pose proof Hs as [Hk Hi Hv Hb Hq]. rewrite E in Hq.
  apply Forall_cons_1 in Hq as [Hi0 Hl]. destruct i as [|status data]; split; try assumption.
  - by apply tick_kernel_ok.
  - cbn. unfold keyboard_isr. destruct (_ =? 0); [done|]. by destruct (scancode_cases data (sy_keyboard s) Hb Hi0).
Qed.

#[local] Hint Resolve keeps_print keeps_log keeps_pages keeps_pmm keeps_settle keeps_int80 keeps_hlt : sysm.

Ltac head_of m := lazymatch m with ?f _ => head_of f | _ => m end.
Ltac keep_step :=
  first
    [ apply preserves_ret | apply preserves_stop | apply preserves_gets | apply keeps_print | apply keeps_log
    | apply keeps_settle | apply keeps_int80 | apply keeps_hlt | apply keeps_pmm | apply keeps_pages
    | assumption | solve [auto with sysm nocore]
    | apply yield_kernel_ok | apply exit_kernel_ok | apply pending_kernel_ok | apply reap_kernel_ok | apply vfs_kernel_ok
    | apply vstore_kernel_ok | apply heap_kernel_ok | apply pages_kernel_ok | apply exec_spawn_ok | apply spawn_kernel_ok
    | apply preserves_bind; [|intros ?] | apply preserves_repeat
    | apply keeps_modify_kernel; intros ? ? | apply keeps_kernel; intros ? ?
    | progress cbv zeta | case_match ].
Ltac keep := repeat keep_step.

Lemma keeps_exit : keeps (exit_current L).
Proof. unfold exit_current. keep. Qed.
#[local] Hint Resolve keeps_exit : sysm.

Lemma keeps_fault e a : keeps (paging_handle_page_fault L e a).
Proof. unfold paging_handle_page_fault, paging_log_fault_flags_vga, paging_log_fault_flags_serial. keep. Qed.
#[local] Hint Resolve keeps_fault : sysm.

Lemma keeps_panic : keeps interrupts_fault_panic.
Proof. unfold interrupts_fault_panic. keep. Qed.
#[local] Hint Resolve keeps_panic : sysm.

(** User mode: any code, from any registers, for any number of instructions. *)
Lemma keeps_run_user n : forall r, keeps (run_user L n r).
Proof.
  induction n as [|n IH]; intros r; cbn [run_user]; [keep|]. apply preserves_bind; [keep|]. intros [[[v|v|rel|] len]|f].
  - apply IH.
  - apply preserves_if; [|unfold usermode_exit; keep]. apply preserves_bind; [|intros [x|]; [apply IH|keep]].
    unfold user_int80. keep.
  - apply IH.
  - keep.
  - keep.
Qed.

Lemma keeps_switch entry top : keeps (usermode_switch L fuel entry top).
Proof. apply keeps_run_user. Qed.
#[local] Hint Resolve keeps_switch : sysm.

Lemma keeps_gdt g : keeps (modify (fun s => set_gdt s (g (sy_gdt s)))).
Proof. apply keeps_modify. by intros s []. Qed.
#[local] Hint Resolve keeps_gdt : sysm.

Lemma keeps_conts g : keeps (modify (fun s => set_conts s (g s))).
Proof. apply keeps_modify. by intros s []. Qed.
#[local] Hint Resolve keeps_conts : sysm.

Lemma keeps_slice : keeps (slice L fuel).
Proof.
  assert (Hex : keeps (task_exit L)) by (unfold task_exit; keep).
  assert (Hsu : forall c, keeps (suspend L c)) by (intros c; unfold suspend; keep).
  assert (Hd : forall id i, keeps (demo_task L id i)) by (intros; unfold demo_task; keep).
  assert (Hc : forall id i, keeps (app_counter L id i)) by (intros; unfold app_counter; keep).
  assert (Hw : forall i, keeps (app_writer L i)) by (intros; unfold app_writer; keep; by apply vfs_kernel_ok).
  assert (Hu : keeps (user_task L fuel)) by (unfold user_task; keep).
  unfold slice. apply preserves_bind; [keep|]. intros [[| |]|]; auto. unfold scheduler_task_bootstrap. keep.
Qed.
#[local] Hint Resolve keeps_slice : sysm.

Lemma keeps_resume n : keeps (resume L fuel n).
Proof. induction n as [|n IH]; cbn [resume]; keep. Qed.
#[local] Hint Resolve keeps_resume : sysm.

Lemma keeps_yield : keeps (yield L fuel).
Proof. unfold yield. keep. Qed.

Lemma keeps_pending : keeps (run_pending L fuel).
Proof. unfold run_pending. keep. Qed.

Lemma keeps_reap : keeps reap.
Proof. unfold reap. keep. Qed.
#[local] Hint Resolve keeps_yield keeps_pending keeps_reap : sysm.

(** *** Commands *)

Lemma keeps_spawn name : keeps (spawn L name).
Proof. unfold spawn. keep. Qed.

Lemma keeps_create entry arg name : keeps (create_task L entry arg name).
Proof.
  unfold create_task. apply keeps_kernel. intros k Hk. pose proof (create_kernel_ok (at_bootstrap L) 0 entry arg (Some name) k Hk) as Hc.
  by destruct (scheduler_create_task _ _ _ _ _) as [r s].
Qed.

Lemma keeps_write name data : keeps (write_file name data).
Proof. unfold write_file. apply keeps_kernel. intros k Hk. destruct (vfs_write_file _ _ _) as [ok v]. by apply vfs_kernel_ok. Qed.

Lemma keeps_malloc n : keeps (malloc n).
Proof. unfold malloc. apply keeps_kernel. intros k Hk. destruct (kh_malloc _ _) as [x h]. by apply heap_kernel_ok. Qed.

Lemma keeps_prepare : keeps prepare.
Proof.
  intros s Hs. unfold prepare. destruct (usermode_prepare _) as [ok u].
  pose proof (sys_ok_kernel s _ Hs (pages_kernel_ok (um_pages u) _ (so_kernel s Hs))) as Hp. destruct Hp. by split.
Qed.

Lemma keeps_send from to text : keeps (on_ipc (ipc_send from to (Some text))).
Proof. apply keeps_ipc. intros q. apply send_keeps_ok. Qed.

#[local] Hint Resolve keeps_spawn keeps_create keeps_write keeps_malloc keeps_prepare keeps_send : sysm.

Lemma keeps_selftest : keeps (kernel_run_selftest L fuel).
Proof.
  assert (Hy : keeps (yield_and_reap L fuel)) by (unfold yield_and_reap; keep).
  assert (Hr : forall n c, keeps (stress_rounds L fuel n c)) by (induction n as [|n IH]; intros c; cbn [stress_rounds]; keep).
  unfold kernel_run_selftest, spawn_user. keep.
Qed.

Lemma keeps_stressproc rounds : keeps (stressproc L fuel rounds).
Proof.
  assert (Hy : keeps (yield_and_reap L fuel)) by (unfold yield_and_reap; keep).
  assert (Hr : forall n c f, keeps (stressproc_rounds L fuel n c f)) by (induction n as [|n IH]; intros c f; cbn [stressproc_rounds]; keep).
  unfold stressproc. keep.
Qed.

Lemma keeps_sleep n : keeps (sleep_ticks n).
Proof.
  assert (Hl : forall m start, keeps (sleep_loop m start n)) by (induction m as [|m IH]; intros start; cbn [sleep_loop]; keep).
  unfold sleep_ticks. keep.
Qed.

Lemma keeps_recv : keeps cmd_recv.
Proof.
  unfold cmd_recv. apply preserves_bind; [keep|]. intros me. apply preserves_bind; [|intros ?; keep]. apply keeps_ipc. intros q Hq.
  pose proof (recv_keeps_ok me (replicate 64 0) 64 q Hq eq_refl) as Hr. by destruct (ipc_recv _ _ _ _) as [[[r o] f] q'].
Qed.

Lemma keeps_clear : keeps cmd_clear.
Proof. apply keeps_modify. intros s []. split; try done. by apply clear_ok. Qed.

#[local] Hint Resolve keeps_selftest keeps_stressproc keeps_sleep keeps_recv keeps_clear : sysm.

Lemma keeps_command line : keeps (run_command L fuel mbi port resets line).
Proof.
  unfold run_command.
  repeat (lazymatch goal with |- preserves _ (if _ then _ else _) => apply preserves_if end);
    repeat first [solve [keep]|lazymatch goal with |- preserves _ ?m => let h := head_of m in unfold h end].
Qed.

(** *** The shell *)

(** An action whose result has a property as well. *)
Definition gives {X : Type} (Q : X -> Prop) (m : M X) : Prop :=
  forall s, sys_ok s -> sys_ok (snd (m s)) /\ match fst (m s) with Done x => Q x | _ => True end.

Lemma gives_bind {X Y : Type} (Q : X -> Prop) (R : Y -> Prop) (m : M X) (f : X -> M Y) :
  gives Q m -> (forall x, Q x -> gives R (f x)) -> gives R (m ≫= f).
Proof.
  intros Hm Hf s Hs. specialize (Hm s Hs). cbv [mbind M_bind]. destruct (m s) as [[x| | |] s']; cbn [fst snd] in *; try tauto.
  destruct Hm as [Hs' Hx]. by apply Hf.
Qed.

Lemma gives_keeps {X : Type} (m : M X) : keeps m -> gives (fun _ => True) m.
Proof. intros Hm s Hs. split; [by apply Hm|]. by destruct (fst (m s)). Qed.

Lemma gives_ret {X : Type} (Q : X -> Prop) (x : X) : Q x -> gives Q (mret x).
Proof. by intros Hx s Hs. Qed.

(** Editors in the middle of a line and between two lines, on any screen. *)
Definition editing (ed : editor) : Prop := exists v, forall w, screen_ok w -> editor_rep (with_screen ed w) v.
Definition idle (ed : editor) : Prop := exists hist, forall w, screen_ok w -> shell_idle (with_screen ed w) hist.

Lemma rep_editing ed v : editor_rep ed v -> editing ed.
Proof. intros []. exists v. intros w Hw. by split. Qed.

Lemma gives_editor {X : Type} (Q : X -> Prop) (f : editor -> X) ed :
  (forall w, screen_ok w -> Q (f (with_screen ed w))) -> gives Q (on_editor f ed).
Proof. intros Hf s Hs. split; [done|]. apply Hf, Hs. Qed.

Lemma gives_show ed : screen_ok (ed_screen ed) -> gives (fun _ => True) (show_editor ed).
Proof. intros Hw s []. split; [|done]. by split. Qed.

Lemma gives_getchar : gives (fun _ => True) getchar.
Proof.
  intros s Hs. pose proof Hs as [Hk Hi Hv Hb Hq]. unfold getchar. pose proof (getchar_cases (sy_keyboard s) Hb) as Hc.
  destruct (queue (sy_keyboard s)) as [|c q]; [rewrite Hc; by destruct s|].
  destruct Hc as (b & -> & _ & Hb' & _). split; [|done]. by split.
Qed.

Lemma gives_key c ed : editing ed -> c <> 0 ->
  gives (fun r => match r with inl e | inr e => editing e /\ screen_ok (ed_screen e) end) (on_editor (shell_key c) ed).
Proof.
  intros [v Hv] Hc. apply gives_editor. intros w Hw. specialize (Hv w Hw). destruct (decide (c = 10)) as [->|H10].
  - destruct (shell_key_enter _ _ Hv) as (e & -> & He). split; [by apply (rep_editing e v)|apply He].
  - destruct (shell_key_rep c _ _ Hv Hc H10) as (e & -> & He). split; [by apply (rep_editing e (edit c v))|apply He].
Qed.

Lemma gives_read_line n : forall ed, editing ed -> gives editing (read_line L fuel n ed).
Proof.
  induction n as [|n IH]; intros ed He; cbn [read_line]; [by intros s Hs|].
  apply (gives_bind (fun _ => True)); [apply gives_keeps, keeps_pending|intros _ _].
  apply (gives_bind (fun _ => True)); [apply gives_keeps, keeps_reap|intros _ _].
  apply (gives_bind (fun _ => True)); [apply gives_getchar|intros c _]. destruct (Z.eqb_spec c 0) as [->|Hc].
  - apply (gives_bind (fun _ => True)); [apply gives_keeps, keeps_hlt|intros _ _]. by apply IH.
  - eapply gives_bind; [by apply gives_key|]. intros [e|e] [He' Hw];
      (apply (gives_bind (fun _ => True)); [by apply gives_show|intros _ _]); [by apply IH|by apply gives_ret].
Qed.

Lemma editing_idle ed : editing ed -> idle (remember_line ed).
Proof.
  intros [v Hv]. set (hist := remember (c_str (ed_line ed)) (v_hist v)). exists hist. intros w Hw. specialize (Hv w Hw).
  pose proof Hv as [Hl Hlen Hc Hp Hh _ _ _]. cbn [with_screen ed_line ed_history ed_hcount] in Hl, Hh.
  assert (Ht : (length (c_str (ed_line ed)) < SHELL_LINE_MAX)%nat).
  { pose proof (holds_line_len _ _ Hl) as Hlt. destruct Hl as (_ & Hnz & rest & ->). rewrite c_str_app by done. cbn. by rewrite app_nil_r. }
  pose proof (store_history_rep _ _ _ _ Hh Ht) as Hs. unfold remember_line. destruct (shell_store_history _ _ _) as [h' c'].
  split; [apply Hl|exact Hs|exact Hw].
Qed.

Lemma gives_turn ed : idle ed -> gives idle (shell_turn L fuel mbi port resets ed).
Proof.
  intros [hist Hi]. unfold shell_turn.
  apply (gives_bind (fun e => editing e /\ screen_ok (ed_screen e))).
  { apply gives_editor. intros w Hw. pose proof (shell_prompt_rep _ _ (Hi w Hw)) as Hr. split; [by apply (rep_editing _ _ Hr)|apply Hr]. }
  intros e [He Hw]. apply (gives_bind (fun _ => True)); [by apply gives_show|intros _ _].
  apply (gives_bind editing); [by apply gives_read_line|]. intros e' He'. cbv zeta.
  apply (gives_bind (fun _ => True)); [apply gives_keeps, keeps_command|intros _ _]. apply gives_ret. by apply editing_idle.
Qed.

Lemma gives_shell n : forall ed, idle ed -> gives (fun _ => True) (shell L fuel mbi port resets n ed).
Proof.
  induction n as [|n IH]; intros ed Hi; cbn [shell]; [by intros s Hs|]. apply (gives_bind idle); [by apply gives_turn|auto].
Qed.

(** *** From the start *)

Definition input_ok (s : system) : Prop := keyboard_ok (sy_keyboard s) /\ Forall irq_ok (sy_irqs s).

Lemma booted_ok I r s : booted I r s -> input_ok s -> sys_ok s.
Proof.
  intros [] [Hb Hq]. split; [|by destruct bd_ipc|done|done|done]. destruct bd_tasks as [Hs _], bd_table as (Ht & Hc & _).
  split; [done|done|]. unfold process_count in Hc. by destruct (process_ready (sy_kernel s)).
Qed.

Lemma components_input I : preserves input_ok (boot_components I).
Proof.
  assert (Hkeep : forall s s', input_ok s -> sy_keyboard s' = sy_keyboard s -> sy_irqs s' = sy_irqs s -> input_ok s')
    by (intros s s' [] Hk Hi; split; congruence).
  assert (Hm : forall X (f : machine pmm_state -> X * machine pmm_state), preserves input_ok (on_machine f))
    by (intros X f s Hs; unfold on_machine; destruct (f _); by apply (Hkeep s)).
  assert (Hk : forall X (f : kernel pmm_state -> X * kernel pmm_state), preserves input_ok (on_kernel f))
    by (intros X f s Hs; unfold on_kernel; destruct (f _); by apply (Hkeep s)).
  assert (Hs : forall t, preserves input_ok (say t)) by (intros t s Hs; by apply (Hkeep s)).
  assert (Hd : forall t, preserves input_ok (die t)) by (intros t; apply preserves_bind; [auto|intros; apply preserves_stop]).
  assert (Hp : preserves input_ok prepare) by (intros s Hs'; unfold prepare; destruct (usermode_prepare _); by apply (Hkeep s)).
  unfold boot_components.
  repeat first [apply preserves_bind; [|intros ?] | apply preserves_if | apply preserves_ret | apply Hs | apply Hd | apply Hp
               | apply Hm | apply Hk | by intros s Hs'; apply (Hkeep s)].
Qed.

Lemma keeps_report : keeps boot_report.
Proof. unfold boot_report, say. keep. Qed.

Lemma gives_shell_after (m : M unit) n ed s :
  keeps m -> idle ed -> sys_ok s -> sys_ok (snd ((m;; shell L fuel mbi port resets n ed) s)).
Proof. intros Hm Hed Hs. apply (gives_bind (fun _ => True) (fun _ => True)); [by apply gives_keeps| |done]. intros _ _. by apply gives_shell. Qed.

End Preservation.

(** ** Theorem *)

(** C1. The invariant of the whole system. Start the kernel after the set-up of the hardware, within the bounds of
    [boot_state] (at most 1 GiB of memory, 36 frames more than the identity map needs, at most 196000 free frames), and
    let it run the self-test and any number of shell turns with any keys and any commands, to any point at which it
    waits, halts or leaves the model: exactly one task runs, it is the current one, and task 0 is never lost; the
    processes have different identifiers, the rights of their kind, and entry points inside their code page; the
    messages, the keyboard's queue, the screen and all static arrays are within bounds. The run leaves the model
    ([Unknown]) when a user program reaches an instruction other than the three the kernel emits, and when a command
    on raw memory reaches memory the kernel may be using: [vmfault] with a page mapped at its address, [vmunmap] of a
    page of the identity map or of the heap, [free] of a frame that is a table or mapped. *)
Theorem system_invariant L I fuel mbi port resets n ed s :
  boot_state I s -> input_ok s -> idle ed ->
  sys_ok (snd ((boot_software L I fuel;; shell L fuel mbi port resets n ed) s)).
Proof.
  intros Hb Hi Hed. destruct (components_booted I s Hb) as (s1 & E & H1).
  assert (Hin : input_ok s1) by (pose proof (components_input I s Hi) as Hc; by rewrite E in Hc).
  unfold boot_software.
  set (sh := shell L fuel mbi port resets n ed).
  assert (Hassoc : forall (m : M unit), ((boot_components I;; m);; sh) s = (m;; sh) s1).
  { intros m. cbv [mbind M_bind]. by rewrite E. }
  rewrite Hassoc. apply gives_shell_after; [|done|by apply (booted_ok I (spare (sy_pages s)))].
  apply preserves_bind; [apply keeps_report|intros _]. apply preserves_bind; [apply keeps_selftest|intros ok].
  apply preserves_bind; [|intros _; apply keeps_print].
  apply preserves_if; [|apply preserves_ret]. apply preserves_bind; [apply keeps_print|intros _].
  apply preserves_bind; [apply keeps_log|intros _; apply preserves_stop].
Qed.

Lemma fresh_input : input_ok fresh_system.
Proof. split; [|by constructor]. split; cbn; [lia|lia|done|by constructor]. Qed.

Lemma demo_idle : idle demo_editor.
Proof. exists []. intros w Hw. destruct demo_editor_idle as [Hl Hh _]. by split. Qed.

Lemma system_invariant_witness :
  sys_ok (snd ((boot_software demo_layout demo_image 100;; shell demo_layout 100 demo_mbi (fun _ => 0) true 3 demo_editor) fresh_system)).
Proof. exact (system_invariant demo_layout demo_image 100 demo_mbi (fun _ => 0) true 3 demo_editor fresh_system fresh_boot_state fresh_input demo_idle). Defined.
