(* ===== verification/TaskSpec.v ===== *)
(** The tasks at run time: what a page fault does, what the emitted programs do in user
    mode, and that the main task always runs again. *)
From Stdlib Require Import ZArith Lia Bool List Ascii String.
From stdpp Require Import base gmap list numbers option sets.
From S2P Require Import Prelude CStr Interfaces Pmm Paging Reserve Kheap Scheduler Ipc Vfs Keyboard Loader Process Tasks Space Exec.
From S2P Require Import Syscall Vga Shell Tables Usermode System Commands Boot BootSpec Invariant.
#[local] Open Scope Z_scope.

(** ** Switches *)

Section Switch.
Context {A : Type} `{FrameAllocator A}.
Implicit Types (k : kernel A).

(** Everything but the tasks and the active directory: the contents of memory, of the
    heap and of the page tables, the frames, the files and the processes. *)
Definition same_memory k k' : Prop :=
  pg_mem (k_pages k') = pg_mem (k_pages k) /\ pg_frames (k_pages k') = pg_frames (k_pages k) /\
  hp_mem (k_heap k') = hp_mem (k_heap k) /\ k_files k' = k_files k /\ process_table k' = process_table k /\
  next_pid k' = next_pid k.

Lemma switch_memory dir k : same_memory k (switch_directory dir k).
Proof. unfold switch_directory, paging_switch_directory. repeat case_match; done. Qed.

Lemma on_sched_memory f k :
  (forall act, sc_heap (fst (f act (k_sched k))) = sc_heap (k_sched k)) -> same_memory k (on_sched f k).
Proof.
  intros Hf. unfold on_sched. set (act := fun tid _ => _). specialize (Hf act). destruct (f act (k_sched k)) as [s r].
  cbn [fst] in Hf. assert (Hs : same_memory k (set_k_sched k s)) by (unfold same_memory, k_pages, k_heap; cbn; by rewrite Hf).
  destruct r; [|done]. pose proof (switch_memory (sc_env s) (set_k_sched k s)) as (? & ? & ? & ? & ? & ?).
  destruct Hs as (? & ? & ? & ? & ? & ?). split_and!; congruence.
Qed.

Lemma exit_heap act sp (s : sched (kheap (paging_state A)) Z) : sc_heap (fst (scheduler_exit_current act sp s)) = sc_heap s.
Proof. unfold scheduler_exit_current, scheduler_task_exit. repeat case_match; done. Qed.

Lemma yield_heap act sp (s : sched (kheap (paging_state A)) Z) : sc_heap (fst (scheduler_yield act sp s)) = sc_heap s.
Proof. unfold scheduler_yield. repeat case_match; done. Qed.

Lemma on_sched_sched f k :
  exists act, tasks (k_sched (on_sched f k)) = tasks (fst (f act (k_sched k))) /\
              current_task (k_sched (on_sched f k)) = current_task (fst (f act (k_sched k))).
Proof.
  unfold on_sched. set (act := fun tid _ => _). exists act. destruct (f act (k_sched k)) as [s r]. by destruct r.
Qed.

(** The current task leaves the processor in state [st] to the first runnable one. *)
Definition left_for k (st : task_state_t) (sp : Z) (n : nat) k' : Prop :=
  first_runnable (k_sched k) n /\ n <> current_task (k_sched k) /\ (n < MAX_TASKS)%nat /\ kernel_ok k' /\
  current_task (k_sched k') = n /\
  tasks (k_sched k') = switched (current_task (k_sched k)) n st sp (tasks (k_sched k)) /\ same_memory k k'.

Lemma k_exit_cases sp k :
  kernel_ok k -> current_task (k_sched k) <> 0%nat -> exists n, left_for k TASK_ZOMBIE sp n (k_exit sp k).
Proof.
  intros Hk Hz. pose proof (exit_kernel_ok sp k Hk) as Hk'. unfold k_exit in *.
  destruct (on_sched_sched (fun act => scheduler_exit_current act sp) k) as (act & Ht & Hc).
  destruct (exit_states act sp (k_sched k) (ko_states _ Hk) Hz) as (n & Hf & Hne & Hn & _ & Hcur & Htk). exists n.
  split_and!; [done|done|done|done|congruence|congruence|]. apply on_sched_memory. intros. apply exit_heap.
Qed.

Lemma k_yield_cases sp k :
  kernel_ok k ->
  (none_runnable (k_sched k) /\ current_task (k_sched k) = 0%nat /\ k_yield sp k = k) \/
  exists n, left_for k TASK_RUNNABLE sp n (k_yield sp k).
Proof.
  intros Hk. pose proof (yield_kernel_ok sp k Hk) as Hk'. unfold k_yield in *.
  assert (Hnone : (none_runnable (k_sched k) /\ current_task (k_sched k) = 0%nat) \/ ~ (none_runnable (k_sched k) /\ current_task (k_sched k) = 0%nat)).
  { destruct (yield_states (fun _ e => e) sp (k_sched k) (ko_states _ Hk)) as [(H1 & H2 & _)|(n & (i & Hi & Heq & Hr & _) & Hne & Hn & _)]; [by left|].
    right. intros [H1 _]. by apply (H1 n Hn). }
  destruct Hnone as [[Hn Hc]|Hn].
  - left. split_and!; [done|done|]. unfold on_sched. set (act := fun tid _ => _).
    destruct (yield_states act sp (k_sched k) (ko_states _ Hk)) as [(_ & _ & ->)|(n & (i & Hi & Heq & Hr & _) & Hne & Hlt & _)]; [by destruct k|].
    by destruct (Hn n Hlt).
  - right. destruct (on_sched_sched (fun act => scheduler_yield act sp) k) as (act & Ht & Hc).
    destruct (yield_states act sp (k_sched k) (ko_states _ Hk)) as [(H1 & H2 & _)|(n & Hf & Hne & Hlt & _ & Hcur & Htk)]; [by destruct Hn|].
    exists n. split_and!; [done|done|done|done|congruence|congruence|]. apply on_sched_memory. intros. apply yield_heap.
Qed.

End Switch.

Section Faults.
Context (L : layout).

(** The system after the current task has ended. *)
Definition ended (s : system) : system :=
  set_conts (set_kernel s (k_exit (at_switch_sp L) (sy_kernel s))) (delete (current s) (sy_conts s)).

Lemma exit_current_ends s :
  kernel_ok (sy_kernel s) -> current s <> 0%nat ->
  exit_current L s = (Done false, ended s) /\ exists n, left_for (sy_kernel s) TASK_ZOMBIE (at_switch_sp L) n (sy_kernel (ended s)).
Proof.
  intros Hk Hc. destruct (k_exit_cases (at_switch_sp L) (sy_kernel s) Hk Hc) as (n & Hn). split; [|by exists n].
  pose proof Hn as (_ & Hne & _ & _ & Hcur & _). unfold exit_current. erewrite bind_done by reflexivity.
  erewrite bind_done by reflexivity. unfold settle. change (current (set_kernel s _)) with (current_task (k_sched (k_exit (at_switch_sp L) (sy_kernel s)))).
  rewrite Hcur. by rewrite (proj2 (Nat.eqb_neq _ _)).
Qed.

(** C15. A page fault of a user task is contained: it ends that task, whose slot becomes a zombie, and another task runs;
    no other task, no memory, no file, no process and no message changes, and the kernel's invariant holds. A fault in
    kernel mode, or in the main task, changes nothing but the screen and the serial line and stops the machine. *)
Theorem page_fault_contained error cr2 s :
  kernel_ok (sy_kernel s) ->
  if has_bit error 4 && negb (current s =? 0)%nat then
    exists s' n, paging_handle_page_fault L error cr2 s = (Done tt, s') /\
      left_for (sy_kernel s) TASK_ZOMBIE (at_switch_sp L) n (sy_kernel s') /\ current s' = n /\
      m_ipc (sy_machine s') = m_ipc (sy_machine s) /\ m_timer (sy_machine s') = m_timer (sy_machine s) /\
      user_ping_count (sy_machine s') = user_ping_count (sy_machine s) /\
      sy_keyboard s' = sy_keyboard s /\ sy_conts s' = delete (current s) (sy_conts s)
  else
    exists s', paging_handle_page_fault L error cr2 s = (Halted, s') /\ sy_machine s' = sy_machine s.
Proof.
  intros Hk. unfold paging_handle_page_fault, paging_log_fault_flags_vga, paging_log_fault_flags_serial.
  erewrite bind_done by reflexivity. erewrite bind_done by reflexivity. unfold scheduler_current_task_id.
  replace (Z.of_nat (current_task (sy_sched s)) =? 0) with (current s =? 0)%nat
    by (unfold current; destruct (Nat.eqb_spec (current_task (sy_sched s)) 0) as [->|]; symmetry; [done|apply Z.eqb_neq; lia]).
  destruct (has_bit error 4 && negb _) eqn:Eb.
  - apply andb_true_iff in Eb as [_ Hc]. apply negb_true_iff, Nat.eqb_neq in Hc.
    do 6 (erewrite bind_done by reflexivity). set (s1 := set_serial _ _).
    destruct (exit_current_ends s1 Hk Hc) as (E & n & Hn). exists (ended s1), n. rewrite (bind_done _ _ _ _ _ E).
    split; [done|]. split; [exact Hn|]. split; [apply Hn|done].
  - do 6 (erewrite bind_done by reflexivity). eexists. split; [reflexivity|]. done.
Qed.

(** ** User programs *)

(** The bytes a user task can fetch at [v]. *)
Definition code_at (s : system) (v : Z) (bs : list Z) : Prop := forall i b, bs !! i = Some b -> fetch8 (v + Z.of_nat i) s = Some b.

Lemma code_at_app s v a b : code_at s v (a ++ b) -> code_at s v a /\ code_at s (v + Z.of_nat (length a)) b.
Proof.
  intros Hc. split; intros i x Hi.
  - apply Hc. by apply lookup_app_l_Some.
  - rewrite <- Z.add_assoc, <- Nat2Z.inj_add. apply Hc. by rewrite lookup_app_r, Nat.add_sub' by lia.
Qed.

Lemma fetch_code n : forall s v bs,
  code_at s v bs -> (n <= length bs)%nat -> 0 <= v -> v + Z.of_nat (length bs) <= 4294967296 -> fetch n v s = inl (take n bs).
Proof.
  induction n as [|n IH]; intros s v bs Hc Hn Hv Hl; cbn [fetch]; [done|]. destruct bs as [|b bs]; cbn [length] in *; [lia|].
  pose proof (Hc 0%nat b eq_refl) as Hb. rewrite Z.add_0_r in Hb. rewrite Hb.
  destruct (decide (n = 0%nat)) as [->|Hne]; [done|]. assert (0 < length bs)%nat by lia. rewrite u32_small by lia.
  rewrite (IH s (v + 1) bs); [done| |lia|lia|lia].
  destruct (code_at_app s v [b] bs Hc) as [_ Hr]. exact Hr.
Qed.

Lemma fetch_insn_code s v op bs :
  code_at s v (op :: bs) -> (insn_length op <= length (op :: bs))%nat -> 0 <= v -> v + Z.of_nat (length (op :: bs)) <= 4294967296 ->
  fetch_insn v s = inl (decode_insn (take (insn_length op) (op :: bs)), insn_length op).
Proof.
  intros Hc Hl Hv Hb. unfold fetch_insn. pose proof (Hc 0%nat op eq_refl) as H0. rewrite Z.add_0_r in H0. rewrite H0.
  by rewrite (fetch_code _ s v (op :: bs)).
Qed.

(** [n] pings counted. *)
Definition pings (n : Z) (s : system) : system :=
  set_machine s (set_m_ping (sy_machine s) (u32 (user_ping_count (sy_machine s) + n))).

Lemma pings_add a b s : pings b (pings a s) = pings (a + b) s.
Proof.
  unfold pings. cbn. f_equal. unfold set_m_ping. cbn. f_equal. unfold u32. rewrite Zplus_mod_idemp_l. f_equal. lia.
Qed.

Lemma code_at_pings n s v bs : code_at s v bs -> code_at (pings n s) v bs.
Proof. done. Qed.

Lemma user_int80_ping r s :
  kernel_ok (sy_kernel s) -> process_syscall_allowed SYSCALL_USER_PING (sy_kernel s) = true -> eax r = SYSCALL_USER_PING ->
  user_int80 L r s = (Done (Some (u32 (user_ping_count (sy_machine s) + 1))), pings 1 s).
Proof.
  intros Hk Ha Hr. unfold user_int80. erewrite bind_done by reflexivity.
  assert (Hd : forall f sp, nth 7 f 0 = SYSCALL_USER_PING ->
    syscall_dispatch (at_bootstrap L) (at_user_task_entry L) (at_app_counter L) (at_app_writer L) f sp (sy_machine s) =
    (u32 (user_ping_count (sy_machine s) + 1), set_m_ping (sy_machine s) (u32 (user_ping_count (sy_machine s) + 1)))).
  { intros f sp Hf. unfold syscall_dispatch. change (m_kernel (sy_machine s)) with (sy_kernel s). rewrite Hf, Ha. reflexivity. }
  rewrite (bind_done _ _ _ (u32 (user_ping_count (sy_machine s) + 1)) (pings 1 s)) by (unfold on_machine; by rewrite Hd).
  rewrite (bind_done _ _ _ true (pings 1 s)); [done|]. unfold settle. change (current (pings 1 s)) with (current s). rewrite Nat.eqb_refl.
  change (tasks (sy_sched (pings 1 s))) with (tasks (sy_sched s)). destruct (bool_decide_reflect (state_at (tasks (sy_sched s)) (current s) = TASK_ZOMBIE)) as [Hz|]; [|done].
  pose proof (ko_states _ Hk) as Hst. pose proof (proj2 (st_running _ Hst _ (st_current _ Hst)) eq_refl) as Hrun.
  unfold current, sy_sched in Hz. congruence.
Qed.

(** One ping of the emitted program: two instructions. *)
Lemma run_ping n r s rest :
  kernel_ok (sy_kernel s) -> process_syscall_allowed SYSCALL_USER_PING (sy_kernel s) = true ->
  code_at s (eip r) (ping_bytes ++ rest) -> 0 <= eip r -> eip r + 7 + Z.of_nat (length rest) <= 4294967296 -> (0 < length rest)%nat ->
  exists r', run_user L (S (S n)) r s = run_user L n r' (pings 1 s) /\ eip r' = eip r + 7 /\
    eax r' = u32 (user_ping_count (sy_machine s) + 1) /\ ebx r' = ebx r /\ ecx r' = ecx r /\ edx r' = edx r.
Proof.
  intros Hk Ha Hc Hv Hl Hne. cbn [run_user]. erewrite bind_done by reflexivity.
  assert (E1 : fetch_insn (eip r) s = inl (MovEax 17, 5%nat)).
  { rewrite (fetch_insn_code s (eip r) 184 (drop 1 ping_bytes ++ rest)); [done|exact Hc|cbn; lia|done|cbn; lia]. }
  rewrite E1. set (r1 := jump (set_eax r 17) (eip r + Z.of_nat 5)). erewrite bind_done by reflexivity.
  assert (Hv1 : eip r1 = eip r + 5) by (apply u32_small; lia).
  assert (E2 : fetch_insn (eip r1) s = inl (Int 128, 2%nat)).
  { rewrite Hv1. change (ping_bytes ++ rest) with ([184; 17; 0; 0; 0] ++ 205 :: 128 :: rest) in Hc.
    apply code_at_app in Hc as [_ Hc]. cbn [length] in Hc. change (Z.of_nat 5) with 5 in Hc.
    rewrite (fetch_insn_code s (eip r + 5) 205 (128 :: rest)); [done|exact Hc|cbn; lia|lia|cbn [length]; lia]. }
  rewrite E2. change (128 =? 128) with true. cbv iota.
  rewrite (bind_done _ _ _ _ _ (user_int80_ping r1 s Hk Ha eq_refl)). eexists. split; [reflexivity|]. split; [|done].
  change (u32 (eip r1 + Z.of_nat 2) = eip r + 7). rewrite Hv1, u32_small; lia.
Qed.

Lemma program_length n : length (concat (replicate n ping_bytes)) = (7 * n)%nat.
Proof. induction n as [|n IH]; [done|]. cbn [replicate concat]. rewrite length_app, IH. cbn [length ping_bytes]. lia. Qed.

Lemma run_pings n : forall fuel r s,
  kernel_ok (sy_kernel s) -> process_syscall_allowed SYSCALL_USER_PING (sy_kernel s) = true -> is_u32 (user_ping_count (sy_machine s)) ->
  code_at s (eip r) (concat (replicate n ping_bytes) ++ exit_bytes) -> 0 <= eip r ->
  eip r + Z.of_nat (7 * n + 4) <= 4294967296 -> (2 * n < fuel)%nat ->
  run_user L fuel r s = usermode_exit L (pings (Z.of_nat n) s).
Proof.
  induction n as [|n IH]; intros fuel r s Hk Ha Hu Hc Hv Hl Hf.
  - destruct fuel as [|fuel]; [lia|]. cbn [run_user]. erewrite bind_done by reflexivity.
    rewrite (fetch_insn_code s (eip r) 205 [129; 235; 254]); [|exact Hc|cbn; lia|done|cbn; lia].
    replace (pings (Z.of_nat 0) s) with s; [done|]. unfold pings. rewrite Z.add_0_r, u32_small by (unfold is_u32 in Hu; lia).
    by destruct s as [[] ? ? ? ? ? ? ? ? ?].
  - destruct fuel as [|[|fuel]]; [lia|lia|]. cbn [replicate concat] in Hc. rewrite <- app_assoc in Hc.
    destruct (run_ping fuel r s (concat (replicate n ping_bytes) ++ exit_bytes)) as (r' & -> & Hr' & _); [done|done|done|done|rewrite length_app, program_length; cbn; lia| |].
    { rewrite length_app. cbn. lia. }
    apply code_at_app in Hc as [_ Hc]. change (Z.of_nat (length ping_bytes)) with 7 in Hc. rewrite <- Hr' in Hc.
    rewrite (IH fuel r' (pings 1 s)); [|done|done|unfold is_u32; cbn; apply Z.mod_pos_bound; lia|done|lia|rewrite Hr'; lia|lia].
    rewrite pings_add. do 2 f_equal. lia.
Qed.

(** The active directory gives user code the frame [cf] at the address of the code page. *)
Record code_mapped (s : system) (cf : Z) : Prop := {
  cm_enabled : paging_is_enabled (sy_pages s) = true;
  cm_user : active_user (sy_pages s) PROCESS_USER_CODE_VADDR;
  cm_frame : paging_translate PROCESS_USER_CODE_VADDR (sy_pages s) = Some cf;
}.

Lemma fetch_mapped s cf o :
  code_mapped s cf -> 0 <= o < 4096 -> fetch8 (PROCESS_USER_CODE_VADDR + o) s = Some (rd8 (pg_mem (sy_pages s)) (cf + o)).
Proof.
  intros [He Hu Hf] Ho. set (v := PROCESS_USER_CODE_VADDR + o).
  assert (Hv : is_u32 v) by (unfold v, is_u32, PROCESS_USER_CODE_VADDR; lia).
  assert (Hc : is_u32 PROCESS_USER_CODE_VADDR) by (unfold is_u32, PROCESS_USER_CODE_VADDR; lia).
  assert (Hp : page_of PROCESS_USER_CODE_VADDR = page_of v).
  { unfold v, page_of, PROCESS_USER_CODE_VADDR. change (1073741824 / 4096) with 262144. apply (Z.div_unique _ _ _ o); lia. }
  unfold fetch8. destruct (user_accessible_cases (sy_pages s) v 1 He Hv ltac:(unfold is_u32; lia)) as (b & -> & Hb).
  assert (b = true) as ->.
  { apply Hb. split_and!; [lia|unfold is_u32 in Hv; lia|]. intros w Hw. replace w with v by lia.
    by apply (user_page_same _ _ PROCESS_USER_CODE_VADDR). }
  cbn [default]. unfold vload8.
  assert (Hh : in_heap v (sy_kernel s) = false).
  { unfold in_heap. apply andb_false_iff. left. apply Z.leb_gt. unfold v, KHEAP_START, PROCESS_USER_CODE_VADDR. lia. }
  rewrite Hh. change (k_pages (sy_kernel s)) with (sy_pages s). rewrite translate_eq in Hf |- * by done.
  rewrite (lookup_same_page _ _ v PROCESS_USER_CODE_VADDR Hv Hc Hp) in Hf.
  destruct (lookup_page _ _ v) as [pte|]; [|done]. cbn in Hf |- *. injection Hf as <-. do 2 f_equal.
  unfold v, PROCESS_USER_CODE_VADDR. change (1073741824 `mod` 4096) with 0.
  rewrite <- (Z.mod_unique (1073741824 + o) 4096 262144 o) by lia. lia.
Qed.

Lemma user_ping_call : SYSCALL_USER_PING ∈ user_calls.
Proof. apply (bool_decide_eq_true_1 (SYSCALL_USER_PING ∈ user_calls)). reflexivity. Qed.

(** A program of [n] pings and an exit, in the frame of the code page. *)
Lemma program_runs n cf fuel r s i :
  kernel_ok (sy_kernel s) -> current s <> 0%nat -> is_u32 (user_ping_count (sy_machine s)) -> user_runs (sy_kernel s) i ->
  code_mapped s cf -> (n <= 32)%nat ->
  (forall j b, (concat (replicate n ping_bytes) ++ exit_bytes) !! j = Some b -> rd8 (pg_mem (sy_pages s)) (cf + Z.of_nat j) = b) ->
  eip r = PROCESS_USER_CODE_VADDR -> (2 * n < fuel)%nat ->
  run_user L fuel r s = (Done tt, ended (pings (Z.of_nat n) s)) /\
  exists m, left_for (sy_kernel s) TASK_ZOMBIE (at_switch_sp L) m (sy_kernel (ended (pings (Z.of_nat n) s))).
Proof.
  intros Hk Hc Hu Hi Hm Hn Hmem Hr Hf.
  pose proof (user_allowed _ i SYSCALL_USER_PING Hi ltac:(done)) as Ha. rewrite bool_decide_eq_true_2 in Ha by (by apply user_ping_call).
  destruct (exit_current_ends (pings (Z.of_nat n) s) Hk Hc) as [E Hex]. split; [|exact Hex].
  rewrite (run_pings n); [|done|done|done| |rewrite Hr; done|rewrite Hr; unfold PROCESS_USER_CODE_VADDR; lia|lia].
  - unfold usermode_exit. erewrite bind_done by reflexivity. rewrite (proj2 (Nat.eqb_neq _ _)) by exact Hc.
    by rewrite (bind_done _ _ _ _ _ E).
  - intros j b Hj. pose proof (lookup_lt_Some _ _ _ Hj) as Hlt. rewrite length_app, program_length in Hlt.
    cbn [length exit_bytes] in Hlt. rewrite Hr, (fetch_mapped s cf) by (done || lia). f_equal. by apply Hmem.
Qed.

(** The number of pings of the program emitted for [count]. *)
Definition ping_times (count : Z) : nat := Z.to_nat (Z.max 1 (Z.min count 32)).

(** Whatever count [process_emit_ping_program] is called with, its program makes at least 1 and at most 32 pings. *)
Theorem emitted_program_runs count m cf fuel r s i :
  kernel_ok (sy_kernel s) -> current s <> 0%nat -> is_u32 (user_ping_count (sy_machine s)) ->
  user_runs (sy_kernel s) i -> code_mapped s cf -> 0 <= count ->
  same_frame cf (snd (process_emit_ping_program m cf count)) (pg_mem (sy_pages s)) ->
  eip r = PROCESS_USER_CODE_VADDR -> (64 < fuel)%nat ->
  run_user L fuel r s = (Done tt, ended (pings (Z.of_nat (ping_times count)) s)).
Proof.
  intros Hk Hc Hu Hi Hm Hcount Hmem Hr Hf. assert (Hn : (ping_times count <= 32)%nat) by (unfold ping_times; lia).
  apply (program_runs (ping_times count) cf fuel r s i); [done..| |done|lia]. intros j b Hj.
  pose proof (lookup_lt_Some _ _ _ Hj) as Hlt. rewrite length_app, program_length in Hlt. cbn [length exit_bytes] in Hlt.
  rewrite Hmem by lia. unfold process_emit_ping_program. cbv zeta. cbn [snd].
  replace (Z.to_nat (if 32 <? (if count =? 0 then 1 else count) then 32 else (if count =? 0 then 1 else count))) with (ping_times count).
  - apply write_code_rd; [apply program_bytes|done].
  - unfold ping_times. destruct (Z.eqb_spec count 0) as [->|]; [done|]. destruct (Z.ltb_spec 32 count); f_equal; lia.
Qed.

(** C17. A built-in program, from its creation to its end. Build a user image for a program number with no image file:
    then any user task that runs with the new directory active, on the memory the build left, and starts at the
    entry point, executes in user mode exactly the pings of that program (0, 8 or 2), each counted once modulo
    2^32, and ends: its slot becomes a zombie and the next runnable task runs; nothing else of the machine changes.
    17 instructions are enough. *)
Theorem built_program_runs cr3 prog name k cf sf e k' fuel r s i :
  can_build cr3 k -> no_image name k -> process_build_user_image cr3 prog name k = (Some (cf, sf, e), k') ->
  kernel_ok (sy_kernel s) -> current s <> 0%nat -> user_runs (sy_kernel s) i -> is_u32 (user_ping_count (sy_machine s)) ->
  paging_is_enabled (sy_pages s) = true -> paging_active_directory (sy_pages s) = cr3 -> pg_mem (sy_pages s) = pg_mem (k_pages k') ->
  eip r = e -> (16 < fuel)%nat ->
  run_user L fuel r s = (Done tt, ended (pings (Z.of_nat (builtin_pings prog)) s)) /\
  exists n, left_for (sy_kernel s) TASK_ZOMBIE (at_switch_sp L) n (sy_kernel (ended (pings (Z.of_nat (builtin_pings prog)) s))).
Proof.
  intros Hcb Hno Hb Hk Hc Hi Hu He HD Hmem Hr Hf. pose proof (build_space cr3 prog name k cf sf e k' Hcb Hb) as HB.
  destruct (bu_program _ _ _ _ _ _ _ _ HB Hno) as [-> Hcode]. destruct (bu_frames _ _ _ _ _ _ _ _ HB) as (Hcf & Ha & _).
  assert (Hn : (builtin_pings prog <= 8)%nat) by (unfold builtin_pings; repeat case_match; lia).
  apply (program_runs (builtin_pings prog) cf fuel r s i); [done..| |lia| |done|lia].
  - split; [done|unfold active_user; rewrite HD, Hmem; apply (bu_user _ _ _ _ _ _ _ _ HB)|].
    rewrite translate_eq, HD, Hmem, (bu_code _ _ _ _ _ _ _ _ HB) by done. cbn [fmap option_fmap option_map].
    destruct (pte_for_spec cf USER_FLAGS) as (_ & _ & ->); [done|done|]. by rewrite Z.add_0_r.
  - intros j b Hj. rewrite Hmem. by apply Hcode.
Qed.

(** The test of [usermode_prepare] makes one ping; its second [int $0x80] has the
    result of the ping, not the number of a ping, in eax. *)
Lemma usertest_calls n r s :
  kernel_ok (sy_kernel s) -> process_syscall_allowed SYSCALL_USER_PING (sy_kernel s) = true ->
  code_at s (eip r) test_code -> 0 <= eip r -> eip r + 13 <= 4294967296 ->
  exists r', run_user L (S (S (S n))) r s =
      (x ← user_int80 L r'; match (x : option Z) with
                            | Some x => run_user L n (jump (set_eax r' x) (eip r' + 2))
                            | None => mret tt
                            end) (pings 1 s) /\
    eax r' = u32 (user_ping_count (sy_machine s) + 1) /\ ebx r' = ebx r /\ ecx r' = ecx r /\ edx r' = edx r.
Proof.
  intros Hk Ha Hc Hv Hl. change test_code with (ping_bytes ++ [205; 128; 205; 129; 235; 254]) in Hc.
  destruct (run_ping (S n) r s [205; 128; 205; 129; 235; 254]) as (r' & -> & Hr' & Hregs); [done|done|done|done|cbn; lia|cbn; lia|].
  exists r'. split; [|exact Hregs]. apply code_at_app in Hc as [_ Hc]. change (Z.of_nat (length ping_bytes)) with 7 in Hc. rewrite <- Hr' in Hc.
  cbn [run_user]. erewrite bind_done by reflexivity.
  rewrite (fetch_insn_code (pings 1 s) (eip r') 205 [128; 205; 129; 235; 254]); [done|exact Hc|cbn; lia|lia|cbn; lia].
Qed.

End Faults.

(** ** The main task runs again *)

Section Turns.
Context (L : layout) (fuel : nat).

Definition runnable (s : system) (j : nat) : Prop := state_at (tasks (sy_sched s)) j = TASK_RUNNABLE.

(** A task that executes kernel code: suspended in its loop, or about to start one of
    the kernel's task functions. *)
Definition kernel_task (s : system) (j : nat) : Prop :=
  is_Some (sy_conts s !! j) \/
  let e := tk_entry (task_at (tasks (sy_sched s)) j) in
  e = 0 \/ (e <> at_user_task_entry L /\ (e = at_demo_task L \/ e = at_app_counter L \/ e = at_app_writer L)).

(** The current task has run and left the processor. *)
Record turn (s s' : system) : Prop := {
  tn_ok : kernel_ok (sy_kernel s');
  tn_next : current s' = 0%nat \/ (current s < current s')%nat;
  tn_run : runnable s (current s');
  tn_task : forall j, (current s < j < MAX_TASKS)%nat -> kernel_task s j -> kernel_task s' j;
  tn_state : forall j, (current s < j < MAX_TASKS)%nat -> j <> current s' -> runnable s' j -> runnable s j;
}.

Lemma switch_turn s s' st sp n :
  kernel_ok (sy_kernel s) -> current s <> 0%nat -> left_for (sy_kernel s) st sp n (sy_kernel s') ->
  (forall j, j <> current s -> sy_conts s' !! j = sy_conts s !! j) -> turn s s'.
Proof.
  intros Hk Hc (Hf & Hne & Hn & Hk' & Hcur & Ht & _) Hconts. pose proof (ko_states _ Hk) as Hs. fold (current s) in *.
  assert (Hl : length (tasks (sy_sched s)) = MAX_TASKS) by apply Hs.
  assert (Hcl : (current s < MAX_TASKS)%nat) by apply Hs.
  destruct (switched_facts (current s) n st sp (tasks (sy_sched s))) as (_ & _ & _ & _ & Hi); [lia|lia|done|].
  assert (Hcn : current s' = n) by exact Hcur.
  assert (Hts : tasks (sy_sched s') = switched (current s) n st sp (tasks (sy_sched s))) by exact Ht. clear Ht Hcur. split.
  - done.
  - rewrite Hcn. by apply (successor (sy_sched s)).
  - rewrite Hcn. by destruct Hf as (i & _ & -> & Hr & _).
  - intros j Hj [Hco|He]; [left; rewrite Hconts by lia; done|]. right. rewrite Hts.
    destruct (switched_entry (current s) n st sp (tasks (sy_sched s)) j) as [-> _]; [lia|lia|lia|exact He].
  - intros j Hj Hjn. unfold runnable. rewrite Hts. destruct (Hi j) as (_ & _ & Hst); [lia|].
    by rewrite Hst, decide_False, decide_False by (lia || congruence).
Qed.

(** What a task does before it leaves does not matter. *)
Lemma turn_before s s1 s' :
  tasks (sy_sched s1) = tasks (sy_sched s) -> current s1 = current s -> sy_conts s1 = sy_conts s -> turn s1 s' -> turn s s'.
Proof.
  intros Ht Hc Hco []. split; [done|by rewrite <- Hc|unfold runnable in *; by rewrite <- Ht| |].
  - intros j Hj Hk. apply tn_task0; [by rewrite Hc|]. unfold kernel_task in *. by rewrite Hco, Ht.
  - intros j Hj. unfold runnable in *. rewrite <- Ht. apply tn_state0. by rewrite Hc.
Qed.

Definition takes_turn (m : M unit) : Prop :=
  forall s, kernel_ok (sy_kernel s) -> current s <> 0%nat -> exists s', m s = (Done tt, s') /\ turn s s'.

Lemma suspend_turn c : takes_turn (suspend L c).
Proof.
  intros s Hk Hc. unfold suspend. erewrite bind_done by reflexivity. set (s1 := set_conts _ _).
  eexists. split; [reflexivity|]. destruct (k_yield_cases (at_switch_sp L) (sy_kernel s1) Hk) as [(_ & Hz & _)|(n & Hn)]; [done|].
  apply (switch_turn s _ TASK_RUNNABLE (at_switch_sp L) n); [done|done|exact Hn|].
  intros j Hj. change (sy_conts (set_kernel s1 _)) with (<[current s := c]> (sy_conts s)). by rewrite lookup_insert_ne.
Qed.

Lemma exit_turn : takes_turn (task_exit L).
Proof.
  intros s Hk Hc. destruct (exit_current_ends L s Hk Hc) as (E & n & Hn). unfold task_exit. rewrite (bind_done _ _ _ _ _ E).
  eexists. split; [reflexivity|]. apply (switch_turn s _ TASK_ZOMBIE (at_switch_sp L) n); [done|done|exact Hn|].
  intros j Hj. cbn. by rewrite lookup_delete_ne.
Qed.

Lemma log_turn os m : takes_turn m -> takes_turn (log os;; m).
Proof.
  intros Hm s Hk Hc. unfold log. erewrite bind_done by reflexivity. set (s1 := set_serial s _).
  destruct (Hm s1 Hk Hc) as (s' & E & Ht). exists s'. split; [done|]. by apply (turn_before s s1).
Qed.

Lemma gets_turn {X : Type} (f : system -> X) (m : X -> M unit) : (forall x, takes_turn (m x)) -> takes_turn (x ← gets f; m x).
Proof. intros Hm s. apply Hm. Qed.

Lemma write_turn name data m : takes_turn m -> takes_turn (modify_kernel (k_write_file name data);; m).
Proof.
  intros Hm s Hk Hc. unfold modify_kernel. erewrite bind_done by reflexivity. set (s1 := set_kernel s _).
  destruct (Hm s1) as (s' & E & Ht); [by apply vfs_kernel_ok|done|]. exists s'. split; [done|]. by apply (turn_before s s1).
Qed.

Lemma demo_turn id i : takes_turn (demo_task L id i).
Proof. unfold demo_task. case_match; [apply log_turn, suspend_turn|apply exit_turn]. Qed.

Lemma counter_turn tag i : takes_turn (app_counter L tag i).
Proof. unfold app_counter. case_match; [|apply exit_turn]. apply gets_turn. intros x. apply log_turn, suspend_turn. Qed.

Lemma writer_turn i : takes_turn (app_writer L i).
Proof. unfold app_writer. case_match; [apply write_turn, suspend_turn|apply exit_turn]. Qed.

Lemma slice_turn s :
  kernel_ok (sy_kernel s) -> current s <> 0%nat -> kernel_task s (current s) -> exists s', slice L fuel s = (Done tt, s') /\ turn s s'.
Proof.
  intros Hk Hc Ht. unfold slice. erewrite bind_done by reflexivity.
  destruct (sy_conts s !! current s) as [[id i|tag i|i]|] eqn:Eco; [by apply demo_turn|by apply counter_turn|by apply writer_turn|].
  destruct Ht as [[c Ht]|Ht]; [by rewrite Eco in Ht|]. unfold scheduler_task_bootstrap. erewrite bind_done by reflexivity.
  set (t := task_at _ _) in *. destruct (Z.eqb_spec (tk_entry t) 0) as [|H0]; [by apply exit_turn|].
  destruct Ht as [|[Hu He]]; [done|]. rewrite (proj2 (Z.eqb_neq _ _) Hu).
  destruct (Z.eqb_spec (tk_entry t) (at_demo_task L)); [by apply demo_turn|].
  destruct (Z.eqb_spec (tk_entry t) (at_app_counter L)); [by apply counter_turn|].
  destruct (Z.eqb_spec (tk_entry t) (at_app_writer L)); [by apply writer_turn|]. exfalso. tauto.
Qed.

(** Every turn comes closer to the end of the table, after which the main task is next. *)
Lemma resume_returns n : forall s,
  kernel_ok (sy_kernel s) -> (0 < n)%nat ->
  (current s <> 0%nat -> kernel_task s (current s) /\
     (forall j, (current s < j < MAX_TASKS)%nat -> runnable s j -> kernel_task s j) /\ MAX_TASKS - current s < n)%nat ->
  exists s', resume L fuel n s = (Done tt, s') /\ current s' = 0%nat /\ kernel_ok (sy_kernel s').
Proof.
  induction n as [|n IH]; intros s Hk Hpos Hs; [lia|]. cbn [resume]. erewrite bind_done by reflexivity.
  destruct (Nat.eqb_spec (current s) 0) as [Hz|Hz]; [by exists s|]. destruct (Hs Hz) as (Hc & Hj & Hn).
  destruct (slice_turn s Hk Hz Hc) as (s1 & E & [Hk1 Hnext Hrun Htask Hstate]). rewrite (bind_done _ _ _ _ _ E).
  assert (Hb : (current s < MAX_TASKS)%nat) by apply (st_current _ (ko_states _ Hk)).
  assert (Hb1 : (current s1 < MAX_TASKS)%nat) by apply (st_current _ (ko_states _ Hk1)).
  apply IH; [done|lia|]. intros Hz1. destruct Hnext as [|Hgt]; [done|]. split_and!; [| |lia].
  - apply Htask; [lia|]. apply Hj; [lia|done].
  - intros j Hj1 Hr. apply Htask; [lia|]. apply Hj; [lia|]. apply Hstate; [lia|lia|done].
Qed.

(** C16. The main task always runs again. While every other runnable task executes the kernel's own task functions
    (the demo tasks and the built-in programs, at any point of their loops), [scheduler_yield] in the main task
    returns: the others run one after the other, none keeps the processor, and after at most 16 turns the main
    task is current again, with tasks and processes in order. *)
Theorem yield_returns s :
  kernel_ok (sy_kernel s) -> current s = 0%nat -> (forall j, (0 < j < MAX_TASKS)%nat -> runnable s j -> kernel_task s j) ->
  (MAX_TASKS < fuel)%nat ->
  exists s', yield L fuel s = (Done tt, s') /\ current s' = 0%nat /\ kernel_ok (sy_kernel s').
Proof.
  intros Hk Hc Hj Hf. unfold yield, modify_kernel. erewrite bind_done by reflexivity. set (s1 := set_kernel s _).
  destruct (k_yield_cases (at_switch_sp L) (sy_kernel s) Hk) as [(_ & _ & Hy)|(n & Hfirst & Hne & Hn & Hk1 & Hcur & Ht & _)].
  - apply resume_returns; [change (kernel_ok (k_yield (at_switch_sp L) (sy_kernel s))); by rewrite Hy|lia|]. intros Hz. exfalso. apply Hz.
    change (current_task (k_sched (k_yield (at_switch_sp L) (sy_kernel s))) = 0%nat). by rewrite Hy.
  - assert (Hc1 : current s1 = n) by exact Hcur.
    assert (Hts : tasks (sy_sched s1) = switched 0 n TASK_RUNNABLE (at_switch_sp L) (tasks (sy_sched s))) by (rewrite <- Hc; exact Ht).
    assert (Hl : length (tasks (sy_sched s)) = MAX_TASKS) by apply (ko_states _ Hk).
    assert (Hn0 : n <> 0%nat) by (intros ->; apply Hne; symmetry; exact Hc).
    assert (Hkeep : forall j, (0 < j < MAX_TASKS)%nat -> kernel_task s j -> kernel_task s1 j).
    { intros j Hj0 [Hco|He]; [by left|]. right. rewrite Hts. unfold MAX_TASKS in *.
      destruct (switched_entry 0 n TASK_RUNNABLE (at_switch_sp L) (tasks (sy_sched s)) j) as [-> _]; [lia|lia|lia|exact He]. }
    destruct (switched_facts 0 n TASK_RUNNABLE (at_switch_sp L) (tasks (sy_sched s))) as (_ & _ & _ & _ & Hi); [unfold MAX_TASKS in *; lia..|].
    apply resume_returns; [exact Hk1|lia|]. rewrite Hc1. intros _. split_and!; [| |unfold MAX_TASKS in *; lia].
    + apply Hkeep; [lia|]. apply Hj; [lia|]. by destruct Hfirst as (i & _ & -> & Hr & _).
    + intros j Hj1 Hr. apply Hkeep; [lia|]. apply Hj; [lia|]. unfold runnable in *. rewrite Hts in Hr.
      destruct (Hi j) as (_ & _ & Hst); [lia|]. rewrite Hst, decide_False, decide_False in Hr by lia. done.
Qed.

End Turns.

(** ** Witnesses *)

(** Task 1 is a user process whose code page, at the frame 12288, holds the program with
    two pings; or it is a demo task, and the main task runs. *)
Definition user_mem : mem := snd (process_emit_ping_program (wr32 (wr32 ∅ (4096 + 4 * 256) (8192 + 7)) 8192 (12288 + 7)) 12288 2).
Definition two_tasks (st0 st1 : task_state_t) (entry : Z) : list task_t :=
  idle_task st0 :: Task 0 0 entry 1 st1 (replicate 16 0) :: replicate 14 (idle_task TASK_UNUSED).
Definition two_kernel (st0 st1 : task_state_t) (entry : Z) (cur : nat) : kernel pmm_state :=
  Kernel (Sched (Kheap (Paging demo_frames user_mem 4096 true 4096 4096 4096 0) ∅ KHEAP_START KHEAP_START 0 0 true) 0
            (two_tasks st0 st1 entry) true cur 0 false)
         [] true (demo_proc 1 0 true :: demo_user_proc :: replicate 30 (demo_proc 0 0 false)) 3 true.
Definition two_system (st0 st1 : task_state_t) (entry : Z) (cur : nat) : system :=
  set_kernel fresh_system (two_kernel st0 st1 entry cur).

Lemma two_table_ok : table_ok (demo_proc 1 0 true :: demo_user_proc :: replicate 30 (demo_proc 0 0 false)) 3.
Proof.
  set (T := _ :: _).
  assert (Hact : forall i, (i < PROCESS_MAX)%nat -> pe_active (proc_at T i) = true -> i = 0%nat \/ i = 1%nat).
  { unfold PROCESS_MAX. intros i Hi. do 32 (destruct i as [|i]; [by auto|]). lia. }
  split.
  - reflexivity.
  - unfold is_u32. lia.
  - by split_and!.
  - intros i j Hi Hj Hai Haj. apply Hact in Hai as [->| ->], Haj as [->| ->]; done.
  - intros i Hi Ha. apply Hact in Ha as [->| ->]; [| |done]; cbn; unfold MAX_TASKS; (split_and!; [lia|lia|done|lia|]); [done|].
    intros _. unfold user_space, PROCESS_USER_CODE_VADDR, PROCESS_USER_CODE_SIZE. cbn. unfold PROCESS_USER_CODE_VADDR. lia.
  - unfold PROCESS_MAX. intros i Hi. do 32 (destruct i as [|i]; [done|]). lia.
Qed.

Lemma two_kernel_ok st0 st1 entry cur :
  (st0 = TASK_RUNNABLE /\ st1 = TASK_RUNNING /\ cur = 1%nat) \/ (st0 = TASK_RUNNING /\ st1 = TASK_RUNNABLE /\ cur = 0%nat) ->
  kernel_ok (two_kernel st0 st1 entry cur).
Proof.
  intros Hst. split; [exact two_table_ok| |reflexivity].
  assert (Hat : forall i, state_at (two_tasks st0 st1 entry) (S (S i)) = TASK_UNUSED) by (do 14 (intros [|i]; [done|]; revert i); done).
  split; cbn [k_sched two_kernel scheduler_started tasks current_task].
  - reflexivity.
  - reflexivity.
  - unfold MAX_TASKS. destruct Hst as [(_ & _ & ->)|(_ & _ & ->)]; lia.
  - intros i Hi. destruct Hst as [(-> & -> & ->)|(-> & -> & ->)]; destruct i as [|[|i]]; rewrite ?Hat; split; done.
  - destruct Hst as [(-> & _)|(-> & _)]; auto.
Qed.

Lemma page_fault_contained_witness :
  exists s' n, paging_handle_page_fault demo_layout 6 4660 (two_system TASK_RUNNABLE TASK_RUNNING 0 1) = (Done tt, s') /\
    current s' = n /\ sy_conts s' = delete 1%nat ∅.
Proof.
  destruct (page_fault_contained demo_layout 6 4660 (two_system TASK_RUNNABLE TASK_RUNNING 0 1)
              (two_kernel_ok TASK_RUNNABLE TASK_RUNNING 0 1 (or_introl (conj eq_refl (conj eq_refl eq_refl))))) as (s' & n & E & _ & Hc & _ & _ & _ & _ & Hd).
  exists s', n. split; [exact E|]. split; [exact Hc|exact Hd].
Defined.

Lemma emitted_program_runs_witness :
  exists s', run_user demo_layout 65 (Regs 0 0 0 0 PROCESS_USER_CODE_VADDR) (two_system TASK_RUNNABLE TASK_RUNNING 0 1) = (Done tt, s') /\
    user_ping_count (sy_machine s') = 2.
Proof.
  eexists. split.
  1: apply (emitted_program_runs demo_layout 2 (wr32 (wr32 ∅ (4096 + 4 * 256) (8192 + 7)) 8192 (12288 + 7)) 12288 65 (Regs 0 0 0 0 PROCESS_USER_CODE_VADDR)
              (two_system TASK_RUNNABLE TASK_RUNNING 0 1) 1).
  - exact (two_kernel_ok TASK_RUNNABLE TASK_RUNNING 0 1 (or_introl (conj eq_refl (conj eq_refl eq_refl)))).
  - discriminate.
  - unfold is_u32. cbn. lia.
  - split; reflexivity.
  - split; [reflexivity|split; reflexivity|reflexivity].
  - lia.
  - intros a _. reflexivity.
  - reflexivity.
  - lia.
  - reflexivity.
Defined.

(** An empty directory at 8192 to build the program 3 in, which has two pings, and the
    user task on the memory and in the directory that the build leaves. *)
Definition build_kernel : kernel pmm_state :=
  set_k_pages (two_kernel TASK_RUNNABLE TASK_RUNNING 0 1) (Paging demo_frames ∅ 4096 true 4096 4096 4096 0).
Definition built_system (m : mem) : system :=
  set_kernel fresh_system (set_k_pages (two_kernel TASK_RUNNABLE TASK_RUNNING 0 1) (Paging demo_frames m 4096 true 4096 8192 8192 0)).

Lemma build_kernel_ok : can_build 8192 build_kernel.
Proof.
  destruct demo_frames_ok as (Hok & _ & _ & _ & Hfree).
  split; [reflexivity|exact Hok| |split; [discriminate|reflexivity]|unfold is_u32; cbn; unfold KHEAP_START; lia].
  split; [reflexivity|lia| | |].
  - intros Hf. apply Hfree in Hf. lia.
  - intros i Hi Hp. discriminate Hp.
  - intros i j Hi Hj Hij Hp. discriminate Hp.
Qed.

Lemma built_program_runs_witness :
  exists e m s', run_user demo_layout 17 (Regs 0 0 0 0 e) (built_system m) = (Done tt, s') /\ user_ping_count (sy_machine s') = 2.
Proof.
  destruct demo_frames_ok as (_ & Hinit & _ & Hav & _).
  assert (Hno : no_image None build_kernel) by (intros n [=]).
  destruct (build_succeeds 8192 3 None build_kernel build_kernel_ok Hno Hinit) as [[[cf sf] e] E].
  { change (3 <= pmm_avail demo_frames). rewrite Hav. lia. }
  destruct (process_build_user_image 8192 3 None build_kernel) as [r k'] eqn:Eb. cbn [fst] in E. subst r.
  exists e, (pg_mem (k_pages k')).
  destruct (built_program_runs demo_layout 8192 3 None build_kernel cf sf e k' 17 (Regs 0 0 0 0 e) (built_system (pg_mem (k_pages k'))) 1
              build_kernel_ok Hno Eb) as [R _].
  - apply pages_kernel_ok. exact (two_kernel_ok TASK_RUNNABLE TASK_RUNNING 0 1 (or_introl (conj eq_refl (conj eq_refl eq_refl)))).
  - discriminate.
  - split; reflexivity.
  - unfold is_u32. cbn. lia.
  - reflexivity.
  - reflexivity.
  - reflexivity.
  - reflexivity.
  - lia.
  - eexists. split; [exact R|]. reflexivity.
Defined.

Lemma yield_returns_witness :
  exists s', yield demo_layout 17 (two_system TASK_RUNNING TASK_RUNNABLE (at_demo_task demo_layout) 0) = (Done tt, s') /\ current s' = 0%nat.
Proof.
  destruct (yield_returns demo_layout 17 (two_system TASK_RUNNING TASK_RUNNABLE (at_demo_task demo_layout) 0)) as (s' & E & Hc & _).
  - exact (two_kernel_ok TASK_RUNNING TASK_RUNNABLE (at_demo_task demo_layout) 0 (or_intror (conj eq_refl (conj eq_refl eq_refl)))).
  - reflexivity.
  - intros j Hj Hr. right. right. destruct j as [|[|j]]; [lia|split; [discriminate|left; reflexivity]|].
    exfalso. unfold runnable, MAX_TASKS in *. do 14 (destruct j as [|j]; [discriminate Hr|]). lia.
  - unfold MAX_TASKS. lia.
  - exists s'. split; [exact E|exact Hc].
Defined.
